(* ===== verification/_CoqProject ===== *)
-Q . S2P
Prelude.v
GoStr.v
Strconv.v
Utf8.v
Json.v
Target.v
Schema.v
Offsets.v
CTypes.v
Bpf.v
Recon.v
Wire.v
EnvProbe.v
Smoke.v
Helpers.v
Concurrent.v
EnvRace.v
Schedules.v
EnvOverlap.v
Env.v
EnvSession.v
FloatFmt.v
Filters.v
Main.v
Decode.v
FloatRead.v
CallArgs.v
Modules.v
MapsFile.v
Output.v
Trace.v
Signatures.v
Pairing.v
Learning.v
Attach.v
Liveness.v
Startup.v
CallTree.v
Session.v
Goroutines.v
Modes.v
Layout.v
Records.v
KBase.v
KUapi.v
KRegs.v
KPerf.v
KTrace.v
KBpf.v
KVerifier.v
KTask.v
KFile.v
KVm.v
KProbe.v
KSched.v
Kernel.v
Abi.v
KEnums.v
MapDefs.v
Jvm.v
FixtureVm.v
JniFull.v
