(* ===== verification/Prelude.v ===== *)
(** * jniprobe: a verification development

    jniprobe traces the JNI calls of an Android process.  BPF programs
    (src/bpf) run at every JNI function's entry and at the return of some of
    them; they send events through a ring buffer to a Go loader (src/loader),
    which pairs entries with returns, decodes arguments and prints lines.

    ** Files

    - Prelude: machine words ([wrap], [swrap]), little-endian bytes, tactics.
    - GoStr, Strconv, Utf8, Json, FloatFmt: the parts of Go's strings,
      strconv, unicode/utf8, encoding/json and fmt that the loader calls,
      executable, with the lemmas the components use.
    - CTypes: C structure layout, packed Go layout, stores and loads.
    - Bpf: the kernel as interfaces.  [BpfMap] (lookup, update), [UserMem]
      (probe reads) and [PtRegs] (argument registers) are classes with laws;
      each has a concrete instance for the examples.
    - Recon (bpf/recon.bpf.c): [up_all] and [up_ret] as functions from the
      maps and what a hit finds to the maps and the submitted event.  The
      reserved record's old contents are part of a hit.  [spec_step] is the
      abstract machine: a stack of open calls per thread.
    - Wire: the records as bytes: struct evt_t against reconEvt, struct
      dump_t against envDump, [read_evt] is binary.Read.
    - Helpers: BPF programs as trees of helper calls, the threads that
      interleave them, and the ring buffer, whose records reach the reader in
      the order of their reservations.  Concurrent: [up_all] and [up_ret] in
      that form; EnvRace: the programs of bpf/envprobe.bpf.c; Schedules: what
      the verifier asks of such programs, and that every schedule of them
      comes to its end; EnvOverlap: two hits of the env probe at once.
    - EnvProbe (bpf/envprobe.bpf.c), Smoke (bpf/smoke.bpf.c), Env
      (loader/env.go); EnvSession: [jniprobe env] from the concurrent probes
      to the file the tracer loads.
    - Target (loader/target.go), Schema (loader/schema.go and the generated
      tables), Offsets (loader/offsets.go), Filters (loader/filters.go and
      applyCommand), Main (loader/main.go and the start of runProbe).
    - Decode (loader/decode.go); FloatRead: a reader for the numbers it prints;
      CallArgs: the snapshot taken in the kernel
      against what the loader prints for it; Modules, Output: the module map
      and the printing functions of loader/trace.go; MapsFile: the maps file
      as the kernel prints it, and what the module map answers from it.
    - Trace (loader/trace.go): [configure] is the set-up of the maps ([None]
      when the base cannot be stored, which ends the process),
      [loop_event] one iteration of the event loop, [handleReturn] the return
      half, [loop_step] the interleaving with reloads and commands.
    - Signatures, Learning: the parsers against the descriptor syntax, and the
      path of a method from GetMethodID to the text of its calls.
    - Pairing: both halves composed.  A state is the kernel's maps, the
      loader's state and, as ghost state, the entry events of the open calls
      per thread; steps are delivered hits, reloads and commands.
    - Liveness: returns are never stuck and drain a thread's frames; what a
      full depth map does.
    - Attach: the probes requested, the links kept and closed, the line that
      reports them.
    - Startup: [configure] establishes what Pairing assumes.  CallTree: the
      lines printed for the entry and the return of a call.
    - Session: [runProbe] as a whole, from the options to the last line, and
      the loader behind the ring buffer of the interleaved threads.
    - Goroutines: the loader's goroutines one critical section at a time.  The
      handling of an event is a tree of its accesses to the filters, the
      module cache, the counts and the output ([event_handler]); reloads and
      commands come between any two of them ([gstep]).  [stats] takes two
      moves, for it reads the counts without a lock: a count written in
      between is a data race, which the state remembers ([g_raced]) and after
      which the answer is anything.  Undisturbed, it is
      [loop_event] of Trace.  Modes: the plain, JSON and aggregate modes run
      side by side.
    - Layout: C declarations as data with the layout of the BPF target
      (bit-fields, anonymous members), and members reached by a path.  The K
      files are the declarations of vmlinux.h on the tracer's path, with
      everything they contain by value: KBase (integers, locks, lists), KUapi
      (the bpf and perf system interfaces), KRegs (registers), KPerf, KTrace
      (uprobes), KBpf (programs, maps, ring buffer), KVerifier, KTask, KFile,
      KVm (pages and faults), KProbe (kprobes, trace events), KSched (what a
      task points to), KEnums (enumerations).  Records are named struct_tag, union_tag, typedefs
      as they are, except bool which is [c_bool].  Kernel: all of them, and the
      trap frame behind the [PT_REGS] macros.
    - Records: loads and stores of members, bit-fields included, and which
      paths share no storage.
    - MapDefs: every BPF map declaration with every operation on it, and what
      the kernel asks of both.  Abi: the records that cross the system calls
      against the layout user space is compiled for.
    - Jvm, FixtureVm, JniFull (test/jni_fulltest): the native test library as
      trees of effects over an abstract Java VM, a counting logic for such
      trees, and a small VM with the test's Java classes for the witnesses.

    ** How the code is modelled

    A C function is a Gallina function; a Go map is a [gmap] and each [range]
    over one takes the visiting order as an argument, so that results are
    proved for every order.  Fallible functions return sums or options; a
    line printed is a value returned.  uint and int values are [Z] with the
    wrap-around written out.  Files, clocks, the target's memory and the
    kernel's answers are arguments.  Compiled regular expressions and the
    sorting function are classes.

    A probe hit is one step in Recon, EnvProbe and Pairing.  Concurrent and
    Session drop that: there a step is one helper call of one thread.  What a
    hit finds in its registers and in the memory of the target is an argument
    of the hit, so the target changes no argument while a program runs.

    Likewise for the loader: in Trace, Pairing and Session an event, a reload
    and a command are one step each; in Goroutines a step is one critical
    section (or one access to the counts, or one line printed).

    ** What is proved

    - Pairing of returns with entries over every run without lost events
      (Recon.depth_is_stack_height, Pairing.return_finds_its_call,
      Pairing.return_of_unseen_call), and what happens when an entry is lost
      (Recon.lost_entry_shifts_returns).
    - What the reader sees of it: the line of a return repeats the text and the
      indentation of its entry and shows the time between the hits
      (CallTree.return_mirrors_entry).
    - The same for the system as it runs: the interleaved programs refine the
      programs taken one at a time (Concurrent.concurrent_run_refines), and a
      loader any distance behind the ring buffer holds exactly the calls open
      at the event it has read (Session.session_frames), also when its own
      goroutines interleave (Goroutines.session_goroutines).  The programs of
      bpf/envprobe.bpf.c have no such refinement: one hit after the other, a
      process is probed by its first hit (EnvProbe.env_probed_once), but any
      two hits of it can overlap so that both probe it
      (EnvOverlap.env_probe_races).
    - The goroutines: what is learned and which calls are open
      depend on the samples alone (Goroutines.timing_unobserved); a command
      that arrives during an event looks as if it had come before or after it,
      unless it is [stats] and races with a count
      (Goroutines.one_command_linearizes), which only --count makes possible
      (Goroutines.counts_race); two may not look so
      (Goroutines.two_commands_tear).  The output modes show the same lines
      (Modes.output_modes_agree).
    - No thread waits for another, schedules are finite and leave no record
      behind (Schedules.concurrent_run_completes).
    - From the env probe to the tracer: the offsets loaded are those of a
      function table in a target's memory (EnvSession.env_dump_end_to_end).
    - Numbers print as text that reads back to their value, floats included
      (FloatRead.numbers_read_back).
    - A session ends: by an error before its banner, by the command quit,
      or with its totals printed and its links closed (Session.runProbe_ends).
    - Uninitialised ring-buffer memory reaches no output, in any run
      (Pairing.uninitialised_memory_unused); records cross the ring buffer
      intact (Wire).
    - The printed arguments are the callee's (CallArgs), for the jvalue array,
      the AAPCS64 va_list and the registers x3 and x4; a method once learned
      is named in every later call (Learning.learned_method_described).
    - An address is named by the mapping the kernel lists for it
      (MapsFile.address_resolved).
    - The set-up, the table scan, the slot files, the options, the filters and
      the output modes do what they are for (Startup, Offsets, Env, Main,
      Filters, Output), with round trips where there are two directions.
    - Open calls are served and leave nothing behind (Liveness).
    - Kernel records: the two views of the registers agree
      (Kernel.pt_regs_views_agree); the records of the system calls have the
      frozen layout (Abi.uapi_layout); every operation on a map fits its
      declaration (MapDefs.map_accesses_fit).  Lemmas about all the
      records: reads through any path stay inside the record and are aligned, a
      store changes its own member and no other, members of
      enumeration type keep enumerators (Kernel, KEnums).
    - The test library: a run without failures has made 262 checks and called
      the whole function table but five entries (JniFull.runAll_zero); its
      array natives are correct on every VM that keeps the array rules.
    - Each parser is total and inverts the syntax it reads (Signatures).

    Fuel: [params_loop] gets one step per byte of the signature,
    [scan_range] one step per eight bytes of its range plus one; both are
    proved sufficient.  The number printers get one step per bit; the shortest
    form of a float tries up to 17 digits and eight decimal exponents, which
    FloatRead shows to be enough.  Schedules have no fuel: a hit makes at most
    eleven calls.

    ** Not modelled

    Colours and the bytes of the BPF objects; a signal or the timer is the end
    of the sequence of events; the kernel's answers to attach requests are
    arguments (Attach, Session, EnvSession); what the Go runtime does after a
    data race (the answer of the racing [stats] is arbitrary; it may end
    the process); the Java side of the test app
    beyond what FixtureVm has, and the build scripts.  Of vmlinux.h, the declarations the programs never meet:
    drivers, network, and the tags only pointed to. *)

From stdpp Require Export base tactics numbers option list strings gmap.
From Stdlib Require Export ZArith Lia Ascii.
From Stdlib Require String.
From Stdlib Require Import Zify.

#[export] Set Default Goal Selector "1".
#[export] Unset Default Proof Using.

Ltac Zify.zify_post_hook ::= Z.to_euclidean_division_equations.

Declare Scope jni_scope.
Delimit Scope jni_scope with jni.
#[global] Open Scope Z_scope.
#[global] Open Scope jni_scope.
#[global] Open Scope list_scope.

(** ** Machine words

    A w-bit unsigned integer is a [Z] in [0, 2^w); arithmetic wraps with
    [wrap].  A signed one is the two's-complement reading of its bits. *)

Definition wrap (w x : Z) : Z := x mod 2 ^ w.

Definition swrap (w x : Z) : Z :=
  let y := x mod 2 ^ w in if y <? 2 ^ (w - 1) then y else y - 2 ^ w.

Abbreviation u8 := (wrap 8).
Abbreviation u16 := (wrap 16).
Abbreviation u32 := (wrap 32).
Abbreviation u64 := (wrap 64).
Abbreviation s8 := (swrap 8).
Abbreviation s16 := (swrap 16).
Abbreviation s32 := (swrap 32).
Abbreviation s64 := (swrap 64).

Definition fits (w x : Z) : Prop := 0 <= x < 2 ^ w.

(** [word_lia] unfolds the wraps at the widths the code uses and calls [lia]. *)
Ltac word_unfold :=
  unfold fits, wrap, swrap in *;
  repeat match goal with
    | |- context [2 ^ ?n] => let v := eval vm_compute in (2 ^ n) in change (2 ^ n) with v
    | H : context [2 ^ ?n] |- _ => let v := eval vm_compute in (2 ^ n) in change (2 ^ n) with v in H
    end;
  cbn [Z.sub Z.add Z.opp Z.pos_sub Pos.sub] in *.
Ltac split_ltb :=
  repeat match goal with
    | |- context [?a <? ?b] => destruct (Z.ltb_spec a b)
    | H : context [?a <? ?b] |- _ => destruct (Z.ltb_spec a b)
    end.
Ltac word_lia := word_unfold; split_ltb; lia.

Lemma wrap_range w x : 0 <= w -> 0 <= wrap w x < 2 ^ w.
Proof. intros Hw. apply Z.mod_pos_bound, Z.pow_pos_nonneg; lia. Qed.

Lemma wrap_small w x : fits w x -> wrap w x = x.
Proof. intros Hx. apply Z.mod_small, Hx. Qed.

Lemma wrap_wrap w x : 0 <= w -> wrap w (wrap w x) = wrap w x.
Proof. intros Hw. apply wrap_small, wrap_range, Hw. Qed.

Lemma wrap_add_l w x y : wrap w (wrap w x + y) = wrap w (x + y).
Proof. apply Zplus_mod_idemp_l. Qed.

Lemma wrap_add_r w x y : wrap w (x + wrap w y) = wrap w (x + y).
Proof. apply Zplus_mod_idemp_r. Qed.

Lemma wrap_sub_l w x y : wrap w (wrap w x - y) = wrap w (x - y).
Proof. apply Zminus_mod_idemp_l. Qed.

(** Subtracting a base and adding it back is the identity on words. *)
Lemma wrap_sub_add w x b : fits w x -> wrap w (wrap w (x - b) + b) = x.
Proof.
  intros Hx. rewrite wrap_add_l. replace (x - b + b) with x by lia. by apply wrap_small.
Qed.

Lemma wrap_sub_inj w x y b : fits w x -> fits w y -> wrap w (x - b) = wrap w (y - b) -> x = y.
Proof.
  intros Hx Hy E. rewrite <- (wrap_sub_add w x b Hx), <- (wrap_sub_add w y b Hy). by rewrite E.
Qed.

Lemma s32_inj x y : fits 32 x -> fits 32 y -> s32 x = s32 y -> x = y.
Proof. intros. word_lia. Qed.

Lemma s32_small x : 0 <= x < 2 ^ 31 -> s32 x = x.
Proof. intros. word_lia. Qed.

(** ** Bytes, little endian *)

Abbreviation byte := ascii.

Definition byte_val (b : byte) : Z := Z.of_N (N_of_ascii b).
Definition byte_of (x : Z) : byte := ascii_of_N (Z.to_N (u8 x)).

Lemma byte_val_range b : 0 <= byte_val b < 256.
Proof. unfold byte_val. pose proof (N_ascii_bounded b). lia. Qed.

Lemma byte_val_of x : byte_val (byte_of x) = u8 x.
Proof.
  unfold byte_val, byte_of. pose proof (wrap_range 8 x ltac:(lia)) as Hr.
  change (2 ^ 8) with 256 in Hr.
  rewrite N_ascii_embedding by lia. lia.
Qed.

Lemma byte_of_val b : byte_of (byte_val b) = b.
Proof.
  unfold byte_of. rewrite wrap_small by apply byte_val_range.
  unfold byte_val. rewrite N2Z.id. apply ascii_N_embedding.
Qed.

Fixpoint le_val (bs : list byte) : Z :=
  match bs with
  | [] => 0
  | b :: bs' => byte_val b + 256 * le_val bs'
  end.

Fixpoint le_bytes (n : nat) (x : Z) : list byte :=
  match n with
  | O => []
  | S n' => byte_of x :: le_bytes n' (x / 256)
  end.

Lemma length_le_bytes n x : length (le_bytes n x) = n.
Proof. revert x. induction n; intros; simpl; auto. Qed.

Lemma le_val_range bs : 0 <= le_val bs < 256 ^ Z.of_nat (length bs).
Proof.
  induction bs as [|b bs IH]; cbn [le_val length]; [lia|].
  pose proof (byte_val_range b). rewrite Nat2Z.inj_succ, Z.pow_succ_r by lia. nia.
Qed.

Lemma le_val_le_bytes n x : le_val (le_bytes n x) = x mod 256 ^ Z.of_nat n.
Proof.
  revert x. induction n as [|n IH]; intros x; cbn [le_val le_bytes].
  - by rewrite Z.mod_1_r.
  - rewrite byte_val_of, IH. unfold wrap. change (2 ^ 8) with 256.
    rewrite Nat2Z.inj_succ, Z.pow_succ_r by lia.
    rewrite Z.rem_mul_r; [|lia|apply Z.pow_pos_nonneg; lia]. lia.
Qed.

Lemma le_bytes_le_val bs : le_bytes (length bs) (le_val bs) = bs.
Proof.
  induction bs as [|b bs IH]; cbn [le_val le_bytes length]; [done|].
  pose proof (byte_val_range b) as Hb. f_equal.
  - transitivity (byte_of (byte_val b)); [|apply byte_of_val]. unfold byte_of.
    replace (u8 (byte_val b + 256 * le_val bs)) with (u8 (byte_val b)); [done|].
    unfold wrap. change (2 ^ 8) with 256. lia.
  - replace ((byte_val b + 256 * le_val bs) / 256) with (le_val bs) by lia. done.
Qed.

Lemma le_bytes_wrap n w x :
  w = 8 * Z.of_nat n -> le_bytes n (wrap w x) = le_bytes n x.
Proof.
  intros ->. rewrite <- (le_bytes_le_val (le_bytes n x)), length_le_bytes, le_val_le_bytes.
  f_equal. unfold wrap. rewrite Z.pow_mul_r by lia. done.
Qed.


(** ** Lists *)


Definition nthZ (l : list Z) (i : Z) : Z :=
  if i <? 0 then 0 else nth (Z.to_nat i) l 0.

Lemma nthZ_nat l (i : nat) : nthZ l (Z.of_nat i) = nth i l 0.
Proof. unfold nthZ. destruct (Z.ltb_spec (Z.of_nat i) 0); [lia|]. by rewrite Nat2Z.id. Qed.

Lemma nth_lookup_Z (l : list Z) i x : l !! i = Some x -> nth i l 0 = x.
Proof. intros H. by rewrite nth_lookup, H. Qed.

(** Membership in an explicit list. *)
Ltac in_list := first [left; reflexivity | right; in_list].

(** Decides a [Z] or [bool] test in the goal and simplifies. *)
Ltac case_Z :=
  repeat match goal with
    | |- context [?a <? ?b] => destruct (Z.ltb_spec a b); try lia
    | |- context [?a <=? ?b] => destruct (Z.leb_spec a b); try lia
    | |- context [?a =? ?b] => destruct (Z.eqb_spec a b); try lia
    end.

(** Splits boolean conjunctions and disjunctions into propositions. *)
Ltac bool_prop :=
  repeat match goal with
    | H : (_ && _) = true |- _ => apply andb_true_iff in H as [? ?]
    | H : (_ || _) = false |- _ => apply orb_false_iff in H as [? ?]
    | H : negb _ = true |- _ => apply negb_true_iff in H
    | H : negb _ = false |- _ => apply negb_false_iff in H
    | H : (_ <? _) = true |- _ => apply Z.ltb_lt in H
    | H : (_ <? _) = false |- _ => apply Z.ltb_ge in H
    | H : (_ <=? _) = true |- _ => apply Z.leb_le in H
    | H : (_ <=? _) = false |- _ => apply Z.leb_gt in H
    | H : (_ =? _) = true |- _ => apply Z.eqb_eq in H
    | H : (_ =? _) = false |- _ => apply Z.eqb_neq in H
    end.

Create HintDb jni discriminated.
#[export] Hint Resolve wrap_range wrap_small byte_val_range : jni.
