(* ===== verification/GoStr.v ===== *)
(** * GoStr: the parts of Go's [strings], [bytes] and [strconv] the loader uses

    A Go string is a [string] of bytes.  Every function below is the
    standard-library function of the same name, on every input: [IndexByte]
    and friends return [None] for Go's -1; [ParseUint] and [Atoi] return the
    value Go returns together with an error flag, because callers in the
    loader often ignore the error and use the value. *)

From S2P Require Import Prelude.
Import String.

Notation "a ++s b" := (String.append a b) (at level 60, right associativity) : jni_scope.
#[global] Arguments String.append !_ _ / : simpl nomatch.
Abbreviation slen := String.length.

Definition chr (n : N) : ascii := ascii_of_N n.
Definition code (c : ascii) : Z := byte_val c.

(** ** Predicates *)

Fixpoint HasPrefix (s p : string) : bool :=
  match p, s with
  | EmptyString, _ => true
  | String c p', String d s' => Ascii.eqb c d && HasPrefix s' p'
  | String _ _, EmptyString => false
  end.

Fixpoint Contains (s sub : string) : bool :=
  HasPrefix s sub ||
  match s with
  | EmptyString => false
  | String _ s' => Contains s' sub
  end.

Fixpoint HasSuffix (s p : string) : bool :=
  String.eqb s p ||
  match s with
  | EmptyString => false
  | String _ s' => HasSuffix s' p
  end.

(** ** Searching and slicing *)

Fixpoint IndexByte (s : string) (c : ascii) : option nat :=
  match s with
  | EmptyString => None
  | String d s' => if Ascii.eqb d c then Some O else S <$> IndexByte s' c
  end.

Fixpoint LastIndexByte (s : string) (c : ascii) : option nat :=
  match s with
  | EmptyString => None
  | String d s' =>
      match LastIndexByte s' c with
      | Some i => Some (S i)
      | None => if Ascii.eqb d c then Some O else None
      end
  end.

(** [s[:n]] and [s[n:]] for [n <= len(s)] (Go panics beyond). *)
Fixpoint stake (n : nat) (s : string) : string :=
  match n, s with
  | S n', String c s' => String c (stake n' s')
  | _, _ => EmptyString
  end.

Fixpoint sdrop (n : nat) (s : string) : string :=
  match n, s with
  | S n', String _ s' => sdrop n' s'
  | _, _ => s
  end.

(** [s[a:b]]: [None] is Go's run-time panic. *)
Definition slice (s : string) (a b : nat) : option string :=
  if (a <=? b)%nat && (b <=? slen s)%nat then Some (stake (b - a) (sdrop a s)) else None.

Definition sat (s : string) (i : nat) : option ascii := String.get i s.

Fixpoint smap (f : ascii -> ascii) (s : string) : string :=
  match s with
  | EmptyString => EmptyString
  | String c s' => String (f c) (smap f s')
  end.

(** [strings.ReplaceAll(s, a, b)] for one-byte [a] and [b]. *)
Definition ReplaceByte (s : string) (a b : ascii) : string :=
  smap (fun c => if Ascii.eqb c a then b else c) s.

Fixpoint sall (f : ascii -> bool) (s : string) : bool :=
  match s with
  | EmptyString => true
  | String c s' => f c && sall f s'
  end.

(** ** Splitting and joining *)

(** [strings.Split(s, sep)] for a one-byte separator; never empty. *)
Fixpoint Split (s : string) (sep : ascii) : list string :=
  match s with
  | EmptyString => [EmptyString]
  | String c s' =>
      if Ascii.eqb c sep then EmptyString :: Split s' sep
      else match Split s' sep with
           | [] => [String c EmptyString]
           | w :: ws => String c w :: ws
           end
  end.

(** [strings.SplitN(s, sep, 2)] for a one-byte separator. *)
Definition SplitN2 (s : string) (sep : ascii) : list string :=
  match IndexByte s sep with
  | None => [s]
  | Some i => [stake i s; sdrop (S i) s]
  end.

Fixpoint Join (ws : list string) (sep : string) : string :=
  match ws with
  | [] => EmptyString
  | [w] => w
  | w :: ws' => w ++s sep ++s Join ws' sep
  end.

Fixpoint Repeat (s : string) (n : nat) : string :=
  match n with
  | O => EmptyString
  | S n' => s ++s Repeat s n'
  end.

(** ** White space

    [space_len s] is the byte length of the white-space rune that starts [s]
    ([unicode.IsSpace] on its UTF-8 encoding), 0 when [s] does not start with
    one. *)

Definition is_ascii_space (c : ascii) : bool :=
  let n := code c in (n =? 32) || ((9 <=? n) && (n <=? 13)).

Definition space_len (s : string) : nat :=
  match s with
  | EmptyString => 0%nat
  | String c s1 =>
      if is_ascii_space c then 1%nat else
      match s1 with
      | EmptyString => 0%nat
      | String d s2 =>
          let a := code c in let b := code d in
          if (a =? 0xC2) && ((b =? 0x85) || (b =? 0xA0)) then 2%nat else
          match s2 with
          | EmptyString => 0%nat
          | String e _ =>
              let x := code e in
              if ((a =? 0xE1) && (b =? 0x9A) && (x =? 0x80))
                 || ((a =? 0xE2) && (b =? 0x80) &&
                     (((0x80 <=? x) && (x <=? 0x8A)) || (x =? 0xA8) || (x =? 0xA9) || (x =? 0xAF)))
                 || ((a =? 0xE2) && (b =? 0x81) && (x =? 0x9F))
                 || ((a =? 0xE3) && (b =? 0x80) && (x =? 0x80))
              then 3%nat else 0%nat
          end
      end
  end.

(** Walks [s] with [skip] bytes of a recognised rune still to drop. *)
Fixpoint trim_left_aux (skip : nat) (s : string) : string :=
  match skip with
  | S k => match s with EmptyString => EmptyString | String _ s' => trim_left_aux k s' end
  | O => match s with
         | EmptyString => EmptyString
         | String _ s' => match space_len s with
                          | O => s
                          | S k => trim_left_aux k s'
                          end
         end
  end.

Definition TrimLeft (s : string) : string := trim_left_aux 0 s.

Fixpoint TrimRight (s : string) : string :=
  match TrimLeft s with
  | EmptyString => EmptyString
  | String _ _ => match s with
                  | EmptyString => EmptyString
                  | String c s' => String c (TrimRight s')
                  end
  end.

Definition TrimSpace (s : string) : string := TrimRight (TrimLeft s).

(** [strings.Fields]: maximal runs of non-space bytes.  [cur] is the field
    being read, [None] between fields. *)
Fixpoint fields_aux (skip : nat) (cur : option string) (s : string) : list string :=
  match s with
  | EmptyString => match cur with Some w => [w] | None => [] end
  | String c s' =>
      match skip with
      | S k => fields_aux k cur s'
      | O =>
          match space_len s with
          | S k => match cur with
                   | Some w => w :: fields_aux k None s'
                   | None => fields_aux k None s'
                   end
          | O => fields_aux 0 (Some (default EmptyString cur ++s String c EmptyString)) s'
          end
      end
  end.

Definition Fields (s : string) : list string := fields_aux 0 None s.

(** [strings.TrimPrefix]. *)
Definition TrimPrefix (s p : string) : string :=
  if HasPrefix s p then sdrop (slen p) s else s.

(** ** Lemmas *)

Lemma sapp_assoc a b c : (a ++s b) ++s c = a ++s b ++s c.
Proof. induction a; simpl; congruence. Qed.

Lemma sapp_nil_r a : a ++s EmptyString = a.
Proof. induction a; simpl; congruence. Qed.

Lemma slen_app a b : slen (a ++s b) = (slen a + slen b)%nat.
Proof. induction a; simpl; lia. Qed.

Lemma sapp_inj_l a b c : a ++s b = a ++s c -> b = c.
Proof. induction a; simpl; intros; simplify_eq; auto. Qed.

Lemma stake_app a b : stake (slen a) (a ++s b) = a.
Proof. induction a; simpl; congruence. Qed.

Lemma sdrop_app a b : sdrop (slen a) (a ++s b) = b.
Proof. induction a; simpl; auto. Qed.

Lemma sdrop_S_app a c b : sdrop (S (slen a)) (a ++s String c b) = b.
Proof. induction a; auto. Qed.

Lemma stake_sdrop n s : stake n s ++s sdrop n s = s.
Proof. revert s. induction n; intros [|c s]; simpl; congruence. Qed.

Lemma slen_stake n s : slen (stake n s) = Nat.min n (slen s).
Proof. revert s. induction n; intros [|c s]; simpl; auto. Qed.

Lemma slen_sdrop n s : slen (sdrop n s) = (slen s - n)%nat.
Proof. revert s. induction n; intros [|c s]; simpl; auto. Qed.

Lemma sdrop_add a b s : sdrop a (sdrop b s) = sdrop (b + a) s.
Proof. revert s. induction b; intros [|c s]; simpl; auto. by destruct a. Qed.

Lemma HasPrefix_spec s p : HasPrefix s p = true <-> exists r, s = p ++s r.
Proof.
  revert s. induction p as [|c p IH]; intros s; simpl.
  - destruct s; naive_solver.
  - destruct s as [|d s]; simpl; [naive_solver|].
    rewrite andb_true_iff, Ascii.eqb_eq, IH. naive_solver.
Qed.

Lemma HasPrefix_app p r : HasPrefix (p ++s r) p = true.
Proof. apply HasPrefix_spec. eauto. Qed.

Lemma Contains_spec s sub : Contains s sub = true <-> exists a b, s = a ++s sub ++s b.
Proof.
  induction s as [|c s IH]; cbn [Contains]; rewrite orb_true_iff, HasPrefix_spec.
  - split.
    + intros [[r ->]|]; [|done]. by exists EmptyString, r.
    + intros (a & b & E). destruct a; [left; eauto|done].
  - rewrite IH. split.
    + intros [[r ->]|(a & b & ->)]; [by exists EmptyString, r|by exists (String c a), b].
    + intros (a & b & E). destruct a as [|d a]; [left; eauto|].
      right. simpl in E. simplify_eq. eauto.
Qed.

Lemma Contains_empty s : Contains s EmptyString = true.
Proof. apply Contains_spec. by exists EmptyString, s. Qed.

Lemma HasPrefix_Contains s p : HasPrefix s p = true -> Contains s p = true.
Proof.
  rewrite HasPrefix_spec, Contains_spec. intros [r ->]. by exists EmptyString, r.
Qed.

Lemma HasSuffix_spec s p : HasSuffix s p = true <-> exists r, s = r ++s p.
Proof.
  induction s as [|c s IH]; cbn [HasSuffix]; rewrite orb_true_iff, String.eqb_eq.
  - split; [intros [<-|]; [by exists EmptyString|done]|].
    intros [r E]. left. destruct r; done.
  - rewrite IH. split.
    + intros [<-|[r ->]]; [by exists EmptyString|by exists (String c r)].
    + intros [[|d r] E]; simpl in E; simplify_eq; eauto.
Qed.

Fixpoint sin (c : ascii) (s : string) : bool :=
  match s with
  | EmptyString => false
  | String d s' => Ascii.eqb d c || sin c s'
  end.

Lemma sin_app c a b : sin c (a ++s b) = sin c a || sin c b.
Proof. induction a; simpl; [done|]. by rewrite IHa, orb_assoc. Qed.

Lemma IndexByte_app a c b : sin c a = false -> IndexByte (a ++s String c b) c = Some (slen a).
Proof.
  induction a as [|d a IH]; simpl; [by rewrite Ascii.eqb_refl|].
  intros H. bool_prop. rewrite H, IH by done. done.
Qed.

Lemma IndexByte_None s c : IndexByte s c = None <-> sin c s = false.
Proof.
  induction s as [|d s IH]; simpl; [done|].
  destruct (Ascii.eqb d c); simpl; [done|]. rewrite <- IH. by destruct (IndexByte s c).
Qed.

Lemma IndexByte_Some s c i :
  IndexByte s c = Some i -> exists a b, s = a ++s String c b /\ sin c a = false /\ slen a = i.
Proof.
  revert i. induction s as [|d s IH]; intros i; simpl; [done|].
  destruct (Ascii.eqb_spec d c) as [->|Hne].
  - intros [= <-]. by exists EmptyString, s.
  - destruct (IndexByte s c) as [j|]; [|done]. intros [= <-].
    destruct (IH j eq_refl) as (a & b & -> & Ha & Hl).
    exists (String d a), b. split; [done|]. simpl. split; [|congruence].
    rewrite Ha. by apply Ascii.eqb_neq in Hne as ->.
Qed.

Lemma LastIndexByte_None s c : LastIndexByte s c = None <-> sin c s = false.
Proof.
  induction s as [|d s IH]; simpl; [done|].
  destruct (LastIndexByte s c); destruct (Ascii.eqb d c), (sin c s); simpl; naive_solver.
Qed.

Lemma LastIndexByte_app a c b :
  sin c b = false -> LastIndexByte (a ++s String c b) c = Some (slen a).
Proof.
  intros Hb. induction a as [|d a IH]; simpl.
  - apply LastIndexByte_None in Hb as ->. by rewrite Ascii.eqb_refl.
  - by rewrite IH.
Qed.

Lemma sall_app f a b : sall f (a ++s b) = sall f a && sall f b.
Proof. induction a; simpl; [done|]. by rewrite IHa, andb_assoc. Qed.

Lemma slen_smap f s : slen (smap f s) = slen s.
Proof. induction s; simpl; auto. Qed.

Lemma slice_app a b c : slice (a ++s b ++s c) (slen a) (slen a + slen b) = Some b.
Proof.
  unfold slice. rewrite !slen_app.
  rewrite (proj2 (Nat.leb_le _ _)), (proj2 (Nat.leb_le _ _)) by lia. simpl.
  rewrite sdrop_app. replace (slen a + slen b - slen a)%nat with (slen b) by lia.
  by rewrite stake_app.
Qed.

Lemma Split_nonempty s c : Split s c <> [].
Proof. destruct s as [|d s]; simpl; [done|]. destruct (Ascii.eqb d c), (Split s c); done. Qed.

Lemma Split_no_sep s c : sin c s = false -> Split s c = [s].
Proof.
  induction s as [|d s IH]; simpl; [done|]. intros H. bool_prop. rewrite H. by rewrite IH.
Qed.

Lemma Split_app a c b : sin c a = false -> Split (a ++s String c b) c = a :: Split b c.
Proof.
  induction a as [|d a IH]; simpl; [by rewrite Ascii.eqb_refl|].
  intros H. bool_prop. rewrite H. by rewrite IH.
Qed.

(** Splitting a joined list gives the list back. *)
Lemma Split_Join ws c :
  ws <> [] -> Forall (fun w => sin c w = false) ws ->
  Split (Join ws (String c EmptyString)) c = ws.
Proof.
  induction ws as [|w [|w' ws] IH]; intros Hne Hall; [done| |].
  - apply Forall_inv in Hall. by apply Split_no_sep.
  - inversion Hall as [|? ? Hw Hrest]; subst.
    change (Join (w :: w' :: ws) (String c "")) with (w ++s String c (Join (w' :: ws) (String c ""))).
    rewrite Split_app by done. by rewrite IH.
Qed.

Lemma slen_Repeat s n : slen (Repeat s n) = (n * slen s)%nat.
Proof. induction n; simpl; [done|]. rewrite slen_app. lia. Qed.


(** *** Clean text: ASCII bytes other than white space *)

Definition clean_char (c : ascii) : bool := (code c <? 128) && negb (is_ascii_space c).

Lemma space_len_clean c s : clean_char c = true -> space_len (String c s) = 0%nat.
Proof.
  unfold clean_char. intros Hc. apply andb_true_iff in Hc as [Hc Hs].
  apply Z.ltb_lt in Hc. apply negb_true_iff in Hs. unfold space_len. rewrite Hs.
  destruct s as [|d [|e s]]; [done| |];
    repeat match goal with |- context [code c =? ?k] =>
      rewrite (proj2 (Z.eqb_neq (code c) k)) by lia end; done.
Qed.

Lemma TrimLeft_clean c s : clean_char c = true -> TrimLeft (String c s) = String c s.
Proof. intros Hc. unfold TrimLeft. cbn [trim_left_aux]. by rewrite space_len_clean. Qed.

Lemma TrimRight_clean s : sall clean_char s = true -> TrimRight s = s.
Proof.
  induction s as [|c s IH]; [done|]. cbn [sall]. intros H. apply andb_true_iff in H as [Hc Hs].
  cbn [TrimRight]. rewrite TrimLeft_clean, IH by done. done.
Qed.

Lemma TrimSpace_clean s : sall clean_char s = true -> TrimSpace s = s.
Proof.
  intros H. unfold TrimSpace. destruct s as [|c s]; [done|].
  pose proof H as H'. cbn [sall] in H'. apply andb_true_iff in H' as [Hc _].
  rewrite TrimLeft_clean by done. by apply TrimRight_clean.
Qed.

Lemma fields_aux_word w cur rest :
  sall clean_char w = true -> w <> EmptyString ->
  fields_aux 0 cur (w ++s rest) = fields_aux 0 (Some (default EmptyString cur ++s w)) rest.
Proof.
  revert cur. induction w as [|c w IH]; intros cur Hw Hne; [done|].
  cbn [sall] in Hw. apply andb_true_iff in Hw as [Hc Hw].
  cbn [String.append fields_aux]. rewrite space_len_clean by done.
  destruct w as [|d w]; [done|].
  rewrite IH by done. cbn [from_option id]. by rewrite sapp_assoc.
Qed.

(** Fields of clean words joined by single spaces are the words. *)
Lemma Fields_Join ws :
  Forall (fun w => sall clean_char w = true /\ w <> EmptyString) ws ->
  Fields (Join ws " ") = ws.
Proof.
  unfold Fields. intros Hall. induction Hall as [|w ws [Hw Hne] Hall IH]; [done|].
  destruct ws as [|w2 ws].
  - cbn [Join]. rewrite <- (sapp_nil_r w) at 1. rewrite fields_aux_word by done. done.
  - change (Join (w :: w2 :: ws) " ") with (w ++s String " " (Join (w2 :: ws) " ")).
    rewrite fields_aux_word by done. cbn [from_option id String.append fields_aux].
    change (space_len (String " " ?x)) with 1%nat. cbv iota. by rewrite IH.
Qed.

Definition dquote : string := String "034" EmptyString.

(** [s] between double quotes. *)
Definition quoted (s : string) : string := dquote ++s s ++s dquote.
