(* ===== verification/Strconv.v ===== *)
(** * Strconv: Go's [strconv] number formatting and parsing

    [FormatUint]/[FormatInt] and [ParseUint]/[Atoi], with the value and the
    error flag Go returns on every input, and the round trips between them. *)

From S2P Require Import Prelude GoStr.
Import String.

(** ** Formatting *)

Definition digit_char (d : Z) : ascii :=
  if d <? 10 then ascii_of_N (Z.to_N (48 + d)) else ascii_of_N (Z.to_N (87 + d)).

Fixpoint digits (fuel : nat) (base v : Z) (acc : string) : string :=
  match fuel with
  | O => acc
  | S f =>
      let acc' := String (digit_char (v mod base)) acc in
      if v / base =? 0 then acc' else digits f base (v / base) acc'
  end.

(** Digits in base >= 2 need at most [log2 v + 1] rounds. *)
Definition FormatUint (v base : Z) : string :=
  digits (S (Z.to_nat (Z.log2 v))) base v EmptyString.

Definition FormatInt (v base : Z) : string :=
  if v <? 0 then String "-" (FormatUint (- v) base) else FormatUint v base.

Definition FormatBool (b : bool) : string := if b then "true" else "false".

(** [fmt.Sprintf("0x%x", v)] and ["%0nx"]. *)
Definition hex0x (v : Z) : string := "0x" ++s FormatUint v 16.

Definition pad_left (c : ascii) (n : nat) (s : string) : string :=
  Repeat (String c EmptyString) (n - slen s) ++s s.

(** ** Parsing *)

Definition lower (c : Z) : Z := Z.lor c 32.

Definition digit_val (c : Z) : option Z :=
  if (48 <=? c) && (c <=? 57) then Some (c - 48)
  else if (97 <=? lower c) && (lower c <=? 122) then Some (lower c - 97 + 10)
  else None.

Inductive perr := ErrSyntax | ErrRange.

Definition max_u64 : Z := 2 ^ 64 - 1.

(** The digit loop of [ParseUint] (64 bits): the value, whether an
    underscore was seen, or the error that ends it. *)
Fixpoint parse_digits (base : Z) (base0 : bool) (n : Z) (us : bool) (s : string)
  : perr + (Z * bool) :=
  match s with
  | EmptyString => inr (n, us)
  | String a s' =>
      let c := code a in
      if (c =? 95) && base0 then parse_digits base base0 n true s'
      else match digit_val c with
           | None => inl ErrSyntax
           | Some d =>
               if base <=? d then inl ErrSyntax
               else if max_u64 / base + 1 <=? n then inl ErrRange
               else if max_u64 <? n * base + d then inl ErrRange
               else parse_digits base base0 (n * base + d) us s'
           end
  end.

(** [underscoreOK]: underscores only between digits, or after a base prefix. *)
Inductive uscan := U_start | U_digit | U_under | U_other.

Fixpoint underscore_scan (hex : bool) (st : uscan) (s : string) : bool :=
  match s with
  | EmptyString => match st with U_under => false | _ => true end
  | String a s' =>
      let c := code a in
      if ((48 <=? c) && (c <=? 57)) || (hex && (97 <=? lower c) && (lower c <=? 102))
      then underscore_scan hex U_digit s'
      else if c =? 95
      then match st with U_digit => underscore_scan hex U_under s' | _ => false end
      else match st with U_under => false | _ => underscore_scan hex U_other s' end
  end.

Definition underscoreOK (s0 : string) : bool :=
  let s := match s0 with
           | String a s' => if (code a =? 45) || (code a =? 43) then s' else s0
           | EmptyString => s0
           end in
  match s with
  | String a (String b s') =>
      let l := lower (code b) in
      if (code a =? 48) && ((l =? 98) || (l =? 111) || (l =? 120))
      then underscore_scan (l =? 120) U_digit s'
      else underscore_scan false U_start s
  | _ => underscore_scan false U_start s
  end.

(** The prefix rule of base 0: the base and the digits that follow. *)
Definition base_prefix (s : string) : Z * string :=
  match s with
  | String a s1 =>
      if code a =? 48 then
        match s1 with
        | String b (String c s3) =>
            let l := lower (code b) in
            if l =? 98 then (2, String c s3)
            else if l =? 111 then (8, String c s3)
            else if l =? 120 then (16, String c s3)
            else (8, s1)
        | _ => (8, s1)
        end
      else (10, s)
  | EmptyString => (10, s)
  end.

(** [strconv.ParseUint(s, base, 64)]: the returned value and the error. *)
Definition ParseUint (s : string) (base : Z) : Z * option perr :=
  match s with
  | EmptyString => (0, Some ErrSyntax)
  | _ =>
      let base0 := base =? 0 in
      let (b, ds) := if base0 then base_prefix s else (base, s) in
      match parse_digits b base0 0 false ds with
      | inl ErrSyntax => (0, Some ErrSyntax)
      | inl ErrRange => (max_u64, Some ErrRange)
      | inr (n, us) =>
          if us && negb (underscoreOK s) then (0, Some ErrSyntax) else (n, None)
      end
  end.

(** [strconv.Atoi] (64-bit [int]). *)
Definition Atoi (s : string) : Z * option perr :=
  match s with
  | EmptyString => (0, Some ErrSyntax)
  | String a s' =>
      let neg := code a =? 45 in
      let ds := if neg || (code a =? 43) then s' else s in
      match ParseUint ds 10 with
      | (un, Some ErrSyntax) => (0, Some ErrSyntax)
      | (un, _) =>
          if negb neg && (2 ^ 63 <=? un) then (2 ^ 63 - 1, Some ErrRange)
          else if neg && (2 ^ 63 <? un) then (- 2 ^ 63, Some ErrRange)
          else ((if neg then - un else un), None)
      end
  end.

(** ** Round trips *)

Lemma code_digit_char d : 0 <= d < 36 -> code (digit_char d) = if d <? 10 then 48 + d else 87 + d.
Proof.
  intros Hd. unfold code, byte_val, digit_char.
  destruct (Z.ltb_spec d 10); rewrite N_ascii_embedding; lia.
Qed.

Lemma digit_val_char d : 0 <= d < 36 -> digit_val (code (digit_char d)) = Some d.
Proof.
  intros Hd.
  assert (Hall : forallb (fun n => bool_decide (digit_val (code (digit_char (Z.of_nat n))) = Some (Z.of_nat n)))
                   (seq 0 36) = true) by (vm_compute; reflexivity).
  rewrite forallb_forall in Hall. specialize (Hall (Z.to_nat d)).
  rewrite in_seq, bool_decide_eq_true in Hall. rewrite Z2Nat.id in Hall by lia. apply Hall. lia.
Qed.

Lemma digit_char_not_us d : 0 <= d < 36 -> (code (digit_char d) =? 95) = false.
Proof. intros Hd. rewrite code_digit_char by done. case_Z. all: destruct (Z.ltb_spec d 10); lia. Qed.

(** The value of a digit string, most significant first. *)
Fixpoint dval (base n : Z) (ds : list Z) : Z :=
  match ds with
  | [] => n
  | d :: ds' => dval base (n * base + d) ds'
  end.

Fixpoint digit_string (ds : list Z) (rest : string) : string :=
  match ds with
  | [] => rest
  | d :: ds' => String (digit_char d) (digit_string ds' rest)
  end.

Lemma dval_mono base n ds :
  2 <= base -> 0 <= n -> Forall (fun d => 0 <= d < base) ds -> n <= dval base n ds.
Proof.
  intros Hb. revert n. induction ds as [|d ds IH]; intros n Hn Hall; simpl; [lia|].
  inversion Hall; subst. specialize (IH (n * base + d)). nia.
Qed.

Lemma dval_app base n a d : dval base n (a ++ [d]) = dval base n a * base + d.
Proof. revert n. induction a; intros; simpl; auto. Qed.

Lemma digit_string_app a b r : digit_string (a ++ b) r = digit_string a (digit_string b r).
Proof. induction a; simpl; congruence. Qed.

(** [digits] writes the base-[base] expansion of [v]. *)
Lemma digits_spec fuel base v acc :
  2 <= base <= 36 -> 0 <= v < 2 ^ Z.of_nat fuel -> (0 < fuel)%nat ->
  exists ds, digits fuel base v acc = digit_string ds acc /\
             Forall (fun d => 0 <= d < base) ds /\ dval base 0 ds = v /\ ds <> [].
Proof.
  intros Hb. revert v acc. induction fuel as [|f IH]; intros v acc Hv Hf; [lia|].
  assert (Hm : 0 <= v mod base < base) by (apply Z.mod_pos_bound; lia).
  assert (Hdm := Z.div_mod v base ltac:(lia)).
  cbn [digits]. destruct (Z.eqb_spec (v / base) 0) as [Hz|Hnz].
  - exists [v mod base]. repeat split; [by apply Forall_singleton| |done]. simpl. lia.
  - assert (Hv2 : 0 <= v / base < 2 ^ Z.of_nat f).
    { rewrite Nat2Z.inj_succ, Z.pow_succ_r in Hv by lia.
      split; [apply Z.div_pos; lia|]. apply Z.div_lt_upper_bound; nia. }
    destruct (IH (v / base) (String (digit_char (v mod base)) acc) Hv2) as (ds & E & Hall & Hval & _).
    { destruct f; [|lia]. simpl in Hv2. lia. }
    exists (ds ++ [v mod base]). rewrite E, digit_string_app. repeat split.
    + apply Forall_app; split; [done|by apply Forall_singleton].
    + rewrite dval_app, Hval. lia.
    + by destruct ds.
Qed.

Lemma FormatUint_spec v base :
  2 <= base <= 36 -> 0 <= v ->
  exists ds, FormatUint v base = digit_string ds EmptyString /\
             Forall (fun d => 0 <= d < base) ds /\ dval base 0 ds = v /\ ds <> [].
Proof.
  intros Hb Hv. apply digits_spec; [done| |lia]. split; [done|].
  rewrite Nat2Z.inj_succ, Z2Nat.id by apply Z.log2_nonneg.
  destruct (Z.eq_dec v 0) as [->|]; [done|]. apply Z.log2_spec. lia.
Qed.

Lemma parse_digits_digit_string base b0 n us ds :
  2 <= base <= 36 -> 0 <= n -> Forall (fun d => 0 <= d < base) ds ->
  dval base n ds <= max_u64 ->
  parse_digits base b0 n us (digit_string ds EmptyString) = inr (dval base n ds, us).
Proof.
  intros Hb. revert n. induction ds as [|d ds IH]; intros n Hn Hall Hle; [done|].
  inversion Hall as [|? ? Hd Hds]; subst. cbn [digit_string parse_digits dval] in *.
  rewrite digit_char_not_us, digit_val_char by lia. cbn [andb].
  pose proof (dval_mono base (n * base + d) ds ltac:(lia) ltac:(nia) Hds) as Hmono.
  assert (n * base + d <= max_u64) by lia.
  assert (n <= max_u64 / base) by (apply Z.div_le_lower_bound; lia).
  destruct (Z.leb_spec base d); [lia|].
  destruct (Z.leb_spec (max_u64 / base + 1) n); [lia|].
  destruct (Z.ltb_spec max_u64 (n * base + d)); [lia|].
  apply IH; [nia|done|done].
Qed.

Lemma ParseUint_FormatUint v base :
  2 <= base <= 36 -> fits 64 v -> ParseUint (FormatUint v base) base = (v, None).
Proof.
  intros Hb [Hv0 Hv1]. destruct (FormatUint_spec v base Hb Hv0) as (ds & -> & Hall & Hval & Hne).
  unfold ParseUint. destruct ds as [|d ds]; [done|].
  destruct (Z.eqb_spec base 0); [lia|].
  change (String (digit_char d) ?x) with (String (digit_char d) x).
  rewrite (parse_digits_digit_string base false 0 false (d :: ds)); [|done|lia|done|unfold max_u64; lia].
  cbn [digit_string]. by rewrite Hval.
Qed.

(** Base 0 reads back what [hex0x] prints (["0x%x"]). *)
Lemma ParseUint_hex0x v : fits 64 v -> ParseUint (hex0x v) 0 = (v, None).
Proof.
  intros [Hv0 Hv1]. unfold hex0x.
  destruct (FormatUint_spec v 16 ltac:(lia) Hv0) as (ds & -> & Hall & Hval & Hne).
  destruct ds as [|d ds]; [done|].
  change (ParseUint ("0x" ++s digit_string (d :: ds) "") 0)
    with (match parse_digits 16 true 0 false (digit_string (d :: ds) "") with
          | inl ErrSyntax => (0, Some ErrSyntax)
          | inl ErrRange => (max_u64, Some ErrRange)
          | inr (n, us) =>
              if us && negb (underscoreOK ("0x" ++s digit_string (d :: ds) ""))
              then (0, Some ErrSyntax) else (n, None)
          end).
  rewrite (parse_digits_digit_string 16 true 0 false (d :: ds)); [|lia|lia|done|unfold max_u64; lia].
  cbn [andb]. by rewrite Hval.
Qed.

Lemma FormatUint_head v base :
  2 <= base <= 36 -> 0 <= v ->
  exists d s, FormatUint v base = String (digit_char d) s /\ 0 <= d < base.
Proof.
  intros Hb Hv. destruct (FormatUint_spec v base Hb Hv) as (ds & -> & Hall & _ & Hne).
  destruct ds as [|d ds]; [done|]. apply Forall_inv in Hall. cbn [digit_string]. eauto.
Qed.

Lemma digit_char_not_sign d :
  0 <= d < 36 -> (code (digit_char d) =? 45) = false /\ (code (digit_char d) =? 43) = false.
Proof. intros Hd. rewrite code_digit_char by done. destruct (Z.ltb_spec d 10); split; case_Z. Qed.

(** [Atoi] reads back every [int] that [FormatInt] prints in base 10. *)
Lemma Atoi_FormatInt v : - 2 ^ 63 <= v < 2 ^ 63 -> Atoi (FormatInt v 10) = (v, None).
Proof.
  intros Hv. unfold FormatInt. destruct (Z.ltb_spec v 0).
  - unfold Atoi. change (code "-" =? 45) with true. cbn [orb].
    rewrite ParseUint_FormatUint by (unfold fits; lia). cbn [negb andb].
    destruct (Z.ltb_spec (2 ^ 63) (- v)); [lia|]. f_equal. lia.
  - destruct (FormatUint_head v 10) as (d & s & E & Hd); [lia|lia|].
    pose proof (ParseUint_FormatUint v 10 ltac:(lia) ltac:(unfold fits; lia)) as HP.
    rewrite E in HP |- *. unfold Atoi.
    destruct (digit_char_not_sign d) as [-> ->]; [lia|]. cbn [orb]. rewrite HP. cbn [negb andb].
    destruct (Z.leb_spec (2 ^ 63) v); [lia|done].
Qed.

Lemma FormatUint_inj v w base :
  2 <= base <= 36 -> fits 64 v -> fits 64 w -> FormatUint v base = FormatUint w base -> v = w.
Proof.
  intros Hb Hv Hw E. pose proof (ParseUint_FormatUint v base Hb Hv) as H1.
  rewrite E, ParseUint_FormatUint in H1 by done. congruence.
Qed.

Lemma digit_string_sin c ds r :
  Forall (fun d => 0 <= d < 36) ds ->
  (forall d, 0 <= d < 36 -> Ascii.eqb (digit_char d) c = false) ->
  sin c r = false -> sin c (digit_string ds r) = false.
Proof.
  intros Hall Hc Hr. induction Hall as [|d ds Hd Hall IH]; simpl; [done|].
  by rewrite Hc, IH.
Qed.

Definition is_digit_char (c : ascii) : bool :=
  existsb (fun n => Ascii.eqb (digit_char (Z.of_nat n)) c) (seq 0 36).

(** A formatted number contains only digit characters. *)
Lemma FormatUint_sin c v base :
  2 <= base <= 36 -> 0 <= v -> is_digit_char c = false -> sin c (FormatUint v base) = false.
Proof.
  intros Hb Hv Hc. destruct (FormatUint_spec v base Hb Hv) as (ds & -> & Hall & _ & _).
  apply digit_string_sin; [eapply Forall_impl; [exact Hall|simpl; lia]| |done].
  intros d Hd. destruct (Ascii.eqb (digit_char d) c) eqn:E; [|done].
  rewrite <- Hc. symmetry. apply existsb_exists. exists (Z.to_nat d).
  rewrite in_seq, Z2Nat.id by lia. split; [lia|done].
Qed.

(** The text of a positive number starts with a non-zero digit. *)
Lemma digits_head fuel base v acc :
  2 <= base <= 36 -> 0 < v < 2 ^ Z.of_nat fuel -> (0 < fuel)%nat ->
  exists d s, digits fuel base v acc = String (digit_char d) s /\ 0 < d < base.
Proof.
  intros Hb. revert v acc. induction fuel as [|f IH]; intros v acc Hv Hf; [lia|].
  assert (Hm : 0 <= v mod base < base) by (apply Z.mod_pos_bound; lia).
  assert (Hdm := Z.div_mod v base ltac:(lia)).
  cbn [digits]. destruct (Z.eqb_spec (v / base) 0) as [Hz|Hnz].
  - exists (v mod base), acc. split; [done|]. rewrite Hz in Hdm. lia.
  - assert (Hv2 : 0 < v / base < 2 ^ Z.of_nat f).
    { rewrite Nat2Z.inj_succ, Z.pow_succ_r in Hv by lia.
      assert (0 <= v / base) by (apply Z.div_pos; lia).
      split; [lia|]. apply Z.div_lt_upper_bound; nia. }
    apply IH; [done|]. destruct f; [|lia]. simpl in Hv2. lia.
Qed.

Lemma FormatUint_pos_head v base :
  2 <= base <= 36 -> 0 < v -> exists d s, FormatUint v base = String (digit_char d) s /\ 0 < d < base.
Proof.
  intros Hb Hv. apply digits_head; [done| |lia]. split; [done|].
  rewrite Nat2Z.inj_succ, Z2Nat.id by apply Z.log2_nonneg. apply Z.log2_spec. lia.
Qed.

(** Base 0 reads back decimal text. *)
Lemma ParseUint_decimal v : fits 64 v -> ParseUint (FormatUint v 10) 0 = (v, None).
Proof.
  intros [Hv0 Hv1]. destruct (Z.eq_dec v 0) as [->|Hne]; [reflexivity|].
  destruct (FormatUint_spec v 10 ltac:(lia) Hv0) as (ds & E & Hall & Hval & _).
  destruct (FormatUint_pos_head v 10 ltac:(lia) ltac:(lia)) as (d & s & E' & Hd).
  assert (Hp : base_prefix (FormatUint v 10) = (10, FormatUint v 10)).
  { rewrite E'. unfold base_prefix. rewrite code_digit_char by lia.
    destruct (Z.ltb_spec d 10); [|lia]. destruct (Z.eqb_spec (48 + d) 48); [lia|done]. }
  unfold ParseUint. rewrite E' at 1. cbn [Z.eqb]. rewrite Hp, E.
  rewrite parse_digits_digit_string; [|lia|lia|done|unfold max_u64; lia]. cbn [andb]. by rewrite Hval.
Qed.
