(* ===== verification/Utf8.v ===== *)
(** * Utf8: Go's UTF-8 encoding of runes

    [EncodeRune] is [utf8.AppendRune] (surrogates and out-of-range values
    become U+FFFD), [DecodeRune] is [utf8.DecodeRune].  [fmt_c] is the [%c]
    verb. *)

From S2P Require Import Prelude GoStr.

Definition RuneError : Z := 0xFFFD.

Definition is_surrogate (r : Z) : bool := (0xD800 <=? r) && (r <? 0xE000).

Definition bytes_str (l : list Z) : string :=
  fold_right (fun b s => String.String (byte_of b) s) "" l.

Definition encode_valid (r : Z) : list Z :=
  if r <? 0x80 then [r]
  else if r <? 0x800 then [0xC0 + r / 64; 0x80 + r mod 64]
  else if r <? 0x10000 then [0xE0 + r / 4096; 0x80 + r / 64 mod 64; 0x80 + r mod 64]
  else [0xF0 + r / 262144; 0x80 + r / 4096 mod 64; 0x80 + r / 64 mod 64; 0x80 + r mod 64].

Definition EncodeRune (r : Z) : string :=
  bytes_str (encode_valid
    (if (r <? 0) || (0x10FFFF <? r) || is_surrogate r then RuneError else r)).

Definition fmt_c (r : Z) : string := EncodeRune r.

Definition is_cont (b : Z) : bool := (0x80 <=? b) && (b <=? 0xBF).

(** The first rune of a non-empty string and its width; width 1 and
    [RuneError] for an invalid sequence. *)
Definition DecodeRune (s : string) : Z * nat :=
  match s with
  | String.EmptyString => (RuneError, 0%nat)
  | String.String c0 s0 =>
      let a := code c0 in
      let bad := (RuneError, 1%nat) in
      if a <? 0x80 then (a, 1%nat)
      else match s0 with
      | String.EmptyString => bad
      | String.String c1 s1 =>
          let b := code c1 in
          if (0xC2 <=? a) && (a <=? 0xDF) then
            if is_cont b then ((a - 0xC0) * 64 + (b - 0x80), 2%nat) else bad
          else match s1 with
          | String.EmptyString => bad
          | String.String c2 s2 =>
              let x := code c2 in
              if (0xE0 <=? a) && (a <=? 0xEF) then
                let lo := if a =? 0xE0 then 0xA0 else 0x80 in
                let hi := if a =? 0xED then 0x9F else 0xBF in
                if (lo <=? b) && (b <=? hi) && is_cont x
                then ((a - 0xE0) * 4096 + (b - 0x80) * 64 + (x - 0x80), 3%nat) else bad
              else match s2 with
              | String.EmptyString => bad
              | String.String c3 _ =>
                  let y := code c3 in
                  if (0xF0 <=? a) && (a <=? 0xF4) then
                    let lo := if a =? 0xF0 then 0x90 else 0x80 in
                    let hi := if a =? 0xF4 then 0x8F else 0xBF in
                    if (lo <=? b) && (b <=? hi) && is_cont x && is_cont y
                    then ((a - 0xF0) * 262144 + (b - 0x80) * 4096 + (x - 0x80) * 64 + (y - 0x80), 4%nat)
                    else bad
                  else bad
              end
          end
      end
  end.

Definition valid_rune (r : Z) : Prop := 0 <= r <= 0x10FFFF /\ is_surrogate r = false.

Lemma code_byte_of b : 0 <= b < 256 -> code (byte_of b) = b.
Proof. intros Hb. unfold code. rewrite byte_val_of. by apply wrap_small. Qed.

Lemma EncodeRune_valid r : valid_rune r -> EncodeRune r = bytes_str (encode_valid r).
Proof.
  intros [Hr Hs]. unfold EncodeRune. rewrite Hs.
  destruct (Z.ltb_spec r 0), (Z.ltb_spec 0x10FFFF r); try lia. done.
Qed.

(** Decides the tests one at a time, dropping impossible branches. *)
Ltac range_tests :=
  repeat (cbn [andb orb]; match goal with
    | |- context [?a =? ?b] => destruct (Z.eqb_spec a b)
    | |- context [?a <? ?b] => destruct (Z.ltb_spec a b); [try lia|try lia]
    | |- context [?a <=? ?b] => destruct (Z.leb_spec a b); [|try lia]
    end).

(** Every valid rune decodes back from its encoding, with its width. *)
Lemma DecodeRune_EncodeRune r rest :
  valid_rune r -> DecodeRune (EncodeRune r ++s rest) = (r, slen (EncodeRune r)).
Proof.
  intros Hr. rewrite EncodeRune_valid by done. destruct Hr as [Hr Hs].
  unfold is_surrogate in Hs.
  assert (Hns : r < 0xD800 \/ 0xE000 <= r).
  { destruct (Z.leb_spec 0xD800 r), (Z.ltb_spec r 0xE000); simpl in Hs; lia || done. }
  unfold encode_valid.
  destruct (Z.ltb_spec r 0x80); [|destruct (Z.ltb_spec r 0x800); [|destruct (Z.ltb_spec r 0x10000)]];
    cbn [bytes_str fold_right String.append DecodeRune]; rewrite !code_byte_of by lia;
    unfold is_cont; range_tests; cbn [andb]; f_equal; lia.
Qed.

(** A rune outside ASCII starts with a byte outside ASCII. *)
Lemma EncodeRune_head r :
  valid_rune r -> 128 <= r -> exists c t, EncodeRune r = String.String c t /\ 128 <= code c.
Proof.
  intros Hr H. rewrite EncodeRune_valid by done. destruct Hr as [Hr _]. unfold encode_valid.
  destruct (Z.ltb_spec r 0x80); [lia|].
  destruct (Z.ltb_spec r 0x800); [|destruct (Z.ltb_spec r 0x10000)]; cbn [bytes_str fold_right];
    eexists _, _; (split; [reflexivity|]); rewrite code_byte_of; lia.
Qed.

Lemma EncodeRune_ascii r : 0 <= r < 128 -> EncodeRune r = String.String (byte_of r) "".
Proof.
  intros Hr. rewrite EncodeRune_valid; [|split; [lia|unfold is_surrogate; case_Z; done]].
  unfold encode_valid. case_Z. done.
Qed.
