(* ===== verification/Json.v ===== *)
(** * Json: [encoding/json] as offsets.go uses it

    [Unmarshal] into a [map[string]string]: an object whose values are strings
    or null, anything else is an error; null leaves the map empty.  String
    literals follow the decoder: control characters are rejected, escapes and
    surrogate pairs are decoded, invalid UTF-8 becomes U+FFFD. *)

From S2P Require Import Prelude GoStr Strconv Utf8.
Import String.

Definition json_space (c : ascii) : bool :=
  let n := code c in (n =? 32) || (n =? 9) || (n =? 13) || (n =? 10).

Fixpoint skip_ws (s : string) : string :=
  match s with
  | String c s' => if json_space c then skip_ws s' else s
  | EmptyString => s
  end.

Definition hex1 (c : ascii) : option Z :=
  match digit_val (code c) with
  | Some d => if d <? 16 then Some d else None
  | None => None
  end.

(** [getu4] after the backslash and the [u]. *)
Definition hex4 (s : string) : option (Z * string) :=
  match s with
  | String a (String b (String c (String d s'))) =>
      match hex1 a, hex1 b, hex1 c, hex1 d with
      | Some w, Some x, Some y, Some z => Some (((w * 16 + x) * 16 + y) * 16 + z, s')
      | _, _, _, _ => None
      end
  | _ => None
  end.

Definition quote : ascii := "034".
Definition backslash : ascii := "092".

Definition simple_escape (c : ascii) : option ascii :=
  if Ascii.eqb c quote then Some quote
  else if Ascii.eqb c backslash then Some backslash
  else if Ascii.eqb c "/" then Some "/"%char
  else if Ascii.eqb c "b" then Some "008"%char
  else if Ascii.eqb c "f" then Some "012"%char
  else if Ascii.eqb c "n" then Some "010"%char
  else if Ascii.eqb c "r" then Some "013"%char
  else if Ascii.eqb c "t" then Some "009"%char
  else None.

(** The rune of a [\uXXXX] escape, merging a surrogate pair. *)
Definition unicode_escape (s : string) : option (Z * string) :=
  match hex4 s with
  | None => None
  | Some (r, rest) =>
      if is_surrogate r then
        match rest with
        | String b (String u rest2) =>
            if Ascii.eqb b backslash && Ascii.eqb u "u" then
              match hex4 rest2 with
              | Some (r2, rest3) =>
                  if (r <? 0xDC00) && (0xDC00 <=? r2) && (r2 <? 0xE000)
                  then Some ((r - 0xD800) * 1024 + (r2 - 0xDC00) + 0x10000, rest3)
                  else Some (RuneError, rest)
              | None => None
              end
            else Some (RuneError, rest)
        | _ => Some (RuneError, rest)
        end
      else Some (r, rest)
  end.

(** The rest of a string literal after its opening quote: the decoded text
    and what follows the closing quote. *)
Fixpoint json_string (fuel : nat) (s : string) : option (string * string) :=
  match fuel, s with
  | S f, String c s1 =>
      if Ascii.eqb c quote then Some (EmptyString, s1)
      else if Ascii.eqb c backslash then
        match s1 with
        | String e s2 =>
            if Ascii.eqb e "u" then
              match unicode_escape s2 with
              | Some (r, s3) =>
                  match json_string f s3 with
                  | Some (t, rest) => Some (EncodeRune r ++s t, rest)
                  | None => None
                  end
              | None => None
              end
            else match simple_escape e with
                 | Some x => match json_string f s2 with
                             | Some (t, rest) => Some (String x t, rest)
                             | None => None
                             end
                 | None => None
                 end
        | EmptyString => None
        end
      else if code c <? 32 then None
      else if code c <? 128 then
        match json_string f s1 with
        | Some (t, rest) => Some (String c t, rest)
        | None => None
        end
      else
        let (r, w) := DecodeRune s in
        match json_string f (sdrop w s) with
        | Some (t, rest) => Some (EncodeRune r ++s t, rest)
        | None => None
        end
  | _, _ => None
  end.

(** A map value: a string, or null (the empty string); anything else fails. *)
Definition json_value (s : string) : option (string * string) :=
  match s with
  | String c s1 =>
      if Ascii.eqb c quote then json_string (S (slen s1)) s1
      else if HasPrefix s "null" then Some (EmptyString, sdrop 4 s)
      else None
  | EmptyString => None
  end.

(** The members of an object from its first key; [m] is the map so far. *)
Fixpoint json_members (fuel : nat) (m : gmap string string) (s : string)
  : option (gmap string string * string) :=
  match fuel, s with
  | S f, String c s1 =>
      if negb (Ascii.eqb c quote) then None else
      match json_string (S (slen s1)) s1 with
      | None => None
      | Some (k, s2) =>
          match skip_ws s2 with
          | String c3 s3 =>
              if negb (Ascii.eqb c3 ":") then None else
              match json_value (skip_ws s3) with
              | None => None
              | Some (v, s4) =>
                  match skip_ws s4 with
                  | String c5 s5 =>
                      if Ascii.eqb c5 "}" then Some (<[k := v]> m, s5)
                      else if Ascii.eqb c5 "," then json_members f (<[k := v]> m) (skip_ws s5)
                      else None
                  | EmptyString => None
                  end
              end
          | EmptyString => None
          end
      end
  | _, _ => None
  end.

(** Nothing but white space may follow the value. *)
Definition json_end {A} (r : option (A * string)) : option A :=
  match r with
  | Some (a, s) => match skip_ws s with EmptyString => Some a | _ => None end
  | None => None
  end.

Definition Unmarshal (raw : string) : option (gmap string string) :=
  match skip_ws raw with
  | String c s1 =>
      if Ascii.eqb c "{" then
        match skip_ws s1 with
        | String d s2 =>
            if Ascii.eqb d "}" then json_end (Some (∅, s2))
            else json_end (json_members (S (slen s1)) ∅ (String d s2))
        | EmptyString => None
        end
      else if HasPrefix (String c s1) "null" then json_end (Some (∅, sdrop 4 (String c s1)))
      else None
  | EmptyString => None
  end.

(** ** Lemmas *)

(** Characters a literal carries unescaped. *)
Definition plain_char (c : ascii) : bool :=
  negb (Ascii.eqb c quote) && negb (Ascii.eqb c backslash) && (32 <=? code c) && (code c <? 128).

Lemma json_string_plain fuel t rest :
  sall plain_char t = true -> (slen t < fuel)%nat ->
  json_string fuel (t ++s String quote rest) = Some (t, rest).
Proof.
  revert fuel. induction t as [|c t IH]; intros fuel Hp Hf; (destruct fuel as [|f]; [simpl in Hf; lia|]).
  - done.
  - simpl in Hp. apply andb_true_iff in Hp as [Hc Ht]. unfold plain_char in Hc. bool_prop.
    cbn [String.append json_string].
    repeat match goal with H : Ascii.eqb _ _ = false |- _ => rewrite H; clear H end.
    rewrite (proj2 (Z.ltb_ge (code c) 32)), (proj2 (Z.ltb_lt (code c) 128)) by lia.
    rewrite IH; [done|done|simpl in Hf; lia].
Qed.

Lemma digit_string_plain ds :
  Forall (fun d => 0 <= d < 36) ds -> sall plain_char (digit_string ds EmptyString) = true.
Proof.
  intros Hall. induction Hall as [|d ds Hd Hall IH]; [done|]. cbn [digit_string sall].
  rewrite IH, andb_true_r. unfold plain_char. rewrite code_digit_char by done.
  assert (Hq : forall c, code c < 48 \/ 57 < code c < 97 -> Ascii.eqb (digit_char d) c = false).
  { intros c Hc. apply Ascii.eqb_neq. intros <-. rewrite code_digit_char in Hc by done.
    destruct (Z.ltb_spec d 10); lia. }
  rewrite !Hq by (vm_compute; intuition congruence). cbn [negb andb].
  destruct (Z.ltb_spec d 10); apply andb_true_iff; rewrite Z.leb_le, Z.ltb_lt; lia.
Qed.

Lemma FormatUint_plain v base :
  2 <= base <= 36 -> 0 <= v -> sall plain_char (FormatUint v base) = true.
Proof.
  intros Hb Hv. destruct (FormatUint_spec v base Hb Hv) as (ds & -> & Hall & _ & _).
  apply digit_string_plain. eapply Forall_impl; [exact Hall|simpl; lia].
Qed.

(** Text written as a sequence of members [  "k": "v"] separated by commas. *)
Fixpoint print_members (l : list (string * string)) : string :=
  match l with
  | [] => EmptyString
  | (k, v) :: l' =>
      "  " ++s String quote (k ++s String quote (": " ++s String quote (v ++s String quote
        (match l' with [] => EmptyString | _ => "," ++s String "010" (print_members l') end))))
  end.

Definition plain_pair (p : string * string) : Prop :=
  sall plain_char p.1 = true /\ sall plain_char p.2 = true.

Definition add_pair (m : gmap string string) (p : string * string) : gmap string string :=
  <[p.1 := p.2]> m.

Lemma skip_ws_print_members l :
  skip_ws (print_members l) = match l with [] => EmptyString | _ => sdrop 2 (print_members l) end.
Proof. by destruct l as [|[k v] l]. Qed.

Definition member_text (k v tail : string) : string :=
  String quote (k ++s String quote (String ":" (String " " (String quote (v ++s String quote tail))))).

Lemma json_members_step f m k v tail :
  plain_pair (k, v) ->
  json_members (S f) m (member_text k v tail) =
  match skip_ws tail with
  | String c5 s5 =>
      if Ascii.eqb c5 "}" then Some (<[k := v]> m, s5)
      else if Ascii.eqb c5 "," then json_members f (<[k := v]> m) (skip_ws s5)
      else None
  | EmptyString => None
  end.
Proof.
  intros [Hk Hv]. unfold member_text. cbn [json_members]. rewrite Ascii.eqb_refl. cbn [negb].
  rewrite json_string_plain by (try done; rewrite slen_app; lia).
  change (skip_ws (String ":" ?x)) with (String ":" x). cbv iota.
  change (Ascii.eqb ":" ":") with true. cbn [negb].
  change (json_value (skip_ws (String " " (String quote ?x)))) with (json_string (S (slen x)) x).
  by rewrite json_string_plain by (try done; rewrite slen_app; lia).
Qed.

Definition tail_text (l : list (string * string)) : string :=
  match l with [] => EmptyString | _ => "," ++s String "010" (print_members l) end.

Lemma print_members_cons k v l rest :
  print_members ((k, v) :: l) ++s rest = "  " ++s member_text k v (tail_text l ++s rest).
Proof.
  unfold member_text. cbn [print_members]. fold (tail_text l).
  repeat (rewrite ?sapp_assoc; cbn [String.append]). done.
Qed.

Lemma json_members_print fuel m k v l rest :
  Forall plain_pair ((k, v) :: l) -> (length l < fuel)%nat ->
  json_members fuel m (member_text k v (tail_text l ++s String "010" (String "}" rest))) =
  Some (fold_left add_pair ((k, v) :: l) m, rest).
Proof.
  revert fuel m k v. induction l as [|[k2 v2] l IH]; intros fuel m k v Hall Hf;
    (destruct fuel as [|f]; [simpl in Hf; lia|]); inversion Hall; subst;
    rewrite json_members_step by done; [done|].
  change (tail_text ((k2, v2) :: l)) with ("," ++s String "010" (print_members ((k2, v2) :: l))).
  rewrite sapp_assoc.
  change ("," ++s String "010" ?x ++s ?y) with (String "," (String "010" (x ++s y))).
  rewrite print_members_cons.
  change (skip_ws (String "," ?x)) with (String "," x). cbv iota.
  change (Ascii.eqb "," "}") with false. change (Ascii.eqb "," ",") with true. cbv iota.
  change (skip_ws (String "010" ("  " ++s member_text ?a ?b ?c))) with (member_text a b c).
  rewrite IH; [done|done|simpl in Hf; lia].
Qed.

Lemma slen_print_members l rest : (length l <= slen (print_members l ++s rest))%nat.
Proof.
  induction l as [|[k v] l IH]; [simpl; lia|]. rewrite print_members_cons. unfold member_text.
  cbn [String.append slen length]. rewrite slen_app. cbn [slen]. rewrite slen_app. cbn [slen].
  destruct l as [|p l]; [simpl; lia|].
  change (tail_text (p :: l)) with ("," ++s String "010" (print_members (p :: l))).
  rewrite sapp_assoc. set (t := print_members (p :: l) ++s rest) in *.
  change ("," ++s String "010" (print_members (p :: l)) ++s rest) with (String "," (String "010" t)).
  cbn [slen length] in *. lia.
Qed.

(** The decoder reads back an object printed one member per line. *)
Lemma Unmarshal_print k v l :
  Forall plain_pair ((k, v) :: l) ->
  Unmarshal (String "{" (String "010" (print_members ((k, v) :: l) ++s
             String "010" (String "}" (String "010" EmptyString))))) =
  Some (fold_left add_pair ((k, v) :: l) ∅).
Proof.
  intros Hall. pose proof (slen_print_members ((k, v) :: l) (String "010" (String "}" (String "010" EmptyString)))) as Hlen.
  rewrite print_members_cons in *. cbn [length] in Hlen.
  set (t := member_text k v _) in *.
  assert (E : Unmarshal (String "{" (String "010" ("  " ++s t))) =
              json_end (json_members (S (S (slen ("  " ++s t)))) ∅ t)) by done.
  rewrite E. unfold t. rewrite json_members_print; [done|done|fold t; lia].
Qed.
