(* ===== verification/Target.v ===== *)
(** * Target: loader/target.go

    The [/proc/<pid>/maps] readers [libartBase] and [libartDataRanges], the
    process lookup [resolvePidByName], the [/proc/<pid>/mem] reader and the
    [dump] subcommand.  The contents of files and the bytes a read of
    [/proc/<pid>/mem] delivers come from the kernel: they are arguments. *)

From S2P Require Import Prelude GoStr Strconv.

(** Errors the loader's functions return: an operating-system error, or a
    message built by [fmt.Errorf]. *)
Inductive goerr :=
| ErrOS
| ErrJSON
| Errorf (msg : string).

(** ** The maps file *)

(** The fields the loader takes from one line. *)
Record mapping := Mapping {
  mp_lo : Z;
  mp_hi : Z;
  mp_perms : string;
  mp_off : Z;
  mp_path : string
}.

(** [strings.Fields], the six-field test, the [lo-hi] split and the three
    [ParseUint(_, 16, 64)] calls whose errors are dropped. *)
Definition parse_mapping (ln : string) : option mapping :=
  match Fields ln with
  | f0 :: f1 :: f2 :: _ :: _ :: f5 :: _ =>
      match SplitN2 f0 "-" with
      | [a; b] => Some (Mapping (ParseUint a 16).1 (ParseUint b 16).1 f1 (ParseUint f2 16).1 f5)
      | _ => None
      end
  | _ => None
  end.

Definition maps_lines (data : string) : list string := Split data "010"%char.

(** ** libartBase *)

Record libart := Libart { la_base : Z; la_execLo : Z; la_execHi : Z }.

Definition libartBase_line (st : libart) (ln : string) : libart :=
  if negb (Contains ln "libart.so") then st
  else match parse_mapping ln with
       | None => st
       | Some m =>
           let base := if la_base st =? 0 then u64 (mp_lo m - mp_off m) else la_base st in
           if Contains (mp_perms m) "r-xp" then Libart base (mp_lo m) (mp_hi m)
           else Libart base (la_execLo st) (la_execHi st)
       end.

Definition libartBase (pid : Z) (maps : option string) : goerr + libart :=
  match maps with
  | None => inl ErrOS
  | Some data =>
      let st := fold_left libartBase_line (maps_lines data) (Libart 0 0 0) in
      if la_base st =? 0 then inl (Errorf ("libart not mapped in pid " ++s FormatInt pid 10))
      else inr st
  end.

(** ** libartDataRanges *)

Definition libartDataRanges_line (ln : string) : option (Z * Z) :=
  if negb (Contains ln "libart.so") then None
  else match parse_mapping ln with
       | None => None
       | Some m =>
           if Contains (mp_perms m) "x" then None
           else if mp_lo m <? mp_hi m then Some (mp_lo m, mp_hi m) else None
       end.

Definition libartDataRanges (maps : option string) : goerr + list (Z * Z) :=
  match maps with
  | None => inl ErrOS
  | Some data => inr (omap libartDataRanges_line (maps_lines data))
  end.

(** ** resolvePidByName

    [ents] is the directory listing of [/proc], [cmdline] the content of
    [/proc/<pid>/cmdline], [quoted] the [%q] rendering of the name. *)
Fixpoint resolve_entries (cmdline : Z -> option string) (sub : string) (ents : list string)
  : option Z :=
  match ents with
  | [] => None
  | e :: ents' =>
      match Atoi e with
      | (_, Some _) => resolve_entries cmdline sub ents'
      | (pid, None) =>
          match cmdline pid with
          | None => resolve_entries cmdline sub ents'
          | Some cmd => if Contains cmd sub then Some pid else resolve_entries cmdline sub ents'
          end
      end
  end.

Definition resolvePidByName (quoted : string -> string) (cmdline : Z -> option string)
    (proc : option (list string)) (sub : string) : goerr + Z :=
  match proc with
  | None => inl ErrOS
  | Some ents =>
      match resolve_entries cmdline sub ents with
      | Some pid => inr pid
      | None => inl (Errorf ("no process matching " ++s quoted sub))
      end
  end.

(** ** The memory reader *)

(** [pread off n]: the bytes the kernel delivers for a read of [n] bytes of
    [/proc/<pid>/mem] at [off], possibly fewer than [n]. *)
Record memReader := MemReader { pread : Z -> nat -> list byte }.

(** [os.File.ReadAt(b, off)]: no bytes for a negative offset, at most
    [len(b)] bytes; the error is non-nil exactly when fewer were read. *)
Definition ReadAt (m : memReader) (off : Z) (n : nat) : list byte :=
  if off <? 0 then [] else take n (pread m off n).

Definition mr_u64 (m : memReader) (a : Z) : option Z :=
  let b := ReadAt m (s64 a) 8 in
  if (length b <? 8)%nat then None else Some (le_val b).

Definition mr_u32 (m : memReader) (a : Z) : option Z :=
  let b := ReadAt m (s64 a) 4 in
  if (length b <? 4)%nat then None else Some (le_val b).

Definition string_of_bytes (bs : list byte) : string := String.string_of_list_ascii bs.

Fixpoint IndexByte_list (bs : list byte) (c : byte) : option nat :=
  match bs with
  | [] => None
  | b :: bs' => if Ascii.eqb b c then Some O else S <$> IndexByte_list bs' c
  end.

(** [buf] is a zeroed 256-byte buffer whose first [n] bytes were read. *)
Definition mr_cstr (mr : option memReader) (addr : Z) : string :=
  match mr with
  | None => ""
  | Some m =>
      if addr =? 0 then "" else
      let got := ReadAt m (s64 addr) 256 in
      if (length got =? 0)%nat then "" else
      let buf := got ++ repeat "000"%char (256 - length got) in
      string_of_bytes
        (match IndexByte_list got "000"%char with
         | Some i => take i buf
         | None => buf
         end)
  end.

(** ** runDump *)

Inductive exit := Exit (code : Z) | Returned.

Definition dump_line (m : memReader) (addr i : Z) : string :=
  let v := mr_u64 m (u64 (addr + i * 8)) in
  let mark := match v with Some _ => "*" | None => " " end in
  "  +0x" ++s pad_left "0" 3 (FormatUint (i * 8) 16) ++s " "
    ++s pad_left "0" 16 (FormatUint (default 0 v) 16) ++s " " ++s mark.

(** [openMem] gives the reader of a pid, or the error that [fatal] reports. *)
Definition runDump (openMem : Z -> option memReader) (args : list string)
  : exit * list string :=
  match args with
  | a0 :: a1 :: a2 :: rest =>
      let dpid := (Atoi a1).1 in
      let addr := (ParseUint (TrimPrefix a2 "0x") 16).1 in
      let words := match rest with [] => 16 | a3 :: _ => (Atoi a3).1 end in
      match openMem dpid with
      | None => (Exit 1, [])
      | Some m => (Returned, map (fun i => dump_line m addr (Z.of_nat i)) (seq 0 (Z.to_nat words)))
      end
  | _ => (Exit 2, ["usage: jniprobe dump <pid> <hexaddr> [words]"])
  end.

(** ** Specifications *)

(** The libart mappings of a maps file, in order. *)
Definition libart_mapping (ln : string) : option mapping :=
  if Contains ln "libart.so" then parse_mapping ln else None.

Definition libart_mappings (data : string) : list mapping := omap libart_mapping (maps_lines data).

Definition first_base (ms : list mapping) : Z :=
  from_option id 0 (head (filter (fun b => b <> 0) (map (fun m => u64 (mp_lo m - mp_off m)) ms))).

Definition exec_mapping (m : mapping) : bool := Contains (mp_perms m) "r-xp".

Definition last_exec (ms : list mapping) : Z * Z :=
  from_option (fun m => (mp_lo m, mp_hi m)) (0, 0) (last (filter (fun m => exec_mapping m = true) ms)).

(** ** Lemmas *)

Definition libart_step (st : libart) (m : mapping) : libart :=
  let base := if la_base st =? 0 then u64 (mp_lo m - mp_off m) else la_base st in
  if exec_mapping m then Libart base (mp_lo m) (mp_hi m)
  else Libart base (la_execLo st) (la_execHi st).

Lemma libartBase_line_step st ln :
  libartBase_line st ln = from_option (libart_step st) st (libart_mapping ln).
Proof.
  unfold libartBase_line, libart_mapping. destruct (Contains ln "libart.so"); [|done].
  by destruct (parse_mapping ln).
Qed.

Lemma libartBase_fold lines st :
  fold_left libartBase_line lines st = fold_left libart_step (omap libart_mapping lines) st.
Proof.
  revert st. induction lines as [|ln lines IH]; intros st; [done|].
  csimpl. rewrite libartBase_line_step. by destruct (libart_mapping ln).
Qed.

Lemma libart_fold_spec ms st :
  fold_left libart_step ms st =
  Libart (if la_base st =? 0 then first_base ms else la_base st)
         (from_option mp_lo (la_execLo st) (last (filter (fun m => exec_mapping m = true) ms)))
         (from_option mp_hi (la_execHi st) (last (filter (fun m => exec_mapping m = true) ms))).
Proof.
  revert st. induction ms as [|m ms IH]; intros st.
  - cbn. destruct st as [b lo hi]; cbn. by destruct (Z.eqb_spec b 0) as [->|].
  - cbn [fold_left]. rewrite IH. unfold libart_step, first_base. cbn [map].
    rewrite (filter_cons _ (u64 _)).
    destruct (exec_mapping m) eqn:Ex;
      [rewrite (filter_cons_True (fun m0 => exec_mapping m0 = true) m ms Ex), !last_cons | rewrite (filter_cons_False (fun m0 => exec_mapping m0 = true)) by congruence];
      cbn [la_base la_execLo la_execHi];
      destruct (Z.eqb_spec (la_base st) 0) as [Hb|Hb];
      try (rewrite (proj2 (Z.eqb_neq _ _) Hb));
      destruct (decide (u64 (mp_lo m - mp_off m) <> 0)) as [Hn|Hn];
      try (rewrite (proj2 (Z.eqb_neq _ _) Hn));
      try (apply dec_stable in Hn; rewrite Hn); cbn;
      by destruct (last (filter (fun m0 => exec_mapping m0 = true) ms)).
Qed.

(** Equivalence with the declarative reading of the maps file: the base is
    the first non-zero [lo - offset] over the libart mappings, the
    executable range the last [r-xp] one, and the function fails exactly
    when the file cannot be read or no mapping gives a base. *)
Lemma libartBase_spec pid data :
  libartBase pid (Some data) =
  let ms := libart_mappings data in
  if first_base ms =? 0 then inl (Errorf ("libart not mapped in pid " ++s FormatInt pid 10))
  else inr (Libart (first_base ms) (last_exec ms).1 (last_exec ms).2).
Proof.
  unfold libartBase. rewrite libartBase_fold, libart_fold_spec. cbn.
  unfold last_exec, libart_mappings.
  by destruct (last _).
Qed.

Lemma first_base_In ms b :
  first_base ms = b -> b <> 0 -> exists m, In m ms /\ b = u64 (mp_lo m - mp_off m).
Proof.
  unfold first_base. intros <- Hb. induction ms as [|m ms IH]; [done|].
  cbn [map] in *. rewrite filter_cons in *.
  destruct (decide (u64 (mp_lo m - mp_off m) <> 0)) as [H|H].
  - exists m. split; [by left|done].
  - destruct IH as (m' & Hin & E); [done|]. exists m'. split; [by right|done].
Qed.

Lemma last_exec_In ms :
  last_exec ms <> (0, 0) ->
  exists m, In m ms /\ last_exec ms = (mp_lo m, mp_hi m) /\ exec_mapping m = true.
Proof.
  unfold last_exec. intros H. destruct (last _) as [m|] eqn:E; [|done].
  exists m. apply last_Some in E as [l E].
  assert (Hin : m ∈ filter (fun m => exec_mapping m = true) ms)
    by (rewrite E; apply elem_of_app; right; by apply list_elem_of_singleton).
  apply list_elem_of_filter in Hin as [Hx Hin]. rewrite <- list_elem_of_In. done.
Qed.

Lemma libartDataRanges_ok data rs :
  libartDataRanges (Some data) = inr rs ->
  Forall (fun r => r.1 < r.2 /\ exists m, In m (libart_mappings data) /\
                   r = (mp_lo m, mp_hi m) /\ Contains (mp_perms m) "x" = false) rs.
Proof.
  intros [= <-]. apply Forall_forall. intros [lo hi] Hin.
  apply list_elem_of_omap in Hin as (ln & Hln & E).
  unfold libartDataRanges_line in E.
  destruct (Contains ln "libart.so") eqn:Hc; [|done]. simpl in E.
  destruct (parse_mapping ln) as [m|] eqn:Hp; [|done].
  destruct (Contains (mp_perms m) "x") eqn:Hx; [done|].
  destruct (Z.ltb_spec (mp_lo m) (mp_hi m)); [|done]. simplify_eq. split; [done|].
  exists m. split; [|done]. apply list_elem_of_In, list_elem_of_omap.
  exists ln. split; [done|]. unfold libart_mapping. by rewrite Hc.
Qed.

(** *** The memory reader *)

Lemma length_ReadAt m off n : (length (ReadAt m off n) <= n)%nat.
Proof. unfold ReadAt. destruct (off <? 0); simpl; [lia|]. rewrite length_take. lia. Qed.

Lemma mr_u64_range m a v : mr_u64 m a = Some v -> fits 64 v.
Proof.
  unfold mr_u64. destruct (Nat.ltb_spec (length (ReadAt m (s64 a) 8)) 8); [done|].
  intros [= <-]. pose proof (le_val_range (ReadAt m (s64 a) 8)) as H1.
  pose proof (length_ReadAt m (s64 a) 8). replace (length _) with 8%nat in H1 by lia. done.
Qed.

Lemma mr_u32_range m a v : mr_u32 m a = Some v -> fits 32 v.
Proof.
  unfold mr_u32. destruct (Nat.ltb_spec (length (ReadAt m (s64 a) 4)) 4); [done|].
  intros [= <-]. pose proof (le_val_range (ReadAt m (s64 a) 4)) as H1.
  pose proof (length_ReadAt m (s64 a) 4). replace (length _) with 4%nat in H1 by lia. done.
Qed.

(** Reads at or above 2^63 fail: the offset is negative as an [int64]. *)
Lemma mr_u64_kernel_half m a : 2 ^ 63 <= a < 2 ^ 64 -> mr_u64 m a = None.
Proof.
  intros Ha. unfold mr_u64, ReadAt. destruct (Z.ltb_spec (s64 a) 0); [done|]. word_lia.
Qed.

Lemma slen_of_bytes bs : slen (string_of_bytes bs) = length bs.
Proof. induction bs; simpl; auto. Qed.

Lemma slen_cstr mr addr : (slen (mr_cstr mr addr) <= 256)%nat.
Proof.
  unfold mr_cstr. destruct mr as [m|]; [|simpl; lia]. destruct (addr =? 0); [simpl; lia|].
  pose proof (length_ReadAt m (s64 addr) 256).
  destruct (Nat.eqb_spec (length (ReadAt m (s64 addr) 256)) 0); [simpl; lia|].
  rewrite slen_of_bytes. destruct (IndexByte_list _ _).
  - rewrite length_take, length_app, repeat_length. lia.
  - rewrite length_app, repeat_length. lia.
Qed.

Lemma IndexByte_list_app a c b :
  ~ In c a -> IndexByte_list (a ++ c :: b) c = Some (length a).
Proof.
  induction a as [|d a IH]; simpl; intros H; [by rewrite Ascii.eqb_refl|].
  destruct (Ascii.eqb_spec d c) as [->|]; [tauto|]. rewrite IH by tauto. done.
Qed.

(** A NUL-terminated string of at most 255 bytes is read back exactly,
    whatever follows the terminator. *)
Lemma mr_cstr_exact m addr (bs rest : list byte) :
  addr <> 0 -> ~ In "000"%char bs ->
  ReadAt m (s64 addr) 256 = bs ++ "000"%char :: rest ->
  mr_cstr (Some m) addr = string_of_bytes bs.
Proof.
  intros Ha Hnul Hread. unfold mr_cstr.
  destruct (Z.eqb_spec addr 0); [done|]. rewrite Hread, length_app. cbn [length].
  destruct (Nat.eqb_spec (length bs + S (length rest)) 0); [lia|].
  rewrite IndexByte_list_app by done. f_equal.
  rewrite <- app_assoc. apply take_app_length.
Qed.

(** When no terminator was read, the text is what was read and then the zero bytes
    of the 256-byte buffer. *)
Lemma mr_cstr_unterminated m addr :
  addr <> 0 -> ReadAt m (s64 addr) 256 <> [] -> ~ In "000"%char (ReadAt m (s64 addr) 256) ->
  let got := ReadAt m (s64 addr) 256 in
  mr_cstr (Some m) addr = string_of_bytes (got ++ repeat "000"%char (256 - length got)).
Proof.
  intros Ha Hne Hnul. unfold mr_cstr. destruct (Z.eqb_spec addr 0); [done|].
  destruct (Nat.eqb_spec (length (ReadAt m (s64 addr) 256)) 0) as [E|]; [by apply length_zero_iff_nil in E|].
  assert (Hi : forall bs, ~ In "000"%char bs -> IndexByte_list bs "000"%char = None).
  { induction bs as [|b bs IH]; simpl; intros Hn; [done|].
    destruct (Ascii.eqb_spec b "000"%char); [tauto|]. by rewrite IH by tauto. }
  by rewrite Hi.
Qed.

(** ** Properties *)

(** [libartBase] computes its reading of the maps file: over the lines that
    mention libart and parse as mappings, the base is the first non-zero
    [start - offset] and comes from one of them, the executable range is the
    last [r-xp] mapping, and the error is returned exactly when the file
    cannot be read or no mapping gives a base. *)
Theorem libartBase_correct pid maps :
  match maps with
  | None => exists e, libartBase pid None = inl e
  | Some data =>
      let ms := libart_mappings data in
      (libartBase pid (Some data) =
        if first_base ms =? 0 then inl (Errorf ("libart not mapped in pid " ++s FormatInt pid 10))
        else inr (Libart (first_base ms) (last_exec ms).1 (last_exec ms).2)) /\
      (first_base ms <> 0 -> exists m, In m ms /\ first_base ms = u64 (mp_lo m - mp_off m)) /\
      (last_exec ms <> (0, 0) ->
        exists m, In m ms /\ last_exec ms = (mp_lo m, mp_hi m) /\ exec_mapping m = true)
  end.
Proof.
  destruct maps as [data|]; [|by eexists]. split; [apply libartBase_spec|].
  split; [intros Hb; by apply (first_base_In _ _ eq_refl)|apply last_exec_In].
Qed.

(** C35. Reading a C string from the target, for every answer of the kernel.  Where
    nothing can be read the text is empty; when a terminator is among the bytes
    read, at most 256, the text is exactly the bytes before the first one; and
    when there is none the text is all the bytes read and then, if the read
    stopped short, the zero bytes of the rest of the buffer, 256 bytes in all. *)
Theorem cstr_correct m addr :
  let got := ReadAt m (s64 addr) 256 in
  (addr = 0 \/ got = [] -> mr_cstr (Some m) addr = "") /\
  (forall bs rest, addr <> 0 -> ~ In "000"%char bs -> got = bs ++ "000"%char :: rest ->
     mr_cstr (Some m) addr = string_of_bytes bs) /\
  (addr <> 0 -> got <> [] -> ~ In "000"%char got ->
     mr_cstr (Some m) addr = string_of_bytes (got ++ repeat "000"%char (256 - length got)) /\
     slen (mr_cstr (Some m) addr) = 256%nat).
Proof.
  intros got. split; [|split; [intros bs rest; apply mr_cstr_exact|]].
  - unfold mr_cstr. fold got. intros [->| ->]; [done|]. by destruct (addr =? 0).
  - intros Ha Hne Hn. pose proof (mr_cstr_unterminated m addr Ha Hne Hn) as E. split; [exact E|].
    rewrite E, slen_of_bytes, length_app, repeat_length. pose proof (length_ReadAt m (s64 addr) 256). lia.
Qed.

(** How the target is found by name: the first numeric entry of /proc, in
    directory order, whose command line contains the text.  Nothing excludes
    the tracer itself, whose own command line contains the name it was given:
    whenever its entry comes before the application's, it traces itself. *)
Theorem resolve_first cmdline sub pre e post pid :
  (forall e' pid', In e' pre -> Atoi e' = (pid', None) ->
     match cmdline pid' with Some cmd => Contains cmd sub = false | None => True end) ->
  Atoi e = (pid, None) -> (exists cmd, cmdline pid = Some cmd /\ Contains cmd sub = true) ->
  resolve_entries cmdline sub (pre ++ e :: post) = Some pid.
Proof.
  intros Hpre He (cmd & Hc & Hs). induction pre as [|e' pre IH]; cbn [app resolve_entries].
  - by rewrite He, Hc, Hs.
  - rewrite IH by (intros e2 p2 Hin; apply Hpre; by right).
    specialize (Hpre e' (Atoi e').1 (or_introl eq_refl)).
    destruct (Atoi e') as [pid' [err|]]; [done|]. specialize (Hpre eq_refl). cbn [fst] in Hpre.
    destruct (cmdline pid'); [by rewrite Hpre|done].
Qed.

(** ** Examples *)

(** The tracer is process 1000 and the application 998: directory order puts
    the tracer first. *)
Definition demo_cmdline (pid : Z) : option string :=
  if pid =? 1000 then Some "jniprobe -n com.app" else if pid =? 998 then Some "com.app" else None.

Lemma resolve_first_witness : resolve_entries demo_cmdline "com.app" ["1000"; "998"; "self"] = Some 1000.
Proof.
  apply (resolve_first demo_cmdline "com.app" [] "1000" ["998"; "self"] 1000).
  - intros e' pid' [].
  - vm_compute. reflexivity.
  - exists "jniprobe -n com.app". split; vm_compute; reflexivity.
Defined.

Definition libart_maps : string :=
  "7000000000-7000100000 r--p 00000000 fe:00 1 /apex/lib64/libart.so" ++s String.String "010"
  ("7000100000-7000200000 r-xp 00100000 fe:00 1 /apex/lib64/libart.so").

Lemma libartBase_correct_witness :
  libartBase 41 (Some libart_maps) = inr (Libart 0x7000000000 0x7000100000 0x7000200000).
Proof. rewrite (proj1 (libartBase_correct 41 (Some libart_maps))). vm_compute. reflexivity. Defined.

Definition text_reader (bs : list byte) : memReader := MemReader (fun _ _ => bs).

Lemma cstr_correct_witness :
  mr_cstr (Some (text_reader ["a"%char; "b"%char; "000"%char; "c"%char])) 0x5000 = "ab" /\
  mr_cstr (Some (text_reader ["a"%char])) 0x5000 = string_of_bytes ("a"%char :: repeat "000"%char 255).
Proof.
  split.
  - apply (proj1 (proj2 (cstr_correct (text_reader ["a"%char; "b"%char; "000"%char; "c"%char]) 0x5000))
      ["a"%char; "b"%char] ["c"%char]).
    + lia.
    + intros [E|[E|[]]]; discriminate.
    + vm_compute. reflexivity.
  - refine (proj1 (proj2 (proj2 (cstr_correct (text_reader ["a"%char]) 0x5000)) _ _ _)).
    + lia.
    + vm_compute. discriminate.
    + vm_compute. intros [E|[]]. discriminate.
Defined.
