(* ===== verification/Schema.v ===== *)
(** * Schema: loader/jni_schema.go, loader/jni_names.go, loader/schema.go

    The slot table of [JNINativeInterface]: for each of the 233 slots the
    function's name, argument types and return type, transcribed entry by
    entry, and the accessors and the [category] classifier built on it. *)

From S2P Require Import Prelude GoStr Strconv.

Record jniFunc := JniFunc { Name : string; Args : list string; Ret : string }.

(** Slots 0 to 119 and 120 to 232 of [jniSchema]. *)
Definition jniSchema_lo : list jniFunc := [
  JniFunc "reserved0" [] "void";
  JniFunc "reserved1" [] "void";
  JniFunc "reserved2" [] "void";
  JniFunc "reserved3" [] "void";
  JniFunc "GetVersion" ["JNIEnv*"] "jint";
  JniFunc "DefineClass" ["JNIEnv*"; "char*"; "jobject"; "jbyte*"; "jsize"] "jclass";
  JniFunc "FindClass" ["JNIEnv*"; "char*"] "jclass";
  JniFunc "FromReflectedMethod" ["JNIEnv*"; "jobject"] "jmethodID";
  JniFunc "FromReflectedField" ["JNIEnv*"; "jobject"] "jfieldID";
  JniFunc "ToReflectedMethod" ["JNIEnv*"; "jclass"; "jmethodID"; "jboolean"] "jobject";
  JniFunc "GetSuperclass" ["JNIEnv*"; "jclass"] "jclass";
  JniFunc "IsAssignableFrom" ["JNIEnv*"; "jclass"; "jclass"] "jboolean";
  JniFunc "ToReflectedField" ["JNIEnv*"; "jclass"; "jfieldID"; "jboolean"] "jobject";
  JniFunc "Throw" ["JNIEnv*"; "jthrowable"] "jint";
  JniFunc "ThrowNew" ["JNIEnv*"; "jclass"; "char*"] "jint";
  JniFunc "ExceptionOccurred" ["JNIEnv*"] "jthrowable";
  JniFunc "ExceptionDescribe" ["JNIEnv*"] "void";
  JniFunc "ExceptionClear" ["JNIEnv*"] "void";
  JniFunc "FatalError" ["JNIEnv*"; "char*"] "void";
  JniFunc "PushLocalFrame" ["JNIEnv*"; "jint"] "jint";
  JniFunc "PopLocalFrame" ["JNIEnv*"; "jobject"] "jobject";
  JniFunc "NewGlobalRef" ["JNIEnv*"; "jobject"] "jobject";
  JniFunc "DeleteGlobalRef" ["JNIEnv*"; "jobject"] "void";
  JniFunc "DeleteLocalRef" ["JNIEnv*"; "jobject"] "void";
  JniFunc "IsSameObject" ["JNIEnv*"; "jobject"; "jobject"] "jboolean";
  JniFunc "NewLocalRef" ["JNIEnv*"; "jobject"] "jobject";
  JniFunc "EnsureLocalCapacity" ["JNIEnv*"; "jint"] "jint";
  JniFunc "AllocObject" ["JNIEnv*"; "jclass"] "jobject";
  JniFunc "NewObject" ["JNIEnv*"; "jclass"; "jmethodID"; "..."] "jobject";
  JniFunc "NewObjectV" ["JNIEnv*"; "jclass"; "jmethodID"; "va_list"] "jobject";
  JniFunc "NewObjectA" ["JNIEnv*"; "jclass"; "jmethodID"; "jvalue*"] "jobject";
  JniFunc "GetObjectClass" ["JNIEnv*"; "jobject"] "jclass";
  JniFunc "IsInstanceOf" ["JNIEnv*"; "jobject"; "jclass"] "jboolean";
  JniFunc "GetMethodID" ["JNIEnv*"; "jclass"; "char*"; "char*"] "jmethodID";
  JniFunc "CallObjectMethod" ["JNIEnv*"; "jobject"; "jmethodID"; "..."] "jobject";
  JniFunc "CallObjectMethodV" ["JNIEnv*"; "jobject"; "jmethodID"; "va_list"] "jobject";
  JniFunc "CallObjectMethodA" ["JNIEnv*"; "jobject"; "jmethodID"; "jvalue*"] "jobject";
  JniFunc "CallBooleanMethod" ["JNIEnv*"; "jobject"; "jmethodID"; "..."] "jboolean";
  JniFunc "CallBooleanMethodV" ["JNIEnv*"; "jobject"; "jmethodID"; "va_list"] "jboolean";
  JniFunc "CallBooleanMethodA" ["JNIEnv*"; "jobject"; "jmethodID"; "jvalue*"] "jboolean";
  JniFunc "CallByteMethod" ["JNIEnv*"; "jobject"; "jmethodID"; "..."] "jbyte";
  JniFunc "CallByteMethodV" ["JNIEnv*"; "jobject"; "jmethodID"; "va_list"] "jbyte";
  JniFunc "CallByteMethodA" ["JNIEnv*"; "jobject"; "jmethodID"; "jvalue*"] "jbyte";
  JniFunc "CallCharMethod" ["JNIEnv*"; "jobject"; "jmethodID"; "..."] "jchar";
  JniFunc "CallCharMethodV" ["JNIEnv*"; "jobject"; "jmethodID"; "va_list"] "jchar";
  JniFunc "CallCharMethodA" ["JNIEnv*"; "jobject"; "jmethodID"; "jvalue*"] "jchar";
  JniFunc "CallShortMethod" ["JNIEnv*"; "jobject"; "jmethodID"; "..."] "jshort";
  JniFunc "CallShortMethodV" ["JNIEnv*"; "jobject"; "jmethodID"; "va_list"] "jshort";
  JniFunc "CallShortMethodA" ["JNIEnv*"; "jobject"; "jmethodID"; "jvalue*"] "jshort";
  JniFunc "CallIntMethod" ["JNIEnv*"; "jobject"; "jmethodID"; "..."] "jint";
  JniFunc "CallIntMethodV" ["JNIEnv*"; "jobject"; "jmethodID"; "va_list"] "jint";
  JniFunc "CallIntMethodA" ["JNIEnv*"; "jobject"; "jmethodID"; "jvalue*"] "jint";
  JniFunc "CallLongMethod" ["JNIEnv*"; "jobject"; "jmethodID"; "..."] "jlong";
  JniFunc "CallLongMethodV" ["JNIEnv*"; "jobject"; "jmethodID"; "va_list"] "jlong";
  JniFunc "CallLongMethodA" ["JNIEnv*"; "jobject"; "jmethodID"; "jvalue*"] "jlong";
  JniFunc "CallFloatMethod" ["JNIEnv*"; "jobject"; "jmethodID"; "..."] "jfloat";
  JniFunc "CallFloatMethodV" ["JNIEnv*"; "jobject"; "jmethodID"; "va_list"] "jfloat";
  JniFunc "CallFloatMethodA" ["JNIEnv*"; "jobject"; "jmethodID"; "jvalue*"] "jfloat";
  JniFunc "CallDoubleMethod" ["JNIEnv*"; "jobject"; "jmethodID"; "..."] "jdouble";
  JniFunc "CallDoubleMethodV" ["JNIEnv*"; "jobject"; "jmethodID"; "va_list"] "jdouble";
  JniFunc "CallDoubleMethodA" ["JNIEnv*"; "jobject"; "jmethodID"; "jvalue*"] "jdouble";
  JniFunc "CallVoidMethod" ["JNIEnv*"; "jobject"; "jmethodID"; "..."] "void";
  JniFunc "CallVoidMethodV" ["JNIEnv*"; "jobject"; "jmethodID"; "va_list"] "void";
  JniFunc "CallVoidMethodA" ["JNIEnv*"; "jobject"; "jmethodID"; "jvalue*"] "void";
  JniFunc "CallNonvirtualObjectMethod" ["JNIEnv*"; "jobject"; "jclass"; "jmethodID"; "..."] "jobject";
  JniFunc "CallNonvirtualObjectMethodV" ["JNIEnv*"; "jobject"; "jclass"; "jmethodID"; "va_list"] "jobject";
  JniFunc "CallNonvirtualObjectMethodA" ["JNIEnv*"; "jobject"; "jclass"; "jmethodID"; "jvalue*"] "jobject";
  JniFunc "CallNonvirtualBooleanMethod" ["JNIEnv*"; "jobject"; "jclass"; "jmethodID"; "..."] "jboolean";
  JniFunc "CallNonvirtualBooleanMethodV" ["JNIEnv*"; "jobject"; "jclass"; "jmethodID"; "va_list"] "jboolean";
  JniFunc "CallNonvirtualBooleanMethodA" ["JNIEnv*"; "jobject"; "jclass"; "jmethodID"; "jvalue*"] "jboolean";
  JniFunc "CallNonvirtualByteMethod" ["JNIEnv*"; "jobject"; "jclass"; "jmethodID"; "..."] "jbyte";
  JniFunc "CallNonvirtualByteMethodV" ["JNIEnv*"; "jobject"; "jclass"; "jmethodID"; "va_list"] "jbyte";
  JniFunc "CallNonvirtualByteMethodA" ["JNIEnv*"; "jobject"; "jclass"; "jmethodID"; "jvalue*"] "jbyte";
  JniFunc "CallNonvirtualCharMethod" ["JNIEnv*"; "jobject"; "jclass"; "jmethodID"; "..."] "jchar";
  JniFunc "CallNonvirtualCharMethodV" ["JNIEnv*"; "jobject"; "jclass"; "jmethodID"; "va_list"] "jchar";
  JniFunc "CallNonvirtualCharMethodA" ["JNIEnv*"; "jobject"; "jclass"; "jmethodID"; "jvalue*"] "jchar";
  JniFunc "CallNonvirtualShortMethod" ["JNIEnv*"; "jobject"; "jclass"; "jmethodID"; "..."] "jshort";
  JniFunc "CallNonvirtualShortMethodV" ["JNIEnv*"; "jobject"; "jclass"; "jmethodID"; "va_list"] "jshort";
  JniFunc "CallNonvirtualShortMethodA" ["JNIEnv*"; "jobject"; "jclass"; "jmethodID"; "jvalue*"] "jshort";
  JniFunc "CallNonvirtualIntMethod" ["JNIEnv*"; "jobject"; "jclass"; "jmethodID"; "..."] "jint";
  JniFunc "CallNonvirtualIntMethodV" ["JNIEnv*"; "jobject"; "jclass"; "jmethodID"; "va_list"] "jint";
  JniFunc "CallNonvirtualIntMethodA" ["JNIEnv*"; "jobject"; "jclass"; "jmethodID"; "jvalue*"] "jint";
  JniFunc "CallNonvirtualLongMethod" ["JNIEnv*"; "jobject"; "jclass"; "jmethodID"; "..."] "jlong";
  JniFunc "CallNonvirtualLongMethodV" ["JNIEnv*"; "jobject"; "jclass"; "jmethodID"; "va_list"] "jlong";
  JniFunc "CallNonvirtualLongMethodA" ["JNIEnv*"; "jobject"; "jclass"; "jmethodID"; "jvalue*"] "jlong";
  JniFunc "CallNonvirtualFloatMethod" ["JNIEnv*"; "jobject"; "jclass"; "jmethodID"; "..."] "jfloat";
  JniFunc "CallNonvirtualFloatMethodV" ["JNIEnv*"; "jobject"; "jclass"; "jmethodID"; "va_list"] "jfloat";
  JniFunc "CallNonvirtualFloatMethodA" ["JNIEnv*"; "jobject"; "jclass"; "jmethodID"; "jvalue*"] "jfloat";
  JniFunc "CallNonvirtualDoubleMethod" ["JNIEnv*"; "jobject"; "jclass"; "jmethodID"; "..."] "jdouble";
  JniFunc "CallNonvirtualDoubleMethodV" ["JNIEnv*"; "jobject"; "jclass"; "jmethodID"; "va_list"] "jdouble";
  JniFunc "CallNonvirtualDoubleMethodA" ["JNIEnv*"; "jobject"; "jclass"; "jmethodID"; "jvalue*"] "jdouble";
  JniFunc "CallNonvirtualVoidMethod" ["JNIEnv*"; "jobject"; "jclass"; "jmethodID"; "..."] "void";
  JniFunc "CallNonvirtualVoidMethodV" ["JNIEnv*"; "jobject"; "jclass"; "jmethodID"; "va_list"] "void";
  JniFunc "CallNonvirtualVoidMethodA" ["JNIEnv*"; "jobject"; "jclass"; "jmethodID"; "jvalue*"] "void";
  JniFunc "GetFieldID" ["JNIEnv*"; "jclass"; "char*"; "char*"] "jfieldID";
  JniFunc "GetObjectField" ["JNIEnv*"; "jobject"; "jfieldID"] "jobject";
  JniFunc "GetBooleanField" ["JNIEnv*"; "jobject"; "jfieldID"] "jboolean";
  JniFunc "GetByteField" ["JNIEnv*"; "jobject"; "jfieldID"] "jbyte";
  JniFunc "GetCharField" ["JNIEnv*"; "jobject"; "jfieldID"] "jchar";
  JniFunc "GetShortField" ["JNIEnv*"; "jobject"; "jfieldID"] "jshort";
  JniFunc "GetIntField" ["JNIEnv*"; "jobject"; "jfieldID"] "jint";
  JniFunc "GetLongField" ["JNIEnv*"; "jobject"; "jfieldID"] "jlong";
  JniFunc "GetFloatField" ["JNIEnv*"; "jobject"; "jfieldID"] "jfloat";
  JniFunc "GetDoubleField" ["JNIEnv*"; "jobject"; "jfieldID"] "jdouble";
  JniFunc "SetObjectField" ["JNIEnv*"; "jobject"; "jfieldID"; "jobject"] "void";
  JniFunc "SetBooleanField" ["JNIEnv*"; "jobject"; "jfieldID"; "jboolean"] "void";
  JniFunc "SetByteField" ["JNIEnv*"; "jobject"; "jfieldID"; "jbyte"] "void";
  JniFunc "SetCharField" ["JNIEnv*"; "jobject"; "jfieldID"; "jchar"] "void";
  JniFunc "SetShortField" ["JNIEnv*"; "jobject"; "jfieldID"; "jshort"] "void";
  JniFunc "SetIntField" ["JNIEnv*"; "jobject"; "jfieldID"; "jint"] "void";
  JniFunc "SetLongField" ["JNIEnv*"; "jobject"; "jfieldID"; "jlong"] "void";
  JniFunc "SetFloatField" ["JNIEnv*"; "jobject"; "jfieldID"; "jfloat"] "void";
  JniFunc "SetDoubleField" ["JNIEnv*"; "jobject"; "jfieldID"; "jdouble"] "void";
  JniFunc "GetStaticMethodID" ["JNIEnv*"; "jclass"; "char*"; "char*"] "jmethodID";
  JniFunc "CallStaticObjectMethod" ["JNIEnv*"; "jclass"; "jmethodID"; "..."] "jobject";
  JniFunc "CallStaticObjectMethodV" ["JNIEnv*"; "jclass"; "jmethodID"; "va_list"] "jobject";
  JniFunc "CallStaticObjectMethodA" ["JNIEnv*"; "jclass"; "jmethodID"; "jvalue*"] "jobject";
  JniFunc "CallStaticBooleanMethod" ["JNIEnv*"; "jclass"; "jmethodID"; "..."] "jboolean";
  JniFunc "CallStaticBooleanMethodV" ["JNIEnv*"; "jclass"; "jmethodID"; "va_list"] "jboolean";
  JniFunc "CallStaticBooleanMethodA" ["JNIEnv*"; "jclass"; "jmethodID"; "jvalue*"] "jboolean"
].

Definition jniSchema_hi : list jniFunc := [
  JniFunc "CallStaticByteMethod" ["JNIEnv*"; "jclass"; "jmethodID"; "..."] "jbyte";
  JniFunc "CallStaticByteMethodV" ["JNIEnv*"; "jclass"; "jmethodID"; "va_list"] "jbyte";
  JniFunc "CallStaticByteMethodA" ["JNIEnv*"; "jclass"; "jmethodID"; "jvalue*"] "jbyte";
  JniFunc "CallStaticCharMethod" ["JNIEnv*"; "jclass"; "jmethodID"; "..."] "jchar";
  JniFunc "CallStaticCharMethodV" ["JNIEnv*"; "jclass"; "jmethodID"; "va_list"] "jchar";
  JniFunc "CallStaticCharMethodA" ["JNIEnv*"; "jclass"; "jmethodID"; "jvalue*"] "jchar";
  JniFunc "CallStaticShortMethod" ["JNIEnv*"; "jclass"; "jmethodID"; "..."] "jshort";
  JniFunc "CallStaticShortMethodV" ["JNIEnv*"; "jclass"; "jmethodID"; "va_list"] "jshort";
  JniFunc "CallStaticShortMethodA" ["JNIEnv*"; "jclass"; "jmethodID"; "jvalue*"] "jshort";
  JniFunc "CallStaticIntMethod" ["JNIEnv*"; "jclass"; "jmethodID"; "..."] "jint";
  JniFunc "CallStaticIntMethodV" ["JNIEnv*"; "jclass"; "jmethodID"; "va_list"] "jint";
  JniFunc "CallStaticIntMethodA" ["JNIEnv*"; "jclass"; "jmethodID"; "jvalue*"] "jint";
  JniFunc "CallStaticLongMethod" ["JNIEnv*"; "jclass"; "jmethodID"; "..."] "jlong";
  JniFunc "CallStaticLongMethodV" ["JNIEnv*"; "jclass"; "jmethodID"; "va_list"] "jlong";
  JniFunc "CallStaticLongMethodA" ["JNIEnv*"; "jclass"; "jmethodID"; "jvalue*"] "jlong";
  JniFunc "CallStaticFloatMethod" ["JNIEnv*"; "jclass"; "jmethodID"; "..."] "jfloat";
  JniFunc "CallStaticFloatMethodV" ["JNIEnv*"; "jclass"; "jmethodID"; "va_list"] "jfloat";
  JniFunc "CallStaticFloatMethodA" ["JNIEnv*"; "jclass"; "jmethodID"; "jvalue*"] "jfloat";
  JniFunc "CallStaticDoubleMethod" ["JNIEnv*"; "jclass"; "jmethodID"; "..."] "jdouble";
  JniFunc "CallStaticDoubleMethodV" ["JNIEnv*"; "jclass"; "jmethodID"; "va_list"] "jdouble";
  JniFunc "CallStaticDoubleMethodA" ["JNIEnv*"; "jclass"; "jmethodID"; "jvalue*"] "jdouble";
  JniFunc "CallStaticVoidMethod" ["JNIEnv*"; "jclass"; "jmethodID"; "..."] "void";
  JniFunc "CallStaticVoidMethodV" ["JNIEnv*"; "jclass"; "jmethodID"; "va_list"] "void";
  JniFunc "CallStaticVoidMethodA" ["JNIEnv*"; "jclass"; "jmethodID"; "jvalue*"] "void";
  JniFunc "GetStaticFieldID" ["JNIEnv*"; "jclass"; "char*"; "char*"] "jfieldID";
  JniFunc "GetStaticObjectField" ["JNIEnv*"; "jclass"; "jfieldID"] "jobject";
  JniFunc "GetStaticBooleanField" ["JNIEnv*"; "jclass"; "jfieldID"] "jboolean";
  JniFunc "GetStaticByteField" ["JNIEnv*"; "jclass"; "jfieldID"] "jbyte";
  JniFunc "GetStaticCharField" ["JNIEnv*"; "jclass"; "jfieldID"] "jchar";
  JniFunc "GetStaticShortField" ["JNIEnv*"; "jclass"; "jfieldID"] "jshort";
  JniFunc "GetStaticIntField" ["JNIEnv*"; "jclass"; "jfieldID"] "jint";
  JniFunc "GetStaticLongField" ["JNIEnv*"; "jclass"; "jfieldID"] "jlong";
  JniFunc "GetStaticFloatField" ["JNIEnv*"; "jclass"; "jfieldID"] "jfloat";
  JniFunc "GetStaticDoubleField" ["JNIEnv*"; "jclass"; "jfieldID"] "jdouble";
  JniFunc "SetStaticObjectField" ["JNIEnv*"; "jclass"; "jfieldID"; "jobject"] "void";
  JniFunc "SetStaticBooleanField" ["JNIEnv*"; "jclass"; "jfieldID"; "jboolean"] "void";
  JniFunc "SetStaticByteField" ["JNIEnv*"; "jclass"; "jfieldID"; "jbyte"] "void";
  JniFunc "SetStaticCharField" ["JNIEnv*"; "jclass"; "jfieldID"; "jchar"] "void";
  JniFunc "SetStaticShortField" ["JNIEnv*"; "jclass"; "jfieldID"; "jshort"] "void";
  JniFunc "SetStaticIntField" ["JNIEnv*"; "jclass"; "jfieldID"; "jint"] "void";
  JniFunc "SetStaticLongField" ["JNIEnv*"; "jclass"; "jfieldID"; "jlong"] "void";
  JniFunc "SetStaticFloatField" ["JNIEnv*"; "jclass"; "jfieldID"; "jfloat"] "void";
  JniFunc "SetStaticDoubleField" ["JNIEnv*"; "jclass"; "jfieldID"; "jdouble"] "void";
  JniFunc "NewString" ["JNIEnv*"; "jchar*"; "jsize"] "jstring";
  JniFunc "GetStringLength" ["JNIEnv*"; "jstring"] "jsize";
  JniFunc "GetStringChars" ["JNIEnv*"; "jstring"; "jboolean*"] "jchar*";
  JniFunc "ReleaseStringChars" ["JNIEnv*"; "jstring"; "jchar*"] "void";
  JniFunc "NewStringUTF" ["JNIEnv*"; "char*"] "jstring";
  JniFunc "GetStringUTFLength" ["JNIEnv*"; "jstring"] "jsize";
  JniFunc "GetStringUTFChars" ["JNIEnv*"; "jstring"; "jboolean*"] "char*";
  JniFunc "ReleaseStringUTFChars" ["JNIEnv*"; "jstring"; "char*"] "void";
  JniFunc "GetArrayLength" ["JNIEnv*"; "jarray"] "jsize";
  JniFunc "NewObjectArray" ["JNIEnv*"; "jsize"; "jclass"; "jobject"] "jobjectArray";
  JniFunc "GetObjectArrayElement" ["JNIEnv*"; "jobjectArray"; "jsize"] "jobject";
  JniFunc "SetObjectArrayElement" ["JNIEnv*"; "jobjectArray"; "jsize"; "jobject"] "void";
  JniFunc "NewBooleanArray" ["JNIEnv*"; "jsize"] "jbooleanArray";
  JniFunc "NewByteArray" ["JNIEnv*"; "jsize"] "jbyteArray";
  JniFunc "NewCharArray" ["JNIEnv*"; "jsize"] "jcharArray";
  JniFunc "NewShortArray" ["JNIEnv*"; "jsize"] "jshortArray";
  JniFunc "NewIntArray" ["JNIEnv*"; "jsize"] "jintArray";
  JniFunc "NewLongArray" ["JNIEnv*"; "jsize"] "jlongArray";
  JniFunc "NewFloatArray" ["JNIEnv*"; "jsize"] "jfloatArray";
  JniFunc "NewDoubleArray" ["JNIEnv*"; "jsize"] "jdoubleArray";
  JniFunc "GetBooleanArrayElements" ["JNIEnv*"; "jbooleanArray"; "jboolean*"] "jboolean*";
  JniFunc "GetByteArrayElements" ["JNIEnv*"; "jbyteArray"; "jboolean*"] "jbyte*";
  JniFunc "GetCharArrayElements" ["JNIEnv*"; "jcharArray"; "jboolean*"] "jchar*";
  JniFunc "GetShortArrayElements" ["JNIEnv*"; "jshortArray"; "jboolean*"] "jshort*";
  JniFunc "GetIntArrayElements" ["JNIEnv*"; "jintArray"; "jboolean*"] "jint*";
  JniFunc "GetLongArrayElements" ["JNIEnv*"; "jlongArray"; "jboolean*"] "jlong*";
  JniFunc "GetFloatArrayElements" ["JNIEnv*"; "jfloatArray"; "jboolean*"] "jfloat*";
  JniFunc "GetDoubleArrayElements" ["JNIEnv*"; "jdoubleArray"; "jboolean*"] "jdouble*";
  JniFunc "ReleaseBooleanArrayElements" ["JNIEnv*"; "jbooleanArray"; "jboolean*"; "jint"] "void";
  JniFunc "ReleaseByteArrayElements" ["JNIEnv*"; "jbyteArray"; "jbyte*"; "jint"] "void";
  JniFunc "ReleaseCharArrayElements" ["JNIEnv*"; "jcharArray"; "jchar*"; "jint"] "void";
  JniFunc "ReleaseShortArrayElements" ["JNIEnv*"; "jshortArray"; "jshort*"; "jint"] "void";
  JniFunc "ReleaseIntArrayElements" ["JNIEnv*"; "jintArray"; "jint*"; "jint"] "void";
  JniFunc "ReleaseLongArrayElements" ["JNIEnv*"; "jlongArray"; "jlong*"; "jint"] "void";
  JniFunc "ReleaseFloatArrayElements" ["JNIEnv*"; "jfloatArray"; "jfloat*"; "jint"] "void";
  JniFunc "ReleaseDoubleArrayElements" ["JNIEnv*"; "jdoubleArray"; "jdouble*"; "jint"] "void";
  JniFunc "GetBooleanArrayRegion" ["JNIEnv*"; "jbooleanArray"; "jsize"; "jsize"; "jboolean*"] "void";
  JniFunc "GetByteArrayRegion" ["JNIEnv*"; "jbyteArray"; "jsize"; "jsize"; "jbyte*"] "void";
  JniFunc "GetCharArrayRegion" ["JNIEnv*"; "jcharArray"; "jsize"; "jsize"; "jchar*"] "void";
  JniFunc "GetShortArrayRegion" ["JNIEnv*"; "jshortArray"; "jsize"; "jsize"; "jshort*"] "void";
  JniFunc "GetIntArrayRegion" ["JNIEnv*"; "jintArray"; "jsize"; "jsize"; "jint*"] "void";
  JniFunc "GetLongArrayRegion" ["JNIEnv*"; "jlongArray"; "jsize"; "jsize"; "jlong*"] "void";
  JniFunc "GetFloatArrayRegion" ["JNIEnv*"; "jfloatArray"; "jsize"; "jsize"; "jfloat*"] "void";
  JniFunc "GetDoubleArrayRegion" ["JNIEnv*"; "jdoubleArray"; "jsize"; "jsize"; "jdouble*"] "void";
  JniFunc "SetBooleanArrayRegion" ["JNIEnv*"; "jbooleanArray"; "jsize"; "jsize"; "jboolean*"] "void";
  JniFunc "SetByteArrayRegion" ["JNIEnv*"; "jbyteArray"; "jsize"; "jsize"; "jbyte*"] "void";
  JniFunc "SetCharArrayRegion" ["JNIEnv*"; "jcharArray"; "jsize"; "jsize"; "jchar*"] "void";
  JniFunc "SetShortArrayRegion" ["JNIEnv*"; "jshortArray"; "jsize"; "jsize"; "jshort*"] "void";
  JniFunc "SetIntArrayRegion" ["JNIEnv*"; "jintArray"; "jsize"; "jsize"; "jint*"] "void";
  JniFunc "SetLongArrayRegion" ["JNIEnv*"; "jlongArray"; "jsize"; "jsize"; "jlong*"] "void";
  JniFunc "SetFloatArrayRegion" ["JNIEnv*"; "jfloatArray"; "jsize"; "jsize"; "jfloat*"] "void";
  JniFunc "SetDoubleArrayRegion" ["JNIEnv*"; "jdoubleArray"; "jsize"; "jsize"; "jdouble*"] "void";
  JniFunc "RegisterNatives" ["JNIEnv*"; "jclass"; "JNINativeMethod*"; "jint"] "jint";
  JniFunc "UnregisterNatives" ["JNIEnv*"; "jclass"] "jint";
  JniFunc "MonitorEnter" ["JNIEnv*"; "jobject"] "jint";
  JniFunc "MonitorExit" ["JNIEnv*"; "jobject"] "jint";
  JniFunc "GetJavaVM" ["JNIEnv*"; "JavaVM**"] "jint";
  JniFunc "GetStringRegion" ["JNIEnv*"; "jstring"; "jsize"; "jsize"; "jchar*"] "void";
  JniFunc "GetStringUTFRegion" ["JNIEnv*"; "jstring"; "jsize"; "jsize"; "char*"] "void";
  JniFunc "GetPrimitiveArrayCritical" ["JNIEnv*"; "jarray"; "jboolean*"] "void";
  JniFunc "ReleasePrimitiveArrayCritical" ["JNIEnv*"; "jarray"; "void*"; "jint"] "void";
  JniFunc "GetStringCritical" ["JNIEnv*"; "jstring"; "jboolean*"] "jchar";
  JniFunc "ReleaseStringCritical" ["JNIEnv*"; "jstring"; "jchar*"] "void";
  JniFunc "NewWeakGlobalRef" ["JNIEnv*"; "jobject"] "jweak";
  JniFunc "DeleteWeakGlobalRef" ["JNIEnv*"; "jweak"] "void";
  JniFunc "ExceptionCheck" ["JNIEnv*"] "jboolean";
  JniFunc "NewDirectByteBuffer" ["JNIEnv*"; "void*"; "jlong"] "jobject";
  JniFunc "GetDirectBufferAddress" ["JNIEnv*"; "jobject"] "void";
  JniFunc "GetDirectBufferCapacity" ["JNIEnv*"; "jobject"] "jlong";
  JniFunc "GetObjectRefType" ["JNIEnv*"; "jobject"] "jobjectRefType"
].

Definition jniSchema : list jniFunc := jniSchema_lo ++ jniSchema_hi.

Definition jniNames_lo : list string := [
  "reserved0";
  "reserved1";
  "reserved2";
  "reserved3";
  "GetVersion";
  "DefineClass";
  "FindClass";
  "FromReflectedMethod";
  "FromReflectedField";
  "ToReflectedMethod";
  "GetSuperclass";
  "IsAssignableFrom";
  "ToReflectedField";
  "Throw";
  "ThrowNew";
  "ExceptionOccurred";
  "ExceptionDescribe";
  "ExceptionClear";
  "FatalError";
  "PushLocalFrame";
  "PopLocalFrame";
  "NewGlobalRef";
  "DeleteGlobalRef";
  "DeleteLocalRef";
  "IsSameObject";
  "NewLocalRef";
  "EnsureLocalCapacity";
  "AllocObject";
  "NewObject";
  "NewObjectV";
  "NewObjectA";
  "GetObjectClass";
  "IsInstanceOf";
  "GetMethodID";
  "CallObjectMethod";
  "CallObjectMethodV";
  "CallObjectMethodA";
  "CallBooleanMethod";
  "CallBooleanMethodV";
  "CallBooleanMethodA";
  "CallByteMethod";
  "CallByteMethodV";
  "CallByteMethodA";
  "CallCharMethod";
  "CallCharMethodV";
  "CallCharMethodA";
  "CallShortMethod";
  "CallShortMethodV";
  "CallShortMethodA";
  "CallIntMethod";
  "CallIntMethodV";
  "CallIntMethodA";
  "CallLongMethod";
  "CallLongMethodV";
  "CallLongMethodA";
  "CallFloatMethod";
  "CallFloatMethodV";
  "CallFloatMethodA";
  "CallDoubleMethod";
  "CallDoubleMethodV";
  "CallDoubleMethodA";
  "CallVoidMethod";
  "CallVoidMethodV";
  "CallVoidMethodA";
  "CallNonvirtualObjectMethod";
  "CallNonvirtualObjectMethodV";
  "CallNonvirtualObjectMethodA";
  "CallNonvirtualBooleanMethod";
  "CallNonvirtualBooleanMethodV";
  "CallNonvirtualBooleanMethodA";
  "CallNonvirtualByteMethod";
  "CallNonvirtualByteMethodV";
  "CallNonvirtualByteMethodA";
  "CallNonvirtualCharMethod";
  "CallNonvirtualCharMethodV";
  "CallNonvirtualCharMethodA";
  "CallNonvirtualShortMethod";
  "CallNonvirtualShortMethodV";
  "CallNonvirtualShortMethodA";
  "CallNonvirtualIntMethod";
  "CallNonvirtualIntMethodV";
  "CallNonvirtualIntMethodA";
  "CallNonvirtualLongMethod";
  "CallNonvirtualLongMethodV";
  "CallNonvirtualLongMethodA";
  "CallNonvirtualFloatMethod";
  "CallNonvirtualFloatMethodV";
  "CallNonvirtualFloatMethodA";
  "CallNonvirtualDoubleMethod";
  "CallNonvirtualDoubleMethodV";
  "CallNonvirtualDoubleMethodA";
  "CallNonvirtualVoidMethod";
  "CallNonvirtualVoidMethodV";
  "CallNonvirtualVoidMethodA";
  "GetFieldID";
  "GetObjectField";
  "GetBooleanField";
  "GetByteField";
  "GetCharField";
  "GetShortField";
  "GetIntField";
  "GetLongField";
  "GetFloatField";
  "GetDoubleField";
  "SetObjectField";
  "SetBooleanField";
  "SetByteField";
  "SetCharField";
  "SetShortField";
  "SetIntField";
  "SetLongField";
  "SetFloatField";
  "SetDoubleField";
  "GetStaticMethodID";
  "CallStaticObjectMethod";
  "CallStaticObjectMethodV";
  "CallStaticObjectMethodA";
  "CallStaticBooleanMethod";
  "CallStaticBooleanMethodV";
  "CallStaticBooleanMethodA"
].

Definition jniNames_hi : list string := [
  "CallStaticByteMethod";
  "CallStaticByteMethodV";
  "CallStaticByteMethodA";
  "CallStaticCharMethod";
  "CallStaticCharMethodV";
  "CallStaticCharMethodA";
  "CallStaticShortMethod";
  "CallStaticShortMethodV";
  "CallStaticShortMethodA";
  "CallStaticIntMethod";
  "CallStaticIntMethodV";
  "CallStaticIntMethodA";
  "CallStaticLongMethod";
  "CallStaticLongMethodV";
  "CallStaticLongMethodA";
  "CallStaticFloatMethod";
  "CallStaticFloatMethodV";
  "CallStaticFloatMethodA";
  "CallStaticDoubleMethod";
  "CallStaticDoubleMethodV";
  "CallStaticDoubleMethodA";
  "CallStaticVoidMethod";
  "CallStaticVoidMethodV";
  "CallStaticVoidMethodA";
  "GetStaticFieldID";
  "GetStaticObjectField";
  "GetStaticBooleanField";
  "GetStaticByteField";
  "GetStaticCharField";
  "GetStaticShortField";
  "GetStaticIntField";
  "GetStaticLongField";
  "GetStaticFloatField";
  "GetStaticDoubleField";
  "SetStaticObjectField";
  "SetStaticBooleanField";
  "SetStaticByteField";
  "SetStaticCharField";
  "SetStaticShortField";
  "SetStaticIntField";
  "SetStaticLongField";
  "SetStaticFloatField";
  "SetStaticDoubleField";
  "NewString";
  "GetStringLength";
  "GetStringChars";
  "ReleaseStringChars";
  "NewStringUTF";
  "GetStringUTFLength";
  "GetStringUTFChars";
  "ReleaseStringUTFChars";
  "GetArrayLength";
  "NewObjectArray";
  "GetObjectArrayElement";
  "SetObjectArrayElement";
  "NewBooleanArray";
  "NewByteArray";
  "NewCharArray";
  "NewShortArray";
  "NewIntArray";
  "NewLongArray";
  "NewFloatArray";
  "NewDoubleArray";
  "GetBooleanArrayElements";
  "GetByteArrayElements";
  "GetCharArrayElements";
  "GetShortArrayElements";
  "GetIntArrayElements";
  "GetLongArrayElements";
  "GetFloatArrayElements";
  "GetDoubleArrayElements";
  "ReleaseBooleanArrayElements";
  "ReleaseByteArrayElements";
  "ReleaseCharArrayElements";
  "ReleaseShortArrayElements";
  "ReleaseIntArrayElements";
  "ReleaseLongArrayElements";
  "ReleaseFloatArrayElements";
  "ReleaseDoubleArrayElements";
  "GetBooleanArrayRegion";
  "GetByteArrayRegion";
  "GetCharArrayRegion";
  "GetShortArrayRegion";
  "GetIntArrayRegion";
  "GetLongArrayRegion";
  "GetFloatArrayRegion";
  "GetDoubleArrayRegion";
  "SetBooleanArrayRegion";
  "SetByteArrayRegion";
  "SetCharArrayRegion";
  "SetShortArrayRegion";
  "SetIntArrayRegion";
  "SetLongArrayRegion";
  "SetFloatArrayRegion";
  "SetDoubleArrayRegion";
  "RegisterNatives";
  "UnregisterNatives";
  "MonitorEnter";
  "MonitorExit";
  "GetJavaVM";
  "GetStringRegion";
  "GetStringUTFRegion";
  "GetPrimitiveArrayCritical";
  "ReleasePrimitiveArrayCritical";
  "GetStringCritical";
  "ReleaseStringCritical";
  "NewWeakGlobalRef";
  "DeleteWeakGlobalRef";
  "ExceptionCheck";
  "NewDirectByteBuffer";
  "GetDirectBufferAddress";
  "GetDirectBufferCapacity";
  "GetObjectRefType"
].

Definition jniNames : list string := jniNames_lo ++ jniNames_hi.

(** ** schema.go *)

Definition slot_entry (slot : Z) : option jniFunc :=
  if (0 <=? slot) && (slot <? Z.of_nat (length jniSchema)) then jniSchema !! Z.to_nat slot else None.

Definition slotName (slot : Z) : string :=
  match slot_entry slot with
  | Some f => Name f
  | None =>
      if (0 <=? slot) && (slot <? Z.of_nat (length jniNames))
      then nth (Z.to_nat slot) jniNames ""
      else "slot" ++s FormatInt slot 10
  end.

Definition slotRet (slot : Z) : string :=
  match slot_entry slot with Some f => Ret f | None => "void" end.

Definition slotArgs (slot : Z) : list string :=
  match slot_entry slot with Some f => Args f | None => [] end.

Definition category (name : string) : string :=
  if HasPrefix name "Call" && Contains name "Method" then "call"
  else if HasPrefix name "NewObject" || String.eqb name "AllocObject" then "new"
  else if ((HasPrefix name "Get" || HasPrefix name "Set") && HasSuffix name "Field")
          || HasSuffix name "FieldID" then "field"
  else if String.eqb name "FindClass" || String.eqb name "DefineClass"
          || String.eqb name "GetSuperclass" || String.eqb name "IsAssignableFrom"
          || String.eqb name "GetObjectClass" || String.eqb name "IsInstanceOf" then "class"
  else if Contains name "String" then "string"
  else "other".

(** decode.go: the argument index of the jmethodID of a call variant. *)
Definition isCallMethod (n : string) : option Z :=
  if HasPrefix n "NewObject" then Some 2
  else if HasPrefix n "Call" && Contains n "Method" then
    if Contains n "Nonvirtual" then Some 3 else Some 2
  else None.

(** ** Lemmas *)

Lemma length_jniSchema : length jniSchema = 233%nat.
Proof. vm_compute. reflexivity. Qed.

Lemma length_jniNames : length jniNames = 233%nat.
Proof. vm_compute. reflexivity. Qed.

Lemma jniNames_schema : jniNames = map Name jniSchema.
Proof. vm_compute. reflexivity. Qed.

(** Every slot index in range. *)
Definition all_slots : list Z := map Z.of_nat (seq 0 (length jniSchema)).

Lemma all_slots_spec slot : In slot all_slots <-> 0 <= slot < 233.
Proof.
  unfold all_slots. rewrite length_jniSchema, in_map_iff. split.
  - intros (n & <- & Hn). apply in_seq in Hn. lia.
  - intros Hs. exists (Z.to_nat slot). rewrite in_seq. lia.
Qed.

(** A boolean property checked on the whole table holds of every slot. *)
Lemma all_slots_forall (P : Z -> bool) :
  forallb P all_slots = true -> forall slot, 0 <= slot < 233 -> P slot = true.
Proof. rewrite forallb_forall. intros H slot Hs. by apply H, all_slots_spec. Qed.

Lemma in_table slot : (0 <=? slot) && (slot <? 233) = bool_decide (0 <= slot < 233).
Proof.
  destruct (Z.leb_spec 0 slot), (Z.ltb_spec slot 233); cbn [andb];
    symmetry; (apply bool_decide_eq_true; lia) || (apply bool_decide_eq_false; lia).
Qed.

Lemma slot_entry_out slot : slot < 0 \/ 233 <= slot -> slot_entry slot = None.
Proof.
  intros Hs. unfold slot_entry. rewrite length_jniSchema. change (Z.of_nat 233) with 233.
  rewrite in_table, bool_decide_eq_false_2 by lia. done.
Qed.

Lemma slot_entry_in slot :
  0 <= slot < 233 -> exists f, slot_entry slot = Some f /\ jniSchema !! Z.to_nat slot = Some f.
Proof.
  intros Hs. unfold slot_entry. rewrite length_jniSchema. change (Z.of_nat 233) with 233.
  rewrite in_table, bool_decide_eq_true_2 by lia.
  destruct (jniSchema !! Z.to_nat slot) eqn:E; [eauto|].
  apply lookup_ge_None in E. rewrite length_jniSchema in E. lia.
Qed.

Lemma slotName_out slot :
  slot < 0 \/ 233 <= slot -> slotName slot = "slot" ++s FormatInt slot 10.
Proof.
  intros Hs. unfold slotName. rewrite slot_entry_out by done. rewrite length_jniNames.
  change (Z.of_nat 233) with 233. rewrite in_table, bool_decide_eq_false_2 by lia. done.
Qed.

Lemma slotRet_out slot : slot < 0 \/ 233 <= slot -> slotRet slot = "void".
Proof. intros Hs. unfold slotRet. by rewrite slot_entry_out. Qed.

Fixpoint nodupb (l : list string) : bool :=
  match l with
  | [] => true
  | x :: l' => negb (existsb (String.eqb x) l') && nodupb l'
  end.

Lemma nodupb_NoDup l : nodupb l = true -> NoDup l.
Proof.
  induction l as [|x l IH]; simpl; intros H; [constructor|]. bool_prop.
  constructor; [|auto]. rewrite list_elem_of_In. intros Hin.
  assert (E : existsb (String.eqb x) l = true); [|congruence].
  apply existsb_exists. exists x. split; [done|apply String.eqb_refl].
Qed.

Lemma jniNames_NoDup : NoDup jniNames.
Proof. apply nodupb_NoDup. vm_compute. reflexivity. Qed.

Lemma slotName_nth slot : 0 <= slot < 233 -> jniNames !! Z.to_nat slot = Some (slotName slot).
Proof.
  intros Hs. destruct (slot_entry_in slot Hs) as (f & E & E').
  unfold slotName. rewrite E, jniNames_schema.
  change (map Name jniSchema) with (Name <$> jniSchema). by rewrite list_lookup_fmap, E'.
Qed.

Lemma slotName_inj a b : 0 <= a < 233 -> 0 <= b < 233 -> slotName a = slotName b -> a = b.
Proof.
  intros Ha Hb E. apply slotName_nth in Ha as Ha', Hb as Hb'. rewrite E in Ha'.
  pose proof (NoDup_lookup _ _ _ _ jniNames_NoDup Ha' Hb'). lia.
Qed.

(** ** Properties *)

(** The two generated tables agree and identify a function by its slot: the
    fallback name table is the schema's name column, all 233 names are
    distinct, every slot of the table has the name at its index (so no two
    slots share a name), and a slot outside it gets a name of the form
    ["slot<n>"], no arguments and return type [void]. *)
Theorem slot_tables :
  jniNames = map Name jniSchema /\ NoDup jniNames /\
  (forall slot, 0 <= slot < 233 -> jniNames !! Z.to_nat slot = Some (slotName slot)) /\
  (forall a b, 0 <= a < 233 -> 0 <= b < 233 -> slotName a = slotName b -> a = b) /\
  (forall slot, slot < 0 \/ 233 <= slot ->
     slotName slot = "slot" ++s FormatInt slot 10 /\ slotRet slot = "void" /\ slotArgs slot = []).
Proof.
  split; [apply jniNames_schema|]. split; [apply jniNames_NoDup|].
  split; [apply slotName_nth|]. split; [apply slotName_inj|].
  intros slot Hs. split; [by apply slotName_out|]. split; [by apply slotRet_out|].
  unfold slotArgs. by rewrite slot_entry_out.
Qed.

(** How a call variant takes its arguments, by the name's ending. *)
Definition argument_style (nm : string) : string :=
  if HasSuffix nm "A" then "jvalue*" else if HasSuffix nm "V" then "va_list" else "...".

Definition is_style (t : string) : bool := existsb (String.eqb t) ["jvalue*"; "va_list"; "..."].

Definition call_shape (slot : Z) : bool :=
  match isCallMethod (slotName slot) with
  | Some i =>
      String.eqb (slotName slot) "NewObjectArray" ||
      (String.eqb (nth (Z.to_nat i) (slotArgs slot) "") "jmethodID" &&
       String.eqb (nth (Z.to_nat i + 1) (slotArgs slot) "") (argument_style (slotName slot)) &&
       (length (slotArgs slot) =? Z.to_nat i + 2)%nat)
  | None => negb (existsb is_style (slotArgs slot))
  end.

Lemma call_shapes : forallb call_shape all_slots = true.
Proof. vm_compute. reflexivity. Qed.

(** [isCallMethod] classifies the whole function table: with the one
    exception of [NewObjectArray], a function it accepts has its [jmethodID]
    at the index it gives and its arguments in the last place, in the style
    (jvalue array, va_list or variadic) that the name's ending says; and no
    function it rejects takes Java arguments. *)
Theorem isCallMethod_schema slot : 0 <= slot < 233 ->
  match isCallMethod (slotName slot) with
  | Some i => slotName slot = "NewObjectArray" \/
      (nth (Z.to_nat i) (slotArgs slot) "" = "jmethodID" /\
       nth (Z.to_nat i + 1) (slotArgs slot) "" = argument_style (slotName slot) /\
       length (slotArgs slot) = (Z.to_nat i + 2)%nat)
  | None => forall t, In t (slotArgs slot) -> t <> "jvalue*" /\ t <> "va_list" /\ t <> "..."
  end.
Proof.
  intros Hs. pose proof (all_slots_forall call_shape call_shapes slot Hs) as H. unfold call_shape in H.
  destruct (isCallMethod (slotName slot)) as [i|].
  - apply orb_true_iff in H as [H|H]; [left; by apply String.eqb_eq|right].
    apply andb_true_iff in H as [H H3]. apply andb_true_iff in H as [H1 H2].
    apply String.eqb_eq in H1, H2. apply Nat.eqb_eq in H3. done.
  - intros t Ht. apply negb_true_iff in H. rewrite <- not_true_iff_false, existsb_exists in H.
    repeat split; intros ->; apply H; eexists; (split; [exact Ht|reflexivity]).
Qed.

(** [NewObjectArray] is taken for a constructor call: [isCallMethod] answers
    with index 2, where that function has the element class, not a
    [jmethodID]. *)
Theorem NewObjectArray_taken_for_call :
  isCallMethod "NewObjectArray" = Some 2 /\ slotName 172 = "NewObjectArray" /\
  slotArgs 172 = ["JNIEnv*"; "jsize"; "jclass"; "jobject"].
Proof. vm_compute. done. Qed.

Lemma isCallMethod_schema_witness :
  nth 3 (slotArgs 92) "" = "jmethodID" /\ nth 4 (slotArgs 92) "" = "va_list".
Proof.
  pose proof (isCallMethod_schema 92 ltac:(lia)) as T. vm_compute in T |- *.
  destruct T as [T|(T1 & T2 & _)]; [discriminate|]. split; [exact T1|exact T2].
Defined.

Lemma slot_tables_witness : slotName 33 <> slotName 113 /\ slotName 300 = "slot300".
Proof.
  destruct slot_tables as (_ & _ & _ & Hinj & Hout). split.
  - intros E. apply Hinj in E; lia.
  - rewrite (proj1 (Hout 300 ltac:(lia))). vm_compute. reflexivity.
Defined.
