(* ===== verification/Offsets.v ===== *)
(** * Offsets: loader/offsets.go

    Where the file offsets of the JNI functions come from: a JSON file
    ([offsetsFromFile]) or a scan of libart's data segments for function
    tables ([offsetsFromScan]).  A [map[uint64]int] is a [gmap Z Z]. *)

From S2P Require Import Prelude GoStr Strconv Json Target Schema.

(** ** offsetsFromFile *)

(** One entry of the decoded map: skipped unless the key is a slot index and
    the value a number. *)
Definition load_entry (p : string * string) : option (Z * Z) :=
  match Atoi p.1 with
  | (_, Some _) => None
  | (slot, None) =>
      if (slot <? 0) || (Z.of_nat (length jniSchema) <=? slot) then None
      else match ParseUint (TrimSpace p.2) 0 with
           | (_, Some _) => None
           | (off, None) => Some (off, slot)
           end
  end.

Definition put_offset (m : gmap Z Z) (p : Z * Z) : gmap Z Z := <[p.1 := p.2]> m.

(** The loop over the map, in the order [l] the runtime visits it. *)
Definition load_entries (l : list (string * string)) : gmap Z Z :=
  fold_left put_offset (omap load_entry l) ∅.

(** [iter] is the iteration order of Go's [range] over the decoded map. *)
Definition offsetsFromFile (iter : gmap string string -> list (string * string))
    (raw : option string) : goerr + gmap Z Z :=
  match raw with
  | None => inl ErrOS
  | Some raw =>
      match Unmarshal raw with
      | None => inl ErrJSON
      | Some m => inr (load_entries (iter m))
      end
  end.

(** ** offsetsFromScan *)

Section Scan.
(** [rd a] is [mr.u64(a)]. *)
Context (rd : Z -> option Z) (base execLo execHi : Z).

Definition nslots : nat := length jniSchema.

(** The first inner loop: the four reserved slots must read as zero. *)
Definition reserved_zero (p : Z) : bool :=
  forallb (fun i => match rd (u64 (p + Z.of_nat i * 8)) with
                    | Some v => v =? 0
                    | None => false
                    end) (seq 0 4).

(** The second inner loop: every other slot points into the executable range. *)
Definition slots_exec (p : Z) : bool :=
  forallb (fun i => match rd (u64 (p + Z.of_nat i * 8)) with
                    | Some v => (execLo <=? v) && (v <? execHi)
                    | None => false
                    end) (seq 4 (nslots - 4)).

Definition record_slot (p : Z) (out : gmap Z Z) (i : nat) : gmap Z Z :=
  <[u64 (default 0 (rd (u64 (p + Z.of_nat i * 8))) - base) := Z.of_nat i]> out.

Definition record_table (p : Z) (out : gmap Z Z) : gmap Z Z :=
  fold_left (record_slot p) (seq 4 (nslots - 4)) out.

(** The loop over one range; [None] when [fuel] runs out. *)
Fixpoint scan_range (fuel : nat) (p hi : Z) (out : gmap Z Z) (tables : nat)
  : option (gmap Z Z * nat) :=
  match fuel with
  | O => None
  | S f =>
      if u64 (p + Z.of_nat nslots * 8) <=? hi then
        if negb (reserved_zero p) then scan_range f (u64 (p + 8)) hi out tables
        else if negb (slots_exec p) then scan_range f (u64 (p + 8)) hi out tables
        else scan_range f (u64 (u64 (p + (Z.of_nat nslots * 8 - 8)) + 8)) hi
               (record_table p out) (S tables)
      else Some (out, tables)
  end.

(** Enough for a range below the top of the address space. *)
Definition range_fuel (r : Z * Z) : nat := S (Z.to_nat ((r.2 - r.1) / 8 + 1)).

Fixpoint scan_ranges (rs : list (Z * Z)) (out : gmap Z Z) (tables : nat)
  : option (gmap Z Z * nat) :=
  match rs with
  | [] => Some (out, tables)
  | r :: rs' =>
      match scan_range (range_fuel r) r.1 r.2 out tables with
      | Some (out', tables') => scan_ranges rs' out' tables'
      | None => None
      end
  end.
End Scan.

(** [maps1] and [maps2] are the two reads of the maps file, [mem] the opened
    memory.  [None] is a scan that does not end. *)
Definition offsetsFromScan (pid : Z) (maps1 maps2 : option string) (mem : option memReader)
  : option (goerr + gmap Z Z * nat) :=
  match libartBase pid maps1 with
  | inl e => Some (inl e)
  | inr la =>
      match mem with
      | None => Some (inl ErrOS)
      | Some mr =>
          match libartDataRanges maps2 with
          | inl e => Some (inl e)
          | inr ranges =>
              match scan_ranges (mr_u64 mr) (la_base la) (la_execLo la) (la_execHi la) ranges ∅ 0 with
              | None => None
              | Some (out, tables) =>
                  if (size out =? 0)%nat
                  then Some (inl (Errorf ("JNINativeInterface table not found in pid " ++s FormatInt pid 10)))
                  else Some (inr (out, tables))
              end
          end
      end
  end.

(** ** Properties of the scan *)

Section ScanProps.
Context (rd : Z -> option Z) (base execLo execHi : Z).

(** A function table at [p], as its readers know it (jni.h): 233 words, the
    four reserved ones zero, each of the others the address of an instruction
    of the library.  It does not mention the scan's own tests. *)
Definition is_table (p : Z) : Prop :=
  rd p = Some 0 /\ rd (p + 8) = Some 0 /\ rd (p + 16) = Some 0 /\ rd (p + 24) = Some 0 /\
  forall i, 4 <= i < 233 -> exists v, rd (p + i * 8) = Some v /\ execLo <= v < execHi.

(** Offset [off] comes from slot [i] of the table at [p]. *)
Definition slot_of_table (p off i : Z) : Prop :=
  is_table p /\ 4 <= i < 233 /\
  exists v, rd (p + i * 8) = Some v /\ execLo <= v < execHi /\ off = u64 (v - base).

(** What the two inner loops decide about the block at [p]. *)
Definition passes (p : Z) : bool := reserved_zero rd p && slots_exec rd execLo execHi p.

(** No address of a block below 2^63 wraps. *)
Lemma block_addr p i : 0 <= p -> p + 1864 < 2 ^ 63 -> 0 <= i < 233 -> u64 (p + i * 8) = p + i * 8.
Proof. intros Hp Hb Hi. apply wrap_small. word_lia. Qed.

Lemma zero_word p : match rd p with Some v => v =? 0 | None => false end = true <-> rd p = Some 0.
Proof.
  destruct (rd p) as [v|]; [|done]. rewrite Z.eqb_eq. split; [by intros ->|by intros [= ->]].
Qed.

(** The loops accept exactly the tables. *)
Lemma passes_spec p :
  0 <= p -> p + 1864 < 2 ^ 63 -> passes p = true <-> is_table p.
Proof.
  intros Hp Hb. unfold passes, is_table, reserved_zero, slots_exec, nslots.
  rewrite length_jniSchema, andb_true_iff. cbn [seq forallb].
  rewrite !andb_true_iff, !zero_word, !block_addr by lia.
  change (Z.of_nat 0 * 8) with 0. change (Z.of_nat 1 * 8) with 8.
  change (Z.of_nat 2 * 8) with 16. change (Z.of_nat 3 * 8) with 24. rewrite Z.add_0_r.
  assert (Hs : forallb (fun i => match rd (u64 (p + Z.of_nat i * 8)) with
                       | Some v => (execLo <=? v) && (v <? execHi) | None => false end) (seq 4 (233 - 4)) = true <->
               forall i, 4 <= i < 233 -> exists v, rd (p + i * 8) = Some v /\ execLo <= v < execHi).
  { rewrite forallb_forall. setoid_rewrite in_seq. split.
    - intros Hf i Hi. specialize (Hf (Z.to_nat i) ltac:(lia)).
      rewrite Z2Nat.id, block_addr in Hf by lia. destruct (rd (p + i * 8)) as [v|]; [|done].
      exists v. split; [done|]. bool_prop. lia.
    - intros Hf i Hi. destruct (Hf (Z.of_nat i) ltac:(lia)) as (v & Hv & Hr).
      rewrite block_addr, Hv by lia. apply andb_true_iff. lia. }
  rewrite Hs. tauto.
Qed.

Lemma record_table_lookup p out off s :
  record_table rd base p out !! off = Some s ->
  out !! off = Some s \/
  exists i, (4 <= i < 233)%nat /\ s = Z.of_nat i /\
            off = u64 (default 0 (rd (u64 (p + Z.of_nat i * 8))) - base).
Proof.
  unfold record_table, nslots. rewrite length_jniSchema.
  assert (H : forall l out, (forall i, In i l -> (4 <= i < 233)%nat) ->
    fold_left (record_slot rd base p) l out !! off = Some s -> out !! off = Some s \/
    exists i, (4 <= i < 233)%nat /\ s = Z.of_nat i /\
            off = u64 (default 0 (rd (u64 (p + Z.of_nat i * 8))) - base)).
  { induction l as [|i l IH]; intros o Hl Hs; [by left|]. cbn [fold_left] in Hs.
    destruct (IH _ ltac:(intros; apply Hl; by right) Hs) as [Ho|]; [|by right].
    unfold record_slot in Ho. rewrite lookup_insert in Ho. case_decide as E; [|by left].
    right. exists i. simplify_eq. split; [apply Hl; by left|done]. }
  apply H. intros i Hi. apply in_seq in Hi. lia.
Qed.

Lemma record_slots_dom p l off out :
  (exists i, In i l /\ off = u64 (default 0 (rd (u64 (p + Z.of_nat i * 8))) - base)) \/
    is_Some (out !! off) ->
  is_Some (fold_left (record_slot rd base p) l out !! off).
Proof.
  revert out. induction l as [|i l IH]; intros o; cbn [fold_left].
  - intros [(i & [] & _)|H]; done.
  - intros [(j & [->|Hj] & ->)|H]; apply IH; [right|left; eauto|right]; unfold record_slot.
    + rewrite lookup_insert_eq. eauto.
    + rewrite lookup_insert. case_decide; eauto.
Qed.

Lemma record_table_dom p out off i :
  4 <= i < 233 -> off = u64 (default 0 (rd (u64 (p + i * 8))) - base) ->
  is_Some (record_table rd base p out !! off).
Proof.
  intros Hi ->. apply record_slots_dom. left. exists (Z.to_nat i).
  rewrite Z2Nat.id by lia. split; [|done]. unfold nslots. rewrite length_jniSchema.
  apply in_seq. lia.
Qed.

Lemma record_table_keeps p out off :
  is_Some (out !! off) -> is_Some (record_table rd base p out !! off).
Proof. intros H. apply record_slots_dom. by right. Qed.

(** One step of the range loop, with the wrap-around discharged. *)
Lemma scan_range_step fuel p hi out tables :
  0 <= p -> hi < 2 ^ 63 -> p < 2 ^ 63 ->
  scan_range rd base execLo execHi (S fuel) p hi out tables =
  if p + 1864 <=? hi then
    if passes p then scan_range rd base execLo execHi fuel (p + 1864) hi (record_table rd base p out) (S tables)
    else scan_range rd base execLo execHi fuel (p + 8) hi out tables
  else Some (out, tables).
Proof.
  intros Hp Hhi Hp2. cbn [scan_range]. unfold nslots. rewrite length_jniSchema.
  change (Z.of_nat 233 * 8) with 1864.
  rewrite !(wrap_small 64 (p + _)) by word_lia.
  rewrite (wrap_small 64 (p + (1864 - 8) + 8)) by word_lia.
  replace (p + (1864 - 8) + 8) with (p + 1864) by lia.
  unfold passes. by destruct (reserved_zero rd p), (slots_exec rd execLo execHi p).
Qed.

(** Termination: the fuel of a range below 2^63 is enough. *)
Lemma scan_range_total fuel p hi out tables :
  0 <= p < 2 ^ 63 -> hi < 2 ^ 63 -> (Z.to_nat ((hi - p) / 8 + 1) < fuel)%nat ->
  is_Some (scan_range rd base execLo execHi fuel p hi out tables).
Proof.
  revert p out tables. induction fuel as [|f IH]; intros p out tables Hp Hhi Hf; [lia|].
  rewrite scan_range_step by lia. destruct (Z.leb_spec (p + 1864) hi); [|eauto].
  destruct (passes p); apply IH; lia.
Qed.

(** Soundness of a range scan: what it adds comes from a table inside it. *)
Lemma scan_range_sound fuel p hi out tables out' tables' :
  0 <= p < 2 ^ 63 -> hi < 2 ^ 63 ->
  scan_range rd base execLo execHi fuel p hi out tables = Some (out', tables') ->
  forall off i, out' !! off = Some i ->
    out !! off = Some i \/
    exists q, p <= q /\ q + 1864 <= hi /\ (q - p) mod 8 = 0 /\ slot_of_table q off i.
Proof.
  revert p out tables. induction fuel as [|f IH]; intros p out tables Hp Hhi E off i Hi; [done|].
  rewrite scan_range_step in E by lia. destruct (Z.leb_spec (p + 1864) hi).
  2:{ simplify_eq. by left. }
  destruct (passes p) eqn:Ht.
  - destruct (IH (p + 1864) _ _ ltac:(lia) ltac:(lia) E off i Hi) as [Ho|(q & Hq & Hq2 & Hm & Hs)].
    + apply record_table_lookup in Ho as [|(j & Hj & -> & ->)]; [by left|right].
      apply passes_spec in Ht; [|lia|lia]. rewrite block_addr by lia.
      exists p. split; [lia|]. split; [lia|]. split; [by rewrite Z.sub_diag|].
      split; [exact Ht|]. split; [lia|]. destruct Ht as (_ & _ & _ & _ & Hx).
      destruct (Hx (Z.of_nat j) ltac:(lia)) as (v & Hv & Hr). exists v. by rewrite Hv.
    + right. exists q. split; [lia|]. split; [lia|]. split; [lia|done].
  - destruct (IH (p + 8) _ _ ltac:(lia) ltac:(lia) E off i Hi) as [|(q & Hq & Hq2 & Hm & Hs)]; [by left|right].
    exists q. split; [lia|]. split; [lia|]. split; [lia|done].
Qed.

Lemma scan_range_keeps fuel p hi out tables out' tables' off :
  0 <= p < 2 ^ 63 -> hi < 2 ^ 63 ->
  scan_range rd base execLo execHi fuel p hi out tables = Some (out', tables') ->
  is_Some (out !! off) -> is_Some (out' !! off).
Proof.
  revert p out tables. induction fuel as [|f IH]; intros p out tables Hp Hhi E Ho; [done|].
  rewrite scan_range_step in E by lia. destruct (Z.leb_spec (p + 1864) hi); [|by simplify_eq].
  destruct (passes p); (eapply IH; [| |exact E|]); try lia; [|done].
  by apply record_table_keeps.
Qed.

(** Completeness of a range scan: an aligned table that no earlier table
    overlaps is found, and each of its slots gets an offset. *)
Lemma scan_range_complete fuel p hi out tables out' tables' q i off :
  0 <= p < 2 ^ 63 -> hi < 2 ^ 63 ->
  scan_range rd base execLo execHi fuel p hi out tables = Some (out', tables') ->
  is_table q -> p <= q -> q + 1864 <= hi -> (q - p) mod 8 = 0 ->
  (forall q', p <= q' < q -> q < q' + 1864 -> (q' - p) mod 8 = 0 -> ~ is_table q') ->
  4 <= i < 233 -> off = u64 (default 0 (rd (q + i * 8)) - base) ->
  is_Some (out' !! off).
Proof.
  intros Hp Hhi E Hq Hpq Hqh Hal Hno Hi Hoff. revert p out tables Hp E Hpq Hal Hno.
  induction fuel as [|f IH]; intros p out tables Hp E Hpq Hal Hno; [done|].
  rewrite scan_range_step in E by lia. destruct (Z.leb_spec (p + 1864) hi); [|lia].
  destruct (Z.eq_dec p q) as [->|Hne].
  - rewrite (proj2 (passes_spec q ltac:(lia) ltac:(lia)) Hq) in E.
    eapply scan_range_keeps; [| |exact E|]; [lia|lia|].
    eapply record_table_dom; [exact Hi|]. by rewrite block_addr by lia.
  - destruct (passes p) eqn:Ht.
    + assert (p + 1864 <= q).
      { destruct (Z.le_gt_cases (p + 1864) q); [done|].
        apply passes_spec in Ht; [|lia|lia]. exfalso. revert Ht.
        apply Hno; [lia|lia|by rewrite Z.sub_diag]. }
      eapply (IH (p + 1864)); [|exact E|lia| |]; [lia| |].
      * replace (q - (p + 1864)) with (q - p + (-233) * 8) by lia. by rewrite Z_mod_plus_full.
      * intros q' Hq1 Hq2 Hq3. apply Hno; [lia|lia|lia].
    + eapply (IH (p + 8)); [|exact E|lia|lia|]; [lia|].
      intros q' Hq1 Hq2 Hq3. apply Hno; [lia|lia|lia].
Qed.
End ScanProps.

(** ** All ranges *)

Section ScanAll.
Context (rd : Z -> option Z) (base execLo execHi : Z).

(** User-space ranges: everything the kernel maps for a process. *)
Definition user_range (r : Z * Z) : Prop := 0 <= r.1 < 2 ^ 63 /\ r.2 < 2 ^ 63.

Lemma scan_ranges_total rs out tables :
  Forall user_range rs -> is_Some (scan_ranges rd base execLo execHi rs out tables).
Proof.
  intros Hrs. revert out tables. induction Hrs as [|r rs [H1 H2] Hrs IH]; intros; [by eexists|].
  cbn [scan_ranges].
  destruct (scan_range_total rd base execLo execHi (range_fuel r) r.1 r.2 out tables) as [[o t] ->];
    [lia|lia|unfold range_fuel; lia|]. apply IH.
Qed.

Lemma scan_ranges_sound rs out tables out' tables' :
  Forall user_range rs ->
  scan_ranges rd base execLo execHi rs out tables = Some (out', tables') ->
  forall off i, out' !! off = Some i ->
    out !! off = Some i \/
    exists r q, In r rs /\ r.1 <= q /\ q + 1864 <= r.2 /\
                slot_of_table rd base execLo execHi q off i.
Proof.
  intros Hrs. revert out tables. induction Hrs as [|r rs [H1 H2] Hrs IH]; intros out tables E off i Hi.
  { cbn in E. simplify_eq. by left. }
  cbn [scan_ranges] in E. destruct (scan_range _ _ _ _ _ _ _ _ _) as [[o t]|] eqn:Er; [|done].
  destruct (IH _ _ E off i Hi) as [Ho|(r' & q & Hin & Hq)].
  - eapply scan_range_sound in Er as [|(q & Hq1 & Hq2 & _ & Hs)]; [by left|right|lia|lia|exact Ho].
    exists r, q. split; [by left|done].
  - right. exists r', q. split; [by right|done].
Qed.

Lemma scan_ranges_keeps rs out tables out' tables' off :
  Forall user_range rs ->
  scan_ranges rd base execLo execHi rs out tables = Some (out', tables') ->
  is_Some (out !! off) -> is_Some (out' !! off).
Proof.
  intros Hrs. revert out tables. induction Hrs as [|r rs [H1 H2] Hrs IH]; intros out tables E Ho.
  { cbn in E. by simplify_eq. }
  cbn [scan_ranges] in E. destruct (scan_range _ _ _ _ _ _ _ _ _) as [[o t]|] eqn:Er; [|done].
  eapply IH; [exact E|]. eapply scan_range_keeps; [| |exact Er|done]; lia.
Qed.

(** An aligned table of range [r] that no aligned table of the range overlaps
    from below. *)
Definition clear_table (r : Z * Z) (q : Z) : Prop :=
  is_table rd execLo execHi q /\ r.1 <= q /\ q + 1864 <= r.2 /\ (q - r.1) mod 8 = 0 /\
  (forall q', r.1 <= q' < q -> q < q' + 1864 -> (q' - r.1) mod 8 = 0 -> ~ is_table rd execLo execHi q').

Lemma scan_ranges_complete rs out tables out' tables' r q i :
  Forall user_range rs ->
  scan_ranges rd base execLo execHi rs out tables = Some (out', tables') ->
  In r rs -> clear_table r q -> 4 <= i < 233 ->
  is_Some (out' !! u64 (default 0 (rd (q + i * 8)) - base)).
Proof.
  intros Hrs. revert out tables. induction Hrs as [|r' rs [H1 H2] Hrs IH]; intros out tables E Hin Hc Hi; [done|].
  cbn [scan_ranges] in E. destruct (scan_range _ _ _ _ _ _ _ _ _) as [[o t]|] eqn:Er; [|done].
  destruct Hin as [->|Hin]; [|by eapply IH].
  destruct Hc as (Ht & Hq1 & Hq2 & Hal & Hno).
  eapply scan_ranges_keeps; [done|exact E|].
  eapply scan_range_complete; [| |exact Er|exact Ht| | |exact Hal|exact Hno|exact Hi|done]; lia.
Qed.
End ScanAll.

(** ** The file loader *)

(** No two accepted entries give one offset to different slots. *)
Definition consistent (l : list (string * string)) : Prop :=
  forall off s1 s2, In (off, s1) (omap load_entry l) -> In (off, s2) (omap load_entry l) -> s1 = s2.

Lemma put_offsets_lookup (ps : list (Z * Z)) m off s :
  fold_left put_offset ps m !! off = Some s -> m !! off = Some s \/ In (off, s) ps.
Proof.
  revert m. induction ps as [|[o t] ps IH]; intros m H; [by left|]. cbn [fold_left] in H.
  destruct (IH _ H) as [Hm|]; [|by right; right].
  unfold put_offset in Hm. cbn in Hm. rewrite lookup_insert in Hm.
  case_decide; simplify_eq; [right; by left|by left].
Qed.

Lemma put_offsets_dom (ps : list (Z * Z)) m off :
  is_Some (m !! off) \/ (exists s, In (off, s) ps) -> is_Some (fold_left put_offset ps m !! off).
Proof.
  revert m. induction ps as [|[o t] ps IH]; intros m; cbn [fold_left].
  - intros [H|[s []]]; done.
  - intros H. apply IH. unfold put_offset. cbn. rewrite lookup_insert.
    case_decide; [left; eauto|]. destruct H as [H|[s [?|H]]]; [by left|congruence|right; eauto].
Qed.

Lemma load_entries_lookup l off s :
  consistent l -> load_entries l !! off = Some s <-> In (off, s) (omap load_entry l).
Proof.
  intros Hc. unfold load_entries. split.
  - intros H. apply put_offsets_lookup in H as [H|]; [by rewrite lookup_empty in H|done].
  - intros H. destruct (put_offsets_dom (omap load_entry l) ∅ off) as [t Ht]; [right; eauto|].
    rewrite Ht. f_equal. apply put_offsets_lookup in Ht as [Ht|Ht]; [by rewrite lookup_empty in Ht|].
    eapply Hc; eauto.
Qed.

Lemma omap_perm {A B} (f : A -> option B) (l1 l2 : list A) :
  Permutation l1 l2 -> Permutation (omap f l1) (omap f l2).
Proof.
  intros HP. induction HP as [|x l1 l2 HP IH|x y l|l1 l2 l3 H1 IH1 H2 IH2]; csimpl.
  - done.
  - destruct (f x); [by constructor|done].
  - destruct (f x), (f y); try done. constructor.
  - by etransitivity.
Qed.

Lemma consistent_perm l1 l2 : Permutation l1 l2 -> consistent l1 -> consistent l2.
Proof.
  intros HP Hc off s1 s2 H1 H2.
  apply (omap_perm load_entry) in HP. symmetry in HP.
  eapply Hc; eapply Permutation_in; eauto.
Qed.

Lemma load_entries_perm l1 l2 :
  Permutation l1 l2 -> consistent l1 -> load_entries l1 = load_entries l2.
Proof.
  intros HP Hc. apply map_eq. intros off. apply option_eq. intros s.
  rewrite !load_entries_lookup; [|by eapply consistent_perm|done].
  apply (omap_perm load_entry) in HP.
  split; apply Permutation_in; [done|by symmetry].
Qed.

Lemma load_entry_spec p off s :
  load_entry p = Some (off, s) -> 0 <= s < 233.
Proof.
  unfold load_entry. destruct (Atoi p.1) as [slot [|]]; [done|].
  rewrite length_jniSchema. change (Z.of_nat 233) with 233.
  destruct (Z.ltb_spec slot 0), (Z.leb_spec 233 slot); simpl; try done.
  destruct (ParseUint _ _) as [o [|]]; [done|]. intros [= <- <-]. lia.
Qed.

(** ** Properties *)

(** C22. The table scan ends and reports only real tables: for ranges of user
    space, [scan_ranges] returns with the fuel each range is given; every
    offset it records comes from slot 4..232 of a table ([is_table], stated on
    the words of the memory and not by the scan's own tests) inside a data
    range - 233 words that can be read, the four reserved ones zero, all others
    addresses inside libart's code - and is that word minus the base; and every
    such table that is 8-aligned in its range and not overlapped by an earlier
    aligned one is found, all its slots included. *)
Theorem scan_correct (rd : Z -> option Z) base execLo execHi rs :
  Forall user_range rs ->
  exists out tables, scan_ranges rd base execLo execHi rs ∅ 0 = Some (out, tables) /\
    (forall off i, out !! off = Some i ->
       exists r q, In r rs /\ r.1 <= q /\ q + 1864 <= r.2 /\ slot_of_table rd base execLo execHi q off i) /\
    (forall r q i, In r rs -> clear_table rd execLo execHi r q -> 4 <= i < 233 ->
       is_Some (out !! u64 (default 0 (rd (q + i * 8)) - base))).
Proof.
  intros Hrs. destruct (scan_ranges_total rd base execLo execHi rs ∅ 0 Hrs) as [[out tables] E].
  exists out, tables. split; [done|]. split.
  - intros off i Hi. by destruct (scan_ranges_sound rd base execLo execHi rs ∅ 0 out tables Hrs E off i Hi).
  - intros r q i Hin Hc Hi. by eapply (scan_ranges_complete rd base execLo execHi rs ∅ 0 out tables r q i).
Qed.

(** Loading a slot file does not depend on Go's map iteration order: when no
    two accepted entries give one offset to different slots, every order
    yields the same table, which holds exactly the accepted entries, each
    with a slot index of the schema. *)
Theorem offsetsFromFile_order (it1 it2 : gmap string string -> list (string * string)) raw m :
  Unmarshal raw = Some m -> it1 m ≡ₚ map_to_list m -> it2 m ≡ₚ map_to_list m -> consistent (map_to_list m) ->
  exists offs, offsetsFromFile it1 (Some raw) = inr offs /\ offsetsFromFile it2 (Some raw) = inr offs /\
    forall off s, offs !! off = Some s <->
      0 <= s < 233 /\ exists k v, m !! k = Some v /\ load_entry (k, v) = Some (off, s).
Proof.
  intros E P1 P2 Hc. exists (load_entries (it1 m)). unfold offsetsFromFile. rewrite E.
  assert (C1 : consistent (it1 m)) by (eapply consistent_perm; [symmetry; exact P1|done]).
  split; [done|]. split; [f_equal; apply load_entries_perm; [by rewrite P1, P2|by eapply consistent_perm]|].
  intros off s. rewrite load_entries_lookup by done.
  rewrite <- list_elem_of_In, list_elem_of_omap. setoid_rewrite P1. split.
  - intros ([k v] & Hin & Hl). split; [by eapply load_entry_spec|]. exists k, v.
    split; [by apply elem_of_map_to_list|done].
  - intros (_ & k & v & Hk & Hl). exists (k, v). split; [by apply elem_of_map_to_list|done].
Qed.

(** ** Examples *)

(** One table at 0x1010 in the range 0x1000..0x2000. *)
Definition demo_mem (a : Z) : option Z :=
  if (0x1000 <=? a) && (a <? 0x2000) then
    if (0x1010 + 32 <=? a) && (a <? 0x1010 + 1864) then Some (0x700000 + (a - 0x1010)) else Some 0
  else None.

Definition scan_result := scan_ranges demo_mem 0x600000 0x700000 0x800000 [(0x1000, 0x2000)] ∅ 0.

Lemma scan_correct_witness :
  exists out tables, scan_result = Some (out, tables) /\ is_Some (out !! 0x100030).
Proof.
  destruct (scan_correct demo_mem 0x600000 0x700000 0x800000 [(0x1000, 0x2000)]) as (out & tables & E & _ & Hc).
  - constructor; [unfold user_range; cbn; lia|constructor].
  - exists out, tables. split; [exact E|].
    apply (Hc (0x1000, 0x2000) 0x1010 6); [by left| |lia].
    split; [|cbn [fst snd]; split; [lia|]; split; [lia|]; split; [reflexivity|]].
    + do 4 (split; [reflexivity|]). intros i Hi. unfold demo_mem.
      destruct (Z.leb_spec 0x1000 (0x1010 + i * 8)) as [_|]; [|lia].
      destruct (Z.ltb_spec (0x1010 + i * 8) 0x2000) as [_|]; [|lia].
      destruct (Z.leb_spec (0x1010 + 32) (0x1010 + i * 8)) as [_|]; [|lia].
      destruct (Z.ltb_spec (0x1010 + i * 8) (0x1010 + 1864)) as [_|]; [|lia].
      cbn [andb]. eexists. split; [reflexivity|lia].
    + intros q' H1 H2 H3 (_ & _ & _ & Hz & Hx).
      destruct (Hx 4 ltac:(lia)) as (v & Hv & Hr). revert Hv Hr. unfold demo_mem.
      assert (q' = 0x1000 \/ q' = 0x1008) as [->| ->] by lia; cbn; intros [= <-]; lia.
Defined.

Definition demo_json : string :=
  String "{" (String quote ("6" ++s String quote (":" ++s String quote ("0x1f0" ++s String quote "}")))).

Lemma offsetsFromFile_order_witness :
  exists offs, offsetsFromFile map_to_list (Some demo_json) = inr offs /\ offs !! 0x1f0 = Some 6.
Proof.
  destruct (offsetsFromFile_order map_to_list map_to_list demo_json {["6" := "0x1f0"]}) as (offs & E & _ & H).
  - vm_compute. reflexivity.
  - reflexivity.
  - reflexivity.
  - rewrite map_to_list_singleton. intros off s1 s2 H1 H2.
    assert (E : omap load_entry [("6", "0x1f0")] = [(0x1f0, 6)]) by (vm_compute; reflexivity).
    rewrite E in *. destruct H1 as [[= <- <-]|[]], H2 as [[= <-]|[]]. reflexivity.
  - exists offs. split; [exact E|]. apply H. split; [lia|]. exists "6", "0x1f0".
    split; [reflexivity|vm_compute; reflexivity].
Defined.
