(* ===== verification/CTypes.v ===== *)
(** * CTypes: data layouts on both sides of the ring buffer

    C types with the natural-alignment layout of the BPF target (LP64, little
    endian): sizes, alignments, field offsets and the scalars a value of the
    type is made of.  Go types with the packed layout [encoding/binary] reads.
    Stores of scalars at their C offsets and loads at their Go offsets. *)

From S2P Require Import Prelude.

(** ** C types *)

Inductive ctype :=
| Tint (bytes : Z) (signed : bool)
| Tptr
| Tarr (t : ctype) (n : nat)
| Tstruct (fs : list (string * ctype))
| Tunion (fs : list (string * ctype)).

Definition round_up (x a : Z) : Z := (x + a - 1) / a * a.

Fixpoint alignof (t : ctype) : Z :=
  match t with
  | Tint b _ => b
  | Tptr => 8
  | Tarr t _ => alignof t
  | Tstruct fs | Tunion fs => fold_right (fun f a => Z.max (alignof f.2) a) 1 fs
  end.

Fixpoint sizeof (t : ctype) : Z :=
  match t with
  | Tint b _ => b
  | Tptr => 8
  | Tarr t n => sizeof t * Z.of_nat n
  | Tstruct fs =>
      round_up (fold_left (fun off f => round_up off (alignof f.2) + sizeof f.2) fs 0)
               (fold_right (fun f a => Z.max (alignof f.2) a) 1 fs)
  | Tunion fs =>
      round_up (fold_right (fun f s => Z.max (sizeof f.2) s) 0 fs)
               (fold_right (fun f a => Z.max (alignof f.2) a) 1 fs)
  end.

(** Offsets of the members of a structure whose first free byte is [off]. *)
Fixpoint field_offsets (off : Z) (fs : list (string * ctype)) : list (string * Z) :=
  match fs with
  | [] => []
  | (x, t) :: fs' =>
      let o := round_up off (alignof t) in (x, o) :: field_offsets (o + sizeof t) fs'
  end.

Definition offsetof (t : ctype) (x : string) : option Z :=
  match t with
  | Tstruct fs =>
      match list_find (fun p => p.1 = x) (field_offsets 0 fs) with
      | Some (_, (_, o)) => Some o
      | None => None
      end
  | _ => None
  end.

(** A scalar cell: offset, size in bytes, signedness. *)
Record cell := Cell { c_off : Z; c_size : nat; c_signed : bool }.

(** The scalar cells of a value at offset [off], in declaration order
    (arrays expanded; a union contributes none: the code stores none). *)
Fixpoint cells (t : ctype) (off : Z) : list cell :=
  match t with
  | Tint b s => [Cell off (Z.to_nat b) s]
  | Tptr => [Cell off 8 false]
  | Tarr t n => flat_map (fun i => cells t (off + Z.of_nat i * sizeof t)) (seq 0 n)
  | Tstruct fs =>
      (fix go (o : Z) (fs : list (string * ctype)) : list cell :=
         match fs with
         | [] => []
         | (_, t) :: fs' =>
             let o' := round_up o (alignof t) in
             cells t (off + o') ++ go (o' + sizeof t) fs'
         end) 0 fs
  | Tunion _ => []
  end.

(** ** Go types as [binary.Read] sees them: no padding *)

Inductive gotype :=
| Gint (bytes : Z) (signed : bool)
| Garr (t : gotype) (n : nat)
| Gstruct (fs : list (string * gotype)).

Fixpoint go_size (t : gotype) : Z :=
  match t with
  | Gint b _ => b
  | Garr t n => go_size t * Z.of_nat n
  | Gstruct fs => fold_left (fun s f => s + go_size f.2) fs 0
  end.

Fixpoint go_cells (t : gotype) (off : Z) : list cell :=
  match t with
  | Gint b s => [Cell off (Z.to_nat b) s]
  | Garr t n => flat_map (fun i => go_cells t (off + Z.of_nat i * go_size t)) (seq 0 n)
  | Gstruct fs =>
      (fix go (o : Z) (fs : list (string * gotype)) : list cell :=
         match fs with
         | [] => []
         | (_, t) :: fs' => go_cells t o ++ go (o + go_size t) fs'
         end) off fs
  end.

(** ** Memory *)

Definition zero_byte : byte := "000".

(** Storing the low [c_size] bytes of [v] in a cell. *)
Definition store (m : Z -> byte) (c : cell) (v : Z) : Z -> byte :=
  fun a =>
    if (c_off c <=? a) && (a <? c_off c + Z.of_nat (c_size c))
    then nth (Z.to_nat (a - c_off c)) (le_bytes (c_size c) v) zero_byte
    else m a.

Fixpoint store_all (m : Z -> byte) (cs : list cell) (vs : list Z) : Z -> byte :=
  match cs, vs with
  | c :: cs', v :: vs' => store_all (store m c v) cs' vs'
  | _, _ => m
  end.

(** The bytes of [n] consecutive addresses. *)
Definition dump (m : Z -> byte) (off : Z) (n : nat) : list byte :=
  map (fun i => m (off + Z.of_nat i)) (seq 0 n).

(** A cell read from a sample, as an integer of the cell's type. *)
Definition load (raw : list byte) (c : cell) : Z :=
  let v := le_val (take (c_size c) (drop (Z.to_nat (c_off c)) raw)) in
  if c_signed c then swrap (8 * Z.of_nat (c_size c)) v else v.

(** ** Lemmas *)

Definition cell_end (c : cell) : Z := c_off c + Z.of_nat (c_size c).

(** Cells laid out one after the other, possibly with gaps. *)
Fixpoint ordered (lo : Z) (cs : list cell) : bool :=
  match cs with
  | [] => true
  | c :: cs' => (lo <=? c_off c) && ordered (cell_end c) cs'
  end.

Lemma length_dump m off n : length (dump m off n) = n.
Proof. unfold dump. by rewrite length_map, length_seq. Qed.

Lemma dump_lookup m off n i : (i < n)%nat -> dump m off n !! i = Some (m (off + Z.of_nat i)).
Proof.
  intros Hi. unfold dump.
  change (map ?f ?l) with (f <$> l). rewrite list_lookup_fmap, lookup_seq_lt by done. done.
Qed.

Lemma dump_slice m off n o k :
  0 <= o -> o + Z.of_nat k <= Z.of_nat n ->
  take k (drop (Z.to_nat o) (dump m off n)) = dump m (off + o) k.
Proof.
  intros Ho Hk. apply list_eq. intros i. destruct (Nat.lt_ge_cases i k).
  - rewrite lookup_take_lt, lookup_drop, !dump_lookup by lia. do 2 f_equal. lia.
  - rewrite !lookup_ge_None_2; [done|rewrite length_dump; lia|].
    rewrite length_take, length_drop, length_dump. lia.
Qed.

Lemma dump_store_same m c v : dump (store m c v) (c_off c) (c_size c) = le_bytes (c_size c) v.
Proof.
  apply list_eq. intros i. destruct (Nat.lt_ge_cases i (c_size c)).
  - rewrite dump_lookup by done. unfold store.
    rewrite (proj2 (Z.leb_le _ _)), (proj2 (Z.ltb_lt _ _)) by lia. cbn [andb].
    replace (Z.to_nat (c_off c + Z.of_nat i - c_off c)) with i by lia.
    symmetry.
    destruct (lookup_lt_is_Some_2 (le_bytes (c_size c) v) i) as [x Hx]; [by rewrite length_le_bytes|].
    rewrite Hx. f_equal. by apply nth_lookup_Some with (d := zero_byte) in Hx.
  - rewrite !lookup_ge_None_2; [done|rewrite length_le_bytes; lia|rewrite length_dump; lia].
Qed.

Lemma dump_ext m m' off n :
  (forall a, off <= a < off + Z.of_nat n -> m a = m' a) -> dump m off n = dump m' off n.
Proof.
  intros H. apply list_eq. intros i. destruct (Nat.lt_ge_cases i n).
  - rewrite !dump_lookup by done. f_equal. apply H. lia.
  - rewrite !lookup_ge_None_2; [done|rewrite length_dump; lia..].
Qed.

Lemma store_outside m c v a : a < c_off c \/ cell_end c <= a -> store m c v a = m a.
Proof.
  intros Ha. unfold store, cell_end in *.
  destruct (Z.leb_spec (c_off c) a), (Z.ltb_spec a (c_off c + Z.of_nat (c_size c))); cbn; lia || done.
Qed.

Lemma store_all_below m cs vs lo a : ordered lo cs = true -> a < lo -> store_all m cs vs a = m a.
Proof.
  revert m vs lo. induction cs as [|c cs IH]; intros m vs lo Ho Ha; [done|].
  destruct vs as [|v vs]; [done|]. cbn [ordered store_all] in *. bool_prop.
  erewrite IH; [|done|unfold cell_end; lia]. apply store_outside. lia.
Qed.

(** Every cell of an ordered layout reads back the stored value. *)
Lemma store_all_dump m cs vs lo k c v :
  ordered lo cs = true -> cs !! k = Some c -> vs !! k = Some v -> length cs = length vs ->
  dump (store_all m cs vs) (c_off c) (c_size c) = le_bytes (c_size c) v.
Proof.
  revert m vs lo k. induction cs as [|c' cs IH]; intros m vs lo k Ho Hc Hv Hl; [done|].
  destruct vs as [|v' vs]; [done|]. cbn [ordered store_all] in *. bool_prop.
  destruct k as [|k].
  - simpl in Hc, Hv. simplify_eq. rewrite <- (dump_store_same m c v). apply dump_ext.
    intros a Ha. eapply store_all_below; [done|]. unfold cell_end. lia.
  - eapply IH; eauto.
Qed.

(** The integers a cell of given size and signedness can hold. *)
Definition in_cell (c : cell) (v : Z) : Prop :=
  let w := 8 * Z.of_nat (c_size c) in
  if c_signed c then - 2 ^ (w - 1) <= v < 2 ^ (w - 1) else 0 <= v < 2 ^ w.

#[export] Instance in_cell_dec c v : Decision (in_cell c v).
Proof. unfold in_cell. destruct (c_signed c); apply _. Defined.

Lemma load_le_bytes c v :
  (0 < c_size c)%nat -> in_cell c v ->
  (if c_signed c then swrap (8 * Z.of_nat (c_size c)) (le_val (le_bytes (c_size c) v))
   else le_val (le_bytes (c_size c) v)) = v.
Proof.
  intros Hpos Hv. rewrite le_val_le_bytes.
  replace (256 ^ Z.of_nat (c_size c)) with (2 ^ (8 * Z.of_nat (c_size c)))
    by (rewrite Z.pow_mul_r by lia; done).
  unfold in_cell in Hv. set (w := 8 * Z.of_nat (c_size c)) in *.
  assert (Hw : 2 ^ w = 2 * 2 ^ (w - 1)) by (rewrite <- Z.pow_succ_r by lia; f_equal; lia).
  destruct (c_signed c); [|by apply Z.mod_small].
  unfold swrap. rewrite Zmod_mod. destruct (Z.le_gt_cases 0 v).
  - rewrite Z.mod_small by lia. destruct (Z.ltb_spec v (2 ^ (w - 1))); lia.
  - assert (E : v mod 2 ^ w = v + 2 ^ w).
    { rewrite <- (Z_mod_plus_full v 1), Z.mul_1_l. apply Z.mod_small. lia. }
    rewrite E. destruct (Z.ltb_spec (v + 2 ^ w) (2 ^ (w - 1))); lia.
Qed.

Lemma load_store_all m cs vs n k c v :
  ordered 0 cs = true -> cs !! k = Some c -> vs !! k = Some v -> length cs = length vs ->
  0 <= c_off c -> cell_end c <= Z.of_nat n -> (0 < c_size c)%nat -> in_cell c v ->
  load (dump (store_all m cs vs) 0 n) c = v.
Proof.
  intros Ho Hc Hv Hl H0 Hend Hpos Hin. unfold load.
  rewrite dump_slice by (unfold cell_end in Hend; lia). rewrite Z.add_0_l.
  erewrite store_all_dump; eauto. by apply load_le_bytes.
Qed.

(** All cells at once. *)
Definition cells_ok (n : nat) (cs : list cell) : bool :=
  ordered 0 cs &&
  forallb (fun c => (0 <=? c_off c) && (cell_end c <=? Z.of_nat n) && (0 <? Z.of_nat (c_size c))) cs.

Lemma load_all_store_all m cs vs n :
  cells_ok n cs = true -> Forall2 in_cell cs vs ->
  map (load (dump (store_all m cs vs) 0 n)) cs = vs.
Proof.
  intros Hok HF. unfold cells_ok in Hok. apply andb_true_iff in Hok as [Ho Hall].
  rewrite forallb_forall in Hall. pose proof (Forall2_length _ _ _ HF) as Hl.
  apply list_eq. intros k. change (map ?f ?l) with (f <$> l). rewrite list_lookup_fmap.
  destruct (cs !! k) as [c|] eqn:Hc.
  - destruct (Forall2_lookup_l _ _ _ _ _ HF Hc) as (v & Hv & Hin). rewrite Hv. cbn. f_equal.
    assert (Hc' : In c cs) by (apply list_elem_of_In; eapply list_elem_of_lookup_2; eauto).
    specialize (Hall c Hc'). bool_prop. eapply load_store_all; eauto. lia.
  - symmetry. apply lookup_ge_None in Hc. apply lookup_ge_None. lia.
Qed.

(** *** Structures in general *)

Lemma round_up_ge x a : 0 < a -> x <= round_up x a.
Proof. intros Ha. unfold round_up. pose proof (Z.div_mod (x + a - 1) a). pose proof (Z.mod_pos_bound (x + a - 1) a). nia. Qed.

Lemma round_up_lt x a : 0 < a -> round_up x a < x + a.
Proof. intros Ha. unfold round_up. pose proof (Z.div_mod (x + a - 1) a). pose proof (Z.mod_pos_bound (x + a - 1) a). nia. Qed.

Lemma round_up_mod x a : 0 < a -> round_up x a mod a = 0.
Proof. intros Ha. unfold round_up. apply Z_mod_mult. Qed.
