(* ===== verification/Bpf.v ===== *)
(** * Bpf: what the BPF programs use of the kernel

    The programs under bpf/ call helpers and read maps that live in the
    kernel.  They are interfaces here: a class of operations, a class of the
    laws the helpers document, and an instance of each on concrete data
    that the examples run on. *)

From S2P Require Import Prelude.

(** ** Maps

    One type for the hash and array maps the programs use; keys and values
    are words.  [map_update_elem] is called with [BPF_ANY]; its result code
    is 0 on success. *)

Class BpfMap (M : Type) := {
  map_lookup_elem : M -> Z -> option Z;
  map_update_elem : M -> Z -> Z -> M * Z
}.

Class BpfMapLaws (M : Type) `{BpfMap M} := {
  (** A successful update is visible under its key. *)
  update_same : forall m k v m',
    map_update_elem m k v = (m', 0) -> map_lookup_elem m' k = Some v;
  (** Whatever its result, an update leaves the other keys alone. *)
  update_other : forall m k v m' rc k',
    map_update_elem m k v = (m', rc) -> k <> k' -> map_lookup_elem m' k' = map_lookup_elem m k';
  (** A failed update changes nothing. *)
  update_fail : forall m k v m' rc,
    map_update_elem m k v = (m', rc) -> rc <> 0 -> m' = m;
  (** Replacing the value of a key that is present needs no room. *)
  update_present : forall m k v, is_Some (map_lookup_elem m k) ->
    (map_update_elem m k v).2 = 0
}.

(** A hash map with room for [max_entries] keys; -7 is [-E2BIG]. *)
Record hash_map := HashMap { hm_max : nat; hm_data : gmap Z Z }.

#[export] Instance hash_map_ops : BpfMap hash_map := {
  map_lookup_elem m k := hm_data m !! k;
  map_update_elem m k v :=
    match hm_data m !! k with
    | Some _ => (HashMap (hm_max m) (<[k := v]> (hm_data m)), 0)
    | None =>
        if (size (hm_data m) <? hm_max m)%nat
        then (HashMap (hm_max m) (<[k := v]> (hm_data m)), 0)
        else (m, -7)
    end
}.

#[export] Instance hash_map_laws : BpfMapLaws hash_map.
Proof.
  split; cbn -[Nat.ltb].
  - intros m k v m' E. assert (hm_data m' = <[k := v]> (hm_data m)) as ->; [|apply lookup_insert_eq].
    destruct (hm_data m !! k); [by simplify_eq|].
    by destruct (size (hm_data m) <? hm_max m)%nat; simplify_eq.
  - intros m k v m' rc k' E Hk.
    destruct (hm_data m !! k); [simplify_eq; by apply lookup_insert_ne|].
    destruct (size (hm_data m) <? hm_max m)%nat; simplify_eq; [by apply lookup_insert_ne|done].
  - intros m k v m' rc E Hrc.
    destruct (hm_data m !! k); [by simplify_eq|].
    destruct (size (hm_data m) <? hm_max m)%nat; by simplify_eq.
  - intros m k v [x ->]. done.
Qed.

(** ** User memory

    [bpf_probe_read_user]: the [n] bytes at an address, or a failure (the
    destination is then zero, as it was before the call). *)

Class UserMem (U : Type) := probe_read_user : U -> Z -> nat -> option (list byte).

Class UserMemLaws (U : Type) `{UserMem U} :=
  probe_read_length : forall u a n bs, probe_read_user u a n = Some bs -> length bs = n.

(** [bpf_probe_read_user(&v, 8, p)] into a zeroed word. *)
Definition read_word `{UserMem U} (u : U) (p : Z) : Z :=
  from_option le_val 0 (probe_read_user u (u64 p) 8).

(** A memory given by its bytes; absent addresses fault. *)
Record byte_mem := ByteMem { bm_bytes : gmap Z byte }.

Fixpoint read_bytes (m : gmap Z byte) (a : Z) (n : nat) : option (list byte) :=
  match n with
  | O => Some []
  | S n' => match m !! a, read_bytes m (a + 1) n' with
            | Some b, Some bs => Some (b :: bs)
            | _, _ => None
            end
  end.

#[export] Instance byte_mem_ops : UserMem byte_mem := fun u a n => read_bytes (bm_bytes u) a n.

#[export] Instance byte_mem_laws : UserMemLaws byte_mem.
Proof.
  intros u a n. unfold probe_read_user, byte_mem_ops. revert a.
  induction n as [|n IH]; intros a bs; cbn; [by intros [= <-]|].
  destruct (bm_bytes u !! a); [|done]. destruct (read_bytes _ _ _) eqn:E; [|done].
  intros [= <-]. cbn. f_equal. eauto.
Qed.

(** Writing words into such a memory. *)
Definition poke_word (m : gmap Z byte) (a v : Z) : gmap Z byte :=
  fold_left (fun m p => <[p.1 := p.2]> m)
    (combine (map (fun i => a + Z.of_nat i) (seq 0 8)) (le_bytes 8 v)) m.

Definition mem_of_words (ws : list (Z * Z)) : byte_mem :=
  ByteMem (fold_left (fun m p => poke_word m p.1 p.2) ws ∅).

(** ** Registers

    The [PT_REGS_*] macros of [bpf_tracing.h]. *)

Class PtRegs (R : Type) := {
  PT_REGS_PARM : R -> nat -> Z;   (* 1 to 8 *)
  PT_REGS_RET : R -> Z;           (* the return address *)
  PT_REGS_IP : R -> Z
}.

Class PtRegsLaws (R : Type) `{PtRegs R} := {
  parm_word : forall r i, fits 64 (PT_REGS_PARM r i);
  ret_word : forall r, fits 64 (PT_REGS_RET r);
  ip_word : forall r, fits 64 (PT_REGS_IP r)
}.

(** [struct user_pt_regs] of arm64: [PT_REGS_PARMi] is x(i-1), the return
    address is in x30 and the probed instruction's address in pc. *)
Record user_pt_regs := UserPtRegs { gpr : list Z; sp : Z; pc : Z; pstate : Z }.

#[export] Instance arm64_regs : PtRegs user_pt_regs := {
  PT_REGS_PARM r i := u64 (nth (i - 1) (gpr r) 0);
  PT_REGS_RET r := u64 (nth 30 (gpr r) 0);
  PT_REGS_IP r := u64 (pc r)
}.

#[export] Instance arm64_regs_laws : PtRegsLaws user_pt_regs.
Proof. split; intros; apply wrap_range; lia. Qed.

Lemma read_word_range `{UserMemLaws U} u p : fits 64 (read_word u p).
Proof.
  unfold read_word. destruct (probe_read_user u (u64 p) 8) as [bs|] eqn:E; cbn; [|done].
  apply probe_read_length in E. pose proof (le_val_range bs) as Hr. rewrite E in Hr. done.
Qed.
