(* ===== verification/Recon.v ===== *)
(** * Recon: bpf/recon.bpf.c

    The tracing programs [up_all] (every JNI entry) and [up_ret] (return of a
    tracked function) as transformers of the BPF maps that also give the
    event they submit to the ring buffer, [None] when the reservation fails.
    Reserved memory is not cleared: its old contents are part of the input
    and show through in every field the program does not write. *)

From S2P Require Import Prelude CTypes Bpf.

Definition NARGS : nat := 5.
Definition NCAP : nat := 16.

(** [struct evt_t]. *)
Record evt_t := Evt {
  e_pid : Z;
  e_tid : Z;
  e_kind : Z;
  e_pad : Z;
  e_ip : Z;
  e_rc : Z;
  e_ts : Z;
  e_depth : Z;
  e_pad2 : Z;
  e_caller : Z;
  e_a : list Z;
  e_ncap : Z;
  e_argkind : Z;
  e_res1 : Z;
  e_res2 : Z;
  e_cap : list Z;
  e_cap2 : list Z;
  e_vgr : Z;
  e_vgoff : Z;
  e_vstk : Z;
  e_stackid : Z;
  e_pad3 : Z
}.

Definition set_depth (e : evt_t) (d : Z) : evt_t :=
  Evt (e_pid e) (e_tid e) (e_kind e) (e_pad e) (e_ip e) (e_rc e) (e_ts e) d (e_pad2 e)
    (e_caller e) (e_a e) (e_ncap e) (e_argkind e) (e_res1 e) (e_res2 e) (e_cap e) (e_cap2 e)
    (e_vgr e) (e_vgoff e) (e_vstk e) (e_stackid e) (e_pad3 e).

Definition set_stackid (e : evt_t) (x : Z) : evt_t :=
  Evt (e_pid e) (e_tid e) (e_kind e) (e_pad e) (e_ip e) (e_rc e) (e_ts e) (e_depth e) (e_pad2 e)
    (e_caller e) (e_a e) (e_ncap e) (e_argkind e) (e_res1 e) (e_res2 e) (e_cap e) (e_cap2 e)
    (e_vgr e) (e_vgoff e) (e_vstk e) x (e_pad3 e).

(** The fields [capture] writes. *)
Definition set_capture (e : evt_t) (ncap argkind : Z) (cap cap2 : list Z) (vgr vgoff vstk : Z) : evt_t :=
  Evt (e_pid e) (e_tid e) (e_kind e) (e_pad e) (e_ip e) (e_rc e) (e_ts e) (e_depth e) (e_pad2 e)
    (e_caller e) (e_a e) ncap argkind (e_res1 e) (e_res2 e) cap cap2 vgr vgoff vstk
    (e_stackid e) (e_pad3 e).

(** The maps the two programs share. *)
Record kmaps (M : Type) := KMaps {
  cfg : M;       (* 0: libart base, 1: want_stack *)
  argkind : M;   (* file offset -> how to snapshot the arguments *)
  argidx : M;    (* file offset -> index of the argument pointer *)
  hasret : M;    (* file offset -> has a return probe *)
  depth : M      (* tid -> active tracked frames *)
}.
Arguments KMaps {M} _ _ _ _ _.
Arguments cfg {M} _.
Arguments argkind {M} _.
Arguments argidx {M} _.
Arguments hasret {M} _.
Arguments depth {M} _.

Definition set_depth_map {M} (s : kmaps M) (d : M) : kmaps M :=
  KMaps (cfg s) (argkind s) (argidx s) (hasret s) d.

(** What one probe hit finds: the reserved record with its old contents, the
    current task, the clock, the registers, the user memory and the result of
    [bpf_get_stackid]. *)
Record hit_env (R U : Type) := HitEnv {
  reserve : option evt_t;
  pid_tgid : Z;
  ktime_ns : Z;
  regs : R;
  umem : U;
  stackid_rc : Z
}.
Arguments HitEnv {R U} _ _ _ _ _ _.
Arguments reserve {R U} _.
Arguments pid_tgid {R U} _.
Arguments ktime_ns {R U} _.
Arguments regs {R U} _.
Arguments umem {R U} _.
Arguments stackid_rc {R U} _.

Section Programs.
Context {M R U : Type} `{BpfMap M} `{PtRegs R} `{UserMem U}.

(** A loop storing one word per array element. *)
Definition fill (f : nat -> Z) (n : nat) (l : list Z) : list Z :=
  fold_left (fun l i => <[i := f i]> l) (seq 0 n) l.

Definition capture (u : U) (e : evt_t) (p k ix : Z) : evt_t :=
  if k =? 1 then (* jvalue* *)
    set_capture e (Z.of_nat NCAP) k
      (fill (fun i => read_word u (p + Z.of_nat i * 8)) NCAP (e_cap e)) (e_cap2 e)
      (e_vgr e) (e_vgoff e) (e_vstk e)
  else if k =? 2 then (* va_list* *)
    let st := default (repeat zero_byte 32) (probe_read_user u p 32) in
    let st0 := le_val (take 8 st) in
    let st1 := le_val (take 8 (drop 8 st)) in
    let st3 := le_val (take 8 (drop 24 st)) in
    let gbase := u64 (st1 - 128) in
    set_capture e (Z.of_nat NCAP) k
      (fill (fun i => read_word u (gbase + Z.of_nat i * 8)) NCAP (e_cap e))
      (fill (fun i => read_word u (st0 + Z.of_nat i * 8)) NCAP (e_cap2 e))
      st1 (s32 st3) st0
  else if k =? 3 then (* variadic C: args in entry regs a[ix..] *)
    let c0 := nthZ (e_a e) ix in
    let c1 := if ix + 1 <? Z.of_nat NARGS then nthZ (e_a e) (ix + 1) else 0 in
    set_capture e (u32 (Z.of_nat NARGS - ix)) k (<[1%nat := c1]> (<[0%nat := c0]> (e_cap e)))
      (e_cap2 e) (e_vgr e) (e_vgoff e) (e_vstk e)
  else
    set_capture e (Z.of_nat NCAP) k (e_cap e) (e_cap2 e) (e_vgr e) (e_vgoff e) (e_vstk e).

(** The fields [up_all] sets before it looks at any map. *)
Definition entry_evt (v : hit_env R U) (g : evt_t) : evt_t :=
  Evt (u32 (Z.shiftr (pid_tgid v) 32)) (u32 (pid_tgid v)) 0 0 (PT_REGS_IP (regs v)) 0
    (ktime_ns v) (-1) 0 (PT_REGS_RET (regs v))
    [PT_REGS_PARM (regs v) 1; PT_REGS_PARM (regs v) 2; PT_REGS_PARM (regs v) 3;
     PT_REGS_PARM (regs v) 4; PT_REGS_PARM (regs v) 5]
    0 0 (e_res1 g) (e_res2 g) (e_cap g) (e_cap2 g) 0 0 0 (-1) 0.

Definition up_all (s : kmaps M) (v : hit_env R U) : kmaps M * option evt_t :=
  match reserve v with
  | None => (s, None)
  | Some g =>
      let tid := u32 (pid_tgid v) in
      let e := entry_evt v g in
      match map_lookup_elem (cfg s) 0 with
      | None => (s, Some e)
      | Some base =>
          let off := u64 (e_ip e - base) in
          let '(s, e) :=
            match map_lookup_elem (hasret s) off with
            | Some _ => (* tracked: maintain depth *)
                let d := default 0 (map_lookup_elem (depth s) tid) in
                let nd := u32 (d + 1) in
                (set_depth_map s (map_update_elem (depth s) tid nd).1, set_depth e (s32 d))
            | None => (s, e)
            end in
          let e :=
            match map_lookup_elem (argkind s) off, map_lookup_elem (argidx s) off with
            | Some k, Some ix =>
                if negb (k =? 0) && (ix <? Z.of_nat NARGS)
                then capture (umem v) e (nthZ (e_a e) ix) k ix
                else e
            | _, _ => e
            end in
          let e :=
            match map_lookup_elem (cfg s) 1 with
            | Some ws => if negb (ws =? 0) then set_stackid e (s32 (stackid_rc v)) else e
            | None => e
            end in
          (s, Some e)
      end
  end.

Definition ret_evt (v : hit_env R U) (g : evt_t) (nd : Z) : evt_t :=
  Evt (u32 (Z.shiftr (pid_tgid v) 32)) (u32 (pid_tgid v)) 1 0 (PT_REGS_IP (regs v))
    (PT_REGS_PARM (regs v) 1) (ktime_ns v) (s32 nd) 0 0 [0; 0; 0; 0; 0]
    0 0 (e_res1 g) (e_res2 g) (e_cap g) (e_cap2 g) 0 0 0 (-1) 0.

Definition up_ret (s : kmaps M) (v : hit_env R U) : kmaps M * option evt_t :=
  match reserve v with
  | None => (s, None)
  | Some g =>
      let tid := u32 (pid_tgid v) in
      let d := default 0 (map_lookup_elem (depth s) tid) in
      let nd := if 0 <? d then d - 1 else 0 in
      (set_depth_map s (map_update_elem (depth s) tid nd).1, Some (ret_evt v g nd))
  end.

(** ** Runs: the probe hits of all threads, in the order they happen *)

Inductive hit := Entry (v : hit_env R U) | Return (v : hit_env R U).

Definition hit_step (s : kmaps M) (h : hit) : kmaps M * option evt_t :=
  match h with
  | Entry v => up_all s v
  | Return v => up_ret s v
  end.

Fixpoint run (s : kmaps M) (hs : list hit) : kmaps M * list evt_t :=
  match hs with
  | [] => (s, [])
  | h :: hs' =>
      let '(s1, o) := hit_step s h in
      let '(s2, es) := run s1 hs' in
      (s2, match o with Some e => e :: es | None => es end)
  end.
End Programs.

(** ** Specifications *)

Abbreviation stacks X := (gmap Z (list X)).

Section Spec.
Context {M R U : Type} `{BpfMap M} `{PtRegs R} `{UserMem U}.

Definition hit_tid (h : @hit R U) : Z :=
  match h with Entry v | Return v => u32 (pid_tgid v) end.

(** The file offset of the probed instruction, when the base is set. *)
Definition probe_off (s : kmaps M) (v : hit_env R U) : option Z :=
  match map_lookup_elem (cfg s) 0 with
  | Some base => Some (u64 (PT_REGS_IP (regs v) - base))
  | None => None
  end.

Definition tracked (s : kmaps M) (v : hit_env R U) : bool :=
  match probe_off s v with
  | Some off => bool_decide (is_Some (map_lookup_elem (hasret s) off))
  | None => false
  end.

Definition height (s : kmaps M) (tid : Z) : Z := default 0 (map_lookup_elem (depth s) tid).

(** No reservation fails and no update of the depth map fails. *)
Fixpoint lossless (s : kmaps M) (hs : list (@hit R U)) : bool :=
  match hs with
  | [] => true
  | h :: hs' =>
      (match h with
       | Entry v =>
           bool_decide (is_Some (reserve v)) &&
           (negb (tracked s v) ||
            ((map_update_elem (depth s) (hit_tid h) (u32 (height s (hit_tid h) + 1))).2 =? 0))
       | Return v =>
           bool_decide (is_Some (reserve v)) &&
           ((map_update_elem (depth s) (hit_tid h)
              (if 0 <? height s (hit_tid h) then height s (hit_tid h) - 1 else 0)).2 =? 0)
       end) && lossless (hit_step s h).1 hs'
  end.

(** The abstract machine: every thread has a stack of its open tracked
    calls; an entry is at the height of the stack it finds, a return at the
    height of the stack it leaves. *)
Definition stack_of {X} (st : stacks X) (tid : Z) : list X := default [] (st !! tid).

Definition spec_step {X} (tr : hit_env R U -> bool) (mk : hit_env R U -> X) (st : stacks X) (h : @hit R U)
  : stacks X * Z :=
  let tid := hit_tid h in
  match h with
  | Entry v =>
      if tr v then (<[tid := mk v :: stack_of st tid]> st, Z.of_nat (length (stack_of st tid)))
      else (st, -1)
  | Return _ =>
      (<[tid := tail (stack_of st tid)]> st, Z.of_nat (length (tail (stack_of st tid))))
  end.

Fixpoint spec_run {X} (tr : hit_env R U -> bool) (mk : hit_env R U -> X) (st : stacks X)
    (hs : list (@hit R U)) : stacks X * list Z :=
  match hs with
  | [] => (st, [])
  | h :: hs' =>
      let '(st1, d) := spec_step tr mk st h in
      let '(st2, ds) := spec_run tr mk st1 hs' in
      (st2, d :: ds)
  end.

(** The depth map counts the open calls of every thread. *)
Definition depth_sim {X} (s : kmaps M) (st : stacks X) : Prop :=
  forall tid, height s tid = Z.of_nat (length (stack_of st tid)).
End Spec.

(** ** Lemmas *)

Lemma fill_map (f : nat -> Z) n (l : list Z) : length l = n -> fill f n l = map f (seq 0 n).
Proof.
  intros Hl. unfold fill.
  assert (Hgen : forall k (l : list Z), (k <= length l)%nat ->
    fold_left (fun l i => <[i := f i]> l) (seq 0 k) l = map f (seq 0 k) ++ drop k l).
  { induction k as [|k IH]; intros l' Hk; [done|].
    rewrite seq_S, fold_left_app, IH, map_app by lia. cbn [fold_left map].
    rewrite insert_app_r_alt by (rewrite length_map, length_seq; lia).
    rewrite length_map, length_seq. rewrite Nat.sub_diag. cbn [Nat.add].
    destruct (drop k l') as [|x r] eqn:E.
    { apply (f_equal length) in E. rewrite length_drop in E. simpl in E. lia. }
    cbn [insert list_insert]. rewrite <- app_assoc. cbn [app]. do 2 f_equal.
    rewrite <- Nat.add_1_r, <- drop_drop, E. done. }
  rewrite Hgen by lia. rewrite <- Hl, drop_all. apply app_nil_r.
Qed.

Lemma length_fill f n l : length (fill f n l) = length l.
Proof.
  unfold fill. generalize (seq 0 n); intros ixs; revert l.
  induction ixs as [|i ixs IH]; intros l; cbn [fold_left]; [done|]. by rewrite IH, length_insert.
Qed.

Section Lemmas.
Context {M R U : Type} `{HM : BpfMapLaws M} `{HR : PtRegsLaws R} `{HU : UserMemLaws U}.
Implicit Types (s : kmaps M) (v : hit_env R U).

Lemma e_depth_capture (u : U) e p k ix : e_depth (capture u e p k ix) = e_depth e.
Proof. unfold capture. by destruct (k =? 1), (k =? 2), (k =? 3). Qed.

Lemma e_tid_capture (u : U) e p k ix : e_tid (capture u e p k ix) = e_tid e.
Proof. unfold capture. by destruct (k =? 1), (k =? 2), (k =? 3). Qed.

Lemma e_kind_capture (u : U) e p k ix : e_kind (capture u e p k ix) = e_kind e.
Proof. unfold capture. by destruct (k =? 1), (k =? 2), (k =? 3). Qed.

Lemma e_ip_capture (u : U) e p k ix : e_ip (capture u e p k ix) = e_ip e.
Proof. unfold capture. by destruct (k =? 1), (k =? 2), (k =? 3). Qed.

Lemma e_a_capture (u : U) e p k ix : e_a (capture u e p k ix) = e_a e.
Proof. unfold capture. by destruct (k =? 1), (k =? 2), (k =? 3). Qed.

(** A failed reservation makes the program a no-op. *)
Lemma up_all_drop s v : reserve v = None -> up_all s v = (s, None).
Proof. intros E. unfold up_all. by rewrite E. Qed.

Lemma up_ret_drop s v : reserve v = None -> up_ret s v = (s, None).
Proof. intros E. unfold up_ret. by rewrite E. Qed.

(** The map part of [up_all]: only the depth map changes, and only for a
    tracked function. *)
Lemma up_all_maps s v g :
  reserve v = Some g ->
  (up_all s v).1 =
  if tracked s v
  then set_depth_map s (map_update_elem (depth s) (u32 (pid_tgid v)) (u32 (height s (u32 (pid_tgid v)) + 1))).1
  else s.
Proof.
  intros E. unfold up_all, tracked, probe_off, height. rewrite E. cbn [entry_evt e_ip].
  destruct (map_lookup_elem (cfg s) 0) as [base|]; [|done].
  destruct (map_lookup_elem (hasret s) _) as [x|]; [|done].
  by rewrite bool_decide_eq_true_2 by eauto.
Qed.

(** The event of [up_all]: who, what and at which depth. *)
Lemma up_all_event s v g :
  reserve v = Some g ->
  exists e, (up_all s v).2 = Some e /\
    e_tid e = u32 (pid_tgid v) /\ e_kind e = 0 /\ e_ip e = PT_REGS_IP (regs v) /\
    e_a e = e_a (entry_evt v g) /\
    e_depth e = if tracked s v then s32 (height s (u32 (pid_tgid v))) else -1.
Proof.
  intros E. unfold up_all, tracked, probe_off, height. rewrite E. cbn [entry_evt e_ip].
  destruct (map_lookup_elem (cfg s) 0) as [base|]; [|eexists; split; [done|done]].
  set (off := u64 _).
  destruct (map_lookup_elem (hasret s) off) as [x|] eqn:Hh; cbv zeta;
    rewrite ?(bool_decide_eq_true_2 (is_Some (Some x))), ?(bool_decide_eq_false_2 (is_Some None))
      by (eauto || by intros [? ?]);
    cbn [set_depth_map cfg argkind argidx];
    destruct (map_lookup_elem (argkind s) off) as [k|], (map_lookup_elem (argidx s) off) as [ix|];
    try destruct (negb (k =? 0) && (ix <? Z.of_nat NARGS));
    destruct (map_lookup_elem (cfg s) 1) as [ws|]; try destruct (negb (ws =? 0));
    (eexists; split; [reflexivity|]);
    cbn [set_stackid set_depth e_tid e_kind e_ip e_a e_depth];
    rewrite ?e_tid_capture, ?e_kind_capture, ?e_ip_capture, ?e_a_capture, ?e_depth_capture;
    done.
Qed.

Lemma up_ret_step s v g :
  reserve v = Some g ->
  let tid := u32 (pid_tgid v) in
  let nd := if 0 <? height s tid then height s tid - 1 else 0 in
  up_ret s v = (set_depth_map s (map_update_elem (depth s) tid nd).1, Some (ret_evt v g nd)).
Proof. intros E. unfold up_ret. by rewrite E. Qed.

(** The configuration maps are read-only for both programs. *)
Lemma hit_step_config s (h : @hit R U) :
  let s' := (hit_step s h).1 in
  cfg s' = cfg s /\ argkind s' = argkind s /\ argidx s' = argidx s /\ hasret s' = hasret s.
Proof.
  destruct h as [v|v]; cbn [hit_step]; destruct (reserve v) as [g|] eqn:E.
  - rewrite (up_all_maps s v g E). by destruct (tracked s v).
  - by rewrite up_all_drop.
  - by rewrite (up_ret_step s v g E).
  - by rewrite up_ret_drop.
Qed.

Lemma tracked_config s s' v : cfg s' = cfg s -> hasret s' = hasret s -> tracked s' v = tracked s v.
Proof. intros E1 E2. unfold tracked, probe_off. by rewrite E1, E2. Qed.

Lemma height_update_same s tid x :
  (map_update_elem (depth s) tid x).2 = 0 ->
  height (set_depth_map s (map_update_elem (depth s) tid x).1) tid = x.
Proof.
  intros E. unfold height. cbn. destruct (map_update_elem (depth s) tid x) as [m rc] eqn:Eu.
  cbn in *. subst rc. by rewrite (update_same _ _ _ _ Eu).
Qed.

Lemma height_update_other s tid tid' x :
  tid <> tid' -> height (set_depth_map s (map_update_elem (depth s) tid x).1) tid' = height s tid'.
Proof.
  intros Hne. unfold height. cbn. destruct (map_update_elem (depth s) tid x) as [m rc] eqn:Eu.
  cbn in *. by rewrite (update_other _ _ _ _ _ _ Eu Hne).
Qed.

Lemma stack_of_insert_eq {X} (st : stacks X) tid l : stack_of (<[tid := l]> st) tid = l.
Proof. unfold stack_of. by rewrite lookup_insert_eq. Qed.

Lemma stack_of_insert_ne {X} (st : stacks X) tid tid' l :
  tid <> tid' -> stack_of (<[tid := l]> st) tid' = stack_of st tid'.
Proof. intros. unfold stack_of. by rewrite lookup_insert_ne. Qed.

(** Writing the new height of one thread re-establishes the simulation. *)
Lemma depth_sim_update {X} s (st : stacks X) tid l :
  depth_sim s st -> (map_update_elem (depth s) tid (Z.of_nat (length l))).2 = 0 ->
  depth_sim (set_depth_map s (map_update_elem (depth s) tid (Z.of_nat (length l))).1)
            (<[tid := l]> st).
Proof.
  intros Hsim Hrc tid'. destruct (Z.eq_dec tid tid') as [<-|Hne].
  - by rewrite height_update_same, stack_of_insert_eq.
  - rewrite height_update_other, stack_of_insert_ne by done. apply Hsim.
Qed.

Lemma pred_height (X : Type) (l : list X) :
  (if 0 <? Z.of_nat (length l) then Z.of_nat (length l) - 1 else 0) = Z.of_nat (length (tail l)).
Proof. destruct l as [|x l]; cbn [length tail]; [done|]. destruct (Z.ltb_spec 0 (Z.of_nat (S (length l)))); lia. Qed.

(** One step of the simulation. *)
Lemma hit_step_sim {X} (mk : hit_env R U -> X) s (st : stacks X) (h : @hit R U) :
  depth_sim s st -> lossless s [h] = true ->
  Z.of_nat (length (stack_of st (hit_tid h))) + 1 < 2 ^ 31 ->
  exists e, (hit_step s h).2 = Some e /\ e_tid e = hit_tid h /\
            e_depth e = (spec_step (tracked s) mk st h).2 /\
            depth_sim (hit_step s h).1 (spec_step (tracked s) mk st h).1.
Proof.
  intros Hsim Hl Hb. cbn [lossless] in Hl. rewrite andb_true_r in Hl.
  destruct h as [v|v]; cbn [hit_step hit_tid spec_step] in *;
    apply andb_true_iff in Hl as [Hr Hu]; apply bool_decide_eq_true in Hr as [g Hg].
  - destruct (up_all_event s v g Hg) as (e & He & Ht & _ & _ & _ & Hd).
    exists e. rewrite (up_all_maps s v g Hg), Hd. split; [done|]. split; [done|].
    destruct (tracked s v); cbn [negb orb fst snd] in *; [|done].
    apply Z.eqb_eq in Hu. rewrite Hsim in *.
    rewrite s32_small by lia. split; [done|].
    assert (Hn : u32 (Z.of_nat (length (stack_of st (u32 (pid_tgid v)))) + 1)
                 = Z.of_nat (length (mk v :: stack_of st (u32 (pid_tgid v))))).
    { cbn [length]. revert Hb. generalize (length (stack_of st (u32 (pid_tgid v)))).
      intros n Hb. word_lia. }
    rewrite Hn in *. by apply depth_sim_update.
  - rewrite (up_ret_step s v g Hg). cbn [fst snd]. eexists. split; [done|]. split; [done|].
    apply Z.eqb_eq in Hu. rewrite !Hsim, pred_height in Hu |- *. cbn [ret_evt e_depth].
    split; [|by apply depth_sim_update]. apply s32_small.
    destruct (stack_of st (u32 (pid_tgid v))); cbn [tail length] in *; lia.
Qed.

Lemma spec_step_length {X} (tr : hit_env R U -> bool) (mk : hit_env R U -> X) (st : stacks X) (h : @hit R U) tid :
  (length (stack_of (spec_step tr mk st h).1 tid) <= S (length (stack_of st tid)))%nat.
Proof.
  destruct (Z.eq_dec (hit_tid h) tid) as [<-|Hne]; destruct h as [v|v]; cbn [spec_step hit_tid] in *.
  - destruct (tr v); cbn [fst]; [|lia]. rewrite stack_of_insert_eq. done.
  - cbn [fst]. rewrite stack_of_insert_eq. destruct (stack_of _ _); cbn; lia.
  - destruct (tr v); cbn [fst]; [|lia]. rewrite stack_of_insert_ne by done. lia.
  - cbn [fst]. rewrite stack_of_insert_ne by done. lia.
Qed.

Lemma spec_run_ext {X} (tr1 tr2 : hit_env R U -> bool) (mk : hit_env R U -> X) (st : stacks X) hs :
  (forall v, tr1 v = tr2 v) -> spec_run tr1 mk st hs = spec_run tr2 mk st hs.
Proof.
  intros E. revert st. induction hs as [|h hs IH]; intros st; [done|]. cbn [spec_run].
  assert (spec_step tr1 mk st h = spec_step tr2 mk st h) as -> by (destruct h as [v|v]; cbn; by rewrite ?E).
  destruct (spec_step tr2 mk st h). by rewrite IH.
Qed.

(** The simulation over a run. *)
Lemma run_sim {X} (mk : hit_env R U -> X) s (st : stacks X) (hs : list (@hit R U)) :
  depth_sim s st -> lossless s hs = true ->
  (forall tid, Z.of_nat (length (stack_of st tid) + length hs) < 2 ^ 31) ->
  map e_depth (run s hs).2 = (spec_run (tracked s) mk st hs).2 /\
  map e_tid (run s hs).2 = map hit_tid hs /\
  depth_sim (run s hs).1 (spec_run (tracked s) mk st hs).1.
Proof.
  revert s st. induction hs as [|h hs IH]; intros s st Hsim Hl Hb; [done|].
  cbn [run spec_run map]. 
  assert (Hl1 : lossless s [h] = true /\ lossless (hit_step s h).1 hs = true).
  { cbn [lossless] in Hl |- *. apply andb_true_iff in Hl as [-> ->]. done. }
  destruct Hl1 as [Hl1 Hl2].
  destruct (hit_step_sim mk s st h Hsim Hl1) as (e & He & Ht & Hd & Hsim').
  { pose proof (Hb (hit_tid h)) as Hb1. cbn [length] in Hb1. lia. }
  destruct (hit_step_config s h) as (Hc & _ & _ & Hh).
  assert (Htr : forall v, tracked (hit_step s h).1 v = tracked s v) by (intros; by apply tracked_config).
  pose proof (fun tid => spec_step_length (tracked s) mk st h tid) as Hlen.
  destruct (hit_step s h) as [s1 o]. cbn [fst snd] in *. subst o.
  destruct (spec_step (tracked s) mk st h) as [st1 d]. cbn [fst snd] in *. subst d.
  destruct (IH s1 st1 Hsim' Hl2) as (I1 & I2 & I3).
  { intros tid. specialize (Hb tid). specialize (Hlen tid). cbn [length] in Hb. lia. }
  rewrite (spec_run_ext _ (tracked s) mk st1 hs Htr) in I1, I3.
  destruct (run s1 hs) as [s2 es], (spec_run (tracked s) mk st1 hs) as [st2 ds]. cbn [fst snd map] in *.
  split; [by rewrite I1|]. split; [by rewrite Ht, I2|done].
Qed.

(** Runs one hit longer. *)
Lemma run_snoc s (hs : list (@hit R U)) (h : @hit R U) :
  run s (hs ++ [h]) =
  ((hit_step (run s hs).1 h).1,
   (run s hs).2 ++ match (hit_step (run s hs).1 h).2 with Some e => [e] | None => [] end).
Proof.
  revert s. induction hs as [|h' hs IH]; intros s; cbn [app run].
  - cbn [fst snd]. by destruct (hit_step s h) as [s1 [e|]].
  - destruct (hit_step s h') as [s1 o]. rewrite IH. destruct (run s1 hs) as [s2 es]. cbn [fst snd].
    by destruct o.
Qed.

Lemma lossless_snoc s (hs : list (@hit R U)) (h : @hit R U) :
  lossless s (hs ++ [h]) = lossless s hs && lossless (run s hs).1 [h].
Proof.
  revert s. induction hs as [|h' hs IH]; intros s; [done|].
  cbn [app lossless run]. rewrite IH, andb_assoc. destruct (hit_step s h') as [s1 o]. cbn [fst].
  destruct (run s1 hs) as [s2 es]. reflexivity.
Qed.

Lemma run_config s (hs : list (@hit R U)) :
  let s' := (run s hs).1 in
  cfg s' = cfg s /\ argkind s' = argkind s /\ argidx s' = argidx s /\ hasret s' = hasret s.
Proof.
  revert s. induction hs as [|h hs IH]; intros s; [done|]. cbn [run].
  pose proof (hit_step_config s h) as (E1 & E2 & E3 & E4). destruct (hit_step s h) as [s1 o]. cbn [fst] in *.
  destruct (IH s1) as (F1 & F2 & F3 & F4). destruct (run s1 hs) as [s2 es]. cbn [fst] in *.
  repeat split; congruence.
Qed.

(** A hit leaves the depth of the other threads alone. *)
Lemma hit_step_other s (h : @hit R U) tid :
  tid <> hit_tid h -> map_lookup_elem (depth (hit_step s h).1) tid = map_lookup_elem (depth s) tid.
Proof.
  intros Hne. destruct h as [v|v]; cbn [hit_tid hit_step] in *; destruct (reserve v) as [g|] eqn:E.
  - rewrite (up_all_maps s v g E). destruct (tracked s v); [|done]. cbn [set_depth_map depth].
    destruct (map_update_elem _ _ _) as [m rc] eqn:Eu. by apply (update_other _ _ _ _ _ _ Eu).
  - by rewrite up_all_drop.
  - rewrite (up_ret_step s v g E). cbn [fst set_depth_map depth].
    destruct (map_update_elem _ _ _) as [m rc] eqn:Eu. by apply (update_other _ _ _ _ _ _ Eu).
  - by rewrite up_ret_drop.
Qed.
End Lemmas.

(** ** A concrete machine

    Three probed functions of one process, for the examples: a [jvalue]
    variant at offset 0x100, a [va_list] variant at 0x200 and a variadic one
    at 0x300, each with its argument pointer or first argument in x3, and a
    function without a return probe at 0x400. *)

Definition demo_base : Z := 0x7000000000.

Definition demo_maps : kmaps hash_map :=
  KMaps (HashMap 2 {[0 := demo_base; 1 := 0]})
    (HashMap 2048 {[0x100 := 1; 0x200 := 2; 0x300 := 3]})
    (HashMap 2048 {[0x100 := 3; 0x200 := 3; 0x300 := 3]})
    (HashMap 8192 {[0x100 := 1; 0x200 := 1; 0x300 := 1]})
    (HashMap 4096 ∅).

(** What a reserved record may hold before the program writes it. *)
Definition junk (x : Z) : evt_t :=
  Evt x x x x x x x x x x (repeat x NARGS) x x x x (repeat x NCAP) (repeat x NCAP) x x x x x.

Definition demo_regs (off : Z) (args : list Z) : user_pt_regs :=
  UserPtRegs (args ++ repeat 0 (30 - length args) ++ [0x7100000abc]) 0x7ff0000000 (demo_base + off) 0.

(** A hit of thread 42 of process 41. *)
Definition demo_hit (off : Z) (args : list Z) (mem : list (Z * Z)) (ts : Z) : hit_env user_pt_regs byte_mem :=
  HitEnv (Some (junk 0x5a5a)) (41 * 2 ^ 32 + 42) ts (demo_regs off args) (mem_of_words mem) (-14).

Definition demo_lost (off : Z) (args : list Z) (ts : Z) : hit_env user_pt_regs byte_mem :=
  HitEnv None (41 * 2 ^ 32 + 42) ts (demo_regs off args) (mem_of_words []) (-14).

(** ** Properties *)

Section Properties.
Context {M R U : Type} `{HM : BpfMapLaws M} `{HR : PtRegsLaws R} `{HU : UserMemLaws U}.

(** C9. Over any run of fewer than 2^31 hits in which no event is lost, of any
    number of threads in any interleaving, the programs implement call stacks: starting with empty
    depth counters, every event carries its thread and the height of that
    thread's stack of open tracked calls (an entry the height it finds, a
    return the height it leaves, an untracked entry -1), and the counters
    end at the stacks' heights. *)
Theorem depth_is_stack_height (s : kmaps M) (hs : list (@hit R U)) :
  (forall tid, height s tid = 0) -> lossless s hs = true -> Z.of_nat (length hs) < 2 ^ 31 ->
  let st := spec_run (tracked s) (fun v => v) ∅ hs in
  map e_depth (run s hs).2 = st.2 /\ map e_tid (run s hs).2 = map hit_tid hs /\
  depth_sim (run s hs).1 st.1.
Proof.
  intros H0' Hl Hb. apply (run_sim (fun v : hit_env R U => v)); [|done|].
  - intros tid. by rewrite H0'.
  - intros tid. done.
Qed.

(** C25. A lost entry shifts the pairing: when the ring buffer is full at the
    entry of a tracked call, the program returns before it counts the call,
    so the call's own return is reported at the depth of the enclosing call
    and the enclosing call's return one below its own. *)
Theorem lost_entry_shifts_returns (s : kmaps M) (v r1 r2 : hit_env R U) d :
  reserve v = None -> lossless s [Return r1; Return r2] = true ->
  u32 (pid_tgid r1) = u32 (pid_tgid v) -> u32 (pid_tgid r2) = u32 (pid_tgid v) ->
  height s (u32 (pid_tgid v)) = d -> 2 <= d < 2 ^ 31 ->
  map e_depth (run s [Entry v; Return r1; Return r2]).2 = [d - 1; d - 2].
Proof.
  intros Ev Hl E1 E2 Hd Hb. cbn [run hit_step]. rewrite (up_all_drop s v Ev).
  cbn [lossless] in Hl. rewrite andb_true_r in Hl. bool_prop.
  match goal with H : bool_decide (is_Some (reserve r1)) = true |- _ => apply bool_decide_eq_true in H as [g1 G1] end.
  match goal with H : bool_decide (is_Some (reserve r2)) = true |- _ => apply bool_decide_eq_true in H as [g2 G2] end.
  cbn [hit_step hit_tid] in *. rewrite (up_ret_step s r1 g1 G1) in *. cbn [fst] in *.
  rewrite E1, E2, Hd in *. destruct (Z.ltb_spec 0 d); [|lia].
  rewrite (up_ret_step _ r2 g2 G2). rewrite E2, height_update_same by done.
  destruct (Z.ltb_spec 0 (d - 1)); [|lia]. cbn [fst snd map ret_evt e_depth].
  rewrite !s32_small by lia. by replace (d - 1 - 1) with (d - 2) by lia.
Qed.

(** What one hit changes in the kernel: the four configuration maps never,
    the depth map only under the current thread, and there only by one up on
    a tracked entry, by one down (not below zero) on a return, and not at
    all when the event could not be reserved. *)
Theorem hit_changes (s : kmaps M) (h : @hit R U) :
  let s' := (hit_step s h).1 in
  (cfg s' = cfg s /\ argkind s' = argkind s /\ argidx s' = argidx s /\ hasret s' = hasret s) /\
  (forall tid, tid <> hit_tid h -> height s' tid = height s tid) /\
  (height s' (hit_tid h) = height s (hit_tid h) \/
   match h with
   | Entry v => tracked s v = true /\ height s' (hit_tid h) = u32 (height s (hit_tid h) + 1)
   | Return v => 0 < height s (hit_tid h) /\ height s' (hit_tid h) = height s (hit_tid h) - 1 \/
                 height s (hit_tid h) <= 0 /\ height s' (hit_tid h) = 0
   end).
Proof.
  cbv zeta. split; [apply hit_step_config|].
  assert (Hup : forall tid x,
    height (set_depth_map s (map_update_elem (depth s) tid x).1) tid = height s tid \/
    height (set_depth_map s (map_update_elem (depth s) tid x).1) tid = x).
  { intros tid x. unfold height. cbn. destruct (map_update_elem (depth s) tid x) as [m rc] eqn:Eu. cbn.
    destruct (Z.eq_dec rc 0) as [->|Hrc]; [right; by rewrite (update_same _ _ _ _ Eu)|].
    left. by rewrite (update_fail _ _ _ _ _ Eu Hrc). }
  destruct h as [v|v]; cbn [hit_step hit_tid]; destruct (reserve v) as [g|] eqn:Eg.
  - rewrite (up_all_maps s v g Eg). destruct (tracked s v); [|auto].
    split; [intros tid Hne; by apply height_update_other, not_eq_sym|].
    destruct (Hup (u32 (pid_tgid v)) (u32 (height s (u32 (pid_tgid v)) + 1))); auto.
  - rewrite (up_all_drop s v Eg). auto.
  - rewrite (up_ret_step s v g Eg). cbn [fst].
    split; [intros tid Hne; by apply height_update_other, not_eq_sym|].
    edestruct (Hup (u32 (pid_tgid v))) as [E|E]; [by left|]. right. revert E.
    destruct (Z.ltb_spec 0 (height s (u32 (pid_tgid v)))); intros E; [left|right]; split; (lia || apply E).
  - rewrite (up_ret_drop s v Eg). auto.
Qed.
End Properties.

Definition demo_run : list (@hit user_pt_regs byte_mem) :=
  [Entry (demo_hit 0x100 [] [] 1); Entry (demo_hit 0x400 [] [] 2); Entry (demo_hit 0x200 [] [] 3);
   Return (demo_hit 0x0 [] [] 4); Return (demo_hit 0x0 [] [] 5)].

Lemma demo_height0 tid : height demo_maps tid = 0.
Proof. unfold height. cbn. by rewrite lookup_empty. Qed.

Lemma depth_is_stack_height_witness : map e_depth (run demo_maps demo_run).2 = [0; -1; 1; 1; 0].
Proof.
  destruct (depth_is_stack_height demo_maps demo_run demo_height0) as [E _].
  - vm_compute. reflexivity.
  - vm_compute. reflexivity.
  - rewrite E. vm_compute. reflexivity.
Defined.

(** Two calls are open; a third one's entry is lost. *)
Definition demo_two : kmaps hash_map :=
  (run demo_maps [Entry (demo_hit 0x100 [] [] 1); Entry (demo_hit 0x200 [] [] 2)]).1.

Lemma lost_entry_shifts_returns_witness :
  map e_depth (run demo_two [Entry (demo_lost 0x300 [] 3);
    Return (demo_hit 0 [] [] 4); Return (demo_hit 0 [] [] 5)]).2 = [1; 0].
Proof.
  apply (lost_entry_shifts_returns demo_two (demo_lost 0x300 [] 3) (demo_hit 0 [] [] 4) (demo_hit 0 [] [] 5) 2).
  - reflexivity.
  - vm_compute. reflexivity.
  - reflexivity.
  - reflexivity.
  - vm_compute. reflexivity.
  - lia.
Defined.

(** A tracked entry of thread 42: its own height goes from 0 to 1. *)
Lemma hit_changes_witness :
  let s' := (hit_step demo_maps (Entry (demo_hit 0x100 [] [] 1))).1 in height s' 42 = 1 /\ height s' 43 = 0.
Proof.
  cbv zeta. destruct (hit_changes demo_maps (Entry (demo_hit 0x100 [] [] 1))) as (_ & Ho & _).
  split; [vm_compute; reflexivity|]. rewrite (Ho 43); [vm_compute; reflexivity|vm_compute; discriminate].
Defined.
