(* ===== verification/Wire.v ===== *)
(** * Wire: events across the ring buffer

    [struct evt_t] (bpf/recon.bpf.c) against [reconEvt] (loader/trace.go) and
    [struct dump_t] (bpf/envprobe.bpf.c) against [envDump] (loader/env.go):
    the C layout the kernel side writes, the packed layout [binary.Read]
    expects, and the decoding of a raw sample. *)

From S2P Require Import Prelude CTypes Bpf Recon.

Definition C_u32 : ctype := Tint 4 false.
Definition C_s32 : ctype := Tint 4 true.
Definition C_u64 : ctype := Tint 8 false.
Definition C_s64 : ctype := Tint 8 true.
Definition G_u32 : gotype := Gint 4 false.
Definition G_s32 : gotype := Gint 4 true.
Definition G_u64 : gotype := Gint 8 false.
Definition G_s64 : gotype := Gint 8 true.

Definition struct_evt_t : ctype := Tstruct [
  ("pid", C_u32); ("tid", C_u32); ("kind", C_u32); ("pad", C_u32);
  ("ip", C_u64); ("rc", C_u64); ("ts", C_u64);
  ("depth", C_s32); ("pad2", C_u32); ("caller", C_u64);
  ("a", Tarr C_u64 NARGS);
  ("ncap", C_u32); ("argkind", C_u32); ("res1", C_u32); ("res2", C_u32);
  ("cap", Tarr C_u64 NCAP); ("cap2", Tarr C_u64 NCAP);
  ("vgr", C_u64); ("vgoff", C_s64); ("vstk", C_u64);
  ("stackid", C_s32); ("pad3", C_u32)].

(** main.go: [reconNArgs], [NCAP], [envSlots]. *)
Definition reconNArgs : nat := 5.
Definition go_NCAP : nat := 16.
Definition envSlots : nat := 240.

Definition type_reconEvt : gotype := Gstruct [
  ("Pid", G_u32); ("Tid", G_u32); ("Kind", G_u32); ("Pad", G_u32);
  ("Ip", G_u64); ("Rc", G_u64); ("Ts", G_u64);
  ("Depth", G_s32); ("Pad2", G_u32); ("Caller", G_u64);
  ("A", Garr G_u64 reconNArgs);
  ("Ncap", G_u32); ("Argkind", G_u32); ("Res1", G_u32); ("Res2", G_u32);
  ("Cap", Garr G_u64 go_NCAP); ("Cap2", Garr G_u64 go_NCAP);
  ("Vgr", G_u64); ("Vgoff", G_s64); ("Vstk", G_u64);
  ("Stackid", G_s32); ("Pad3", G_u32)].

(** The Go value. *)
Record reconEvt := ReconEvt {
  Pid : Z; Tid : Z; Kind : Z; Pad : Z; Ip : Z; Rc : Z; Ts : Z; Depth : Z; Pad2 : Z;
  Caller : Z; A : list Z; Ncap : Z; Argkind : Z; Res1 : Z; Res2 : Z;
  Cap : list Z; Cap2 : list Z; Vgr : Z; Vgoff : Z; Vstk : Z; Stackid : Z; Pad3 : Z
}.

(** The scalars of an event in declaration order. *)
Definition evt_scalars (e : evt_t) : list Z :=
  [e_pid e; e_tid e; e_kind e; e_pad e; e_ip e; e_rc e; e_ts e; e_depth e; e_pad2 e; e_caller e]
  ++ e_a e ++ [e_ncap e; e_argkind e; e_res1 e; e_res2 e] ++ e_cap e ++ e_cap2 e
  ++ [e_vgr e; e_vgoff e; e_vstk e; e_stackid e; e_pad3 e].

(** The ring-buffer record of an event: [old] is what the bytes held before. *)
Definition raw_sample (old : Z -> byte) (e : evt_t) : list byte :=
  dump (store_all old (cells struct_evt_t 0) (evt_scalars e)) 0 (Z.to_nat (sizeof struct_evt_t)).

Definition evt_of_scalars (vs : list Z) : reconEvt :=
  let at_ i := nth i vs 0 in
  ReconEvt (at_ 0%nat) (at_ 1%nat) (at_ 2%nat) (at_ 3%nat) (at_ 4%nat) (at_ 5%nat) (at_ 6%nat)
    (at_ 7%nat) (at_ 8%nat) (at_ 9%nat) (take reconNArgs (drop 10 vs))
    (at_ 15%nat) (at_ 16%nat) (at_ 17%nat) (at_ 18%nat)
    (take go_NCAP (drop 19 vs)) (take go_NCAP (drop 35 vs))
    (at_ 51%nat) (at_ 52%nat) (at_ 53%nat) (at_ 54%nat) (at_ 55%nat).

(** [binary.Read] of a sample into a [reconEvt]: an error when the sample is
    shorter than the type, the extra bytes ignored when it is longer. *)
Definition read_evt (raw : list byte) : option reconEvt :=
  if Z.of_nat (length raw) <? go_size type_reconEvt then None
  else Some (evt_of_scalars (map (load raw) (go_cells type_reconEvt 0))).

(** The Go value that means the same as a C value. *)
Definition go_evt (e : evt_t) : reconEvt :=
  ReconEvt (e_pid e) (e_tid e) (e_kind e) (e_pad e) (e_ip e) (e_rc e) (e_ts e) (e_depth e)
    (e_pad2 e) (e_caller e) (e_a e) (e_ncap e) (e_argkind e) (e_res1 e) (e_res2 e)
    (e_cap e) (e_cap2 e) (e_vgr e) (e_vgoff e) (e_vstk e) (e_stackid e) (e_pad3 e).

(** Every field holds a value of its type. *)
Definition wf_evt (e : evt_t) : Prop :=
  length (e_a e) = NARGS /\ length (e_cap e) = NCAP /\ length (e_cap2 e) = NCAP /\
  Forall2 in_cell (cells struct_evt_t 0) (evt_scalars e).

(** ** The env probe's record *)

Definition NSLOTS : nat := 240.

Definition struct_dump_t : ctype := Tstruct [
  ("pid", C_u32); ("site", C_u32); ("reg", C_u32); ("pad", C_u32);
  ("env", C_u64); ("table", C_u64); ("slots", Tarr C_u64 NSLOTS)].

Definition type_envDump : gotype := Gstruct [
  ("Pid", G_u32); ("Site", G_u32); ("Reg", G_u32); ("Pad", G_u32);
  ("Env", G_u64); ("Table", G_u64); ("Slots", Garr G_u64 envSlots)].

Record dump_t := Dump {
  d_pid : Z; d_site : Z; d_reg : Z; d_pad : Z; d_env : Z; d_table : Z; d_slots : list Z
}.

Record envDump := EnvDump {
  D_Pid : Z; D_Site : Z; D_Reg : Z; D_Pad : Z; D_Env : Z; D_Table : Z; D_Slots : list Z
}.

Definition dump_scalars (d : dump_t) : list Z :=
  [d_pid d; d_site d; d_reg d; d_pad d; d_env d; d_table d] ++ d_slots d.

Definition raw_dump (old : Z -> byte) (d : dump_t) : list byte :=
  dump (store_all old (cells struct_dump_t 0) (dump_scalars d)) 0 (Z.to_nat (sizeof struct_dump_t)).

Definition dump_of_scalars (vs : list Z) : envDump :=
  let at_ i := nth i vs 0 in
  EnvDump (at_ 0%nat) (at_ 1%nat) (at_ 2%nat) (at_ 3%nat) (at_ 4%nat) (at_ 5%nat)
    (take envSlots (drop 6 vs)).

Definition read_dump (raw : list byte) : option envDump :=
  if Z.of_nat (length raw) <? go_size type_envDump then None
  else Some (dump_of_scalars (map (load raw) (go_cells type_envDump 0))).

Definition go_dump (d : dump_t) : envDump :=
  EnvDump (d_pid d) (d_site d) (d_reg d) (d_pad d) (d_env d) (d_table d) (d_slots d).

Definition wf_dump (d : dump_t) : Prop :=
  length (d_slots d) = NSLOTS /\ Forall2 in_cell (cells struct_dump_t 0) (dump_scalars d).

(** ** Lemmas *)

Lemma evt_cells_eq : cells struct_evt_t 0 = go_cells type_reconEvt 0.
Proof. vm_compute. reflexivity. Qed.

Lemma evt_size_eq : sizeof struct_evt_t = go_size type_reconEvt.
Proof. vm_compute. reflexivity. Qed.

Lemma dump_cells_eq : cells struct_dump_t 0 = go_cells type_envDump 0.
Proof. vm_compute. reflexivity. Qed.

Lemma dump_size_eq : sizeof struct_dump_t = go_size type_envDump.
Proof. vm_compute. reflexivity. Qed.

Lemma evt_cells_ok : cells_ok (Z.to_nat (sizeof struct_evt_t)) (cells struct_evt_t 0) = true.
Proof. vm_compute. reflexivity. Qed.

Lemma dump_cells_ok : cells_ok (Z.to_nat (sizeof struct_dump_t)) (cells struct_dump_t 0) = true.
Proof. vm_compute. reflexivity. Qed.

Lemma evt_of_scalars_scalars e : wf_evt e -> evt_of_scalars (evt_scalars e) = go_evt e.
Proof.
  intros (Ha & Hc & Hc2 & _). destruct e as [? ? ? ? ? ? ? ? ? ? a ? ? ? ? cap cap2 ? ? ? ? ?].
  cbn [e_a e_cap e_cap2] in *. unfold NARGS, NCAP in *.
  destruct a as [|? [|? [|? [|? [|? [|]]]]]]; try done.
  do 16 (destruct cap as [|? cap]; [done|]). destruct cap; [|done].
  do 16 (destruct cap2 as [|? cap2]; [done|]). destruct cap2; [|done].
  reflexivity.
Qed.

Lemma read_evt_raw old e : wf_evt e -> read_evt (raw_sample old e) = Some (go_evt e).
Proof.
  intros Hwf. pose proof Hwf as (_ & _ & _ & HF). unfold read_evt, raw_sample.
  rewrite length_dump, Z2Nat.id by (vm_compute; discriminate).
  rewrite evt_size_eq, Z.ltb_irrefl. f_equal.
  rewrite <- evt_cells_eq, <- evt_size_eq.
  rewrite load_all_store_all by (exact evt_cells_ok || exact HF). by apply evt_of_scalars_scalars.
Qed.

Lemma dump_of_scalars_scalars d : length (d_slots d) = NSLOTS -> dump_of_scalars (dump_scalars d) = go_dump d.
Proof.
  intros Hl. destruct d as [? ? ? ? ? ? sl]. unfold dump_scalars, dump_of_scalars, go_dump.
  cbn [d_slots d_pid d_site d_reg d_pad d_env d_table app nth drop] in *.
  f_equal. unfold envSlots. change 240%nat with NSLOTS. rewrite <- Hl. apply firstn_all.
Qed.

Lemma read_dump_raw old d : wf_dump d -> read_dump (raw_dump old d) = Some (go_dump d).
Proof.
  intros [Hl HF]. unfold read_dump, raw_dump.
  rewrite length_dump, Z2Nat.id by (vm_compute; discriminate).
  rewrite dump_size_eq, Z.ltb_irrefl. f_equal.
  rewrite <- dump_cells_eq, <- dump_size_eq.
  rewrite load_all_store_all by (exact dump_cells_ok || exact HF). by apply dump_of_scalars_scalars.
Qed.

(** *** Submitted events are well formed *)

Definition s_fits (w x : Z) : Prop := - 2 ^ (w - 1) <= x < 2 ^ (w - 1).

Record evt_fits (e : evt_t) : Prop := EvtFits {
  ef_pid : fits 32 (e_pid e); ef_tid : fits 32 (e_tid e); ef_kind : fits 32 (e_kind e);
  ef_pad : fits 32 (e_pad e); ef_ip : fits 64 (e_ip e); ef_rc : fits 64 (e_rc e);
  ef_ts : fits 64 (e_ts e); ef_depth : s_fits 32 (e_depth e); ef_pad2 : fits 32 (e_pad2 e);
  ef_caller : fits 64 (e_caller e);
  ef_a : length (e_a e) = NARGS /\ Forall (fits 64) (e_a e);
  ef_ncap : fits 32 (e_ncap e); ef_argkind : fits 32 (e_argkind e);
  ef_res1 : fits 32 (e_res1 e); ef_res2 : fits 32 (e_res2 e);
  ef_cap : length (e_cap e) = NCAP /\ Forall (fits 64) (e_cap e);
  ef_cap2 : length (e_cap2 e) = NCAP /\ Forall (fits 64) (e_cap2 e);
  ef_vgr : fits 64 (e_vgr e); ef_vgoff : s_fits 64 (e_vgoff e); ef_vstk : fits 64 (e_vstk e);
  ef_stackid : s_fits 32 (e_stackid e); ef_pad3 : fits 32 (e_pad3 e)
}.

(** The cells of the structure, grouped as the fields are. *)
Definition evt_cell_widths : list (nat * bool) :=
  repeat (4%nat, false) 4 ++ repeat (8%nat, false) 3 ++ [(4%nat, true); (4%nat, false); (8%nat, false)]
  ++ repeat (8%nat, false) 5 ++ repeat (4%nat, false) 4 ++ repeat (8%nat, false) 16
  ++ repeat (8%nat, false) 16 ++ [(8%nat, false); (8%nat, true); (8%nat, false); (4%nat, true); (4%nat, false)].

Definition in_width (p : nat * bool) (v : Z) : Prop := in_cell (Cell 0 p.1 p.2) v.

Lemma evt_cells_widths : map (fun c => (c_size c, c_signed c)) (cells struct_evt_t 0) = evt_cell_widths.
Proof. vm_compute. reflexivity. Qed.

Lemma in_cell_widths cs vs :
  Forall2 in_width (map (fun c => (c_size c, c_signed c)) cs) vs -> Forall2 in_cell cs vs.
Proof.
  revert vs. induction cs as [|c cs IH]; intros vs H; inversion H; subst; constructor; [done|auto].
Qed.

Lemma Forall2_repeat {X Y} (P : X -> Y -> Prop) x n (l : list Y) :
  length l = n -> Forall (P x) l -> Forall2 P (repeat x n) l.
Proof.
  intros <-. induction l as [|y l IH]; intros H; [constructor|].
  inversion H; subst. constructor; auto.
Qed.

Lemma wf_evt_intro e : evt_fits e -> wf_evt e.
Proof.
  intros []. repeat (split; [tauto|]). apply in_cell_widths. rewrite evt_cells_widths.
  unfold evt_cell_widths, evt_scalars.
  change (repeat (4%nat, false) 4) with [(4%nat, false); (4%nat, false); (4%nat, false); (4%nat, false)].
  change (repeat (8%nat, false) 3) with [(8%nat, false); (8%nat, false); (8%nat, false)].
  rewrite !app_assoc. rewrite <- !app_assoc.
  repeat lazymatch goal with
    | |- Forall2 _ (_ :: _) (_ :: _) => constructor; [assumption|]
    | |- Forall2 _ (repeat _ _ ++ _) (e_a e ++ _) => apply Forall2_app; [apply Forall2_repeat; tauto|]
    | |- Forall2 _ (repeat _ _ ++ _) (e_cap e ++ _) => apply Forall2_app; [apply Forall2_repeat; tauto|]
    | |- Forall2 _ (repeat _ _ ++ _) (e_cap2 e ++ _) => apply Forall2_app; [apply Forall2_repeat; tauto|]
    | |- Forall2 _ [] [] => constructor
    | |- Forall2 _ (_ ++ _) (_ ++ _) => cbn [app]
    end.
Qed.

Section EmitFits.
Context {M R U : Type} `{HM : BpfMapLaws M} `{HR : PtRegsLaws R} `{HU : UserMemLaws U}.

(** The parts of a hit that come from the kernel are words of their types. *)
Definition hit_fits (v : hit_env R U) : Prop :=
  (forall g, reserve v = Some g -> evt_fits g) /\ fits 64 (pid_tgid v) /\ fits 64 (ktime_ns v).

(** The argument-kind and argument-index maps hold bytes. *)
Definition byte_values (s : kmaps M) : Prop :=
  (forall off k, map_lookup_elem (argkind s) off = Some k -> fits 8 k) /\
  (forall off k, map_lookup_elem (argidx s) off = Some k -> fits 8 k).

Lemma Forall_fill (f : nat -> Z) n l :
  (forall i, fits 64 (f i)) -> Forall (fits 64) l -> Forall (fits 64) (fill f n l).
Proof.
  intros Hf. unfold fill. generalize (seq 0 n). intros ixs. revert l.
  induction ixs as [|i ixs IH]; intros l Hl; cbn [fold_left]; [done|].
  apply IH. by apply Forall_insert.
Qed.

Lemma fill_ok (u : U) p l :
  length l = NCAP /\ Forall (fits 64) l ->
  length (fill (fun i => read_word u (p + Z.of_nat i * 8)) NCAP l) = NCAP /\
  Forall (fits 64) (fill (fun i => read_word u (p + Z.of_nat i * 8)) NCAP l).
Proof.
  intros [Hl Hf]. split; [by rewrite length_fill|]. apply Forall_fill; [|done].
  intros i. apply read_word_range.
Qed.

Lemma nthZ_fits l i : Forall (fits 64) l -> fits 64 (nthZ l i).
Proof.
  intros Hl. unfold nthZ. destruct (i <? 0); [done|]. rewrite nth_lookup.
  destruct (l !! Z.to_nat i) eqn:E; [|done]. eapply Forall_lookup_1 in E; eauto.
Qed.

Lemma le_val_take8 (l : list byte) : fits 64 (le_val (take 8 l)).
Proof.
  pose proof (le_val_range (take 8 l)) as Hr. rewrite length_take in Hr. unfold fits.
  assert (256 ^ Z.of_nat (Nat.min 8 (length l)) <= 2 ^ 64); [|lia].
  change (2 ^ 64) with (256 ^ 8). apply Z.pow_le_mono_r; lia.
Qed.

Lemma s32_s64 x : s_fits 64 (s32 x).
Proof. unfold s_fits. word_lia. Qed.

Lemma capture_fits (u : U) e p k ix :
  evt_fits e -> fits 8 k -> 0 <= ix < Z.of_nat NARGS -> evt_fits (capture u e p k ix).
Proof.
  intros He Hk Hix. pose proof He as [].
  assert (Hk32 : fits 32 k) by word_lia. assert (Hn : fits 32 (Z.of_nat NCAP)) by done.
  unfold capture. destruct (k =? 1); [|destruct (k =? 2); [|destruct (k =? 3)]]; cbv zeta;
    constructor; cbn [set_capture e_pid e_tid e_kind e_pad e_ip e_rc e_ts e_depth e_pad2 e_caller
      e_a e_ncap e_argkind e_res1 e_res2 e_cap e_cap2 e_vgr e_vgoff e_vstk e_stackid e_pad3];
    try assumption; try (apply fill_ok; assumption); try apply le_val_take8; try apply s32_s64.
  - apply wrap_range. lia.
  - destruct ef_cap0 as [Hl Hf]. rewrite !length_insert. split; [done|].
    apply Forall_insert; [apply Forall_insert; [done|]|];
      [|destruct (ix + 1 <? Z.of_nat NARGS); [|done]]; apply nthZ_fits, ef_a0.
Qed.

Lemma entry_evt_fits v g : hit_fits v -> reserve v = Some g -> evt_fits (entry_evt v g).
Proof.
  intros (Hg & Hp & Hk) E. specialize (Hg g E). destruct Hg.
  constructor; cbn [entry_evt e_pid e_tid e_kind e_pad e_ip e_rc e_ts e_depth e_pad2 e_caller
      e_a e_ncap e_argkind e_res1 e_res2 e_cap e_cap2 e_vgr e_vgoff e_vstk e_stackid e_pad3];
    try assumption; try done.
  - apply wrap_range. lia.
  - apply wrap_range. lia.
  - apply ip_word.
  - apply ret_word.
  - split; [done|]. repeat (constructor; [apply parm_word|]). constructor.
Qed.

Lemma s32_range x : s_fits 32 (s32 x).
Proof. unfold s_fits. word_lia. Qed.

Lemma set_depth_fits e d : evt_fits e -> s_fits 32 d -> evt_fits (set_depth e d).
Proof. intros [] Hd. by constructor. Qed.

Lemma set_stackid_fits e d : evt_fits e -> s_fits 32 d -> evt_fits (set_stackid e d).
Proof. intros [] Hd. by constructor. Qed.

(** Every event [up_all] submits holds a value of its type in each field. *)
Lemma up_all_fits s v e :
  hit_fits v -> byte_values s -> (up_all s v).2 = Some e -> evt_fits e.
Proof.
  intros Hv [Hk Hi] E. unfold up_all in E. destruct (reserve v) as [g|] eqn:Eg; [|done].
  pose proof (entry_evt_fits v g Hv Eg) as Hf.
  destruct (map_lookup_elem (cfg s) 0) as [base|]; [|cbn [snd] in E; by injection E as <-].
  cbv zeta in E. set (off := u64 _) in E.
  assert (Hf2 : forall d, evt_fits (set_depth (entry_evt v g) (s32 d)))
    by (intros; apply set_depth_fits; [done|apply s32_range]).
  assert (Hc : forall e1 k ix, evt_fits e1 ->
    map_lookup_elem (argkind s) off = Some k -> map_lookup_elem (argidx s) off = Some ix ->
    evt_fits (if negb (k =? 0) && (ix <? Z.of_nat NARGS)
              then capture (umem v) e1 (nthZ (e_a e1) ix) k ix else e1)).
  { intros e1 k ix He1 Ek Eix. destruct (negb (k =? 0) && (ix <? Z.of_nat NARGS)) eqn:Eb; [|done].
    bool_prop. specialize (Hi _ _ Eix) as [? ?]. apply capture_fits; [done|eauto|lia]. }
  assert (Hs : forall e1, evt_fits e1 ->
    evt_fits (match map_lookup_elem (cfg s) 1 with
              | Some ws => if negb (ws =? 0) then set_stackid e1 (s32 (stackid_rc v)) else e1
              | None => e1
              end)).
  { intros e1 He1. destruct (map_lookup_elem (cfg s) 1) as [ws|]; [|done].
    destruct (negb (ws =? 0)); [|done]. apply set_stackid_fits; [done|apply s32_range]. }
  destruct (map_lookup_elem (hasret s) off); cbn [set_depth_map cfg argkind argidx] in E;
    cbn [snd] in E; injection E as <-; apply Hs;
    destruct (map_lookup_elem (argkind s) off) as [k|] eqn:Ek; try apply Hf2; try apply Hf;
    destruct (map_lookup_elem (argidx s) off) as [ix|] eqn:Eix; try apply Hf2; try apply Hf;
    by apply Hc.
Qed.

Lemma up_ret_fits s v e :
  hit_fits v -> (up_ret s v).2 = Some e -> evt_fits e.
Proof.
  intros (Hg & Hp & Hk) E. unfold up_ret in E. destruct (reserve v) as [g|] eqn:Eg; [|done].
  cbn [snd] in E. injection E as <-. specialize (Hg g eq_refl). destruct Hg.
  constructor; cbn [ret_evt e_pid e_tid e_kind e_pad e_ip e_rc e_ts e_depth e_pad2 e_caller
      e_a e_ncap e_argkind e_res1 e_res2 e_cap e_cap2 e_vgr e_vgoff e_vstk e_stackid e_pad3];
    try assumption; try done; try (apply wrap_range; lia).
  - apply ip_word.
  - apply parm_word.
  - apply s32_range.
  - split; [done|]. repeat (constructor; [done|]). constructor.
Qed.
End EmitFits.

(** ** Properties *)

(** C20. The two declarations of each record agree: the C structures the BPF
    programs fill and the Go types [binary.Read] decodes list the same
    scalars at the same offsets, with the same sizes and signs, and have the
    same total size (so no padding is decoded as data). *)
Theorem layouts_agree :
  cells struct_evt_t 0 = go_cells type_reconEvt 0 /\ sizeof struct_evt_t = go_size type_reconEvt /\
  cells struct_dump_t 0 = go_cells type_envDump 0 /\ sizeof struct_dump_t = go_size type_envDump.
Proof. split; [apply evt_cells_eq|]. split; [apply evt_size_eq|]. split; [apply dump_cells_eq|apply dump_size_eq]. Qed.

Section Properties.
Context {M R U : Type} `{HM : BpfMapLaws M} `{HR : PtRegsLaws R} `{HU : UserMemLaws U}.

(** C19. Every event a probe submits crosses the ring buffer intact: whatever
    the record's bytes were before, the loader decodes the sample to the
    value the program built, each field within its type. *)
Theorem submitted_event_arrives (s : kmaps M) (h : @hit R U) (old : Z -> byte) e :
  match h with Entry v | Return v => hit_fits v end -> byte_values s ->
  (hit_step s h).2 = Some e -> read_evt (raw_sample old e) = Some (go_evt e).
Proof.
  intros Hv Hb E. apply read_evt_raw, wf_evt_intro.
  destruct h as [v|v]; [by eapply up_all_fits|by eapply up_ret_fits].
Qed.
End Properties.

(** The env probe's record round-trips in the same way, all 240 slots
    included. *)
Theorem dump_arrives (old : Z -> byte) d :
  wf_dump d -> read_dump (raw_dump old d) = Some (go_dump d).
Proof. apply read_dump_raw. Qed.

(** ** Examples *)

Lemma junk_fits x : 0 <= x < 2 ^ 31 -> evt_fits (junk x).
Proof.
  intros Hx. assert (fits 32 x /\ fits 64 x /\ s_fits 32 x /\ s_fits 64 x) as (? & ? & ? & ?).
  { unfold fits, s_fits. lia. }
  constructor; cbn [junk e_pid e_tid e_kind e_pad e_ip e_rc e_ts e_depth e_pad2 e_caller
        e_a e_ncap e_argkind e_res1 e_res2 e_cap e_cap2 e_vgr e_vgoff e_vstk e_stackid e_pad3];
    try assumption; (split; [apply repeat_length|repeat (constructor; [assumption|]); constructor]).
Qed.

Lemma demo_hit_fits off args mem ts : fits 64 ts -> hit_fits (demo_hit off args mem ts).
Proof.
  intros Hts. split; [|by split]. intros g [= <-]. apply junk_fits. lia.
Qed.

Lemma demo_byte_values : byte_values demo_maps.
Proof.
  split; intros off k; cbn; rewrite !lookup_insert_Some, lookup_singleton_Some; intros Hk;
    destruct_or?; destruct_and?; subst; unfold fits; lia.
Qed.

Definition demo_entry : @hit user_pt_regs byte_mem := Entry (demo_hit 0x200 [1; 2; 3; 4; 5] [] 77).
Definition demo_entry_evt : evt_t := default (junk 0) (hit_step demo_maps demo_entry).2.

Lemma submitted_event_arrives_witness :
  read_evt (raw_sample (fun _ => byte_of 255) demo_entry_evt) = Some (go_evt demo_entry_evt) /\
  A (go_evt demo_entry_evt) = [1; 2; 3; 4; 5].
Proof.
  split; [|vm_compute; reflexivity].
  apply (submitted_event_arrives demo_maps demo_entry).
  - apply demo_hit_fits. vm_compute. split; [discriminate|reflexivity].
  - apply demo_byte_values.
  - vm_compute. reflexivity.
Defined.

Definition demo_dump : dump_t := Dump 41 1 2 0 0x7ff0001000 0x7000001000 (repeat 0x7000002000 NSLOTS).

Lemma dump_arrives_witness :
  D_Slots (default (go_dump demo_dump) (read_dump (raw_dump (fun _ => byte_of 255) demo_dump))) =
  repeat 0x7000002000 240.
Proof.
  rewrite (dump_arrives (fun _ => byte_of 255) demo_dump); [reflexivity|].
  split; [reflexivity|]. unfold dump_scalars, demo_dump.
  apply (bool_decide_eq_true_1 (Forall2 in_cell _ _)).
  vm_compute. reflexivity.
Defined.
