(* ===== verification/EnvProbe.v ===== *)
(** * EnvProbe: bpf/envprobe.bpf.c

    The programs that look for a live [JNIEnv*] in the arguments of two
    exported libart functions and dump the function table it points to.  A hit
    is a transformer of the [seen] map that gives the records it submits. *)

From S2P Require Import Prelude CTypes Bpf Recon Wire.

(** What one hit finds; [eh_room n] tells whether the reservation
    in its [n]-th call of [emit] would succeed. *)
Record env_hit (R U : Type) := EnvHit {
  eh_pid_tgid : Z;
  eh_regs : R;
  eh_umem : U;
  eh_room : nat -> bool
}.
Arguments EnvHit {R U} _ _ _ _.
Arguments eh_pid_tgid {R U} _.
Arguments eh_regs {R U} _.
Arguments eh_umem {R U} _.
Arguments eh_room {R U} _ _.

Section Programs.
Context {M R U : Type} `{BpfMap M} `{PtRegs R} `{UserMem U}.

(** [bpf_probe_read_user(&v, 8, p)] with its result tested. *)
Definition try_read_word (u : U) (p : Z) : option Z :=
  le_val <$> probe_read_user u (u64 p) 8.

Definition table_slots (u : U) (table : Z) : list Z :=
  map (fun i => read_word u (table + Z.of_nat i * 8)) (seq 0 NSLOTS).

(** [emit]: [ok] is the outcome of its reservation. *)
Definition emit_env (v : env_hit R U) (ok : bool) (site reg cand : Z) : option dump_t :=
  if cand <? 0x10000 then None
  else
    match try_read_word (eh_umem v) cand with
    | None => None
    | Some table =>
        if (table <? 0x10000) || (0x0000800000000000 <? table) then None
        else
          match try_read_word (eh_umem v) (table + 6 * 8) with
          | None => None
          | Some ver =>
              if ver <? 0x10000 then None
              else if ok
              then Some (Dump (u32 (Z.shiftr (eh_pid_tgid v) 32)) site reg 0 cand table
                           (table_slots (eh_umem v) table))
              else None
          end
    end.

Definition opt_list {X} (o : option X) : list X := match o with Some x => [x] | None => [] end.

(** The two calls of [emit] in each program, in order. *)
Definition emit_two (v : env_hit R U) (site r1 c1 r2 c2 : Z) : list dump_t :=
  opt_list (emit_env v (eh_room v 0) site r1 c1) ++ opt_list (emit_env v (eh_room v 1) site r2 c2).

Definition up_lnl (seen : M) (v : env_hit R U) : M * list dump_t :=
  let pid := u32 (Z.shiftr (eh_pid_tgid v) 32) in
  match map_lookup_elem seen pid with
  | Some _ => (seen, [])
  | None =>
      let out := emit_two v 1 1 (PT_REGS_PARM (eh_regs v) 2) 0 (PT_REGS_PARM (eh_regs v) 1) in
      ((map_update_elem seen pid 1).1, out)
  end.

Definition up_cnt (seen : M) (v : env_hit R U) : M * list dump_t :=
  let pid := u32 (Z.shiftr (eh_pid_tgid v) 32) in
  match map_lookup_elem seen pid with
  | Some _ => (seen, [])
  | None =>
      let out := emit_two v 2 0 (PT_REGS_PARM (eh_regs v) 1) 1 (PT_REGS_PARM (eh_regs v) 2) in
      ((map_update_elem seen pid 1).1, out)
  end.

Inductive env_event := Lnl (v : env_hit R U) | Cnt (v : env_hit R U).

Definition env_step (seen : M) (h : env_event) : M * list dump_t :=
  match h with Lnl v => up_lnl seen v | Cnt v => up_cnt seen v end.

Fixpoint env_run (seen : M) (hs : list env_event) : M * list dump_t :=
  match hs with
  | [] => (seen, [])
  | h :: hs' =>
      let '(s1, o1) := env_step seen h in
      let '(s2, o2) := env_run s1 hs' in
      (s2, o1 ++ o2)
  end.

(** ** Specification *)

Definition ev_pid (h : env_event) : Z :=
  match h with Lnl v | Cnt v => u32 (Z.shiftr (eh_pid_tgid v) 32) end.

Definition ev_hit (h : env_event) : env_hit R U := match h with Lnl v | Cnt v => v end.

(** No update of [seen] fails in the run. *)
Fixpoint marks_ok (seen : M) (hs : list env_event) : bool :=
  match hs with
  | [] => true
  | h :: hs' =>
      (match map_lookup_elem seen (ev_pid h) with
       | Some _ => true
       | None => (map_update_elem seen (ev_pid h) 1).2 =? 0
       end) && marks_ok (env_step seen h).1 hs'
  end.

(** A record that is what it claims to be. *)
Definition genuine (h : env_event) (d : dump_t) : Prop :=
  let u := eh_umem (ev_hit h) in
  d_pid d = ev_pid h /\ d_pad d = 0 /\
  d_site d = (match h with Lnl _ => 1 | Cnt _ => 2 end) /\
  (d_reg d = 0 \/ d_reg d = 1) /\
  d_env d = PT_REGS_PARM (eh_regs (ev_hit h)) (Z.to_nat (d_reg d + 1)) /\ 0x10000 <= d_env d /\
  try_read_word u (d_env d) = Some (d_table d) /\ 0x10000 <= d_table d <= 0x800000000000 /\
  (exists ver, try_read_word u (d_table d + 48) = Some ver /\ 0x10000 <= ver) /\
  d_slots d = table_slots u (d_table d).

(** The argument registers in the order a program tries them: the first is
    the one its comment says holds the env. *)
Definition tries (h : env_event) : list Z := match h with Lnl _ => [1; 0] | Cnt _ => [0; 1] end.

(** An argument register that passes for an env. *)
Definition usable (h : env_event) (reg : Z) : Prop :=
  let u := eh_umem (ev_hit h) in
  let env := PT_REGS_PARM (eh_regs (ev_hit h)) (Z.to_nat (reg + 1)) in
  0x10000 <= env /\
  exists table ver, try_read_word u env = Some table /\ 0x10000 <= table <= 0x800000000000 /\
    try_read_word u (table + 48) = Some ver /\ 0x10000 <= ver.

(** The first hit of a process in a run. *)
Definition first_hit (pid : Z) (hs : list env_event) : option env_event := List.find (fun h => ev_pid h =? pid) hs.

(** What one hit may submit when its process is probed by it alone: genuine
    records of that hit, one per usable register that found room. *)
Definition probed_by (h : env_event) (ds : list dump_t) : Prop :=
  (length ds <= 2)%nat /\ NoDup (map d_reg ds) /\ (forall d, In d ds -> genuine h d) /\
  (forall n reg, tries h !! n = Some reg -> usable h reg -> eh_room (ev_hit h) n = true -> In reg (map d_reg ds)).
End Programs.
Arguments env_event R U : clear implicits.

(** ** Lemmas *)

Section Lemmas.
Context {M R U : Type} `{HM : BpfMapLaws M} `{HR : PtRegsLaws R} `{HU : UserMemLaws U}.

Lemma emit_env_some (v : env_hit R U) ok site reg cand d :
  emit_env v ok site reg cand = Some d ->
  d_pid d = u32 (Z.shiftr (eh_pid_tgid v) 32) /\ d_site d = site /\ d_reg d = reg /\ d_pad d = 0 /\
  d_env d = cand /\ 0x10000 <= cand /\ try_read_word (eh_umem v) cand = Some (d_table d) /\
  0x10000 <= d_table d <= 0x800000000000 /\
  (exists ver, try_read_word (eh_umem v) (d_table d + 48) = Some ver /\ 0x10000 <= ver) /\
  d_slots d = table_slots (eh_umem v) (d_table d).
Proof.
  unfold emit_env. destruct (Z.ltb_spec cand 0x10000); [done|].
  destruct (try_read_word (eh_umem v) cand) as [table|] eqn:Et; [|done].
  destruct (Z.ltb_spec table 0x10000), (Z.ltb_spec 0x0000800000000000 table); cbn [orb]; try done.
  destruct (try_read_word (eh_umem v) (table + 6 * 8)) as [ver|] eqn:Ev; [|done].
  destruct (Z.ltb_spec ver 0x10000); [done|]. destruct ok; [|done].
  intros [= <-]. cbn [d_pid d_site d_reg d_pad d_env d_table d_slots].
  repeat (split; [done || lia|]). split; [by exists ver|done].
Qed.

(** What [emit_two] submits comes from its two candidates. *)
Lemma emit_two_In (v : env_hit R U) site r1 c1 r2 c2 d :
  In d (emit_two v site r1 c1 r2 c2) ->
  (exists ok, emit_env v ok site r1 c1 = Some d) \/ (exists ok, emit_env v ok site r2 c2 = Some d).
Proof.
  unfold emit_two, opt_list. rewrite in_app_iff. intros [Hin|Hin].
  - destruct (emit_env v (eh_room v 0) site r1 c1) eqn:E; [|done]. destruct Hin as [<-|[]]. eauto.
  - destruct (emit_env v (eh_room v 1) site r2 c2) eqn:E; [|done]. destruct Hin as [<-|[]]. eauto.
Qed.

Lemma length_emit_two (v : env_hit R U) site r1 c1 r2 c2 : (length (emit_two v site r1 c1 r2 c2) <= 2)%nat.
Proof.
  unfold emit_two, opt_list. rewrite length_app.
  destruct (emit_env v (eh_room v 0) site r1 c1), (emit_env v (eh_room v 1) site r2 c2); cbn; lia.
Qed.

(** What [emit] submits for an argument register is genuine. *)
Lemma emit_genuine (h : env_event R U) ok reg d :
  reg = 0 \/ reg = 1 ->
  emit_env (ev_hit h) ok (match h with Lnl _ => 1 | Cnt _ => 2 end) reg
    (PT_REGS_PARM (eh_regs (ev_hit h)) (Z.to_nat (reg + 1))) = Some d ->
  genuine h d.
Proof.
  intros Hr E. apply emit_env_some in E as (E1 & E2 & E3 & E4 & E5 & E6 & E7 & E8 & E9 & E10).
  unfold genuine. rewrite E3, E5. destruct h as [v|v]; cbn [ev_hit ev_pid] in *; done.
Qed.

Lemma env_step_genuine (seen : M) (h : env_event R U) d : In d (env_step seen h).2 -> genuine h d.
Proof.
  destruct h as [v|v]; cbn [env_step]; unfold up_lnl, up_cnt;
    (destruct (map_lookup_elem seen _); [done|]); cbn [snd];
    intros Hin; apply emit_two_In in Hin as [[ok E]|[ok E]]; revert E;
    first [apply (emit_genuine (Lnl v))|apply (emit_genuine (Cnt v))]; auto.
Qed.

Lemma env_step_seen (seen : M) (h : env_event R U) :
  is_Some (map_lookup_elem seen (ev_pid h)) -> env_step seen h = (seen, []).
Proof. intros [x E]. destruct h as [v|v]; cbn in *; unfold up_lnl, up_cnt; by rewrite E. Qed.

Lemma env_step_fst (seen : M) (h : env_event R U) :
  map_lookup_elem seen (ev_pid h) = None -> (env_step seen h).1 = (map_update_elem seen (ev_pid h) 1).1.
Proof. intros E. destruct h as [v|v]; cbn in *; unfold up_lnl, up_cnt; by rewrite E. Qed.

Lemma env_step_length (seen : M) (h : env_event R U) : (length (env_step seen h).2 <= 2)%nat.
Proof.
  destruct h as [v|v]; cbn [env_step]; unfold up_lnl, up_cnt;
    (destruct (map_lookup_elem seen _); [cbn; lia|]); apply length_emit_two.
Qed.

Lemma emit_env_usable (h : env_event R U) site reg :
  usable h reg ->
  exists d, emit_env (ev_hit h) true site reg (PT_REGS_PARM (eh_regs (ev_hit h)) (Z.to_nat (reg + 1))) = Some d /\
    d_reg d = reg.
Proof.
  intros (He & table & ver & Et & Ht & Ev & Hv). unfold emit_env.
  rewrite (proj2 (Z.ltb_ge _ _)) by exact He. rewrite Et.
  rewrite (proj2 (Z.ltb_ge table _)) by lia. rewrite (proj2 (Z.ltb_ge _ table)) by lia. cbn [orb].
  change (table + 6 * 8) with (table + 48). rewrite Ev, (proj2 (Z.ltb_ge _ _)) by exact Hv. by eexists.
Qed.

(** The two calls of [emit], for two different registers. *)
Lemma emit_two_probed (h : env_event R U) site r1 r2 :
  tries h = [r1; r2] -> r1 <> r2 ->
  let ds := emit_two (ev_hit h) site r1 (PT_REGS_PARM (eh_regs (ev_hit h)) (Z.to_nat (r1 + 1)))
              r2 (PT_REGS_PARM (eh_regs (ev_hit h)) (Z.to_nat (r2 + 1))) in
  (forall d, In d ds -> genuine h d) -> probed_by h ds.
Proof.
  intros Ht Hne ds Hg. split; [apply length_emit_two|]. split; [|split; [exact Hg|]].
  - subst ds. unfold emit_two, opt_list. destruct (emit_env _ _ _ r1 _) as [d1|] eqn:E1;
      (destruct (emit_env _ _ _ r2 _) as [d2|] eqn:E2); cbn [app map]; try apply NoDup_singleton; try apply NoDup_nil_2.
    apply emit_env_some in E1 as (_ & _ & E1 & _). apply emit_env_some in E2 as (_ & _ & E2 & _).
    rewrite E1, E2. apply NoDup_cons. split; [by intros ->%list_elem_of_singleton|apply NoDup_singleton].
  - intros n reg Hn Hu Hroom. rewrite Ht in Hn. apply in_map_iff.
    destruct (emit_env_usable h site reg Hu) as (d & E & Hd). exists d. split; [exact Hd|].
    subst ds. unfold emit_two. apply in_app_iff.
    destruct n as [|[|n]]; [left|right|done]; cbn in Hn; injection Hn as ->; rewrite Hroom, E; by left.
Qed.

(** A hit that finds its process unmarked. *)
Lemma env_step_probed (seen : M) (h : env_event R U) :
  map_lookup_elem seen (ev_pid h) = None -> probed_by h (env_step seen h).2.
Proof.
  intros E. pose proof (env_step_genuine seen h) as Hg.
  destruct h as [v|v]; cbn [env_step ev_pid] in *; unfold up_lnl, up_cnt in *; rewrite E in *; cbn [snd] in *.
  - by apply (emit_two_probed (Lnl v) 1 1 0).
  - by apply (emit_two_probed (Cnt v) 2 0 1).
Qed.

(** A marked process stays marked. *)
Lemma env_step_keeps (seen : M) (h : env_event R U) pid :
  is_Some (map_lookup_elem seen pid) -> is_Some (map_lookup_elem (env_step seen h).1 pid).
Proof.
  intros Hs. destruct (map_lookup_elem seen (ev_pid h)) as [x|] eqn:E.
  - rewrite env_step_seen by eauto. done.
  - rewrite env_step_fst by done. destruct (Z.eq_dec (ev_pid h) pid) as [<-|Hne].
    + rewrite E in Hs. by destruct Hs.
    + destruct (map_update_elem seen (ev_pid h) 1) as [m rc] eqn:Eu. cbn [fst].
      by rewrite (update_other _ _ _ _ _ _ Eu Hne).
Qed.
End Lemmas.

(** ** Properties *)

Section Properties.
Context {M R U : Type} `{HM : BpfMapLaws M} `{HR : PtRegsLaws R} `{HU : UserMemLaws U}.

(** Every record the env probe submits is genuine: it carries the process,
    the site and the argument register it was found in; the candidate, the
    table it points to and the table's version slot all passed the pointer
    checks and were read from the process; and its 240 slots are the words
    of that table, zero where the table cannot be read. *)
Theorem env_records_genuine (seen : M) (hs : list (env_event R U)) d :
  In d (env_run seen hs).2 -> exists h, In h hs /\ genuine h d.
Proof.
  revert seen. induction hs as [|h hs IH]; intros seen Hin; [done|]. cbn [env_run] in Hin.
  pose proof (env_step_genuine seen h d) as Hg. destruct (env_step seen h) as [s1 o1].
  specialize (IH s1). destruct (env_run s1 hs) as [s2 o2]. cbn [snd] in *.
  apply in_app_iff in Hin as [Hin|Hin]; [exists h; split; [by left|auto]|].
  destruct (IH Hin) as (h' & ? & ?). exists h'. split; [by right|done].
Qed.

Lemma env_run_seen pid (hs : list (env_event R U)) (seen : M) d :
  is_Some (map_lookup_elem seen pid) -> In d (env_run seen hs).2 -> d_pid d <> pid.
Proof.
  revert seen. induction hs as [|h hs IH]; intros seen Hs Hin; [done|]. cbn [env_run] in Hin.
  pose proof (env_step_keeps seen h pid Hs) as Hk. pose proof (env_step_genuine seen h d) as Hg.
  pose proof (env_step_seen seen h) as Hseen.
  destruct (env_step seen h) as [s1 o1] eqn:E. specialize (IH s1 Hk).
  destruct (env_run s1 hs) as [s2 o2]. cbn [snd] in *.
  apply in_app_iff in Hin as [Hin|Hin]; [|auto]. intros <-. destruct (Hg Hin) as [Hp _].
  rewrite Hp in Hs. specialize (Hseen Hs). injection Hseen as _ ->. done.
Qed.

(** The records of a process among the records of a run. *)
Definition records_for (pid : Z) (ds : list dump_t) : list dump_t := List.filter (fun d => (d_pid d =? pid)%Z) ds.

Lemma records_for_none pid ds : (forall d, In d ds -> d_pid d <> pid) -> records_for pid ds = [].
Proof.
  unfold records_for. induction ds as [|d ds IH]; intros Hn; [done|]. cbn [List.filter].
  destruct (Z.eqb_spec (d_pid d) pid) as [E|_]; [by apply (Hn d) in E; [|left]|].
  apply IH. intros d' Hin. apply Hn. by right.
Qed.

Lemma records_for_all pid ds : (forall d, In d ds -> d_pid d = pid) -> records_for pid ds = ds.
Proof.
  unfold records_for. induction ds as [|d ds IH]; intros Ha; [done|]. cbn [List.filter].
  rewrite (Ha d) by (by left). rewrite Z.eqb_refl, IH; [done|]. intros d' Hin. apply Ha. by right.
Qed.

(** C26. A process is probed once, by its first hit.  Let the hits run one after
    the other and marking never fail.  A process marked before the run, or
    that is not hit in it, gets no record; the records of any other process
    are exactly what its first hit submits: at most two, all of that hit - its
    registers, its memory - one per argument register, and every register
    that passes the checks and found room in the ring buffer has one. *)
Theorem env_probed_once (seen : M) (hs : list (env_event R U)) pid :
  marks_ok seen hs = true ->
  match map_lookup_elem seen pid, first_hit pid hs with
  | None, Some h => probed_by h (records_for pid (env_run seen hs).2)
  | _, _ => records_for pid (env_run seen hs).2 = []
  end.
Proof.
  intros Hm. destruct (map_lookup_elem seen pid) as [x|] eqn:Es.
  { apply records_for_none. intros d. apply env_run_seen. by rewrite Es. }
  revert seen Hm Es. induction hs as [|h hs IH]; intros seen Hm Es; [done|]. cbn [marks_ok] in Hm.
  apply andb_true_iff in Hm as [Hm Hms]. unfold first_hit. cbn [env_run List.find].
  pose proof (env_step_genuine seen h) as Hg. pose proof (env_step_probed seen h) as Hpr.
  destruct (Z.eqb_spec (ev_pid h) pid) as [<-|Hp].
  - assert (Hs1 : is_Some (map_lookup_elem (env_step seen h).1 (ev_pid h))).
    { rewrite env_step_fst by done. rewrite Es in Hm. apply Z.eqb_eq in Hm.
      destruct (map_update_elem seen (ev_pid h) 1) as [m rc] eqn:Eu. cbn in *. subst rc.
      rewrite (update_same _ _ _ _ Eu). eauto. }
    destruct (env_step seen h) as [s1 o1]. cbn [fst snd] in *.
    pose proof (fun d => env_run_seen (ev_pid h) hs s1 d Hs1) as Hno.
    destruct (env_run s1 hs) as [s2 o2]. cbn [snd] in *.
    unfold records_for. rewrite List.filter_app. fold (records_for (ev_pid h) o1) (records_for (ev_pid h) o2).
    rewrite (records_for_none _ o2 Hno), app_nil_r, records_for_all by (intros d Hd; apply (Hg d Hd)). by apply Hpr.
  - assert (Es1 : map_lookup_elem (env_step seen h).1 pid = None).
    { destruct (map_lookup_elem seen (ev_pid h)) as [x|] eqn:E; [by rewrite env_step_seen by eauto|].
      rewrite env_step_fst by done. destruct (map_update_elem seen (ev_pid h) 1) as [m rc] eqn:Eu. cbn [fst].
      by rewrite (update_other _ _ _ _ _ _ Eu Hp). }
    specialize (IH _ Hms Es1). destruct (env_step seen h) as [s1 o1]. cbn [fst snd] in *.
    destruct (env_run s1 hs) as [s2 o2]. cbn [snd] in *. unfold records_for. rewrite List.filter_app.
    fold (records_for pid o1) (records_for pid o2).
    rewrite (records_for_none pid o1) by (intros d Hd Ed; destruct (Hg d Hd) as [Hd' _]; congruence). exact IH.
Qed.

End Properties.

(** ** Examples *)

(** A process whose x1 holds an env at 0x20000 with its table at 0x30000. *)
Definition demo_env_hit : env_hit user_pt_regs byte_mem :=
  EnvHit (77 * 2 ^ 32 + 77) (demo_regs 0x10 [0x11000; 0x20000])
    (mem_of_words [(0x20000, 0x30000); (0x30030, 0x7000001234)]) (fun _ => true).

Definition demo_seen : hash_map := HashMap 8192 ∅.

Lemma env_records_genuine_witness :
  exists d, (env_run demo_seen [Lnl demo_env_hit]).2 = [d] /\ d_env d = 0x20000 /\ d_table d = 0x30000.
Proof.
  destruct (env_run demo_seen [Lnl demo_env_hit]).2 as [|d l] eqn:E; [vm_compute in E; discriminate|].
  destruct (env_records_genuine demo_seen [Lnl demo_env_hit] d) as (h & [<-|[]] & Hg).
  - rewrite E. left. reflexivity.
  - exists d. vm_compute in E. injection E as <- <-. split; [reflexivity|]. split; reflexivity.
Defined.

(** Both registers hold the env; the ring buffer has room once. *)
Definition demo_two_env : env_hit user_pt_regs byte_mem :=
  EnvHit (78 * 2 ^ 32 + 78) (demo_regs 0x10 [0x20000; 0x20000])
    (mem_of_words [(0x20000, 0x30000); (0x30030, 0x7000001234)]) (fun n => (n =? 0)%nat).

Definition demo_probes : list (env_event user_pt_regs byte_mem) := [Lnl demo_env_hit; Cnt demo_two_env; Lnl demo_two_env].

Lemma demo_usable h : h = Lnl demo_env_hit \/ h = Cnt demo_two_env -> usable h (default 0 (tries h !! 0%nat)).
Proof.
  intros [-> | ->]; (split; [vm_compute; discriminate|]); exists 0x30000, 0x7000001234; vm_compute; repeat split; discriminate.
Qed.

Lemma env_probed_once_witness :
  In 0 (map d_reg (records_for 78 (env_run demo_seen demo_probes).2)) /\
  In 1 (map d_reg (records_for 77 (env_run demo_seen demo_probes).2)).
Proof.
  assert (Hm : marks_ok demo_seen demo_probes = true) by (vm_compute; reflexivity).
  pose proof (env_probed_once demo_seen demo_probes 78 Hm) as T78.
  pose proof (env_probed_once demo_seen demo_probes 77 Hm) as T77.
  revert T78 T77. generalize (env_run demo_seen demo_probes).2. intros ds T78 T77.
  assert (L78 : map_lookup_elem demo_seen 78 = None) by reflexivity.
  assert (L77 : map_lookup_elem demo_seen 77 = None) by reflexivity.
  assert (F78 : first_hit 78 demo_probes = Some (Cnt demo_two_env)) by reflexivity.
  assert (F77 : first_hit 77 demo_probes = Some (Lnl demo_env_hit)) by reflexivity.
  rewrite L78, F78 in T78. rewrite L77, F77 in T77. split.
  - apply (proj2 (proj2 (proj2 T78)) 0%nat); [reflexivity|apply (demo_usable (Cnt demo_two_env)); by right|reflexivity].
  - apply (proj2 (proj2 (proj2 T77)) 0%nat); [reflexivity|apply (demo_usable (Lnl demo_env_hit)); by left|reflexivity].
Defined.


