(* ===== verification/Smoke.v ===== *)
(** * Smoke: bpf/smoke.bpf.c

    The smoke test of the toolchain: one event per hit of a kprobe or a
    uprobe, tagged with the kind of probe.  [fill] copies fifteen bytes from a
    string literal of seven, so what the compiler laid out behind the literal
    is an input. *)

From S2P Require Import Prelude CTypes Bpf.

Record event_t := Event {
  ev_pid : Z; ev_pad : Z; ev_ip : Z; ev_parm1 : Z; ev_parm2 : Z; ev_parm3 : Z; ev_tag : list byte
}.

Definition C_char : ctype := Tint 1 true.

Definition struct_event_t : ctype := Tstruct [
  ("pid", Tint 4 false); ("pad", Tint 4 false); ("ip", Tint 8 false);
  ("parm1", Tint 8 false); ("parm2", Tint 8 false); ("parm3", Tint 8 false);
  ("tag", Tarr C_char 16)].

(** A literal as it lies in the object file: its text, the terminator, and
    whatever comes next. *)
Definition literal (s : string) (after : list byte) : list byte :=
  String.list_ascii_of_string s ++ zero_byte :: after.

Section Programs.
Context {R : Type} `{PtRegs R}.

(** [fill]: [room] is the outcome of the reservation. *)
Definition fill (room : bool) (pid_tgid : Z) (ctx : R) (tag : list byte) : option event_t :=
  if negb room then None
  else
    let zeroed := repeat zero_byte 16 in
    Some (Event (u32 (Z.shiftr pid_tgid 32)) 0 (PT_REGS_IP ctx)
            (PT_REGS_PARM ctx 1) (PT_REGS_PARM ctx 2) (PT_REGS_PARM ctx 3)
            (take 15 tag ++ drop 15 zeroed)).

Definition kp_getpid (after : list byte) (room : bool) (pid_tgid : Z) (ctx : R) : option event_t :=
  fill room pid_tgid ctx (literal "kprobe" after).

Definition up_generic (after : list byte) (room : bool) (pid_tgid : Z) (ctx : R) : option event_t :=
  fill room pid_tgid ctx (literal "uprobe" after).
End Programs.

(** The text of a tag, up to its terminator. *)
Fixpoint tag_text (l : list byte) : string :=
  match l with
  | [] => ""
  | c :: l' => if Ascii.eqb c zero_byte then "" else String.String c (tag_text l')
  end.

(** ** Properties *)

Section Properties.
Context {R : Type} `{PtRegs R}.

(** The smoke event is what a reader of the record expects: when the
    reservation succeeds, the event has the process, the probed address and
    the first three arguments; its tag has sixteen bytes and reads as the
    kind of probe, whatever lies behind the string literal; and a failed
    reservation submits nothing. *)
Theorem smoke_event (after : list byte) room pid_tgid (ctx : R) :
  (8 <= length after)%nat ->
  let check o name := match o with
    | Some e => room = true /\ ev_pid e = u32 (Z.shiftr pid_tgid 32) /\ ev_ip e = PT_REGS_IP ctx /\
        ev_parm1 e = PT_REGS_PARM ctx 1 /\ ev_parm2 e = PT_REGS_PARM ctx 2 /\ ev_parm3 e = PT_REGS_PARM ctx 3 /\
        length (ev_tag e) = 16%nat /\ tag_text (ev_tag e) = name
    | None => room = false
    end in
  check (kp_getpid after room pid_tgid ctx) "kprobe" /\ check (up_generic after room pid_tgid ctx) "uprobe".
Proof.
  intros Hlen. destruct after as [|a0 [|a1 [|a2 [|a3 [|a4 [|a5 [|a6 [|a7 after]]]]]]]]; cbn in Hlen; try lia.
  unfold kp_getpid, up_generic, fill. destruct room; cbn [negb]; [|done].
  split; (repeat (split; [done|])); done.
Qed.

(** The copy over-reads the literal: the seven bytes of ["kprobe"] and its
    terminator are followed in the tag by eight bytes of whatever the object
    file has next, which the program sends to user space. *)
Theorem smoke_tag_overread (after : list byte) pid_tgid (ctx : R) e :
  (8 <= length after)%nat -> kp_getpid after true pid_tgid ctx = Some e ->
  take 8 (drop 7 (ev_tag e)) = take 8 after.
Proof.
  intros Hlen. destruct after as [|a0 [|a1 [|a2 [|a3 [|a4 [|a5 [|a6 [|a7 after]]]]]]]]; cbn in Hlen; try lia.
  unfold kp_getpid, fill. cbn [negb]. intros [= <-]. reflexivity.
Qed.
End Properties.

Lemma smoke_event_witness :
  match kp_getpid (repeat "u"%char 8) true (41 * 2 ^ 32 + 42) (UserPtRegs [1; 2; 3] 0 0x400 0) with
  | Some e => tag_text (ev_tag e) = "kprobe"
  | None => False
  end.
Proof.
  pose proof (smoke_event (repeat "u"%char 8) true (41 * 2 ^ 32 + 42) (UserPtRegs [1; 2; 3] 0 0x400 0)
    ltac:(cbn; lia)) as [T _].
  destruct (kp_getpid _ _ _ _) as [e|]; [exact (proj2 (proj2 (proj2 (proj2 (proj2 (proj2 (proj2 T)))))))|discriminate T].
Defined.

Lemma smoke_tag_overread_witness :
  exists e, kp_getpid (repeat "u"%char 8) true 0 (UserPtRegs [] 0 0 0) = Some e /\
            take 8 (drop 7 (ev_tag e)) = repeat "u"%char 8.
Proof.
  eexists. split; [reflexivity|].
  rewrite (smoke_tag_overread (repeat "u"%char 8) 0 (UserPtRegs [] 0 0 0)); [reflexivity|cbn; lia|reflexivity].
Defined.
