(* ===== verification/Helpers.v ===== *)
(** * Helpers: the BPF programs one helper call at a time

    Probes hit on several CPUs at once.  A program is a tree of its helper
    calls ([prog]); a machine holds the shared maps, the ring buffer and
    the threads of the target, each with the hits it will take and the program
    it is in; a schedule names the thread that makes the next call.  Records
    are in the ring buffer in the order they are reserved, and the reader gets
    them up to the first one not yet submitted. *)

From S2P Require Import Prelude.

Section Helpers.
Context {W Ev St Hit : Type}.   (* the maps' names, the record, the maps, a hit *)

(** ** Programs *)

Inductive prog :=
  | Done
  | Reserve (n : nat) (k : option Ev -> prog)      (* the n-th reservation of the program *)
  | Lookup (m : W) (key : Z) (k : option Z -> prog)
  | Update (m : W) (key v : Z) (k : prog)
  | Submit (e : Ev) (k : prog).                    (* the record reserved last *)

Context (lookup_elem : St -> W -> Z -> option Z) (update_elem : St -> W -> Z -> Z -> St * Z).
Context (program : Hit -> prog) (reserves : Hit -> nat -> option Ev).

(** A program on its own: the maps it leaves and the records it submits. *)
Fixpoint interp (h : Hit) (p : prog) (s : St) : St * list Ev :=
  match p with
  | Done => (s, [])
  | Reserve n k => interp h (k (reserves h n)) s
  | Lookup m key k => interp h (k (lookup_elem s m key)) s
  | Update m key v k => interp h k (update_elem s m key v).1
  | Submit e k => let '(s', es) := interp h k s in (s', e :: es)
  end.

(** ** Threads *)

(** The program a thread is in, with the slot it holds in the ring buffer. *)
Record activity := Activity { a_hit : Hit; a_prog : prog; a_slot : option nat }.
Record thread := Thread { t_todo : list Hit; t_now : option activity }.

(** A slot of the ring buffer: the hit that reserved it, and the record once
    it is submitted. *)
Record slot := Slot { r_hit : Hit; r_evt : option Ev }.

(** [c_lost]: some reservation or update has failed. *)
Record machine := Machine {
  c_store : St;
  c_ring : list slot;
  c_threads : gmap Z thread;
  c_lost : bool
}.

Definition set_now (c : machine) (t : Z) (todo : list Hit) (a : option activity) : gmap Z thread :=
  <[t := Thread todo a]> (c_threads c).

(** The next call of thread [t]: it takes its next hit, makes a helper call,
    or leaves the program. *)
Definition thread_step (t : Z) (c : machine) : option machine :=
  th ← c_threads c !! t;
  match t_now th with
  | None =>
      match t_todo th with
      | [] => None
      | h :: hs => Some (Machine (c_store c) (c_ring c) (set_now c t hs (Some (Activity h (program h) None))) (c_lost c))
      end
  | Some (Activity h p sl) =>
      let goes st ring p' sl' lost := Some (Machine st ring (set_now c t (t_todo th) (Some (Activity h p' sl'))) lost) in
      match p with
      | Done => Some (Machine (c_store c) (c_ring c) (set_now c t (t_todo th) None) (c_lost c))
      | Reserve n k =>
          match reserves h n with
          | Some g => goes (c_store c) (c_ring c ++ [Slot h None]) (k (Some g)) (Some (length (c_ring c))) (c_lost c)
          | None => goes (c_store c) (c_ring c) (k None) None true
          end
      | Lookup m key k => goes (c_store c) (c_ring c) (k (lookup_elem (c_store c) m key)) sl (c_lost c)
      | Update m key v k =>
          let '(st, rc) := update_elem (c_store c) m key v in
          goes st (c_ring c) k sl (c_lost c || negb (rc =? 0))
      | Submit e k =>
          i ← sl;
          goes (c_store c) (alter (fun x => Slot (r_hit x) (Some e)) i (c_ring c)) k None (c_lost c)
      end
  end.

Fixpoint run_schedule (ts : list Z) (c : machine) : option machine :=
  match ts with
  | [] => Some c
  | t :: ts' => c' ← thread_step t c; run_schedule ts' c'
  end.

(** Every thread before its first hit. *)
Definition start (s : St) (scripts : gmap Z (list Hit)) : machine :=
  Machine s [] ((fun hs => Thread hs None) <$> scripts) false.

(** What the reader of the ring buffer gets. *)
Fixpoint delivered (ring : list slot) : list Ev :=
  match ring with
  | Slot _ (Some e) :: ring' => e :: delivered ring'
  | _ => []
  end.

Definition hits (c : machine) : list Hit := map r_hit (c_ring c).

(** No program is running. *)
Definition quiet (c : machine) : Prop := forall t th, c_threads c !! t = Some th -> t_now th = None.

Definition quietb (c : machine) : bool :=
  forallb (fun p => match t_now p.2 with None => true | Some _ => false end) (map_to_list (c_threads c)).

(** ** Lemmas *)

Lemma quietb_quiet c : quietb c = true -> quiet c.
Proof.
  unfold quietb. rewrite forallb_forall. intros Hq t th Ht.
  apply elem_of_map_to_list, list_elem_of_In, Hq in Ht. cbn in Ht. by destruct (t_now th).
Qed.

(** Losses are remembered, and reservations stay where they are. *)
Lemma thread_step_grows t c c' :
  thread_step t c = Some c' -> (c_lost c = true -> c_lost c' = true) /\ hits c `prefix_of` hits c'.
Proof.
  unfold thread_step. destruct (c_threads c !! t) as [[todo [[h p sl]|]]|]; [| |done];
    cbn [mbind option_bind t_now t_todo].
  2:{ destruct todo; [done|]. by intros [= <-]. }
  destruct p as [|n k|w key k|w key v k|e k].
  - by intros [= <-].
  - destruct (reserves h n); intros [= <-]; [|done]. split; [done|].
    unfold hits. cbn [c_ring]. rewrite map_app. by apply prefix_app_r.
  - by intros [= <-].
  - destruct (update_elem _ _ _ _) as [st rc]. intros [= <-]. split; [|done]. cbn. by intros ->.
  - destruct sl as [i|]; [|done]. intros [= <-]. split; [done|]. unfold hits. cbn [c_ring].
    replace (map r_hit (alter _ i (c_ring c))) with (map r_hit (c_ring c)); [done|].
    apply list_eq. intros j. rewrite !list_lookup_fmap.
    destruct (decide (i = j)) as [<-|Hne]; [|by rewrite list_lookup_alter_ne].
    rewrite list_lookup_alter_eq. by destruct (c_ring c !! i).
Qed.

(** Induction along a schedule. *)
Lemma run_schedule_ind (P : machine -> Prop) c0 :
  P c0 -> (forall t c c', P c -> thread_step t c = Some c' -> P c') ->
  forall ts c, run_schedule ts c0 = Some c -> P c.
Proof.
  intros H0 Hstep ts. revert c0 H0. induction ts as [|t ts IH]; intros c0 H0 c.
  - by intros [= <-].
  - cbn [run_schedule]. destruct (thread_step t c0) as [c1|] eqn:E1; [|done]. cbn [mbind option_bind].
    apply IH. eauto.
Qed.

(** If every submitted record is the one [es] has at its place, the reader
    gets a beginning of [es]. *)
Lemma delivered_prefix ring es :
  (forall i h e, ring !! i = Some (Slot h (Some e)) -> es !! i = Some e) -> delivered ring `prefix_of` es.
Proof.
  revert es. induction ring as [|[h [e|]] ring IH]; intros es Hr; [apply prefix_nil| |apply prefix_nil].
  cbn [delivered]. destruct es as [|e' es]; [by specialize (Hr 0%nat h e eq_refl)|].
  pose proof (Hr 0%nat h e eq_refl) as [= ->]. apply prefix_cons, IH.
  intros i h' e' Hi. exact (Hr (S i) h' e' Hi).
Qed.

Lemma delivered_all ring : (forall x, x ∈ ring -> r_evt x <> None) -> length (delivered ring) = length ring.
Proof.
  induction ring as [|[h [e|]] ring IH]; intros Hr; [done| |].
  - cbn. f_equal. apply IH. intros x Hx. apply Hr. by right.
  - by destruct (Hr (Slot h None) ltac:(by left)).
Qed.
End Helpers.
Arguments prog W Ev : clear implicits.
Arguments activity W Ev Hit : clear implicits.
Arguments thread W Ev Hit : clear implicits.
Arguments slot Ev Hit : clear implicits.
Arguments machine W Ev St Hit : clear implicits.
