(* ===== verification/Concurrent.v ===== *)
(** * Concurrent: the programs of bpf/recon.bpf.c on several CPUs

    Every other file takes a probe hit as one step.  Here [up_all] and
    [up_ret] are sequences of helper calls that the threads of the target
    interleave in any way, and the events reach the loader in the order of
    their reservations.  On its own each program is the function of Recon;
    interleaved, what the loader reads is what the hits give when each is one
    step, taken in the order of the reservations.  The programs of
    bpf/envprobe.bpf.c have no such property: two threads of a process may
    both find it unmarked. *)

From S2P Require Import Prelude CTypes Bpf Recon Wire EnvProbe Helpers.

Inductive wmap := Cfg | Argkind | Argidx | Hasret | Depth.

Section Programs.
Context {M R U : Type} `{BpfMap M} `{PtRegs R} `{UserMem U}.

Definition k_lookup (s : kmaps M) (w : wmap) (key : Z) : option Z :=
  map_lookup_elem
    (match w with Cfg => cfg s | Argkind => argkind s | Argidx => argidx s | Hasret => hasret s | Depth => depth s end)
    key.

Definition k_update (s : kmaps M) (w : wmap) (key v : Z) : kmaps M * Z :=
  let upd m := map_update_elem m key v in
  match w with
  | Cfg => let '(m, rc) := upd (cfg s) in (KMaps m (argkind s) (argidx s) (hasret s) (depth s), rc)
  | Argkind => let '(m, rc) := upd (argkind s) in (KMaps (cfg s) m (argidx s) (hasret s) (depth s), rc)
  | Argidx => let '(m, rc) := upd (argidx s) in (KMaps (cfg s) (argkind s) m (hasret s) (depth s), rc)
  | Hasret => let '(m, rc) := upd (hasret s) in (KMaps (cfg s) (argkind s) (argidx s) m (depth s), rc)
  | Depth => let '(m, rc) := upd (depth s) in (set_depth_map s m, rc)
  end.

(** [up_all] from the lookup of the argument maps on. *)
Definition up_all_tail (v : hit_env R U) (off : Z) (e : evt_t) : prog wmap evt_t :=
  Lookup Argkind off (fun k => Lookup Argidx off (fun ix =>
    let e :=
      match k, ix with
      | Some k, Some ix =>
          if negb (k =? 0) && (ix <? Z.of_nat NARGS)
          then capture (umem v) e (nthZ (e_a e) ix) k ix
          else e
      | _, _ => e
      end in
    Lookup Cfg 1 (fun ws =>
      let e :=
        match ws with
        | Some ws => if negb (ws =? 0) then set_stackid e (s32 (stackid_rc v)) else e
        | None => e
        end in
      Submit e Done))).

Definition up_all_prog (v : hit_env R U) : prog wmap evt_t :=
  Reserve 0 (fun r =>
    match r with
    | None => Done
    | Some g =>
        let tid := u32 (pid_tgid v) in
        let e := entry_evt v g in
        Lookup Cfg 0 (fun base =>
          match base with
          | None => Submit e Done
          | Some base =>
              let off := u64 (e_ip e - base) in
              Lookup Hasret off (fun hr =>
                match hr with
                | Some _ => (* tracked: maintain depth *)
                    Lookup Depth tid (fun pd =>
                      let d := default 0 pd in
                      Update Depth tid (u32 (d + 1)) (up_all_tail v off (set_depth e (s32 d))))
                | None => up_all_tail v off e
                end)
          end)
    end).

Definition up_ret_prog (v : hit_env R U) : prog wmap evt_t :=
  Reserve 0 (fun r =>
    match r with
    | None => Done
    | Some g =>
        let tid := u32 (pid_tgid v) in
        Lookup Depth tid (fun pd =>
          let d := default 0 pd in
          let nd := if 0 <? d then d - 1 else 0 in
          Update Depth tid nd (Submit (ret_evt v g nd) Done))
    end).

Definition hit_env_of (h : @hit R U) : hit_env R U := match h with Entry v | Return v => v end.

Definition hit_prog (h : @hit R U) : prog wmap evt_t :=
  match h with Entry v => up_all_prog v | Return v => up_ret_prog v end.

Definition hit_reserves (h : @hit R U) (n : nat) : option evt_t := reserve (hit_env_of h).

(** The threads of the target, each with its hits in program order. *)
Definition recon_start (s : kmaps M) (scripts : gmap Z (list (@hit R U))) :
    machine wmap evt_t (kmaps M) (@hit R U) := start s scripts.

Definition recon_step := thread_step k_lookup k_update hit_prog hit_reserves.
Definition recon_schedule := run_schedule k_lookup k_update hit_prog hit_reserves.
End Programs.

(** ** On its own *)

Section Lemmas.
Context {M R U : Type} `{HM : BpfMapLaws M} `{HR : PtRegsLaws R} `{HU : UserMemLaws U}.
Implicit Types (s : kmaps M) (v : hit_env R U).

Lemma k_update_depth s key x :
  k_update s Depth key x = (set_depth_map s (map_update_elem (depth s) key x).1, (map_update_elem (depth s) key x).2).
Proof. cbn. by destruct (map_update_elem (depth s) key x). Qed.

(** A program that meets no other is the function of Recon. *)
Lemma hit_prog_alone s (h : @hit R U) :
  interp k_lookup k_update hit_reserves h (hit_prog h) s =
  ((hit_step s h).1, match (hit_step s h).2 with Some e => [e] | None => [] end).
Proof.
  destruct h as [v|v]; cbn [hit_prog hit_step]; unfold up_all_prog, up_ret_prog, up_all, up_ret;
    cbn [interp]; unfold hit_reserves; cbn [hit_env_of]; (destruct (reserve v) as [g|]; [|done]).
  - cbn [interp]. change (k_lookup s Cfg 0) with (map_lookup_elem (cfg s) 0).
    destruct (map_lookup_elem (cfg s) 0) as [base|]; [|reflexivity]. cbn [interp].
    change (k_lookup s Hasret ?key) with (map_lookup_elem (hasret s) key).
    destruct (map_lookup_elem (hasret s) _) as [hr|]; [|reflexivity].
    cbn [interp]. rewrite k_update_depth. reflexivity.
  - cbn [interp]. by rewrite k_update_depth.
Qed.
End Lemmas.

(** ** Interleaved

    The maps a program reads are fixed but for its own thread's entry of
    [depth].  So what is left of a program determines, with that entry, the
    entry it will leave and the event it will submit. *)

Section Interleaved.
Context {M R U : Type} `{HM : BpfMapLaws M} `{HR : PtRegsLaws R} `{HU : UserMemLaws U}.
Variable k0 : kmaps M.

Definition same_config (s : kmaps M) : Prop :=
  cfg s = cfg k0 /\ argkind s = argkind k0 /\ argidx s = argidx k0 /\ hasret s = hasret k0.

(** The entry of [depth] and the event at the end of a program. *)
Fixpoint exec (p : prog wmap evt_t) (d : option Z) : option Z * option evt_t :=
  match p with
  | Done | Reserve _ _ => (d, None)
  | Lookup w key k => exec (k (match w with Depth => d | _ => k_lookup k0 w key end)) d
  | Update _ _ v k => exec k (Some v)
  | Submit e k => ((exec k d).1, Some e)
  end.

(** The program touches no thread's depth but [t]'s, makes no further
    reservation and ends with its submission. *)
Fixpoint own (t : Z) (p : prog wmap evt_t) : Prop :=
  match p with
  | Done => True
  | Reserve _ _ => False
  | Lookup w key k => (w = Depth -> key = t) /\ forall r, own t (k r)
  | Update w key v k => w = Depth /\ key = t /\ own t k
  | Submit e k => k = Done
  end.

Lemma up_all_tail_own (t : Z) (v : hit_env R U) off e : own t (up_all_tail v off e).
Proof. cbn. repeat split; discriminate. Qed.

Lemma k_lookup_config s w key : same_config s -> w <> Depth -> k_lookup k0 w key = k_lookup s w key.
Proof. intros (E1 & E2 & E3 & E4) Hw. unfold k_lookup. destruct w; by rewrite ?E1, ?E2, ?E3, ?E4. Qed.

(** A hit after its reservation, by itself. *)
Lemma exec_hit (h : @hit R U) g :
  hit_reserves h 0 = Some g ->
  exists k, hit_prog h = Reserve 0 k /\ own (hit_tid h) (k (Some g)) /\
    forall s, same_config s -> lossless s [h] = true ->
      exists e, (hit_step s h).2 = Some e /\
        exec (k (Some g)) (map_lookup_elem (depth s) (hit_tid h)) =
        (map_lookup_elem (depth (hit_step s h).1) (hit_tid h), Some e).
Proof.
  unfold hit_reserves. destruct h as [v|v]; cbn [hit_env_of hit_prog hit_step hit_tid]; intros Eg.
  - eexists. split; [reflexivity|]. split.
    { cbn [own]. split; [discriminate|]. intros [base|]; [|done]. cbn [own]. split; [discriminate|].
      intros [hr|]; [|apply up_all_tail_own]. cbn [own]. split; [done|]. intros pd.
      split; [done|split; [done|apply up_all_tail_own]]. }
    intros s Hc Hl. cbn [lossless] in Hl. rewrite andb_true_r in Hl.
    apply andb_true_iff in Hl as [_ Hu]. cbn [hit_tid] in Hu. unfold tracked, probe_off, height in Hu.
    unfold up_all. rewrite Eg. cbn [exec]. rewrite (k_lookup_config s Cfg) by done.
    change (k_lookup s Cfg 0) with (map_lookup_elem (cfg s) 0). cbn [entry_evt e_ip] in *.
    destruct (map_lookup_elem (cfg s) 0) as [base|]; [|eexists; split; reflexivity]. cbn [exec].
    rewrite (k_lookup_config s Hasret) by done. change (k_lookup s Hasret ?key) with (map_lookup_elem (hasret s) key).
    destruct (map_lookup_elem (hasret s) _) as [hr|]; unfold up_all_tail; cbn [exec];
      rewrite !(k_lookup_config s) by done; (eexists; split; [reflexivity|]); [|reflexivity].
    cbn [fst snd set_depth_map depth].
    rewrite bool_decide_eq_true_2 in Hu by eauto. cbn [negb orb] in Hu. apply Z.eqb_eq in Hu.
    destruct (map_update_elem (depth s) _ _) as [m rc] eqn:Eu. cbn [snd fst] in *. subst rc.
    by rewrite (update_same _ _ _ _ Eu).
  - eexists. split; [reflexivity|]. split; [by cbn|].
    intros s _ Hl. cbn [lossless hit_tid] in Hl. rewrite andb_true_r in Hl.
    apply andb_true_iff in Hl as [_ Hu]. apply Z.eqb_eq in Hu. unfold height in Hu.
    unfold up_ret. rewrite Eg. eexists. split; [reflexivity|]. cbn [exec fst snd set_depth_map depth].
    destruct (map_update_elem (depth s) _ _) as [m rc] eqn:Eu. cbn [snd fst] in *. subst rc.
    by rewrite (update_same _ _ _ _ Eu).
Qed.
(** ** The invariant *)

Abbreviation recon_machine := (machine wmap evt_t (kmaps M) (@hit R U)).

(** The hits of thread [t], in order. *)
Definition hits_of (t : Z) (hs : list (@hit R U)) : list (@hit R U) := List.filter (fun h => hit_tid h =? t) hs.

(** A thread with script [sc] in a program that has its reservation: [hs] are the reservations so far and [es] the
    events they give one at a time; [dc] is its entry of [depth] and [da] the
    one the hits [hs] leave. *)
Definition running (sc hs : list (@hit R U)) (es : list evt_t) (dc da : option Z) (t : Z)
    (todo : list (@hit R U)) (h : @hit R U) (p : prog wmap evt_t) (sl : option nat) : Prop :=
  sc = hits_of t hs ++ todo /\ own t p /\ (exec p dc).1 = da /\
  match (exec p dc).2 with
  | None => sl = None
  | Some e => exists i, sl = Some i /\ hs !! i = Some h /\ es !! i = Some e
  end.

Definition thread_ok (sc hs : list (@hit R U)) (es : list evt_t) (dc da : option Z) (t : Z)
    (th : thread wmap evt_t (@hit R U)) : Prop :=
  match t_now th with
  | None => sc = hits_of t hs ++ t_todo th /\ dc = da
  | Some (Activity h p sl) =>
      (sl = None /\ p = hit_prog h /\ sc = hits_of t hs ++ h :: t_todo th /\ dc = da) \/
      running sc hs es dc da t (t_todo th) h p sl
  end.

Record conc_ok (scripts : gmap Z (list (@hit R U))) (c : recon_machine) : Prop := ConcOk {
  co_config : same_config (c_store c);
  co_length : length (run k0 (hits c)).2 = length (c_ring c);
  co_submitted : forall i h e, c_ring c !! i = Some (Slot h (Some e)) -> (run k0 (hits c)).2 !! i = Some e;
  co_open : forall i h, c_ring c !! i = Some (Slot h None) ->
    exists t todo h' p, c_threads c !! t = Some (Thread todo (Some (Activity h' p (Some i))));
  co_threads : forall t th, c_threads c !! t = Some th ->
    exists sc, scripts !! t = Some sc /\
      thread_ok sc (hits c) (run k0 (hits c)).2 (map_lookup_elem (depth (c_store c)) t)
        (map_lookup_elem (depth (run k0 (hits c)).1) t) t th;
  co_idle : forall t, c_threads c !! t = None ->
    scripts !! t = None /\
    map_lookup_elem (depth (c_store c)) t = map_lookup_elem (depth (run k0 (hits c)).1) t
}.

Lemma hits_of_snoc_same t hs h : hit_tid h = t -> hits_of t (hs ++ [h]) = hits_of t hs ++ [h].
Proof. intros <-. unfold hits_of. rewrite List.filter_app. cbn. by rewrite Z.eqb_refl. Qed.

Lemma hits_of_snoc_other t hs h : hit_tid h <> t -> hits_of t (hs ++ [h]) = hits_of t hs.
Proof.
  intros Hne. unfold hits_of. rewrite List.filter_app. cbn.
  rewrite (proj2 (Z.eqb_neq _ _) Hne). apply app_nil_r.
Qed.

(** A reservation by another thread. *)
Lemma thread_ok_snoc sc hs es dc da t th h e :
  hit_tid h <> t -> thread_ok sc hs es dc da t th -> thread_ok sc (hs ++ [h]) (es ++ [e]) dc da t th.
Proof.
  intros Hne. unfold thread_ok, running. rewrite hits_of_snoc_other by done.
  destruct (t_now th) as [[h' p sl]|]; [|done]. intros [?|(T1 & T2 & T3 & T4)]; [by left|right].
  repeat (split; [done|]). destruct (exec p dc).2 as [e'|]; [|done].
  destruct T4 as (i & -> & Hi & He). exists i. split; [done|].
  split; by apply lookup_app_l_Some.
Qed.

(** A step of thread [t] that reserves nothing: the others see no change. *)
Lemma conc_ok_local scripts (c : recon_machine) t th todo a st ring lost :
  conc_ok scripts c -> c_threads c !! t = Some th -> same_config st ->
  map r_hit ring = hits c ->
  (forall u, u <> t -> map_lookup_elem (depth st) u = map_lookup_elem (depth (c_store c)) u) ->
  (forall i h e, ring !! i = Some (Slot h (Some e)) -> (run k0 (hits c)).2 !! i = Some e) ->
  (forall i h, ring !! i = Some (Slot h None) -> c_ring c !! i = Some (Slot h None) /\
     forall todo' h' p, th = Thread todo' (Some (Activity h' p (Some i))) ->
       exists todo'' h'' p', Thread todo a = Thread todo'' (Some (Activity h'' p' (Some i)))) ->
  (forall sc, scripts !! t = Some sc ->
    thread_ok sc (hits c) (run k0 (hits c)).2 (map_lookup_elem (depth (c_store c)) t)
      (map_lookup_elem (depth (run k0 (hits c)).1) t) t th ->
    thread_ok sc (hits c) (run k0 (hits c)).2 (map_lookup_elem (depth st) t)
      (map_lookup_elem (depth (run k0 (hits c)).1) t) t (Thread todo a)) ->
  conc_ok scripts (Machine st ring (set_now c t todo a) lost).
Proof.
  intros [C1 C2 C3 C4 C5 C6] Eth Hst Hhits Hoth Hsub Hopen Hth.
  constructor; unfold hits, set_now in *; cbn [c_store c_ring c_threads] in *; rewrite ?Hhits.
  - done.
  - rewrite C2. apply (f_equal length) in Hhits. by rewrite !length_map in Hhits.
  - exact Hsub.
  - intros i h Hi. destruct (Hopen i h Hi) as [Hi' Hkeep]. destruct (C4 i h Hi') as (u & todo' & h' & p & Hu).
    destruct (decide (u = t)) as [->|Hne].
    + rewrite Eth in Hu. injection Hu as Hu. destruct (Hkeep todo' h' p Hu) as (? & ? & ? & E).
      eexists t, _, _, _. by rewrite lookup_insert_eq, E.
    + eexists u, _, _, _. by rewrite lookup_insert_ne.
  - intros u thu Hu. destruct (decide (u = t)) as [->|Hne].
    + rewrite lookup_insert_eq in Hu. injection Hu as <-. destruct (C5 t th Eth) as (sc & Hsc & Hok).
      exists sc. split; [done|]. by apply Hth.
    + rewrite lookup_insert_ne in Hu by done. rewrite Hoth by done. by apply C5.
  - intros u Hu. destruct (decide (u = t)) as [->|Hne]; [by rewrite lookup_insert_eq in Hu|].
    rewrite lookup_insert_ne in Hu by done. rewrite Hoth by done. by apply C6.
Qed.
(** The reservation of a hit: from here on it counts as taken. *)
Lemma conc_ok_reserve scripts (c : recon_machine) t todo h k g lost :
  (forall t sc, scripts !! t = Some sc -> Forall (fun h => hit_tid h = t) sc) ->
  conc_ok scripts c -> c_threads c !! t = Some (Thread todo (Some (Activity h (Reserve 0 k) None))) ->
  hit_prog h = Reserve 0 k -> hit_reserves h 0 = Some g -> lossless k0 (hits c ++ [h]) = true ->
  conc_ok scripts (Machine (c_store c) (c_ring c ++ [Slot h None])
    (set_now c t todo (Some (Activity h (k (Some g)) (Some (length (c_ring c)))))) lost).
Proof.
  intros Hsc [C1 C2 C3 C4 C5 C6] Eth Ep Eg Hl.
  destruct (C5 t _ Eth) as (sc & Es & [(_ & _ & Hs & Hd)|(_ & Ho & _)]); [|done]. cbn [t_todo] in Hs.
  assert (Ht : hit_tid h = t).
  { specialize (Hsc t sc Es). rewrite Hs, Forall_app in Hsc. destruct Hsc as [_ Hf]. by inversion Hf. }
  rewrite lossless_snoc in Hl. apply andb_true_iff in Hl as [_ Hl].
  destruct (exec_hit h g Eg) as (k' & Ek & Hown & Hex). rewrite Ep in Ek. injection Ek as <-.
  destruct (Hex (run k0 (hits c)).1 (run_config k0 (hits c)) Hl) as (e & He & Hexec). rewrite Ht in *.
  assert (Hhits : map r_hit (c_ring c ++ [Slot h None]) = hits c ++ [h]) by (unfold hits; by rewrite map_app).
  constructor; unfold hits, set_now; cbn [c_store c_ring c_threads]; rewrite ?Hhits, ?run_snoc, ?He;
    cbn [fst snd].
  - done.
  - by rewrite !length_app, C2.
  - intros i h' e' [Hi|[_ Hi]]%lookup_app_Some; [|destruct (i - _)%nat; done].
    apply lookup_app_l_Some. by eapply C3.
  - intros i h' [Hi|[Hge Hi]]%lookup_app_Some.
    + destruct (C4 i h' Hi) as (u & todo' & h'' & p & Hu). assert (u <> t) by (intros ->; congruence).
      eexists u, _, _, _. by rewrite lookup_insert_ne.
    + apply list_lookup_singleton_Some in Hi as [Hi _]. replace i with (length (c_ring c)) by lia.
      eexists t, _, _, _. by rewrite lookup_insert_eq.
  - intros u thu Hu. destruct (decide (u = t)) as [->|Hne].
    + rewrite lookup_insert_eq in Hu. injection Hu as <-. exists sc. split; [done|].
      right. unfold running. cbn [t_todo]. rewrite hits_of_snoc_same by done. rewrite <- app_assoc. split; [done|].
      split; [done|]. rewrite Hd, Hexec. cbn [fst snd]. split; [done|].
      exists (length (c_ring c)). split; [done|]. rewrite <- C2 at 2.
      split; [|by rewrite lookup_app_r, Nat.sub_diag by lia].
      unfold hits. rewrite lookup_app_r, length_map, Nat.sub_diag by (rewrite length_map; lia). done.
    + rewrite lookup_insert_ne in Hu by done. destruct (C5 u thu Hu) as (scu & Esu & Hok).
      exists scu. split; [done|]. rewrite hit_step_other by congruence.
      apply thread_ok_snoc; [congruence|exact Hok].
  - intros u Hu. destruct (decide (u = t)) as [->|Hne]; [by rewrite lookup_insert_eq in Hu|].
    rewrite lookup_insert_ne in Hu by done. rewrite hit_step_other by congruence. by apply C6.
Qed.

(** The steps of a program that has its reservation, and the taking of a hit. *)
Lemma own_lookup t w key k st d :
  same_config st -> (w = Depth -> key = t) -> d = map_lookup_elem (depth st) t ->
  exec (Lookup w key k) d = exec (k (k_lookup st w key)) d.
Proof.
  intros Hst Hk ->. cbn [exec]. destruct w; try by rewrite (k_lookup_config st) by done.
  by rewrite Hk.
Qed.

Lemma same_config_depth st m : same_config st -> same_config (set_depth_map st m).
Proof. done. Qed.
Lemma hit_prog_reserve (h : @hit R U) : exists k, hit_prog h = Reserve 0 k.
Proof. destruct h; eexists; reflexivity. Qed.

Section Running.
Variables (scripts : gmap Z (list (@hit R U))) (c : recon_machine) (t : Z) (todo : list (@hit R U)) (h : @hit R U).
Hypothesis Hok : conc_ok scripts c.

Abbreviation at_prog p sl := (c_threads c !! t = Some (Thread todo (Some (Activity h p sl)))).
Abbreviation is_running p sl dc sc :=
  (running sc (hits c) (run k0 (hits c)).2 dc (map_lookup_elem (depth (run k0 (hits c)).1) t) t todo h p sl).
Abbreviation own_depth := (map_lookup_elem (depth (c_store c)) t).

(** A program other than one about to reserve is running. *)
Lemma at_running p sl sc :
  at_prog p sl -> (forall n k, p <> Reserve n k) -> scripts !! t = Some sc -> is_running p sl own_depth sc.
Proof.
  intros Eth Hp Esc. destruct (co_threads _ _ Hok _ _ Eth) as (sc' & Esc' & Hth).
  rewrite Esc in Esc'. injection Esc' as <-. destruct Hth as [(_ & -> & _)|Hth]; [|exact Hth].
  destruct (hit_prog_reserve h) as [k E]. by destruct (Hp 0%nat k).
Qed.

Lemma conc_ok_done sl :
  at_prog Done sl -> conc_ok scripts (Machine (c_store c) (c_ring c) (set_now c t todo None) (c_lost c)).
Proof.
  intros Eth. pose proof Hok as [C1 _ C3 _ C5 _].
  destruct (C5 t _ Eth) as (sc & Esc & _).
  pose proof (at_running _ _ _ Eth ltac:(done) Esc) as (H2 & _ & H4 & H5).
  cbn [exec snd fst] in H4, H5. subst sl.
  apply (conc_ok_local scripts c t _ todo None _ _ _ Hok Eth); [done..| |].
  - intros i h' Hi. split; [done|]. by intros ? ? ? [= _ _ _ E].
  - intros sc' Esc' _. rewrite Esc in Esc'. by injection Esc' as <-.
Qed.

(** A call that leaves the ring buffer alone. *)
Lemma conc_ok_call p p' sl st lost :
  at_prog p sl -> (forall n k, p <> Reserve n k) -> same_config st ->
  (forall u, u <> t -> map_lookup_elem (depth st) u = map_lookup_elem (depth (c_store c)) u) ->
  (own t p -> own t p') -> (own t p -> exec p own_depth = exec p' (map_lookup_elem (depth st) t)) ->
  conc_ok scripts (Machine st (c_ring c) (set_now c t todo (Some (Activity h p' sl))) lost).
Proof.
  intros Eth Hp Hst Hoth Hown Hex. pose proof Hok as [_ _ C3 _ _ _].
  apply (conc_ok_local scripts c t _ todo _ _ _ _ Hok Eth); [done..| |].
  - intros i h' Hi. split; [done|]. intros ? ? ? [= _ _ _ ->]. by eexists _, _, _.
  - intros sc' Esc' _. right. cbn [t_todo].
    destruct (at_running _ _ _ Eth Hp Esc') as (H2 & H3 & H4 & H5).
    unfold running. rewrite <- Hex by done. auto.
Qed.

Lemma conc_ok_submit e k i :
  at_prog (Submit e k) (Some i) ->
  conc_ok scripts (Machine (c_store c) (alter (fun x => Slot (r_hit x) (Some e)) i (c_ring c))
    (set_now c t todo (Some (Activity h k None))) (c_lost c)).
Proof.
  intros Eth. pose proof Hok as [C1 _ C3 _ C5 _]. destruct (C5 t _ Eth) as (sc & Esc & _).
  destruct (at_running _ _ _ Eth ltac:(done) Esc) as (H2 & H3 & H4 & H5).
  cbn [own exec fst snd] in *. subst k. destruct H5 as (i' & [= <-] & Hh & He).
  assert (Hi : exists o, c_ring c !! i = Some (Slot h o)).
  { unfold hits in Hh. rewrite list_lookup_fmap in Hh. destruct (c_ring c !! i) as [[h' o]|]; [|done].
    injection Hh as ->. eauto. }
  destruct Hi as [o Hi]. pose proof (lookup_lt_Some _ _ _ Hi) as Hlt.
  apply (conc_ok_local scripts c t _ todo _ _ _ _ Hok Eth); [done| |done| | |].
  - unfold hits. apply list_eq. intros j. rewrite !list_lookup_fmap.
    destruct (decide (i = j)) as [<-|Hne]; [by rewrite list_lookup_alter_eq, Hi|by rewrite list_lookup_alter_ne].
  - intros j h' e' Hj. destruct (decide (i = j)) as [<-|Hne].
    + rewrite list_lookup_alter_eq, Hi in Hj. by injection Hj as _ <-.
    + rewrite list_lookup_alter_ne in Hj by done. by eapply C3.
  - intros j h' Hj. destruct (decide (i = j)) as [<-|Hne]; [by rewrite list_lookup_alter_eq, Hi in Hj|].
    rewrite list_lookup_alter_ne in Hj by done. split; [done|]. by intros ? ? ? [= _ _ _ E].
  - intros sc' Esc' _. rewrite Esc in Esc'. injection Esc' as <-. right. by cbn.
Qed.
End Running.

Lemma conc_ok_take scripts (c : recon_machine) t h hs :
  conc_ok scripts c -> c_threads c !! t = Some (Thread (h :: hs) None) ->
  conc_ok scripts (Machine (c_store c) (c_ring c) (set_now c t hs (Some (Activity h (hit_prog h) None))) (c_lost c)).
Proof.
  intros Hok Eth. pose proof Hok as [C1 _ C3 _ C5 _].
  apply (conc_ok_local scripts c t _ hs _ _ _ _ Hok Eth); [done..| |].
  - intros i h' Hi. split; [done|]. by intros ? ? ? [=].
  - intros sc' Esc' [E1 E2]. left. cbn [t_todo]. auto.
Qed.

(** Every step without loss keeps the invariant. *)
Lemma thread_step_ok scripts (c c' : recon_machine) t :
  (forall t sc, scripts !! t = Some sc -> Forall (fun h => hit_tid h = t) sc) ->
  conc_ok scripts c -> recon_step t c = Some c' -> c_lost c' = false -> lossless k0 (hits c') = true ->
  conc_ok scripts c'.
Proof.
  intros Hsc Hok Es Hlost Hl. pose proof (co_config _ _ Hok) as Hst. unfold recon_step, thread_step in Es.
  destruct (c_threads c !! t) as [[todo [[h p sl]|]]|] eqn:Eth; [| |done]; cbn [mbind option_bind t_now t_todo] in Es.
  2:{ destruct todo as [|h hs]; [done|]. injection Es as <-. by apply conc_ok_take. }
  destruct p as [|n k|w key k|w key v k|e k].
  - injection Es as <-. exact (conc_ok_done _ _ _ _ _ Hok _ Eth).
  - destruct (co_threads _ _ Hok _ _ Eth) as (sc & Esc & [(-> & Ep & _)|(_ & Hown & _)]); [|done].
    destruct (hit_prog_reserve h) as [k' Ek]. rewrite Ek in Ep. injection Ep as -> ->.
    destruct (hit_reserves h 0) as [g|] eqn:Eg; injection Es as <-; [|done].
    apply (conc_ok_reserve scripts c t todo h k' g); try done.
    unfold hits in *. cbn [c_ring] in Hl. by rewrite map_app in Hl.
  - injection Es as <-. eapply conc_ok_call; [done|done|done|done|done| |].
    + by intros [_ Hown].
    + intros [Hk _]. by apply (own_lookup t).
  - destruct (k_update (c_store c) w key v) as [st rc] eqn:Eu. injection Es as <-.
    destruct (co_threads _ _ Hok _ _ Eth) as (sc & Esc & _).
    destruct (at_running _ _ _ _ _ Hok _ _ _ Eth ltac:(done) Esc) as (_ & (-> & -> & Hown) & _).
    rewrite k_update_depth in Eu. injection Eu as <- <-. cbn [c_lost] in Hlost.
    apply orb_false_iff in Hlost as [_ Hrc]. apply negb_false_iff, Z.eqb_eq in Hrc.
    destruct (map_update_elem (depth (c_store c)) t v) as [m rc] eqn:Eu. cbn [fst snd] in *. subst rc.
    eapply conc_ok_call; [done|done|done|by apply same_config_depth| | |].
    + intros u Hu. cbn [set_depth_map depth]. by apply (update_other _ _ _ _ _ _ Eu).
    + by intros (_ & _ & ?).
    + intros _. cbn [exec set_depth_map depth]. by rewrite (update_same _ _ _ _ Eu).
  - destruct sl as [i|]; [|done]. injection Es as <-. exact (conc_ok_submit _ _ _ _ _ Hok _ _ _ Eth).
Qed.
Lemma lossless_prefix s (hs hs' : list (@hit R U)) :
  hs `prefix_of` hs' -> lossless s hs' = true -> lossless s hs = true.
Proof.
  intros [l ->]. induction l as [|h l IH] using rev_ind; [by rewrite app_nil_r|].
  rewrite app_assoc, lossless_snoc. intros [Hl _]%andb_true_iff. auto.
Qed.

Lemma conc_ok_start scripts : conc_ok scripts (recon_start k0 scripts).
Proof.
  constructor; cbn; try done.
  - intros t th Ht. rewrite lookup_fmap in Ht. destruct (scripts !! t) as [sc|]; [|done].
    injection Ht as <-. exists sc. by split.
  - intros t Ht. rewrite lookup_fmap in Ht. by destruct (scripts !! t).
Qed.

Lemma schedule_ok scripts ts (c : recon_machine) :
  (forall t sc, scripts !! t = Some sc -> Forall (fun h => hit_tid h = t) sc) ->
  recon_schedule ts (recon_start k0 scripts) = Some c -> c_lost c = false -> lossless k0 (hits c) = true ->
  conc_ok scripts c.
Proof.
  intros Hsc. revert ts c. apply (run_schedule_ind _ _ _ _
    (fun c => c_lost c = false -> lossless k0 (hits c) = true -> conc_ok scripts c)).
  - intros _ _. apply conc_ok_start.
  - intros t c c' IH Es Hlost Hl. destruct (thread_step_grows _ _ _ _ _ _ _ Es) as [Hm Hp].
    eapply (thread_step_ok scripts c); [done| |exact Es|done|done]. apply IH.
    + destruct (c_lost c); [|done]. by rewrite Hm in Hlost.
    + by eapply lossless_prefix.
Qed.
End Interleaved.

(** ** Properties *)

Section Properties.
Context {M R U : Type} `{HM : BpfMapLaws M} `{HR : PtRegsLaws R} `{HU : UserMemLaws U}.

(** C8. However the helper calls of concurrent probe hits interleave, the loader
    sees one hit at a time: as long as nothing is lost, the events it has read
    begin the events the hits give one after the other in the order of their
    reservations, an order that keeps every thread's own; and when no program
    is running it has read all of them and the counters are the same. *)
Theorem concurrent_run_refines (k0 : kmaps M) (scripts : gmap Z (list (@hit R U))) ts c :
  (forall t sc, scripts !! t = Some sc -> Forall (fun h => hit_tid h = t) sc) ->
  recon_schedule ts (recon_start k0 scripts) = Some c ->
  c_lost c = false -> lossless k0 (hits c) = true ->
  delivered (c_ring c) `prefix_of` (run k0 (hits c)).2 /\
  (forall t sc, scripts !! t = Some sc -> hits_of t (hits c) `prefix_of` sc) /\
  (quiet c ->
    delivered (c_ring c) = (run k0 (hits c)).2 /\
    forall tid, height (c_store c) tid = height (run k0 (hits c)).1 tid).
Proof.
  intros Hsc Es Hlost Hl. destruct (schedule_ok k0 scripts ts c Hsc Es Hlost Hl) as [C1 C2 C3 C4 C5 C6].
  pose proof (delivered_prefix _ _ C3) as Hpre. split; [done|]. split.
  - intros t sc Hs. destruct (c_threads c !! t) as [th|] eqn:Eth; [|apply C6 in Eth as [Eth _]; congruence].
    destruct (C5 t th Eth) as (sc' & Hs' & Hok). rewrite Hs in Hs'. injection Hs' as <-.
    unfold thread_ok, running in Hok. destruct (t_now th) as [[h p sl]|].
    + destruct Hok as [(_ & _ & -> & _)|(-> & _)]; by apply prefix_app_r.
    + destruct Hok as [-> _]. by apply prefix_app_r.
  - intros Hq. split.
    + destruct Hpre as [l El]. rewrite El. enough (l = []) as -> by by rewrite app_nil_r.
      apply length_zero_iff_nil. apply (f_equal length) in El.
      rewrite length_app, C2, delivered_all in El; [lia|].
      intros [h o] [i Hi]%list_elem_of_lookup Ho. cbn in Ho. subst o.
      destruct (C4 i h Hi) as (t & todo & h' & p & Hth). by specialize (Hq t _ Hth).
    + intros tid. unfold height. f_equal. destruct (c_threads c !! tid) as [th|] eqn:Eth; [|by apply C6].
      destruct (C5 tid th Eth) as (sc & _ & Hok). unfold thread_ok in Hok. rewrite (Hq tid th Eth) in Hok.
      by destruct Hok.
Qed.
End Properties.

(** Two threads inside a tracked function at once, one call at a time each. *)
Definition demo_thread_hit (tid off : Z) : hit_env user_pt_regs byte_mem :=
  HitEnv (Some (junk 0x5a5a)) (41 * 2 ^ 32 + tid) 7 (demo_regs off [1; 2; 3; 4]) (mem_of_words []) (-14).

Definition demo_scripts : gmap Z (list (@hit user_pt_regs byte_mem)) :=
  list_to_map (map (fun tid =>
    (tid, [Entry (demo_thread_hit tid 0x300); Return (demo_thread_hit tid 0x500)])) [42; 43]).

Definition demo_turns : list Z := concat (repeat [42; 43] 17).

Lemma concurrent_run_refines_witness :
  match recon_schedule demo_turns (recon_start demo_maps demo_scripts) with
  | Some c => map e_depth (delivered (c_ring c)) = map e_depth (run demo_maps (hits c)).2 /\
      map e_tid (delivered (c_ring c)) = [42; 43; 42; 43]
  | None => False
  end.
Proof.
  destruct (recon_schedule demo_turns (recon_start demo_maps demo_scripts)) as [c|] eqn:E;
    [|vm_compute in E; discriminate].
  assert (Hc : match recon_schedule demo_turns (recon_start demo_maps demo_scripts) with
    | Some c => c_lost c = false /\ lossless demo_maps (hits c) = true /\ quietb c = true /\
        map e_tid (delivered (c_ring c)) = [42; 43; 42; 43]
    | None => False end) by (vm_compute; tauto).
  rewrite E in Hc. destruct Hc as (H1 & H2 & H3 & H4).
  destruct (concurrent_run_refines demo_maps demo_scripts demo_turns c) as (_ & _ & Hq).
  - intros t sc Hs. apply elem_of_list_to_map_2 in Hs. cbn [map] in Hs.
    apply list_elem_of_In in Hs. destruct Hs as [Hs|[Hs|[]]]; injection Hs as <- <-; repeat constructor.
  - exact E.
  - exact H1.
  - exact H2.
  - destruct (Hq (quietb_quiet _ H3)) as [Hd _]. split; [by rewrite Hd|exact H4].
Defined.
