(* ===== verification/EnvRace.v ===== *)
(** * EnvRace: the programs of bpf/envprobe.bpf.c on several CPUs

    [up_lnl] and [up_cnt] as sequences of helper calls.  On its own each is
    the function of EnvProbe.  Interleaved they need not be: the lookup of
    [seen] and its update are apart (EnvOverlap). *)

From S2P Require Import Prelude CTypes Bpf Recon Wire EnvProbe Helpers.

Section Programs.
Context {M R U : Type} `{BpfMap M} `{PtRegs R} `{UserMem U}.

(** The [n]-th call of [emit] in a program that goes on with [k]. *)
Definition emit_prog (v : env_hit R U) (n : nat) (site reg cand : Z) (k : prog unit dump_t) : prog unit dump_t :=
  if cand <? 0x10000 then k
  else
    match try_read_word (eh_umem v) cand with
    | None => k
    | Some table =>
        if (table <? 0x10000) || (0x0000800000000000 <? table) then k
        else
          match try_read_word (eh_umem v) (table + 6 * 8) with
          | None => k
          | Some ver =>
              if ver <? 0x10000 then k
              else Reserve n (fun r =>
                match r with
                | None => k
                | Some _ =>
                    Submit (Dump (u32 (Z.shiftr (eh_pid_tgid v) 32)) site reg 0 cand table
                              (table_slots (eh_umem v) table)) k
                end)
          end
    end.

Definition up_lnl_prog (v : env_hit R U) : prog unit dump_t :=
  let pid := u32 (Z.shiftr (eh_pid_tgid v) 32) in
  Lookup tt pid (fun r =>
    match r with
    | Some _ => Done
    | None =>
        emit_prog v 0 1 1 (PT_REGS_PARM (eh_regs v) 2)
          (emit_prog v 1 1 0 (PT_REGS_PARM (eh_regs v) 1) (Update tt pid 1 Done))
    end).

Definition up_cnt_prog (v : env_hit R U) : prog unit dump_t :=
  let pid := u32 (Z.shiftr (eh_pid_tgid v) 32) in
  Lookup tt pid (fun r =>
    match r with
    | Some _ => Done
    | None =>
        emit_prog v 0 2 0 (PT_REGS_PARM (eh_regs v) 1)
          (emit_prog v 1 2 1 (PT_REGS_PARM (eh_regs v) 2) (Update tt pid 1 Done))
    end).

Definition env_prog (h : env_event R U) : prog unit dump_t :=
  match h with Lnl v => up_lnl_prog v | Cnt v => up_cnt_prog v end.

Definition seen_lookup (s : M) (_ : unit) (key : Z) : option Z := map_lookup_elem s key.
Definition seen_update (s : M) (_ : unit) (key v : Z) : M * Z := map_update_elem s key v.

(** Every field of a record is written, so its old contents do not matter. *)
Definition env_reserves (h : env_event R U) (n : nat) : option dump_t :=
  if eh_room (ev_hit h) n then Some (Dump 0 0 0 0 0 0 []) else None.

Definition env_start (s : M) (scripts : gmap Z (list (env_event R U))) :
    machine unit dump_t M (env_event R U) := start s scripts.

Definition env_schedule := run_schedule seen_lookup seen_update env_prog env_reserves.

(** ** On its own *)

Lemma emit_prog_alone (h : env_event R U) n site reg cand k (s : M) :
  interp seen_lookup seen_update env_reserves h (emit_prog (ev_hit h) n site reg cand k) s =
  let '(s', es) := interp seen_lookup seen_update env_reserves h k s in
  (s', opt_list (emit_env (ev_hit h) (eh_room (ev_hit h) n) site reg cand) ++ es).
Proof.
  unfold emit_prog, emit_env. destruct (interp _ _ _ h k s) as [s' es] eqn:Ek.
  destruct (cand <? 0x10000); [exact Ek|].
  destruct (try_read_word _ cand) as [table|]; [|exact Ek].
  destruct (_ || _); [exact Ek|]. destruct (try_read_word _ _) as [ver|]; [|exact Ek].
  destruct (ver <? 0x10000); [exact Ek|]. cbn [interp].
  destruct (env_reserves h n) as [g|] eqn:Eg; unfold env_reserves in Eg; destruct (eh_room (ev_hit h) n); try done.
  cbn [interp]. by rewrite Ek.
Qed.

Lemma env_prog_alone (h : env_event R U) (s : M) :
  interp seen_lookup seen_update env_reserves h (env_prog h) s = env_step s h.
Proof.
  destruct h as [v|v]; cbn [env_prog env_step]; unfold up_lnl_prog, up_cnt_prog, up_lnl, up_cnt, emit_two;
    cbn [interp]; change (seen_lookup s tt ?key) with (map_lookup_elem s key);
    (destruct (map_lookup_elem s _); [reflexivity|]).
  - rewrite (emit_prog_alone (Lnl v)), (emit_prog_alone (Lnl v)). cbn [interp ev_hit]. by rewrite app_nil_r.
  - rewrite (emit_prog_alone (Cnt v)), (emit_prog_alone (Cnt v)). cbn [interp ev_hit]. by rewrite app_nil_r.
Qed.
End Programs.
