(* ===== verification/Schedules.v ===== *)
(** * Schedules: the interleaved programs get to their end

    For programs that balance their reservations and make a bounded number of
    calls, as the BPF verifier demands: no schedule is stuck, every schedule
    is finite, and at the end every record reserved has reached the reader.
    And what is submitted was submitted by some hit's program.  Applied to
    bpf/recon.bpf.c and bpf/envprobe.bpf.c. *)

From S2P Require Import Prelude CTypes Bpf Recon Wire EnvProbe Helpers Concurrent EnvRace.

(** ** Sums over a map *)

Definition msum (m : gmap Z nat) : nat := map_fold (fun _ n acc => (n + acc)%nat) 0%nat m.

Lemma msum_delete m t n : m !! t = Some n -> msum m = (n + msum (delete t m))%nat.
Proof. intros E. unfold msum. rewrite (map_fold_delete_L _ _ t n m); [done|intros; lia|done]. Qed.

Lemma msum_insert_new m t n : m !! t = None -> msum (<[t := n]> m) = (n + msum m)%nat.
Proof. intros E. unfold msum. rewrite map_fold_insert_L; [done|intros; lia|done]. Qed.

Lemma msum_insert m t n n' : m !! t = Some n -> (msum (<[t := n']> m) + n = msum m + n')%nat.
Proof.
  intros E. rewrite (msum_delete m t n E), <- insert_delete_eq, msum_insert_new by apply lookup_delete_eq. lia.
Qed.

Lemma msum_fmap_mul {A} (f : A -> nat) k (m : gmap Z A) :
  msum ((fun a => (k * f a)%nat) <$> m) = (k * msum (f <$> m))%nat.
Proof.
  induction m as [|t a m Hm IH] using map_ind; [rewrite !fmap_empty; unfold msum; rewrite map_fold_empty; lia|].
  rewrite !fmap_insert, !msum_insert_new by (rewrite lookup_fmap, Hm; done). rewrite IH. lia.
Qed.

(** ** What the verifier asks of a program *)

Section Verified.
Context {W Ev St Hit : Type}.

(** Every reservation that succeeds is submitted, before the next one and
    before the end; [held]: a record is held. *)
Fixpoint balanced (held : bool) (p : prog W Ev) : Prop :=
  match p with
  | Done => held = false
  | Reserve _ k => held = false /\ (forall g, balanced true (k (Some g))) /\ balanced false (k None)
  | Lookup _ _ k => forall r, balanced held (k r)
  | Update _ _ _ k => balanced held k
  | Submit _ k => held = true /\ balanced false k
  end.

(** At most [n] calls, the end included. *)
Fixpoint within (p : prog W Ev) (n : nat) : Prop :=
  match n with
  | O => False
  | S n =>
      match p with
      | Done => True
      | Reserve _ k => forall r, within (k r) n
      | Lookup _ _ k => forall r, within (k r) n
      | Update _ _ _ k => within k n
      | Submit _ k => within k n
      end
  end.

(** Every record the program may submit satisfies [Q]. *)
Fixpoint submits (Q : Ev -> Prop) (p : prog W Ev) : Prop :=
  match p with
  | Done => True
  | Reserve _ k => forall r, submits Q (k r)
  | Lookup _ _ k => forall r, submits Q (k r)
  | Update _ _ _ k => submits Q k
  | Submit e k => Q e /\ submits Q k
  end.

Lemma within_le p n n' : (n <= n')%nat -> within p n -> within p n'.
Proof.
  revert n n'. induction p as [|i k IH|w key k IH|w key v k IH|e k IH]; intros [|n] [|n'] Hn Hw;
    try done; try lia; cbn [within] in *.
  - intros r. apply (IH r n); [lia|apply Hw].
  - intros r. apply (IH r n); [lia|apply Hw].
  - apply (IH n); [lia|done].
  - apply (IH n); [lia|done].
Qed.

Context (lookup_elem : St -> W -> Z -> option Z) (update_elem : St -> W -> Z -> Z -> St * Z).
Context (program : Hit -> prog W Ev) (reserves : Hit -> nat -> option Ev).

Abbreviation machine := (machine W Ev St Hit).
Abbreviation thread := (thread W Ev Hit).
Abbreviation step := (thread_step lookup_elem update_elem program reserves).
Abbreviation schedule := (run_schedule lookup_elem update_elem program reserves).

(** *** Every record is handed over *)

(** The thread is between two hits, and none is left. *)
Definition at_rest (th : thread) : Prop := t_todo th = [] /\ t_now th = None.

Definition disciplined (c : machine) : Prop :=
  (forall t th, c_threads c !! t = Some th ->
     match t_now th with
     | None => True
     | Some a => balanced (bool_decide (is_Some (a_slot a))) (a_prog a)
     end) /\
  (forall i h, c_ring c !! i = Some (Slot h None) ->
     exists t todo h' p, c_threads c !! t = Some (Thread todo (Some (Activity h' p (Some i))))).

(** A step of thread [t] keeps the other threads, and the owners of the
    records that are still open. *)
Lemma disciplined_set st ring todo a lost (c : machine) t :
  disciplined c ->
  match a with None => True | Some x => balanced (bool_decide (is_Some (a_slot x))) (a_prog x) end ->
  (forall i h, ring !! i = Some (Slot h None) ->
    (exists h' p, a = Some (Activity h' p (Some i))) \/
    (c_ring c !! i = Some (Slot h None) /\
     forall todo h' p, c_threads c !! t <> Some (Thread todo (Some (Activity h' p (Some i)))))) ->
  disciplined (Machine st ring (set_now c t todo a) lost).
Proof.
  intros [D1 D2] Ha Hr. split; unfold set_now; cbn [c_threads c_ring].
  - intros u th Hu. destruct (decide (u = t)) as [->|Hne].
    + rewrite lookup_insert_eq in Hu. by injection Hu as <-.
    + rewrite lookup_insert_ne in Hu by done. by apply (D1 u).
  - intros i h Hi. destruct (Hr i h Hi) as [(h' & p & ->)|[Hi' Hnot]].
    + eexists t, _, _, _. by rewrite lookup_insert_eq.
    + destruct (D2 i h Hi') as (u & todo' & h' & p & Hu). destruct (decide (u = t)) as [->|Hne].
      * by destruct (Hnot todo' h' p).
      * eexists u, _, _, _. by rewrite lookup_insert_ne.
Qed.

(** A step that leaves the ring buffer and the slot held alone. *)
Lemma disciplined_call st todo h p p' sl lost (c : machine) t :
  disciplined c -> c_threads c !! t = Some (Thread todo (Some (Activity h p sl))) ->
  balanced (bool_decide (is_Some sl)) p' ->
  disciplined (Machine st (c_ring c) (set_now c t todo (Some (Activity h p' sl))) lost).
Proof.
  intros HD Et Hb. apply disciplined_set; [done|exact Hb|]. intros i h' Hi.
  destruct sl as [j|]; [destruct (decide (j = i)) as [->|Hne]|].
  - left. by eexists _, _.
  - right. split; [done|]. intros ? ? ?. rewrite Et. intros [= _ _ _ E]. congruence.
  - right. split; [done|]. intros ? ? ?. by rewrite Et.
Qed.

Hypothesis program_balanced : forall h, balanced false (program h).

Lemma step_disciplined t c c' : disciplined c -> step t c = Some c' -> disciplined c'.
Proof.
  intros HD. unfold thread_step. destruct (c_threads c !! t) as [[todo [[h p sl]|]]|] eqn:Et; [| |done];
    cbn [mbind option_bind t_now t_todo].
  2:{ destruct todo as [|h hs]; [done|]. intros [= <-]. apply disciplined_set; [done|apply program_balanced|].
      intros i h' Hi. right. split; [done|]. intros ? ? ?. by rewrite Et. }
  pose proof (proj1 HD t _ Et) as Hb. cbn [t_now a_slot a_prog] in Hb.
  destruct p as [|n k|w key k|w key v k|e k]; cbn [balanced] in Hb.
  - destruct sl as [i|]; [done|]. intros [= <-]. apply disciplined_set; [done|done|].
    intros i h' Hi. right. split; [done|]. intros ? ? ?. by rewrite Et.
  - destruct Hb as (Hs & Hk & Hn). destruct sl as [i|]; [done|]. destruct (reserves h n) as [g|]; intros [= <-].
    + apply disciplined_set; [done|apply Hk|]. intros i h' [Hi|[Hge Hi]]%lookup_app_Some.
      * right. split; [done|]. intros ? ? ?. by rewrite Et.
      * left. apply list_lookup_singleton_Some in Hi as [Hi _]. replace i with (length (c_ring c)) by lia.
        by eexists _, _.
    + by eapply disciplined_call.
  - intros [= <-]. by eapply disciplined_call.
  - destruct (update_elem _ _ _ _) as [st rc]. intros [= <-]. by eapply disciplined_call.
  - destruct Hb as [Hs Hk]. destruct sl as [j|]; [|done]. intros [= <-].
    apply disciplined_set; [done|exact Hk|]. intros i h' Hi.
    destruct (decide (j = i)) as [<-|Hne].
    + rewrite list_lookup_alter_eq in Hi. by destruct (c_ring c !! j).
    + rewrite list_lookup_alter_ne in Hi by done. right. split; [done|]. intros ? ? ?.
      rewrite Et. intros [= _ _ _ E]. congruence.
Qed.

Lemma start_disciplined st (scripts : gmap Z (list Hit)) : disciplined (start st scripts).
Proof.
  split; [|done]. intros t th Ht. cbn in Ht. rewrite lookup_fmap in Ht. destruct (scripts !! t); [|done].
  by injection Ht as <-.
Qed.

(** A thread with something to do can do it, whatever the others do. *)
Lemma step_enabled t th c :
  disciplined c -> c_threads c !! t = Some th -> ~ at_rest th -> is_Some (step t c).
Proof.
  intros [D1 _] Et Hr. unfold thread_step. rewrite Et. cbn [mbind option_bind]. specialize (D1 t th Et).
  destruct th as [todo [[h p sl]|]]; cbn [t_now t_todo a_slot a_prog] in *.
  - destruct p as [|n k|w key k|w key v k|e k]; [done| |done| |].
    + by destruct (reserves h n).
    + by destruct (update_elem _ _ _ _).
    + destruct D1 as [Hs _]. by destruct sl.
  - destruct todo; [|done]. by destruct Hr.
Qed.

Definition all_at_rest (c : machine) : bool :=
  forallb (fun p => match t_todo p.2, t_now p.2 with [], None => true | _, _ => false end)
    (map_to_list (c_threads c)).

Lemma all_at_rest_stops c : all_at_rest c = true -> forall t, step t c = None.
Proof.
  unfold all_at_rest. rewrite forallb_forall. intros Hc t. unfold thread_step.
  destruct (c_threads c !! t) as [th|] eqn:Et; [|done].
  apply elem_of_map_to_list, list_elem_of_In, Hc in Et. by destruct th as [[|h todo] [a|]].
Qed.

(** When no thread has anything left, the reader gets every record. *)
Lemma at_rest_delivered c :
  disciplined c -> (forall t th, c_threads c !! t = Some th -> at_rest th) ->
  length (delivered (c_ring c)) = length (c_ring c).
Proof.
  intros [_ D2] Hr. apply delivered_all. intros [h o] [i Hi]%list_elem_of_lookup Ho. cbn in Ho. subst o.
  destruct (D2 i h Hi) as (t & todo & h' & p & Et). by destruct (Hr t _ Et).
Qed.

(** *** Schedules are finite *)

Section Bounded.
Variable bound : nat.
Hypothesis program_within : forall h, within (program h) bound.

(** The thread makes at most [n] more steps. *)
Definition left_within (th : thread) (n : nat) : Prop :=
  exists m, n = (S bound * length (t_todo th) + m)%nat /\
    match t_now th with None => m = 0%nat | Some a => within (a_prog a) m end.

Lemma left_within_step t c c' th n :
  c_threads c !! t = Some th -> left_within th n -> step t c = Some c' ->
  exists th' n', c_threads c' = <[t := th']> (c_threads c) /\ left_within th' n' /\ (n' < n)%nat.
Proof.
  intros Et (m & -> & Hm). unfold thread_step. rewrite Et. cbn [mbind option_bind].
  assert (Hgo : forall todo h p p' sl sl' (st : St) (ring : list (slot Ev Hit)) (lost : bool) m,
    th = Thread todo (Some (Activity h p sl)) -> within p' m ->
    exists th' n', c_threads (Machine st ring (set_now c t todo (Some (Activity h p' sl'))) lost) =
      <[t := th']> (c_threads c) /\ left_within th' n' /\ (n' < S bound * length todo + S m)%nat).
  { intros todo h p p' sl sl' st ring lost m' _ Hw. eexists _, _. split; [reflexivity|].
    split; [exists m'; split; [reflexivity|exact Hw]|]. cbn [t_todo]. lia. }
  destruct th as [todo [[h p sl]|]]; cbn [t_now t_todo a_prog] in *.
  - destruct m as [|m]; [by destruct p|]. destruct p as [|i k|w key k|w key v k|e k]; cbn [within] in Hm.
    + intros [= <-]. eexists _, _. split; [reflexivity|]. split; [by exists 0%nat|]. cbn [t_todo]. lia.
    + destruct (reserves h i) as [g|]; intros [= <-]; by eapply Hgo.
    + intros [= <-]. by eapply Hgo.
    + destruct (update_elem _ _ _ _) as [st rc]. intros [= <-]. by eapply Hgo.
    + destruct sl as [j|]; [|done]. intros [= <-]. by eapply Hgo.
  - subst m. destruct todo as [|h hs]; [done|]. intros [= <-]. eexists _, _. split; [reflexivity|].
    split; [exists bound; split; [reflexivity|apply program_within]|]. cbn [t_todo length]. lia.
Qed.

Lemma schedule_length ts (c c' : machine) (pot : gmap Z nat) :
  (forall t th, c_threads c !! t = Some th -> exists n, pot !! t = Some n /\ left_within th n) ->
  schedule ts c = Some c' -> (length ts <= msum pot)%nat.
Proof.
  revert c pot. induction ts as [|t ts IH]; intros c pot Hp; cbn [run_schedule length]; [lia|].
  destruct (step t c) as [c1|] eqn:Es; [|done]. cbn [mbind option_bind]. intros Hs.
  assert (exists th, c_threads c !! t = Some th) as [th Et].
  { unfold thread_step in Es. destruct (c_threads c !! t) as [th|]; [by exists th|done]. }
  destruct (Hp t th Et) as (n & En & Hn).
  destruct (left_within_step t c c1 th n Et Hn Es) as (th' & n' & Ec & Hn' & Hlt).
  pose proof (msum_insert pot t n n' En) as Hm. apply (IH c1 (<[t := n']> pot)) in Hs; [lia|].
  intros u thu. rewrite Ec. destruct (decide (u = t)) as [->|Hne].
  - rewrite !lookup_insert_eq. intros [= <-]. by exists n'.
  - rewrite !lookup_insert_ne by done. apply Hp.
Qed.

Lemma start_length st (scripts : gmap Z (list Hit)) ts c :
  schedule ts (start st scripts) = Some c -> (length ts <= S bound * msum (length <$> scripts))%nat.
Proof.
  intros Hs. rewrite <- msum_fmap_mul. apply (schedule_length _ _ _ _) with (2 := Hs).
  intros t th Et. unfold start in Et. cbn [c_threads] in Et. rewrite lookup_fmap in Et. rewrite lookup_fmap. destruct (scripts !! t) as [hs|]; [|done].
  injection Et as <-. eexists. split; [reflexivity|]. exists 0%nat. cbn [t_todo t_now]. split; [lia|done].
Qed.

(** The three together. *)
Lemma schedule_completes st (scripts : gmap Z (list Hit)) ts c :
  schedule ts (start st scripts) = Some c ->
  (length ts <= S bound * msum (length <$> scripts))%nat /\
  (forall t th, c_threads c !! t = Some th -> ~ at_rest th -> is_Some (step t c)) /\
  ((forall t th, c_threads c !! t = Some th -> at_rest th) ->
    length (delivered (c_ring c)) = length (c_ring c)).
Proof.
  intros Hs. assert (HD : disciplined c).
  { revert Hs. apply run_schedule_ind; [apply start_disciplined|]. intros t c1 c2. apply step_disciplined. }
  split; [by apply start_length in Hs|]. split.
  - intros t th Et Hr. by eapply step_enabled.
  - by apply at_rest_delivered.
Qed.

End Bounded.

(** *** Where the records come from *)

Variables (Q : Hit -> Ev -> Prop) (scripts : gmap Z (list Hit)).
Hypothesis program_submits : forall h, submits (Q h) (program h).

Definition scripted (h : Hit) : Prop := exists t sc, scripts !! t = Some sc /\ h ∈ sc.

Definition sourced (c : machine) : Prop :=
  (forall t th, c_threads c !! t = Some th ->
     Forall scripted (t_todo th) /\
     match t_now th with None => True | Some a => scripted (a_hit a) /\ submits (Q (a_hit a)) (a_prog a) end) /\
  (forall i h e, c_ring c !! i = Some (Slot h (Some e)) -> exists h', scripted h' /\ Q h' e).

Lemma sourced_set st ring todo a lost (c : machine) t :
  sourced c -> Forall scripted todo ->
  match a with None => True | Some a => scripted (a_hit a) /\ submits (Q (a_hit a)) (a_prog a) end ->
  (forall i h e, ring !! i = Some (Slot h (Some e)) ->
     c_ring c !! i = Some (Slot h (Some e)) \/ exists h', scripted h' /\ Q h' e) ->
  sourced (Machine st ring (set_now c t todo a) lost).
Proof.
  intros [S1 S2] Ht Ha Hr. split; unfold set_now; cbn [c_threads c_ring].
  - intros u th Hu. destruct (decide (u = t)) as [->|Hne].
    + rewrite lookup_insert_eq in Hu. by injection Hu as <-.
    + rewrite lookup_insert_ne in Hu by done. by apply (S1 u).
  - intros i h e Hi. destruct (Hr i h e Hi) as [Hi'|?]; [|done]. by eapply S2.
Qed.

Lemma step_sourced t c c' : sourced c -> step t c = Some c' -> sourced c'.
Proof.
  intros HS. unfold thread_step. destruct (c_threads c !! t) as [[todo [[h p sl]|]]|] eqn:Et; [| |done];
    cbn [mbind option_bind t_now t_todo]; destruct (proj1 HS t _ Et) as [Ht Ha]; cbn [t_now t_todo a_hit a_prog] in *.
  2:{ destruct todo as [|h hs]; [done|]. apply Forall_cons in Ht as [Hh Ht]. intros [= <-].
      apply sourced_set; [done|done|by split|by left]. }
  destruct Ha as [Hh Hp]. destruct p as [|n k|w key k|w key v k|e k]; cbn [submits] in Hp.
  - intros [= <-]. apply sourced_set; [done|done|done|by left].
  - destruct (reserves h n) as [g|]; intros [= <-]; (apply sourced_set; [done|done|split; [exact Hh|apply Hp]|]); [|by left].
    intros i h' e [Hi|[_ Hi]]%lookup_app_Some; [by left|]. by apply list_lookup_singleton_Some in Hi as [_ Hi].
  - intros [= <-]. apply sourced_set; [done|done|split; [exact Hh|apply Hp]|by left].
  - destruct (update_elem _ _ _ _) as [st rc]. intros [= <-]. apply sourced_set; [done|done|split; [exact Hh|apply Hp]|by left].
  - destruct sl as [j|]; [|done]. intros [= <-]. apply sourced_set; [done|done|split; [exact Hh|apply Hp]|].
    intros i h' e' Hi. destruct (decide (j = i)) as [<-|Hne].
    + rewrite list_lookup_alter_eq in Hi. destruct (c_ring c !! j); [|done]. injection Hi as _ <-. right. exists h. tauto.
    + rewrite list_lookup_alter_ne in Hi by done. by left.
Qed.

Lemma delivered_In (ring : list (slot Ev Hit)) e :
  In e (delivered ring) -> exists i h, ring !! i = Some (Slot h (Some e)).
Proof.
  induction ring as [|[h [e'|]] ring IH]; [done| |done]. cbn [delivered].
  intros [->|Hin]; [by exists 0%nat, h|]. destruct (IH Hin) as (i & h' & Hi). by exists (S i), h'.
Qed.

Lemma delivered_sourced st ts c e :
  schedule ts (start st scripts) = Some c -> In e (delivered (c_ring c)) -> exists h, scripted h /\ Q h e.
Proof.
  intros Hs Hin. assert (HS : sourced c).
  { revert Hs. apply run_schedule_ind; [|intros t c1 c2; apply step_sourced].
    split; [|done]. intros t th Et. cbn in Et. rewrite lookup_fmap in Et.
    destruct (scripts !! t) as [sc|] eqn:Esc; [|done]. injection Et as <-. split; [|done]. cbn [t_todo].
    apply Forall_forall. intros h Hh. by exists t, sc. }
  apply delivered_In in Hin as (i & h & Hi). by eapply (proj2 HS).
Qed.
End Verified.

(** ** The programs of the repository *)

Section Recon.
Context {M R U : Type} `{HM : BpfMapLaws M} `{HR : PtRegsLaws R} `{HU : UserMemLaws U}.
Implicit Types (v : hit_env R U).

Lemma hit_prog_balanced (h : @hit R U) : balanced false (hit_prog h).
Proof.
  destruct h as [v|v]; cbn; (split; [done|]); (split; [|done]); [|done].
  intros g [base|]; [|done]. intros [hr|]; cbn; done.
Qed.

(** [up_all] makes at most ten calls, [up_ret] five. *)
Lemma hit_prog_within (h : @hit R U) : within (hit_prog h) 10.
Proof.
  destruct h as [v|v]; cbn; intros [g|]; cbn; try done. intros [base|]; cbn; [|done]. intros [hr|]; cbn; done.
Qed.
End Recon.

Section Env.
Context {M R U : Type} `{HM : BpfMapLaws M} `{HR : PtRegsLaws R} `{HU : UserMemLaws U}.

Lemma emit_prog_balanced (v : env_hit R U) n site reg cand k :
  balanced false k -> balanced false (emit_prog v n site reg cand k).
Proof.
  intros Hk. unfold emit_prog. destruct (cand <? 0x10000); [done|].
  destruct (try_read_word _ cand) as [table|]; [|done]. destruct (_ || _); [done|].
  destruct (try_read_word _ _) as [ver|]; [|done]. destruct (ver <? 0x10000); [done|]. by cbn.
Qed.

Lemma emit_prog_within (v : env_hit R U) n site reg cand k m :
  within k m -> within (emit_prog v n site reg cand k) (S (S m)).
Proof.
  intros Hk. assert (Hk2 : within k (S (S m))) by (by apply (within_le _ m); [lia|]). unfold emit_prog.
  destruct (cand <? 0x10000); [done|].
  destruct (try_read_word _ cand) as [table|]; [|done]. destruct (_ || _); [done|].
  destruct (try_read_word _ _) as [ver|]; [|done]. destruct (ver <? 0x10000); [done|].
  cbn [within]. intros [g|]; cbn; [done|]. by apply (within_le _ m); [lia|].
Qed.

Lemma env_prog_balanced (h : env_event R U) : balanced false (env_prog h).
Proof. destruct h as [v|v]; cbn; (intros [x|]; [done|]); by apply emit_prog_balanced, emit_prog_balanced. Qed.

Lemma env_prog_within (h : env_event R U) : within (env_prog h) 7.
Proof. destruct h as [v|v]; cbn [env_prog]; cbn; (intros [x|]; [done|]); by apply (emit_prog_within _ _ _ _ _ _ 4), (emit_prog_within _ _ _ _ _ _ 2). Qed.

(** A record that [emit_prog] submits is one that [emit] submits. *)
Lemma emit_prog_submits (v : env_hit R U) n site reg cand k (Q : dump_t -> Prop) :
  (forall d, emit_env v true site reg cand = Some d -> Q d) -> submits Q k ->
  submits Q (emit_prog v n site reg cand k).
Proof.
  intros HQ Hk. unfold emit_prog, emit_env in *. destruct (cand <? 0x10000); [done|].
  destruct (try_read_word _ cand) as [table|]; [|done]. destruct (_ || _); [done|].
  destruct (try_read_word _ _) as [ver|]; [|done]. destruct (ver <? 0x10000); [done|].
  cbn. intros [g|]; [|done]. split; [by apply HQ|done].
Qed.

Lemma env_prog_genuine (h : env_event R U) : submits (genuine h) (env_prog h).
Proof.
  destruct h as [v|v]; cbn [env_prog]; cbn; (intros [x|]; [done|]);
    (apply emit_prog_submits; [|apply emit_prog_submits; [|done]]); intros d E; revert E;
    first [apply (emit_genuine (Lnl v))|apply (emit_genuine (Cnt v))]; auto.
Qed.
End Env.

(** ** Properties *)

Section Properties.
Context {M R U : Type} `{HM : BpfMapLaws M} `{HR : PtRegsLaws R} `{HU : UserMemLaws U}.

(** C13. However the helper calls of concurrent probe hits interleave, and
    whatever fails, no hit waits for another: a thread with anything left to
    do can always make its next call; a schedule makes at most eleven calls
    for each hit; and one that can go no further has left no record behind
    in the ring buffer that was reserved and not submitted.  If nothing was
    lost on the way, the reader then has the events of every hit of every
    thread, as the hits give them one after the other. *)
Theorem concurrent_run_completes (k0 : kmaps M) (scripts : gmap Z (list (@hit R U))) ts c :
  (forall t sc, scripts !! t = Some sc -> Forall (fun h => hit_tid h = t) sc) ->
  recon_schedule ts (recon_start k0 scripts) = Some c ->
  (length ts <= 11 * msum (length <$> scripts))%nat /\
  (forall t th, c_threads c !! t = Some th -> ~ at_rest th -> is_Some (recon_step t c)) /\
  ((forall t, recon_step t c = None) ->
    quiet c /\ length (delivered (c_ring c)) = length (c_ring c) /\
    (c_lost c = false -> lossless k0 (hits c) = true ->
      (forall t sc, scripts !! t = Some sc -> hits_of t (hits c) = sc) /\
      delivered (c_ring c) = (run k0 (hits c)).2)).
Proof.
  intros Hsc Hs.
  destruct (schedule_completes _ _ _ _ hit_prog_balanced 10 hit_prog_within _ _ _ _ Hs) as (B1 & B2 & B3).
  split; [exact B1|]. split; [exact B2|]. intros Hend.
  assert (Hrest : forall t th, c_threads c !! t = Some th -> at_rest th).
  { intros t th Et. specialize (B2 t th Et). unfold recon_step in Hend. rewrite (Hend t) in B2.
    destruct th as [[|h todo] [a|]]; try by split. all: destruct B2 as [? ?]; [by intros [? ?]|done]. }
  split; [intros t th Et; apply (Hrest t th Et)|]. split; [by apply B3|]. intros Hlost Hl.
  destruct (schedule_ok k0 scripts ts c Hsc Hs Hlost Hl) as [_ C2 C3 _ C5 C6]. split.
  - intros t sc Hsct. destruct (c_threads c !! t) as [th|] eqn:Et; [|apply C6 in Et as [Et _]; congruence].
    destruct (C5 t th Et) as (sc' & Hsc' & Hok). destruct (Hrest t th Et) as [R1 R2].
    unfold thread_ok in Hok. rewrite R2, R1, app_nil_r in Hok. destruct Hok as [-> _]. congruence.
  - destruct (delivered_prefix _ _ C3) as [l El]. rewrite El. enough (l = []) as -> by by rewrite app_nil_r.
    apply length_zero_iff_nil. apply (f_equal length) in El. rewrite length_app, C2, B3 in El by done. lia.
Qed.
End Properties.

Lemma concurrent_run_completes_witness :
  match recon_schedule demo_turns (recon_start demo_maps demo_scripts) with
  | Some c => delivered (c_ring c) = (run demo_maps (hits c)).2 /\ length (delivered (c_ring c)) = 4%nat
  | None => False
  end.
Proof.
  destruct (recon_schedule demo_turns (recon_start demo_maps demo_scripts)) as [c|] eqn:E;
    [|vm_compute in E; discriminate].
  assert (Hc : match recon_schedule demo_turns (recon_start demo_maps demo_scripts) with
    | Some c => c_lost c = false /\ lossless demo_maps (hits c) = true /\
        all_at_rest c = true /\
        length (c_ring c) = 4%nat
    | None => False end) by (vm_compute; tauto).
  rewrite E in Hc. destruct Hc as (H1 & H2 & H3 & H4).
  destruct (concurrent_run_completes demo_maps demo_scripts demo_turns c) as (_ & _ & Hq).
  - intros t sc Hs. apply elem_of_list_to_map_2 in Hs. cbn [map] in Hs.
    apply list_elem_of_In in Hs. destruct Hs as [Hs|[Hs|[]]]; injection Hs as <- <-; repeat constructor.
  - exact E.
  - destruct Hq as (_ & Hd & Hq).
    + exact (all_at_rest_stops _ _ _ _ c H3).
    + split; [exact (proj2 (Hq H1 H2))|]. rewrite Hd. exact H4.
Defined.
