(* ===== verification/EnvOverlap.v ===== *)
(** * EnvOverlap: overlapping hits of the env probe

    The lookup of [seen] and its update are separate helper calls.  Between
    them other threads of the process find it unmarked: whatever the two hits
    are, they can both be probed in full. *)

From S2P Require Import Prelude CTypes Bpf Recon Wire EnvProbe Helpers Concurrent EnvRace Schedules.

(** ** A thread that runs while the others wait *)

Section Solo.
Context {W Ev St Hit : Type}.
Context (lookup_elem : St -> W -> Z -> option Z) (update_elem : St -> W -> Z -> Z -> St * Z).
Context (program : Hit -> prog W Ev) (reserves : Hit -> nat -> option Ev).

(** A reservation or an update of the program fails when it runs alone. *)
Fixpoint loses (h : Hit) (p : prog W Ev) (s : St) : bool :=
  match p with
  | Done => false
  | Reserve n k =>
      match reserves h n with
      | Some g => loses h (k (Some g)) s
      | None => true
      end
  | Lookup m key k => loses h (k (lookup_elem s m key)) s
  | Update m key v k => let '(s', rc) := update_elem s m key v in negb (rc =? 0) || loses h k s'
  | Submit _ k => loses h k s
  end.

Lemma run_schedule_app ts1 ts2 (c : machine W Ev St Hit) :
  run_schedule lookup_elem update_elem program reserves (ts1 ++ ts2) c =
  (c' ← run_schedule lookup_elem update_elem program reserves ts1 c;
   run_schedule lookup_elem update_elem program reserves ts2 c').
Proof.
  revert c. induction ts1 as [|t ts1 IH]; intros c; [done|]. cbn [app run_schedule].
  destruct (thread_step _ _ _ _ t c) as [c1|]; [|done]. exact (IH c1).
Qed.

(** The ring buffer without the slot the thread holds, the last one. *)
Definition ring_before (sl : option nat) (ring ring0 : list (slot Ev Hit)) : Prop :=
  match sl with
  | None => ring = ring0
  | Some i => exists h, ring = ring0 ++ [Slot h None] /\ i = length ring0
  end.

(** All these slots are submitted, with the records [es]. *)
Definition filled (xs : list (slot Ev Hit)) (es : list Ev) : Prop := map r_evt xs = map Some es.

Lemma filled_cons h e xs es : filled xs es -> filled (Slot h (Some e) :: xs) (e :: es).
Proof. unfold filled. cbn. by intros ->. Qed.

Lemma delivered_filled xs es : filled xs es -> delivered xs = es.
Proof.
  unfold filled. revert es. induction xs as [|[h o] xs IH]; intros [|e es] E; try done.
  cbn in E. injection E as -> E. cbn. f_equal. by apply IH.
Qed.

(** Running alone from here, the thread leaves the maps and submits the records
    its program has on its own, and no other thread moves. *)
Lemma solo (h : Hit) (p : prog W Ev) :
  forall (c : machine W Ev St Hit) t todo sl ring0,
  balanced (bool_decide (is_Some sl)) p -> ring_before sl (c_ring c) ring0 ->
  c_threads c !! t = Some (Thread todo (Some (Activity h p sl))) ->
  exists n c' xs, run_schedule lookup_elem update_elem program reserves (repeat t n) c = Some c' /\
    c_store c' = (interp lookup_elem update_elem reserves h p (c_store c)).1 /\
    c_ring c' = ring0 ++ xs /\ filled xs (interp lookup_elem update_elem reserves h p (c_store c)).2 /\
    c_threads c' = <[t := Thread todo None]> (c_threads c) /\
    c_lost c' = c_lost c || loses h p (c_store c).
Proof.
  induction p as [|i k IH|w key k IH|w key v k IH|e k IH]; intros c t todo sl ring0 Hb Hr Ht.
  - cbn in Hb. apply bool_decide_eq_false in Hb. destruct sl; [by destruct Hb|]. cbn in Hr.
    exists 1%nat, (Machine (c_store c) (c_ring c) (set_now c t todo None) (c_lost c)), [].
    cbn [repeat run_schedule]. unfold thread_step. rewrite Ht. cbn.
    rewrite app_nil_r, orb_false_r. by repeat split.
  - cbn in Hb. destruct Hb as (Hsl & Hs & Hn). apply bool_decide_eq_false in Hsl.
    destruct sl; [by destruct Hsl|]. cbn in Hr. cbn [interp loses]. destruct (reserves h i) as [g|] eqn:Eg.
    + destruct (IH (Some g) (Machine (c_store c) (c_ring c ++ [Slot h None])
        (set_now c t todo (Some (Activity h (k (Some g)) (Some (length (c_ring c)))))) (c_lost c)) t todo
        (Some (length (c_ring c))) ring0) as (n & c' & xs & E & E1 & E2 & E3 & E4 & E5).
      { apply Hs. }
      { exists h. cbn [c_ring]. by rewrite Hr. }
      { unfold set_now. cbn [c_threads]. by rewrite lookup_insert_eq. }
      exists (S n), c', xs. cbn [repeat run_schedule]. unfold thread_step at 1. rewrite Ht. cbn [mbind option_bind t_now t_todo].
      rewrite Eg. cbn [mbind option_bind]. split; [exact E|]. cbn [c_store c_threads c_lost] in *.
      unfold set_now in E4. rewrite insert_insert_eq in E4. done.
    + destruct (IH None (Machine (c_store c) (c_ring c)
        (set_now c t todo (Some (Activity h (k None) None))) true) t todo None ring0)
        as (n & c' & xs & E & E1 & E2 & E3 & E4 & E5); [exact Hn|exact Hr|unfold set_now; cbn [c_threads]; by rewrite lookup_insert_eq|].
      exists (S n), c', xs. cbn [repeat run_schedule]. unfold thread_step at 1. rewrite Ht. cbn [mbind option_bind t_now t_todo].
      rewrite Eg. cbn [mbind option_bind]. split; [exact E|]. cbn [c_store c_threads c_lost] in *.
      unfold set_now in E4. rewrite insert_insert_eq in E4. by rewrite orb_true_r.
  - cbn in Hb. cbn [interp loses]. set (r := lookup_elem (c_store c) w key) in *.
    destruct (IH r (Machine (c_store c) (c_ring c)
      (set_now c t todo (Some (Activity h (k r) sl))) (c_lost c)) t todo sl ring0)
      as (n & c' & xs & E & E1 & E2 & E3 & E4 & E5); [apply Hb|exact Hr|unfold set_now; cbn [c_threads]; by rewrite lookup_insert_eq|].
    exists (S n), c', xs. cbn [repeat run_schedule]. unfold thread_step at 1. rewrite Ht. cbn [mbind option_bind t_now t_todo].
    fold r. split; [exact E|]. cbn [c_store c_threads c_lost] in *.
    unfold set_now in E4. rewrite insert_insert_eq in E4. done.
  - cbn in Hb. cbn [interp loses]. destruct (update_elem (c_store c) w key v) as [st rc] eqn:Eu. cbn [fst].
    destruct (IH (Machine st (c_ring c)
      (set_now c t todo (Some (Activity h k sl))) (c_lost c || negb (rc =? 0))) t todo sl ring0)
      as (n & c' & xs & E & E1 & E2 & E3 & E4 & E5); [apply Hb|exact Hr|unfold set_now; cbn [c_threads]; by rewrite lookup_insert_eq|].
    exists (S n), c', xs. cbn [repeat run_schedule]. unfold thread_step at 1. rewrite Ht. cbn [mbind option_bind t_now t_todo].
    rewrite Eu. cbn [mbind option_bind]. split; [exact E|]. cbn [c_store c_threads c_lost] in *.
    unfold set_now in E4. rewrite insert_insert_eq in E4. by rewrite orb_assoc.
  - cbn in Hb. destruct Hb as [Hsl Hb]. apply bool_decide_eq_true in Hsl as [i Hsl]. subst sl.
    destruct Hr as (h0 & Hr & ->). cbn [interp loses].
    destruct (IH (Machine (c_store c) (ring0 ++ [Slot h0 (Some e)])
      (set_now c t todo (Some (Activity h k None))) (c_lost c)) t todo None (ring0 ++ [Slot h0 (Some e)]))
      as (n & c' & xs & E & E1 & E2 & E3 & E4 & E5); [exact Hb|done|unfold set_now; cbn [c_threads]; by rewrite lookup_insert_eq|].
    exists (S n), c', (Slot h0 (Some e) :: xs). cbn [repeat run_schedule]. unfold thread_step at 1. rewrite Ht. cbn [mbind option_bind t_now t_todo].
    rewrite Hr. replace (alter _ (length ring0) (ring0 ++ [Slot h0 None])) with (ring0 ++ [Slot h0 (Some e)]).
    2:{ clear. induction ring0 as [|x l IH]; cbn; [done|by rewrite <- IH]. }
    split; [exact E|]. cbn [c_store c_threads c_lost] in *.
    destruct (interp _ _ _ h k (c_store c)) as [s' es]. cbn [fst snd] in *.
    split; [exact E1|]. split; [by rewrite E2, <- app_assoc|]. split; [by apply filled_cons|].
    unfold set_now in E4. rewrite insert_insert_eq in E4. done.
Qed.
End Solo.

(** ** Two threads of one process *)

Section Overlap.
Context {M R U : Type} `{HM : BpfMapLaws M} `{HR : PtRegsLaws R} `{HU : UserMemLaws U}.

(** What a program does once it has found the process unmarked. *)
Definition env_rest (h : env_event R U) : prog unit dump_t :=
  match env_prog h with Lookup _ _ k => k None | _ => Done end.

(** The records a hit submits when it finds its process unmarked. *)
Definition records_of (h : env_event R U) : list dump_t :=
  match h with
  | Lnl v => emit_two v 1 1 (PT_REGS_PARM (eh_regs v) 2) 0 (PT_REGS_PARM (eh_regs v) 1)
  | Cnt v => emit_two v 2 0 (PT_REGS_PARM (eh_regs v) 1) 1 (PT_REGS_PARM (eh_regs v) 2)
  end.

(** There is room in the ring buffer for both records. *)
Definition roomy (h : env_event R U) : Prop := forall n, eh_room (ev_hit h) n = true.

(** One hit each. *)
Definition two_threads (t1 : Z) (h1 : env_event R U) (t2 : Z) (h2 : env_event R U) : gmap Z (list (env_event R U)) :=
  {[t1 := [h1]; t2 := [h2]]}.

Lemma env_step_records (s : M) (h : env_event R U) :
  map_lookup_elem s (ev_pid h) = None -> (env_step s h).2 = records_of h.
Proof. intros E. destruct h as [v|v]; cbn in *; unfold up_lnl, up_cnt; by rewrite E. Qed.

Lemma env_rest_alone (h : env_event R U) (s : M) :
  interp seen_lookup seen_update env_reserves h (env_rest h) s = ((map_update_elem s (ev_pid h) 1).1, records_of h).
Proof.
  destruct h as [v|v]; cbn [env_rest env_prog up_lnl_prog up_cnt_prog].
  - rewrite (emit_prog_alone (Lnl v)), (emit_prog_alone (Lnl v)). cbn [interp ev_hit]. by rewrite app_nil_r.
  - rewrite (emit_prog_alone (Cnt v)), (emit_prog_alone (Cnt v)). cbn [interp ev_hit]. by rewrite app_nil_r.
Qed.

Lemma emit_prog_loses (h : env_event R U) n site reg cand k (s : M) :
  roomy h ->
  loses seen_lookup seen_update env_reserves h (emit_prog (ev_hit h) n site reg cand k) s =
  loses seen_lookup seen_update env_reserves h k s.
Proof.
  intros Hr. unfold emit_prog. destruct (cand <? 0x10000); [done|].
  destruct (try_read_word _ cand) as [table|]; [|done].
  destruct (_ || _); [done|]. destruct (try_read_word _ _) as [ver|]; [|done].
  destruct (ver <? 0x10000); [done|]. cbn [loses]. unfold env_reserves. by rewrite Hr.
Qed.

Lemma env_rest_loses (h : env_event R U) (s : M) :
  roomy h -> (map_update_elem s (ev_pid h) 1).2 = 0 ->
  loses seen_lookup seen_update env_reserves h (env_rest h) s = false.
Proof.
  intros Hr Hu. assert (E : loses (Ev := dump_t) seen_lookup seen_update env_reserves h (Update tt (ev_pid h) 1 Done) s = false).
  { cbn [loses]. unfold seen_update. destruct (map_update_elem s (ev_pid h) 1) as [s' rc]. cbn in Hu. by subst rc. }
  destruct h as [v|v]; cbn [env_rest env_prog up_lnl_prog up_cnt_prog].
  - rewrite (emit_prog_loses (Lnl v)), (emit_prog_loses (Lnl v)) by done. exact E.
  - rewrite (emit_prog_loses (Cnt v)), (emit_prog_loses (Cnt v)) by done. exact E.
Qed.

Lemma env_rest_balanced (h : env_event R U) : balanced false (env_rest h).
Proof. pose proof (env_prog_balanced h) as Hb. destruct h as [v|v]; exact (Hb None). Qed.

(** A thread takes its hit and looks its process up. *)
Lemma take_and_look (c : machine unit dump_t M (env_event R U)) t h todo :
  c_threads c !! t = Some (Thread (h :: todo) None) -> map_lookup_elem (c_store c) (ev_pid h) = None ->
  env_schedule [t; t] c =
  Some (Machine (c_store c) (c_ring c) (<[t := Thread todo (Some (Activity h (env_rest h) None))]> (c_threads c)) (c_lost c)).
Proof.
  intros Ht Hs. unfold env_schedule. cbn [run_schedule]. unfold thread_step at 2. rewrite Ht.
  cbn [mbind option_bind t_now t_todo]. unfold thread_step at 1, set_now. cbn [c_threads].
  rewrite lookup_insert_eq. cbn [mbind option_bind t_now t_todo].
  destruct h as [v|v]; cbn [env_prog]; unfold up_lnl_prog, up_cnt_prog, seen_lookup; cbn [c_store c_ring c_lost ev_pid] in *;
    rewrite Hs; unfold set_now; cbn [c_threads]; by rewrite insert_insert_eq.
Qed.

(** C27. Two hits of one process can both be probed.  Whatever two hits of
    one unmarked process two threads of it take, with room for their records
    and every update a success, there is an interleaving of their helper calls
    after which each has submitted all it would submit alone, and the loader
    gets the records of both; one after the other, in either order, only the
    first of them submits anything. *)
Theorem env_probe_races (seen : M) t1 t2 (h1 h2 : env_event R U) :
  t1 <> t2 -> ev_pid h1 = ev_pid h2 -> map_lookup_elem seen (ev_pid h1) = None ->
  (map_update_elem seen (ev_pid h1) 1).2 = 0 -> roomy h1 -> roomy h2 ->
  (exists ts c,
    env_schedule ts (env_start seen (two_threads t1 h1 t2 h2)) = Some c /\ c_lost c = false /\ quiet c /\
    delivered (c_ring c) = records_of h1 ++ records_of h2) /\
  (env_run seen [h1; h2]).2 = records_of h1 /\ (env_run seen [h2; h1]).2 = records_of h2.
Proof.
  intros Ht Hp Hs Hu R1 R2. split.
  2:{ assert (Hseq : forall a b : env_event R U, ev_pid a = ev_pid b -> map_lookup_elem seen (ev_pid a) = None ->
        (map_update_elem seen (ev_pid a) 1).2 = 0 -> (env_run seen [a; b]).2 = records_of a).
      { intros a b Hab Ha Hua. cbn [env_run].
        pose proof (env_step_fst seen a Ha) as Ef. pose proof (env_step_records seen a Ha) as Er.
        destruct (env_step seen a) as [s1 o1]. cbn [fst snd] in Ef, Er. subst s1 o1.
        rewrite env_step_seen; [cbn [snd]; by rewrite !app_nil_r|].
        destruct (map_update_elem seen (ev_pid a) 1) as [s1 rc] eqn:Eu. cbn in Hua. subst rc. cbn [fst].
        rewrite <- Hab. by rewrite (update_same _ _ _ _ Eu). }
      split; apply Hseq; congruence. }
  destruct (map_update_elem seen (ev_pid h1) 1) as [s1 rc] eqn:Eu. cbn in Hu. subst rc.
  set (c0 := env_start seen (two_threads t1 h1 t2 h2)).
  assert (T1 : c_threads c0 !! t1 = Some (Thread [h1] None)).
  { unfold c0, env_start, start, two_threads. cbn [c_threads]. by rewrite lookup_fmap, lookup_insert_eq. }
  pose proof (take_and_look c0 t1 h1 [] T1 Hs) as E1. set (c1 := Machine _ _ _ _) in E1.
  assert (T2 : c_threads c1 !! t2 = Some (Thread [h2] None)).
  { unfold c1. cbn [c_threads]. rewrite lookup_insert_ne by done.
    unfold c0, env_start, start, two_threads. cbn [c_threads].
    by rewrite lookup_fmap, lookup_insert_ne, lookup_singleton_eq by done. }
  pose proof (take_and_look c1 t2 h2 [] T2 ltac:(rewrite <- Hp; exact Hs)) as E2. set (c2 := Machine _ _ _ _) in E2.
  assert (A1 : c_threads c2 !! t1 = Some (Thread [] (Some (Activity h1 (env_rest h1) None)))).
  { unfold c2. cbn [c_threads]. rewrite lookup_insert_ne by done. unfold c1. cbn [c_threads]. by rewrite lookup_insert_eq. }
  destruct (solo seen_lookup seen_update env_prog env_reserves h1 (env_rest h1) c2 t1 [] None []
    (env_rest_balanced h1) eq_refl A1) as (n1 & c3 & xs1 & E3 & S3 & G3 & F3 & H3 & L3).
  assert (A2 : c_threads c3 !! t2 = Some (Thread [] (Some (Activity h2 (env_rest h2) None)))).
  { rewrite H3, lookup_insert_ne by done. unfold c2. cbn [c_threads]. by rewrite lookup_insert_eq. }
  destruct (solo seen_lookup seen_update env_prog env_reserves h2 (env_rest h2) c3 t2 [] None (c_ring c3)
    (env_rest_balanced h2) eq_refl A2) as (n2 & c4 & xs2 & E4 & S4 & G4 & F4 & H4 & L4).
  rewrite env_rest_alone in S3, F3, F4. change (c_store c2) with seen in *. rewrite Eu in S3. cbn [fst snd] in *.
  exists ([t1; t1] ++ [t2; t2] ++ repeat t1 n1 ++ repeat t2 n2), c4. split; [|split; [|split]].
  - unfold env_schedule in *. rewrite run_schedule_app, E1. cbn [mbind option_bind].
    rewrite run_schedule_app, E2. cbn [mbind option_bind]. rewrite run_schedule_app, E3. exact E4.
  - rewrite L4, L3. unfold c2, c1, c0. cbn [c_lost env_start start orb].
    rewrite env_rest_loses; [|done|by rewrite Eu]. cbn [orb]. apply env_rest_loses; [done|]. rewrite S3.
    apply update_present. rewrite <- Hp, (update_same _ _ _ _ Eu). eauto.
  - intros t th. rewrite H4, H3. intros Hth. apply lookup_insert_Some in Hth as [[_ <-]|[N2 Hth]]; [done|].
    apply lookup_insert_Some in Hth as [[_ <-]|[N1 Hth]]; [done|]. unfold c2, c1, c0, env_start, start, two_threads in Hth.
    cbn [c_threads] in Hth. rewrite !lookup_insert_ne in Hth by done. rewrite lookup_fmap, lookup_insert_ne, lookup_singleton_ne in Hth by done.
    done.
  - rewrite G4, G3. cbn [app]. apply delivered_filled. unfold filled in *. by rewrite !map_app, F3, F4.
Qed.
End Overlap.

(** ** Example *)

(** Both argument registers hold an env: four records of one process. *)
Definition demo_race_hit (tid : Z) : env_hit user_pt_regs byte_mem :=
  EnvHit (77 * 2 ^ 32 + tid) (demo_regs 0x10 [0x20000; 0x20000])
    (mem_of_words [(0x20000, 0x30000); (0x30030, 0x7000001234)]) (fun _ => true).

Lemma env_probe_races_witness :
  exists ts c,
    env_schedule ts (env_start demo_seen (two_threads 77 (Lnl (demo_race_hit 77)) 78 (Cnt (demo_race_hit 78)))) = Some c /\
    c_lost c = false /\ map d_pid (delivered (c_ring c)) = [77; 77; 77; 77].
Proof.
  destruct (env_probe_races demo_seen 77 78 (Lnl (demo_race_hit 77)) (Cnt (demo_race_hit 78)))
    as ((ts & c & E & L & _ & D) & _).
  - discriminate.
  - reflexivity.
  - reflexivity.
  - reflexivity.
  - intros n. reflexivity.
  - intros n. reflexivity.
  - exists ts, c. split; [exact E|]. split; [exact L|]. rewrite D. vm_compute. reflexivity.
Defined.
