(* ===== verification/Env.v ===== *)
(** * Env: loader/env.go

    [runEnv]: the first record of the env probe whose slots mostly point into
    libart's code is written out as a slot file.  The file is proved to load
    back through [offsetsFromFile]. *)

From S2P Require Import Prelude GoStr Strconv Json Target Schema Offsets CTypes Bpf Recon Wire.

(** The test [v >= lo && v < hi]. *)
Definition in_exec (la : libart) (v : Z) : bool := (la_execLo la <=? v) && (v <? la_execHi la).

(** [in]: how many slots point into the executable range. *)
Definition count_in (la : libart) (slots : list Z) : nat := length (List.filter (in_exec la) slots).

(** [float64(in)/float64(len(d.Slots)) < 0.5]: the quotient of two small
    integers is below one half in floating point exactly when it is in Q. *)
Definition mostly_out (la : libart) (slots : list Z) : bool :=
  2 * Z.of_nat (count_in la slots) <? Z.of_nat (length slots).

Definition env_keys (la : libart) (slots : list Z) : list nat :=
  List.filter (fun i => in_exec la (nth i slots 0)) (seq 0 (length slots)).

(** The loop over [keys] that writes the members. *)
Fixpoint env_members (la : libart) (slots : list Z) (n : nat) (keys : list nat) : string :=
  match keys with
  | [] => ""
  | i :: keys' =>
      (if (0 <? n)%nat then "," ++s String.String "010" "" else "") ++s
      ("  " ++s quoted (FormatInt (Z.of_nat i) 10) ++s ": " ++s
       quoted (hex0x (u64 (nth i slots 0 - la_base la)))) ++s
      env_members la slots (S n) keys'
  end.

Definition env_file (la : libart) (slots : list Z) : string :=
  "{" ++s String.String "010" "" ++s env_members la slots 0 (env_keys la slots) ++s
  String.String "010" "" ++s "}" ++s String.String "010" "".

(** One sample: the file to write, if it is accepted; [maps] gives the maps
    file of a pid.  [libartBase] converts the pid to [int]. *)
Definition env_sample (maps : Z -> option string) (raw : list byte) : option (string * nat) :=
  match read_dump raw with
  | None => None
  | Some d =>
      match libartBase (D_Pid d) (maps (D_Pid d)) with
      | inl _ => None
      | inr la =>
          if mostly_out la (D_Slots d) then None
          else Some (env_file la (D_Slots d), length (env_keys la (D_Slots d)))
      end
  end.

(** The read loop: the first accepted sample ends it. *)
Fixpoint runEnv (maps : Z -> option string) (samples : list (list byte)) : option (string * nat) :=
  match samples with
  | [] => None
  | raw :: rest =>
      match env_sample maps raw with
      | Some r => Some r
      | None => runEnv maps rest
      end
  end.

(** ** Lemmas *)

Definition env_member (la : libart) (slots : list Z) (i : nat) : string * string :=
  (FormatUint (Z.of_nat i) 10, hex0x (u64 (nth i slots 0 - la_base la))).

Lemma env_members_print la slots n keys :
  keys <> [] ->
  env_members la slots n keys =
  (if (0 <? n)%nat then "," ++s String.String "010" "" else "") ++s
  print_members (map (env_member la slots) keys).
Proof.
  revert n. induction keys as [|i keys IH]; intros n Hne; [done|]. cbn [env_members map].
  f_equal. unfold env_member at 1. cbn [print_members].
  assert (FormatInt (Z.of_nat i) 10 = FormatUint (Z.of_nat i) 10) as ->.
  { unfold FormatInt. destruct (Z.ltb_spec (Z.of_nat i) 0); [lia|done]. }
  destruct keys as [|j keys].
  - cbn [env_members map]. unfold quoted, dquote. rewrite ?sapp_assoc. cbn [String.append].
    rewrite ?sapp_assoc. cbn [String.append]. by rewrite ?sapp_assoc, ?sapp_nil_r.
  - rewrite IH by done. change ((0 <? S n)%nat) with true. cbv iota. cbn [map].
    unfold quoted, dquote. rewrite ?sapp_assoc. cbn [String.append].
    repeat (rewrite ?sapp_assoc; cbn [String.append]). done.
Qed.

Lemma digit_string_clean ds :
  Forall (fun d => 0 <= d < 36) ds -> sall clean_char (digit_string ds "") = true.
Proof.
  intros Hall. induction Hall as [|d ds Hd Hall IH]; [done|]. cbn [digit_string sall].
  rewrite IH, andb_true_r. unfold clean_char, is_ascii_space. rewrite code_digit_char by done.
  destruct (Z.ltb_spec d 10); case_Z; done.
Qed.

Lemma hex0x_clean v : 0 <= v -> sall clean_char (hex0x v) = true.
Proof.
  intros Hv. unfold hex0x. rewrite sall_app. destruct (FormatUint_spec v 16 ltac:(lia) Hv) as (ds & -> & Hall & _).
  rewrite digit_string_clean; [done|]. eapply Forall_impl; [exact Hall|simpl; lia].
Qed.

Lemma env_member_plain la slots i : plain_pair (env_member la slots i).
Proof.
  split; cbn [env_member fst snd].
  - apply FormatUint_plain; lia.
  - unfold hex0x. rewrite sall_app, FormatUint_plain; [done|lia|]. apply wrap_range. lia.
Qed.

(** An entry of the file, loaded. *)
Lemma load_env_member la slots i :
  Z.of_nat i < 2 ^ 32 ->
  load_entry (env_member la slots i) =
  if Z.of_nat i <? 233 then Some (u64 (nth i slots 0 - la_base la), Z.of_nat i) else None.
Proof.
  intros Hz. unfold load_entry, env_member. cbn [fst snd].
  pose proof (Atoi_FormatInt (Z.of_nat i) ltac:(lia)) as Ha. unfold FormatInt in Ha.
  destruct (Z.ltb_spec (Z.of_nat i) 0); [lia|]. rewrite Ha.
  assert (Hr : fits 64 (u64 (nth i slots 0 - la_base la))) by (apply wrap_range; lia).
  rewrite TrimSpace_clean by (apply hex0x_clean; apply Hr). rewrite ParseUint_hex0x by done.
  rewrite length_jniSchema. change (Z.of_nat 233) with 233.
  destruct (Z.ltb_spec (Z.of_nat i) 0), (Z.leb_spec 233 (Z.of_nat i)), (Z.ltb_spec (Z.of_nat i) 233); try lia; done.
Qed.

Lemma add_pairs_lookup (l : list (string * string)) m k v :
  NoDup l.*1 -> (forall p, In p l -> m !! p.1 = None) ->
  fold_left add_pair l m !! k = Some v <-> m !! k = Some v \/ In (k, v) l.
Proof.
  revert m. induction l as [|[k0 v0] l IH]; intros m Hnd Hm; cbn [fold_left]; [cbn; tauto|].
  cbn in Hnd. apply NoDup_cons in Hnd as [Hnot Hnd]. unfold add_pair at 2. cbn [fst snd].
  rewrite IH; [|done|].
  - destruct (String.string_dec k0 k) as [->|Hne].
    + rewrite lookup_insert_eq. pose proof (Hm (k, v0) (or_introl eq_refl)) as Hnone. cbn in Hnone.
      rewrite Hnone. split.
      * intros [[= ->]|Hin]; [right; by left|right; by right].
      * intros [?|[[= ->]|Hin]]; [done|by left|by right].
    + rewrite lookup_insert_ne by done. split.
      * intros [?|?]; [by left|right; by right].
      * intros [?|[[= ? _]|?]]; [by left|done|by right].
  - intros p Hp. rewrite lookup_insert_ne; [apply Hm; by right|]. intros E. destruct Hnot. rewrite E.
    apply list_elem_of_In. by apply in_map.
Qed.

Lemma env_keys_In la slots i : In i (env_keys la slots) <-> (i < length slots)%nat /\ in_exec la (nth i slots 0) = true.
Proof. unfold env_keys. rewrite filter_In, in_seq. intuition lia. Qed.

Lemma env_members_NoDup la slots :
  Z.of_nat (length slots) < 2 ^ 32 -> NoDup (map (env_member la slots) (env_keys la slots)).*1.
Proof.
  intros Hl. rewrite <- list_fmap_compose. apply NoDup_fmap_2_strong.
  - intros i j Hi Hj E. apply list_elem_of_In, env_keys_In in Hi, Hj. cbn in E.
    assert (forall n, (n < length slots)%nat -> fits 64 (Z.of_nat n)).
    { intros n Hn. unfold fits. lia. }
    apply FormatUint_inj in E; [lia|lia|apply H; apply Hi|apply H; apply Hj].
  - unfold env_keys. apply NoDup_ListNoDup, List.NoDup_filter, seq_NoDup.
Qed.

(** What the file decodes to. *)
Lemma Unmarshal_env_file la slots :
  Z.of_nat (length slots) < 2 ^ 32 -> env_keys la slots <> [] ->
  exists m, Unmarshal (env_file la slots) = Some m /\
    forall k v, m !! k = Some v <-> In (k, v) (map (env_member la slots) (env_keys la slots)).
Proof.
  intros Hl Hne. pose proof (env_members_NoDup la slots Hl) as Hnd.
  unfold env_file. rewrite env_members_print by done. cbn [Nat.ltb Nat.leb].
  set (l := map (env_member la slots) (env_keys la slots)) in *.
  assert (Hl2 : exists k v l', l = (k, v) :: l').
  { unfold l. destruct (env_keys la slots) as [|i ks]; [done|]. cbn. eauto. }
  destruct Hl2 as (k & v & l' & El).
  assert (Hplain : Forall plain_pair l).
  { unfold l. apply Forall_map, Forall_true. intros. apply env_member_plain. }
  exists (fold_left add_pair l ∅). split.
  - rewrite El in *. exact (Unmarshal_print k v l' Hplain).
  - intros k' v'. rewrite add_pairs_lookup; [|done|intros; apply lookup_empty].
    rewrite lookup_empty. intuition congruence.
Qed.

Lemma length_D_Slots raw d : read_dump raw = Some d -> length (D_Slots d) = envSlots.
Proof.
  unfold read_dump. destruct (_ <? _); [done|].
  assert (Hc : length (go_cells type_envDump 0) = 246%nat) by (vm_compute; reflexivity).
  revert Hc. generalize (go_cells type_envDump 0). intros cs Hc [= <-].
  unfold dump_of_scalars. cbn [D_Slots]. rewrite length_take, length_drop, length_map, Hc. done.
Qed.

Lemma length_env_keys la slots : length (env_keys la slots) = count_in la slots.
Proof.
  unfold env_keys, count_in. induction slots as [|v slots IH] using rev_ind; [done|].
  rewrite length_app, seq_app, !List.filter_app, !length_app. cbn [length]. f_equal.
  - rewrite <- IH. f_equal. apply filter_ext_in. intros i Hi. apply in_seq in Hi. by rewrite app_nth1 by lia.
  - cbn. rewrite app_nth2, Nat.sub_diag by lia. cbn [nth]. by destruct (in_exec la v).
Qed.

Lemma load_entries_sound l off s :
  load_entries l !! off = Some s -> In (off, s) (omap load_entry l).
Proof.
  unfold load_entries. intros E. apply put_offsets_lookup in E as [E|E]; [by rewrite lookup_empty in E|done].
Qed.

Lemma load_entries_complete l off s :
  In (off, s) (omap load_entry l) -> is_Some (load_entries l !! off).
Proof. intros Hin. apply put_offsets_dom. right. eauto. Qed.

(** Loading the file of a table gives the table's slots. *)
Lemma env_file_loads la slots (iter : gmap string string -> list (string * string)) :
  (forall m, iter m ≡ₚ map_to_list m) ->
  Z.of_nat (length slots) < 2 ^ 32 -> env_keys la slots <> [] ->
  exists offs, offsetsFromFile iter (Some (env_file la slots)) = inr offs /\
    (forall off s, offs !! off = Some s -> 0 <= s < 233 /\ (Z.to_nat s < length slots)%nat /\
       in_exec la (nth (Z.to_nat s) slots 0) = true /\ off = u64 (nth (Z.to_nat s) slots 0 - la_base la)) /\
    (forall i, (i < length slots)%nat -> (i < 233)%nat -> in_exec la (nth i slots 0) = true ->
       is_Some (offs !! u64 (nth i slots 0 - la_base la))).
Proof.
  intros Hiter Hl Hne. destruct (Unmarshal_env_file la slots Hl Hne) as (m & Em & Hm).
  assert (Hin : forall p, In p (iter m) <-> In p (map (env_member la slots) (env_keys la slots))).
  { intros [k v]. rewrite <- Hm, <- list_elem_of_In, (Hiter m). apply elem_of_map_to_list. }
  unfold offsetsFromFile. rewrite Em. exists (load_entries (iter m)). split; [done|]. split.
  - intros off s E. apply load_entries_sound in E. apply list_elem_of_In, list_elem_of_omap in E as (p & Hp & E).
    apply list_elem_of_In, Hin, in_map_iff in Hp as (i & <- & Hi). apply env_keys_In in Hi as [Hi Hx].
    rewrite load_env_member in E by lia. destruct (Z.ltb_spec (Z.of_nat i) 233); [|done].
    injection E as <- <-. rewrite Nat2Z.id. split; [lia|]. done.
  - intros i Hi H233 Hx. apply (load_entries_complete _ _ (Z.of_nat i)).
    apply list_elem_of_In, list_elem_of_omap. exists (env_member la slots i). split.
    + apply list_elem_of_In, Hin, in_map, env_keys_In. done.
    + rewrite load_env_member by lia. destruct (Z.ltb_spec (Z.of_nat i) 233); [done|lia].
Qed.

Lemma runEnv_sound maps samples r :
  runEnv maps samples = Some r -> exists raw, In raw samples /\ env_sample maps raw = Some r.
Proof.
  induction samples as [|raw rest IH]; [done|]. cbn [runEnv]. destruct (env_sample maps raw) eqn:E.
  - intros [= ->]. exists raw. split; [by left|done].
  - intros H. destruct (IH H) as (raw' & ? & ?). exists raw'. split; [by right|done].
Qed.

(** The file written for an accepted sample, loaded. *)
Lemma accepted_sample_loads maps raw text n (iter : gmap string string -> list (string * string)) :
  (forall m, iter m ≡ₚ map_to_list m) -> env_sample maps raw = Some (text, n) ->
  exists d la offs, read_dump raw = Some d /\
    libartBase (D_Pid d) (maps (D_Pid d)) = inr la /\
    n = count_in la (D_Slots d) /\ (envSlots <= 2 * n)%nat /\
    offsetsFromFile iter (Some text) = inr offs /\
    (forall off s, offs !! off = Some s -> 0 <= s < 233 /\
       in_exec la (nth (Z.to_nat s) (D_Slots d) 0) = true /\
       off = u64 (nth (Z.to_nat s) (D_Slots d) 0 - la_base la)) /\
    (forall i, (i < 233)%nat -> in_exec la (nth i (D_Slots d) 0) = true ->
       is_Some (offs !! u64 (nth i (D_Slots d) 0 - la_base la))).
Proof.
  intros Hiter E. unfold env_sample in E.
  destruct (read_dump raw) as [d|] eqn:Ed; [|done].
  destruct (libartBase (D_Pid d) (maps (D_Pid d))) as [|la] eqn:El; [done|].
  destruct (mostly_out la (D_Slots d)) eqn:Em; [done|]. injection E as <- <-.
  pose proof (length_D_Slots raw d Ed) as Hlen. unfold mostly_out in Em. rewrite Hlen in Em.
  apply Z.ltb_ge in Em. unfold envSlots in *.
  destruct (env_file_loads la (D_Slots d) iter Hiter) as (offs & Eo & Hs & Hc); [rewrite Hlen; lia| |].
  { intros Hn. pose proof (length_env_keys la (D_Slots d)) as Hk. rewrite Hn in Hk. cbn in Hk. lia. }
  exists d, la, offs. rewrite length_env_keys.
  split; [done|]. split; [done|]. split; [done|]. split; [lia|]. split; [done|].
  split; [|intros i Hi; apply Hc; lia]. intros off s Hos. destruct (Hs off s Hos) as (? & _ & ? & ?). done.
Qed.

(** ** Properties *)

(** What [jniprobe env] writes, [--offsets] reads back: when [runEnv] writes
    a file, it comes from a received record at least half of whose slots
    point into libart's code, the count it reports is the number of those
    slots, and [offsetsFromFile] accepts the file, in whatever order Go
    iterates the decoded map: every offset it holds is slot - base of its
    slot, and every schema slot that points into the code has an offset. *)
Theorem env_file_round_trip maps samples text n (iter : gmap string string -> list (string * string)) :
  (forall m, iter m ≡ₚ map_to_list m) -> runEnv maps samples = Some (text, n) ->
  exists raw d la offs, In raw samples /\ read_dump raw = Some d /\
    libartBase (D_Pid d) (maps (D_Pid d)) = inr la /\
    n = count_in la (D_Slots d) /\ (envSlots <= 2 * n)%nat /\
    offsetsFromFile iter (Some text) = inr offs /\
    (forall off s, offs !! off = Some s -> 0 <= s < 233 /\
       in_exec la (nth (Z.to_nat s) (D_Slots d) 0) = true /\
       off = u64 (nth (Z.to_nat s) (D_Slots d) 0 - la_base la)) /\
    (forall i, (i < 233)%nat -> in_exec la (nth i (D_Slots d) 0) = true ->
       is_Some (offs !! u64 (nth i (D_Slots d) 0 - la_base la))).
Proof.
  intros Hiter E. apply runEnv_sound in E as (raw & Hin & E).
  destruct (accepted_sample_loads maps raw text n iter Hiter E) as (d & la & offs & Hrest).
  by exists raw, d, la, offs.
Qed.

(** ** Examples *)

Definition demo_maps_file : string :=
  "7000000000-7000100000 r-xp 00000000 fe:00 123 /apex/com.android.art/lib64/libart.so".

Definition demo_raw : list byte := raw_dump (fun _ => zero_byte) demo_dump.

Lemma env_file_round_trip_witness :
  exists text n, runEnv (fun _ => Some demo_maps_file) [demo_raw] = Some (text, n) /\ n = 240%nat /\
    exists offs, offsetsFromFile map_to_list (Some text) = inr offs /\ is_Some (offs !! 0x2000).
Proof.
  destruct (runEnv (fun _ => Some demo_maps_file) [demo_raw]) as [[text n]|] eqn:E;
    [|vm_compute in E; discriminate].
  destruct (env_file_round_trip (fun _ => Some demo_maps_file) [demo_raw] text n map_to_list ltac:(reflexivity) E)
    as (raw & d & la & offs & [<-|[]] & Ed & El & En & _ & Eo & _ & Hc).
  exists text, n. split; [reflexivity|].
  assert (Hd : read_dump demo_raw = Some (go_dump demo_dump)) by (vm_compute; reflexivity).
  rewrite Hd in Ed. injection Ed as <-.
  assert (Hl : libartBase 41 (Some demo_maps_file) = inr (Libart 0x7000000000 0x7000000000 0x7000100000))
    by (vm_compute; reflexivity).
  cbn [go_dump D_Pid demo_dump d_pid] in El. rewrite Hl in El. injection El as <-.
  split; [rewrite En; vm_compute; reflexivity|]. exists offs. split; [exact Eo|].
  exact (Hc 6%nat ltac:(lia) ltac:(vm_compute; reflexivity)).
Defined.
