(* ===== verification/EnvSession.v ===== *)
(** * EnvSession: [jniprobe env] from the probes to the tracer

    [runEnv] of loader/env.go as a whole, with the answers of the kernel as
    arguments, behind the concurrent programs of bpf/envprobe.bpf.c and
    before the tracer that loads the file it writes. *)

From S2P Require Import Prelude GoStr Strconv Json Target Schema Offsets CTypes Bpf Recon Wire EnvProbe Helpers.
From S2P Require Import EnvRace Schedules Env.

(** What the kernel answers: whether the BPF objects load and libart opens, the
    links of the two probes, the ring buffer's reader, the writing of the
    file. *)
Record env_kernel := EnvKernel {
  ek_loads : bool;
  ek_lnl : option Z;
  ek_cnt : option Z;
  ek_reader : bool;
  ek_writes : bool
}.

(** How the process ends: by [fatal], or at the end of [runEnv] with what it has
    written and the links its deferred calls close, the last one first. *)
Inductive env_outcome :=
| EnvExits (printed : list string) (code : Z)
| EnvEnds (printed : list string) (file : option string) (closed : list Z).

Definition attached_line : string :=
  "[+] env probe attached; trigger an app load (e.g. `am get-current-user`)".

Definition env_out : string := "/data/local/tmp/jni_offsets.json".

Definition written_line (n : nat) : string :=
  "[+] " ++s FormatInt (Z.of_nat n) 10 ++s " slots written to " ++s env_out.

(** [samples] are the records read until the reader is closed. *)
Definition runEnv_session (k : env_kernel) (maps : Z -> option string) (samples : list (list byte)) : env_outcome :=
  if negb (ek_loads k) then EnvExits [] 1
  else
    match ek_lnl k with
    | None => EnvExits [] 1
    | Some lnl =>
        let closed := (match ek_cnt k with Some cnt => [cnt] | None => [] end) ++ [lnl] in
        if negb (ek_reader k) then EnvExits [attached_line] 1
        else
          match runEnv maps samples with
          | None => EnvEnds [attached_line] None closed
          | Some (text, n) =>
              if ek_writes k then EnvEnds [attached_line; written_line n] (Some text) closed
              else EnvExits [attached_line] 1
          end
    end.

(** The samples carry these records, over whatever the memory held. *)
Definition carries (d : dump_t) (raw : list byte) : Prop := exists old, raw = raw_dump old d.

(** ** Lemmas *)

Lemma carries_all old ds : Forall2 carries ds (map (raw_dump old) ds).
Proof. induction ds as [|d ds IH]; cbn [map]; constructor; [by exists old|done]. Qed.

Section Genuine.
Context {M R U : Type} `{HM : BpfMapLaws M} `{HR : PtRegsLaws R} `{HU : UserMemLaws U}.

(** A genuine record crosses the ring buffer intact. *)
Lemma genuine_wf (h : env_event R U) d : genuine h d -> wf_dump d.
Proof.
  intros (E1 & E2 & E3 & E4 & E5 & _ & _ & E8 & _ & E10).
  assert (Hl : length (table_slots (eh_umem (ev_hit h)) (d_table d)) = NSLOTS)
    by (unfold table_slots; by rewrite length_map, length_seq).
  split; [by rewrite E10|]. apply in_cell_widths.
  change (map _ (cells struct_dump_t 0)) with
    ([(4%nat, false); (4%nat, false); (4%nat, false); (4%nat, false); (8%nat, false); (8%nat, false)] ++
     repeat (8%nat, false) NSLOTS).
  unfold dump_scalars. apply Forall2_app.
  - assert (fits 32 (d_pid d)) by (rewrite E1; destruct h; apply wrap_range; lia).
    assert (fits 32 (d_site d)) by (rewrite E3; unfold fits; destruct h; lia).
    assert (fits 32 (d_reg d)) by (unfold fits; lia).
    assert (fits 32 (d_pad d)) by (unfold fits; lia).
    assert (fits 64 (d_env d)) by (rewrite E5; apply parm_word).
    assert (fits 64 (d_table d)) by (unfold fits; lia).
    repeat (constructor; [assumption|]). constructor.
  - rewrite E10. apply Forall2_repeat; [done|]. unfold table_slots. apply Forall_map, Forall_true.
    intros i. apply read_word_range.
Qed.

Lemma nth_table_slots (u : U) table i :
  (i < NSLOTS)%nat -> nth i (table_slots u table) 0 = read_word u (table + Z.of_nat i * 8).
Proof.
  intros Hi. unfold table_slots. set (f := fun i => read_word u (table + Z.of_nat i * 8)).
  rewrite (nth_indep _ 0 (f 0%nat)) by by rewrite length_map, length_seq.
  rewrite map_nth, seq_nth by done. done.
Qed.

End Genuine.

(** ** Properties *)

Section Properties.
Context {M R U : Type} `{HM : BpfMapLaws M} `{HR : PtRegsLaws R} `{HU : UserMemLaws U}.

(** C14. [jniprobe env] and the tracer, end to end.  Let the threads of any
    processes hit the probes with their helper calls interleaved in any way;
    let [runEnv] read any beginning of what the ring buffer delivers.  If it
    ends with a file, then it found a process in which one of the hits had an
    env in an argument register; at least half of the 240 words of that env's
    function table point into the process's libart code, and their number is
    the one it prints; and the tracer loads the file: the offset it holds for
    a slot is the table's word for that slot less the base of libart, and
    every slot the schema knows whose word points into the code has its
    offset there.  The links opened are closed. *)
Theorem env_dump_end_to_end (seen : M) (scripts : gmap Z (list (env_event R U))) ts c es samples
    (k : env_kernel) maps printed text closed (iter : gmap string string -> list (string * string)) :
  (forall m, iter m ≡ₚ map_to_list m) ->
  env_schedule ts (env_start seen scripts) = Some c ->
  es `prefix_of` delivered (c_ring c) -> Forall2 carries es samples ->
  runEnv_session k maps samples = EnvEnds printed (Some text) closed ->
  exists h reg table la n offs,
    scripted scripts h /\ (reg = 1 \/ reg = 2)%nat /\
    (let u := eh_umem (ev_hit h) in
     let word s := read_word u (table + s * 8) in
     try_read_word u (PT_REGS_PARM (eh_regs (ev_hit h)) reg) = Some table /\
     libartBase (ev_pid h) (maps (ev_pid h)) = inr la /\
     n = length (List.filter (fun i => in_exec la (word (Z.of_nat i))) (seq 0 NSLOTS)) /\ (120 <= n)%nat /\
     offsetsFromFile iter (Some text) = inr offs /\
     (forall off s, offs !! off = Some s -> 0 <= s < 233 /\ in_exec la (word s) = true /\ off = u64 (word s - la_base la)) /\
     (forall s, 0 <= s < 233 -> in_exec la (word s) = true -> is_Some (offs !! u64 (word s - la_base la)))) /\
    printed = [attached_line; written_line n] /\
    Some closed = (lnl ← ek_lnl k; Some (match ek_cnt k with Some cnt => [cnt; lnl] | None => [lnl] end)).
Proof.
  intros Hiter Hs Hpre Hc Hrun. unfold runEnv_session in Hrun. destruct (ek_loads k); [|done]. cbn [negb] in Hrun.
  destruct (ek_lnl k) as [lnl|]; [|done]. destruct (ek_reader k); [|done]. cbn [negb] in Hrun.
  destruct (runEnv maps samples) as [[text' n]|] eqn:Er; [|done]. destruct (ek_writes k); [|done].
  injection Hrun as <- -> <-. apply runEnv_sound in Er as (raw & Hin & Er).
  apply list_elem_of_In, list_elem_of_lookup in Hin as [i Hi].
  destruct (Forall2_lookup_r _ _ _ _ _ Hc Hi) as (d & Hd & old & ->).
  destruct (delivered_sourced _ _ _ _ genuine scripts env_prog_genuine _ _ _ d Hs) as (h & Hh & Hg).
  { apply list_elem_of_In, list_elem_of_lookup. exists i. by eapply prefix_lookup_Some. }
  destruct (accepted_sample_loads maps _ text n iter Hiter Er) as (d' & la & offs & Ed & El & En & Hn & Eo & Ho & Hm).
  rewrite (read_dump_raw old d (genuine_wf h d Hg)) in Ed. injection Ed as <-.
  destruct Hg as (G1 & _ & _ & G4 & G5 & _ & G7 & _ & _ & G10). cbn [go_dump D_Pid D_Slots] in *. rewrite G1 in El.
  exists h, (Z.to_nat (d_reg d + 1)), (d_table d), la, n, offs. split; [done|].
  split; [destruct G4 as [-> | ->]; auto|]. split; [|split; [done|by destruct (ek_cnt k)]]. cbv zeta.
  rewrite <- G5, G10 in *. split; [done|]. split; [done|]. split.
  { rewrite En. unfold count_in, table_slots. clear. generalize (seq 0 NSLOTS). intros l.
    induction l as [|j l IH]; [done|]. cbn [map List.filter]. destruct (in_exec _ _); cbn [length]; by rewrite IH. }
  unfold envSlots in Hn. split; [lia|]. split; [done|]. split.
  - intros off s Hos. destruct (Ho off s Hos) as (O1 & O2 & O3). rewrite nth_table_slots in O2, O3 by (unfold NSLOTS; lia).
    rewrite Z2Nat.id in O2, O3 by lia. done.
  - intros s Hs' Hx. specialize (Hm (Z.to_nat s) ltac:(lia)). rewrite nth_table_slots, Z2Nat.id in Hm by (unfold NSLOTS; lia).
    auto.
Qed.
End Properties.

(** ** Example *)

(** Two threads of process 77 whose argument registers both hold the env. *)
Definition demo_table : list (Z * Z) :=
  map (fun i => (0x30000 + Z.of_nat i * 8, 0x7000001000 + Z.of_nat i * 16)) (seq 0 NSLOTS).

Definition demo_session_hit (tid : Z) : env_event user_pt_regs byte_mem :=
  Lnl (EnvHit (77 * 2 ^ 32 + tid) (demo_regs 0x10 [0x20000; 0x20000])
    (mem_of_words ((0x20000, 0x30000) :: demo_table)) (fun _ => true)).

Definition demo_session_scripts : gmap Z (list (env_event user_pt_regs byte_mem)) :=
  list_to_map (map (fun tid => (tid, [demo_session_hit tid])) [77; 78]).

Definition demo_env_kernel : env_kernel := EnvKernel true (Some 1) (Some 2) true true.

Definition demo_session_run :=
  env_schedule (concat (repeat [77; 78] 8)) (env_start demo_seen demo_session_scripts).

(** The loader has read three of the four records. *)
Definition demo_session : env_outcome :=
  match demo_session_run with
  | Some c =>
      runEnv_session demo_env_kernel (fun _ => Some demo_maps_file)
        (map (raw_dump (fun _ => zero_byte)) (take 3 (delivered (c_ring c))))
  | None => EnvExits [] 0
  end.

Lemma demo_session_source h : scripted demo_session_scripts h -> exists tid, h = demo_session_hit tid /\ (tid = 77 \/ tid = 78).
Proof.
  intros (t & sc & Hsc & Hh). apply elem_of_list_to_map_2, list_elem_of_In in Hsc. cbn [map] in Hsc.
  destruct Hsc as [Hsc|[Hsc|[]]]; injection Hsc as <- <-; apply list_elem_of_singleton in Hh as ->; eauto.
Qed.

Lemma env_dump_end_to_end_witness :
  exists text offs, demo_session = EnvEnds [attached_line; written_line 240] (Some text) [2; 1] /\
    offsetsFromFile map_to_list (Some text) = inr offs /\ is_Some (offs !! 0x1060).
Proof.
  assert (Hd : match demo_session with EnvEnds p (Some _) cl => p = [attached_line; written_line 240] /\ cl = [2; 1] | _ => False end)
    by (vm_compute; split; reflexivity).
  unfold demo_session in *. destruct demo_session_run as [c|] eqn:Ec; [|destruct Hd].
  destruct (runEnv_session demo_env_kernel _ (map _ _)) as [|printed [text|] closed] eqn:Er; [destruct Hd| |destruct Hd].
  destruct Hd as [-> ->].
  destruct (env_dump_end_to_end demo_seen demo_session_scripts _ c (take 3 (delivered (c_ring c))) _ demo_env_kernel
    (fun _ => Some demo_maps_file) _ text _ map_to_list ltac:(reflexivity) Ec (prefix_take _ _)
    (carries_all (fun _ => zero_byte) _) Er)
    as (h & reg & table & la & n & offs & Hh & Hr & (T1 & T2 & _ & _ & T5 & _ & T7) & _ & _).
  exists text, offs. split; [reflexivity|]. split; [exact T5|]. clear Er Ec T5.
  destruct (demo_session_source h Hh) as (tid & -> & Ht).
  assert (Et : table = 0x30000).
  { destruct Hr as [-> | ->]; cbn [demo_session_hit ev_hit eh_umem eh_regs] in T1; vm_compute in T1; by injection T1. }
  assert (El : la = Libart 0x7000000000 0x7000000000 0x7000100000).
  { destruct Ht as [-> | ->]; vm_compute in T2; by injection T2. }
  subst table la. specialize (T7 6 ltac:(lia)). cbn [demo_session_hit ev_hit eh_umem] in T7.
  assert (Ew : read_word (mem_of_words ((0x20000, 0x30000) :: demo_table)) (0x30000 + 6 * 8) = 0x7000001060) by (vm_compute; reflexivity).
  rewrite Ew in T7. exact (T7 ltac:(vm_compute; reflexivity)).
Defined.
