(* ===== verification/FloatFmt.v ===== *)
(** * FloatFmt: the floating-point formatting the loader prints with

    [strconv.FormatFloat(x, 'g', -1, 32|64)] on the bits of [x]: the shortest
    decimal that rounds back to [x], in %e form when the decimal exponent is
    below -4 or at least 6 (Go's rule for the shortest form); and [%.3f] of a duration computed in double precision. *)

From S2P Require Import Prelude GoStr Strconv.

(** ** Formatting

    A finite float is [mant * 2^exp]; every comparison with a decimal is
    cross-multiplied over the integers. *)

Record fmt_info := FmtInfo { mantbits : Z; expbits : Z; bias : Z }.
Definition float32info : fmt_info := FmtInfo 23 8 (-127).
Definition float64info : fmt_info := FmtInfo 52 11 (-1023).

Record decoded := Decoded { f_neg : bool; f_mant : Z; f_exp : Z; f_min : bool }.

Inductive float_class := FNaN | FInf (neg : bool) | FFin (d : decoded).

(** The bits of a float: [f_exp] is the exponent of the last mantissa bit,
    [f_min] marks the smallest exponent (where gaps do not halve). *)
Definition classify (fi : fmt_info) (bits : Z) : float_class :=
  let e := Z.land (Z.shiftr bits (mantbits fi)) (2 ^ expbits fi - 1) in
  let m := Z.land bits (2 ^ mantbits fi - 1) in
  let neg := negb (Z.shiftr bits (expbits fi + mantbits fi) =? 0) in
  if e =? 2 ^ expbits fi - 1 then (if m =? 0 then FInf neg else FNaN)
  else if e =? 0 then FFin (Decoded neg m (1 + bias fi - mantbits fi) true)
  else FFin (Decoded neg (m + 2 ^ mantbits fi) (e + bias fi - mantbits fi) (e =? 1)).

(** The rounding interval of a finite non-zero float, all three over the
    common denominator [den]: lower bound, value, upper bound. *)
Record interval := Interval { i_lo : Z; i_val : Z; i_hi : Z; i_den : Z; i_incl : bool }.

Definition interval_of (fi : fmt_info) (d : decoded) : interval :=
  let up := 2 ^ Z.max 0 (f_exp d) in
  let den := 4 * 2 ^ Z.max 0 (- f_exp d) in
  let lo := if (f_mant d =? 2 ^ mantbits fi) && negb (f_min d)
            then 4 * f_mant d - 1 else 4 * f_mant d - 2 in
  Interval (lo * up) (4 * f_mant d * up) ((4 * f_mant d + 2) * up) den (Z.even (f_mant d)).

(** [c * 10^k] compared with [n / den]. *)
Definition cmp_dec (c k n den : Z) : comparison :=
  Z.compare (c * 10 ^ Z.max 0 k * den) (n * 10 ^ Z.max 0 (- k)).

(** floor of [(n / den) / 10^k]. *)
Definition floor_dec (n den k : Z) : Z := (n * 10 ^ Z.max 0 (- k)) / (den * 10 ^ Z.max 0 k).

(** The decimal exponent [dp] with [10^(dp-1) <= n/den < 10^dp]. *)
Fixpoint find_dp (fuel : nat) (n den dp : Z) : Z :=
  match fuel with
  | O => dp
  | S f => match cmp_dec 1 dp n den with Gt => dp | _ => find_dp f n den (dp + 1) end
  end.

Definition dec_point (n den : Z) : Z :=
  find_dp 8 n den ((Z.log2 n - Z.log2 den) * 30103 / 100000 - 2).

(** Whether a decimal lies in the interval. *)
Definition above_lo (i : interval) (c k : Z) : bool :=
  match cmp_dec c k (i_lo i) (i_den i) with Gt => true | Eq => i_incl i | Lt => false end.

Definition below_hi (i : interval) (c k : Z) : bool :=
  match cmp_dec c k (i_hi i) (i_den i) with Lt => true | Eq => i_incl i | Gt => false end.

(** The [nd]-digit candidates: round down, round up, or to nearest (ties to
    even) when both are inside. *)
Definition candidate (i : interval) (dp nd : Z) : option Z :=
  let k := dp - nd in
  let c := floor_dec (i_val i) (i_den i) k in
  let okdown := above_lo i c k in
  let okup := below_hi i (c + 1) k in
  if okdown && okup then
    match cmp_dec (2 * c + 1) k (2 * i_val i) (i_den i) with
    | Lt => Some (c + 1)
    | Gt => Some c
    | Eq => Some (if Z.even c then c else c + 1)
    end
  else if okdown then Some c
  else if okup then Some (c + 1)
  else None.

(** The shortest candidate; 17 digits always suffice. *)
Fixpoint shortest (i : interval) (dp : Z) (nds : list Z) : option (Z * Z) :=
  match nds with
  | [] => None
  | nd :: nds' =>
      match candidate i dp nd with
      | Some c => Some (c, dp - nd)
      | None => shortest i dp nds'
      end
  end.

Definition digit_counts : list Z := map Z.of_nat (seq 1 17).

Fixpoint strip_zeros (fuel : nat) (c k : Z) : Z * Z :=
  match fuel with
  | O => (c, k)
  | S f => if (c mod 10 =? 0) && negb (c =? 0) then strip_zeros f (c / 10) (k + 1) else (c, k)
  end.

(** Digits and decimal point of the shortest decimal. *)
Definition shortest_digits (fi : fmt_info) (d : decoded) : string * Z :=
  if f_mant d =? 0 then ("", 0)
  else
    let i := interval_of fi d in
    match shortest i (dec_point (i_val i) (i_den i)) digit_counts with
    | Some (c, k) =>
        let (c, k) := strip_zeros 20 c k in
        let ds := FormatUint c 10 in
        (ds, Z.of_nat (slen ds) + k)
    | None => ("", 0)
    end.

(** [fmtE] with the digits available, [fmtF] with as many decimals as needed. *)
Definition fmtE (neg : bool) (ds : string) (dp : Z) : string :=
  let e := if (slen ds =? 0)%nat then 0 else dp - 1 in
  let ea := FormatUint (Z.abs e) 10 in
  (if neg then "-" else "") ++s stake 1 ds ++s
  (if (1 <? slen ds)%nat then "." ++s sdrop 1 ds else "") ++s
  "e" ++s (if e <? 0 then "-" else "+") ++s pad_left "0" 2 ea.

Definition fmtF (neg : bool) (ds : string) (dp : Z) : string :=
  let nd := Z.of_nat (slen ds) in
  let prec := Z.max (nd - dp) 0 in
  (if neg then "-" else "") ++s
  (if 0 <? dp then stake (Z.to_nat dp) ds ++s Repeat "0" (Z.to_nat (dp - nd)) else "0") ++s
  (if 0 <? prec then "." ++s Repeat "0" (Z.to_nat (- dp)) ++s sdrop (Z.to_nat dp) ds else "").

Definition FormatFloat_g (fi : fmt_info) (bits : Z) : string :=
  match classify fi bits with
  | FNaN => "NaN"
  | FInf neg => if neg then "-Inf" else "+Inf"
  | FFin d =>
      let (ds, dp) := shortest_digits fi d in
      let e := dp - 1 in
      if (e <? -4) || (6 <=? e)
      then fmtE (f_neg d) ds dp
      else fmtF (f_neg d) ds dp
  end.

(** ** Durations: [float64(ns) / 1e6] printed with [%.3f] *)

(** [n / d] rounded to 53 bits, ties to even, as (mantissa, exponent). *)
Definition round_even (n d : Z) : Z :=
  let q := n / d in
  let r := n mod d in
  match Z.compare (2 * r) d with
  | Lt => q
  | Gt => q + 1
  | Eq => if Z.even q then q else q + 1
  end.

Definition to_double (n d : Z) : Z * Z :=
  if n =? 0 then (0, 0)
  else
    let e0 := Z.log2 n - Z.log2 d - 53 in
    let scaled e := round_even (n * 2 ^ Z.max 0 (- e)) (d * 2 ^ Z.max 0 e) in
    let e := if 2 ^ 53 <=? (n * 2 ^ Z.max 0 (- e0)) / (d * 2 ^ Z.max 0 e0) then e0 + 1 else e0 in
    (scaled e, e).

(** [m * 2^e] with three decimals, rounded half to even on the exact value. *)
Definition fixed3 (m e : Z) : string :=
  let c := round_even (m * 1000 * 2 ^ Z.max 0 e) (2 ^ Z.max 0 (- e)) in
  FormatUint (c / 1000) 10 ++s "." ++s pad_left "0" 3 (FormatUint (c mod 1000) 10).

Definition fmt_dur (ns : Z) : string :=
  let (m, e) := to_double ns 1 in
  let (m2, e2) := to_double (m * 2 ^ Z.max 0 e) (1000000 * 2 ^ Z.max 0 (- e)) in
  fixed3 m2 e2.
