(* ===== verification/Filters.v ===== *)
(** * Filters: loader/filters.go and the interactive commands of loader/trace.go

    Which slots are traced ([matchSlot]) and which lines are printed
    ([matchLine]), how the options set the filters up ([newFilters]) and how
    commands typed at run time change them ([applyCommand]).  The mutex makes
    each of these atomic; compiled regular expressions are abstract. *)

From S2P Require Import Prelude GoStr Strconv Schema.

(** Package regexp: a compiled expression is known by [MatchString] alone. *)
Class Regexp (RE : Type) := {
  MustCompile : string -> RE;   (* panics on a bad expression *)
  re_valid : string -> bool;
  MatchString : RE -> string -> bool
}.

Record filters (RE : Type) := Filters {
  modes : gset string;
  only : list string;
  exclude : list string;
  grep : string;
  classRe : option RE;
  methodRe : option RE;
  from : list string;
  f_tid : Z
}.
Arguments Filters {RE} _ _ _ _ _ _ _ _.
Arguments modes {RE} _.
Arguments only {RE} _.
Arguments exclude {RE} _.
Arguments grep {RE} _.
Arguments classRe {RE} _.
Arguments methodRe {RE} _.
Arguments from {RE} _.
Arguments f_tid {RE} _.

(** main.go: the options. *)
Record config := Config {
  c_pid : Z;
  c_name : string;
  c_runSec : Z;
  c_offsets : string;
  c_libart : string;
  c_modes : string;
  c_only : string;
  c_exclude : string;
  c_noReturns : bool;
  c_maxDepth : Z;
  c_grep : string;
  c_classRe : string;
  c_methodRe : string;
  c_from : string;
  c_tid : Z;
  c_verbose : bool;
  c_count : bool;
  c_jsonOut : bool;
  c_noColor : bool;
  c_stack : bool
}.

Definition nonempty (s : string) : bool := negb (String.eqb s "").

Definition splitList (s : string) : list string :=
  filter (fun x => nonempty x = true) (map TrimSpace (Split s ",")).

Definition set_of (l : list string) : gset string := list_to_set l.

Section Filters.
Context {RE : Type} `{Regexp RE}.

(** [None] is the panic of [regexp.MustCompile]. *)
Definition compile_opt (s : string) : option (option RE) :=
  if nonempty s then (if re_valid s then Some (Some (MustCompile s)) else None) else Some None.

Definition newFilters (c : config) : option (filters RE) :=
  match compile_opt (c_classRe c), compile_opt (c_methodRe c) with
  | Some cre, Some mre =>
      Some (Filters (set_of (splitList (c_modes c))) (splitList (c_only c)) (splitList (c_exclude c))
              (c_grep c) cre mre (if nonempty (c_from c) then splitList (c_from c) else []) (c_tid c))
  | _, _ => None
  end.

Definition name_hit (name o : string) : bool := HasPrefix name o || Contains name o.

Definition matchSlot (f : filters RE) (slot : Z) : bool :=
  let name := slotName slot in
  let cat := category name in
  let allow := bool_decide ("all" ∈ modes f) in
  let allow := if negb allow then (if bool_decide (cat ∈ modes f) then true else allow) else allow in
  let allow := if (0 <? length (only f))%nat then existsb (name_hit name) (only f) else allow in
  fold_left (fun allow x => if name_hit name x then false else allow) (exclude f) allow.

Definition re_rejects (re : option RE) (s : string) : bool :=
  match re with Some r => negb (MatchString r s) | None => false end.

Definition matchLine (f : filters RE) (cls method line callerMod : string) : bool :=
  if nonempty (grep f) && negb (Contains line (grep f)) then false
  else if re_rejects (classRe f) cls then false
  else if re_rejects (methodRe f) method then false
  else if (0 <? length (from f))%nat then existsb (Contains callerMod) (from f)
  else true.

(** ** applyCommand *)

Inductive cmd_effect :=
| CmdSet (f : filters RE) (echo : string)   (* filters changed, one line printed *)
| CmdStats                                  (* printStats(counts, 25) *)
| CmdQuit                                   (* os.Exit(0) *)
| CmdUnknown (echo : string)
| CmdNone.

Definition set_only (f : filters RE) (l : list string) : filters RE :=
  Filters (modes f) l (exclude f) (grep f) (classRe f) (methodRe f) (from f) (f_tid f).
Definition set_exclude (f : filters RE) (l : list string) : filters RE :=
  Filters (modes f) (only f) l (grep f) (classRe f) (methodRe f) (from f) (f_tid f).
Definition set_from (f : filters RE) (l : list string) : filters RE :=
  Filters (modes f) (only f) (exclude f) (grep f) (classRe f) (methodRe f) l (f_tid f).
Definition set_grep (f : filters RE) (g : string) : filters RE :=
  Filters (modes f) (only f) (exclude f) g (classRe f) (methodRe f) (from f) (f_tid f).
Definition set_modes (f : filters RE) (m : gset string) : filters RE :=
  Filters m (only f) (exclude f) (grep f) (classRe f) (methodRe f) (from f) (f_tid f).
Definition clear_filters (f : filters RE) : filters RE :=
  Filters {["all"]} [] [] "" None None [] (f_tid f).

Definition applyCommand (f : filters RE) (line : string) : cmd_effect :=
  match Fields line with
  | [] => CmdNone
  | cmd :: _ =>
      let arg := TrimSpace (TrimPrefix line cmd) in
      if String.eqb cmd "only" then CmdSet (set_only f (splitList arg)) ("[cmd] only = " ++s arg)
      else if String.eqb cmd "exclude" then CmdSet (set_exclude f (splitList arg)) ("[cmd] exclude = " ++s arg)
      else if String.eqb cmd "from" then CmdSet (set_from f (splitList arg)) ("[cmd] from = " ++s arg)
      else if String.eqb cmd "grep" then CmdSet (set_grep f arg) ("[cmd] grep = " ++s arg)
      else if String.eqb cmd "mode" then CmdSet (set_modes f (set_of (splitList arg))) ("[cmd] mode = " ++s arg)
      else if String.eqb cmd "clear" then CmdSet (clear_filters f) "[cmd] filters cleared"
      else if String.eqb cmd "stats" then CmdStats
      else if String.eqb cmd "quit" || String.eqb cmd "exit" then CmdQuit
      else CmdUnknown ("[cmd] unknown: " ++s cmd)
  end.

(** ** Specification of the slot filter

    Functions are known by their position in the JNI function table, which
    fixes the groups of [--mode]: they are stated on positions, and do not use
    the tests on names of [category]. *)

(** The position is one of a stretch of the table. *)
Definition in_slots (l : list (Z * Z)) (slot : Z) : bool :=
  existsb (fun r => (r.1 <=? slot) && (slot <=? r.2)) l.

(** Call<Type>Method, CallNonvirtual<Type>Method and CallStatic<Type>Method;
    AllocObject, NewObject in its three variants and NewObjectArray; the field
    accessors and their ids; the class functions; the string functions. *)
Definition call_slots : list (Z * Z) := [(34, 63); (64, 93); (114, 143)].
Definition new_slots : list (Z * Z) := [(27, 30); (172, 172)].
Definition field_slots : list (Z * Z) := [(94, 112); (144, 162)].
Definition class_slots : list (Z * Z) := [(5, 6); (10, 11); (31, 32)].
Definition string_slots : list (Z * Z) := [(163, 170); (220, 221); (224, 225)].

Definition jni_group (slot : Z) : string :=
  if in_slots call_slots slot then "call"
  else if in_slots new_slots slot then "new"
  else if in_slots field_slots slot then "field"
  else if in_slots class_slots slot then "class"
  else if in_slots string_slots slot then "string"
  else "other".

(** One of the words is part of the function's name. *)
Definition names (words : list string) (slot : Z) : Prop :=
  exists o a b, In o words /\ slotName slot = a ++s o ++s b.

(** What the options select: the words of [--only] alone when there are any,
    the modes otherwise. *)
Definition selected (f : filters RE) (slot : Z) : Prop :=
  match only f with
  | [] => "all" ∈ modes f \/ jni_group slot ∈ modes f
  | words => names words slot
  end.

(** *** The same with the tests of the code *)

Definition wanted (f : filters RE) (name : string) : Prop :=
  if decide (only f = []) then "all" ∈ modes f \/ category name ∈ modes f
  else exists o, In o (only f) /\ Contains name o = true.

Definition excluded (f : filters RE) (name : string) : Prop :=
  exists x, In x (exclude f) /\ Contains name x = true.

(** ** Lemmas *)

Lemma name_hit_contains name o : name_hit name o = Contains name o.
Proof.
  unfold name_hit. destruct (HasPrefix name o) eqn:E; [|done].
  by rewrite (HasPrefix_Contains _ _ E).
Qed.

Lemma exclude_fold name l b :
  fold_left (fun allow x => if name_hit name x then false else allow) l b =
  b && negb (existsb (name_hit name) l).
Proof.
  revert b. induction l as [|x l IH]; intros b; cbn [fold_left existsb]; [by rewrite andb_true_r|].
  rewrite IH. destruct (name_hit name x); cbn; [by rewrite andb_false_r|done].
Qed.

Lemma existsb_hit name l :
  existsb (name_hit name) l = true <-> exists o, In o l /\ Contains name o = true.
Proof. rewrite existsb_exists. by setoid_rewrite name_hit_contains. Qed.

Lemma matchSlot_spec f slot :
  matchSlot f slot = true <-> wanted f (slotName slot) /\ ~ excluded f (slotName slot).
Proof.
  unfold matchSlot, wanted, excluded. cbv zeta. rewrite exclude_fold, andb_true_iff, negb_true_iff.
  rewrite <- not_true_iff_false, existsb_hit.
  assert (E : (if (0 <? length (only f))%nat then existsb (name_hit (slotName slot)) (only f)
               else if negb (bool_decide ("all" ∈ modes f))
                    then if bool_decide (category (slotName slot) ∈ modes f) then true
                         else bool_decide ("all" ∈ modes f)
                    else bool_decide ("all" ∈ modes f)) = true <->
              if decide (only f = []) then "all" ∈ modes f \/ category (slotName slot) ∈ modes f
              else exists o, In o (only f) /\ Contains (slotName slot) o = true).
  { destruct (only f) as [|o l] eqn:Eo.
    - rewrite decide_True by done. cbn.
      destruct (decide ("all" ∈ modes f)) as [Ha|Ha];
        [rewrite (bool_decide_eq_true_2 _ Ha)|rewrite (bool_decide_eq_false_2 _ Ha)]; cbn; [tauto|].
      case_bool_decide; naive_solver.
    - rewrite decide_False by done. apply existsb_hit. }
  by rewrite E.
Qed.

Lemma names_contains words slot :
  names words slot <-> exists o, In o words /\ Contains (slotName slot) o = true.
Proof.
  unfold names. setoid_rewrite Contains_spec. split.
  - intros (o & a & b & Hin & E). eauto.
  - intros (o & Hin & a & b & E). eauto.
Qed.

(** The tests on names give every function its group. *)
Lemma category_group slot : 0 <= slot < 233 -> category (slotName slot) = jni_group slot.
Proof.
  intros Hs.
  assert (E : forallb (fun i => String.eqb (category (slotName (Z.of_nat i))) (jni_group (Z.of_nat i))) (seq 0 233) = true)
    by (vm_compute; reflexivity).
  rewrite forallb_forall in E. specialize (E (Z.to_nat slot)). rewrite in_seq, Z2Nat.id in E by lia.
  apply String.eqb_eq, E. lia.
Qed.

Lemma matchSlot_selects f slot :
  0 <= slot < 233 -> matchSlot f slot = true <-> selected f slot /\ ~ names (exclude f) slot.
Proof.
  intros Hs. rewrite matchSlot_spec. unfold wanted, excluded, selected.
  rewrite names_contains, (category_group slot Hs). destruct (only f) as [|o l] eqn:Eo.
  - by rewrite decide_True by done.
  - by rewrite decide_False, names_contains by done.
Qed.

Lemma matchLine_spec f cls method line callerMod :
  matchLine f cls method line callerMod = true <->
  (grep f = "" \/ Contains line (grep f) = true) /\
  (forall r, classRe f = Some r -> MatchString r cls = true) /\
  (forall r, methodRe f = Some r -> MatchString r method = true) /\
  (from f = [] \/ exists x, In x (from f) /\ Contains callerMod x = true).
Proof.
  unfold matchLine.
  destruct (nonempty (grep f) && negb (Contains line (grep f))) eqn:Eg.
  { split; [done|]. intros ([Hg|Hg] & _); unfold nonempty in Eg; [rewrite Hg in Eg|rewrite Hg, andb_false_r in Eg]; done. }
  assert (Hg : grep f = "" \/ Contains line (grep f) = true).
  { unfold nonempty in Eg. destruct (String.eqb_spec (grep f) ""); [by left|right].
    by destruct (Contains line (grep f)). }
  destruct (re_rejects (classRe f) cls) eqn:Ec.
  { split; [done|]. intros (_ & Hc & _). unfold re_rejects in Ec. destruct (classRe f); [|done].
    by rewrite Hc in Ec. }
  assert (Hc : forall r, classRe f = Some r -> MatchString r cls = true).
  { intros r Er. unfold re_rejects in Ec. rewrite Er in Ec. by apply negb_false_iff in Ec. }
  destruct (re_rejects (methodRe f) method) eqn:Em.
  { split; [done|]. intros (_ & _ & Hm & _). unfold re_rejects in Em. destruct (methodRe f); [|done].
    by rewrite Hm in Em. }
  assert (Hm : forall r, methodRe f = Some r -> MatchString r method = true).
  { intros r Er. unfold re_rejects in Em. rewrite Er in Em. by apply negb_false_iff in Em. }
  destruct (from f) as [|x l] eqn:Ef; [naive_solver|].
  change ((0 <? length (x :: l))%nat) with true. cbv iota. rewrite existsb_exists. naive_solver.
Qed.

(** Trimming leaves no surrounding space and splitting leaves no empty item. *)
Lemma splitList_nonempty s x : In x (splitList s) -> x <> "".
Proof.
  unfold splitList. rewrite <- list_elem_of_In, list_elem_of_filter. intros [Hx _] ->. done.
Qed.
End Filters.

(** ** A concrete instance

    Expressions without metacharacters match the texts that contain them. *)

Definition is_meta (c : ascii) : bool := sin c "\.+*?()|[]{}^$".

#[export] Instance literal_regexp : Regexp string := {
  MustCompile s := s;
  re_valid s := sall (fun c => negb (is_meta c)) s;
  MatchString re s := Contains s re
}.

(** The options as parsed from an empty command line, for process 41. *)
Definition demo_config : config :=
  Config 41 "" 0 "auto" "/apex/com.android.art/lib64/libart.so" "all" "" "" false 0 "" "" "" "" 0
    false false false false false.

(** ** Properties *)

Section Properties.
Context {RE : Type} `{Regexp RE}.

(** C32. [matchSlot] selects by the group of the function.  Each of the 233
    functions belongs to one group of [--mode], fixed by its position in the
    JNI function table ([jni_group]): the calls, the allocations, the field
    accessors, the class functions, the string functions, the others.  A
    function is traced when a word of [--only] is part of its name, or,
    without [--only], when its group or [all] is among the modes; and no word
    of [--exclude] is part of its name, whatever the order of the words. *)
Theorem matchSlot_correct (f : filters RE) slot :
  0 <= slot < 233 ->
  matchSlot f slot = true <-> selected f slot /\ ~ names (exclude f) slot.
Proof. apply matchSlot_selects. Qed.

(** [matchLine] passes a line exactly when every filter that is set accepts
    it: the line contains the grep text, the class and method expressions
    match, and the caller's module contains an item of [--from]. *)
Theorem matchLine_correct (f : filters RE) cls method line callerMod :
  matchLine f cls method line callerMod = true <->
  (grep f = "" \/ Contains line (grep f) = true) /\
  (forall r, classRe f = Some r -> MatchString r cls = true) /\
  (forall r, methodRe f = Some r -> MatchString r method = true) /\
  (from f = [] \/ exists x, In x (from f) /\ Contains callerMod x = true).
Proof. apply matchLine_spec. Qed.

Lemma splitList_Join ws :
  ws <> [] -> Forall (fun w => sall clean_char w = true /\ sin "," w = false /\ w <> "") ws ->
  splitList (Join ws ",") = ws.
Proof.
  intros Hne Hall. unfold splitList. rewrite (Split_Join ws ","); [|done|].
  2:{ eapply Forall_impl; [exact Hall|]. cbn. tauto. }
  assert (map TrimSpace ws = ws) as ->.
  { clear Hne. induction Hall as [|w ws (Hc & _) _ IH]; [done|]. cbn. by rewrite TrimSpace_clean, IH. }
  clear Hne. induction Hall as [|w ws (_ & _ & Hw) _ IH]; [done|].
  rewrite filter_cons_True; [by rewrite IH|]. unfold nonempty. by destruct (String.eqb_spec w "").
Qed.

(** A list option or command sets exactly the items it names: for items
    without commas and white space, [only a,b,...] typed at run time
    replaces the [--only] list by them and leaves every other filter; so do
    [exclude] and [from], and [clear] drops every filter and traces all
    categories. *)
Theorem commands_set_filters (f : filters RE) ws :
  ws <> [] -> Forall (fun w => sall clean_char w = true /\ sin "," w = false /\ w <> "") ws ->
  applyCommand f ("only " ++s Join ws ",") = CmdSet (set_only f ws) ("[cmd] only = " ++s Join ws ",") /\
  applyCommand f ("exclude " ++s Join ws ",") = CmdSet (set_exclude f ws) ("[cmd] exclude = " ++s Join ws ",") /\
  applyCommand f ("from " ++s Join ws ",") = CmdSet (set_from f ws) ("[cmd] from = " ++s Join ws ",") /\
  exists g echo, applyCommand f "clear" = CmdSet g echo /\
    (forall slot, matchSlot g slot = true) /\ (forall c m l k, matchLine g c m l k = true).
Proof.
  intros Hne Hall.
  assert (Hclean : sall clean_char (Join ws ",") = true /\ Join ws "," <> "").
  { clear -Hne Hall. induction Hall as [|w ws (Hc & _ & Hw) Hall IH]; [done|].
    destruct ws as [|w2 ws]; [done|]. destruct IH as [IH _]; [done|].
    change (Join (w :: w2 :: ws) ",") with (w ++s "," ++s Join (w2 :: ws) ","). rewrite !sall_app, Hc, IH. split; [done|]. by destruct w. }
  destruct Hclean as [Hcl Hnz].
  assert (Hcmd : forall cmd, sall clean_char cmd = true -> cmd <> "" ->
    Fields (cmd ++s " " ++s Join ws ",") = [cmd; Join ws ","] /\
    TrimSpace (TrimPrefix (cmd ++s " " ++s Join ws ",") cmd) = Join ws ",").
  { intros cmd Hc Hn. split.
    - apply (Fields_Join [cmd; Join ws ","]). by repeat constructor.
    - unfold TrimPrefix. rewrite HasPrefix_app, sdrop_app.
      change (TrimSpace (" " ++s Join ws ",")) with (TrimSpace (Join ws ",")). by apply TrimSpace_clean. }
  assert (Hs : splitList (Join ws ",") = ws) by by apply splitList_Join.
  unfold applyCommand.
  destruct (Hcmd "only") as [E1 E2]; [done|done|]. change ("only" ++s " " ++s Join ws ",") with ("only " ++s Join ws ",") in *.
  rewrite E1, E2. clear E1 E2.
  destruct (Hcmd "exclude") as [E1 E2]; [done|done|]. change ("exclude" ++s " " ++s Join ws ",") with ("exclude " ++s Join ws ",") in *.
  rewrite E1, E2. clear E1 E2.
  destruct (Hcmd "from") as [E1 E2]; [done|done|]. change ("from" ++s " " ++s Join ws ",") with ("from " ++s Join ws ",") in *.
  rewrite E1, E2, Hs. clear E1 E2.
  split; [done|]. split; [done|]. split; [done|].
  eexists _, _. split; [reflexivity|]. split.
  - intros slot. unfold matchSlot. cbn [clear_filters modes only exclude fold_left length].
    by rewrite bool_decide_eq_true_2 by set_solver.
  - intros c m l k. done.
Qed.
End Properties.

Lemma commands_set_filters_witness :
  applyCommand (RE := string) (Filters {["call"]} [] [] "x" None None [] 0) "only Get,FindClass" =
  CmdSet (Filters {["call"]} ["Get"; "FindClass"] [] "x" None None [] 0) "[cmd] only = Get,FindClass".
Proof.
  refine (proj1 (commands_set_filters (Filters {["call"]} [] [] "x" None None [] 0) ["Get"; "FindClass"] _ _));
    [discriminate|]. repeat (constructor; [split; [reflexivity|split; [reflexivity|discriminate]]|]). constructor.
Defined.

(** [GetMethodID] under [--only Get --exclude Field], and [AllocObject] under
    [--mode new]. *)
Lemma matchSlot_correct_witness :
  matchSlot (RE := string) (Filters ∅ ["Get"] ["Field"] "" None None [] 0) 33 = true /\
  matchSlot (RE := string) (Filters {["new"]} [] [] "" None None [] 0) 27 = true.
Proof.
  split.
  - apply (proj2 (matchSlot_correct (Filters ∅ ["Get"] ["Field"] "" None None [] 0) 33 ltac:(lia))). split.
    + exists "Get", "", "MethodID". split; [by left|vm_compute; reflexivity].
    + intros (x & a & b & [<-|[]] & E). assert (Hc : Contains (slotName 33) "Field" = true)
        by (apply Contains_spec; exists a, b; exact E). vm_compute in Hc. discriminate.
  - apply (proj2 (matchSlot_correct (Filters {["new"]} [] [] "" None None [] 0) 27 ltac:(lia))). split.
    + right. vm_compute. reflexivity.
    + intros (x & a & b & [] & _).
Defined.

Lemma matchLine_correct_witness :
  matchLine (Filters {["all"]} [] [] "add" (Some "java") None ["app"] 0) "java.util.List" "add"
    "java.util.List.add(7)" "libapp.so" = true.
Proof.
  apply (proj2 (matchLine_correct (Filters {["all"]} [] [] "add" (Some "java") None ["app"] 0) "java.util.List" "add"
    "java.util.List.add(7)" "libapp.so")). split; [right; vm_compute; reflexivity|].
  split; [intros r [= <-]; vm_compute; reflexivity|]. split; [intros r E; discriminate|].
  right. exists "app". split; [by left|vm_compute; reflexivity].
Defined.
