(* ===== verification/Main.v ===== *)
(** * Main: loader/main.go and the start of [runProbe]

    Option parsing ([parseFlags] on package flag's rules), the dispatch of
    [main] on the subcommand, and the part of [runProbe] before any BPF object
    is loaded: which process, which offsets, which base, or which exit code. *)

From S2P Require Import Prelude GoStr Strconv Json Target Schema Offsets Filters.

Definition libartDefault : string := "/apex/com.android.art/lib64/libart.so".

(** ** Package flag *)

(** [strconv.ParseInt(s, 0, 64)]: the value, [None] on any error. *)
Definition ParseInt0 (s : string) : option Z :=
  match s with
  | String.EmptyString => None
  | String.String a s' =>
      let neg := code a =? 45 in
      let ds := if neg || (code a =? 43) then s' else s in
      match ParseUint ds 0 with
      | (un, None) =>
          if negb neg && (2 ^ 63 <=? un) then None
          else if neg && (2 ^ 63 <? un) then None
          else Some (if neg then - un else un)
      | _ => None
      end
  end.

(** [strconv.ParseBool]. *)
Definition ParseBool (s : string) : option bool :=
  if existsb (String.eqb s) ["1"; "t"; "T"; "true"; "TRUE"; "True"] then Some true
  else if existsb (String.eqb s) ["0"; "f"; "F"; "false"; "FALSE"; "False"] then Some false
  else None.

(** A flag: the type of its value and the field of [c] it sets. *)
Inductive flag :=
| IntVar (set : Z -> config -> config)
| StringVar (set : string -> config -> config)
| BoolVar (set : bool -> config -> config).

Definition flag_set (f : flag) (value : string) (c : config) : option config :=
  match f with
  | IntVar set => (fun x => set x c) <$> ParseInt0 value
  | StringVar set => Some (set value c)
  | BoolVar set => (fun b => set b c) <$> ParseBool value
  end.

Definition is_bool_flag (f : flag) : bool := match f with BoolVar _ => true | _ => false end.

(** The outcome of parsing: the options, or the exit of [flag.ExitOnError]. *)
Inductive parsed := Options (c : config) | ExitFlags (code : Z).

(** The index of the first ['='] after the first character. *)
Definition split_eq (name : string) : string * option string :=
  match name with
  | String.EmptyString => (name, None)
  | String.String a rest =>
      match IndexByte rest "=" with
      | Some i => (String.String a (stake i rest), Some (sdrop (S i) rest))
      | None => (name, None)
      end
  end.

(** The name part of an argument that is a flag. *)
Definition flag_name (s : string) : option string :=
  match s with
  | String.String "-" (String.String c r) =>
      if Ascii.eqb c "-" then Some r else Some (String.String c r)
  | _ => None
  end.

Definition bad_name (name : string) : bool :=
  match name with
  | String.EmptyString => true
  | String.String a _ => Ascii.eqb a "-" || Ascii.eqb a "="
  end.

(** [FlagSet.Parse]: flags up to the first argument that is not one.  The
    arguments only shrink, two at most per flag. *)
Fixpoint parse_args (lookup : string -> option flag) (fuel : nat) (args : list string) (c : config) : parsed :=
  match fuel, args with
  | _, [] => Options c
  | O, _ => Options c
  | S n, s :: args' =>
      match flag_name s with
      | None => Options c
      | Some name =>
          if String.eqb s "--" then Options c
          else if bad_name name then ExitFlags 2
          else
            let '(nm, value) := split_eq name in
            match lookup nm with
            | None => if String.eqb nm "help" || String.eqb nm "h" then ExitFlags 0 else ExitFlags 2
            | Some f =>
                match value with
                | Some v =>
                    match flag_set f v c with Some c' => parse_args lookup n args' c' | None => ExitFlags 2 end
                | None =>
                    if is_bool_flag f then
                      match flag_set f "true" c with Some c' => parse_args lookup n args' c' | None => ExitFlags 2 end
                    else
                      match args' with
                      | [] => ExitFlags 2
                      | v :: args'' =>
                          match flag_set f v c with Some c' => parse_args lookup n args'' c' | None => ExitFlags 2 end
                      end
                end
            end
      end
  end.

(** ** parseFlags *)

Definition set_pid (x : Z) (c : config) := Config x (c_name c) (c_runSec c) (c_offsets c) (c_libart c) (c_modes c) (c_only c) (c_exclude c) (c_noReturns c) (c_maxDepth c) (c_grep c) (c_classRe c) (c_methodRe c) (c_from c) (c_tid c) (c_verbose c) (c_count c) (c_jsonOut c) (c_noColor c) (c_stack c).
Definition set_name (x : string) (c : config) := Config (c_pid c) x (c_runSec c) (c_offsets c) (c_libart c) (c_modes c) (c_only c) (c_exclude c) (c_noReturns c) (c_maxDepth c) (c_grep c) (c_classRe c) (c_methodRe c) (c_from c) (c_tid c) (c_verbose c) (c_count c) (c_jsonOut c) (c_noColor c) (c_stack c).
Definition set_runSec (x : Z) (c : config) := Config (c_pid c) (c_name c) x (c_offsets c) (c_libart c) (c_modes c) (c_only c) (c_exclude c) (c_noReturns c) (c_maxDepth c) (c_grep c) (c_classRe c) (c_methodRe c) (c_from c) (c_tid c) (c_verbose c) (c_count c) (c_jsonOut c) (c_noColor c) (c_stack c).
Definition set_offsets (x : string) (c : config) := Config (c_pid c) (c_name c) (c_runSec c) x (c_libart c) (c_modes c) (c_only c) (c_exclude c) (c_noReturns c) (c_maxDepth c) (c_grep c) (c_classRe c) (c_methodRe c) (c_from c) (c_tid c) (c_verbose c) (c_count c) (c_jsonOut c) (c_noColor c) (c_stack c).
Definition set_libart (x : string) (c : config) := Config (c_pid c) (c_name c) (c_runSec c) (c_offsets c) x (c_modes c) (c_only c) (c_exclude c) (c_noReturns c) (c_maxDepth c) (c_grep c) (c_classRe c) (c_methodRe c) (c_from c) (c_tid c) (c_verbose c) (c_count c) (c_jsonOut c) (c_noColor c) (c_stack c).
Definition set_cmodes (x : string) (c : config) := Config (c_pid c) (c_name c) (c_runSec c) (c_offsets c) (c_libart c) x (c_only c) (c_exclude c) (c_noReturns c) (c_maxDepth c) (c_grep c) (c_classRe c) (c_methodRe c) (c_from c) (c_tid c) (c_verbose c) (c_count c) (c_jsonOut c) (c_noColor c) (c_stack c).
Definition set_conly (x : string) (c : config) := Config (c_pid c) (c_name c) (c_runSec c) (c_offsets c) (c_libart c) (c_modes c) x (c_exclude c) (c_noReturns c) (c_maxDepth c) (c_grep c) (c_classRe c) (c_methodRe c) (c_from c) (c_tid c) (c_verbose c) (c_count c) (c_jsonOut c) (c_noColor c) (c_stack c).
Definition set_cexclude (x : string) (c : config) := Config (c_pid c) (c_name c) (c_runSec c) (c_offsets c) (c_libart c) (c_modes c) (c_only c) x (c_noReturns c) (c_maxDepth c) (c_grep c) (c_classRe c) (c_methodRe c) (c_from c) (c_tid c) (c_verbose c) (c_count c) (c_jsonOut c) (c_noColor c) (c_stack c).
Definition set_noReturns (x : bool) (c : config) := Config (c_pid c) (c_name c) (c_runSec c) (c_offsets c) (c_libart c) (c_modes c) (c_only c) (c_exclude c) x (c_maxDepth c) (c_grep c) (c_classRe c) (c_methodRe c) (c_from c) (c_tid c) (c_verbose c) (c_count c) (c_jsonOut c) (c_noColor c) (c_stack c).
Definition set_maxDepth (x : Z) (c : config) := Config (c_pid c) (c_name c) (c_runSec c) (c_offsets c) (c_libart c) (c_modes c) (c_only c) (c_exclude c) (c_noReturns c) x (c_grep c) (c_classRe c) (c_methodRe c) (c_from c) (c_tid c) (c_verbose c) (c_count c) (c_jsonOut c) (c_noColor c) (c_stack c).
Definition set_cgrep (x : string) (c : config) := Config (c_pid c) (c_name c) (c_runSec c) (c_offsets c) (c_libart c) (c_modes c) (c_only c) (c_exclude c) (c_noReturns c) (c_maxDepth c) x (c_classRe c) (c_methodRe c) (c_from c) (c_tid c) (c_verbose c) (c_count c) (c_jsonOut c) (c_noColor c) (c_stack c).
Definition set_classRe (x : string) (c : config) := Config (c_pid c) (c_name c) (c_runSec c) (c_offsets c) (c_libart c) (c_modes c) (c_only c) (c_exclude c) (c_noReturns c) (c_maxDepth c) (c_grep c) x (c_methodRe c) (c_from c) (c_tid c) (c_verbose c) (c_count c) (c_jsonOut c) (c_noColor c) (c_stack c).
Definition set_methodRe (x : string) (c : config) := Config (c_pid c) (c_name c) (c_runSec c) (c_offsets c) (c_libart c) (c_modes c) (c_only c) (c_exclude c) (c_noReturns c) (c_maxDepth c) (c_grep c) (c_classRe c) x (c_from c) (c_tid c) (c_verbose c) (c_count c) (c_jsonOut c) (c_noColor c) (c_stack c).
Definition set_cfrom (x : string) (c : config) := Config (c_pid c) (c_name c) (c_runSec c) (c_offsets c) (c_libart c) (c_modes c) (c_only c) (c_exclude c) (c_noReturns c) (c_maxDepth c) (c_grep c) (c_classRe c) (c_methodRe c) x (c_tid c) (c_verbose c) (c_count c) (c_jsonOut c) (c_noColor c) (c_stack c).
Definition set_tid (x : Z) (c : config) := Config (c_pid c) (c_name c) (c_runSec c) (c_offsets c) (c_libart c) (c_modes c) (c_only c) (c_exclude c) (c_noReturns c) (c_maxDepth c) (c_grep c) (c_classRe c) (c_methodRe c) (c_from c) x (c_verbose c) (c_count c) (c_jsonOut c) (c_noColor c) (c_stack c).
Definition set_verbose (x : bool) (c : config) := Config (c_pid c) (c_name c) (c_runSec c) (c_offsets c) (c_libart c) (c_modes c) (c_only c) (c_exclude c) (c_noReturns c) (c_maxDepth c) (c_grep c) (c_classRe c) (c_methodRe c) (c_from c) (c_tid c) x (c_count c) (c_jsonOut c) (c_noColor c) (c_stack c).
Definition set_count (x : bool) (c : config) := Config (c_pid c) (c_name c) (c_runSec c) (c_offsets c) (c_libart c) (c_modes c) (c_only c) (c_exclude c) (c_noReturns c) (c_maxDepth c) (c_grep c) (c_classRe c) (c_methodRe c) (c_from c) (c_tid c) (c_verbose c) x (c_jsonOut c) (c_noColor c) (c_stack c).
Definition set_jsonOut (x : bool) (c : config) := Config (c_pid c) (c_name c) (c_runSec c) (c_offsets c) (c_libart c) (c_modes c) (c_only c) (c_exclude c) (c_noReturns c) (c_maxDepth c) (c_grep c) (c_classRe c) (c_methodRe c) (c_from c) (c_tid c) (c_verbose c) (c_count c) x (c_noColor c) (c_stack c).
Definition set_noColor (x : bool) (c : config) := Config (c_pid c) (c_name c) (c_runSec c) (c_offsets c) (c_libart c) (c_modes c) (c_only c) (c_exclude c) (c_noReturns c) (c_maxDepth c) (c_grep c) (c_classRe c) (c_methodRe c) (c_from c) (c_tid c) (c_verbose c) (c_count c) (c_jsonOut c) x (c_stack c).
Definition set_stack (x : bool) (c : config) := Config (c_pid c) (c_name c) (c_runSec c) (c_offsets c) (c_libart c) (c_modes c) (c_only c) (c_exclude c) (c_noReturns c) (c_maxDepth c) (c_grep c) (c_classRe c) (c_methodRe c) (c_from c) (c_tid c) (c_verbose c) (c_count c) (c_jsonOut c) (c_noColor c) x.

(** The flags [parseFlags] declares; aliases set the same field. *)
Definition jniprobe_flags : list (string * flag) := [
  ("p", IntVar set_pid); ("pid", IntVar set_pid);
  ("n", StringVar set_name); ("name", StringVar set_name);
  ("run", IntVar set_runSec); ("offsets", StringVar set_offsets); ("libart", StringVar set_libart);
  ("m", StringVar set_cmodes); ("mode", StringVar set_cmodes);
  ("only", StringVar set_conly); ("exclude", StringVar set_cexclude);
  ("no-returns", BoolVar set_noReturns); ("max-depth", IntVar set_maxDepth);
  ("g", StringVar set_cgrep); ("grep", StringVar set_cgrep);
  ("class", StringVar set_classRe); ("method", StringVar set_methodRe);
  ("from", StringVar set_cfrom); ("tid", IntVar set_tid);
  ("v", BoolVar set_verbose); ("verbose", BoolVar set_verbose);
  ("count", BoolVar set_count); ("json", BoolVar set_jsonOut); ("no-color", BoolVar set_noColor);
  ("S", BoolVar set_stack); ("stack", BoolVar set_stack)].

Definition lookup_flag (nm : string) : option flag :=
  snd <$> List.find (fun p => String.eqb p.1 nm) jniprobe_flags.

Definition flag_defaults : config :=
  Config 0 "" 0 "auto" libartDefault "all" "" "" false 0 "" "" "" "" 0 false false false false false.

Definition parseFlags (args : list string) : parsed :=
  parse_args lookup_flag (length args) args flag_defaults.

(** ** main *)

Inductive command := CmdEnv | CmdDump (args : list string) | CmdProbe (c : config) | CmdExit (code : Z).

(** [args] is [os.Args[1:]]. *)
Definition main_dispatch (args : list string) : command :=
  let probe := match parseFlags args with Options c => CmdProbe c | ExitFlags n => CmdExit n end in
  match args with
  | a :: _ => if String.eqb a "env" then CmdEnv else if String.eqb a "dump" then CmdDump args else probe
  | [] => probe
  end.

(** ** The start of runProbe *)

(** What the operating system answers. *)
Record os := Os {
  os_maps : Z -> option string;         (* /proc/<pid>/maps *)
  os_mem : Z -> option memReader;       (* /proc/<pid>/mem *)
  os_proc : option (list string);       (* the entries of /proc *)
  os_cmdline : Z -> option string;      (* /proc/<pid>/cmdline *)
  os_file : string -> option string
}.

Definition fallback_path : string := "/data/local/tmp/jni_offsets.json".

Section Start.
Context {RE : Type} `{Regexp RE}.
Context (quoted_q : string -> string) (iter : gmap string string -> list (string * string)).

Inductive started :=
| Started (pid : Z) (offsets : gmap Z Z) (base : Z) (f : filters RE)
| ExitStart (code : Z)
| Hangs.

(** [pid], or the exit when none is given or found. *)
Definition choose_pid (o : os) (c : config) : Z + Z :=
  if (c_pid c =? 0) && nonempty (c_name c) then
    match resolvePidByName quoted_q (os_cmdline o) (os_proc o) (c_name c) with
    | inl _ => inr 1
    | inr pid => if pid =? 0 then inr 2 else inl pid
    end
  else if c_pid c =? 0 then inr 2 else inl (c_pid c).

(** [None] is a scan that does not end. *)
Definition choose_offsets (o : os) (c : config) (pid : Z) : option (goerr + gmap Z Z) :=
  if String.eqb (c_offsets c) "" || String.eqb (c_offsets c) "auto" then
    match offsetsFromScan pid (os_maps o pid) (os_maps o pid) (os_mem o pid) with
    | None => None
    | Some (inr (out, _)) => Some (inr out)
    | Some (inl _) => Some (offsetsFromFile iter (os_file o fallback_path))
    end
  else Some (offsetsFromFile iter (os_file o (c_offsets c))).

Definition runProbe_start (o : os) (c : config) : started :=
  match choose_pid o c with
  | inr code => ExitStart code
  | inl pid =>
      match choose_offsets o c pid with
      | None => Hangs
      | Some (inl _) => ExitStart 1
      | Some (inr offsets) =>
          if (size offsets <? 100)%nat then ExitStart 1
          else
            match libartBase pid (os_maps o pid) with
            | inl _ => ExitStart 1
            | inr la =>
                match newFilters c with
                | None => ExitStart 2   (* the panic of MustCompile *)
                | Some f => Started pid offsets (la_base la) f
                end
            end
      end
  end.
End Start.

(** ** Lemmas *)

Lemma ParseInt0_FormatInt v : - 2 ^ 63 <= v < 2 ^ 63 -> ParseInt0 (FormatInt v 10) = Some v.
Proof.
  intros Hv. unfold FormatInt. destruct (Z.ltb_spec v 0).
  - unfold ParseInt0. change (code "-" =? 45) with true. cbn [orb].
    rewrite ParseUint_decimal by (unfold fits; lia). cbn [negb andb].
    destruct (Z.ltb_spec (2 ^ 63) (- v)); [lia|]. f_equal. lia.
  - destruct (FormatUint_head v 10) as (d & s & E & Hd); [lia|lia|].
    pose proof (ParseUint_decimal v ltac:(unfold fits; lia)) as HP.
    rewrite E in HP |- *. unfold ParseInt0.
    destruct (digit_char_not_sign d) as [-> ->]; [lia|]. cbn [orb]. rewrite HP. cbn [negb andb].
    destruct (Z.leb_spec (2 ^ 63) v); [lia|done].
Qed.

(** One option written as [-name=value]. *)
Definition flag_arg (nm v : string) : string := "-" ++s nm ++s "=" ++s v.

Definition flag_name_ok (nm : string) : bool := negb (bad_name nm) && negb (sin "=" nm).

Lemma parse_args_step lookup n nm v f args c c' :
  flag_name_ok nm = true -> lookup nm = Some f -> flag_set f v c = Some c' ->
  parse_args lookup (S n) (flag_arg nm v :: args) c = parse_args lookup n args c'.
Proof.
  intros Hok Hl Hs. unfold flag_name_ok in Hok. apply andb_true_iff in Hok as [Hb Heq].
  apply negb_true_iff in Hb, Heq. destruct nm as [|a nm]; [done|].
  cbn in Hb. apply orb_false_iff in Hb as [Ha Ha2]. cbn in Heq. apply orb_false_iff in Heq as [_ Hn].
  unfold flag_arg. cbn [String.append parse_args flag_name]. rewrite Ha.
  assert (String.eqb (String.String "-" (String.String a (nm ++s String.String "=" v))) "--" = false) as ->.
  { apply String.eqb_neq. intros [= -> _]. done. }
  cbn [bad_name]. rewrite Ha, Ha2. cbn [orb split_eq].
  rewrite IndexByte_app by done. rewrite stake_app, sdrop_S_app. by rewrite Hl, Hs.
Qed.

Lemma flag_set_int (set : Z -> config -> config) x c :
  - 2 ^ 63 <= x < 2 ^ 63 -> flag_set (IntVar set) (FormatInt x 10) c = Some (set x c).
Proof. intros Hx. cbn [flag_set]. by rewrite ParseInt0_FormatInt. Qed.

(** A configuration as a command line, every option spelled out. *)
Definition print_config (c : config) : list string := [
  flag_arg "pid" (FormatInt (c_pid c) 10); flag_arg "name" (c_name c);
  flag_arg "run" (FormatInt (c_runSec c) 10); flag_arg "offsets" (c_offsets c);
  flag_arg "libart" (c_libart c); flag_arg "mode" (c_modes c);
  flag_arg "only" (c_only c); flag_arg "exclude" (c_exclude c);
  flag_arg "no-returns" (FormatBool (c_noReturns c)); flag_arg "max-depth" (FormatInt (c_maxDepth c) 10);
  flag_arg "grep" (c_grep c); flag_arg "class" (c_classRe c); flag_arg "method" (c_methodRe c);
  flag_arg "from" (c_from c); flag_arg "tid" (FormatInt (c_tid c) 10);
  flag_arg "verbose" (FormatBool (c_verbose c)); flag_arg "count" (FormatBool (c_count c));
  flag_arg "json" (FormatBool (c_jsonOut c)); flag_arg "no-color" (FormatBool (c_noColor c));
  flag_arg "stack" (FormatBool (c_stack c))].

Definition int_range (x : Z) : Prop := - 2 ^ 63 <= x < 2 ^ 63.

(** ** Properties *)

(** C31. The command line says everything the options can be: any configuration
    whose numbers are Go [int]s, with any texts in its string options, is
    what [parseFlags] returns for its spelled-out command line, so no option
    is lost, mixed up with another, or changed by its default. *)
Theorem parseFlags_print c :
  int_range (c_pid c) -> int_range (c_runSec c) -> int_range (c_maxDepth c) -> int_range (c_tid c) ->
  parseFlags (print_config c) = Options c.
Proof.
  intros H1 H2 H3 H4. unfold parseFlags, print_config. cbn [length].
  assert (Hb : forall (set : bool -> config -> config) b c0,
    flag_set (BoolVar set) (FormatBool b) c0 = Some (set b c0)) by (by intros set [] c0).
  repeat (erewrite parse_args_step; [|reflexivity|reflexivity|
    first [apply flag_set_int; assumption|apply Hb|reflexivity]]).
  cbn [parse_args]. by destruct c.
Qed.

(** An alias and its long form are the same option, the last one given
    wins, and an unknown option, a missing value or a malformed number ends
    the program with status 2 ([-h] with 0) before anything is traced. *)
Theorem parseFlags_errors a b :
  int_range a -> int_range b ->
  parseFlags [flag_arg "p" (FormatInt a 10); flag_arg "pid" (FormatInt b 10)] = Options (set_pid b flag_defaults) /\
  parseFlags ["-p"; FormatInt a 10; "--v"; "-S=true"] = Options (set_stack true (set_verbose true (set_pid a flag_defaults))) /\
  parseFlags ["-depth=3"] = ExitFlags 2 /\ parseFlags ["-p"] = ExitFlags 2 /\
  parseFlags ["-p"; "12x"] = ExitFlags 2 /\ parseFlags ["-h"] = ExitFlags 0 /\
  parseFlags ["app"; "-p=1"] = Options flag_defaults.
Proof.
  intros Ha Hb. split; [|split; [|repeat split]].
  - unfold parseFlags. cbn [length].
    erewrite parse_args_step; [|reflexivity|reflexivity|by apply flag_set_int].
    erewrite parse_args_step; [|reflexivity|reflexivity|by apply flag_set_int].
    done.
  - unfold parseFlags. cbn [length parse_args flag_name].
    change (Ascii.eqb "p" "-") with false. cbn.
    rewrite ParseInt0_FormatInt by done. reflexivity.
Qed.

Section StartProps.
Context {RE : Type} `{Regexp RE}.
Context (quoted_q : string -> string) (iter : gmap string string -> list (string * string)).

Definition auto_offsets (c : config) : bool := String.eqb (c_offsets c) "" || String.eqb (c_offsets c) "auto".

(** A process is chosen as the options say, or the exit code is 1 or 2. *)
Lemma choose_pid_correct (o : os) (c : config) :
  match choose_pid quoted_q o c with
  | inl pid => pid <> 0 /\ (c_pid c <> 0 -> pid = c_pid c) /\
      (c_pid c = 0 -> resolvePidByName quoted_q (os_cmdline o) (os_proc o) (c_name c) = inr pid)
  | inr code => code = 1 \/ code = 2
  end.
Proof.
  unfold choose_pid. destruct (Z.eqb_spec (c_pid c) 0) as [E|E]; cbn [andb]; [|done].
  destruct (nonempty (c_name c)); [|by right].
  destruct (resolvePidByName _ _ _ _) as [|pid]; [by left|].
  by destruct (Z.eqb_spec pid 0); [right|].
Qed.

(** A scan of user-space ranges ends. *)
Lemma offsetsFromScan_ends pid maps maps2 mem :
  (forall rs, libartDataRanges maps2 = inr rs -> Forall user_range rs) ->
  offsetsFromScan pid maps maps2 mem <> None.
Proof.
  intros Hu Es. unfold offsetsFromScan in Es. destruct (libartBase _ _) as [|l]; [done|].
  destruct mem as [m|]; [|done]. destruct (libartDataRanges maps2) as [|rs]; [done|].
  destruct (scan_ranges_total (mr_u64 m) (la_base l) (la_execLo l) (la_execHi l) rs ∅ 0 (Hu rs eq_refl)) as [[o' n'] E].
  rewrite E in Es. by destruct (size o' =? 0)%nat.
Qed.

(** The offsets are those of the scan, of the fallback file after a failed
    scan, or of the file named. *)
Definition offsets_origin (o : os) (c : config) (pid : Z) (offs : gmap Z Z) : Prop :=
  let scan := offsetsFromScan pid (os_maps o pid) (os_maps o pid) (os_mem o pid) in
  if auto_offsets c
  then (exists n, scan = Some (inr (offs, n))) \/
       (exists e, scan = Some (inl e)) /\ offsetsFromFile iter (os_file o fallback_path) = inr offs
  else offsetsFromFile iter (os_file o (c_offsets c)) = inr offs.

Lemma choose_offsets_correct (o : os) (c : config) pid :
  (forall rs, libartDataRanges (os_maps o pid) = inr rs -> Forall user_range rs) ->
  match choose_offsets iter o c pid with
  | None => False
  | Some (inl _) => True
  | Some (inr offs) => offsets_origin o c pid offs
  end.
Proof.
  intros Hu. unfold choose_offsets, offsets_origin, auto_offsets. destruct (_ || _).
  - pose proof (offsetsFromScan_ends pid (os_maps o pid) _ (os_mem o pid) Hu) as Hend.
    destruct (offsetsFromScan _ _ _ _) as [[e|[out n]]|]; [|by left; eauto|done].
    destruct (offsetsFromFile _ _) as [|offs]; [done|]. right. split; [eauto|done].
  - by destruct (offsetsFromFile _ _) as [|offs].
Qed.

(** The start ends, in a start or an exit with 1 or 2. *)
Lemma runProbe_start_ends (o : os) (c : config) :
  (forall pid rs, libartDataRanges (os_maps o pid) = inr rs -> Forall user_range rs) ->
  match runProbe_start quoted_q iter o c with
  | Started _ _ _ _ => True
  | ExitStart code => code = 1 \/ code = 2
  | Hangs => False
  end.
Proof.
  intros Hu. unfold runProbe_start. pose proof (choose_pid_correct o c) as Hpid.
  destruct (choose_pid quoted_q o c) as [pid|code]; [|done].
  pose proof (choose_offsets_correct o c pid (Hu pid)) as Hoff.
  destruct (choose_offsets iter o c pid) as [[|offs]|]; [by left| |done].
  destruct (Nat.ltb_spec (size offs) 100); [by left|].
  destruct (libartBase pid (os_maps o pid)) as [|la]; [by left|]. by destruct (newFilters c); [|right].
Qed.

(** C30. What [runProbe] starts tracing with: a process that is the given one or
    found by name, never 0; at least a hundred slot offsets, from the named
    file, or from the scan, or from the fallback file only after the scan
    failed; the non-zero base [libartBase] reports for that process; and the
    filters of the options.  Otherwise it exits with 1 or 2; and it does not
    hang in the scan when libart is mapped in user space. *)
Theorem runProbe_start_correct (o : os) (c : config) :
  (forall pid rs, libartDataRanges (os_maps o pid) = inr rs -> Forall user_range rs) ->
  match runProbe_start quoted_q iter o c with
  | Started pid offs base f =>
      pid <> 0 /\
      (c_pid c <> 0 -> pid = c_pid c) /\
      (c_pid c = 0 -> resolvePidByName quoted_q (os_cmdline o) (os_proc o) (c_name c) = inr pid) /\
      (100 <= size offs)%nat /\
      offsets_origin o c pid offs /\
      base <> 0 /\ (exists la, libartBase pid (os_maps o pid) = inr la /\ base = la_base la) /\
      newFilters c = Some f
  | ExitStart code => code = 1 \/ code = 2
  | Hangs => False
  end.
Proof.
  intros Hu. unfold runProbe_start.
  pose proof (choose_pid_correct o c) as Hpid.
  destruct (choose_pid quoted_q o c) as [pid|code]; [|done]. destruct Hpid as (P1 & P2 & P3).
  pose proof (choose_offsets_correct o c pid (Hu pid)) as Hoff.
  destruct (choose_offsets iter o c pid) as [[|offs]|]; [by left| |done].
  destruct (Nat.ltb_spec (size offs) 100); [by left|].
  destruct (libartBase pid (os_maps o pid)) as [|la] eqn:El; [by left|].
  destruct (newFilters c) as [f|] eqn:Ef; [|by right].
  do 5 (split; [done|]). split; [|split; [by exists la|done]].
  unfold libartBase in El. destruct (os_maps o pid); [|done].
  destruct (Z.eqb_spec (la_base (fold_left libartBase_line (maps_lines s) (Libart 0 0 0))) 0); [done|].
  by injection El as <-.
Qed.
End StartProps.

(** ** Examples *)

Lemma parseFlags_print_witness : parseFlags (print_config demo_config) = Options demo_config.
Proof. apply (parseFlags_print demo_config); vm_compute; split; congruence. Defined.

Lemma parseFlags_errors_witness : parseFlags ["-p=7"; "-pid=9"] = Options (set_pid 9 flag_defaults).
Proof. exact (proj1 (parseFlags_errors 7 9 ltac:(vm_compute; split; congruence) ltac:(vm_compute; split; congruence))). Defined.

Definition demo_slot_file : string :=
  String.String "{" (String.String "010" (print_members
    (map (fun i => (FormatUint (Z.of_nat i) 10, hex0x (Z.of_nat i * 16))) (seq 4 120)) ++s
    String.String "010" (String.String "}" (String.String "010" "")))).

Definition demo_os : os :=
  Os (fun _ => Some "7000000000-7000100000 r-xp 00000000 fe:00 123 /apex/lib64/libart.so") (fun _ => None) None
     (fun _ => None) (fun path => if String.eqb path fallback_path then Some demo_slot_file else None).

Lemma runProbe_start_correct_witness :
  match runProbe_start (fun s => s) map_to_list demo_os demo_config with
  | Started pid offs base _ => pid = 41 /\ (100 <= size offs)%nat /\ base <> 0
  | _ => False
  end.
Proof.
  pose proof (runProbe_start_correct (fun s => s) map_to_list demo_os demo_config) as T.
  assert (H : match runProbe_start (fun s => s) map_to_list demo_os demo_config with Started _ _ _ _ => True | _ => False end)
    by (vm_compute; exact I).
  destruct (runProbe_start _ _ _ _) as [pid offs base f|code|]; [|destruct H|destruct H].
  destruct T as (_ & T2 & _ & T4 & _ & T6 & _).
  - intros pid' rs E. vm_compute in E. injection E as <-. constructor.
  - split; [apply T2; discriminate|]. split; [exact T4|exact T6].
Defined.
