(* ===== verification/Decode.v ===== *)
(** * Decode: loader/decode.go

    Turning the words of an event into text: handles through the caches and
    the target's memory, JNI values by their schema type, call arguments by
    the method signature and the calling convention of the call variant. *)

From S2P Require Import Prelude GoStr Strconv Utf8 Target Schema FloatFmt Recon Wire.

(** ** Caches *)

Record caches := Caches {
  idName : gmap Z string;       (* jmethodID/jfieldID -> "name(sig)" *)
  idClass : gmap Z Z;           (* jmethodID/jfieldID -> declaring jclass ref *)
  classNames : gmap Z string;   (* jclass ref -> "a.b.C" *)
  nameByClass : gmap Z string;  (* mirror::Class* -> "a.b.C" *)
  objClass : gmap Z Z;          (* mirror::Object* -> mirror::Class* *)
  jstr : gmap Z string          (* jstring -> text *)
}.

Definition newCaches : caches := Caches ∅ ∅ ∅ ∅ ∅ ∅.

(** [FormatUint(v, 16)] behind ["0x"]. *)
Definition resolveObj (mr : option memReader) (v : Z) : Z :=
  match mr with
  | None => 0
  | Some m =>
      if (v =? 0) || (v <? 0x100000) then 0
      else match mr_u32 m (Z.ldiff v 7) with
           | None => 0
           | Some obj => obj
           end
  end.

Definition classNameOfRef (c : caches) (mr : option memReader) (v : Z) : string :=
  if v =? 0 then "null"
  else
    let obj := resolveObj mr v in
    if obj =? 0 then
      match classNames c !! v with
      | Some n => n
      | None => hex0x v
      end
    else
      match nameByClass c !! obj with
      | Some n => n
      | None =>
          match mr ≫= (fun m => mr_u32 m obj) with
          | Some cp => match nameByClass c !! cp with
                       | Some n => n
                       | None => hex0x obj
                       end
          | None => hex0x obj
          end
      end.

Definition objClassName (c : caches) (mr : option memReader) (v : Z) : string :=
  if v =? 0 then "null"
  else match jstr c !! v with
       | Some s => quoted s
       | None =>
           let n := classNameOfRef c mr v in
           if HasPrefix n "0x" then n else n ++s "@0x" ++s FormatUint v 16
       end.

(** ** Values by schema type *)

Definition numeric_types : list string :=
  ["jint"; "jsize"; "jlong"; "jshort"; "jbyte"; "jchar"; "jboolean"; "jfloat"; "jdouble"].

Definition isNumeric (t : string) : bool := existsb (String.eqb t) numeric_types.

Definition fmt_char (v : Z) : string := "'" ++s fmt_c (Z.land v 0xffff) ++s "'".
Definition fmt_bool (v : Z) : string := FormatBool (negb (Z.land v 0xff =? 0)).

Definition fmtNumeric (t : string) (v : Z) : string :=
  if String.eqb t "jboolean" then fmt_bool v
  else if String.eqb t "jbyte" then FormatInt (s8 v) 10
  else if String.eqb t "jchar" then fmt_char v
  else if String.eqb t "jshort" then FormatInt (s16 v) 10
  else if String.eqb t "jint" || String.eqb t "jsize" then FormatInt (s32 v) 10
  else if String.eqb t "jlong" then FormatInt (s64 v) 10
  else if String.eqb t "jfloat" then FormatFloat_g float32info (u32 v)
  else if String.eqb t "jdouble" then FormatFloat_g float64info v
  else hex0x v.

Definition is_object_type (t : string) : bool :=
  HasPrefix t "jobject" || HasPrefix t "jarray" || HasPrefix t "jthrowable".

Definition is_cstring_type (t : string) : bool :=
  String.eqb t "const char*" || String.eqb t "char*".

Definition fmt_id (c : caches) (v : Z) : string :=
  match idName c !! v with Some n => n | None => hex0x v end.

Definition fmt_jstring (c : caches) (mr : option memReader) (v : Z) : string :=
  match jstr c !! v with Some s => quoted s | None => classNameOfRef c mr v end.

Definition fmt_cstring (mr : option memReader) (v : Z) : string :=
  if v =? 0 then "NULL" else quoted (mr_cstr mr v).

Definition fmtArg (c : caches) (mr : option memReader) (typ : string) (v : Z) : string :=
  if String.eqb typ "JNIEnv*" || String.eqb typ "" then ""
  else if isNumeric typ then fmtNumeric typ v
  else if String.eqb typ "jclass" then classNameOfRef c mr v
  else if String.eqb typ "jmethodID" || String.eqb typ "jfieldID" then fmt_id c v
  else if String.eqb typ "jstring" then fmt_jstring c mr v
  else if is_object_type typ then objClassName c mr v
  else if is_cstring_type typ then fmt_cstring mr v
  else hex0x v.

Definition fmtRet (c : caches) (mr : option memReader) (typ : string) (v : Z) : string :=
  if String.eqb typ "void" || String.eqb typ "" then "void"
  else if isNumeric typ then fmtNumeric typ v
  else if String.eqb typ "jclass" then classNameOfRef c mr v
  else if String.eqb typ "jstring" then fmt_jstring c mr v
  else if String.eqb typ "jmethodID" || String.eqb typ "jfieldID" then fmt_id c v
  else if is_object_type typ then objClassName c mr v
  else if is_cstring_type typ then fmt_cstring mr v
  else hex0x v.

(** ** Signatures *)

(** [for i < len(sig) && f(sig[i]) { i++ }]. *)
Fixpoint skip_while (fuel : nat) (f : ascii -> bool) (sig : string) (i : nat) : nat :=
  match fuel with
  | O => i
  | S k => match sat sig i with
           | Some c => if f c then skip_while k f sig (S i) else i
           | None => i
           end
  end.

Definition not_semi (c : ascii) : bool := negb (Ascii.eqb c ";").
Definition is_lbrack (c : ascii) : bool := Ascii.eqb c "[".

(** The switch: where the parameter starting at [i] ends. *)
Definition param_end (sig : string) (i : nat) : nat :=
  let n := S (slen sig) in
  match sat sig i with
  | Some c =>
      if Ascii.eqb c "L" then S (skip_while n not_semi sig i)
      else if Ascii.eqb c "[" then
        let j := skip_while n is_lbrack sig (S i) in
        match sat sig j with
        | Some d => if Ascii.eqb d "L" then S (skip_while n not_semi sig j) else S j
        | None => S j
        end
      else S i
  | None => S i
  end.

(** The loop of [parseParams]; [None] only when [fuel] runs out. *)
Fixpoint params_loop (fuel : nat) (sig : string) (i : nat) (out : list string)
  : option (list string) :=
  match fuel with
  | O => None
  | S f =>
      match sat sig i with
      | None => Some out
      | Some c =>
          if Ascii.eqb c ")" then Some out
          else
            let j := param_end sig i in
            params_loop f sig j
              (if (i <? j)%nat && (j <=? slen sig)%nat
               then out ++ [stake (j - i) (sdrop i sig)] else out)
      end
  end.

Definition parseParams (sig : string) : list string :=
  match sat sig 0 with
  | Some c => if Ascii.eqb c "(" then default [] (params_loop (S (slen sig)) sig 1 []) else []
  | None => []
  end.

Definition fmtJV (t : string) (v : Z) (c : caches) (mr : option memReader) : string :=
  if String.eqb t "Z" then fmt_bool v
  else if String.eqb t "B" then FormatInt (s8 v) 10
  else if String.eqb t "C" then fmt_char v
  else if String.eqb t "S" then FormatInt (s16 v) 10
  else if String.eqb t "I" then FormatInt (s32 v) 10
  else if String.eqb t "J" then FormatInt (s64 v) 10
  else if String.eqb t "F" then FormatFloat_g float32info (u32 v)
  else if String.eqb t "D" then FormatFloat_g float64info v
  else objClassName c mr v.

(** ** Argument snapshots *)

Definition decodeA_one (e : reconEvt) (c : caches) (mr : option memReader) (i : nat) (t : string) : string :=
  if (go_NCAP <=? i)%nat then "?" else fmtJV t (nth i (Cap e) 0) c mr.

Definition decodeA (e : reconEvt) (params : list string) (c : caches) (mr : option memReader) : list string :=
  imap (decodeA_one e c mr) params.

(** A word of a snapshot, zero outside it. *)
Definition cap_word (l : list Z) (idx : Z) : Z :=
  if (0 <=? idx) && (idx <? Z.of_nat go_NCAP) then nthZ l idx else 0.

Fixpoint decodeV_loop (e : reconEvt) (grBase : Z) (grOffs stack : Z) (params : list string)
    (c : caches) (mr : option memReader) : list string :=
  match params with
  | [] => []
  | t :: params' =>
      if String.eqb t "F" || String.eqb t "D"
      then "?" :: decodeV_loop e grBase grOffs stack params' c mr
      else if negb (Vgr e =? 0) && (grOffs <? 0) then
        let idx := Z.quot (s64 (s64 (s64 (Vgr e) + grOffs) - s64 grBase)) 8 in
        fmtJV t (cap_word (Cap e) idx) c mr
          :: decodeV_loop e grBase (s64 (grOffs + 8)) stack params' c mr
      else
        let idx := u64 (stack - Vstk e) / 8 in
        fmtJV t (cap_word (Cap2 e) idx) c mr
          :: decodeV_loop e grBase grOffs (u64 (stack + 8)) params' c mr
  end.

Definition decodeV (e : reconEvt) (params : list string) (c : caches) (mr : option memReader) : list string :=
  decodeV_loop e (u64 (Vgr e - 128)) (Vgoff e) (Vstk e) params c mr.

Definition decodeDirect_one (e : reconEvt) (c : caches) (mr : option memReader) (i : nat) (t : string) : string :=
  if (Ncap e <=? Z.of_nat i) || (2 <=? i)%nat then "?" else fmtJV t (nth i (Cap e) 0) c mr.

Definition decodeDirect (e : reconEvt) (params : list string) (c : caches) (mr : option memReader) : list string :=
  imap (decodeDirect_one e c mr) params.

Definition splitNameSig (s : string) : string * string :=
  match IndexByte s "(" with
  | Some i => (stake i s, sdrop i s)
  | None => (s, "")
  end.

Definition describeCall (e : reconEvt) (nm : string) (c : caches) (mr : option memReader) : string * bool :=
  match isCallMethod nm with
  | None => ("", false)
  | Some midIdx =>
      let mid := nthZ (A e) midIdx in
      match idName c !! mid with
      | None => (nm ++s " mid=" ++s hex0x mid ++s " (?)", false)
      | Some full =>
          let '(mname, msig) := splitNameSig full in
          let cls := classNameOfRef c mr (nthZ (A e) 1) in
          let cls := if HasPrefix cls "0x" then
                       match idClass c !! mid with
                       | Some cl => classNameOfRef c mr cl
                       | None => cls
                       end
                     else cls in
          let cls := if String.eqb cls "" then "?" else cls in
          let params := parseParams msig in
          let args := if HasSuffix nm "A" then decodeA e params c mr
                      else if HasSuffix nm "V" then decodeV e params c mr
                      else decodeDirect e params c mr in
          (cls ++s "." ++s mname ++s "(" ++s Join args ", " ++s ")", true)
      end
  end.

(** ** Validation and indentation *)

Definition validName (s : string) : bool :=
  if (slen s =? 0)%nat || (200 <? slen s)%nat then false
  else sall (fun c => negb ((code c <? 0x20) || (0x7e <? code c))) s.

Definition sig_heads : list ascii :=
  ["("; "L"; "["; "Z"; "B"; "C"; "S"; "I"; "J"; "F"; "D"]%char.

Definition validSig (s : string) : bool :=
  if (slen s =? 0)%nat || (300 <? slen s)%nat then false
  else match sat s 0 with
       | Some c => existsb (Ascii.eqb c) sig_heads
       | None => false
       end.

Definition indentStr (d : Z) : string :=
  if d <=? 0 then "" else Repeat "  " (Z.to_nat (if 24 <? d then 24 else d)).
