(* ===== verification/FloatRead.v ===== *)
(** * FloatRead: the numbers the loader prints are the numbers it was given

    A reader for decimal text, what it means for a decimal to round to a
    float, and the proof that the shortest form of FloatFmt reads back to the
    float printed: no other float of the format is as near. *)

From S2P Require Import Prelude GoStr Strconv Utf8 Target FloatFmt Decode.
Import String.

(** ** Reading *)

Fixpoint dec_digits (s : string) : option (list Z) :=
  match s with
  | EmptyString => Some []
  | String a s' =>
      if (48 <=? code a) && (code a <=? 57) then cons (code a - 48) <$> dec_digits s' else None
  end.

Definition cut (s : string) (c : ascii) : string * option string :=
  match IndexByte s c with
  | None => (s, None)
  | Some i => (stake i s, Some (sdrop (S i) s))
  end.

Definition read_sign (s : string) : bool * string :=
  match s with
  | String a s' => if Ascii.eqb a "-" then (true, s') else (false, s)
  | EmptyString => (false, s)
  end.

Definition read_exp (s : string) : option Z :=
  match s with
  | String a s' =>
      if Ascii.eqb a "-" then Z.opp ∘ dval 10 0 <$> dec_digits s'
      else if Ascii.eqb a "+" then dval 10 0 <$> dec_digits s'
      else None
  | EmptyString => None
  end.

(** The sign, the digits [c] and the exponent [k] of a decimal [c * 10^k]. *)
Definition read_decimal (s : string) : option (bool * Z * Z) :=
  let '(neg, s) := read_sign s in
  let '(m, x) := cut s "e" in
  let '(ip, fp) := cut m "." in
  ip ← dec_digits ip;
  fp ← dec_digits (default EmptyString fp);
  x ← (match x with None => Some 0 | Some x => read_exp x end);
  Some (neg, dval 10 0 (ip ++ fp), x - Z.of_nat (length fp)).

(** ** Rounding *)

(** The finite floats of a format. *)
Record is_float (fi : fmt_info) (d : decoded) : Prop := IsFloat {
  fl_mant : 0 <= f_mant d < 2 ^ (mantbits fi + 1);
  fl_exp : 1 + bias fi - mantbits fi <= f_exp d;
  fl_normal : f_exp d = 1 + bias fi - mantbits fi \/ 2 ^ mantbits fi <= f_mant d
}.

(** Everything is scaled by [2^1100], which makes every float an integer, and
    by the power of ten of the decimal's denominator. *)
Definition scaled_dec (c k : Z) : Z := c * 10 ^ Z.max 0 k * 2 ^ 1100.
Definition scaled_float (d : decoded) (k : Z) : Z := f_mant d * 2 ^ (f_exp d + 1100) * 10 ^ Z.max 0 (- k).

(** The distance of [c * 10^k] from a float. *)
Definition off_by (c k : Z) (d : decoded) : Z := Z.abs (scaled_dec c k - scaled_float d k).

(** [c * 10^k] rounds to [d]: no float is nearer, and of two equally near [d] is
    the one with the even mantissa. *)
Definition rounds_to (fi : fmt_info) (c k : Z) (d : decoded) : Prop :=
  forall d', is_float fi d' ->
    off_by c k d < off_by c k d' \/
    scaled_float d' k = scaled_float d k \/
    (off_by c k d = off_by c k d' /\ Z.even (f_mant d) = true).

(** The text of a float reads back to it. *)
Definition reads_back (fi : fmt_info) (bits : Z) (text : string) : Prop :=
  match classify fi bits with
  | FNaN => text = "NaN"%string
  | FInf neg => text = if neg then "-Inf"%string else "+Inf"%string
  | FFin d => exists c k, read_decimal text = Some (f_neg d, c, k) /\ rounds_to fi c k d
  end.

(** ** The text *)

Definition is_dec (l : list Z) : Prop := Forall (fun d => 0 <= d < 10) l.

Abbreviation dtext l := (digit_string l EmptyString).

Lemma digit_string_rest l r : digit_string l r = dtext l ++s r.
Proof. induction l as [|d l IH]; cbn; [done|by rewrite IH]. Qed.

Lemma dtext_app a b : dtext (a ++ b) = dtext a ++s dtext b.
Proof. by rewrite digit_string_app, digit_string_rest. Qed.

Lemma slen_dtext l : slen (dtext l) = length l.
Proof. induction l as [|d l IH]; cbn; [done|by rewrite IH]. Qed.

Lemma stake_dtext n l : stake n (dtext l) = dtext (take n l).
Proof. revert l. induction n as [|n IH]; intros [|d l]; cbn; try done. by rewrite IH. Qed.

Lemma sdrop_dtext n l : sdrop n (dtext l) = dtext (drop n l).
Proof. revert l. induction n as [|n IH]; intros [|d l]; cbn; try done. Qed.

Lemma Repeat_dtext n : Repeat "0" n = dtext (repeat 0 n).
Proof. induction n as [|n IH]; cbn; [done|by rewrite IH]. Qed.

Lemma code_dec d : 0 <= d < 10 -> code (digit_char d) = 48 + d.
Proof. intros Hd. rewrite code_digit_char by lia. destruct (Z.ltb_spec d 10); lia. Qed.

Lemma dec_digits_dtext l : is_dec l -> dec_digits (dtext l) = Some l.
Proof.
  induction 1 as [|d l Hd _ IH]; [done|]. cbn [digit_string dec_digits]. rewrite code_dec, IH by done.
  destruct (Z.leb_spec 48 (48 + d)), (Z.leb_spec (48 + d) 57); try lia. cbn. by replace (48 + d - 48) with d by lia.
Qed.

Lemma dtext_sin (c : ascii) l : is_dec l -> ~ 48 <= code c <= 57 -> sin c (dtext l) = false.
Proof.
  intros Hl Hc. induction Hl as [|d l Hd _ IH]; [done|]. cbn [digit_string sin].
  destruct (Ascii.eqb_spec (digit_char d) c) as [<-|]; [|done]. destruct Hc. rewrite code_dec by done. lia.
Qed.

Lemma cut_app a c b : sin c a = false -> cut (a ++s String c b) c = (a, Some b).
Proof. intros Ha. unfold cut. by rewrite IndexByte_app, stake_app, sdrop_S_app by done. Qed.

Lemma cut_none a c : sin c a = false -> cut a c = (a, None).
Proof. intros Ha. unfold cut. by rewrite (proj2 (IndexByte_None a c) Ha). Qed.

(** A decimal in the form both printers use: the digits before the point, those
    after it, and the exponent with its sign. *)
Definition sign_text (neg : bool) : string := if neg then "-" else EmptyString.
Definition point_text (fp : list Z) : string := if (0 <? length fp)%nat then "." ++s dtext fp else EmptyString.
Definition exp_text (x : option (bool * list Z)) : string :=
  match x with None => EmptyString | Some (n, xs) => "e" ++s (if n : bool then "-" else "+") ++s dtext xs end.
Definition exp_val (x : option (bool * list Z)) : Z :=
  match x with None => 0 | Some (n, xs) => if n : bool then - dval 10 0 xs else dval 10 0 xs end.

Lemma read_sign_text neg ip r :
  is_dec ip -> ip <> [] -> read_sign (sign_text neg ++s dtext ip ++s r) = (neg, dtext ip ++s r).
Proof.
  intros Hip Hne. destruct neg; [done|]. destruct Hip as [|d l Hd _]; [done|]. cbn [sign_text String.append digit_string].
  cbn. destruct (Ascii.eqb_spec (digit_char d) "-") as [E|]; [|done]. apply (f_equal code) in E.
  rewrite code_dec in E by done. change (code "-") with 45 in E. lia.
Qed.

Lemma read_decimal_text neg ip fp x :
  is_dec ip -> ip <> [] -> is_dec fp -> match x with None => True | Some (_, xs) => is_dec xs end ->
  read_decimal (sign_text neg ++s dtext ip ++s point_text fp ++s exp_text x) =
  Some (neg, dval 10 0 (ip ++ fp), exp_val x - Z.of_nat (length fp)).
Proof.
  intros Hip Hne Hfp Hx. unfold read_decimal. rewrite read_sign_text by done.
  set (m := dtext ip ++s point_text fp).
  assert (Hs : sin "e" m = false).
  { unfold m. rewrite sin_app, dtext_sin by (done || (vm_compute; tauto)). unfold point_text.
    destruct (0 <? _)%nat; [|done]. cbn. apply dtext_sin; [done|]. vm_compute. tauto. }
  assert (Hc : cut (dtext ip ++s point_text fp ++s exp_text x) "e" =
    (m, match x with None => None | Some (n, xs) => Some ((if n : bool then "-" else "+") ++s dtext xs) end)).
  { rewrite <- sapp_assoc. fold m. destruct x as [[n xs]|]; cbn [exp_text].
    - by apply (cut_app m "e").
    - rewrite sapp_nil_r. by apply cut_none. }
  rewrite Hc. assert (Hp : cut m "." = (dtext ip, if (0 <? length fp)%nat then Some (dtext fp) else None)).
  { assert (Hd : sin "." (dtext ip) = false) by (apply dtext_sin; [done|vm_compute; tauto]).
    unfold m, point_text. destruct (0 <? length fp)%nat; [by apply (cut_app _ ".")|].
    rewrite sapp_nil_r. by apply cut_none. }
  rewrite Hp, dec_digits_dtext by done. cbn [mbind option_bind].
  assert (Hf : dec_digits (default EmptyString (if (0 <? length fp)%nat then Some (dtext fp) else None)) = Some fp).
  { destruct fp; [done|]. by apply dec_digits_dtext. }
  rewrite Hf. cbn [mbind option_bind]. destruct x as [[n xs]|]; [|done].
  destruct n; cbn; by rewrite dec_digits_dtext.
Qed.

(** ** The two printers *)

Lemma dval_cat base n a b : dval base n (a ++ b) = dval base (dval base n a) b.
Proof. revert n. induction a; intros; cbn; auto. Qed.

Lemma dval_zeros base n j : dval base n (repeat 0 j) = n * base ^ Z.of_nat j.
Proof.
  revert n. induction j as [|j IH]; intros n; cbn [repeat dval]; [lia|].
  rewrite IH, Nat2Z.inj_succ, Z.pow_succ_r by lia. ring.
Qed.

Lemma is_dec_zeros j : is_dec (repeat 0 j).
Proof. induction j; constructor; [lia|done]. Qed.

Lemma is_dec_app a b : is_dec a -> is_dec b -> is_dec (a ++ b).
Proof. intros Ha Hb. by apply Forall_app. Qed.

Lemma is_dec_take n l : is_dec l -> is_dec (take n l).
Proof. apply Forall_take. Qed.

Lemma is_dec_drop n l : is_dec l -> is_dec (drop n l).
Proof. apply Forall_drop. Qed.

Lemma is_dec_zero : is_dec [0].
Proof. by constructor. Qed.
#[local] Hint Resolve is_dec_zeros is_dec_app is_dec_take is_dec_drop is_dec_zero : core.

Lemma read_fmtE neg l dp :
  is_dec l -> l <> [] ->
  read_decimal (fmtE neg (dtext l) dp) = Some (neg, dval 10 0 l, dp - Z.of_nat (length l)).
Proof.
  intros Hl Hne. unfold fmtE. rewrite slen_dtext. destruct l as [|d l]; [done|]. cbn [length Nat.eqb].
  destruct (FormatUint_spec (Z.abs (dp - 1)) 10 ltac:(lia) ltac:(lia)) as (xs & -> & Hxs & Hxv & _).
  set (zs := repeat 0 (2 - length xs) ++ xs).
  assert (Hz : is_dec zs) by (unfold zs; auto).
  assert (Hpad : pad_left "0" 2 (dtext xs) = dtext zs)
    by (unfold pad_left, zs; by rewrite slen_dtext, Repeat_dtext, dtext_app).
  rewrite Hpad, stake_dtext, sdrop_dtext.
  change (take 1 (d :: l)) with [d]. change (drop 1 (d :: l)) with l.
  pose proof (read_decimal_text neg [d] l (Some (dp - 1 <? 0, zs))) as R. unfold sign_text, point_text, exp_text in R.
  apply Forall_cons in Hl as [Hd Hl].
  replace (if (1 <? S (length l))%nat then "." ++s dtext l else EmptyString)
    with (if (0 <? length l)%nat then "." ++s dtext l else EmptyString) by by destruct l.
  rewrite R; [|by constructor|done|done|done]. f_equal. f_equal. cbn [exp_val].
  assert (Hv : dval 10 0 zs = Z.abs (dp - 1)).
  { unfold zs. rewrite dval_cat, dval_zeros, Z.mul_0_l. done. }
  rewrite Hv. rewrite Nat2Z.inj_succ. destruct (Z.ltb_spec (dp - 1) 0); lia.
Qed.

(** [fmtF] pads with zeros, so its reading may have a larger exponent. *)
Lemma read_fmtF neg l dp :
  is_dec l -> l <> [] ->
  exists k, read_decimal (fmtF neg (dtext l) dp) =
    Some (neg, dval 10 0 l * 10 ^ Z.max 0 (dp - Z.of_nat (length l)), k) /\
    k = Z.min 0 (dp - Z.of_nat (length l)).
Proof.
  intros Hl Hne. unfold fmtF. rewrite slen_dtext. set (n := Z.of_nat (length l)).
  assert (Hn : 0 < n) by (unfold n; destruct l; [done|cbn; lia]).
  rewrite !Repeat_dtext, sdrop_dtext, stake_dtext. eexists. split; [|reflexivity].
  set (ip := if 0 <? dp then take (Z.to_nat dp) l ++ repeat 0 (Z.to_nat (dp - n)) else [0]).
  set (fp := if 0 <? Z.max (n - dp) 0 then repeat 0 (Z.to_nat (- dp)) ++ drop (Z.to_nat dp) l else []).
  assert (Hip : is_dec ip) by (unfold ip; destruct (0 <? dp); auto).
  assert (Hfp : is_dec fp) by (unfold fp; destruct (0 <? Z.max (n - dp) 0); [auto|constructor]).
  assert (Hine : ip <> []).
  { unfold ip. destruct (Z.ltb_spec 0 dp); [|done]. intros E. apply (f_equal length) in E.
    rewrite length_app, length_take in E. cbn [length] in E. lia. }
  assert (Hlf : Z.of_nat (length fp) = Z.max 0 (n - dp)).
  { unfold fp. destruct (Z.ltb_spec 0 (Z.max (n - dp) 0)); [|cbn; lia].
    rewrite length_app, repeat_length, length_drop. unfold n in *. lia. }
  pose proof (read_decimal_text neg ip fp None Hip Hine Hfp I) as R. cbn [exp_text exp_val] in R.
  rewrite sapp_nil_r in R. rewrite Hlf in R.
  assert (Ei : (if 0 <? dp then dtext (take (Z.to_nat dp) l) ++s dtext (repeat 0 (Z.to_nat (dp - n))) else "0"%string) = dtext ip).
  { unfold ip. destruct (0 <? dp); [by rewrite dtext_app|done]. }
  assert (Ef : (if 0 <? Z.max (n - dp) 0 then "." ++s dtext (repeat 0 (Z.to_nat (- dp))) ++s dtext (drop (Z.to_nat dp) l)
    else EmptyString) = point_text fp).
  { unfold point_text. destruct (Z.ltb_spec 0 (Z.max (n - dp) 0)) as [Hp|Hp].
    - destruct (Nat.ltb_spec 0 (length fp)); [|lia]. unfold fp. destruct (Z.ltb_spec 0 (Z.max (n - dp) 0)); [|lia].
      by rewrite dtext_app.
    - destruct (Nat.ltb_spec 0 (length fp)); [lia|done]. }
  rewrite Ei, Ef. unfold sign_text in R. rewrite R. f_equal. f_equal; [f_equal|lia].
  rewrite dval_cat. unfold ip, fp. destruct (Z.ltb_spec 0 dp).
  - destruct (Z.ltb_spec 0 (Z.max (n - dp) 0)) as [Hp|Hp].
    + replace (Z.to_nat (dp - n)) with 0%nat by lia. replace (Z.to_nat (- dp)) with 0%nat by lia.
      replace (Z.max 0 (dp - n)) with 0 by lia. cbn [repeat].
      rewrite app_nil_r, app_nil_l, <- dval_cat, take_drop. lia.
    + rewrite take_ge by (unfold n in *; lia). cbn [dval]. rewrite dval_cat, dval_zeros. f_equal. f_equal. lia.
  - destruct (Z.ltb_spec 0 (Z.max (n - dp) 0)); [|lia]. replace (Z.to_nat dp) with 0%nat by lia.
    replace (Z.max 0 (dp - n)) with 0 by lia. rewrite drop_0, dval_cat, dval_zeros.
    change (dval 10 0 [0]) with 0. rewrite Z.mul_0_l. lia.
Qed.

(** ** Neighbours *)

(** Another float is the same, at least one gap away, or, below a power of two,
    half a gap. *)
Lemma neighbours M emin E m E' m' :
  1 <= M -> 0 <= emin <= E -> emin <= E' -> 0 <= m < 2 * M -> 0 <= m' < 2 * M -> (E = emin \/ M <= m) ->
  let V := m * 2 ^ E in let V' := m' * 2 ^ E' in
  V' = V \/ V + 2 ^ E <= V' \/ V' + 2 ^ E <= V \/ (m = M /\ E <> emin /\ 2 * V' + 2 ^ E <= 2 * V).
Proof.
  intros HM HE HE' Hm Hm' Hn V V'. assert (Hg : 0 < 2 ^ E) by (apply Z.pow_pos_nonneg; lia).
  destruct (Z_le_gt_dec E E') as [Hle|Hgt].
  - set (z := m' * 2 ^ (E' - E)).
    assert (HV : V' = z * 2 ^ E).
    { unfold V', z. rewrite <- Z.mul_assoc, <- Z.pow_add_r by lia. do 2 f_equal. lia. }
    unfold V. rewrite HV. clearbody z. destruct (Z.lt_trichotomy z m) as [Hz|[->|Hz]]; [|by left|].
    + right. right. left. nia.
    + right. left. nia.
  - destruct Hn as [->|Hn]; [lia|]. set (t := 2 ^ (E - E' - 1)).
    assert (Ht : 0 < t) by (apply Z.pow_pos_nonneg; lia).
    assert (HgE : 2 ^ E = 2 * t * 2 ^ E').
    { unfold t. rewrite <- Z.pow_succ_r, <- Z.pow_add_r by lia. f_equal. lia. }
    assert (Hg' : 0 < 2 ^ E') by (apply Z.pow_pos_nonneg; lia). unfold V, V' in *. rewrite HgE in *.
    set (g' := 2 ^ E') in *. clearbody g' t. right. right. destruct (Z.eq_dec m M) as [->|Hne].
    + right. split; [done|]. split; [lia|].
      assert (2 * m' + 2 * t <= 2 * (M * (2 * t))) by nia. nia.
    + left. assert (m' + 2 * t <= m * (2 * t)) by nia. nia.
Qed.

(** The nearest float, from the bounds of the interval; [g] is the gap. *)
Lemma nearest_in_interval A V V' g (even : bool) (boundary : Prop) :
  0 < g ->
  (if even then 4 * V - 2 * g <= 4 * A else 4 * V - 2 * g < 4 * A) ->
  (if even then 4 * A <= 4 * V + 2 * g else 4 * A < 4 * V + 2 * g) ->
  (boundary -> if even then 4 * V - g <= 4 * A else 4 * V - g < 4 * A) ->
  V' = V \/ V + g <= V' \/ V' + g <= V \/ (boundary /\ 2 * V' + g <= 2 * V) ->
  Z.abs (A - V) < Z.abs (A - V') \/ V' = V \/ (Z.abs (A - V) = Z.abs (A - V') /\ even = true).
Proof.
  intros Hg Hlo Hhi Hb [E|[E|[E|[B E]]]]; [by right; left| | |].
  - destruct even; lia.
  - destruct even; lia.
  - specialize (Hb B). destruct even; lia.
Qed.

Definition format (fi : fmt_info) : Prop := fi = float32info \/ fi = float64info.

Definition min_exp (fi : fmt_info) : Z := 1 + bias fi - mantbits fi.

(** What [classify] gives. *)
Record classified (fi : fmt_info) (d : decoded) : Prop := Classified {
  cl_float : is_float fi d;
  cl_top : f_exp d <= 971;
  cl_min : f_min d = (f_exp d =? min_exp fi)
}.

Lemma format_bounds fi : format fi -> 1 <= mantbits fi <= 52 /\ -1074 <= min_exp fi.
Proof. unfold min_exp. intros [-> | ->]; cbn; lia. Qed.

(** A comparison with a bound of the interval, scaled. *)
Lemma scale_bound e X P l (Q : Z -> Z -> Prop) :
  -1100 <= e -> (forall x y z, 0 < z -> Q x y -> Q (x * z) (y * z)) ->
  Q (X * (4 * 2 ^ Z.max 0 (- e))) (l * 2 ^ Z.max 0 e * P) ->
  Q (4 * (X * 2 ^ 1100)) (l * (2 ^ (e + 1100) * P)).
Proof.
  intros He HQ Hq. specialize (HQ _ _ (2 ^ (1100 - Z.max 0 (- e))) ltac:(apply Z.pow_pos_nonneg; lia) Hq).
  assert (E1 : 2 ^ 1100 = 2 ^ Z.max 0 (- e) * 2 ^ (1100 - Z.max 0 (- e))) by (rewrite <- Z.pow_add_r by lia; f_equal; lia).
  assert (E2 : 2 ^ (e + 1100) = 2 ^ Z.max 0 e * 2 ^ (1100 - Z.max 0 (- e))) by (rewrite <- Z.pow_add_r by lia; f_equal; lia).
  rewrite E1, E2. clear E1 E2.
  set (u := 2 ^ Z.max 0 (- e)) in *. set (w := 2 ^ Z.max 0 e) in *. set (z := 2 ^ (1100 - _)) in *. clearbody u w z.
  replace (4 * (X * (u * z))) with (X * (4 * u) * z) by ring.
  replace (l * (w * z * P)) with (l * w * P * z) by ring. exact HQ.
Qed.

Lemma above_lo_bound i c k :
  above_lo i c k = true ->
  if i_incl i then i_lo i * 10 ^ Z.max 0 (- k) <= c * 10 ^ Z.max 0 k * i_den i
  else i_lo i * 10 ^ Z.max 0 (- k) < c * 10 ^ Z.max 0 k * i_den i.
Proof. unfold above_lo, cmp_dec. destruct (Z.compare_spec (c * 10 ^ Z.max 0 k * i_den i) (i_lo i * 10 ^ Z.max 0 (- k))), (i_incl i); intros; try done; lia. Qed.

Lemma below_hi_bound i c k :
  below_hi i c k = true ->
  if i_incl i then c * 10 ^ Z.max 0 k * i_den i <= i_hi i * 10 ^ Z.max 0 (- k)
  else c * 10 ^ Z.max 0 k * i_den i < i_hi i * 10 ^ Z.max 0 (- k).
Proof. unfold below_hi, cmp_dec. destruct (Z.compare_spec (c * 10 ^ Z.max 0 k * i_den i) (i_hi i * 10 ^ Z.max 0 (- k))), (i_incl i); intros; try done; lia. Qed.

(** The interval of a float lies between the midpoints to its neighbours. *)
Lemma interval_bounds fi d c k :
  -1100 <= f_exp d ->
  above_lo (interval_of fi d) c k = true -> below_hi (interval_of fi d) c k = true ->
  let A := scaled_dec c k in let V := scaled_float d k in
  let g := 2 ^ (f_exp d + 1100) * 10 ^ Z.max 0 (- k) in
  (if Z.even (f_mant d) then 4 * V - 2 * g <= 4 * A else 4 * V - 2 * g < 4 * A) /\
  (if Z.even (f_mant d) then 4 * A <= 4 * V + 2 * g else 4 * A < 4 * V + 2 * g) /\
  (f_mant d = 2 ^ mantbits fi /\ f_min d = false ->
    if Z.even (f_mant d) then 4 * V - g <= 4 * A else 4 * V - g < 4 * A).
Proof.
  intros He Ha Hb A V g. apply above_lo_bound in Ha. apply below_hi_bound in Hb.
  unfold interval_of in Ha, Hb. cbn [i_lo i_hi i_den i_incl] in Ha, Hb.
  set (l := if (f_mant d =? 2 ^ mantbits fi) && negb (f_min d) then 4 * f_mant d - 1 else 4 * f_mant d - 2) in *.
  assert (Hl : 4 * f_mant d - 2 <= l /\ (f_mant d = 2 ^ mantbits fi /\ f_min d = false -> l = 4 * f_mant d - 1)).
  { unfold l. destruct (Z.eqb_spec (f_mant d) (2 ^ mantbits fi)), (f_min d); cbn; intuition (done || lia). }
  assert (Hg : 0 < g) by (apply Z.mul_pos_pos; apply Z.pow_pos_nonneg; lia).
  assert (HV : V = f_mant d * g) by (unfold V, scaled_float, g; ring).
  assert (HA : A = c * 10 ^ Z.max 0 k * 2 ^ 1100) by done. clearbody l.
  set (X := c * 10 ^ Z.max 0 k) in *. set (P := 10 ^ Z.max 0 (- k)) in *.
  assert (Hlo : if Z.even (f_mant d) then l * g <= 4 * A else l * g < 4 * A).
  { rewrite HA. unfold g. fold P. destruct (Z.even (f_mant d)).
    - apply (scale_bound _ X P l (fun x y => y <= x)); [lia| |exact Ha]. intros; nia.
    - apply (scale_bound _ X P l (fun x y => y < x)); [lia| |exact Ha]. intros; nia. }
  assert (Hhi : if Z.even (f_mant d) then 4 * A <= (4 * f_mant d + 2) * g else 4 * A < (4 * f_mant d + 2) * g).
  { rewrite HA. unfold g. fold P. destruct (Z.even (f_mant d)).
    - apply (scale_bound _ X P _ (fun x y => x <= y)); [lia| |exact Hb]. intros; nia.
    - apply (scale_bound _ X P _ (fun x y => x < y)); [lia| |exact Hb]. intros; nia. }
  rewrite HV. clearbody g A. destruct Hl as [Hl1 Hl2].
  split; [destruct (Z.even _); nia|]. split; [destruct (Z.even _); nia|].
  intros Hbd. rewrite (Hl2 Hbd) in Hlo. destruct (Z.even _); nia.
Qed.

Lemma interval_rounds fi d c k :
  format fi -> classified fi d ->
  above_lo (interval_of fi d) c k = true -> below_hi (interval_of fi d) c k = true -> rounds_to fi c k d.
Proof.
  intros Hfi [[Hm He Hn] Ht Hmin] Ha Hb d' [Hm' He' Hn']. destruct (format_bounds fi Hfi) as [HB Hmb].
  fold (min_exp fi) in *.
  destruct (interval_bounds fi d c k ltac:(lia) Ha Hb) as (B1 & B2 & B3). unfold off_by.
  set (M := 2 ^ mantbits fi) in *.
  assert (HM : 1 <= M) by (pose proof (Z.pow_pos_nonneg 2 (mantbits fi)); unfold M; lia).
  assert (H2M : 2 ^ (mantbits fi + 1) = 2 * M) by (unfold M; rewrite Z.add_1_r, Z.pow_succ_r by lia; done).
  rewrite H2M in *.
  pose proof (neighbours M (min_exp fi + 1100) (f_exp d + 1100) (f_mant d) (f_exp d' + 1100) (f_mant d')
    HM ltac:(lia) ltac:(lia) Hm Hm' ltac:(lia)) as N. cbv zeta in N.
  assert (HP : 0 < 10 ^ Z.max 0 (- k)) by (apply Z.pow_pos_nonneg; lia).
  assert (HG : 0 < 2 ^ (f_exp d + 1100)) by (apply Z.pow_pos_nonneg; lia).
  unfold scaled_float in *. set (P := 10 ^ Z.max 0 (- k)) in *. set (G := 2 ^ (f_exp d + 1100)) in *.
  apply (nearest_in_interval _ _ _ (G * P) _ (f_mant d = M /\ f_min d = false)); [nia|exact B1|exact B2|exact B3|].
  set (V := f_mant d * G) in *. set (V' := f_mant d' * 2 ^ (f_exp d' + 1100)) in *.
  destruct N as [->|[N|[N|(N1 & N2 & N3)]]]; [by left|right; left; nia|right; right; left; nia|].
  right. right. right. split; [|nia]. split; [done|]. rewrite Hmin. apply Z.eqb_neq. lia.
Qed.

(** ** The digits *)

Lemma pow10_pos x : 0 < 10 ^ Z.max 0 x.
Proof. apply Z.pow_pos_nonneg; lia. Qed.

(** The powers on both sides of a comparison, moved by [j] digits. *)
Lemma pow10_shift k j :
  0 <= j -> 10 ^ Z.max 0 k * 10 ^ j * 10 ^ Z.max 0 (- (k + j)) = 10 ^ Z.max 0 (k + j) * 10 ^ Z.max 0 (- k).
Proof. intros Hj. rewrite <- !Z.pow_add_r by lia. f_equal. lia. Qed.

Lemma cmp_dec_shift c k j n den : 0 <= j -> cmp_dec (c * 10 ^ j) k n den = cmp_dec c (k + j) n den.
Proof.
  intros Hj. unfold cmp_dec. pose proof (pow10_shift k j Hj) as E.
  pose proof (pow10_pos (- k)) as P1. pose proof (pow10_pos (- (k + j))) as P2.
  rewrite (Zmult_compare_compat_r _ _ (10 ^ Z.max 0 (- (k + j))) ltac:(lia)).
  rewrite (Zmult_compare_compat_r (c * _ * den) _ (10 ^ Z.max 0 (- k)) ltac:(lia)).
  f_equal; [|ring].
  replace (c * 10 ^ j * 10 ^ Z.max 0 k * den * 10 ^ Z.max 0 (- (k + j)))
    with (c * den * (10 ^ Z.max 0 k * 10 ^ j * 10 ^ Z.max 0 (- (k + j)))) by ring. rewrite E. ring.
Qed.

Lemma strip_zeros_value fuel c k c' k' :
  0 <= c -> strip_zeros fuel c k = (c', k') -> 0 <= c' /\ exists j, 0 <= j /\ c = c' * 10 ^ j /\ k' = k + j.
Proof.
  revert c k. induction fuel as [|f IH]; intros c k Hc; cbn [strip_zeros].
  { intros [= <- <-]. split; [done|]. exists 0. lia. }
  destruct (Z.eqb_spec (c mod 10) 0) as [Hm|]; cbn [andb]; [destruct (negb (c =? 0))|];
    try (intros [= <- <-]; split; [done|]; exists 0; lia).
  intros E. apply IH in E as (Hc' & j & Hj & E & ->); [|apply Z.div_pos; lia]. split; [done|].
  exists (j + 1). split; [lia|]. split; [|lia]. rewrite Z.pow_add_r by lia.
  pose proof (Z.div_mod c 10 ltac:(lia)). lia.
Qed.

Lemma floor_dec_bounds n den k :
  0 < den -> 0 <= n ->
  0 <= floor_dec n den k /\
  floor_dec n den k * 10 ^ Z.max 0 k * den <= n * 10 ^ Z.max 0 (- k) < (floor_dec n den k + 1) * 10 ^ Z.max 0 k * den.
Proof.
  intros Hd Hn. pose proof (pow10_pos k). pose proof (pow10_pos (- k)). unfold floor_dec.
  set (a := n * 10 ^ Z.max 0 (- k)) in *. set (b := den * 10 ^ Z.max 0 k) in *.
  assert (0 < b) by (unfold b; nia). assert (0 <= a) by (unfold a; nia).
  pose proof (Z.div_mod a b ltac:(lia)). pose proof (Z.mod_pos_bound a b ltac:(lia)).
  replace (a / b * 10 ^ Z.max 0 k * den) with (b * (a / b)) by (unfold b; ring).
  replace ((a / b + 1) * 10 ^ Z.max 0 k * den) with (b * (a / b) + b) by (unfold b; ring).
  split; [apply Z.div_pos; lia|lia].
Qed.

(** A sensible interval. *)
Definition wf_interval (i : interval) : Prop := 0 < i_den i /\ 0 <= i_val i /\ i_lo i < i_val i < i_hi i.

Lemma above_lo_intro i c k :
  i_lo i * 10 ^ Z.max 0 (- k) < c * 10 ^ Z.max 0 k * i_den i -> above_lo i c k = true.
Proof. intros Hlt. unfold above_lo, cmp_dec. by rewrite (proj2 (Z.compare_gt_iff _ _) Hlt). Qed.

Lemma below_hi_intro i c k :
  c * 10 ^ Z.max 0 k * i_den i < i_hi i * 10 ^ Z.max 0 (- k) -> below_hi i c k = true.
Proof. intros Hlt. unfold below_hi, cmp_dec. by rewrite (proj2 (Z.compare_lt_iff _ _) Hlt). Qed.

Lemma candidate_sound i dp nd c :
  wf_interval i -> candidate i dp nd = Some c ->
  0 <= c /\ above_lo i c (dp - nd) = true /\ below_hi i c (dp - nd) = true.
Proof.
  intros (Hd & Hv & Hlo & Hhi). unfold candidate. set (k := dp - nd). clearbody k.
  destruct (floor_dec_bounds (i_val i) (i_den i) k Hd Hv) as [F0 [F1 F2]].
  set (f := floor_dec (i_val i) (i_den i) k) in *. clearbody f. pose proof (pow10_pos (- k)) as HP.
  set (ok c := 0 <= c /\ above_lo i c k = true /\ below_hi i c k = true).
  assert (Hdown : above_lo i f k = true -> ok f).
  { intros E. split; [done|]. split; [done|]. apply below_hi_intro. nia. }
  assert (Hup : below_hi i (f + 1) k = true -> ok (f + 1)).
  { intros E. split; [lia|]. split; [|done]. apply above_lo_intro. nia. }
  change (_ -> _) with
    ((if above_lo i f k && below_hi i (f + 1) k
      then match cmp_dec (2 * f + 1) k (2 * i_val i) (i_den i) with
           | Lt => Some (f + 1)
           | Gt => Some f
           | Eq => Some (if Z.even f then f else f + 1)
           end
      else if above_lo i f k then Some f else if below_hi i (f + 1) k then Some (f + 1) else None) = Some c -> ok c).
  clearbody ok. destruct (above_lo i f k), (below_hi i (f + 1) k); cbn [andb]; [|intros [= <-]; auto..|done].
  destruct (cmp_dec _ _ _ _); [destruct (Z.even f)| |]; intros [= <-]; auto.
Qed.

(** Seventeen digits suffice: the decimals of that many digits are closer
    together than the midpoints. *)
Lemma candidate_exists i dp :
  wf_interval i -> i_val i < (i_hi i - i_lo i) * 10 ^ 16 ->
  10 ^ Z.max 0 (dp - 1) * i_den i <= i_val i * 10 ^ Z.max 0 (- (dp - 1)) ->
  candidate i dp 17 <> None.
Proof.
  intros (Hd & Hv & Hlo & Hhi) Hw Hdp. unfold candidate. set (k := dp - 17).
  destruct (floor_dec_bounds (i_val i) (i_den i) k Hd Hv) as [F0 [F1 F2]].
  set (f := floor_dec (i_val i) (i_den i) k) in *. clearbody f.
  assert (Hs := pow10_shift k 16 ltac:(lia)). replace (k + 16) with (dp - 1) in Hs by (unfold k; lia).
  pose proof (pow10_pos (- k)) as HP. pose proof (pow10_pos k) as HQ. pose proof (pow10_pos (- (dp - 1))) as HR.
  set (P := 10 ^ Z.max 0 (- k)) in *. set (Q := 10 ^ Z.max 0 k) in *.
  set (R := 10 ^ Z.max 0 (- (dp - 1))) in *. set (S := 10 ^ Z.max 0 (dp - 1)) in *.
  assert (Hgap : Q * i_den i < (i_hi i - i_lo i) * P).
  { assert (Q * i_den i * 10 ^ 16 * R <= i_val i * P * R).
    { replace (Q * i_den i * 10 ^ 16 * R) with (Q * 10 ^ 16 * R * i_den i) by ring. rewrite Hs.
      replace (S * P * i_den i) with (S * i_den i * P) by ring.
      replace (i_val i * P * R) with (i_val i * R * P) by ring. by apply Z.mul_le_mono_nonneg_r; [lia|]. }
    assert (Q * i_den i * 10 ^ 16 <= i_val i * P) by (eapply Z.mul_le_mono_pos_r; [exact HR|done]).
    assert (i_val i * P < (i_hi i - i_lo i) * 10 ^ 16 * P) by (by apply Z.mul_lt_mono_pos_r).
    assert (Ht : 0 < 10 ^ 16) by done. apply (Z.mul_lt_mono_pos_r (10 ^ 16)); [exact Ht|]. lia. }
  destruct (above_lo i f k) eqn:Ea, (below_hi i (f + 1) k) eqn:Eb; cbn [andb]; try done.
  - by destruct (cmp_dec _ _ _ _); [destruct (Z.even f)| |].
  - exfalso. assert (f * Q * i_den i <= i_lo i * P).
    { apply Z.le_ngt. intros Hlt. by rewrite (above_lo_intro i f k Hlt) in Ea. }
    assert (i_hi i * P <= (f + 1) * Q * i_den i).
    { apply Z.le_ngt. intros Hlt. by rewrite (below_hi_intro i (f + 1) k Hlt) in Eb. }
    lia.
Qed.

(** The estimate of the decimal exponent is low enough, for every binary
    exponent of a double. *)
Definition log_estimate (q : Z) : Z := q * 30103 / 100000 - 2.

Definition estimate_low (q : Z) : bool :=
  let x := log_estimate q - 1 in
  10 ^ Z.max 0 x * 2 ^ (Z.max 0 (- q) + 1) <=? 2 ^ Z.max 0 q * 10 ^ Z.max 0 (- x).

Lemma estimates_low q : -1075 <= q <= 1025 -> estimate_low q = true.
Proof.
  intros Hq. assert (Hall : forallb (fun i => estimate_low (Z.of_nat i - 1075)) (seq 0 2101) = true)
    by (vm_compute; reflexivity).
  rewrite forallb_forall in Hall. specialize (Hall (Z.to_nat (q + 1075))). rewrite in_seq in Hall.
  replace (Z.of_nat (Z.to_nat (q + 1075)) - 1075) with q in Hall by lia. apply Hall. lia.
Qed.

(** [10^(dp-1)] is at most [n/den]. *)
Definition not_above (n den dp : Z) : Prop := 10 ^ Z.max 0 (dp - 1) * den <= n * 10 ^ Z.max 0 (- (dp - 1)).

Lemma find_dp_not_above fuel n den dp : not_above n den dp -> not_above n den (find_dp fuel n den dp).
Proof.
  revert dp. induction fuel as [|f IH]; intros dp Hdp; cbn [find_dp]; [done|].
  destruct (cmp_dec 1 dp n den) eqn:E; [| |done]; apply IH; unfold not_above, cmp_dec in *;
    rewrite Z.mul_1_l in E; replace (dp + 1 - 1) with dp by lia.
  - apply Z.compare_eq_iff in E. lia.
  - apply Z.lt_le_incl. exact E.
Qed.

Lemma dec_point_not_above n den :
  0 < n -> 0 < den -> -1075 <= Z.log2 n - Z.log2 den <= 1025 -> not_above n den (dec_point n den).
Proof.
  intros Hn Hd Hq. apply find_dp_not_above. pose proof (estimates_low _ Hq) as He.
  unfold estimate_low in He. apply Z.leb_le in He. unfold not_above. change (_ - 2) with (log_estimate (Z.log2 n - Z.log2 den)).
  set (x := log_estimate _ - 1) in *. clearbody x.
  pose proof (Z.log2_spec n Hn) as [N1 _]. pose proof (Z.log2_spec den Hd) as [_ D2].
  pose proof (Z.log2_nonneg n). pose proof (Z.log2_nonneg den).
  set (ln := Z.log2 n) in *. set (ld := Z.log2 den) in *. clearbody ln ld.
  pose proof (pow10_pos x) as HS. pose proof (pow10_pos (- x)) as HR.
  set (S := 10 ^ Z.max 0 x) in *. set (R := 10 ^ Z.max 0 (- x)) in *. clearbody S R.
  set (t := 2 ^ Z.min ln ld). assert (Ht : 0 < t) by (apply Z.pow_pos_nonneg; lia).
  assert (E1 : 2 ^ Z.succ ld = 2 ^ (Z.max 0 (- (ln - ld)) + 1) * t)
    by (unfold t; rewrite <- Z.pow_add_r by lia; f_equal; lia).
  assert (E2 : 2 ^ ln = 2 ^ Z.max 0 (ln - ld) * t) by (unfold t; rewrite <- Z.pow_add_r by lia; f_equal; lia).
  rewrite E1 in D2. rewrite E2 in N1. set (u := 2 ^ (Z.max 0 (- (ln - ld)) + 1)) in *. set (w := 2 ^ Z.max 0 (ln - ld)) in *.
  clearbody u w t. apply Z.le_trans with (S * (u * t)); [apply Z.mul_le_mono_nonneg_l; lia|].
  apply Z.le_trans with (w * t * R); [|apply Z.mul_le_mono_nonneg_r; lia].
  replace (S * (u * t)) with (S * u * t) by ring. replace (w * t * R) with (w * R * t) by ring.
  apply Z.mul_le_mono_nonneg_r; lia.
Qed.

Lemma shortest_sound i dp nds c k :
  shortest i dp nds = Some (c, k) -> exists nd, In nd nds /\ candidate i dp nd = Some c /\ k = dp - nd.
Proof.
  induction nds as [|nd nds IH]; cbn [shortest]; [done|]. destruct (candidate i dp nd) as [c0|] eqn:E.
  - intros [= <- <-]. exists nd. split; [by left|done].
  - intros Hs. destruct (IH Hs) as (nd' & ? & ? & ?). exists nd'. split; [by right|done].
Qed.

Lemma shortest_some i dp nds nd : In nd nds -> candidate i dp nd <> None -> is_Some (shortest i dp nds).
Proof.
  induction nds as [|nd' nds IH]; cbn [shortest]; [done|]. intros [->|Hin] Hc.
  - destruct (candidate i dp nd); [done|by destruct Hc].
  - destruct (candidate i dp nd'); [done|auto].
Qed.

(** *** The interval of a float *)

Lemma interval_wf fi d : classified fi d -> f_mant d <> 0 -> wf_interval (interval_of fi d).
Proof.
  intros [[Hm _ _] _ _] Hne. unfold wf_interval, interval_of. cbn [i_den i_val i_lo i_hi].
  assert (0 < 2 ^ Z.max 0 (f_exp d)) by (apply Z.pow_pos_nonneg; lia).
  assert (0 < 2 ^ Z.max 0 (- f_exp d)) by (apply Z.pow_pos_nonneg; lia).
  destruct ((f_mant d =? 2 ^ mantbits fi) && negb (f_min d)); nia.
Qed.

Lemma interval_wide fi d :
  format fi -> classified fi d -> f_mant d <> 0 ->
  i_val (interval_of fi d) < (i_hi (interval_of fi d) - i_lo (interval_of fi d)) * 10 ^ 16.
Proof.
  intros Hfi [[Hm _ _] _ _] Hne. destruct (format_bounds fi Hfi) as [HB _]. unfold interval_of. cbn [i_val i_lo i_hi].
  assert (0 < 2 ^ Z.max 0 (f_exp d)) by (apply Z.pow_pos_nonneg; lia).
  assert (Hp : 2 ^ mantbits fi <= 2 ^ 52) by (apply Z.pow_le_mono_r; lia).
  assert (Hp2 : 2 ^ (mantbits fi + 1) <= 2 ^ 53) by (apply Z.pow_le_mono_r; lia).
  set (w := 2 ^ Z.max 0 (f_exp d)) in *. clearbody w.
  change (2 ^ 52) with 4503599627370496 in Hp. change (2 ^ 53) with 9007199254740992 in Hp2.
  change (10 ^ 16) with 10000000000000000.
  destruct (Z.eqb_spec (f_mant d) (2 ^ mantbits fi)) as [E|]; cbn [andb]; [destruct (f_min d); cbn [negb]|]; nia.
Qed.

Lemma interval_log fi d :
  format fi -> classified fi d -> f_mant d <> 0 ->
  -1075 <= Z.log2 (i_val (interval_of fi d)) - Z.log2 (i_den (interval_of fi d)) <= 1025.
Proof.
  intros Hfi [[Hm He _] Ht _] Hne. destruct (format_bounds fi Hfi) as [HB Hmb]. unfold min_exp in Hmb.
  unfold interval_of. cbn [i_val i_den]. rewrite Z.log2_mul_pow2 by lia.
  replace (4 * f_mant d) with (f_mant d * 2 ^ 2) by lia. rewrite (Z.log2_mul_pow2 (f_mant d) 2) by lia.
  rewrite (Z.log2_mul_pow2 4) by lia. change (Z.log2 4) with 2.
  assert (Hp2 : 2 ^ (mantbits fi + 1) <= 2 ^ 53) by (apply Z.pow_le_mono_r; lia).
  assert (0 <= Z.log2 (f_mant d) <= 53).
  { split; [apply Z.log2_nonneg|]. rewrite <- (Z.log2_pow2 53) by lia. apply Z.log2_le_mono. lia. }
  lia.
Qed.

(** The digits chosen for a float round to it. *)
Lemma shortest_digits_round fi d :
  format fi -> classified fi d -> f_mant d <> 0 ->
  exists l, shortest_digits fi d = (dtext l, (shortest_digits fi d).2) /\ is_dec l /\ l <> [] /\
    rounds_to fi (dval 10 0 l) ((shortest_digits fi d).2 - Z.of_nat (length l)) d.
Proof.
  intros Hfi Hc Hne. pose proof (interval_wf fi d Hc Hne) as Hw. unfold shortest_digits.
  rewrite (proj2 (Z.eqb_neq _ _) Hne). set (i := interval_of fi d) in *. set (dp := dec_point (i_val i) (i_den i)).
  assert (Hs : is_Some (shortest i dp digit_counts)).
  { apply (shortest_some i dp digit_counts 17); [vm_compute; tauto|].
    apply candidate_exists; [done|by apply interval_wide|]. pose proof Hw as (Hd & Hv & Hb).
    apply (dec_point_not_above (i_val i) (i_den i)); [|done|by apply interval_log].
    assert (i_val i <> 0); [|lia]. unfold i, interval_of. cbn [i_val].
    assert (0 < 2 ^ Z.max 0 (f_exp d)) by (apply Z.pow_pos_nonneg; lia). nia. }
  destruct Hs as [[c k] Es]. rewrite Es. apply shortest_sound in Es as (nd & _ & Ec & ->).
  apply candidate_sound in Ec as (Hc0 & Ha & Hb); [|done].
  destruct (strip_zeros 20 c (dp - nd)) as [c' k'] eqn:Ez. apply strip_zeros_value in Ez as (Hc' & j & Hj & -> & ->); [|done].
  destruct (FormatUint_spec c' 10 ltac:(lia) Hc') as (l & El & Hl & Hv & Hln). rewrite El, slen_dtext. cbn [snd].
  exists l. split; [done|]. split; [done|]. split; [done|]. rewrite Hv.
  replace (Z.of_nat (length l) + (dp - nd + j) - Z.of_nat (length l)) with (dp - nd + j) by lia.
  apply interval_rounds; [done|done| |]; fold i; unfold above_lo, below_hi in *; by rewrite <- cmp_dec_shift.
Qed.

(** ** The formats *)

Lemma land_ones_mod x n : 0 <= n -> Z.land x (2 ^ n - 1) = x mod 2 ^ n.
Proof. intros Hn. rewrite <- Z.land_ones by done. by rewrite Z.ones_equiv, Z.sub_1_r. Qed.

Lemma classify_classified fi bits d : format fi -> classify fi bits = FFin d -> classified fi d.
Proof.
  intros Hfi. unfold classify. rewrite !land_ones_mod by (destruct Hfi as [-> | ->]; cbn; lia).
  set (e := Z.shiftr bits (mantbits fi) mod 2 ^ expbits fi). set (m := bits mod 2 ^ mantbits fi).
  assert (He : 0 <= e < 2 ^ expbits fi) by (apply Z.mod_pos_bound; destruct Hfi as [-> | ->]; cbn; lia).
  assert (Hm : 0 <= m < 2 ^ mantbits fi) by (apply Z.mod_pos_bound; destruct Hfi as [-> | ->]; cbn; lia).
  assert (H2 : 2 ^ (mantbits fi + 1) = 2 * 2 ^ mantbits fi)
    by (rewrite Z.add_1_r, Z.pow_succ_r by (destruct Hfi as [-> | ->]; cbn; lia); done).
  assert (Ht : 2 ^ expbits fi - 2 + bias fi - mantbits fi <= 971) by (destruct Hfi as [-> | ->]; cbn; lia).
  assert (Ht2 : 1 + bias fi - mantbits fi <= 971) by (destruct Hfi as [-> | ->]; cbn; lia).
  clearbody e m. destruct (Z.eqb_spec e (2 ^ expbits fi - 1)); [by destruct (m =? 0)|].
  destruct (Z.eqb_spec e 0) as [->|Hne]; intros [= <-]; (split; [split|..]); cbn [f_mant f_exp f_min]; unfold min_exp; try lia.
Qed.

(** The exponent that [fmtF] cannot write goes into the digits. *)
Lemma rounds_to_padded fi c k d : rounds_to fi c k d -> rounds_to fi (c * 10 ^ Z.max 0 k) (Z.min 0 k) d.
Proof.
  intros Hr d' Hd'. specialize (Hr d' Hd'). unfold off_by, scaled_dec, scaled_float in *.
  replace (Z.max 0 (Z.min 0 k)) with 0 by lia. replace (Z.max 0 (- Z.min 0 k)) with (Z.max 0 (- k)) by lia.
  by rewrite Z.pow_0_r, Z.mul_1_r.
Qed.

Lemma FormatFloat_g_reads_back fi bits : format fi -> reads_back fi bits (FormatFloat_g fi bits).
Proof.
  intros Hfi. unfold reads_back, FormatFloat_g. destruct (classify fi bits) as [|neg|d] eqn:Ec; [done|by destruct neg|].
  apply classify_classified in Ec; [|done]. destruct (Z.eq_dec (f_mant d) 0) as [Hz|Hnz].
  - unfold shortest_digits. rewrite Hz. cbn [Z.eqb].
    exists 0, 0. split; [by destruct (f_neg d)|]. intros d' _.
    unfold off_by, scaled_float, scaled_dec. rewrite Hz, !Z.mul_0_l. set (x := f_mant d' * _ * _). clearbody x. lia.
  - destruct (shortest_digits_round fi d Hfi Ec Hnz) as (l & -> & Hl & Hne & Hr).
    set (dp := (shortest_digits fi d).2) in *. clearbody dp. destruct ((dp - 1 <? -4) || (6 <=? dp - 1)).
    + rewrite read_fmtE by done. by eexists _, _.
    + destruct (read_fmtF (f_neg d) l dp Hl Hne) as (k & -> & ->). eexists _, _. split; [reflexivity|].
      by apply rounds_to_padded.
Qed.

(** ** Properties *)

(** C18. The numbers in the trace are the values of the machine words.  Whatever
    the word, what is printed for a numeric type of the JNI table reads back
    to the word's value at that type: the integers at their width and sign, a
    character as the UTF-8 of its code unit (a surrogate as U+FFFD), a boolean
    by its low byte, and a float or double as a decimal to which no other
    number of the format is nearer, halves to even, with its sign and the
    infinities and NaN by name.  The types of a method's signature print in
    the same way. *)
Theorem numbers_read_back (v : Z) (c : caches) (mr : option memReader) :
  fits 64 v ->
  (Atoi (fmtNumeric "jbyte" v) = (s8 v, None) /\ Atoi (fmtNumeric "jshort" v) = (s16 v, None) /\
   Atoi (fmtNumeric "jint" v) = (s32 v, None) /\ Atoi (fmtNumeric "jsize" v) = (s32 v, None) /\
   Atoi (fmtNumeric "jlong" v) = (s64 v, None)) /\
  (exists s, fmtNumeric "jchar" v = ("'" ++s s ++s "'")%string /\
     DecodeRune s = (if is_surrogate (u16 v) then RuneError else u16 v, slen s)) /\
  fmtNumeric "jboolean" v = (if u8 v =? 0 then "false"%string else "true"%string) /\
  reads_back float32info (u32 v) (fmtNumeric "jfloat" v) /\
  reads_back float64info v (fmtNumeric "jdouble" v) /\
  (fmtJV "B" v c mr = fmtNumeric "jbyte" v /\ fmtJV "S" v c mr = fmtNumeric "jshort" v /\
   fmtJV "I" v c mr = fmtNumeric "jint" v /\ fmtJV "J" v c mr = fmtNumeric "jlong" v /\
   fmtJV "C" v c mr = fmtNumeric "jchar" v /\ fmtJV "Z" v c mr = fmtNumeric "jboolean" v /\
   fmtJV "F" v c mr = fmtNumeric "jfloat" v /\ fmtJV "D" v c mr = fmtNumeric "jdouble" v).
Proof.
  intros Hv. split; [|split; [|split; [|split; [|split]]]].
  - unfold fmtNumeric. cbn [String.eqb Ascii.eqb Bool.eqb orb]. rewrite !Atoi_FormatInt; [done|word_lia..].
  - unfold fmtNumeric. cbn [String.eqb Ascii.eqb Bool.eqb orb]. unfold fmt_char, fmt_c.
    change 0xffff with (2 ^ 16 - 1). rewrite land_ones_mod by lia. change (v mod 2 ^ 16) with (u16 v).
    exists (EncodeRune (u16 v)). split; [done|]. assert (Hu : 0 <= u16 v < 2 ^ 16) by (apply wrap_range; lia).
    set (r := u16 v) in *. clearbody r. destruct (is_surrogate r) eqn:Es.
    + unfold EncodeRune. rewrite Es, orb_true_r. vm_compute. done.
    + pose proof (DecodeRune_EncodeRune r EmptyString) as D. rewrite sapp_nil_r in D. apply D. split; [lia|done].
  - unfold fmtNumeric. cbn [String.eqb Ascii.eqb Bool.eqb orb]. unfold fmt_bool.
    change 0xff with (2 ^ 8 - 1). rewrite land_ones_mod by lia. change (v mod 2 ^ 8) with (u8 v). by destruct (u8 v =? 0).
  - apply FormatFloat_g_reads_back. by left.
  - apply FormatFloat_g_reads_back. by right.
  - done.
Qed.

(** 0.1 as a double. *)
Lemma numbers_read_back_witness :
  fmtNumeric "jdouble" 0x3FB999999999999A = "0.1"%string /\
  reads_back float64info 0x3FB999999999999A (fmtNumeric "jdouble" 0x3FB999999999999A).
Proof.
  split; [vm_compute; reflexivity|].
  pose proof (numbers_read_back 0x3FB999999999999A newCaches None) as T.
  destruct T as (_ & _ & _ & _ & T & _); [unfold fits; lia|exact T].
Defined.
