(* ===== verification/CallArgs.v ===== *)
(** * CallArgs: from the argument snapshot to the printed arguments

    [up_all] snapshots the arguments of a Call*Method variant while the
    target is stopped at the function's entry; the loader decodes the
    snapshot later with the method's signature.  The two halves are proved
    against what the calling convention says the callee would read: the
    elements of the [jvalue] array, the [va_arg] sequence of the AAPCS64
    [va_list], or the argument registers. *)

From S2P Require Import Prelude GoStr Strconv CTypes Bpf Recon Wire Target Schema Decode.

(** ** Reference: AAPCS64 [va_list]

    The callee's [va_arg] on the structure
    [{void *stack; void *gr_top; void *vr_top; int gr_offs; int vr_offs}]. *)

Record va_list := VaList {
  va_stack : Z; va_gr_top : Z; va_vr_top : Z; va_gr_offs : Z; va_vr_offs : Z
}.

Definition is_fp (t : string) : bool := String.eqb t "F" || String.eqb t "D".

Section VaArg.
Context {U : Type} `{UserMem U}.

(** The structure at an address; all zero when it cannot be read. *)
Definition va_load (u : U) (p : Z) : va_list :=
  let st := default (repeat zero_byte 32) (probe_read_user u p 32) in
  let st3 := le_val (take 8 (drop 24 st)) in
  VaList (le_val (take 8 st)) (le_val (take 8 (drop 8 st))) (le_val (take 8 (drop 16 st)))
    (s32 st3) (s32 (Z.shiftr st3 32)).

(** [va_arg] of one parameter: its word and the structure afterwards. *)
Definition va_arg (u : U) (va : va_list) (fp : bool) : Z * va_list :=
  let on_stack va := (read_word u (va_stack va),
    VaList (va_stack va + 8) (va_gr_top va) (va_vr_top va) (va_gr_offs va) (va_vr_offs va)) in
  if fp then
    if va_vr_offs va <? 0
    then (read_word u (va_vr_top va + va_vr_offs va),
          VaList (va_stack va) (va_gr_top va) (va_vr_top va) (va_gr_offs va) (va_vr_offs va + 16))
    else on_stack va
  else
    if va_gr_offs va <? 0
    then (read_word u (va_gr_top va + va_gr_offs va),
          VaList (va_stack va) (va_gr_top va) (va_vr_top va) (va_gr_offs va + 8) (va_vr_offs va))
    else on_stack va.

Fixpoint va_args (u : U) (va : va_list) (params : list string) : list Z :=
  match params with
  | [] => []
  | t :: ps => let '(w, va') := va_arg u va (is_fp t) in w :: va_args u va' ps
  end.

(** The structure a caller on arm64 builds, as far as the snapshot needs
    it: the unread general registers are a whole number of words inside
    the window below their top, and they exist. *)
Definition va_ok (va : va_list) : Prop :=
  -128 <= va_gr_offs va /\ va_gr_offs va mod 8 = 0 /\ (va_gr_offs va < 0 -> va_gr_top va <> 0) /\
  fits 64 (va_gr_top va) /\ fits 64 (va_stack va).
End VaArg.

(** How many of the parameters are floating point, and how many are not. *)
Definition fp_count (ps : list string) : nat := length (List.filter is_fp ps).
Definition gr_count (ps : list string) : nat := length (List.filter (fun t => negb (is_fp t)) ps).

(** What [decodeV] prints for the words [ws]. *)
Definition shown_V (c : caches) (mr : option memReader) (t : string) (w : Z) : string :=
  if is_fp t then "?" else fmtJV t w c mr.

(** ** What [up_all] captures *)

Section Captured.
Context {M R U : Type} `{HM : BpfMapLaws M} `{HR : PtRegsLaws R} `{HU : UserMemLaws U}.

Definition entry_args (v : hit_env R U) : list Z :=
  [PT_REGS_PARM (regs v) 1; PT_REGS_PARM (regs v) 2; PT_REGS_PARM (regs v) 3;
   PT_REGS_PARM (regs v) 4; PT_REGS_PARM (regs v) 5].

(** The maps ask for a snapshot of kind [k] through argument [ix]. *)
Definition captures (s : kmaps M) (v : hit_env R U) (k ix : Z) : Prop :=
  exists base, map_lookup_elem (cfg s) 0 = Some base /\
    map_lookup_elem (argkind s) (u64 (PT_REGS_IP (regs v) - base)) = Some k /\
    map_lookup_elem (argidx s) (u64 (PT_REGS_IP (regs v) - base)) = Some ix /\
    k <> 0 /\ 0 <= ix < Z.of_nat NARGS.

(** The parts of the event that come from the maps. *)
Definition depth_of (s : kmaps M) (v : hit_env R U) : Z :=
  if tracked s v then s32 (height s (u32 (pid_tgid v))) else -1.

Definition stackid_of (s : kmaps M) (v : hit_env R U) : Z :=
  match map_lookup_elem (cfg s) 0, map_lookup_elem (cfg s) 1 with
  | Some _, Some ws => if negb (ws =? 0) then s32 (stackid_rc v) else -1
  | _, _ => -1
  end.

Definition snapshot (s : kmaps M) (v : hit_env R U) (e : evt_t) : evt_t :=
  match probe_off s v with
  | Some off =>
      match map_lookup_elem (argkind s) off, map_lookup_elem (argidx s) off with
      | Some k, Some ix =>
          if negb (k =? 0) && (ix <? Z.of_nat NARGS)
          then capture (umem v) e (nthZ (entry_args v) ix) k ix else e
      | _, _ => e
      end
  | None => e
  end.

(** The event of [up_all] in one equation. *)
Lemma up_all_shape s v g :
  reserve v = Some g ->
  (up_all s v).2 = Some (set_stackid (snapshot s v (set_depth (entry_evt v g) (depth_of s v))) (stackid_of s v)).
Proof.
  intros Eg. unfold up_all, stackid_of, depth_of, snapshot, tracked, probe_off, height.
  rewrite Eg. cbn [entry_evt e_ip].
  destruct (map_lookup_elem (cfg s) 0) as [base|]; [|reflexivity].
  set (off := u64 _).
  destruct (map_lookup_elem (hasret s) off) as [x|];
    rewrite ?(bool_decide_eq_true_2 (is_Some (Some x))), ?(bool_decide_eq_false_2 (is_Some None))
      by (eauto || by intros [? ?]);
    cbn [set_depth_map cfg argkind argidx];
    destruct (map_lookup_elem (argkind s) off) as [k|], (map_lookup_elem (argidx s) off) as [ix|];
    try destruct (negb (k =? 0) && (ix <? Z.of_nat NARGS));
    destruct (map_lookup_elem (cfg s) 1) as [ws|]; try destruct (negb (ws =? 0));
    cbn [snd]; f_equal; try reflexivity;
    unfold capture; destruct (k =? 1), (k =? 2), (k =? 3); reflexivity.
Qed.

Lemma up_all_captures s v g k ix :
  reserve v = Some g -> captures s v k ix ->
  (up_all s v).2 =
    Some (set_stackid (capture (umem v) (set_depth (entry_evt v g) (depth_of s v))
            (nthZ (entry_args v) ix) k ix) (stackid_of s v)).
Proof.
  intros Eg (base & Eb & Ek & Ei & Hk & Hix). rewrite (up_all_shape s v g Eg).
  unfold snapshot, probe_off. rewrite Eb, Ek, Ei.
  destruct (Z.eqb_spec k 0); [done|]. destruct (Z.ltb_spec ix (Z.of_nat NARGS)); [done|lia].
Qed.

Lemma fill_lookup (f : nat -> Z) n l i : length l = n -> (i < n)%nat -> nth i (fill f n l) 0 = f i.
Proof.
  intros Hl Hi. rewrite fill_map by done. rewrite nth_lookup, list_lookup_fmap, lookup_seq_lt by done. done.
Qed.

(** The snapshot of a [jvalue] array. *)
Lemma captured_jvalue s v g ix e :
  reserve v = Some g -> length (e_cap g) = NCAP -> captures s v 1 ix -> (up_all s v).2 = Some e ->
  forall i, (i < NCAP)%nat -> nth i (e_cap e) 0 = read_word (umem v) (nthZ (entry_args v) ix + Z.of_nat i * 8).
Proof.
  intros Eg Hl Hc E i Hi. pose proof (up_all_captures s v g 1 ix Eg Hc) as E'.
  rewrite E' in E. injection E as <-. unfold capture. change (1 =? 1) with true. cbv iota.
  cbn [set_stackid set_capture e_cap]. by apply fill_lookup.
Qed.

(** The snapshot of a [va_list]: the two windows and the three cursors. *)
Lemma captured_va s v g ix e :
  reserve v = Some g -> length (e_cap g) = NCAP -> length (e_cap2 g) = NCAP ->
  captures s v 2 ix -> (up_all s v).2 = Some e ->
  let va := va_load (umem v) (nthZ (entry_args v) ix) in
  e_vgr e = va_gr_top va /\ e_vgoff e = va_gr_offs va /\ e_vstk e = va_stack va /\
  forall i, (i < NCAP)%nat ->
    nth i (e_cap e) 0 = read_word (umem v) (u64 (va_gr_top va - 128) + Z.of_nat i * 8) /\
    nth i (e_cap2 e) 0 = read_word (umem v) (va_stack va + Z.of_nat i * 8).
Proof.
  intros Eg Hl Hl2 Hc E. pose proof (up_all_captures s v g 2 ix Eg Hc) as E'.
  rewrite E' in E. injection E as <-. unfold capture.
  change (2 =? 1) with false. change (2 =? 2) with true. cbv iota zeta.
  cbn [set_stackid set_capture e_cap e_cap2 e_vgr e_vgoff e_vstk].
  split; [done|]. split; [done|]. split; [done|].
  intros i Hi. split; by apply fill_lookup.
Qed.

(** The snapshot of a variadic call: the registers from [ix] on. *)
Lemma captured_direct s v g ix e :
  reserve v = Some g -> length (e_cap g) = NCAP -> captures s v 3 ix -> (up_all s v).2 = Some e ->
  e_ncap e = Z.of_nat NARGS - ix /\
  forall i, (i < 2)%nat -> Z.of_nat i < Z.of_nat NARGS - ix ->
    nth i (e_cap e) 0 = nthZ (entry_args v) (ix + Z.of_nat i).
Proof.
  intros Eg Hl Hc E. pose proof (up_all_captures s v g 3 ix Eg Hc) as E'.
  destruct Hc as (_ & _ & _ & _ & _ & Hix).
  rewrite E' in E. injection E as <-. unfold capture.
  change (3 =? 1) with false. change (3 =? 2) with false. change (3 =? 3) with true. cbv iota zeta.
  cbn [set_stackid set_capture set_depth entry_evt e_cap e_a e_ncap]. fold (entry_args v).
  split; [unfold NARGS in *; word_lia|].
  intros i Hi Hn. rewrite nth_lookup.
  destruct i as [|[|i]]; [| |lia].
  - rewrite list_lookup_insert_ne by lia. rewrite list_lookup_insert_eq by (rewrite Hl; unfold NCAP; lia).
    cbn. f_equal. lia.
  - rewrite list_lookup_insert_eq by (rewrite length_insert, Hl; unfold NCAP; lia). cbn [default].
    destruct (Z.ltb_spec (ix + 1) (Z.of_nat NARGS)); [done|lia].
Qed.
End Captured.

(** ** The loader's decoders *)

Lemma read_word_u64 `{UserMem U} (u : U) a b : u64 a = u64 b -> read_word u a = read_word u b.
Proof. intros E. unfold read_word. by rewrite E. Qed.

(** The window index of the general register at [offs] below the top. *)
Lemma gr_index top offs :
  fits 64 top -> -128 <= offs < 0 -> offs mod 8 = 0 ->
  Z.quot (s64 (s64 (s64 top + offs) - s64 (u64 (top - 128)))) 8 = 16 + offs / 8 /\
  0 <= 16 + offs / 8 < 16.
Proof.
  intros Ht Ho Hm.
  assert (E : s64 (s64 (s64 top + offs) - s64 (u64 (top - 128))) = offs + 128) by word_lia.
  rewrite E. split; [|lia]. rewrite Z.quot_div_nonneg by lia. lia.
Qed.

Lemma cap_word_in l i : 0 <= i < 16 -> cap_word l i = nth (Z.to_nat i) l 0.
Proof.
  intros Hi. unfold cap_word, go_NCAP, nthZ. case_Z. done.
Qed.

Lemma gr_count_cons t ps :
  gr_count (t :: ps) = if is_fp t then gr_count ps else S (gr_count ps).
Proof. unfold gr_count. cbn. by destruct (is_fp t). Qed.

Lemma fp_count_cons t ps :
  fp_count (t :: ps) = if is_fp t then S (fp_count ps) else fp_count ps.
Proof. unfold fp_count. cbn. by destruct (is_fp t). Qed.

Lemma s64_add8 x : -128 <= x < 2 ^ 31 -> s64 (x + 8) = x + 8.
Proof. intros. word_lia. Qed.

(** General registers not read yet. *)
Definition gr_left (offs : Z) : Z := if offs <? 0 then - offs / 8 else 0.

Section DecodeV.
Context {U : Type} `{UserMem U} (u : U) (e : reconEvt) (top stk0 : Z) (c : caches) (mr : option memReader).
Context (Htop : Vgr e = top) (Hstk : Vstk e = stk0) (Hft : fits 64 top) (Hfs : fits 64 stk0).
Context (Hcap : forall i, (i < NCAP)%nat -> nth i (Cap e) 0 = read_word u (u64 (top - 128) + Z.of_nat i * 8)).
Context (Hcap2 : forall i, (i < NCAP)%nat -> nth i (Cap2 e) 0 = read_word u (stk0 + Z.of_nat i * 8)).

Lemma decodeV_loop_va ps va n :
  va_gr_top va = top -> va_stack va = stk0 + 8 * n -> 0 <= n ->
  -128 <= va_gr_offs va < 2 ^ 31 -> va_gr_offs va mod 8 = 0 -> (va_gr_offs va < 0 -> top <> 0) ->
  n + Z.of_nat (gr_count ps) <= 16 + gr_left (va_gr_offs va) ->
  16 * Z.of_nat (fp_count ps) <= - va_vr_offs va ->
  decodeV_loop e (u64 (top - 128)) (va_gr_offs va) (u64 (stk0 + 8 * n)) ps c mr =
  zip_with (shown_V c mr) ps (va_args u va ps).
Proof.
  revert va n. induction ps as [|t ps IH]; intros va n Ht Hs Hn Ho Hm H0 Hg Hf; [done|].
  rewrite gr_count_cons in Hg. rewrite fp_count_cons in Hf.
  cbn [decodeV_loop va_args]. unfold va_arg. fold (is_fp t). unfold shown_V at 1.
  destruct (is_fp t) eqn:Efp.
  - destruct (Z.ltb_spec (va_vr_offs va) 0); [|lia]. cbn [zip_with]. rewrite Efp. f_equal.
    rewrite <- (IH (VaList _ _ _ _ (va_vr_offs va + 16)) n); cbn; try done. lia.
  - rewrite Htop. destruct (Z.ltb_spec (va_gr_offs va) 0) as [Hneg|Hpos].
    + specialize (H0 Hneg). destruct (Z.eqb_spec top 0); [done|]. cbn [negb andb zip_with]. rewrite Efp.
      destruct (gr_index top (va_gr_offs va) Hft ltac:(lia) Hm) as [-> Hr].
      rewrite cap_word_in, Hcap by (unfold NCAP; lia). rewrite (s64_add8 _ Ho). f_equal.
      * f_equal. apply read_word_u64. rewrite wrap_add_l, Ht. f_equal. lia.
      * rewrite <- (IH (VaList _ _ _ (va_gr_offs va + 8) _) n); cbn; try done.
        -- lia.
        -- by rewrite <- (Z.mod_add (va_gr_offs va) 1 8) in Hm by lia.
        -- revert Hg. unfold gr_left. case_Z.
    + rewrite andb_false_r. cbn [zip_with]. rewrite Efp, Hstk.
      assert (Hix : u64 (u64 (stk0 + 8 * n) - stk0) / 8 = n).
      { rewrite wrap_sub_l. replace (stk0 + 8 * n - stk0) with (8 * n) by lia.
        unfold gr_left in Hg. revert Hg. case_Z. intros. rewrite wrap_small; [lia|unfold fits; lia]. }
      assert (Hn16 : 0 <= n < 16). { unfold gr_left in Hg. revert Hg. case_Z. }
      rewrite Hix, cap_word_in, Hcap2 by (unfold NCAP; lia). f_equal.
      * f_equal. apply read_word_u64. f_equal. lia.
      * rewrite wrap_add_l. replace (stk0 + 8 * n + 8) with (stk0 + 8 * (n + 1)) by lia.
        rewrite <- (IH (VaList (va_stack va + 8) _ _ _ _) (n + 1)); cbn; try done; lia.
Qed.
End DecodeV.

(** ** Uninitialised memory

    The programs do not clear the record they reserve; [refill] is the event
    with other contents in the fields they may leave alone. *)

Definition refill (e : reconEvt) (cap cap2 : list Z) (r1 r2 : Z) : reconEvt :=
  ReconEvt (Pid e) (Tid e) (Kind e) (Pad e) (Ip e) (Rc e) (Ts e) (Depth e) (Pad2 e) (Caller e)
    (A e) (Ncap e) (Argkind e) r1 r2 cap cap2 (Vgr e) (Vgoff e) (Vstk e) (Stackid e) (Pad3 e).

(** The snapshot words the decoder of a call variant may read. *)
Definition same_snapshot (nm : string) (e : reconEvt) (cap cap2 : list Z) : Prop :=
  if HasSuffix nm "A" then forall i, (i < NCAP)%nat -> nth i cap 0 = nth i (Cap e) 0
  else if HasSuffix nm "V" then
    forall i, (i < NCAP)%nat -> nth i cap 0 = nth i (Cap e) 0 /\ nth i cap2 0 = nth i (Cap2 e) 0
  else forall i, (i < 2)%nat -> Z.of_nat i < Ncap e -> nth i cap 0 = nth i (Cap e) 0.

Lemma imap_nth_ext (f g : nat -> string -> string) ps :
  (forall i t, (i < length ps)%nat -> f i t = g i t) -> imap f ps = imap g ps.
Proof.
  intros E. apply list_eq. intros i. rewrite !list_lookup_imap.
  destruct (ps !! i) as [t|] eqn:Ei; [|done]. cbn. f_equal. apply E. by eapply lookup_lt_Some.
Qed.

Lemma cap_word_ext l l' i :
  (forall j, (j < NCAP)%nat -> nth j l' 0 = nth j l 0) -> cap_word l' i = cap_word l i.
Proof.
  intros E. unfold cap_word, go_NCAP. destruct (Z.leb_spec 0 i), (Z.ltb_spec i (Z.of_nat 16)); try done.
  cbn [andb]. unfold nthZ. case_Z. apply E. unfold NCAP. lia.
Qed.

Lemma decodeV_loop_refill e cap cap2 r1 r2 ps g o k c mr :
  (forall i, (i < NCAP)%nat -> nth i cap 0 = nth i (Cap e) 0 /\ nth i cap2 0 = nth i (Cap2 e) 0) ->
  decodeV_loop (refill e cap cap2 r1 r2) g o k ps c mr = decodeV_loop e g o k ps c mr.
Proof.
  intros E. revert o k. induction ps as [|t ps IH]; intros o k; [done|].
  cbn [decodeV_loop refill Vgr Vstk Cap Cap2]. rewrite !IH.
  rewrite (cap_word_ext (Cap e) cap), (cap_word_ext (Cap2 e) cap2) by apply E. done.
Qed.

Lemma describeCall_refill e nm cap cap2 r1 r2 c mr :
  same_snapshot nm e cap cap2 -> describeCall (refill e cap cap2 r1 r2) nm c mr = describeCall e nm c mr.
Proof.
  intros E. unfold describeCall. destruct (isCallMethod nm); [|done]. cbn [refill A].
  destruct (idName c !! _); [|done]. destruct (splitNameSig _) as [mname msig]. unfold same_snapshot in E.
  assert (Hd : (if HasSuffix nm "A" then decodeA (refill e cap cap2 r1 r2) (parseParams msig) c mr
                else if HasSuffix nm "V" then decodeV (refill e cap cap2 r1 r2) (parseParams msig) c mr
                else decodeDirect (refill e cap cap2 r1 r2) (parseParams msig) c mr) =
               (if HasSuffix nm "A" then decodeA e (parseParams msig) c mr
                else if HasSuffix nm "V" then decodeV e (parseParams msig) c mr
                else decodeDirect e (parseParams msig) c mr)).
  { destruct (HasSuffix nm "A"); [|destruct (HasSuffix nm "V")].
    - apply imap_nth_ext. intros i t _. unfold decodeA_one, go_NCAP. cbn [refill Cap].
      destruct (Nat.leb_spec 16 i); [done|]. by rewrite E.
    - by apply decodeV_loop_refill.
    - apply imap_nth_ext. intros i t _. unfold decodeDirect_one. cbn [refill Cap Ncap].
      destruct (Z.leb_spec (Ncap e) (Z.of_nat i)); [done|]. destruct (Nat.leb_spec 2 i); [done|].
      cbn [orb]. by rewrite E. }
  by rewrite Hd.
Qed.

Section Junk.
Context {M R U : Type} `{HM : BpfMapLaws M} `{HR : PtRegsLaws R} `{HU : UserMemLaws U}.

Definition with_junk (v : hit_env R U) (g : evt_t) : hit_env R U :=
  HitEnv (Some g) (pid_tgid v) (ktime_ns v) (regs v) (umem v) (stackid_rc v).

Definition evt_lengths (g : evt_t) : Prop := length (e_cap g) = NCAP /\ length (e_cap2 g) = NCAP.

(** The kind of snapshot that the decoder of a call variant expects. *)
Definition snapshot_kind (nm : string) : Z :=
  if HasSuffix nm "A" then 1 else if HasSuffix nm "V" then 2 else 3.

Lemma capture_refill (u : U) (v : hit_env R U) g1 g2 d sid q k ix :
  let ev g := go_evt (set_stackid (capture u (set_depth (entry_evt (with_junk v g) g) d) q k ix) sid) in
  ev g2 = refill (ev g1) (Cap (ev g2)) (Cap2 (ev g2)) (Res1 (ev g2)) (Res2 (ev g2)).
Proof. unfold capture. destruct (k =? 1), (k =? 2), (k =? 3); reflexivity. Qed.

(** Two runs of the same hit on different old memory: the events differ at
    most in words the decoders do not read. *)
Lemma up_all_junk s (v : hit_env R U) g1 g2 nm :
  evt_lengths g1 -> evt_lengths g2 ->
  (is_Some (isCallMethod nm) -> exists ix, captures s v (snapshot_kind nm) ix) ->
  exists e cap cap2 r1 r2,
    option_map go_evt (up_all s (with_junk v g1)).2 = Some e /\
    option_map go_evt (up_all s (with_junk v g2)).2 = Some (refill e cap cap2 r1 r2) /\
    (is_Some (isCallMethod nm) -> same_snapshot nm e cap cap2).
Proof.
  intros [Hl1 Hl1'] [Hl2 Hl2'] Hcall.
  pose proof (up_all_shape s (with_junk v g1) g1 eq_refl) as E1.
  pose proof (up_all_shape s (with_junk v g2) g2 eq_refl) as E2.
  change (depth_of s (with_junk v g1)) with (depth_of s v) in E1.
  change (depth_of s (with_junk v g2)) with (depth_of s v) in E2.
  change (stackid_of s (with_junk v g1)) with (stackid_of s v) in E1.
  change (stackid_of s (with_junk v g2)) with (stackid_of s v) in E2.
  set (e1 := set_stackid _ _) in E1. set (e2 := set_stackid _ _) in E2.
  assert (Hr : go_evt e2 = refill (go_evt e1) (e_cap e2) (e_cap2 e2) (e_res1 e2) (e_res2 e2)).
  { subst e1 e2. unfold snapshot. cbn [with_junk regs umem].
    change (probe_off s (with_junk v g1)) with (probe_off s v).
    change (probe_off s (with_junk v g2)) with (probe_off s v).
    destruct (probe_off s v) as [off|]; [|reflexivity].
    destruct (map_lookup_elem (argkind s) off), (map_lookup_elem (argidx s) off); try reflexivity.
    destruct (_ && _); [|reflexivity].
    exact (capture_refill (umem v) v g1 g2 _ _ (nthZ (entry_args v) z0) z z0). }
  exists (go_evt e1), (e_cap e2), (e_cap2 e2), (e_res1 e2), (e_res2 e2).
  rewrite E1, E2. cbn [option_map]. split; [done|]. split; [by rewrite Hr|].
  intros Hn. destruct (Hcall Hn) as [ix Hc].
  assert (Hc1 : captures s (with_junk v g1) (snapshot_kind nm) ix) by exact Hc.
  assert (Hc2 : captures s (with_junk v g2) (snapshot_kind nm) ix) by exact Hc.
  unfold same_snapshot, snapshot_kind in *. cbn [go_evt Cap Cap2 Ncap].
  destruct (HasSuffix nm "A"); [|destruct (HasSuffix nm "V")].
  - intros i Hi. rewrite (captured_jvalue s (with_junk v g1) g1 ix e1 eq_refl Hl1 Hc1 E1 i Hi).
    exact (captured_jvalue s (with_junk v g2) g2 ix e2 eq_refl Hl2 Hc2 E2 i Hi).
  - destruct (captured_va s (with_junk v g1) g1 ix e1 eq_refl Hl1 Hl1' Hc1 E1) as (_ & _ & _ & W1).
    destruct (captured_va s (with_junk v g2) g2 ix e2 eq_refl Hl2 Hl2' Hc2 E2) as (_ & _ & _ & W2).
    intros i Hi. destruct (W1 i Hi) as [-> ->]. exact (W2 i Hi).
  - destruct (captured_direct s (with_junk v g1) g1 ix e1 eq_refl Hl1 Hc1 E1) as [N1 W1].
    destruct (captured_direct s (with_junk v g2) g2 ix e2 eq_refl Hl2 Hc2 E2) as [_ W2].
    intros i Hi Hn'. rewrite N1 in Hn'. rewrite (W1 i Hi Hn'). exact (W2 i Hi Hn').
Qed.
End Junk.

(** ** From the registers and memory of the call to the printed arguments *)

Section Properties.
Context {M R U : Type} `{HM : BpfMapLaws M} `{HR : PtRegsLaws R} `{HU : UserMemLaws U}.

(** C16. A Call*MethodA call: the arguments the loader prints are the elements of
    the caller's [jvalue] array as they were at entry, formatted by the
    signature's parameter types; from the seventeenth on it prints a
    question mark. *)
Theorem jvalue_arguments_shown s (v : hit_env R U) g ix e ps c mr :
  reserve v = Some g -> length (e_cap g) = NCAP -> captures s v 1 ix -> (up_all s v).2 = Some e ->
  decodeA (go_evt e) ps c mr =
  imap (fun i t => if (i <? 16)%nat
                   then fmtJV t (read_word (umem v) (nthZ (entry_args v) ix + 8 * Z.of_nat i)) c mr
                   else "?") ps.
Proof.
  intros Eg Hl Hc E. unfold decodeA. apply imap_nth_ext. intros i t _. unfold decodeA_one, go_NCAP.
  destruct (Nat.leb_spec 16 i), (Nat.ltb_spec i 16); try lia; [done|]. cbn [go_evt Cap].
  rewrite (captured_jvalue s v g ix e Eg Hl Hc E) by (unfold NCAP; lia). do 2 f_equal. lia.
Qed.

(** C15. A Call*MethodV call: every parameter that is not floating point is
    printed with the word that the callee's own [va_arg] sequence reads for
    it, whatever the mix of parameters, as long as the floating-point ones
    are still in registers and at most sixteen words come from the stack.
    Floating-point parameters are shown as a question mark. *)
Theorem va_list_arguments_shown s (v : hit_env R U) g ix e ps c mr :
  reserve v = Some g -> length (e_cap g) = NCAP -> length (e_cap2 g) = NCAP ->
  captures s v 2 ix -> (up_all s v).2 = Some e ->
  let va := va_load (umem v) (nthZ (entry_args v) ix) in
  -128 <= va_gr_offs va -> va_gr_offs va mod 8 = 0 -> (va_gr_offs va < 0 -> va_gr_top va <> 0) ->
  Z.of_nat (gr_count ps) <= 16 + gr_left (va_gr_offs va) ->
  16 * Z.of_nat (fp_count ps) <= - va_vr_offs va ->
  decodeV (go_evt e) ps c mr = zip_with (shown_V c mr) ps (va_args (umem v) va ps).
Proof.
  intros Eg Hl Hl2 Hc E va Ho Hm Hnz Hgr Hfp.
  destruct (captured_va s v g ix e Eg Hl Hl2 Hc E) as (Et & Eo & Es & Hw). fold va in Et, Eo, Es, Hw.
  assert (Hft : fits 64 (va_gr_top va)) by apply le_val_take8.
  assert (Hfs : fits 64 (va_stack va)) by apply le_val_take8.
  assert (Hlt : va_gr_offs va < 2 ^ 31) by apply s32_range.
  unfold decodeV. cbn [go_evt Vgr Vgoff Vstk]. rewrite Et, Eo, Es.
  rewrite <- (wrap_small 64 (va_stack va)) at 1 by done.
  replace (va_stack va) with (va_stack va + 8 * 0) at 1 by lia.
  apply decodeV_loop_va; try done; try lia; cbn [go_evt Cap Cap2]; intros i Hi; apply (Hw i Hi).
Qed.

(** *** Arguments in registers

    AAPCS64 passes the arguments of a variadic call one by one: integers and
    references in the next of x0 to x7, floats and doubles in the next of v0
    to v7, on the stack when those are used up. *)
Inductive place := InX (n : nat) | InV (n : nat) | OnStack.

Definition floating (t : string) : bool := String.eqb t "F" || String.eqb t "D".

Fixpoint places (ngrn nsrn : nat) (ps : list string) : list place :=
  match ps with
  | [] => []
  | t :: ps' =>
      if floating t
      then (if (nsrn <? 8)%nat then InV nsrn else OnStack) :: places ngrn (S nsrn) ps'
      else (if (ngrn <? 8)%nat then InX ngrn else OnStack) :: places (S ngrn) nsrn ps'
  end.

(** An argument is shown when it is one of the first two and in x0 to x4. *)
Definition shown (v : hit_env R U) (ix : Z) (c : caches) (mr : option memReader) (t : string) (pl : place) : string :=
  match pl with
  | InX n => if (Z.of_nat n <? ix + 2) && (n <? NARGS)%nat
             then fmtJV t (PT_REGS_PARM (regs v) (S n)) c mr else "?"
  | _ => "?"
  end.

Lemma places_general ps ngrn nsrn i t :
  Forall (fun t => floating t = false) ps -> ps !! i = Some t ->
  places ngrn nsrn ps !! i = Some (if (ngrn + i <? 8)%nat then InX (ngrn + i) else OnStack).
Proof.
  intros Hg. revert ngrn i. induction Hg as [|t' ps Ht _ IH]; intros ngrn i Hi; [done|].
  cbn [places]. rewrite Ht. destruct i as [|i]; [by rewrite Nat.add_0_r|].
  rewrite lookup_cons. rewrite lookup_cons in Hi. rewrite (IH (S ngrn) i Hi). by rewrite Nat.add_succ_r.
Qed.

Lemma entry_arg_reg (v : hit_env R U) n : (n < NARGS)%nat -> nthZ (entry_args v) (Z.of_nat n) = PT_REGS_PARM (regs v) (S n).
Proof. intros Hn. unfold nthZ. rewrite Nat2Z.id. do 5 (destruct n as [|n]; [done|]). unfold NARGS in Hn. lia. Qed.

Lemma decodeDirect_lookup s (v : hit_env R U) g ix e ps c mr i t :
  reserve v = Some g -> length (e_cap g) = NCAP -> captures s v 3 ix -> (up_all s v).2 = Some e ->
  ps !! i = Some t ->
  decodeDirect (go_evt e) ps c mr !! i = Some (shown v ix c mr t (InX (Z.to_nat ix + i))).
Proof.
  intros Eg Hl Hc E Hi. destruct (captured_direct s v g ix e Eg Hl Hc E) as [En Hw].
  destruct Hc as (_ & _ & _ & _ & _ & Hix).
  unfold decodeDirect. rewrite list_lookup_imap, Hi. cbn [fmap option_fmap option_map]. f_equal.
  unfold decodeDirect_one, shown. cbn [go_evt Cap Ncap]. rewrite En.
  destruct (Z.leb_spec (Z.of_nat NARGS - ix) (Z.of_nat i)) as [Ha|Ha]; cbn [orb].
  { rewrite (proj2 (Nat.ltb_ge _ _)) by lia. by rewrite andb_false_r. }
  destruct (Nat.leb_spec 2 i) as [Hb|Hb].
  { by rewrite (proj2 (Z.ltb_ge _ _)) by lia. }
  rewrite (proj2 (Z.ltb_lt _ _)), (proj2 (Nat.ltb_lt _ _)) by lia. cbn [andb].
  rewrite Hw by lia. rewrite <- entry_arg_reg by lia. do 2 f_equal. lia.
Qed.

(** C17. A variadic Call*Method call with its arguments in the registers.  When
    no parameter is floating-point, each argument that AAPCS64 passes in a
    register up to x4 and that is one of the first two is shown with the word
    of that register at the entry: those in x3 and x4 ([ix] is 3), or the one
    in x4 (4, the Nonvirtual functions).  All others are a question mark:
    those on the stack, and those in x5 to x7 too.  For any parameters
    the [i]-th one is shown from the register [ix + i], whatever its type and
    the types before it. *)
Theorem register_arguments_shown s (v : hit_env R U) g ix e ps c mr :
  reserve v = Some g -> length (e_cap g) = NCAP -> captures s v 3 ix -> (up_all s v).2 = Some e ->
  (Forall (fun t => floating t = false) ps ->
   decodeDirect (go_evt e) ps c mr = zip_with (shown v ix c mr) ps (places (Z.to_nat ix) 0 ps)) /\
  (forall i t, ps !! i = Some t ->
   decodeDirect (go_evt e) ps c mr !! i = Some (shown v ix c mr t (InX (Z.to_nat ix + i)))).
Proof.
  intros Eg Hl Hc E. split; [|intros i t Hi; by apply (decodeDirect_lookup s v g)].
  intros Hg. apply list_eq. intros i. rewrite lookup_zip_with.
  destruct (ps !! i) as [t|] eqn:Hi.
  - rewrite (decodeDirect_lookup s v g ix e ps c mr i t Eg Hl Hc E Hi), (places_general ps _ _ i t Hg Hi).
    cbn [mbind option_bind fmap option_fmap option_map].
    destruct (Nat.ltb_spec (Z.to_nat ix + i) 8) as [_|H8]; [done|]. cbn [shown].
    rewrite (proj2 (Nat.ltb_ge _ _)) by (unfold NARGS; lia). by rewrite andb_false_r.
  - unfold decodeDirect. by rewrite list_lookup_imap, Hi.
Qed.
End Properties.

(** ** Examples *)

Definition demo_jvalues : list (Z * Z) := [(0x5000, 7); (0x5008, 2 ^ 64 - 2)].
Definition demo_A := demo_hit 0x100 [0x10; 0x20; 0x30; 0x5000] demo_jvalues 1000.
Definition demo_A_evt : evt_t := default (junk 0) (up_all demo_maps demo_A).2.

Lemma jvalue_arguments_shown_witness : decodeA (go_evt demo_A_evt) ["I"; "J"] newCaches None = ["7"; "-2"].
Proof.
  rewrite (jvalue_arguments_shown demo_maps demo_A (junk 0x5a5a) 3 demo_A_evt).
  - vm_compute. reflexivity.
  - reflexivity.
  - reflexivity.
  - exists demo_base. vm_compute. repeat split; discriminate.
  - vm_compute. reflexivity.
Defined.

(** Two general registers left, then the stack: [(I)(D)(J)(I)]. *)
Definition demo_va : list (Z * Z) :=
  [(0x5000, 0x6000); (0x5008, 0x5100); (0x5010, 0x5200); (0x5018, (2 ^ 32 - 16) * (1 + 2 ^ 32));
   (0x50f0, 11); (0x50f8, 2 ^ 64 - 22); (0x51f0, 0x4000000000000000); (0x6000, 33)].
Definition demo_V := demo_hit 0x200 [0x10; 0x20; 0x30; 0x5000] demo_va 1000.
Definition demo_V_evt : evt_t := default (junk 0) (up_all demo_maps demo_V).2.

Lemma va_list_arguments_shown_witness :
  decodeV (go_evt demo_V_evt) ["I"; "D"; "J"; "I"] newCaches None = ["11"; "?"; "-22"; "33"].
Proof.
  rewrite (va_list_arguments_shown demo_maps demo_V (junk 0x5a5a) 3 demo_V_evt).
  - vm_compute. reflexivity.
  - reflexivity.
  - reflexivity.
  - reflexivity.
  - exists demo_base. vm_compute. repeat split; discriminate.
  - vm_compute. reflexivity.
  - vm_compute. discriminate.
  - vm_compute. reflexivity.
  - vm_compute. discriminate.
  - vm_compute. discriminate.
  - vm_compute. discriminate.
Defined.

(** x3 to x5 hold 5, 6 and 7. *)
Definition demo_D := demo_hit 0x300 [0x10; 0x20; 0x30; 5; 6; 7] [] 1000.
Definition demo_D_evt : evt_t := default (junk 0) (up_all demo_maps demo_D).2.

Lemma register_arguments_shown_witness :
  decodeDirect (go_evt demo_D_evt) ["I"; "J"; "I"] newCaches None = ["5"; "6"; "?"] /\
  decodeDirect (go_evt demo_D_evt) ["D"; "J"] newCaches None !! 1%nat = Some "6".
Proof.
  assert (Hc : captures demo_maps demo_D 3 3) by (exists demo_base; vm_compute; repeat split; discriminate).
  assert (He : (up_all demo_maps demo_D).2 = Some demo_D_evt) by (vm_compute; reflexivity).
  split.
  - rewrite (proj1 (register_arguments_shown demo_maps demo_D (junk 0x5a5a) 3 demo_D_evt ["I"; "J"; "I"] newCaches None
      eq_refl eq_refl Hc He)); [vm_compute; reflexivity|repeat constructor].
  - rewrite (proj2 (register_arguments_shown demo_maps demo_D (junk 0x5a5a) 3 demo_D_evt ["D"; "J"] newCaches None
      eq_refl eq_refl Hc He) 1%nat "J" eq_refl). vm_compute. reflexivity.
Defined.
