(* ===== verification/Modules.v ===== *)
(** * Modules: the module map of loader/trace.go

    [loadModules], [moduleOf] and the [modCache] that resolves code addresses
    to module names, reloading [/proc/<pid>/maps] when a lookup fails on stale
    data.  The clock and the file contents are arguments. *)

From S2P Require Import Prelude GoStr Strconv Target.

Record moduleRange := ModuleRange { m_lo : Z; m_hi : Z; m_name : string }.

(** The last path component. *)
Definition base_name (name : string) : string :=
  match LastIndexByte name "/" with
  | Some i => sdrop (S i) name
  | None => name
  end.

Definition load_module_line (st : list moduleRange * gmap string Z) (ln : string)
  : list moduleRange * gmap string Z :=
  match parse_mapping ln with
  | None => st
  | Some m =>
      let '(out, bias) := st in
      let name := base_name (mp_path m) in
      let out := out ++ [ModuleRange (mp_lo m) (mp_hi m) name] in
      if mp_off m =? 0 then
        match bias !! name with
        | Some _ => (out, bias)
        | None => (out, <[name := mp_lo m]> bias)
        end
      else (out, bias)
  end.

Definition loadModules (maps : option string) : list moduleRange * gmap string Z :=
  match maps with
  | None => ([], ∅)
  | Some data => fold_left load_module_line (maps_lines data) ([], ∅)
  end.

Fixpoint moduleOf (mods : list moduleRange) (addr : Z) : string :=
  match mods with
  | [] => ""
  | m :: mods' => if (m_lo m <=? addr) && (addr <? m_hi m) then m_name m else moduleOf mods' addr
  end.

Record modCache := ModCache {
  mc_ranges : list moduleRange;
  mc_bias : gmap string Z;
  mc_pid : Z;
  mc_last : Z   (* ns *)
}.

(** [now] is the clock after the file was read. *)
Definition mc_reload (m : modCache) (pid : Z) (maps : option string) (now : Z) : modCache :=
  let '(r, b) := loadModules maps in ModCache r b pid now.

(** [of]: the module of an address and the cache afterwards; [maps] is what
    [/proc/<mc_pid>/maps] holds if it is read, [now] the clock when the age of
    the table is taken and [later] when the new table is stamped. *)
Definition mc_of (m : modCache) (addr : Z) (maps : option string) (now later : Z) : string * modCache :=
  let name := moduleOf (mc_ranges m) addr in
  let stale := 300000000 <? now - mc_last m in
  if String.eqb name "" && stale then
    let '(r, b) := loadModules maps in
    (moduleOf r addr, ModCache r b (mc_pid m) later)
  else (name, m).

Definition mc_lookup (m : modCache) (addr : Z) : string * Z :=
  let name := moduleOf (mc_ranges m) addr in
  if String.eqb name "" then ("", 0) else (name, default 0 (mc_bias m !! name)).

(** ** Lemmas *)

Definition covers (addr : Z) (m : moduleRange) : Prop := m_lo m <= addr < m_hi m.

Lemma covers_dec addr m : (m_lo m <=? addr) && (addr <? m_hi m) = true <-> covers addr m.
Proof. unfold covers. rewrite andb_true_iff, Z.leb_le, Z.ltb_lt. done. Qed.

(** [moduleOf] gives the first range that covers the address, [""] if none. *)
Lemma moduleOf_spec mods addr :
  (exists pre m post, mods = pre ++ m :: post /\ covers addr m /\
     Forall (fun m' => ~ covers addr m') pre /\ moduleOf mods addr = m_name m) \/
  (Forall (fun m' => ~ covers addr m') mods /\ moduleOf mods addr = "").
Proof.
  induction mods as [|m mods IH]; cbn [moduleOf]; [right; done|].
  destruct ((m_lo m <=? addr) && (addr <? m_hi m)) eqn:E.
  - apply covers_dec in E. left. by exists [], m, mods.
  - assert (Hn : ~ covers addr m) by (rewrite <- covers_dec; congruence).
    destruct IH as [(pre & m' & post & -> & Hc & Hp & Hm)|[Hall Hm]].
    + left. exists (m :: pre), m', post. split; [done|]. split; [done|]. split; [by constructor|done].
    + right. split; [by constructor|done].
Qed.

Lemma load_modules_fold lines st :
  fst (fold_left load_module_line lines st) =
  fst st ++ map (fun m => ModuleRange (mp_lo m) (mp_hi m) (base_name (mp_path m))) (omap parse_mapping lines).
Proof.
  revert st. induction lines as [|ln lines IH]; intros [out bias]; cbn [fold_left]; [by rewrite app_nil_r|].
  rewrite IH. csimpl. unfold load_module_line. destruct (parse_mapping ln) as [m|]; [|done].
  destruct (mp_off m =? 0); [destruct (bias !! _)|]; cbn [fst map]; by rewrite <- app_assoc.
Qed.

Lemma load_modules_bias lines st name b :
  snd (fold_left load_module_line lines st) !! name = Some b ->
  snd st !! name = Some b \/
  exists m, In m (omap parse_mapping lines) /\ base_name (mp_path m) = name /\ mp_off m = 0 /\ mp_lo m = b.
Proof.
  revert st. induction lines as [|ln lines IH]; intros [out bias]; cbn [fold_left]; [by left|].
  intros H. destruct (IH _ H) as [Hs|(m & Hin & Hm)].
  - unfold load_module_line in Hs. destruct (parse_mapping ln) as [m|] eqn:Ep; [|by left].
    destruct (Z.eqb_spec (mp_off m) 0) as [Hz|]; [|by left].
    destruct (bias !! base_name (mp_path m)) eqn:Eb; [by left|]. cbn [snd] in *.
    rewrite lookup_insert in Hs. case_decide; [|by left]. simplify_eq. right.
    exists m. csimpl. rewrite Ep. split; [by left|done].
  - right. exists m. csimpl. destruct (parse_mapping ln); [split; [by right|done]|done].
Qed.

(** ** Properties *)

(** Resolving a code address reads the maps file the way the kernel writes
    it: the answer is the base name of the first mapping that covers the
    address, and empty when none does; the base [mc_lookup] gives is the
    start of a mapping of that name at file offset zero, or 0. *)
Theorem lookup_correct data addr pid now :
  let '(ranges, bias) := loadModules (Some data) in
  let mc := ModCache ranges bias pid now in
  let ms := omap parse_mapping (maps_lines data) in
  (moduleOf ranges addr = "" \/
   exists m, In m ms /\ mp_lo m <= addr < mp_hi m /\ moduleOf ranges addr = base_name (mp_path m)) /\
  ((exists m, In m ms /\ mp_lo m <= addr < mp_hi m) ->
   exists pre m post, ms = pre ++ m :: post /\ mp_lo m <= addr < mp_hi m /\
     (forall m', In m' pre -> ~ mp_lo m' <= addr < mp_hi m') /\
     moduleOf ranges addr = base_name (mp_path m)) /\
  ((mc_lookup mc addr).2 = 0 \/
   exists m, In m ms /\ base_name (mp_path m) = (mc_lookup mc addr).1 /\ mp_off m = 0 /\
             mp_lo m = (mc_lookup mc addr).2).
Proof.
  unfold loadModules.
  pose proof (load_modules_fold (maps_lines data) ([], ∅)) as Hr.
  pose proof (fun name b => load_modules_bias (maps_lines data) ([], ∅) name b) as Hb.
  destruct (fold_left load_module_line (maps_lines data) ([], ∅)) as [ranges bias]. cbn [fst snd app] in *.
  set (ms := omap parse_mapping (maps_lines data)) in *. cbv zeta.
  set (rng := fun m => ModuleRange (mp_lo m) (mp_hi m) (base_name (mp_path m))) in *.
  destruct (moduleOf_spec ranges addr) as [(pre & r & post & E & Hc & Hpre & Hm)|[Hall Hm]].
  - assert (Hsplit : exists pre' m post', ms = pre' ++ m :: post' /\ pre = map rng pre' /\ r = rng m).
    { rewrite Hr in E. clear -E. apply map_eq_app in E as (l1 & l2 & -> & <- & E2).
      destruct l2 as [|m l2]; [done|]. cbn in E2. injection E2 as <- _. by exists l1, m, l2. }
    destruct Hsplit as (pre' & m & post' & Ems & -> & ->).
    assert (Hin : In m ms) by (rewrite Ems, in_app_iff; right; by left).
    split; [right; by exists m|]. split.
    + intros _. exists pre', m, post'. split; [done|]. split; [done|]. split; [|done].
      intros m' Hm' Hcov. rewrite Forall_forall in Hpre. apply (Hpre (rng m')); [|done].
      apply list_elem_of_In. by apply in_map.
    + unfold mc_lookup. cbn [mc_ranges mc_bias]. destruct (String.eqb _ ""); [by left|]. cbn [fst snd].
      destruct (bias !! moduleOf ranges addr) as [b|] eqn:Eb; [|by left]. right.
      destruct (Hb _ _ Eb) as [Hx|(m' & ? & ? & ? & ?)]; [by rewrite lookup_empty in Hx|by exists m'].
  - split; [by left|]. split.
    + intros (m & Hin & Hcov). exfalso. rewrite Forall_forall in Hall. apply (Hall (rng m)); [|done].
      rewrite Hr. apply list_elem_of_In. by apply in_map.
    + unfold mc_lookup. cbn [mc_ranges]. rewrite Hm. by left.
Qed.

(** The module cache reloads only when it must: a hit, or a miss on a table
    younger than 300 ms, answers from the cache and keeps it; a miss on an
    older one answers from the maps file as it is now and stamps the cache
    with the time of the read. *)
Theorem mc_of_correct m addr maps now later :
  mc_of m addr maps now later =
  if decide (moduleOf (mc_ranges m) addr = "" /\ 300000000 < now - mc_last m)
  then (moduleOf (loadModules maps).1 addr, mc_reload m (mc_pid m) maps later)
  else (moduleOf (mc_ranges m) addr, m).
Proof.
  unfold mc_of, mc_reload. destruct (String.eqb_spec (moduleOf (mc_ranges m) addr) "") as [E|E];
    destruct (Z.ltb_spec 300000000 (now - mc_last m)) as [Hs|Hs]; cbn [andb];
    case_decide; try tauto; try lia.
  by destruct (loadModules maps).
Qed.

Definition demo_modules : string :=
  "7000000000-7000100000 r--p 00000000 fe:00 1 /lib64/libc.so" ++s String.String "010"
  ("7000100000-7000200000 r-xp 00100000 fe:00 1 /lib64/libc.so").

Lemma lookup_correct_witness :
  moduleOf (loadModules (Some demo_modules)).1 0x7000100010 = "libc.so".
Proof.
  pose proof (lookup_correct demo_modules 0x7000100010 41 0) as T.
  destruct (loadModules (Some demo_modules)) as [ranges bias]. cbv zeta in T.
  destruct T as (_ & T & _). cbn [fst]. destruct T as (pre & m & post & E & Hc & _ & Hm).
  - eexists. split; [right; left; vm_compute; reflexivity|]. vm_compute. split; congruence.
  - rewrite Hm. assert (Hin : In m (omap parse_mapping (maps_lines demo_modules))).
    { rewrite E. apply in_app_iff. right. by left. }
    vm_compute in Hin. destruct Hin as [<-|[<-|[]]]; reflexivity.
Defined.
