(* ===== verification/MapsFile.v ===== *)
(** * MapsFile: /proc/<pid>/maps as the kernel writes it

    A printer for the file, mapping by mapping, and what the module cache
    (Modules) answers for an address from such a file. *)

From S2P Require Import Prelude GoStr Strconv Target Modules.

(** ** The file *)










(** ** Reading it back *)



Lemma dval_leading_zeros n k ds : dval 16 0 (repeat 0 k ++ ds) = n -> dval 16 0 ds = n.
Proof. induction k as [|k IH]; [done|]. exact IH. Qed.
















(** ** The answers *)






(** ** Properties *)




