(* ===== verification/Output.v ===== *)
(** * Output: emitting, counting and statistics of loader/trace.go

    [emit] in its three modes (aggregate, JSON, plain), [printStats] and the
    JSON string encoder behind [json.Marshal].  Printed lines are values. *)

From S2P Require Import Prelude GoStr Strconv Utf8 Json Filters.
From Stdlib Require Import Permutation Sorting.Sorted.
Import String.

(** ** json.Marshal of [map[string]string{"line": line}] *)

Definition hexpair (n : Z) : string :=
  String (digit_char (n / 16)) (String (digit_char (n mod 16)) EmptyString).

Definition esc (c : ascii) : string := String "092" (String c EmptyString).

(** One ASCII byte of a string literal, HTML-escaped. *)
Definition marshal_byte (c : ascii) : string :=
  let n := code c in
  if (n =? 34) || (n =? 92) then esc c
  else if n =? 8 then esc "b"
  else if n =? 12 then esc "f"
  else if n =? 10 then esc "n"
  else if n =? 13 then esc "r"
  else if n =? 9 then esc "t"
  else if (n <? 32) || (n =? 60) || (n =? 62) || (n =? 38) then esc "u" ++s "00" ++s hexpair n
  else String c EmptyString.

Definition hexpair_low (r : Z) : string := String (digit_char (r mod 16)) EmptyString.

(** The body of the literal; [skip] bytes of the current rune remain. *)
Fixpoint marshal_text (skip : nat) (s : string) : string :=
  match s with
  | EmptyString => EmptyString
  | String c s' =>
      match skip with
      | S k => marshal_text k s'
      | O =>
          if code c <? 128 then marshal_byte c ++s marshal_text 0 s'
          else
            let (r, w) := DecodeRune s in
            let text := if (r =? RuneError) && (w =? 1)%nat then esc "u" ++s "fffd"
                        else if (r =? 0x2028) || (r =? 0x2029) then esc "u" ++s "202" ++s hexpair_low r
                        else stake w s in
            text ++s marshal_text (w - 1) s'
      end
  end.

Definition marshal_line (line : string) : string :=
  "{" ++s quoted "line" ++s ":" ++s dquote ++s marshal_text 0 line ++s dquote ++s "}".

(** ** emit *)

Definition emit (c : config) (counts : gmap string Z) (line : string) : gmap string Z * list string :=
  if c_count c then (<[line := default 0 (counts !! line) + 1]> counts, [])
  else if c_jsonOut c then (counts, [marshal_line line])
  else (counts, [line]).

(** ** printStats *)

(** [sort.Slice] by decreasing count: some permutation in that order. *)
Class SortByCount := sort_by_count : list (string * Z) -> list (string * Z).

Definition count_ge (x y : string * Z) : Prop := y.2 <= x.2.

Class SortLaws `{SortByCount} := {
  sort_perm : forall l, Permutation (sort_by_count l) l;
  sort_sorted : forall l, StronglySorted count_ge (sort_by_count l)
}.

Definition stats_line (x : string * Z) : string :=
  "    " ++s pad_left " " 6 (FormatInt x.2 10) ++s "  " ++s x.1.

(** [order] is the iteration order of Go's [range] over the map. *)
Definition printStats `{SortByCount} (order : gmap string Z -> list (string * Z))
    (counts : gmap string Z) (top : nat) : list string :=
  if (size counts =? 0)%nat then []
  else "[*] top calls:" :: map stats_line (take top (sort_by_count (order counts))).

(** An insertion sort, as an instance. *)
Fixpoint insert_by_count (x : string * Z) (l : list (string * Z)) : list (string * Z) :=
  match l with
  | [] => [x]
  | y :: l' => if y.2 <? x.2 then x :: l else y :: insert_by_count x l'
  end.

Definition insertion_sort (l : list (string * Z)) : list (string * Z) := fold_right insert_by_count [] l.

Lemma insert_by_count_perm x l : Permutation (insert_by_count x l) (x :: l).
Proof.
  induction l as [|y l IH]; cbn [insert_by_count]; [done|].
  destruct (y.2 <? x.2); [done|]. rewrite IH. constructor.
Qed.

Lemma insert_by_count_sorted x l :
  StronglySorted count_ge l -> StronglySorted count_ge (insert_by_count x l).
Proof.
  intros Hs. induction Hs as [|y l Hs IH Hall]; cbn [insert_by_count]; [by repeat constructor|].
  destruct (Z.ltb_spec y.2 x.2).
  - constructor; [by constructor|]. constructor; [unfold count_ge; lia|].
    eapply Forall_impl; [exact Hall|]. unfold count_ge. lia.
  - constructor; [done|]. rewrite insert_by_count_perm. constructor; [unfold count_ge; lia|done].
Qed.

#[export] Instance insertion_sort_ops : SortByCount := insertion_sort.

#[export] Instance insertion_sort_laws : SortLaws.
Proof.
  split; unfold sort_by_count, insertion_sort_ops, insertion_sort.
  - induction l as [|x l IH]; cbn; [done|]. by rewrite insert_by_count_perm, IH.
  - induction l as [|x l IH]; cbn; [constructor|]. by apply insert_by_count_sorted.
Qed.

(** ** Lemmas *)

(** The aggregate count of a line, 0 when it has not been seen. *)
Definition count_of (counts : gmap string Z) (line : string) : Z := default 0 (counts !! line).

Lemma emit_count c counts line :
  c_count c = true ->
  (emit c counts line).2 = [] /\
  (forall l, count_of (emit c counts line).1 l = count_of counts l + if decide (l = line) then 1 else 0).
Proof.
  intros Hc. unfold emit. rewrite Hc. split; [done|]. intros l. cbn [fst]. unfold count_of.
  rewrite lookup_insert. case_decide as E; case_decide as E'; subst; try done; cbn; lia.
Qed.

(** Emitting a sequence of lines counts the occurrences of each. *)
Fixpoint emit_all (c : config) (counts : gmap string Z) (ls : list string) : gmap string Z * list string :=
  match ls with
  | [] => (counts, [])
  | l :: ls' =>
      let '(m1, o1) := emit c counts l in
      let '(m2, o2) := emit_all c m1 ls' in (m2, o1 ++ o2)
  end.

Lemma emit_all_count c counts ls l :
  c_count c = true ->
  count_of (emit_all c counts ls).1 l = count_of counts l + Z.of_nat (count_occ String.string_dec ls l).
Proof.
  intros Hc. revert counts. induction ls as [|x ls IH]; intros counts; cbn [emit_all count_occ]; [cbn; lia|].
  pose proof (emit_count c counts x Hc) as [_ He]. specialize (He l).
  destruct (emit c counts x) as [m1 o1]. cbn [fst] in *. specialize (IH m1).
  destruct (emit_all c m1 ls) as [m2 o2]. cbn [fst] in *. rewrite IH, He.
  destruct (String.string_dec x l), (decide (l = x)); subst; try done; lia.
Qed.

(** *** The JSON line decodes back *)

(** Text given by its runes. *)
Definition text_of (rs : list Z) : string := fold_right (fun r s => EncodeRune r ++s s) EmptyString rs.

(** What the encoder writes for one rune. *)
Definition rune_text (r : Z) : string :=
  if r <? 128 then marshal_byte (byte_of r)
  else if (r =? 0x2028) || (r =? 0x2029) then esc "u" ++s "202" ++s hexpair_low r
  else EncodeRune r.

Lemma marshal_skip a t : marshal_text (slen a) (a ++s t) = marshal_text 0 t.
Proof. induction a as [|c a IH]; [by destruct t|]. exact IH. Qed.

Lemma marshal_text_rune r t :
  valid_rune r -> marshal_text 0 (EncodeRune r ++s t) = rune_text r ++s marshal_text 0 t.
Proof.
  intros Hr. unfold rune_text. destruct (Z.ltb_spec r 128) as [Hlt|Hge].
  - rewrite EncodeRune_ascii by (destruct Hr; lia). cbn [String.append marshal_text].
    rewrite code_byte_of by (destruct Hr; lia). by rewrite (proj2 (Z.ltb_lt _ _) Hlt).
  - pose proof (DecodeRune_EncodeRune r t Hr) as Hd.
    destruct (EncodeRune_head r Hr Hge) as (c & a & E & Hc). rewrite E in *.
    cbn [String.append marshal_text]. cbn [String.append] in Hd. rewrite Hd.
    destruct (Z.ltb_spec (code c) 128); [lia|].
    assert (Hw : ((r =? RuneError) && (slen (String c a) =? 1)%nat) = false).
    { destruct (Z.eqb_spec r RuneError) as [->|]; [|done].
      assert (slen (String c a) = 3%nat) as -> by (rewrite <- E; reflexivity). done. }
    rewrite Hw. cbn [slen]. replace (S (slen a) - 1)%nat with (slen a) by lia. rewrite marshal_skip.
    destruct ((r =? 0x2028) || (r =? 0x2029)); [done|].
    change (stake (S (slen a)) (String c (a ++s t))) with (stake (slen (String c a)) (String c a ++s t)).
    by rewrite stake_app.
Qed.

Lemma marshal_text_of rs :
  Forall valid_rune rs -> marshal_text 0 (text_of rs) = fold_right (fun r s => rune_text r ++s s) EmptyString rs.
Proof.
  induction 1 as [|r rs Hr _ IH]; [done|]. cbn [text_of fold_right].
  rewrite marshal_text_rune by done. f_equal. exact IH.
Qed.

Definition push (x : string) (o : option (string * string)) : option (string * string) :=
  match o with Some (t, rest) => Some (x ++s t, rest) | None => None end.

(** The decoder undoes the encoding of an ASCII byte. *)
Lemma json_string_byte f c t :
  code c < 128 -> json_string (S f) (marshal_byte c ++s t) = push (String c EmptyString) (json_string f t).
Proof. destruct c as [[] [] [] [] [] [] [] []]; intros Hc; try (vm_compute in Hc; discriminate); reflexivity. Qed.

Lemma json_string_rune f r t :
  valid_rune r -> json_string (S f) (rune_text r ++s t) = push (EncodeRune r) (json_string f t).
Proof.
  intros Hr. unfold rune_text. destruct (Z.ltb_spec r 128) as [Hlt|Hge].
  - assert (0 <= r < 128) by (destruct Hr; lia). rewrite EncodeRune_ascii by done.
    apply json_string_byte. rewrite code_byte_of; lia.
  - destruct (Z.eqb_spec r 0x2028) as [->|]; [reflexivity|].
    destruct (Z.eqb_spec r 0x2029) as [->|]; [reflexivity|]. cbn [orb].
    pose proof (DecodeRune_EncodeRune r t Hr) as Hd.
    destruct (EncodeRune_head r Hr Hge) as (c & a & E & Hc). rewrite E in *.
    assert (Hq : Ascii.eqb c quote = false /\ Ascii.eqb c backslash = false).
    { split; apply Ascii.eqb_neq; intros ->; vm_compute in Hc; by apply Hc. }
    destruct Hq as [Hq Hb]. cbn [String.append json_string] in *. rewrite Hq, Hb.
    destruct (Z.ltb_spec (code c) 32); [lia|]. destruct (Z.ltb_spec (code c) 128); [lia|].
    rewrite Hd. change (String c (a ++s t)) with (String c a ++s t). rewrite sdrop_app.
    unfold push. rewrite EncodeRune_valid by done. rewrite <- E, EncodeRune_valid by done. done.
Qed.

Lemma json_string_text fuel rs rest :
  Forall valid_rune rs -> (length rs < fuel)%nat ->
  json_string fuel (fold_right (fun r s => rune_text r ++s s) EmptyString rs ++s String quote rest) =
  Some (text_of rs, rest).
Proof.
  intros Hall. revert fuel. induction Hall as [|r rs Hr _ IH]; intros fuel Hf;
    (destruct fuel as [|f]; [cbn in Hf; lia|]); [done|].
  cbn [fold_right]. rewrite sapp_assoc, json_string_rune by done.
  rewrite IH by (cbn in Hf; lia). done.
Qed.

Lemma rune_text_nonempty r : valid_rune r -> (1 <= slen (rune_text r))%nat.
Proof.
  intros Hr. unfold rune_text. destruct (Z.ltb_spec r 128) as [Hlt|Hge].
  - generalize (byte_of r). intros c. unfold marshal_byte.
    repeat match goal with |- context [if ?b then _ else _] => destruct b end; cbn; lia.
  - destruct (_ || _); [cbn; lia|]. destruct (EncodeRune_head r Hr Hge) as (c & a & -> & _). cbn. lia.
Qed.

Lemma slen_rune_texts rs :
  Forall valid_rune rs -> (length rs <= slen (fold_right (fun r s => rune_text r ++s s) EmptyString rs))%nat.
Proof.
  induction 1 as [|r rs Hr _ IH]; [done|]. cbn [length fold_right]. rewrite slen_app.
  pose proof (rune_text_nonempty r Hr). lia.
Qed.

(** ** Properties *)

(** C33. A JSON output line is one object that decodes to the printed line: for
    any line of valid UTF-8 text, quotes, control characters and the
    HTML-escaped ones included, [Unmarshal] gives back the map
    [{"line": line}]. *)
Theorem marshal_line_decodes rs :
  Forall valid_rune rs -> Unmarshal (marshal_line (text_of rs)) = Some {["line"%string := text_of rs]}.
Proof.
  intros Hall. unfold marshal_line. rewrite marshal_text_of by done.
  set (body := fold_right (fun r s => rune_text r ++s s) EmptyString rs).
  change (Unmarshal ("{" ++s quoted "line" ++s ":" ++s dquote ++s body ++s dquote ++s "}")) with
    (json_end (let s := String quote ("line" ++s String quote (":" ++s String quote (body ++s String quote "}")))
               in json_members (S (slen s)) ∅ s)).
  cbv zeta. set (n := slen _). cbn [String.append json_members]. change (Ascii.eqb quote quote) with true.
  cbn [negb].
  change (json_string _ (String "l" ?x)) with
    (json_string (S (slen (String "l" x))) ("line" ++s sdrop 3 x)). cbn [sdrop].
  rewrite json_string_plain by (reflexivity || (cbn [slen String.length]; lia)).
  change (skip_ws (String ":" ?x)) with (String ":" x). cbv iota.
  change (Ascii.eqb ":" ":") with true. cbn [negb].
  change (json_value (skip_ws (String quote ?x))) with (json_string (S (slen x)) x).
  unfold body. rewrite json_string_text by (done || (rewrite slen_app; pose proof (slen_rune_texts rs Hall); lia)).
  done.
Qed.

(** Aggregate mode counts: with [--count] nothing is printed while lines are
    emitted, and afterwards the count of every line has grown by the number
    of its occurrences. *)
Theorem count_mode c counts ls :
  c_count c = true ->
  (emit_all c counts ls).2 = [] /\
  forall l, count_of (emit_all c counts ls).1 l =
            count_of counts l + Z.of_nat (count_occ String.string_dec ls l).
Proof.
  intros Hc. split; [|intros l; by apply emit_all_count].
  revert counts. induction ls as [|x ls IH]; intros counts; [done|]. cbn [emit_all].
  pose proof (emit_count c counts x Hc) as [E _]. destruct (emit c counts x) as [m o]. cbn [snd] in E. subst o.
  specialize (IH m). by destruct (emit_all c m ls).
Qed.

Lemma sorted_take_drop (l : list (string * Z)) n x y :
  StronglySorted count_ge l -> In x (take n l) -> In y (drop n l) -> y.2 <= x.2.
Proof.
  intros Hs. revert n. induction Hs as [|z l Hs IH Hall]; intros n Hx Hy; [by rewrite take_nil in Hx|].
  destruct n as [|n]; [done|]. cbn [take drop] in *. destruct Hx as [->|Hx]; [|by eapply IH].
  rewrite Forall_forall in Hall. apply (Hall y). apply list_elem_of_In.
  rewrite <- (take_drop n l), in_app_iff. by right.
Qed.

(** The statistics show the most frequent lines: whatever order Go iterates
    the map in, [printStats] prints, under one header, the entries of the
    greatest counts in decreasing order, as many as asked for or as there
    are; no entry it leaves out has a greater count than one it shows. *)
Theorem printStats_top `{SortLaws} (order : gmap string Z -> list (string * Z)) counts top :
  order counts ≡ₚ map_to_list counts -> counts <> ∅ ->
  exists shown hidden,
    printStats order counts top = "[*] top calls:" :: map stats_line shown /\
    shown ++ hidden ≡ₚ map_to_list counts /\ length shown = Nat.min top (size counts) /\
    StronglySorted count_ge shown /\
    (forall x y, In x shown -> In y hidden -> y.2 <= x.2).
Proof.
  intros Ho Hne. set (l := sort_by_count (order counts)).
  assert (Hp : l ≡ₚ map_to_list counts) by (unfold l; by rewrite sort_perm).
  exists (take top l), (drop top l). unfold printStats.
  destruct (Nat.eqb_spec (size counts) 0) as [E|_]; [by apply map_size_empty_inv in E|].
  split; [done|]. split; [by rewrite take_drop|].
  split; [by rewrite length_take, Hp, length_map_to_list|].
  assert (Hs : StronglySorted count_ge l) by apply sort_sorted.
  split; [|intros x y; by apply sorted_take_drop].
  clear -Hs. revert top. induction Hs as [|z l Hs IH Hall]; intros top; [by rewrite take_nil; constructor|].
  destruct top as [|n]; [constructor|]. cbn [take]. constructor; [apply IH|].
  rewrite !Forall_forall in *. intros x Hx. apply Hall. apply list_elem_of_In.
  rewrite <- (take_drop n l), in_app_iff. left. by apply list_elem_of_In.
Qed.

Definition demo_counts : gmap string Z := {["a"%string := 1; "b"%string := 3]}.

Lemma marshal_line_decodes_witness :
  Unmarshal (marshal_line (String "034" (text_of [8364; 60]))) =
  Some {["line"%string := String "034" (text_of [8364; 60])]}.
Proof.
  apply (marshal_line_decodes [34; 8364; 60]).
  repeat (constructor; [split; [lia|reflexivity]|]). constructor.
Defined.

Definition count_config : config :=
  Config 41 "" 0 "auto" "" "all" "" "" false 0 "" "" "" "" 0 false true false false false.

Lemma count_mode_witness :
  count_of (emit_all count_config demo_counts ["b"; "c"; "b"]%string).1 "b" = 5.
Proof. rewrite (proj2 (count_mode count_config demo_counts ["b"; "c"; "b"]%string eq_refl) "b"%string). vm_compute. reflexivity. Defined.

Lemma printStats_top_witness :
  exists shown, printStats map_to_list demo_counts 1 = "[*] top calls:"%string :: map stats_line shown /\ length shown = 1%nat.
Proof.
  destruct (printStats_top map_to_list demo_counts 1) as (shown & hidden & E & _ & Hl & _).
  - reflexivity.
  - intros E. apply (f_equal size) in E. vm_compute in E. discriminate.
  - exists shown. split; [exact E|exact Hl].
Defined.
