(* ===== verification/Trace.v ===== *)
(** * Trace: the probe set-up and event loop of loader/trace.go

    [runProbe] split the way it runs: the configuration of the BPF maps from
    the slot offsets ([configure]), one iteration of the event loop
    ([loop_event]) with [handleReturn], and the interleaving of events, maps
    reloads and typed commands ([loop_step], [loop_run]), each as one step; Goroutines
    takes them apart. *)

From S2P Require Import Prelude GoStr Strconv Target Schema Bpf Recon Wire FloatFmt Filters.
From S2P Require Import Decode Modules Output.

(** Slots whose return values are always captured. *)
Definition alwaysWatch : list string :=
  ["GetMethodID"; "GetStaticMethodID"; "GetFieldID"; "GetStaticFieldID";
   "FindClass"; "GetObjectClass"; "NewObject"; "NewObjectV";
   "NewObjectA"; "AllocObject"; "GetStringUTFChars"; "NewStringUTF"].

Definition always_watched (nm : string) : bool := existsb (String.eqb nm) alwaysWatch.

(** ** Configuration *)

Section Configure.
Context {M : Type} `{BpfMap M} {RE : Type} `{Regexp RE}.

(** How the arguments of a call variant are snapshotted. *)
Definition call_kind (nm : string) : Z :=
  if HasSuffix nm "A" then 1 else if HasSuffix nm "V" then 2 else 3.

Definition wants_return (c : config) (f : filters RE) (slot : Z) : bool :=
  always_watched (slotName slot) ||
  (negb (c_noReturns c) && negb (String.eqb (slotRet slot) "void") && matchSlot f slot).

Record setup := Setup { callSet : gset Z; retSet : gset Z; su_maps : kmaps M }.

(** One iteration of [for off, slot := range offsets]. *)
Definition configure_slot (c : config) (f : filters RE) (su : setup) (p : Z * Z) : setup :=
  let '(off, slot) := p in
  let nm := slotName slot in
  let '(cs, km) :=
    match isCallMethod nm with
    | Some midIdx =>
        let k := su_maps su in
        ({[slot]} ∪ callSet su,
         KMaps (cfg k) (map_update_elem (argkind k) off (call_kind nm)).1
               (map_update_elem (argidx k) off (u8 (midIdx + 1))).1 (hasret k) (depth k))
    | None => (callSet su, su_maps su)
    end in
  let rs := if wants_return c f slot then {[slot]} ∪ retSet su else retSet su in
  Setup cs rs km.

(** One iteration of the loop that fills [hasret] and [retOffsets]. *)
Definition configure_ret (rs : gset Z) (st : kmaps M * list Z) (p : Z * Z) : kmaps M * list Z :=
  let '(km, ro) := st in
  if bool_decide (p.2 ∈ rs)
  then (KMaps (cfg km) (argkind km) (argidx km) (map_update_elem (hasret km) p.1 1).1 (depth km),
        ro ++ [p.1])
  else (km, ro).

(** The configuration once the base is in the map [m]: the offsets are
    visited in the orders [l1] and [l2]. *)
Definition configure_rest (c : config) (f : filters RE) (m : M) (km0 : kmaps M) (l1 l2 : list (Z * Z))
  : setup * list Z :=
  let m := if c_stack c then (map_update_elem m 1 1).1 else m in
  let km := KMaps m (argkind km0) (argidx km0) (hasret km0) (depth km0) in
  let su := fold_left (configure_slot c f) l1 (Setup ∅ ∅ km) in
  let '(km, ro) := fold_left (configure_ret (retSet su)) l2 (su_maps su, []) in
  (Setup (callSet su) (retSet su) km, ro).

(** The whole of it on the loaded maps [km0]; [None] is the fatal error of
    the update that stores the base, the only one whose result is looked at. *)
Definition configure (c : config) (f : filters RE) (base : Z) (km0 : kmaps M) (l1 l2 : list (Z * Z))
  : option (setup * list Z) :=
  let '(m, rc) := map_update_elem (cfg km0) 0 base in
  if rc =? 0 then Some (configure_rest c f m km0 l1 l2) else None.
End Configure.
Arguments setup M : clear implicits.

(** ** Frames *)

Record frame := Frame {
  fr_slot : Z;
  fr_ts : Z;
  fr_call : string;
  fr_caller : string;
  fr_a1 : Z;
  fr_a2 : Z;
  fr_a3 : Z
}.

Definition fr2a (fr : frame) (idx : Z) : Z :=
  if idx =? 1 then fr_a1 fr else if idx =? 2 then fr_a2 fr else if idx =? 3 then fr_a3 fr else 0.

Definition set_call (fr : frame) (call : string) : frame :=
  Frame (fr_slot fr) (fr_ts fr) call (fr_caller fr) (fr_a1 fr) (fr_a2 fr) (fr_a3 fr).

Definition splitClassMethod (call : string) : string * string :=
  match LastIndexByte call "." with
  | Some i =>
      let rest := sdrop (S i) call in
      match IndexByte rest "(" with
      | Some j => (stake i call, stake j rest)
      | None => (stake i call, rest)
      end
  | None => ("", call)
  end.

Definition renderGeneric (e : reconEvt) (slot : Z) (c : caches) (mr : option memReader) : string :=
  let types := slotArgs slot in
  if (length types =? 0)%nat then
    "a1=" ++s hex0x (nthZ (A e) 1) ++s " a2=" ++s hex0x (nthZ (A e) 2) ++s " a3=" ++s hex0x (nthZ (A e) 3)
  else
    let parts := map (fun i => fmtArg c mr (nth i types "") (nthZ (A e) (Z.of_nat i)))
                     (seq 1 (Nat.min (length types) reconNArgs - 1)) in
    Join (filter (fun s => nonempty s = true) parts) ", ".

(** ** Cache learning: the switch of [handleReturn] *)

Definition set_idName (c : caches) m := Caches m (idClass c) (classNames c) (nameByClass c) (objClass c) (jstr c).
Definition set_idClass (c : caches) m := Caches (idName c) m (classNames c) (nameByClass c) (objClass c) (jstr c).
Definition set_classNames (c : caches) m := Caches (idName c) (idClass c) m (nameByClass c) (objClass c) (jstr c).
Definition set_nameByClass (c : caches) m := Caches (idName c) (idClass c) (classNames c) m (objClass c) (jstr c).
Definition set_objClass (c : caches) m := Caches (idName c) (idClass c) (classNames c) (nameByClass c) m (jstr c).
Definition set_jstr (c : caches) m := Caches (idName c) (idClass c) (classNames c) (nameByClass c) (objClass c) m.

Definition is_one_of (nm : string) (l : list string) : bool := existsb (String.eqb nm) l.

Definition learn_id (cs : caches) (mr : option memReader) (fr : frame) (rc : Z) : caches :=
  let nm := mr_cstr mr (fr2a fr 2) in
  let sg := mr_cstr mr (fr2a fr 3) in
  let cs := if validName nm && validSig sg then set_idName cs (<[rc := nm ++s sg]> (idName cs)) else cs in
  set_idClass cs (<[rc := fr2a fr 1]> (idClass cs)).

Definition learn_class (cs : caches) (mr : option memReader) (fr : frame) (rc : Z) : caches :=
  let nm := mr_cstr mr (fr2a fr 1) in
  if validName nm then
    let dotted := ReplaceByte nm "/" "." in
    let cs := set_classNames cs (<[rc := dotted]> (classNames cs)) in
    let obj := resolveObj mr rc in
    if obj =? 0 then cs else set_nameByClass cs (<[obj := dotted]> (nameByClass cs))
  else cs.

(** [objClass[resolve(o)] = resolve(k)] when both resolve. *)
Definition learn_object (cs : caches) (mr : option memReader) (o k : Z) : caches :=
  let op := resolveObj mr o in
  if op =? 0 then cs
  else
    let cp := resolveObj mr k in
    if cp =? 0 then cs else set_objClass cs (<[op := cp]> (objClass cs)).

Definition learn (cs : caches) (mr : option memReader) (fr : frame) (rc : Z) : caches :=
  let nm := slotName (fr_slot fr) in
  if bool_decide (mr = None) || (rc =? 0) then cs
  else if is_one_of nm ["GetMethodID"; "GetStaticMethodID"; "GetFieldID"; "GetStaticFieldID"]
  then learn_id cs mr fr rc
  else if String.eqb nm "FindClass" then learn_class cs mr fr rc
  else if String.eqb nm "GetObjectClass" then learn_object cs mr (fr2a fr 1) rc
  else if is_one_of nm ["NewObject"; "NewObjectV"; "NewObjectA"; "AllocObject"]
  then learn_object cs mr rc (fr2a fr 1)
  else if String.eqb nm "GetStringUTFChars"
  then set_jstr cs (<[fr2a fr 1 := mr_cstr mr rc]> (jstr cs))
  else if String.eqb nm "NewStringUTF"
  then set_jstr cs (<[rc := mr_cstr mr (fr2a fr 1)]> (jstr cs))
  else cs.

(** ** The event loop *)

Section Loop.
Context {RE : Type} `{Regexp RE}.

(** What [runProbe] fixes before the loop. *)
Record params := Params {
  p_conf : config;
  p_offsets : gmap Z Z;
  p_base : Z;
  p_callSet : gset Z;
  p_retSet : gset Z
}.

Abbreviation frames := (gmap (Z * Z) frame).

Record lstate := LState {
  l_filters : filters RE;
  l_mc : modCache;
  l_cs : caches;
  l_frames : frames;
  l_counts : gmap string Z;
  l_total : Z
}.

(** What one event finds: the target's memory, the maps file and the clock, twice,
    if the module cache reads them, and the stack map. *)
Record world := World {
  w_mem : option memReader;
  w_maps : option string;
  w_now : Z;
  w_later : Z;
  w_stack : Z -> option (list Z)
}.

Definition frame_key (e : reconEvt) : Z * Z := (s32 (Tid e), Depth e).

Definition too_deep (c : config) (e : reconEvt) : bool :=
  (0 <? c_maxDepth c) && (s32 (c_maxDepth c) <? Depth e).

Definition return_line (cs : caches) (mr : option memReader) (fr : frame) (e : reconEvt) : string :=
  indentStr (Depth e) ++s "<- " ++s fr_call fr ++s " = " ++s
  fmtRet cs mr (slotRet (fr_slot fr)) (Rc e) ++s "  (" ++s fmt_dur (u64 (Ts e - fr_ts fr)) ++s " ms)".

Definition handleReturn (c : config) (f : filters RE) (mr : option memReader) (e : reconEvt)
    (fs : frames) (cs : caches) (counts : gmap string Z)
  : frames * caches * gmap string Z * list string :=
  if Depth e <? 0 then (fs, cs, counts, [])
  else
    match fs !! frame_key e with
    | None => (fs, cs, counts, [])
    | Some fr =>
        let fs := delete (frame_key e) fs in
        let cs := learn cs mr fr (Rc e) in
        if matchSlot f (fr_slot fr) && nonempty (fr_call fr) then
          if too_deep c e then (fs, cs, counts, [])
          else
            let ret := fmtRet cs mr (slotRet (fr_slot fr)) (Rc e) in
            let '(cls, meth) := splitClassMethod (fr_call fr) in
            if matchLine f cls meth (fr_call fr ++s ret) (fr_caller fr) then
              let '(counts, out) := emit c counts (return_line cs mr fr e) in
              (fs, cs, counts, out)
            else (fs, cs, counts, [])
        else (fs, cs, counts, [])
    end.

(** The frames of a stack: the caller's return address goes second. *)
Definition stack_addrs (buf : list Z) (lr : Z) : list Z :=
  let fix upto0 (l : list Z) : list Z :=
    match l with [] => [] | a :: l' => if a =? 0 then [] else a :: upto0 l' end in
  match upto0 buf with
  | [] => []
  | a :: rest => a :: (if lr =? 0 then rest else lr :: rest)
  end.

Definition stack_line (mc : modCache) (ind : string) (i : nat) (a : Z) : string :=
  let '(nm, b) := mc_lookup mc a in
  ind ++s "   #" ++s FormatInt (Z.of_nat i) 10 ++s " " ++s
  (if nonempty nm then nm ++s "+" ++s hex0x (u64 (a - b)) else hex0x a).

Definition printStack (c : config) (mc : modCache) (stack : Z -> option (list Z))
    (ind : string) (id lr : Z) : list string :=
  if negb (c_stack c) || c_count c || (id <? 0) then []
  else match stack id with
       | None => []
       | Some buf => imap (stack_line mc ind) (stack_addrs buf lr)
       end.

Definition verbose_tag (c : config) (e : reconEvt) (caller : string) : string :=
  if c_verbose c then "  [caller=" ++s hex0x (Caller e) ++s " " ++s caller ++s "]" else "".

(** The frame an entry stores, before the call text of a call variant is known. *)
Definition entry_frame (p : params) (cs : caches) (mr : option memReader) (e : reconEvt)
    (slot : Z) (caller : string) : frame :=
  Frame slot (Ts e)
    (if bool_decide (slot ∈ p_callSet p) then ""
     else slotName slot ++s "(" ++s renderGeneric e slot cs mr ++s ")")
    caller (nthZ (A e) 1) (nthZ (A e) 2) (nthZ (A e) 3).

(** The entry half of the loop body, once the slot is known. *)
Definition handleEntry (p : params) (w : world) (st : lstate) (e : reconEvt) (slot : Z)
  : lstate * list string :=
  let c := p_conf p in
  let f := l_filters st in
  let mr := w_mem w in
  let cs := l_cs st in
  let nm := slotName slot in
  let '(caller, mc) := mc_of (l_mc st) (Caller e) (w_maps w) (w_now w) (w_later w) in
  let fs :=
    if bool_decide (slot ∈ p_retSet p) && (0 <=? Depth e)
    then <[frame_key e := entry_frame p cs mr e slot caller]> (l_frames st)
    else l_frames st in
  let keep fs counts := LState f mc cs fs counts (l_total st) in
  if negb (matchSlot f slot) then (keep fs (l_counts st), [])
  else if too_deep c e then (keep fs (l_counts st), [])
  else
    match isCallMethod nm with
    | Some _ =>
        let '(call, known) := describeCall e nm cs mr in
        let fs := match fs !! frame_key e with
                  | Some fr => <[frame_key e := set_call fr call]> fs
                  | None => fs
                  end in
        let '(cls, meth) := splitClassMethod call in
        if (known || c_verbose c) && matchLine f cls meth call caller then
          let '(counts, out) :=
            emit c (l_counts st) (indentStr (Depth e) ++s "-> " ++s call ++s verbose_tag c e caller) in
          (keep fs counts,
           out ++ printStack c mc (w_stack w) (indentStr (Depth e)) (Stackid e) (Caller e))
        else (keep fs (l_counts st), [])
    | None =>
        let line := nm ++s "(" ++s renderGeneric e slot cs mr ++s ")" in
        if matchLine f "" nm line caller then
          let '(counts, out) := emit c (l_counts st) (indentStr (Depth e) ++s "-> " ++s line) in
          (keep fs counts,
           out ++ printStack c mc (w_stack w) (indentStr (Depth e)) (Stackid e) (Caller e))
        else (keep fs (l_counts st), [])
    end.

(** One raw sample. *)
Definition loop_event (p : params) (w : world) (raw : list byte) (st : lstate)
  : lstate * list string :=
  match read_evt raw with
  | None => (st, [])
  | Some e =>
      let c := p_conf p in
      let st := LState (l_filters st) (l_mc st) (l_cs st) (l_frames st) (l_counts st) (l_total st + 1) in
      if negb (c_tid c =? 0) && negb (Tid e =? c_tid c) then (st, [])
      else if Kind e =? 1 then
        let '(fs, cs, counts, out) :=
          handleReturn c (l_filters st) (w_mem w) e (l_frames st) (l_cs st) (l_counts st) in
        (LState (l_filters st) (l_mc st) cs fs counts (l_total st), out)
      else
        match p_offsets p !! u64 (Ip e - p_base p) with
        | None => (st, [])
        | Some slot => handleEntry p w st e slot
        end
  end.

(** ** Interleaving: events, the reload goroutine, the command goroutine *)

Inductive action :=
| AEvent (w : world) (raw : list byte)
| AReload (maps : option string) (now : Z)
| ACommand (line : string).

Definition command_step `{SortByCount} (order : gmap string Z -> list (string * Z))
    (line : string) (st : lstate) : option (lstate * list string) :=
  let text := TrimSpace line in
  if String.eqb text "" then Some (st, [])
  else
    match applyCommand (l_filters st) text with
    | CmdSet f echo => Some (LState f (l_mc st) (l_cs st) (l_frames st) (l_counts st) (l_total st), [echo])
    | CmdStats => Some (st, printStats order (l_counts st) 25)
    | CmdUnknown echo => Some (st, [echo])
    | CmdNone => Some (st, [])
    | CmdQuit => None
    end.

(** [None] when the process exits. *)
Definition loop_step `{SortByCount} (order : gmap string Z -> list (string * Z)) (p : params)
    (a : action) (st : lstate) : option (lstate * list string) :=
  match a with
  | AEvent w raw => Some (loop_event p w raw st)
  | AReload maps now =>
      Some (LState (l_filters st) (mc_reload (l_mc st) (mc_pid (l_mc st)) maps now) (l_cs st)
              (l_frames st) (l_counts st) (l_total st), [])
  | ACommand line => command_step order line st
  end.

(** The state, the lines printed and whether the process has exited. *)
Fixpoint loop_run `{SortByCount} (order : gmap string Z -> list (string * Z)) (p : params)
    (acts : list action) (st : lstate) : lstate * list string * bool :=
  match acts with
  | [] => (st, [], false)
  | a :: acts' =>
      match loop_step order p a st with
      | None => (st, [], true)
      | Some (st1, o1) => let '(st2, o2, quit) := loop_run order p acts' st1 in (st2, o1 ++ o2, quit)
      end
  end.

(** The two lines printed after the loop ends. *)
Definition finish `{SortByCount} (order : gmap string Z -> list (string * Z)) (st : lstate) : list string :=
  [""; "[*] done: " ++s FormatInt (l_total st) 10 ++s " events"] ++ printStats order (l_counts st) 25.
End Loop.
