(* ===== verification/Signatures.v ===== *)
(** * Signatures: the parsers of loader/decode.go and loader/trace.go

    JNI method signatures, the learned ["name(sig)"] texts and the rendered
    ["Class.method(args)"] texts: what the splitting functions recover from
    text that is built the way the code builds it. *)

From S2P Require Import Prelude GoStr Strconv Target Schema Decode Bpf Recon Wire FloatFmt.
From S2P Require Import Filters Modules Output Trace.

(** ** Reference: field descriptors (JVM specification, 4.3.2) *)

Inductive jtype :=
| JPrim (c : ascii)
| JClass (name : string)
| JArray (t : jtype).

Definition prim_chars : list ascii := ["Z"; "B"; "C"; "S"; "I"; "J"; "F"; "D"]%char.

Fixpoint jwf (t : jtype) : bool :=
  match t with
  | JPrim c => existsb (Ascii.eqb c) prim_chars
  | JClass n => negb (sin ";" n)
  | JArray t => jwf t
  end.

Fixpoint jprint (t : jtype) : string :=
  match t with
  | JPrim c => String c ""
  | JClass n => String "L" (n ++s ";")
  | JArray t => String "[" (jprint t)
  end.

Fixpoint jprints (ts : list jtype) : string :=
  match ts with
  | [] => ""
  | t :: ts' => jprint t ++s jprints ts'
  end.

(** A method descriptor: the parameters, then anything as the return type. *)
Definition msig (ts : list jtype) (ret : string) : string := "(" ++s jprints ts ++s ")" ++s ret.

(** Non-empty pieces that are, one after the other, a beginning of the text. *)
Definition pieces_of (s : string) (l : list string) : Prop :=
  Forall (fun x => x <> "") l /\ HasPrefix s (Join l "") = true.

(** The text of a call as [describeCall] renders it. *)
Definition rendered (cls meth args : string) : string := cls ++s "." ++s meth ++s "(" ++s args ++s ")".

(** ** Lemmas *)

Lemma sat_app_r a b i : sat (a ++s b) (slen a + i) = sat b i.
Proof. unfold sat. induction a as [|c a IH]; [done|]. exact IH. Qed.

Lemma sat_app_0 a b : sat (a ++s b) (slen a) = sat b 0.
Proof. rewrite <- (sat_app_r a b 0). f_equal. lia. Qed.

Lemma sat_beyond s i : (slen s <= i)%nat -> sat s i = None.
Proof.
  unfold sat. revert i. induction s as [|c s IH]; intros i Hi; [done|].
  destruct i; cbn in Hi; [lia|]. apply IH. lia.
Qed.

Lemma sat_within s i c : sat s i = Some c -> (i < slen s)%nat.
Proof.
  intros E. destruct (Nat.lt_ge_cases i (slen s)); [done|]. by rewrite sat_beyond in E.
Qed.

(** [skip_while] stops at the first character that fails the test. *)
Lemma skip_while_app fuel f a w c b :
  sall f w = true -> f c = false -> (slen w < fuel)%nat ->
  skip_while fuel f (a ++s w ++s String c b) (slen a) = (slen a + slen w)%nat.
Proof.
  intros Hw Hc. revert a fuel. induction w as [|x w IH]; intros a fuel Hf.
  - destruct fuel; [cbn in Hf; lia|]. cbn [skip_while String.append]. rewrite sat_app_0. cbn.
    rewrite Hc. cbn. lia.
  - destruct fuel; [cbn in Hf; lia|]. cbn [sall] in Hw. apply andb_true_iff in Hw as [Hx Hw].
    cbn [skip_while]. rewrite sat_app_0. cbn [sat String.get String.append]. cbn.
    rewrite Hx. specialize (IH Hw (a ++s String x EmptyString) fuel ltac:(cbn in Hf; lia)).
    rewrite !slen_app, sapp_assoc in IH. cbn in IH. rewrite Nat.add_1_r in IH.
    rewrite IH. cbn. lia.
Qed.

Lemma skip_while_bound fuel f s i : (i <= skip_while fuel f s i)%nat.
Proof.
  revert i. induction fuel as [|n IH]; intros i; cbn [skip_while]; [lia|].
  destruct (sat s i) as [c|]; [|lia]. destruct (f c); [|lia]. specialize (IH (S i)). lia.
Qed.

Lemma param_end_grows sig i : (i < param_end sig i)%nat.
Proof.
  unfold param_end. destruct (sat sig i) as [c|]; [|lia].
  destruct (Ascii.eqb c "L"); [pose proof (skip_while_bound (S (slen sig)) not_semi sig i); lia|].
  destruct (Ascii.eqb c "["); [|lia].
  pose proof (skip_while_bound (S (slen sig)) is_lbrack sig (S i)) as H1.
  set (j := skip_while _ is_lbrack sig (S i)) in *.
  destruct (sat sig j) as [d|]; [|lia].
  destruct (Ascii.eqb d "L"); [pose proof (skip_while_bound (S (slen sig)) not_semi sig j); lia|lia].
Qed.

Lemma sall_not_semi n : sin ";" n = false -> sall not_semi n = true.
Proof.
  induction n as [|c n IH]; [done|]. cbn. intros H. apply orb_false_iff in H as [Hc Hn].
  rewrite IH by done. unfold not_semi. rewrite andb_true_r, negb_true_iff.
  destruct (Ascii.eqb_spec c ";"); [by subst|done].
Qed.

(** An array type is a run of brackets in front of an element type. *)
Fixpoint jdepth (t : jtype) : nat := match t with JArray t => S (jdepth t) | _ => O end.
Fixpoint jelem (t : jtype) : jtype := match t with JArray t => jelem t | t => t end.

Lemma jprint_elem t : jprint t = Repeat "[" (jdepth t) ++s jprint (jelem t).
Proof. induction t as [c|n|t IH]; [done|done|]. cbn [jprint jdepth jelem Repeat]. cbn. by rewrite IH. Qed.

Lemma jwf_elem t : jwf t = true -> jwf (jelem t) = true.
Proof. by induction t. Qed.

Lemma jelem_not_array t : match jelem t with JArray _ => False | _ => True end.
Proof. by induction t. Qed.

Lemma sall_brackets n : sall is_lbrack (Repeat "[" n) = true.
Proof. by induction n. Qed.

Lemma slen_brackets n : slen (Repeat "[" n) = n.
Proof. rewrite slen_Repeat. cbn. lia. Qed.

Lemma prim_char_plain c : existsb (Ascii.eqb c) prim_chars = true ->
  Ascii.eqb c "L" = false /\ Ascii.eqb c "[" = false /\ Ascii.eqb c ")" = false.
Proof.
  cbn [existsb prim_chars]. intros H.
  repeat (apply orb_true_iff in H as [H|H]; [apply Ascii.eqb_eq in H as ->; done|]). done.
Qed.

(** The end of a class type that starts at [slen a]. *)
Lemma class_end a n b :
  sin ";" n = false ->
  S (skip_while (S (slen (a ++s jprint (JClass n) ++s b))) not_semi (a ++s jprint (JClass n) ++s b) (slen a))
  = (slen a + slen (jprint (JClass n)))%nat.
Proof.
  intros Hn. change (jprint (JClass n)) with (String "L" n ++s ";"). rewrite sapp_assoc.
  change (";" ++s b) with (String ";" b).
  rewrite skip_while_app; [rewrite slen_app; cbn; lia| |done|].
  - cbn. by rewrite sall_not_semi.
  - rewrite !slen_app. cbn. lia.
Qed.

(** One parameter. *)
Lemma param_end_jprint a t b :
  jwf t = true -> param_end (a ++s jprint t ++s b) (slen a) = (slen a + slen (jprint t))%nat.
Proof.
  intros Hw. unfold param_end. rewrite sat_app_0. destruct t as [c|n|t].
  - cbn [jprint]. cbn [String.append sat String.get]. cbn in Hw. apply prim_char_plain in Hw as (E1 & E2 & _).
    rewrite E1, E2. cbn. lia.
  - cbn in Hw. apply negb_true_iff in Hw. change (sat (jprint (JClass n) ++s b) 0) with (Some "L"%char).
    cbv iota. change (Ascii.eqb "L" "L") with true. cbv iota. by apply class_end.
  - change (sat (jprint (JArray t) ++s b) 0) with (Some "["%char).
    cbv iota. change (Ascii.eqb "[" "L") with false. change (Ascii.eqb "[" "[") with true. cbv iota.
    cbn in Hw. pose proof (jwf_elem t Hw) as He. pose proof (jelem_not_array t) as Hna.
    cbn [jprint]. rewrite (jprint_elem t).
    set (br := Repeat "[" (jdepth t)).
    assert (E : a ++s String "[" (br ++s jprint (jelem t)) ++s b =
                (a ++s "[") ++s br ++s jprint (jelem t) ++s b).
    { rewrite !sapp_assoc. cbn [String.append]. by rewrite sapp_assoc. }
    assert (Ha : S (slen a) = slen (a ++s "[")) by (rewrite slen_app; cbn; lia).
    rewrite E, Ha.
    assert (Hskip : forall c r, jprint (jelem t) ++s b = String c r -> is_lbrack c = false ->
      skip_while (S (slen ((a ++s "[") ++s br ++s jprint (jelem t) ++s b))) is_lbrack
        ((a ++s "[") ++s br ++s jprint (jelem t) ++s b) (slen (a ++s "[")) = (slen (a ++s "[") + slen br)%nat).
    { intros c r Ec Hb. rewrite Ec. apply skip_while_app; [apply sall_brackets|done|].
      rewrite !slen_app. lia. }
    assert (Hlen : (slen a + slen (String "[" (br ++s jprint (jelem t))) =
      slen (a ++s "[") + slen br + slen (jprint (jelem t)))%nat).
    { rewrite slen_app. cbn. rewrite slen_app. lia. }
    rewrite Hlen. destruct (jelem t) as [c|n|?]; [| |done].
    + cbn in He. apply prim_char_plain in He as (E1 & E2 & _).
      rewrite (Hskip c b eq_refl) by done.
      rewrite <- slen_app, <- (sapp_assoc (a ++s "[")), sat_app_0. cbn [String.append jprint sat String.get].
      cbn. rewrite E1. lia.
    + cbn in He. apply negb_true_iff in He.
      rewrite (Hskip "L"%char (n ++s ";" ++s b)) by (done || (cbn [jprint String.append]; by rewrite sapp_assoc)).
      rewrite <- slen_app, <- (sapp_assoc (a ++s "[")), sat_app_0.
      change (sat (jprint (JClass n) ++s b) 0) with (Some "L"%char). cbv iota.
      change (Ascii.eqb "L" "L") with true. cbv iota. by apply class_end.
Qed.

Lemma jprint_head t : jwf t = true -> exists c r, jprint t = String c r /\ Ascii.eqb c ")" = false.
Proof.
  destruct t as [c|n|t]; intros Hw; cbn [jprint].
  - exists c, "". split; [done|]. by destruct (prim_char_plain c Hw) as (_ & _ & ?).
  - by exists "L"%char, (n ++s ";").
  - by exists "["%char, (jprint t).
Qed.

Lemma params_loop_print fuel a ts b out :
  Forall (fun t => jwf t = true) ts -> (length ts < fuel)%nat ->
  params_loop fuel (a ++s jprints ts ++s String ")" b) (slen a) out = Some (out ++ map jprint ts).
Proof.
  intros Hw. revert fuel a out. induction Hw as [|t ts Ht Hts IH]; intros fuel a out Hf.
  - destruct fuel; [cbn in Hf; lia|]. cbn [params_loop jprints String.append]. rewrite sat_app_0. cbn.
    by rewrite app_nil_r.
  - destruct fuel as [|fuel]; [cbn in Hf; lia|]. cbn [params_loop jprints map]. rewrite !sapp_assoc.
    destruct (jprint_head t Ht) as (c & r & Ec & Hc).
    assert (Hs : sat (a ++s jprint t ++s jprints ts ++s String ")" b) (slen a) = Some c)
      by (rewrite sat_app_0, Ec; reflexivity).
    rewrite Hs, Hc, param_end_jprint by done. cbv zeta.
    assert (Hpos : (0 < slen (jprint t))%nat) by (rewrite Ec; cbn; lia).
    rewrite (proj2 (Nat.ltb_lt _ _)) by lia. rewrite (proj2 (Nat.leb_le _ _)) by (rewrite !slen_app; lia).
    cbn [andb]. replace (slen a + slen (jprint t) - slen a)%nat with (slen (jprint t)) by lia.
    rewrite sdrop_app, stake_app.
    specialize (IH fuel (a ++s jprint t) (out ++ [jprint t]) ltac:(cbn in Hf; lia)).
    rewrite slen_app, sapp_assoc in IH. rewrite IH, <- app_assoc. done.
Qed.

Lemma slen_jprints ts : Forall (fun t => jwf t = true) ts -> (length ts <= slen (jprints ts))%nat.
Proof.
  induction 1 as [|t ts Ht _ IH]; [cbn; lia|]. cbn [length jprints]. rewrite slen_app.
  destruct (jprint_head t Ht) as (c & r & -> & _). cbn. lia.
Qed.

(** The loop ends within its fuel, and what it collects are consecutive
    pieces of the text from [i] on. *)
Lemma params_loop_total fuel sig i out :
  (slen sig - i < fuel)%nat ->
  exists l, params_loop fuel sig i out = Some (out ++ l) /\ pieces_of (sdrop i sig) l.
Proof.
  revert i out. induction fuel as [|fuel IH]; intros i out Hf; [lia|]. cbn [params_loop].
  destruct (sat sig i) as [c|] eqn:Es.
  2:{ exists []. rewrite app_nil_r. split; [done|]. split; [constructor|]. by destruct (sdrop i sig). }
  destruct (Ascii.eqb c ")").
  { exists []. rewrite app_nil_r. split; [done|]. split; [constructor|]. by destruct (sdrop i sig). }
  pose proof (param_end_grows sig i) as Hg. set (j := param_end sig i) in *.
  apply sat_within in Es. rewrite (proj2 (Nat.ltb_lt _ _) Hg). cbn [andb].
  destruct (Nat.leb_spec j (slen sig)) as [Hj|Hj].
  - destruct (IH j (out ++ [stake (j - i) (sdrop i sig)]) ltac:(lia)) as (l & -> & Hl & Hp).
    exists (stake (j - i) (sdrop i sig) :: l). rewrite <- app_assoc. split; [done|]. split.
    + constructor; [|done]. intros E. apply (f_equal slen) in E. rewrite slen_stake, slen_sdrop in E. cbn in E. lia.
    + apply HasPrefix_spec in Hp as [r Hr]. apply HasPrefix_spec. exists r.
      rewrite <- (stake_sdrop (j - i) (sdrop i sig)) at 1. rewrite sdrop_add.
      replace (i + (j - i))%nat with j by lia. rewrite Hr.
      destruct l as [|x l]; cbn [Join]; [done|]. by rewrite !sapp_assoc.
  - destruct (IH j out ltac:(lia)) as (l & -> & Hl & Hp). exists l. split; [done|]. split; [done|].
    assert (l = []) as ->; [|by destruct (sdrop i sig)].
    destruct l as [|x l]; [done|]. inversion Hl; subst. apply HasPrefix_spec in Hp as [r Hr].
    assert (slen (sdrop j sig) = 0%nat) as E by (rewrite slen_sdrop; lia).
    rewrite Hr, slen_app in E. assert (slen x <= slen (Join (x :: l) ""))%nat.
    { destruct l; cbn [Join]; rewrite ?slen_app; lia. }
    destruct x; [done|cbn in *; lia].
Qed.

(** ** Properties *)

(** C23. [parseParams] inverts the descriptor syntax: from any method signature
    built from primitive, class and array types it recovers the parameter
    types in order, and nothing of the return type. *)
Theorem parseParams_print ts ret :
  Forall (fun t => jwf t = true) ts -> parseParams (msig ts ret) = map jprint ts.
Proof.
  intros Hw. unfold parseParams, msig. cbn [String.append]. change (sat (String "(" _) 0) with (Some "("%char).
  cbv iota. change (Ascii.eqb "(" "(") with true. cbv iota.
  pose proof (params_loop_print (S (slen (String "(" (jprints ts ++s String ")" ret)))) "(" ts ret [] Hw) as E.
  change (String "(" (jprints ts ++s String ")" ret)) with ("(" ++s jprints ts ++s String ")" ret) in *.
  change 1%nat with (slen "("). rewrite E; [done|].
  rewrite !slen_app. pose proof (slen_jprints ts Hw). cbn. lia.
Qed.

(** [parseParams] is total on arbitrary text (a string read from the traced
    process): the loop ends, within one step per byte, and returns non-empty
    consecutive pieces of the text after the opening parenthesis. *)
Theorem parseParams_total sig :
  exists l, params_loop (S (slen sig)) sig 1 [] = Some l /\ pieces_of (sdrop 1 sig) l.
Proof. apply (params_loop_total (S (slen sig)) sig 1 []). lia. Qed.

Lemma splitNameSig_app nm sg : sin "(" nm = false -> HasPrefix sg "(" = true -> splitNameSig (nm ++s sg) = (nm, sg).
Proof.
  intros Hn Hs. apply HasPrefix_spec in Hs as [r ->]. unfold splitNameSig.
  change ("(" ++s r) with (String "(" r). by rewrite IndexByte_app, stake_app, sdrop_app.
Qed.

Lemma splitClassMethod_app cls meth args :
  sin "(" meth = false -> sin "." meth = false -> sin "." args = false ->
  splitClassMethod (rendered cls meth args) = (cls, meth).
Proof.
  intros Hm Hd Ha. unfold splitClassMethod, rendered.
  change ("." ++s meth ++s "(" ++s args ++s ")") with (String "." (meth ++s String "(" (args ++s ")"))).
  rewrite LastIndexByte_app.
  2:{ rewrite sin_app, Hd. cbn. by rewrite sin_app, Ha. }
  cbv zeta. by rewrite sdrop_S_app, stake_app, IndexByte_app, stake_app.
Qed.

(** [splitClassMethod] finds the class and the method of a rendered call
    when no argument's text contains a dot. *)
Theorem splitClassMethod_call cls meth args :
  sin "(" meth = false -> sin "." meth = false -> sin "." args = false ->
  splitClassMethod (rendered cls meth args) = (cls, meth).
Proof. apply splitClassMethod_app. Qed.

(** When the last argument's text does contain a dot (a float, or a string
    or class name), [splitClassMethod] splits inside the arguments: for every
    call that ends in [.tail)], the class it reports is everything before that
    dot, argument text included, so [--class] and [--method] test the wrong
    text. *)
Theorem splitClassMethod_dotted_argument cls meth args tail :
  sin "." tail = false -> sin "(" tail = false ->
  splitClassMethod (rendered cls meth (args ++s "." ++s tail)) =
  (cls ++s "." ++s meth ++s "(" ++s args, tail ++s ")").
Proof.
  intros Hd Hp. unfold splitClassMethod, rendered.
  assert (E : cls ++s "." ++s meth ++s "(" ++s (args ++s "." ++s tail) ++s ")" =
              (cls ++s "." ++s meth ++s "(" ++s args) ++s String "." (tail ++s ")"))
    by (rewrite !sapp_assoc; done).
  rewrite E, LastIndexByte_app by (rewrite sin_app, Hd; done). cbv zeta.
  rewrite sdrop_S_app, stake_app.
  assert (IndexByte (tail ++s ")") "(" = None) as -> by (apply IndexByte_None; rewrite sin_app, Hp; done).
  done.
Qed.

(** ** Examples *)

Lemma parseParams_print_witness : parseParams "(I[[JLjava/lang/String;[LA;D)V" = ["I"; "[[J"; "Ljava/lang/String;"; "[LA;"; "D"].
Proof.
  apply (parseParams_print [JPrim "I"; JArray (JArray (JPrim "J")); JClass "java/lang/String";
    JArray (JClass "A"); JPrim "D"] "V").
  repeat (constructor; [reflexivity|]). constructor.
Defined.

Lemma splitClassMethod_call_witness : splitClassMethod "java.util.List.add(7, true)" = ("java.util.List", "add").
Proof. apply (splitClassMethod_call "java.util.List" "add" "7, true"); reflexivity. Defined.

Lemma splitClassMethod_dotted_argument_witness :
  splitClassMethod "java.lang.Math.max(1.5, 2.5)" = ("java.lang.Math.max(1.5, 2", "5)").
Proof. apply (splitClassMethod_dotted_argument "java.lang.Math" "max" "1.5, 2" "5"); reflexivity. Defined.
