(* ===== verification/Pairing.v ===== *)
(** * Pairing: the tracer end to end

    The BPF programs and the event loop composed: each probe hit runs in the
    kernel, its event crosses the ring buffer as bytes, and the loop handles
    it.  A ghost component keeps, per thread, the stack of entry events whose
    calls have not returned.  The invariant ties the three together: the
    kernel's depth counters are the stack heights and the loader's frame map
    holds, for every open call, the frame made from that call's entry event. *)

From S2P Require Import Prelude GoStr Strconv Target Schema Bpf Recon Wire FloatFmt Filters.
From S2P Require Import Decode CallArgs Modules Output Trace.

Section System.
Context {M R U : Type} `{HM : BpfMapLaws M} `{HR : PtRegsLaws R} `{HU : UserMemLaws U}.
Context {RE : Type} `{Regexp RE} `{SortByCount}.
Context (order : gmap string Z -> list (string * Z)) (p : params).

Record sys := Sys { kern : kmaps M; user : @lstate RE; open : stacks evt_t }.

(** What the set-up establishes: the base is known to both sides and the
    kernel tracks exactly the offsets whose slot the loader pairs. *)
Record configured (k : kmaps M) : Prop := Configured {
  cf_base : map_lookup_elem (cfg k) 0 = Some (p_base p);
  cf_hasret : forall off,
    is_Some (map_lookup_elem (hasret k) off) <->
    exists slot, p_offsets p !! off = Some slot /\ slot ∈ p_retSet p;
  cf_bytes : byte_values k
}.

(** The ghost stack after a hit that submitted [e]. *)
Definition ghost_step (k : kmaps M) (h : @hit R U) (e : evt_t) (st : stacks evt_t) : stacks evt_t :=
  (spec_step (tracked k) (fun _ => e) st h).1.

Definition hit_ok (h : @hit R U) : Prop :=
  match h with Entry v | Return v => hit_fits v end.

(** A probe hit whose event is delivered and handled. *)
Definition sys_hit (h : @hit R U) (old : Z -> byte) (w : world) (s : sys) : option (sys * list string) :=
  match hit_step (kern s) h with
  | (k', Some e) =>
      let '(u', out) := loop_event p w (raw_sample old e) (user s) in
      Some (Sys k' u' (ghost_step (kern s) h e (open s)), out)
  | (k', None) => None
  end.

(** Steps of the running system: a hit of some thread, or something else
    the loader does (reload, command). *)
Inductive sys_step : sys -> sys -> Prop :=
| step_hit h old w s s' out :
    hit_ok h ->
    lossless (kern s) [h] = true ->
    Z.of_nat (length (stack_of (open s) (hit_tid h))) + 1 < 2 ^ 31 ->
    sys_hit h old w s = Some (s', out) ->
    sys_step s s'
| step_reload maps now s u' out :
    loop_step order p (AReload maps now) (user s) = Some (u', out) ->
    sys_step s (Sys (kern s) u' (open s))
| step_command line s u' out :
    loop_step order p (ACommand line) (user s) = Some (u', out) ->
    sys_step s (Sys (kern s) u' (open s)).

Inductive reachable (s0 : sys) : sys -> Prop :=
| reach_refl : reachable s0 s0
| reach_step s s' : reachable s0 s -> sys_step s s' -> reachable s0 s'.

(** The frame a loader keeps for the open call of entry event [e]. *)
Definition frame_of (e : evt_t) (fr : frame) : Prop :=
  p_offsets p !! u64 (e_ip e - p_base p) = Some (fr_slot fr) /\
  fr_ts fr = e_ts e /\
  fr_a1 fr = nthZ (e_a e) 1 /\ fr_a2 fr = nthZ (e_a e) 2 /\ fr_a3 fr = nthZ (e_a e) 3.

(** Threads the [--tid] option lets through. *)
Definition passes (tid : Z) : Prop := c_tid (p_conf p) = 0 \/ tid = c_tid (p_conf p).

(** The open call at height [d] of a thread, counted from the bottom. *)
Definition open_at (st : stacks evt_t) (tid d : Z) : option evt_t :=
  if d <? 0 then None else rev (stack_of st tid) !! Z.to_nat d.

Definition frames_sim (fs : gmap (Z * Z) frame) (st : stacks evt_t) : Prop :=
  forall tid d, fits 32 tid -> passes tid ->
    match open_at st tid d, fs !! (s32 tid, d) with
    | Some e, Some fr => frame_of e fr
    | None, None => True
    | _, _ => False
    end.

Definition Inv (s : sys) : Prop :=
  configured (kern s) /\ depth_sim (kern s) (open s) /\ frames_sim (l_frames (user s)) (open s).

(** ** Lemmas on open calls *)

Lemma open_at_push st tid e tid' d :
  open_at (<[tid := e :: stack_of st tid]> st) tid' d =
  if bool_decide (tid' = tid /\ d = Z.of_nat (length (stack_of st tid))) then Some e
  else open_at st tid' d.
Proof.
  unfold open_at. destruct (Z.ltb_spec d 0).
  { rewrite bool_decide_eq_false_2 by lia. done. }
  destruct (Z.eq_dec tid tid') as [<-|Hne].
  2:{ rewrite stack_of_insert_ne, bool_decide_eq_false_2 by (done || intros [? _]; congruence). done. }
  rewrite stack_of_insert_eq. cbn [rev].
  destruct (Z.eq_dec d (Z.of_nat (length (stack_of st tid)))) as [->|Hd].
  - rewrite bool_decide_eq_true_2 by done. rewrite Nat2Z.id.
    rewrite lookup_app_r by (rewrite length_rev; lia). by rewrite length_rev, Nat.sub_diag.
  - rewrite bool_decide_eq_false_2 by (intros [_ ?]; done).
    destruct (Nat.lt_ge_cases (Z.to_nat d) (length (stack_of st tid))).
    + by rewrite lookup_app_l by (rewrite length_rev; lia).
    + rewrite !lookup_ge_None_2; [done|rewrite length_rev; lia|].
      rewrite length_app, length_rev. cbn. lia.
Qed.

Lemma open_at_pop st tid tid' d :
  open_at (<[tid := tail (stack_of st tid)]> st) tid' d =
  if bool_decide (tid' = tid /\ d = Z.of_nat (length (tail (stack_of st tid)))) then None
  else open_at st tid' d.
Proof.
  unfold open_at. destruct (Z.ltb_spec d 0); [by case_bool_decide|].
  destruct (Z.eq_dec tid tid') as [<-|Hne].
  2:{ rewrite stack_of_insert_ne, bool_decide_eq_false_2 by (done || intros [? _]; congruence). done. }
  rewrite stack_of_insert_eq.
  destruct (stack_of st tid) as [|e l] eqn:E; cbn [tail rev].
  { rewrite lookup_nil. by case_bool_decide. }
  destruct (Z.eq_dec d (Z.of_nat (length l))) as [->|Hd].
  - rewrite bool_decide_eq_true_2 by done. rewrite Nat2Z.id.
    apply lookup_ge_None_2. by rewrite length_rev.
  - rewrite bool_decide_eq_false_2 by (intros [_ ?]; done).
    destruct (Nat.lt_ge_cases (Z.to_nat d) (length l)).
    + by rewrite lookup_app_l by (rewrite length_rev; lia).
    + rewrite !lookup_ge_None_2; [done| |rewrite length_rev; lia].
      rewrite length_app, length_rev. cbn. lia.
Qed.

Lemma open_at_top st tid e l :
  stack_of st tid = e :: l -> open_at st tid (Z.of_nat (length l)) = Some e.
Proof.
  intros E. unfold open_at. rewrite E. destruct (Z.ltb_spec (Z.of_nat (length l)) 0); [lia|].
  cbn [rev]. rewrite Nat2Z.id, lookup_app_r by (rewrite length_rev; lia).
  by rewrite length_rev, Nat.sub_diag.
Qed.

Lemma open_at_empty st tid d : stack_of st tid = [] -> open_at st tid d = None.
Proof. intros E. unfold open_at. rewrite E. by destruct (d <? 0). Qed.

Lemma key_inj tid tid' (d d' : Z) :
  fits 32 tid -> fits 32 tid' -> (s32 tid, d) = (s32 tid', d') -> tid = tid' /\ d = d'.
Proof. intros Hx Hy [= E ->]. split; [by apply s32_inj|done]. Qed.

Lemma key_ne tid tid' (d d' : Z) :
  fits 32 tid -> fits 32 tid' -> tid' <> tid -> (s32 tid', d) <> (s32 tid, d').
Proof. intros Hx Hy Hne E. by apply key_inj in E as [-> _]. Qed.

(** ** The loader's side of a hit *)

Lemma frame_of_set_call e fr call : frame_of e fr -> frame_of e (set_call fr call).
Proof. done. Qed.

(** The frame [handleEntry] stores belongs to the entry event. *)
Lemma frame_of_entry e cs mr slot caller call :
  p_offsets p !! u64 (e_ip e - p_base p) = Some slot ->
  frame_of e (set_call (entry_frame p cs mr (go_evt e) slot caller) call).
Proof. intros E. unfold frame_of, set_call, entry_frame, go_evt. cbn [fr_slot fr_ts fr_a1 fr_a2 fr_a3 Ts A]. by rewrite E. Qed.

(** The frame map an entry leaves: other keys keep their frame, the event's own
    has a new frame when the slot is watched, and otherwise at most a new call
    text in the frame it had. *)
Definition entry_leaves (w : world) (st : @lstate RE) (e : reconEvt) (slot : Z) (fs' : gmap (Z * Z) frame) : Prop :=
  (forall k, k <> frame_key e -> fs' !! k = l_frames st !! k) /\
  if bool_decide (slot ∈ p_retSet p) && (0 <=? Depth e)
  then exists caller call, fs' !! frame_key e =
         Some (set_call (entry_frame p (l_cs st) (w_mem w) e slot caller) call)
  else match l_frames st !! frame_key e with
       | Some fr => exists call, fs' !! frame_key e = Some (set_call fr call)
       | None => fs' !! frame_key e = None
       end.

Lemma set_call_id fr : set_call fr (fr_call fr) = fr.
Proof. by destruct fr. Qed.

Lemma entry_leaves_recorded (w : world) (st : @lstate RE) (e : reconEvt) (slot : Z) caller :
  entry_leaves w st e slot
    (if bool_decide (slot ∈ p_retSet p) && (0 <=? Depth e)
     then <[frame_key e := entry_frame p (l_cs st) (w_mem w) e slot caller]> (l_frames st)
     else l_frames st).
Proof.
  unfold entry_leaves. destruct (bool_decide _ && _).
  - split; [intros k Hk; by rewrite lookup_insert_ne|]. rewrite lookup_insert_eq.
    eexists caller, _. by rewrite set_call_id.
  - split; [done|]. destruct (l_frames st !! frame_key e) as [fr|] eqn:E; [|done].
    exists (fr_call fr). by rewrite set_call_id.
Qed.

Lemma entry_leaves_set_call (w : world) (st : @lstate RE) (e : reconEvt) (slot : Z) fs fr call :
  entry_leaves w st e slot fs -> fs !! frame_key e = Some fr ->
  entry_leaves w st e slot (<[frame_key e := set_call fr call]> fs).
Proof.
  intros [Hne Heq] Hfr. split; [intros k Hk; rewrite lookup_insert_ne by done; auto|].
  rewrite lookup_insert_eq. rewrite Hfr in Heq. destruct (bool_decide _ && _).
  - destruct Heq as (ca & cl & [= ->]). by exists ca, call.
  - destruct (l_frames st !! frame_key e) as [fr0|]; [|done].
    destruct Heq as [cl [= ->]]. by exists call.
Qed.

(** What [handleEntry] does to the frame map. *)
Lemma handleEntry_frames w (st : @lstate RE) e slot :
  entry_leaves w st e slot (l_frames (handleEntry p w st e slot).1).
Proof.
  unfold handleEntry. destruct (mc_of _ _ _ _ _) as [caller mc]. cbv zeta.
  pose proof (entry_leaves_recorded w st e slot caller) as Hkeep.
  set (fs := if bool_decide (slot ∈ p_retSet p) && (0 <=? Depth e) then _ else _) in *. clearbody fs.
  destruct (negb (matchSlot _ _)); [exact Hkeep|]. destruct (too_deep _ _); [exact Hkeep|].
  destruct (isCallMethod _).
  2:{ destruct (matchLine _ _ _ _ _); [|exact Hkeep].
      destruct (emit _ _ _). exact Hkeep. }
  destruct (describeCall _ _ _ _) as [call known]. destruct (splitClassMethod call) as [cls meth].
  assert (Hk2 : entry_leaves w st e slot
    (match fs !! frame_key e with Some fr => <[frame_key e := set_call fr call]> fs | None => fs end)).
  { destruct (fs !! frame_key e) as [fr|] eqn:Ef; [by apply entry_leaves_set_call|exact Hkeep]. }
  destruct ((known || _) && _); [destruct (emit _ _ _)|]; exact Hk2.
Qed.

(** What [handleReturn] does to the frame map. *)
Lemma handleReturn_frames c (f : filters RE) mr e fs cs counts :
  (handleReturn c f mr e fs cs counts).1.1.1 =
  if Depth e <? 0 then fs else delete (frame_key e) fs.
Proof.
  unfold handleReturn. destruct (Depth e <? 0); [done|].
  destruct (fs !! frame_key e) as [fr|] eqn:E; [|by rewrite delete_id].
  destruct (_ && _); [|done]. destruct (too_deep c e); [done|].
  destruct (splitClassMethod _) as [cls meth]. destruct (matchLine _ _ _ _ _); [|done].
  by destruct (emit _ _ _).
Qed.

(** ** Preservation *)

Lemma configured_step k (h : @hit R U) : configured k -> configured (hit_step k h).1.
Proof.
  intros [Hb Hh [Hk Hi]]. destruct (hit_step_config k h) as (E1 & E2 & E3 & E4).
  split; [by rewrite E1|intros off; by rewrite E4|]. split; [by rewrite E2|by rewrite E3].
Qed.

(** The event of a hit: kind, thread and fields the loader's frame uses. *)
Lemma hit_step_event k (h : @hit R U) e :
  (hit_step k h).2 = Some e -> hit_ok h -> byte_values k ->
  evt_fits e /\ e_tid e = hit_tid h /\
  match h with
  | Entry v => e_kind e = 0 /\ e_ip e = PT_REGS_IP (regs v)
  | Return v => e_kind e = 1
  end.
Proof.
  intros E Hok Hb. destruct h as [v|v]; cbn [hit_step hit_ok hit_tid] in *.
  - split; [by eapply up_all_fits|].
    destruct (reserve v) as [g|] eqn:Eg; [|by rewrite up_all_drop in E].
    destruct (up_all_event k v g Eg) as (e' & E' & ? & ? & ? & _). rewrite E' in E. by simplify_eq.
  - split; [by eapply up_ret_fits|].
    destruct (reserve v) as [g|] eqn:Eg; [|by rewrite up_ret_drop in E].
    rewrite (up_ret_step k v g Eg) in E. cbn [snd] in E. by injection E as <-.
Qed.

Lemma hit_tid_fits (h : @hit R U) : fits 32 (hit_tid h).
Proof. destruct h; cbn; apply wrap_range; lia. Qed.

(** An event of a thread the filter drops leaves the frames alone. *)
Lemma loop_event_filtered w raw (st : @lstate RE) e :
  read_evt raw = Some e -> ~ passes (Tid e) -> l_frames (loop_event p w raw st).1 = l_frames st.
Proof.
  intros E Hp. unfold loop_event. rewrite E. unfold passes in Hp.
  destruct (Z.eqb_spec (c_tid (p_conf p)) 0); [tauto|].
  destruct (Z.eqb_spec (Tid e) (c_tid (p_conf p))); [tauto|]. done.
Qed.

Lemma loop_event_passes w raw (st : @lstate RE) e :
  read_evt raw = Some e -> passes (Tid e) ->
  l_frames (loop_event p w raw st).1 =
  if Kind e =? 1 then (if Depth e <? 0 then l_frames st else delete (frame_key e) (l_frames st))
  else match p_offsets p !! u64 (Ip e - p_base p) with
       | None => l_frames st
       | Some slot =>
           l_frames (handleEntry p w
             (LState (l_filters st) (l_mc st) (l_cs st) (l_frames st) (l_counts st) (l_total st + 1))
             e slot).1
       end.
Proof.
  intros E Hp. unfold loop_event. rewrite E. cbv zeta.
  assert (negb (c_tid (p_conf p) =? 0) && negb (Tid e =? c_tid (p_conf p)) = false) as ->.
  { destruct Hp as [->| ->]; [done|]. by rewrite Z.eqb_refl, andb_false_r. }
  destruct (Kind e =? 1).
  - pose proof (handleReturn_frames (p_conf p) (l_filters st) (w_mem w) e (l_frames st) (l_cs st) (l_counts st)) as Hf.
    cbn [l_filters l_frames l_cs l_counts]. destruct (handleReturn _ _ _ _ _ _ _) as [[[fs cs] counts] out].
    exact Hf.
  - by destruct (p_offsets p !! _).
Qed.

Lemma frames_sim_other fs fs' st st' tid :
  frames_sim fs st -> fits 32 tid ->
  (forall tid' d, fits 32 tid' -> tid' <> tid -> fs' !! (s32 tid', d) = fs !! (s32 tid', d)) ->
  (forall tid', tid' <> tid -> stack_of st' tid' = stack_of st tid') ->
  (passes tid -> forall d,
    match open_at st' tid d, fs' !! (s32 tid, d) with
    | Some e, Some fr => frame_of e fr
    | None, None => True
    | _, _ => False
    end) ->
  frames_sim fs' st'.
Proof.
  intros Hsim Hf Hfs Hst Hn tid' d Hfit Hp. destruct (Z.eq_dec tid' tid) as [Heq|Hne]; [subst; by apply Hn|].
  specialize (Hsim tid' d Hfit Hp). unfold open_at in *. by rewrite Hst, Hfs by done.
Qed.

Lemma tracked_slot k (v : hit_env R U) :
  configured k -> tracked k v = true ->
  exists slot, p_offsets p !! u64 (PT_REGS_IP (regs v) - p_base p) = Some slot /\ slot ∈ p_retSet p.
Proof.
  intros [Hb Hh _] Ht. unfold tracked, probe_off in Ht. rewrite Hb in Ht.
  apply bool_decide_eq_true in Ht. by apply Hh.
Qed.

Lemma ghost_other k (h : @hit R U) e st tid' :
  tid' <> hit_tid h -> stack_of (ghost_step k h e st) tid' = stack_of st tid'.
Proof.
  intros Hne. unfold ghost_step. destruct h as [v|v]; cbn [spec_step].
  - destruct (tracked k v); cbn [fst]; [|done]. by apply stack_of_insert_ne.
  - cbn [fst]. by apply stack_of_insert_ne.
Qed.

(** The state an event that passes the pid and tid filters is handled in. *)
Definition counted (st : @lstate RE) : lstate :=
  LState (l_filters st) (l_mc st) (l_cs st) (l_frames st) (l_counts st) (l_total st + 1).

(** The frame map after a delivered entry that pushes a call. *)
Lemma tracked_entry_sim w (st : @lstate RE) (op : stacks evt_t) e slot :
  frames_sim (l_frames st) op -> fits 32 (e_tid e) ->
  p_offsets p !! u64 (e_ip e - p_base p) = Some slot -> slot ∈ p_retSet p ->
  e_depth e = Z.of_nat (length (stack_of op (e_tid e))) ->
  frames_sim (l_frames (handleEntry p w (counted st) (go_evt e) slot).1)
    (<[e_tid e := e :: stack_of op (e_tid e)]> op).
Proof.
  intros Hsim Htf Hslot Hin Hd.
  destruct (handleEntry_frames w (counted st) (go_evt e) slot) as [Hne Heq].
  assert (Hkey : frame_key (go_evt e) = (s32 (e_tid e), e_depth e)) by done.
  rewrite Hkey in *. rewrite bool_decide_eq_true_2 in Heq by done. cbn [Depth go_evt] in Heq.
  rewrite (proj2 (Z.leb_le _ _)) in Heq by lia. cbn [andb counted l_frames] in *.
  destruct Heq as (caller & call & Heq).
  eapply (frames_sim_other _ _ _ _ (e_tid e)); [exact Hsim|done| | |].
  - intros tid' d Hf' Hn'. apply Hne. exact (key_ne _ _ _ _ Htf Hf' Hn').
  - intros tid' Hn'. by apply stack_of_insert_ne.
  - intros Hp d. rewrite open_at_push. case_bool_decide as Hb.
    + destruct Hb as [_ ->]. rewrite <- Hd, Heq. by apply frame_of_entry.
    + rewrite Hne; [exact (Hsim _ _ Htf Hp)|]. rewrite Hd. intros E. apply Hb.
      split; [reflexivity|congruence].
Qed.

(** An entry outside the call stack (depth -1) leaves the frames as they are. *)
Lemma untracked_entry_sim w (st : @lstate RE) (op : stacks evt_t) e slot :
  frames_sim (l_frames st) op -> fits 32 (e_tid e) -> passes (e_tid e) -> e_depth e = -1 ->
  frames_sim (l_frames (handleEntry p w (counted st) (go_evt e) slot).1) op.
Proof.
  intros Hsim Htf Hp Hd.
  destruct (handleEntry_frames w (counted st) (go_evt e) slot) as [Hne Heq].
  assert (Hkey : frame_key (go_evt e) = (s32 (e_tid e), -1)) by (by rewrite <- Hd).
  rewrite Hkey in *. cbn [Depth go_evt] in Heq. rewrite Hd in Heq. change (0 <=? -1) with false in Heq.
  rewrite andb_false_r in Heq. cbn [counted l_frames] in *.
  assert (Hnone : l_frames st !! (s32 (e_tid e), -1) = None).
  { specialize (Hsim _ (-1) Htf Hp). cbn in Hsim. destruct (l_frames st !! _); [destruct Hsim|reflexivity]. }
  rewrite Hnone in Heq.
  eapply (frames_sim_other _ _ _ _ (e_tid e)); [exact Hsim|done| |done|].
  - intros tid' d Hf' Hn'. apply Hne. exact (key_ne _ _ _ _ Htf Hf' Hn').
  - intros Hp2 d. destruct (Z.eq_dec d (-1)) as [->|Hd1]; [rewrite Heq; exact I|].
    rewrite Hne by congruence. exact (Hsim _ _ Htf Hp2).
Qed.

(** The frame map after a delivered entry. *)
Lemma entry_frames_sim k w (st : @lstate RE) (op : stacks evt_t) (v : hit_env R U) e old :
  configured k -> frames_sim (l_frames st) op -> evt_fits e ->
  e_tid e = u32 (pid_tgid v) -> e_kind e = 0 -> e_ip e = PT_REGS_IP (regs v) ->
  e_depth e = (spec_step (tracked k) (fun _ => e) op (Entry v)).2 ->
  frames_sim (l_frames (loop_event p w (raw_sample old e) st).1) (ghost_step k (Entry v) e op).
Proof.
  intros Hcf Hsim Hfit Ht Hk Hip Hd.
  pose proof (read_evt_raw old e (wf_evt_intro e Hfit)) as Hread.
  pose proof (hit_tid_fits (Entry v)) as Htf. cbn [hit_tid] in Htf. rewrite <- Ht in Htf.
  destruct (decide (passes (e_tid e))) as [Hp|Hp].
  2:{ rewrite (loop_event_filtered _ _ _ _ Hread Hp).
      eapply (frames_sim_other _ _ _ _ (e_tid e)); [exact Hsim|exact Htf|done| |intros Hp2; destruct (Hp Hp2)].
      intros tid' Hne. apply ghost_other. cbn [hit_tid]. congruence. }
  rewrite (loop_event_passes _ _ _ _ Hread Hp). cbn [Kind go_evt Ip]. rewrite Hk. cbn [Z.eqb].
  unfold ghost_step. cbn [spec_step hit_tid] in *. rewrite <- Ht in *.
  destruct (tracked k v) eqn:Htr; cbn [fst snd] in *.
  - destruct (tracked_slot k v Hcf Htr) as (slot & Hslot & Hin). rewrite <- Hip in Hslot.
    rewrite Hslot. exact (tracked_entry_sim w st op e slot Hsim Htf Hslot Hin Hd).
  - destruct (p_offsets p !! _) as [slot|]; [|exact Hsim].
    exact (untracked_entry_sim w st op e slot Hsim Htf Hp Hd).
Qed.

(** The frame map after a delivered return. *)
Lemma return_frames_sim k w (st : @lstate RE) (op : stacks evt_t) (v : hit_env R U) e old :
  frames_sim (l_frames st) op -> evt_fits e ->
  e_tid e = u32 (pid_tgid v) -> e_kind e = 1 ->
  e_depth e = (spec_step (tracked k) (fun _ => e) op (Return v)).2 ->
  frames_sim (l_frames (loop_event p w (raw_sample old e) st).1) (ghost_step k (Return v) e op).
Proof.
  intros Hsim Hfit Ht Hk Hd.
  pose proof (read_evt_raw old e (wf_evt_intro e Hfit)) as Hread.
  pose proof (hit_tid_fits (Return v)) as Htf. cbn [hit_tid] in Htf.
  assert (Hkey : frame_key (go_evt e) = (s32 (u32 (pid_tgid v)), e_depth e)) by (unfold frame_key; cbn; by rewrite Ht).
  destruct (decide (passes (e_tid e))) as [Hp|Hp].
  2:{ rewrite (loop_event_filtered _ _ _ _ Hread Hp).
      eapply (frames_sim_other _ _ _ _ (u32 (pid_tgid v))); [exact Hsim|done|done| |].
      - intros tid' Hne. by apply ghost_other.
      - intros Hp2. destruct Hp. by rewrite Ht. }
  rewrite (loop_event_passes _ _ _ _ Hread Hp). cbn [Kind go_evt Depth]. rewrite Hk. change (1 =? 1) with true. cbv iota.
  unfold ghost_step. cbn [spec_step hit_tid fst snd] in *.
  destruct (Z.ltb_spec (e_depth e) 0); [lia|]. rewrite Hkey, Hd.
  eapply (frames_sim_other _ _ _ _ (u32 (pid_tgid v))); [exact Hsim|done| | |].
  - intros tid' d Hf' Hn'. apply lookup_delete_ne, not_eq_sym. exact (key_ne _ _ _ _ Htf Hf' Hn').
  - intros tid' Hn'. by apply stack_of_insert_ne.
  - intros Hp2 d. rewrite open_at_pop. case_bool_decide as Hb.
    + destruct Hb as [_ ->]. by rewrite lookup_delete_eq.
    + rewrite lookup_delete_ne; [exact (Hsim _ _ Htf Hp2)|]. intros E. apply Hb. split; [reflexivity|congruence].
Qed.

Lemma sys_hit_inv h old w s s' out :
  Inv s -> hit_ok h -> lossless (kern s) [h] = true ->
  Z.of_nat (length (stack_of (open s) (hit_tid h))) + 1 < 2 ^ 31 ->
  sys_hit h old w s = Some (s', out) -> Inv s'.
Proof.
  intros (Hcf & Hds & Hfs) Hok Hl Hb E. unfold sys_hit in E.
  destruct (hit_step (kern s) h) as [k' [e|]] eqn:Eh; [|done].
  destruct (loop_event p w (raw_sample old e) (user s)) as [u' o] eqn:El. injection E as <- <-.
  destruct (hit_step_sim (fun _ => e) (kern s) (open s) h Hds Hl Hb) as (e' & He & Ht & Hd & Hds').
  rewrite Eh in He, Hds'. cbn [fst snd] in He, Hds'. injection He as ->.
  assert (Hev : (hit_step (kern s) h).2 = Some e') by by rewrite Eh.
  destruct (hit_step_event (kern s) h e' Hev Hok (cf_bytes _ Hcf)) as (Hfit & Ht' & Hkind).
  split; [|split]; cbn [kern user open].
  - pose proof (configured_step (kern s) h Hcf) as Hc. by rewrite Eh in Hc.
  - exact Hds'.
  - replace u' with (loop_event p w (raw_sample old e') (user s)).1 by by rewrite El.
    destruct h as [v|v]; cbn [hit_tid] in *.
    + destruct Hkind. by apply entry_frames_sim.
    + by apply return_frames_sim.
Qed.

Lemma loop_step_frames a (st u : @lstate RE) out :
  (forall w raw, a <> AEvent w raw) -> loop_step order p a st = Some (u, out) ->
  l_frames u = l_frames st.
Proof.
  intros Ha E. destruct a as [w raw|maps now|line]; cbn [loop_step] in E; [by destruct (Ha w raw)|by simplify_eq|].
  unfold command_step in E. destruct (String.eqb _ _); [by simplify_eq|].
  destruct (applyCommand _ _); by simplify_eq.
Qed.

Lemma sys_step_inv s s' : Inv s -> sys_step s s' -> Inv s'.
Proof.
  intros HI Hs. destruct Hs as [h old w s s' out Hok Hl Hb E|maps now s u' out E|line s u' out E].
  - eauto using sys_hit_inv.
  - destruct HI as (? & ? & ?). split; [done|]. split; [done|]. cbn [user open].
    erewrite loop_step_frames; eauto; done.
  - destruct HI as (? & ? & ?). split; [done|]. split; [done|]. cbn [user open].
    erewrite loop_step_frames; eauto; done.
Qed.

Lemma reachable_inv s0 s : Inv s0 -> reachable s0 s -> Inv s.
Proof. intros H0' Hr. induction Hr; eauto using sys_step_inv. Qed.

(** A fresh system satisfies the invariant. *)
Lemma init_inv k (st : @lstate RE) :
  configured k -> (forall tid, height k tid = 0) -> l_frames st = ∅ -> Inv (Sys k st ∅).
Proof.
  intros Hc Hh Hf. split; [done|]. split.
  - intros tid. cbn. rewrite Hh. done.
  - intros tid d Hfit Hp. cbn [user open]. rewrite Hf, lookup_empty, open_at_empty; done.
Qed.

(** ** Uninitialised memory reaches nothing *)

(** The argument maps hold, for every call variant, what its decoder needs. *)
Definition calls_configured (k : kmaps M) : Prop :=
  forall off slot mi, p_offsets p !! off = Some slot -> isCallMethod (slotName slot) = Some mi ->
    map_lookup_elem (argkind k) off = Some (call_kind (slotName slot)) /\
    map_lookup_elem (argidx k) off = Some (mi + 1).

Lemma handleEntry_refill w (st : @lstate RE) e slot cap cap2 r1 r2 :
  (is_Some (isCallMethod (slotName slot)) -> same_snapshot (slotName slot) e cap cap2) ->
  handleEntry p w st (refill e cap cap2 r1 r2) slot = handleEntry p w st e slot.
Proof.
  intros E.
  assert (Hd : describeCall (refill e cap cap2 r1 r2) (slotName slot) (l_cs st) (w_mem w) =
               describeCall e (slotName slot) (l_cs st) (w_mem w)).
  { destruct (isCallMethod (slotName slot)) as [mi|] eqn:Em.
    - apply describeCall_refill, E. eauto.
    - unfold describeCall. by rewrite Em. }
  unfold handleEntry. rewrite Hd. reflexivity.
Qed.

Lemma isCallMethod_range nm mi : isCallMethod nm = Some mi -> 2 <= mi <= 3.
Proof.
  unfold isCallMethod. destruct (HasPrefix nm "NewObject"); [intros [= <-]; lia|].
  destruct (HasPrefix nm "Call" && Contains nm "Method"); [|done].
  destruct (Contains nm "Nonvirtual"); intros [= <-]; lia.
Qed.

Lemma snapshot_kind_nz nm : snapshot_kind nm <> 0.
Proof. unfold snapshot_kind. by destruct (HasSuffix nm "A"), (HasSuffix nm "V"). Qed.

(** ** Properties *)

(** C1. A return is paired with its own call.  In every reachable state of the
    running system - the steps are hits whose record is delivered, reloads and
    commands; Recon.lost_entry_shifts_returns is about a lost record - whatever
    calls and threads came before: when a thread returns from its innermost open tracked call, the
    loader finds exactly the frame made from that call's entry event (its
    slot, time stamp and arguments) and removes it, and the enclosing calls
    stay open. *)
Theorem return_finds_its_call k0 (st0 : @lstate RE) s (v : hit_env R U) old w s' out e0 rest :
  configured k0 -> (forall tid, height k0 tid = 0) -> l_frames st0 = ∅ ->
  reachable (Sys k0 st0 ∅) s ->
  let tid := u32 (pid_tgid v) in
  passes tid -> stack_of (open s) tid = e0 :: rest ->
  Z.of_nat (length (e0 :: rest)) + 1 < 2 ^ 31 ->
  hit_ok (Return v) -> lossless (kern s) [Return v] = true ->
  sys_hit (Return v) old w s = Some (s', out) ->
  exists fr, l_frames (user s) !! (s32 tid, Z.of_nat (length rest)) = Some fr /\ frame_of e0 fr /\
    l_frames (user s') !! (s32 tid, Z.of_nat (length rest)) = None /\ stack_of (open s') tid = rest.
Proof.
  intros Hc Hh Hf Hr tid Hp Hst Hlen Hok Hl Hhit.
  pose proof (reachable_inv _ _ (init_inv _ _ Hc Hh Hf) Hr) as HI.
  assert (Htf : fits 32 tid) by (apply wrap_range; lia).
  assert (HI' : Inv s') by (eapply sys_hit_inv; eauto; cbn [hit_tid]; fold tid; by rewrite Hst).
  assert (Hop : stack_of (open s') tid = rest).
  { unfold sys_hit in Hhit. destruct (hit_step (kern s) (Return v)) as [k' [e|]]; [|done].
    destruct (loop_event p w (raw_sample old e) (user s)). injection Hhit as <- _.
    cbn [open]. unfold ghost_step. cbn [spec_step fst hit_tid]. fold tid.
    by rewrite stack_of_insert_eq, Hst. }
  destruct HI as (_ & _ & Hsim), HI' as (_ & _ & Hsim').
  specialize (Hsim tid (Z.of_nat (length rest)) Htf Hp).
  specialize (Hsim' tid (Z.of_nat (length rest)) Htf Hp).
  rewrite (open_at_top _ _ _ _ Hst) in Hsim.
  destruct (l_frames (user s) !! _) as [fr|]; [|done]. exists fr. split; [done|]. split; [done|].
  split; [|done].
  assert (Hn : open_at (open s') tid (Z.of_nat (length rest)) = None).
  { unfold open_at. rewrite Hop. destruct (_ <? 0); [done|].
    apply lookup_ge_None_2. rewrite length_rev. lia. }
  rewrite Hn in Hsim'. destruct (l_frames (user s') !! _); [destruct Hsim'|reflexivity].
Qed.

(** C24. A return without an open call (the call was entered before the tracer
    attached) is paired with nothing: it prints nothing and leaves every
    frame in place.  The state is reached by delivered hits, reloads and
    commands, as in [return_finds_its_call]. *)
Theorem return_of_unseen_call k0 (st0 : @lstate RE) s (v : hit_env R U) old w s' out :
  configured k0 -> (forall tid, height k0 tid = 0) -> l_frames st0 = ∅ ->
  reachable (Sys k0 st0 ∅) s ->
  passes (u32 (pid_tgid v)) -> stack_of (open s) (u32 (pid_tgid v)) = [] ->
  hit_ok (Return v) -> lossless (kern s) [Return v] = true ->
  sys_hit (Return v) old w s = Some (s', out) ->
  out = [] /\ l_frames (user s') = l_frames (user s).
Proof.
  intros Hc Hh Hf Hr Hp Hst Hok Hl Hhit.
  destruct (reachable_inv _ _ (init_inv _ _ Hc Hh Hf) Hr) as (Hcf & Hds & Hsim).
  destruct (hit_step_sim (fun _ => junk 0) (kern s) (open s) (Return v) Hds Hl) as (e & He & Ht & Hd & _).
  { cbn [hit_tid]. rewrite Hst. cbn. lia. }
  destruct (hit_step_event (kern s) (Return v) e He Hok (cf_bytes _ Hcf)) as (Hfit & _ & Hk).
  unfold sys_hit in Hhit. destruct (hit_step (kern s) (Return v)) as [k' o]. cbn [snd] in He. subst o.
  cbn [spec_step snd hit_tid] in Hd, Ht. rewrite Hst in Hd. cbn [tail length] in Hd.
  pose proof (read_evt_raw old e (wf_evt_intro e Hfit)) as Hread.
  specialize (Hsim (u32 (pid_tgid v)) 0 ltac:(apply wrap_range; lia) Hp).
  rewrite open_at_empty in Hsim by done.
  assert (Hnone : l_frames (user s) !! frame_key (go_evt e) = None).
  { unfold frame_key. cbn [go_evt Tid Depth]. rewrite Ht, Hd. change (Z.of_nat 0) with 0.
    destruct (l_frames (user s) !! _); [destruct Hsim|reflexivity]. }
  assert (Hret : handleReturn (p_conf p) (l_filters (user s)) (w_mem w) (go_evt e) (l_frames (user s))
            (l_cs (user s)) (l_counts (user s)) = (l_frames (user s), l_cs (user s), l_counts (user s), [])).
  { unfold handleReturn. rewrite Hnone. by destruct (Depth (go_evt e) <? 0). }
  assert (Hloop : loop_event p w (raw_sample old e) (user s) =
    (LState (l_filters (user s)) (l_mc (user s)) (l_cs (user s)) (l_frames (user s)) (l_counts (user s))
       (l_total (user s) + 1), [])).
  { unfold loop_event. rewrite Hread. cbv zeta. cbn [l_filters l_mc l_cs l_frames l_counts l_total].
    assert (negb (c_tid (p_conf p) =? 0) && negb (Tid (go_evt e) =? c_tid (p_conf p)) = false) as ->.
    { cbn [go_evt Tid]. rewrite Ht. destruct Hp as [->| ->]; [done|]. by rewrite Z.eqb_refl, andb_false_r. }
    cbn [go_evt Kind]. rewrite Hk. change (1 =? 1) with true. cbv iota. by rewrite Hret. }
  rewrite Hloop in Hhit. injection Hhit as <- <-. split; reflexivity.
Qed.

(** *** The memory the records are reserved in *)

(** The same hit with [g] in the memory of the reserved record; whether there
    was room for a record does not change. *)
Definition with_memory (h : @hit R U) (g : evt_t) : @hit R U :=
  match h with
  | Entry v => if reserve v then Entry (with_junk v g) else h
  | Return v => if reserve v then Return (with_junk v g) else h
  end.

(** One hit and the loop's handling of its record, if one was submitted.
    [old] is what the bytes between the fields held. *)
Definition deliver (k : kmaps M) (st : @lstate RE) (h : @hit R U) (old : Z -> byte) (w : world)
  : kmaps M * @lstate RE * list string :=
  match hit_step k h with
  | (k', None) => (k', st, [])
  | (k', Some e) => let '(st', out) := loop_event p w (raw_sample old e) st in (k', st', out)
  end.

(** A whole run: [mem i] and [old i] are the memory the [i]-th hit meets. *)
Fixpoint deliver_all (k : kmaps M) (st : @lstate RE) (i : nat) (mem : nat -> evt_t)
    (old : nat -> Z -> byte) (hs : list (@hit R U * world)) : kmaps M * @lstate RE * list string :=
  match hs with
  | [] => (k, st, [])
  | (h, w) :: hs' =>
      let '(k1, st1, out1) := deliver k st (with_memory h (mem i)) (old i) w in
      let '(k2, st2, out2) := deliver_all k1 st1 (S i) mem old hs' in
      (k2, st2, out1 ++ out2)
  end.

Lemma calls_configured_step k (h : @hit R U) :
  calls_configured k -> calls_configured (hit_step k h).1.
Proof.
  intros Hc off slot mi Ho Hm. destruct (hit_step_config k h) as (_ & -> & -> & _).
  by apply (Hc off slot mi).
Qed.

Lemma up_all_junk_maps k (v : hit_env R U) g1 g2 :
  (up_all k (with_junk v g1)).1 = (up_all k (with_junk v g2)).1.
Proof.
  unfold up_all. cbn [with_junk reserve regs pid_tgid umem stackid_rc entry_evt e_ip].
  destruct (map_lookup_elem (cfg k) 0) as [base|]; [|done].
  by destruct (map_lookup_elem (hasret k) _).
Qed.

(** An entry event, whatever the memory held. *)
Lemma entry_memory k w (st : @lstate RE) (v : hit_env R U) g1 g2 old1 old2 :
  configured k -> calls_configured k ->
  hit_fits (with_junk v g1) -> hit_fits (with_junk v g2) ->
  deliver k st (Entry (with_junk v g1)) old1 w = deliver k st (Entry (with_junk v g2)) old2 w.
Proof.
  intros [Hb Hh Hby] Hcc Hf1 Hf2.
  destruct (up_all_event k (with_junk v g1) g1 eq_refl) as (e1 & E1 & _ & _ & Hip & _).
  destruct (up_all_event k (with_junk v g2) g2 eq_refl) as (e2 & E2 & _).
  pose proof (read_evt_raw old1 e1 (wf_evt_intro e1 (up_all_fits k _ e1 Hf1 Hby E1))) as R1.
  pose proof (read_evt_raw old2 e2 (wf_evt_intro e2 (up_all_fits k _ e2 Hf2 Hby E2))) as R2.
  set (off := u64 (PT_REGS_IP (regs v) - p_base p)).
  set (nm := default "" (slotName <$> p_offsets p !! off)).
  destruct (up_all_junk k v g1 g2 nm) as (e & cap & cap2 & r1 & r2 & J1 & J2 & Hs).
  { destruct (proj1 Hf1 g1 eq_refl). split; tauto. }
  { destruct (proj1 Hf2 g2 eq_refl). split; tauto. }
  { intros [mi Hmi]. subst nm. destruct (p_offsets p !! off) as [slot|] eqn:Eo; [|done]. cbn in Hmi.
    destruct (Hcc off slot mi Eo Hmi) as [Hk Hi]. exists (mi + 1), (p_base p).
    split; [done|]. split; [exact Hk|]. split; [exact Hi|].
    pose proof (isCallMethod_range _ _ Hmi). split; [|unfold NARGS; lia].
    apply snapshot_kind_nz. }
  pose proof (up_all_junk_maps k v g1 g2) as Hm.
  rewrite E1 in J1. rewrite E2 in J2. cbn [option_map] in J1, J2.
  apply (inj Some) in J1, J2. subst e. cbn [with_junk regs] in Hip.
  unfold deliver. cbn [hit_step].
  destruct (up_all k (with_junk v g1)) as [k1 o1], (up_all k (with_junk v g2)) as [k2 o2].
  cbn [fst snd] in Hm, E1, E2. subst k2 o1 o2.
  assert (Hl : loop_event p w (raw_sample old1 e1) st = loop_event p w (raw_sample old2 e2) st); [|by rewrite Hl].
  unfold loop_event. rewrite R1, R2, J2. cbn [refill Tid Kind Ip].
  destruct (_ && _); [done|].
  destruct (Kind (go_evt e1) =? 1); [reflexivity|].
  change (Ip (go_evt e1)) with (e_ip e1). rewrite Hip. fold off.
  destruct (p_offsets p !! off) as [slot|] eqn:Eo; [|done]. symmetry.
  apply handleEntry_refill. exact Hs.
Qed.

Lemma with_junk_fits (v : hit_env R U) g : hit_fits v -> evt_fits g -> hit_fits (with_junk v g).
Proof. intros (_ & Hp & Hk) Hg. split; [by intros g' [= <-]|done]. Qed.

(** A return event: [handleReturn] reads none of the fields the program
    leaves alone. *)
Lemma return_memory k w (st : @lstate RE) (v : hit_env R U) g1 g2 old1 old2 :
  hit_fits (with_junk v g1) -> hit_fits (with_junk v g2) ->
  deliver k st (Return (with_junk v g1)) old1 w = deliver k st (Return (with_junk v g2)) old2 w.
Proof.
  intros Hf1 Hf2. unfold deliver. cbn [hit_step].
  rewrite (up_ret_step k (with_junk v g1) g1 eq_refl), (up_ret_step k (with_junk v g2) g2 eq_refl).
  cbn [snd fst].
  pose proof (up_ret_fits k (with_junk v g1) _ Hf1 (f_equal snd (up_ret_step k (with_junk v g1) g1 eq_refl))) as F1.
  pose proof (up_ret_fits k (with_junk v g2) _ Hf2 (f_equal snd (up_ret_step k (with_junk v g2) g2 eq_refl))) as F2.
  unfold loop_event.
  rewrite (read_evt_raw old1 _ (wf_evt_intro _ F1)), (read_evt_raw old2 _ (wf_evt_intro _ F2)).
  reflexivity.
Qed.

(** C10. Uninitialised ring-buffer memory reaches nothing the tracer does.
    Neither program clears the record it reserves.  Take any run of entry and
    return hits, and two contents for the memory each of them reserves - the
    fields and the bytes between them: the tracer's maps, the loader's state
    and every line printed are the same in both. *)
Theorem uninitialised_memory_unused k (st : @lstate RE) i mem1 mem2 old1 old2 (hs : list (@hit R U * world)) :
  configured k -> calls_configured k ->
  (forall j, evt_fits (mem1 j)) -> (forall j, evt_fits (mem2 j)) ->
  Forall (fun hw => hit_ok hw.1) hs ->
  deliver_all k st i mem1 old1 hs = deliver_all k st i mem2 old2 hs.
Proof.
  intros Hc Hcc Hm1 Hm2 Hok. revert k st i Hc Hcc.
  induction Hok as [|[h w] hs Hh Hok IH]; intros k st i Hc Hcc; [done|]. cbn [deliver_all fst] in *.
  assert (E : deliver k st (with_memory h (mem1 i)) (old1 i) w = deliver k st (with_memory h (mem2 i)) (old2 i) w).
  { destruct h as [v|v]; cbn [with_memory hit_ok] in *; destruct (reserve v) eqn:Er.
    - apply entry_memory; [done|done|by apply with_junk_fits|by apply with_junk_fits].
    - unfold deliver. cbn [hit_step]. by rewrite up_all_drop.
    - apply return_memory; by apply with_junk_fits.
    - unfold deliver. cbn [hit_step]. by rewrite up_ret_drop. }
  rewrite E. destruct (deliver k st (with_memory h (mem2 i)) (old2 i) w) as [[k1 st1] out1] eqn:Ed.
  assert (Hk : k1 = (hit_step k (with_memory h (mem2 i))).1).
  { unfold deliver in Ed. destruct (hit_step k _) as [k' [e|]]; [|by injection Ed].
    destruct (loop_event _ _ _ _). by injection Ed. }
  rewrite (IH k1 st1 (S i)); [done| |]; subst k1; [by apply configured_step|by apply calls_configured_step].
Qed.
End System.

(** ** Examples *)

Definition demo_params : params :=
  Params demo_config {[0x100 := 36; 0x200 := 35; 0x300 := 34]} demo_base {[34; 35; 36]} {[34; 35; 36]}.

Definition demo_filters : filters string := Filters {["all"]} [] [] "" None None [] 0.

Definition demo_state : @lstate string := LState demo_filters (ModCache [] ∅ 41 0) newCaches ∅ ∅ 0.

Definition demo_order (m : gmap string Z) : list (string * Z) := map_to_list m.

Definition demo_world : world := World None None 0 0 (fun _ => None).

Definition demo_init : @sys hash_map string := Sys demo_maps demo_state ∅.

(** Two nested calls, then the inner one returns. *)
Definition demo_call1 : @hit user_pt_regs byte_mem := Entry (demo_hit 0x100 [0x10; 0x20; 0x30; 0x5000] [] 1000).
Definition demo_call2 : @hit user_pt_regs byte_mem := Entry (demo_hit 0x300 [0x10; 0x21; 0x31; 5; 6] [] 2000).
Definition demo_back : hit_env user_pt_regs byte_mem := demo_hit 0 [99] [] 3000.

Definition demo_step (h : @hit user_pt_regs byte_mem) (s : @sys hash_map string) : @sys hash_map string :=
  default s (fst <$> sys_hit demo_params h (fun _ => byte_of 255) demo_world s).

Definition demo_s1 := demo_step demo_call1 demo_init.
Definition demo_s2 := demo_step demo_call2 demo_s1.
Definition demo_s3 := demo_step (Return demo_back) demo_s2.

Lemma demo_configured : configured demo_params demo_maps.
Proof.
  constructor; [reflexivity| |apply demo_byte_values].
  intros off. cbn. split.
  - intros [x Hx]. rewrite !lookup_insert_Some, lookup_singleton_Some in Hx.
    destruct Hx as [[<- _]|[_ [[<- _]|[_ [<- _]]]]]; eexists; (split; [reflexivity|set_solver]).
  - intros (slot & Hs & _). rewrite !lookup_insert_Some, lookup_singleton_Some in Hs.
    destruct Hs as [[<- _]|[_ [[<- _]|[_ [<- _]]]]]; eexists; reflexivity.
Qed.

Lemma demo_step_some h s :
  bool_decide (is_Some (sys_hit demo_params h (fun _ => byte_of 255) demo_world s)) = true ->
  exists out, sys_hit demo_params h (fun _ => byte_of 255) demo_world s = Some (demo_step h s, out).
Proof.
  intros E. apply bool_decide_eq_true in E as [[s' out] E]. exists out. unfold demo_step. by rewrite E.
Qed.

Lemma demo_hit_ok off args mem ts : fits 64 ts -> hit_ok (Return (demo_hit off args mem ts)).
Proof. apply demo_hit_fits. Qed.

Lemma demo_reach_step h s :
  reachable demo_order demo_params demo_init s -> hit_ok h -> lossless (kern s) [h] = true ->
  Z.of_nat (length (stack_of (open s) (hit_tid h))) + 1 < 2 ^ 31 ->
  bool_decide (is_Some (sys_hit demo_params h (fun _ => byte_of 255) demo_world s)) = true ->
  reachable demo_order demo_params demo_init (demo_step h s).
Proof.
  intros Hr Hok Hl Hb E. destruct (demo_step_some h s E) as [out Eo].
  eapply reach_step; [exact Hr|]. by eapply step_hit.
Qed.

Lemma demo_reach1 : reachable demo_order demo_params demo_init demo_s1.
Proof.
  apply demo_reach_step; [apply reach_refl|apply demo_hit_fits; vm_compute; split; congruence| | |];
    vm_compute; reflexivity.
Qed.

Lemma demo_reach2 : reachable demo_order demo_params demo_init demo_s2.
Proof.
  apply demo_reach_step; [apply demo_reach1|apply demo_hit_fits; vm_compute; split; congruence| | |];
    vm_compute; reflexivity.
Qed.

Lemma return_finds_its_call_witness :
  exists fr, l_frames (user demo_s2) !! (42, 1) = Some fr /\ fr_slot fr = 34 /\
    l_frames (user demo_s3) !! (42, 1) = None.
Proof.
  destruct (demo_step_some (Return demo_back) demo_s2) as [out Eo]; [vm_compute; reflexivity|].
  destruct (return_finds_its_call demo_order demo_params demo_maps demo_state demo_s2 demo_back
    (fun _ => byte_of 255) demo_world demo_s3 out
    (nth 0 (stack_of (open demo_s2) 42) (junk 0)) (tail (stack_of (open demo_s2) 42)))
    as (fr & Hfr & (Hslot & _) & Hgone & _).
  - apply demo_configured.
  - apply demo_height0.
  - reflexivity.
  - apply demo_reach2.
  - left. reflexivity.
  - vm_compute. reflexivity.
  - vm_compute. reflexivity.
  - apply demo_hit_fits. vm_compute. split; congruence.
  - vm_compute. reflexivity.
  - exact Eo.
  - exists fr. split; [exact Hfr|]. split; [|exact Hgone].
    assert (Some 34 = Some (fr_slot fr)) as E; [|by injection E].
    rewrite <- Hslot. vm_compute. reflexivity.
Defined.

Definition demo_stray := demo_step (Return demo_back) demo_init.

Lemma return_of_unseen_call_witness : l_frames (user demo_stray) = ∅.
Proof.
  destruct (demo_step_some (Return demo_back) demo_init) as [out Eo]; [vm_compute; reflexivity|].
  destruct (return_of_unseen_call demo_order demo_params demo_maps demo_state demo_init demo_back
    (fun _ => byte_of 255) demo_world demo_stray out) as [_ E].
  - apply demo_configured.
  - apply demo_height0.
  - reflexivity.
  - apply reach_refl.
  - left. reflexivity.
  - reflexivity.
  - apply demo_hit_fits. vm_compute. split; congruence.
  - vm_compute. reflexivity.
  - exact Eo.
  - rewrite E. reflexivity.
Defined.

Lemma demo_calls : calls_configured demo_params demo_maps.
Proof.
  intros off slot mi Hs Hc. cbn in Hs. rewrite !lookup_insert_Some, lookup_singleton_Some in Hs.
  destruct Hs as [[<- <-]|[_ [[<- <-]|[_ [<- <-]]]]]; vm_compute in Hc; injection Hc as <-;
    split; vm_compute; reflexivity.
Qed.

(** A run of two calls and a return, with different contents of the memory;
    the calls are of methods not seen yet, so the one line is the return's. *)
Definition demo_run : list (@hit user_pt_regs byte_mem * world) :=
  [(demo_call1, demo_world); (demo_call2, demo_world); (Return demo_back, demo_world)].

Lemma uninitialised_memory_unused_witness :
  deliver_all demo_params demo_maps demo_state 0 (fun _ => junk 1) (fun _ _ => byte_of 255) demo_run =
    deliver_all demo_params demo_maps demo_state 0 (fun _ => junk 2) (fun _ _ => byte_of 0) demo_run /\
  length (deliver_all demo_params demo_maps demo_state 0 (fun _ => junk 2) (fun _ _ => byte_of 0) demo_run).2 = 1%nat.
Proof.
  split; [|vm_compute; reflexivity].
  apply (uninitialised_memory_unused demo_params demo_maps demo_state 0 (fun _ => junk 1) (fun _ => junk 2)).
  - apply demo_configured.
  - apply demo_calls.
  - intros _. apply junk_fits. lia.
  - intros _. apply junk_fits. lia.
  - constructor; [|constructor; [|constructor; [|constructor]]]; apply demo_hit_fits; split; lia.
Defined.
