(* ===== verification/Learning.v ===== *)
(** * Learning: what the loader learns from returns and how it shows later

    The switch of [handleReturn] fills the caches; [describeCall] reads them.
    The theorems follow a method from the return of [GetMethodID] to the text
    of a call, and a call the loader cannot parse from entry to return. *)

From S2P Require Import Prelude GoStr Strconv Target Schema Bpf Recon Wire FloatFmt Filters.
From S2P Require Import Decode CallArgs Modules Output Trace Pairing Signatures.

Definition id_getters : list string := ["GetMethodID"; "GetStaticMethodID"; "GetFieldID"; "GetStaticFieldID"].

(** ** Lemmas *)

Lemma is_one_of_In nm l : is_one_of nm l = true <-> In nm l.
Proof.
  unfold is_one_of. rewrite existsb_exists. split.
  - intros (x & Hx & E). apply String.eqb_eq in E. by subst.
  - intros Hx. exists nm. split; [done|apply String.eqb_refl].
Qed.

Lemma learn_getter cs mr fr rc :
  In (slotName (fr_slot fr)) id_getters -> rc <> 0 ->
  learn cs (Some mr) fr rc = learn_id cs (Some mr) fr rc.
Proof.
  intros Hg Hrc. unfold learn. rewrite bool_decide_eq_false_2 by done.
  rewrite (proj2 (Z.eqb_neq _ _) Hrc). cbn [orb].
  apply is_one_of_In in Hg. unfold id_getters in Hg. by rewrite Hg.
Qed.

(** Every name known before is known after; and of the ids and class
    references, none but [rc] has its entry changed. *)
Definition knows_more (cs cs' : caches) (rc : Z) : Prop :=
  (forall k, is_Some (idName cs !! k) -> is_Some (idName cs' !! k)) /\
  (forall k, k <> rc -> idName cs' !! k = idName cs !! k /\ idClass cs' !! k = idClass cs !! k /\
                        classNames cs' !! k = classNames cs !! k) /\
  (forall k, is_Some (classNames cs !! k) -> is_Some (classNames cs' !! k)) /\
  (forall k, is_Some (nameByClass cs !! k) -> is_Some (nameByClass cs' !! k)) /\
  (forall k, is_Some (objClass cs !! k) -> is_Some (objClass cs' !! k)) /\
  (forall k, is_Some (jstr cs !! k) -> is_Some (jstr cs' !! k)).

(** The text of a call through an unknown method id. *)
Definition unparsed_text (nm : string) (mid : Z) : string := nm ++s " mid=" ++s hex0x mid ++s " (?)".

(** The class part of a rendered call. *)
Definition call_class (c : caches) (mr : option memReader) (e : reconEvt) (mid : Z) : string :=
  let cls := classNameOfRef c mr (nthZ (A e) 1) in
  let cls := if HasPrefix cls "0x" then
               match idClass c !! mid with
               | Some cl => classNameOfRef c mr cl
               | None => cls
               end
             else cls in
  if String.eqb cls "" then "?" else cls.

(** The arguments of a rendered call, for parameter types [ps]. *)
Definition call_args (c : caches) (mr : option memReader) (e : reconEvt) (nm : string) (ps : list string) : list string :=
  if HasSuffix nm "A" then decodeA e ps c mr
  else if HasSuffix nm "V" then decodeV e ps c mr
  else decodeDirect e ps c mr.

Lemma describeCall_known e nm c mr mi mname ts ret :
  isCallMethod nm = Some mi -> idName c !! nthZ (A e) mi = Some (mname ++s msig ts ret) ->
  sin "(" mname = false -> Forall (fun t => jwf t = true) ts ->
  describeCall e nm c mr =
  (call_class c mr e (nthZ (A e) mi) ++s "." ++s mname ++s "(" ++s
   Join (call_args c mr e nm (map jprint ts)) ", " ++s ")", true).
Proof.
  intros Hc Hid Hn Hw. unfold describeCall. rewrite Hc, Hid.
  assert (HasPrefix (msig ts ret) "(" = true) as Hp by apply (HasPrefix_app "(").
  rewrite splitNameSig_app by done. cbv zeta.
  assert (parseParams (msig ts ret) = map jprint ts) as ->.
  { unfold parseParams, msig. cbn [String.append]. change (sat (String.String "(" _) 0) with (Some "("%char).
    cbv iota. change (Ascii.eqb "(" "(") with true. cbv iota.
    change (String.String "(" (jprints ts ++s String.String ")" ret)) with ("(" ++s jprints ts ++s String.String ")" ret).
    change 1%nat with (slen "(").
    rewrite params_loop_print; [done|done|].
    rewrite !slen_app. pose proof (slen_jprints ts Hw). cbn. lia. }
  done.
Qed.

(** Only the return of an ID getter touches the methods' names and classes. *)
Lemma learn_not_getter cs mr fr rc :
  ~ In (slotName (fr_slot fr)) id_getters ->
  idName (learn cs mr fr rc) = idName cs /\ idClass (learn cs mr fr rc) = idClass cs.
Proof.
  intros Hn. unfold learn. destruct (_ || _); [done|].
  destruct (is_one_of _ ["GetMethodID"; "GetStaticMethodID"; "GetFieldID"; "GetStaticFieldID"]) eqn:Eg.
  { by apply is_one_of_In in Eg. }
  unfold learn_class, learn_object. cbv zeta. repeat case_match; done.
Qed.

(** An ID getter's return touches its own id alone. *)
Lemma learn_other_id cs mr fr rc k :
  k <> rc -> idName (learn cs mr fr rc) !! k = idName cs !! k /\ idClass (learn cs mr fr rc) !! k = idClass cs !! k.
Proof.
  intros Hk. destruct (decide (In (slotName (fr_slot fr)) id_getters)) as [Hg|Hg].
  2:{ by destruct (learn_not_getter cs mr fr rc Hg) as [-> ->]. }
  unfold learn. destruct (_ || _); [done|].
  apply is_one_of_In in Hg. unfold id_getters in Hg. rewrite Hg.
  unfold learn_id. destruct (_ && _); cbn; by rewrite ?lookup_insert_ne by done.
Qed.

Section Learn.
Context {RE : Type} `{Regexp RE} `{SortByCount}.
Context (order : gmap string Z -> list (string * Z)) (p : params).

(** Event [r] is a return that the loop pairs with frame [fr]. *)
Definition returns_to (st : @lstate RE) (r : reconEvt) (fr : frame) : Prop :=
  (c_tid (p_conf p) = 0 \/ Tid r = c_tid (p_conf p)) /\ Kind r = 1 /\ 0 <= Depth r /\
  l_frames st !! frame_key r = Some fr.

(** An ID getter hands out [rc] (again). *)
Definition hands_out (st : @lstate RE) (a : action) (rc : Z) : Prop :=
  exists w raw r fr, a = AEvent w raw /\ read_evt raw = Some r /\ returns_to st r fr /\
    In (slotName (fr_slot fr)) id_getters /\ Rc r = rc.

(** Any run of the loop - events of all threads, reloads, commands - during
    which no ID getter hands out [rc]. *)
Inductive later (rc : Z) : @lstate RE -> @lstate RE -> Prop :=
| later_refl st : later rc st st
| later_step st a st1 out st2 :
    loop_step order p a st = Some (st1, out) -> ~ hands_out st a rc -> later rc st1 st2 -> later rc st st2.

Lemma handleReturn_caches c (f : filters RE) mr r fr fs cs counts :
  0 <= Depth r -> fs !! frame_key r = Some fr ->
  (handleReturn c f mr r fs cs counts).1.1.2 = learn cs mr fr (Rc r).
Proof.
  intros Hd Hf. unfold handleReturn. rewrite (proj2 (Z.ltb_ge _ _) Hd), Hf. cbv zeta.
  destruct (_ && _); [|done]. destruct (too_deep _ _); [done|].
  destruct (splitClassMethod _) as [cls meth]. destruct (matchLine _ _ _ _ _); [|done].
  by destruct (emit _ _ _).
Qed.

Lemma handleReturn_unpaired c (f : filters RE) mr r fs cs counts :
  Depth r < 0 \/ fs !! frame_key r = None -> (handleReturn c f mr r fs cs counts).1.1.2 = cs.
Proof.
  intros [Hd|Hf]; unfold handleReturn; [by rewrite (proj2 (Z.ltb_lt _ _) Hd)|].
  rewrite Hf. by destruct (Depth r <? 0).
Qed.

Lemma handleEntry_caches w (st : @lstate RE) e slot : l_cs (handleEntry p w st e slot).1 = l_cs st.
Proof.
  unfold handleEntry. destruct (mc_of _ _ _ _ _) as [caller mc].
  destruct (negb (matchSlot _ _)); [done|]. destruct (too_deep _ _); [done|].
  destruct (isCallMethod _).
  - destruct (describeCall _ _ _ _) as [call known]. destruct (splitClassMethod call) as [cls meth].
    destruct ((known || _) && _); [by destruct (emit _ _ _)|done].
  - destruct (matchLine _ _ _ _ _); [by destruct (emit _ _ _)|done].
Qed.

(** What one event does to the caches: learn from a paired return. *)
Lemma loop_event_caches w raw (st : @lstate RE) :
  l_cs (loop_event p w raw st).1 = l_cs st \/
  exists r fr, read_evt raw = Some r /\ returns_to st r fr /\
    l_cs (loop_event p w raw st).1 = learn (l_cs st) (w_mem w) fr (Rc r).
Proof.
  unfold loop_event. destruct (read_evt raw) as [r|]; [|by left]. cbv zeta.
  destruct (negb (c_tid (p_conf p) =? 0) && negb (Tid r =? c_tid (p_conf p))) eqn:Et; [by left|].
  destruct (Z.eqb_spec (Kind r) 1) as [Hk|_].
  2:{ left. destruct (p_offsets p !! _); [by rewrite handleEntry_caches|done]. }
  cbn [l_filters l_mc l_cs l_frames l_counts l_total].
  destruct (handleReturn _ _ _ _ _ _ _) as [[[fs cs] counts] out] eqn:E. cbn [fst l_cs].
  assert (Ec : cs = (handleReturn (p_conf p) (l_filters st) (w_mem w) r (l_frames st) (l_cs st) (l_counts st)).1.1.2)
    by by rewrite E.
  destruct (Z.lt_ge_cases (Depth r) 0) as [Hd|Hd]; [left; rewrite Ec; apply handleReturn_unpaired; by left|].
  destruct (l_frames st !! frame_key r) as [fr|] eqn:Ef; [|left; rewrite Ec; apply handleReturn_unpaired; by right].
  right. exists r, fr. split; [done|]. split; [|rewrite Ec; by apply handleReturn_caches].
  split; [|done]. destruct (Z.eqb_spec (c_tid (p_conf p)) 0); [by left|right].
  by destruct (Z.eqb_spec (Tid r) (c_tid (p_conf p))).
Qed.

Lemma loop_event_learns w raw (st : @lstate RE) r fr :
  read_evt raw = Some r -> returns_to st r fr ->
  l_cs (loop_event p w raw st).1 = learn (l_cs st) (w_mem w) fr (Rc r).
Proof.
  intros Er (Ht & Hk & Hd & Hf). unfold loop_event. rewrite Er. cbv zeta.
  assert (negb (c_tid (p_conf p) =? 0) && negb (Tid r =? c_tid (p_conf p)) = false) as ->.
  { destruct Ht as [->| ->]; [done|]. by rewrite Z.eqb_refl, andb_false_r. }
  rewrite Hk. change (1 =? 1) with true. cbv iota. cbn [l_filters l_mc l_cs l_frames l_counts l_total].
  rewrite <- (handleReturn_caches (p_conf p) (l_filters st) (w_mem w) r fr (l_frames st) (l_cs st) (l_counts st) Hd Hf).
  by destruct (handleReturn _ _ _ _ _ _ _) as [[[fs cs] counts] out].
Qed.

Lemma command_caches line (st st1 : @lstate RE) out :
  command_step order line st = Some (st1, out) -> l_cs st1 = l_cs st.
Proof.
  unfold command_step. destruct (String.eqb _ _); [by intros [= <- _]|].
  destruct (applyCommand _ _); try done; by intros [= <- _].
Qed.

Lemma later_keeps_id rc (st st' : @lstate RE) :
  later rc st st' -> idName (l_cs st') !! rc = idName (l_cs st) !! rc /\ idClass (l_cs st') !! rc = idClass (l_cs st) !! rc.
Proof.
  induction 1 as [st|st a st1 out st2 Hs Hn _ [-> ->]]; [done|].
  destruct a as [w raw|maps now|line]; cbn [loop_step] in Hs.
  - replace st1 with (loop_event p w raw st).1 by (by injection Hs as ->).
    destruct (loop_event_caches w raw st) as [->|(r & fr & Er & Hr & ->)]; [done|].
    destruct (decide (rc = Rc r)) as [->|Hne]; [|by apply learn_other_id].
    destruct (learn_not_getter (l_cs st) (w_mem w) fr (Rc r)) as [-> ->]; [|done].
    intros Hg. apply Hn. by exists w, raw, r, fr.
  - by injection Hs as <- _.
  - by rewrite (command_caches line st st1 out Hs).
Qed.

(** C21. A method learned from [GetMethodID] is shown by name in every later
    call.  An ID getter returns [rc], paired with its frame, whose pointers lead
    to the method's name and signature in the target's memory.  Then after any
    further run of the loop - events of any thread, other functions' returns,
    reloads, commands - in which no ID getter hands out [rc] again, a call
    through [rc], in any of the variants, is rendered as [Class.name(args)]
    with the arguments decoded by that signature's parameter types, counts as
    known, and the class the id was asked for is remembered. *)
Theorem learned_method_described w raw (st st1 st2 : @lstate RE) out m r fr nm ts ret e variant mi mr' :
  read_evt raw = Some r -> returns_to st r fr -> w_mem w = Some m ->
  In (slotName (fr_slot fr)) id_getters -> Rc r <> 0 ->
  mr_cstr (Some m) (fr_a2 fr) = nm -> mr_cstr (Some m) (fr_a3 fr) = msig ts ret ->
  validName nm = true -> validSig (msig ts ret) = true -> sin "(" nm = false ->
  Forall (fun t => jwf t = true) ts ->
  loop_event p w raw st = (st1, out) -> later (Rc r) st1 st2 ->
  isCallMethod variant = Some mi -> nthZ (A e) mi = Rc r ->
  describeCall e variant (l_cs st2) mr' =
    (call_class (l_cs st2) mr' e (Rc r) ++s "." ++s nm ++s "(" ++s
     Join (call_args (l_cs st2) mr' e variant (map jprint ts)) ", " ++s ")", true) /\
  idClass (l_cs st2) !! Rc r = Some (fr_a1 fr).
Proof.
  intros Er Hr Hw Hg Hrc En Es Hn Hs Hp Hwf El Hl Hv Hm.
  pose proof (loop_event_learns w raw st r fr Er Hr) as Hc. rewrite El, Hw, learn_getter in Hc by done.
  unfold learn_id, fr2a in Hc. cbn [Z.eqb Pos.eqb] in Hc. rewrite En, Es, Hn, Hs in Hc. cbn [andb fst] in Hc.
  destruct (later_keeps_id (Rc r) st1 st2 Hl) as [E1 E2]. rewrite Hc in E1, E2. cbn in E1, E2.
  rewrite lookup_insert_eq in E1. rewrite lookup_insert_eq in E2. split; [|exact E2].
  rewrite <- Hm. apply (describeCall_known _ _ _ _ _ _ _ ret); try done. by rewrite Hm.
Qed.

(** Nothing learned is forgotten: handling a return never removes a method
    or field name, a class name, an object's class or a string, and of the
    ids and class references it changes only the one that was returned. *)
Theorem learning_keeps cs mr fr rc : knows_more cs (learn cs mr fr rc) rc.
Proof.
  assert (Hins : forall (X : Type) (mm : gmap Z X) i x k, is_Some (mm !! k) -> is_Some (<[i := x]> mm !! k)).
  { intros X mm i x k Hk. rewrite lookup_insert. case_decide; [eauto|done]. }
  unfold knows_more, learn. destruct (_ || _); [done|].
  destruct (is_one_of _ _).
  { unfold learn_id. destruct (_ && _); cbn [set_idName set_idClass idName idClass classNames nameByClass objClass jstr];
      repeat split; auto; intros; rewrite ?lookup_insert_ne by done; done. }
  destruct (String.eqb _ "FindClass").
  { unfold learn_class. destruct (validName _); [|done]. cbv zeta. destruct (resolveObj mr rc =? 0);
      cbn [set_classNames set_nameByClass idName idClass classNames nameByClass objClass jstr];
      repeat split; auto; intros; rewrite ?lookup_insert_ne by done; done. }
  destruct (String.eqb _ "GetObjectClass").
  { unfold learn_object. destruct (_ =? 0); [done|]. cbv zeta. destruct (_ =? 0); [done|].
    cbn [set_objClass idName idClass classNames nameByClass objClass jstr]. repeat split; auto. }
  destruct (is_one_of _ _).
  { unfold learn_object. destruct (_ =? 0); [done|]. cbv zeta. destruct (_ =? 0); [done|].
    cbn [set_objClass idName idClass classNames nameByClass objClass jstr]. repeat split; auto. }
  destruct (String.eqb _ "GetStringUTFChars"); [cbn [set_jstr idName idClass classNames nameByClass objClass jstr]; repeat split; auto|].
  destruct (String.eqb _ "NewStringUTF"); [cbn [set_jstr idName idClass classNames nameByClass objClass jstr]; repeat split; auto|].
  done.
Qed.
End Learn.

(** ** A call the loader cannot parse *)

Section Unparsed.
Context {RE : Type} `{Regexp RE}.

(** C29. A call whose [jmethodID] was never learned is suppressed on entry
    without [--verbose], but its return line is still printed: with filters
    that accept every line, the entry prints nothing while the frame keeps
    the text [Call... mid=0x... (?)], and the matching return prints the
    line for that text. *)
Theorem unparsed_call_prints_only_return (p : params) (w : world) (st : @lstate RE) e slot mi r mr cs counts :
  let c := p_conf p in let f := l_filters st in
  isCallMethod (slotName slot) = Some mi -> idName (l_cs st) !! nthZ (A e) mi = None ->
  c_verbose c = false -> c_count c = false -> c_jsonOut c = false ->
  slot ∈ p_retSet p -> 0 <= Depth e -> matchSlot f slot = true -> too_deep c e = false ->
  (forall cls m l k, matchLine f cls m l k = true) ->
  Tid r = Tid e -> Depth r = Depth e ->
  let '(st', out) := handleEntry p w st e slot in
  out = [] /\
  exists fr cs', fr_slot fr = slot /\
    fr_call fr = unparsed_text (slotName slot) (nthZ (A e) mi) /\
    (handleReturn c f mr r (l_frames st') cs counts).2 = [return_line cs' mr fr r].
Proof.
  intros c f Hc Hid Hv Hcnt Hj Hret Hd Hms Htd Hml Ht Hdr. unfold handleEntry. fold c f.
  destruct (mc_of (l_mc st) (Caller e) (w_maps w) (w_now w) (w_later w)) as [caller mc].
  rewrite Hms, Htd, Hc. cbn [negb]. unfold describeCall. rewrite Hc, Hid.
  rewrite bool_decide_eq_true_2 by done. rewrite (proj2 (Z.leb_le _ _) Hd). cbn [andb].
  rewrite lookup_insert_eq, Hv. cbn [orb andb].
  destruct (splitClassMethod _) as [cls meth]. split; [done|]. cbn [l_frames].
  rewrite insert_insert_eq.
  set (fr := set_call _ _).
  exists fr, (learn cs mr fr (Rc r)). split; [done|]. split; [done|].
  unfold handleReturn. rewrite Hdr. destruct (Z.ltb_spec (Depth e) 0); [lia|].
  assert (Hk : frame_key r = frame_key e) by (unfold frame_key; by rewrite Ht, Hdr).
  rewrite Hk, lookup_insert_eq. cbv zeta.
  change (fr_slot fr) with slot. rewrite Hms.
  assert (Hne : nonempty (fr_call fr) = true).
  { change (fr_call fr) with (slotName slot ++s " mid=" ++s hex0x (nthZ (A e) mi) ++s " (?)").
    by destruct (slotName slot). }
  rewrite Hne. cbn [andb].
  assert (Htd' : too_deep c r = false) by (unfold too_deep in *; by rewrite Hdr).
  rewrite Htd'. destruct (splitClassMethod (fr_call fr)) as [cls2 meth2]. rewrite Hml.
  unfold emit. rewrite Hcnt, Hj. done.
Qed.
End Unparsed.

(** ** Examples *)

(** A target whose memory holds ["add"] at 0x5000 and ["(I)V"] at 0x6000. *)
Definition demo_text (s : string) : list byte := String.list_ascii_of_string s ++ ["000"%char].
Definition demo_reader : memReader :=
  MemReader (fun off n => if off =? 0x5000 then demo_text "add" else if off =? 0x6000 then demo_text "(I)V" else []).

Definition demo_frame : frame := Frame 33 1000 "" "app.so" 0x20 0x5000 0x6000.

(** A call of method 0x99 with one argument, 5, in x3. *)
Definition demo_event : reconEvt :=
  go_evt (set_capture (Evt 41 42 0 0 demo_base 0 2000 0 0 0 [0x10; 0x20; 0x99; 5; 0] 0 0 0 0
    (repeat 0 NCAP) (repeat 0 NCAP) 0 0 0 0 0) 2 3 (5 :: repeat 0 15) (repeat 0 NCAP) 0 0 0).

(** Thread 42 returns 0x99 from [GetMethodID]; then thread 43 returns from
    [NewStringUTF], its reference the same number as the id. *)
Definition learn_world : world := World (Some demo_reader) None 0 0 (fun _ => None).
Definition learn_return (tid : Z) : evt_t :=
  Evt 41 tid 1 0 demo_base 0x99 2000 0 0 0 [0; 0; 0; 0; 0] 0 0 0 0 (repeat 0 NCAP) (repeat 0 NCAP) 0 0 0 0 0.
Definition learn_raw (tid : Z) : list byte := raw_sample (fun _ => byte_of 0) (learn_return tid).

Definition learn_start : @lstate string :=
  LState demo_filters (ModCache [] ∅ 41 0) newCaches
    {[(42, 0) := demo_frame; (43, 0) := Frame 167 1500 "" "app.so" 0x5000 0 0]} ∅ 0.
Definition learn_state1 : @lstate string := (loop_event demo_params learn_world (learn_raw 42) learn_start).1.
Definition learn_state2 : @lstate string := (loop_event demo_params learn_world (learn_raw 43) learn_state1).1.

Lemma learn_read tid : In tid [42; 43] -> read_evt (learn_raw tid) = Some (go_evt (learn_return tid)).
Proof. intros [<-|[<-|[]]]; vm_compute; reflexivity. Qed.

(** The second return is no ID getter's. *)
Lemma learn_state2_later : later demo_order demo_params 0x99 learn_state1 learn_state2.
Proof.
  eapply (later_step demo_order demo_params 0x99 learn_state1 (AEvent learn_world (learn_raw 43)) learn_state2);
    [exact (f_equal Some (surjective_pairing _))| |apply later_refl].
  intros (w & raw & r & fr & [= <- <-] & Er & (_ & _ & _ & Hf) & Hg & _).
  rewrite learn_read in Er by (right; by left). injection Er as <-. vm_compute in Hf. injection Hf as <-.
  vm_compute in Hg. repeat destruct Hg as [Hg|Hg]; discriminate || exact Hg.
Qed.

Lemma learned_method_described_witness :
  (describeCall demo_event "CallVoidMethod" (l_cs learn_state2) None).1 = "0x20.add(5)" /\
  jstr (l_cs learn_state2) !! 0x99 = Some "add".
Proof.
  split; [|vm_compute; reflexivity].
  rewrite (proj1 (learned_method_described demo_order demo_params learn_world (learn_raw 42) learn_start learn_state1
    learn_state2 (loop_event demo_params learn_world (learn_raw 42) learn_start).2 demo_reader
    (go_evt (learn_return 42)) demo_frame "add" [JPrim "I"] "V" demo_event "CallVoidMethod" 2 None
    (learn_read 42 ltac:(by left))
    ltac:(split; [left; reflexivity|split; [reflexivity|split; [vm_compute; discriminate|reflexivity]]])
    eq_refl ltac:(vm_compute; tauto) ltac:(vm_compute; discriminate) ltac:(vm_compute; reflexivity) ltac:(vm_compute; reflexivity)
    ltac:(vm_compute; reflexivity) ltac:(vm_compute; reflexivity) ltac:(reflexivity)
    ltac:(repeat constructor) ltac:(apply surjective_pairing) learn_state2_later
    ltac:(reflexivity) ltac:(reflexivity))).
  vm_compute. reflexivity.
Defined.

Lemma unparsed_call_prints_only_return_witness :
  (handleEntry demo_params demo_world demo_state demo_event 34).2 = [] /\
  exists fr cs', fr_call fr = "CallObjectMethod mid=0x99 (?)" /\
   (handleReturn demo_config demo_filters None demo_event
     (l_frames (handleEntry demo_params demo_world demo_state demo_event 34).1) newCaches ∅).2 =
   [return_line cs' None fr demo_event].
Proof.
  pose proof (unparsed_call_prints_only_return demo_params demo_world demo_state demo_event 34 2 demo_event
    None newCaches ∅) as T. cbv zeta in T.
  destruct (handleEntry demo_params demo_world demo_state demo_event 34) as [st' out].
  destruct T as (T1 & fr & cs' & _ & T2 & T3).
  - vm_compute. reflexivity.
  - reflexivity.
  - reflexivity.
  - reflexivity.
  - reflexivity.
  - cbn [demo_params p_retSet]. set_solver.
  - vm_compute. discriminate.
  - vm_compute. reflexivity.
  - reflexivity.
  - intros cls m l k. reflexivity.
  - reflexivity.
  - reflexivity.
  - split; [exact T1|]. exists fr, cs'. split; [exact T2|exact T3].
Defined.

Lemma learning_keeps_witness :
  idName (learn (set_idName newCaches {[0x77 := "size()I"]}) (Some demo_reader) demo_frame 0x99) !! 0x77 = Some "size()I".
Proof.
  destruct (learning_keeps (set_idName newCaches {[0x77 := "size()I"]}) (Some demo_reader) demo_frame 0x99)
    as (_ & T & _).
  rewrite (proj1 (T 0x77 ltac:(lia))). vm_compute. reflexivity.
Defined.
