(* ===== verification/Attach.v ===== *)
(** * Attach: attaching the probes in loader/trace.go (runProbe)

    The part of [runProbe] between the configuration of the maps and the event
    loop, and what is undone at its end.  The kernel's answers to attach
    requests are arguments: a link, or an error. *)

From S2P Require Import Prelude GoStr Strconv Schema Bpf Recon Filters Main Trace.

Section Attach.
Variables (uprobe uretprobe : Z -> option Z).

(** [links], [attached] and [retN]. *)
Record attaching := Attaching { links : list Z; attached : Z; retN : Z }.

(** [add]: a link is kept unless the request failed. *)
Definition add (l : option Z) (ls : list Z) : list Z :=
  match l with Some l => ls ++ [l] | None => ls end.

(** One iteration of each loop. *)
Definition attach_entry (st : attaching) (off : Z) : attaching :=
  Attaching (add (uprobe off) (links st)) (attached st + 1) (retN st).

Definition attach_ret (st : attaching) (off : Z) : attaching :=
  match uretprobe off with
  | Some l => Attaching (add (Some l) (links st)) (attached st) (retN st + 1)
  | None => st
  end.

(** Both loops: the offsets in the order Go visits them, then the offsets with
    a return probe. *)
Definition attach (offs rets : list Z) : attaching :=
  fold_left attach_ret rets (fold_left attach_entry offs (Attaching [] 0 0)).

(** The first line printed. *)
Definition banner (pid : Z) (libart : string) (base : Z) (noffs : nat) (st : attaching) : string :=
  "[*] jniprobe: pid=" ++s FormatInt pid 10 ++s " libart=" ++s libart ++s " base=" ++s hex0x base ++s
  " slots=" ++s FormatInt (Z.of_nat noffs) 10 ++s " probes=" ++s FormatInt (attached st) 10 ++s
  "(+" ++s FormatInt (retN st) 10 ++s " ret)".

(** The session up to the event loop and the links closed when it is over:
    without a ring buffer reader the process exits at once and closes none
    itself; otherwise the deferred function closes every link. *)
Inductive session := Exits (code : Z) | Runs (line : string) (closed : list Z).

Definition session_of (reader : bool) (pid : Z) (libart : string) (base : Z) (offs rets : list Z) : session :=
  let st := attach offs rets in
  if reader then Runs (banner pid libart base (length offs) st) (links st) else Exits 1.

(** ** Lemmas *)

Lemma attach_entries offs st :
  fold_left attach_entry offs st =
  Attaching (links st ++ omap uprobe offs) (attached st + Z.of_nat (length offs)) (retN st).
Proof.
  revert st. induction offs as [|o offs IH]; intros st; cbn [fold_left].
  - rewrite app_nil_r, Z.add_0_r. by destruct st.
  - rewrite IH. cbn [attach_entry links attached retN length omap list_omap]. unfold add.
    destruct (uprobe o); rewrite <- ?app_assoc; f_equal; lia.
Qed.

Lemma attach_rets rets st :
  fold_left attach_ret rets st =
  Attaching (links st ++ omap uretprobe rets) (attached st)
    (retN st + Z.of_nat (length (omap uretprobe rets))).
Proof.
  revert st. induction rets as [|o rets IH]; intros st; cbn [fold_left].
  - cbn. rewrite app_nil_r, Z.add_0_r. by destruct st.
  - rewrite IH. unfold attach_ret. cbn [omap list_omap]. destruct (uretprobe o); [|done].
    cbn [links attached retN add length]. rewrite <- app_assoc. f_equal. lia.
Qed.

(** The links kept are those of the requests that succeeded, in order, all of
    them are closed at the end, the return probes are counted by success and
    the entry probes by request: the line counts failed ones as attached. *)
Theorem attach_reports pid libart base offs rets :
  let st := attach offs rets in
  links st = omap uprobe offs ++ omap uretprobe rets /\
  retN st = Z.of_nat (length (omap uretprobe rets)) /\
  attached st = Z.of_nat (length offs) /\
  session_of true pid libart base offs rets = Runs (banner pid libart base (length offs) st) (links st).
Proof.
  cbn zeta. unfold session_of, attach. rewrite attach_rets, attach_entries. cbn [links attached retN app].
  repeat split.
Qed.

(** Without a single entry probe the line still reports all of them. *)
Theorem attached_overreports offs :
  (forall off, uprobe off = None) ->
  attached (attach offs []) = Z.of_nat (length offs) /\ links (attach offs []) = [].
Proof.
  intros Hn. destruct (attach_reports 0 "" 0 offs []) as (-> & _ & -> & _). split; [done|].
  induction offs as [|o offs IH]; [done|]. cbn. by rewrite Hn.
Qed.

End Attach.
