(* ===== verification/Liveness.v ===== *)
(** * Liveness: open calls are served and leave nothing behind

    The other theorems say what a step does when it happens.  Here: as long as
    the ring buffer takes the records, returns are never stuck (the depth map
    needs no room for them), and when all open calls of a thread have returned
    its depth is back at zero and the loader keeps no frame of it. *)

From S2P Require Import Prelude Bpf Recon Wire Filters Decode Modules Output Trace Pairing.

Section Liveness.
Context {M R U : Type} `{HM : BpfMapLaws M} `{HR : PtRegsLaws R} `{HU : UserMemLaws U}.
Context {RE : Type} `{Regexp RE} `{SortByCount}.
Context (order : gmap string Z -> list (string * Z)) (p : params).

Abbreviation sys := (@sys M RE).
Abbreviation sys_hit := (Pairing.sys_hit (M := M) (R := R) (U := U) (RE := RE) p).

(** A return of thread [tid] whose record finds room in the ring buffer, with
    the old contents of that room and the world the loader handles it in. *)
Record delivery := Delivery { dv_hit : hit_env R U; dv_old : Z -> byte; dv_world : world }.

Definition deliverable (tid : Z) (d : delivery) : Prop :=
  u32 (pid_tgid (dv_hit d)) = tid /\ hit_fits (dv_hit d) /\ is_Some (reserve (dv_hit d)).

(** Returns one after the other. *)
Fixpoint run_returns (ds : list delivery) (s : sys) : option sys :=
  match ds with
  | [] => Some s
  | d :: ds' =>
      match sys_hit (Return (dv_hit d)) (dv_old d) (dv_world d) s with
      | Some (s', _) => run_returns ds' s'
      | None => None
      end
  end.

(** An open call makes its return's update a replacement, which needs no
    room. *)
Lemma open_return_lossless (k : kmaps M) (st : stacks evt_t) (v : hit_env R U) :
  depth_sim k st -> stack_of st (u32 (pid_tgid v)) <> [] -> is_Some (reserve v) ->
  lossless k [Return v] = true.
Proof.
  intros Hds Hne Hr. cbn [lossless]. rewrite bool_decide_eq_true_2 by done. rewrite andb_true_r. cbn [andb].
  apply Z.eqb_eq, update_present. cbn [hit_tid].
  specialize (Hds (u32 (pid_tgid v))). unfold height in Hds.
  destruct (map_lookup_elem (depth k) (u32 (pid_tgid v))); [eauto|].
  destruct (stack_of st _); [done|]. cbn in Hds. lia.
Qed.

(** A return with room in the ring buffer is handled, and pops its thread's
    stack. *)
Lemma return_served (s : sys) (d : delivery) tid :
  deliverable tid d ->
  exists s' out, sys_hit (Return (dv_hit d)) (dv_old d) (dv_world d) s = Some (s', out) /\
    stack_of (open s') tid = tail (stack_of (open s) tid).
Proof.
  intros (Ht & _ & [g Hg]). unfold Pairing.sys_hit. cbn [hit_step]. rewrite (up_ret_step _ _ g Hg).
  destruct (loop_event _ _ _ _) as [u' out]. eexists _, out. split; [reflexivity|].
  cbn [open]. unfold ghost_step. cbn [spec_step fst hit_tid]. by rewrite Ht, stack_of_insert_eq.
Qed.

Lemma drain_steps ds (s : sys) tid :
  Inv p s -> Forall (deliverable tid) ds -> length ds = length (stack_of (open s) tid) ->
  Z.of_nat (length ds) + 1 < 2 ^ 31 ->
  exists s', run_returns ds s = Some s' /\ Inv p s' /\ stack_of (open s') tid = [] /\
    forall s0, reachable (R := R) (U := U) order p s0 s -> reachable (R := R) (U := U) order p s0 s'.
Proof.
  revert s. induction ds as [|d ds IH]; intros s HI HF Hlen Hb; cbn [run_returns].
  - exists s. split; [done|]. split; [exact HI|]. split; [|auto]. by destruct (stack_of (open s) tid).
  - apply Forall_cons in HF as [Hd HF]. pose proof Hd as (Ht & Hfit & Hres).
    destruct (stack_of (open s) tid) as [|e rest] eqn:Es; [discriminate|]. cbn [length] in *.
    destruct (return_served s d tid Hd) as (s1 & out & E1 & Es1). rewrite E1.
    assert (Hl : lossless (kern s) [Return (dv_hit d)] = true).
    { destruct HI as (_ & Hds & _). eapply open_return_lossless; [exact Hds| |done].
      by rewrite Ht, Es. }
    assert (Hbd : Z.of_nat (length (stack_of (open s) (hit_tid (Return (dv_hit d))))) + 1 < 2 ^ 31).
    { cbn [hit_tid]. rewrite Ht, Es. cbn [length]. lia. }
    destruct (IH s1) as (s' & E' & HI' & Es' & Hre).
    + exact (sys_hit_inv p (Return (dv_hit d)) _ _ _ _ _ HI Hfit Hl Hbd E1).
    + done.
    + rewrite Es1, Es. cbn. lia.
    + lia.
    + exists s'. split; [done|]. split; [exact HI'|]. split; [done|]. intros s0 Hr. apply Hre.
      exact (reach_step order p _ _ _ Hr (step_hit order p (Return (dv_hit d)) _ _ _ _ _ Hfit Hl Hbd E1)).
Qed.

(** C11. Every open call is eventually served.  From any state
    reached by delivered hits, reloads and commands (no record lost), as
    many returns of a thread as it has open tracked calls, each finding room
    in the ring buffer, run to the end without getting stuck, whatever the
    size of the depth map; then the thread has no open call, its depth
    counter is zero and the loader holds no frame of it. *)
Theorem returns_drain k0 (st0 : @lstate RE) (s : sys) tid ds :
  configured p k0 -> (forall tid, height k0 tid = 0) -> l_frames st0 = ∅ ->
  reachable (R := R) (U := U) order p (Sys k0 st0 ∅) s ->
  fits 32 tid -> passes p tid ->
  Forall (deliverable tid) ds -> length ds = length (stack_of (open s) tid) ->
  Z.of_nat (length ds) + 1 < 2 ^ 31 ->
  exists s', run_returns ds s = Some s' /\
    reachable (R := R) (U := U) order p (Sys k0 st0 ∅) s' /\ stack_of (open s') tid = [] /\
    height (kern s') tid = 0 /\ forall d, l_frames (user s') !! (s32 tid, d) = None.
Proof.
  intros Hc Hh Hf Hr Hfit Hp HF Hlen Hb.
  pose proof (reachable_inv order p _ _ (init_inv p _ _ Hc Hh Hf) Hr) as HI.
  destruct (drain_steps ds s tid HI HF Hlen Hb) as (s' & E & (_ & Hds & Hfs) & Es & Hre).
  exists s'. split; [done|]. split; [by apply Hre|]. split; [done|]. split.
  - rewrite Hds, Es. done.
  - intros d. specialize (Hfs tid d Hfit Hp). rewrite open_at_empty in Hfs by done.
    by destruct (l_frames (user s') !! _).
Qed.

End Liveness.

(** ** When the depth map is full

    The loader and the programs never delete a thread from the depth map. *)

Section Exhausted.
Context {R U : Type} `{PtRegs R} `{UserMem U}.

(** No hit removes a thread's entry. *)
Theorem depth_map_keeps (k : kmaps hash_map) (h : @hit R U) tid :
  is_Some (hm_data (depth k) !! tid) -> is_Some (hm_data (depth (hit_step k h).1) !! tid).
Proof.
  intros Hs. assert (Hu : forall k' v,
    is_Some (hm_data (map_update_elem (depth k) k' v).1 !! tid)).
  { intros k' v. cbn [map_update_elem hash_map_ops].
    destruct (hm_data (depth k) !! k'); [|destruct (size _ <? _)%nat; [|done]]; cbn;
      (destruct (decide (k' = tid)) as [->|]; [by rewrite lookup_insert_eq; eauto|by rewrite lookup_insert_ne]). }
  destruct h as [v|v]; cbn [hit_step]; destruct (reserve v) as [g|] eqn:E.
  - rewrite (up_all_maps _ _ _ E). destruct (tracked k v); [apply Hu|done].
  - by rewrite up_all_drop.
  - rewrite (up_ret_step _ _ _ E). apply Hu.
  - by rewrite up_ret_drop.
Qed.

(** Once as many threads as the map has room for have made a tracked call, a
    further thread stays at depth 0: its nested calls are indistinguishable,
    although nothing was lost. *)
Theorem depth_map_full (k : kmaps hash_map) (v1 v2 : hit_env R U) g1 g2 :
  (hm_max (depth k) <= size (hm_data (depth k)))%nat ->
  reserve v1 = Some g1 -> reserve v2 = Some g2 ->
  u32 (pid_tgid v1) = u32 (pid_tgid v2) -> hm_data (depth k) !! u32 (pid_tgid v1) = None ->
  tracked k v1 = true -> tracked k v2 = true ->
  exists e1 e2, (up_all k v1).2 = Some e1 /\ (up_all (up_all k v1).1 v2).2 = Some e2 /\
    e_depth e1 = 0 /\ e_depth e2 = 0.
Proof.
  intros Hfull E1 E2 Et Habs T1 T2. assert (Hk : (up_all k v1).1 = k).
  { rewrite (up_all_maps _ _ _ E1), T1. cbn [map_update_elem hash_map_ops]. rewrite Habs.
    destruct (Nat.ltb_spec (size (hm_data (depth k))) (hm_max (depth k))); [lia|]. by destruct k. }
  destruct (up_all_event k v1 g1 E1) as (e1 & X1 & _ & _ & _ & _ & D1).
  destruct (up_all_event k v2 g2 E2) as (e2 & X2 & _ & _ & _ & _ & D2).
  exists e1, e2. rewrite Hk, X1, X2, D1, D2, T1, T2. unfold height. rewrite <- Et.
  cbn [map_lookup_elem hash_map_ops]. by rewrite Habs.
Qed.
End Exhausted.

(** The two open calls of the example return. *)
Definition demo_delivery : @delivery user_pt_regs byte_mem :=
  Delivery demo_back (fun _ => byte_of 255) demo_world.

Lemma returns_drain_witness :
  exists s', run_returns demo_params [demo_delivery; demo_delivery] demo_s2 = Some s' /\
    height (kern s') 42 = 0.
Proof.
  assert (Hd : deliverable 42 demo_delivery).
  { split; [vm_compute; reflexivity|]. split; [apply demo_hit_fits; vm_compute; split; congruence|].
    eexists. reflexivity. }
  destruct (returns_drain demo_order demo_params demo_maps demo_state demo_s2 42
    [demo_delivery; demo_delivery]) as (s' & E & _ & _ & Hh & _).
  - apply demo_configured.
  - apply demo_height0.
  - reflexivity.
  - apply demo_reach2.
  - vm_compute. split; congruence.
  - left. reflexivity.
  - exact (Forall_cons_2 _ _ _ Hd (Forall_cons_2 _ _ _ Hd (Forall_nil_2 _))).
  - vm_compute. reflexivity.
  - vm_compute. reflexivity.
  - exists s'. split; [exact E|exact Hh].
Defined.
