(* ===== verification/Startup.v ===== *)
(** * Startup: what the configuration loop of loader/trace.go establishes

    [configure] fills the maps the BPF programs read.  On maps of the sizes
    bpf/recon.bpf.c declares, and for any order in which Go iterates over the
    offsets, the result satisfies the hypotheses of the end-to-end theorems of
    Pairing.v. *)

From S2P Require Import Prelude GoStr Strconv Target Schema Bpf Recon Wire FloatFmt Filters.
From S2P Require Import Decode CallArgs Modules Output Trace Pairing.

(** The maps as loaded, with the sizes of their declarations: the array map
    has its two elements from the start, at zero; the hash maps are empty. *)
Definition fresh_maps : kmaps hash_map :=
  KMaps (HashMap 2 {[0 := 0; 1 := 0]}) (HashMap 2048 ∅) (HashMap 2048 ∅) (HashMap 8192 ∅) (HashMap 4096 ∅).

(** An update with room left. *)
Lemma hash_update_room (m : hash_map) k v :
  (size (hm_data m) < hm_max m)%nat ->
  (map_update_elem m k v).1 = HashMap (hm_max m) (<[k := v]> (hm_data m)).
Proof.
  intros Hr. cbn [map_update_elem hash_map_ops]. destruct (hm_data m !! k); [done|].
  by rewrite (proj2 (Nat.ltb_lt _ _) Hr).
Qed.

Lemma size_insert_le {X} (m : gmap Z X) k v : (size (<[k := v]> m) <= S (size m))%nat.
Proof.
  destruct (m !! k) as [x|] eqn:E.
  - rewrite map_size_insert_Some by eauto. lia.
  - by rewrite map_size_insert_None.
Qed.

Section Configured.
Context {RE : Type} `{Regexp RE} (c : config) (f : filters RE).

Abbreviation km := (kmaps hash_map).

(** What one pass of the first loop leaves in the maps. *)
Definition slot_call (slot : Z) : option Z := isCallMethod (slotName slot).

Record slots_done (l : list (Z * Z)) (su su' : setup hash_map) : Prop := SlotsDone {
  sd_call : forall off slot mi, In (off, slot) l -> slot_call slot = Some mi ->
    map_lookup_elem (argkind (su_maps su')) off = Some (call_kind (slotName slot)) /\
    map_lookup_elem (argidx (su_maps su')) off = Some (u8 (mi + 1));
  sd_other : forall off, (forall slot, In (off, slot) l -> slot_call slot = None) ->
    map_lookup_elem (argkind (su_maps su')) off = map_lookup_elem (argkind (su_maps su)) off /\
    map_lookup_elem (argidx (su_maps su')) off = map_lookup_elem (argidx (su_maps su)) off;
  sd_rest : cfg (su_maps su') = cfg (su_maps su) /\ hasret (su_maps su') = hasret (su_maps su) /\
    depth (su_maps su') = depth (su_maps su);
  sd_calls : forall slot, slot ∈ callSet su' <->
    slot ∈ callSet su \/ exists off, In (off, slot) l /\ is_Some (slot_call slot);
  sd_rets : forall slot, slot ∈ retSet su' <->
    slot ∈ retSet su \/ exists off, In (off, slot) l /\ wants_return c f slot = true
}.

Definition room (n : nat) (k : km) : Prop :=
  (size (hm_data (argkind k)) + n <= hm_max (argkind k))%nat /\
  (size (hm_data (argidx k)) + n <= hm_max (argidx k))%nat.

(** One iteration. *)
Lemma configure_slot_done su off slot n :
  room (S n) (su_maps su) ->
  slots_done [(off, slot)] su (configure_slot c f su (off, slot)) /\
  room n (su_maps (configure_slot c f su (off, slot))).
Proof.
  intros [Hk Hi]. unfold configure_slot. fold (slot_call slot).
  assert (Hw : forall s, s ∈ (if wants_return c f slot then {[slot]} ∪ retSet su else retSet su) <->
    s ∈ retSet su \/ exists off', In (off', s) [(off, slot)] /\ wants_return c f s = true).
  { intros s. split.
    - destruct (wants_return c f slot) eqn:Ew; [|auto]. rewrite elem_of_union, elem_of_singleton.
      intros [->|?]; [right; exists off; split; [by left|done]|auto].
    - intros [Hs|(off' & [[= _ <-]|[]] & ->)]; [|set_solver].
      destruct (wants_return c f slot); set_solver. }
  destruct (slot_call slot) as [mi|] eqn:Ec; cbn [su_maps].
  - rewrite !hash_update_room by lia. split.
    + constructor; cbn [su_maps callSet retSet cfg argkind argidx hasret depth map_lookup_elem hash_map_ops hm_data].
      * intros off' slot' mi' [[= <- <-]|[]] E. rewrite Ec in E. injection E as <-.
        by rewrite !lookup_insert_eq.
      * intros off' Hno. assert (off <> off').
        { intros <-. specialize (Hno slot (or_introl eq_refl)). congruence. }
        by rewrite !lookup_insert_ne.
      * done.
      * intros s. rewrite elem_of_union, elem_of_singleton. split.
        -- intros [->|Hs]; [right|by left]. exists off. split; [by left|eauto].
        -- intros [Hs|(off' & [[= _ <-]|[]] & _)]; auto.
      * exact Hw.
    + split; cbn [argkind argidx hm_data hm_max];
        [pose proof (size_insert_le (hm_data (argkind (su_maps su))) off (call_kind (slotName slot)))
        |pose proof (size_insert_le (hm_data (argidx (su_maps su))) off (u8 (mi + 1)))]; lia.
  - split; [|split; lia]. constructor; cbn [su_maps callSet retSet]; try done.
    + intros off' slot' mi' [[= <- <-]|[]] E. congruence.
    + intros s. split; [by left|]. intros [Hs|(off' & [[= _ <-]|[]] & [? E])]; [done|congruence].
Qed.

(** The whole loop, for distinct offsets. *)
Lemma configure_slots_done l su :
  NoDup l.*1 -> room (length l) (su_maps su) ->
  slots_done l su (fold_left (configure_slot c f) l su).
Proof.
  revert su. induction l as [|[off slot] l IH]; intros su Hnd Hr; cbn [fold_left].
  { constructor; try done; intros s; (split; [by left|]; intros [?|(? & [] & _)]; done). }
  cbn [length] in Hr. destruct (configure_slot_done su off slot _ Hr) as [[C1 O1 R1 S1 T1] Hr1].
  cbn in Hnd. apply NoDup_cons in Hnd as [Hnot Hnd].
  destruct (IH _ Hnd Hr1) as [C2 O2 R2 S2 T2]. constructor.
  - intros off' slot' mi [E|Hin] Hc; [|by eapply C2]. injection E as <- <-.
    destruct (O2 off) as [-> ->].
    { intros s Hs. destruct Hnot. apply (in_map fst) in Hs. by apply list_elem_of_In. }
    by apply (C1 off slot mi (or_introl eq_refl)).
  - intros off' Hno. destruct (O2 off') as [-> ->]; [intros s Hs; apply Hno; by right|].
    apply O1. intros s [E|[]]. apply Hno. by left.
  - destruct R1 as (E1 & E2 & E3), R2 as (-> & -> & ->). done.
  - intros s. rewrite S2, S1. split.
    + intros [[Hs|(o & [E|[]] & Hi)]|(o & Hin & Hi)]; [by left| |]; right; exists o; (split; [|done]);
        [by left|by right].
    + intros [Hs|(o & [E|Hin] & Hi)]; [auto| |right; eauto]. left; right. exists o. split; [by left|done].
  - intros s. rewrite T2, T1. split.
    + intros [[Hs|(o & [E|[]] & Hi)]|(o & Hin & Hi)]; [by left| |]; right; exists o; (split; [|done]);
        [by left|by right].
    + intros [Hs|(o & [E|Hin] & Hi)]; [auto| |right; eauto]. left; right. exists o. split; [by left|done].
Qed.

(** The second loop. *)
Lemma configure_rets_done rs l (st : km * list Z) :
  (size (hm_data (hasret st.1)) + length l <= hm_max (hasret st.1))%nat ->
  let st' := fold_left (configure_ret rs) l st in
  (forall off, is_Some (map_lookup_elem (hasret st'.1) off) <->
     is_Some (map_lookup_elem (hasret st.1) off) \/ exists slot, In (off, slot) l /\ slot ∈ rs) /\
  cfg st'.1 = cfg st.1 /\ argkind st'.1 = argkind st.1 /\ argidx st'.1 = argidx st.1 /\
  depth st'.1 = depth st.1 /\
  st'.2 = st.2 ++ map fst (List.filter (fun p => bool_decide (p.2 ∈ rs)) l).
Proof.
  revert st. induction l as [|[off slot] l IH]; intros [k ro] Hr; cbn [fold_left List.filter map fst snd length] in *.
  { rewrite app_nil_r. split; [|done]. intros off. split; [by left|]. by intros [?|(? & [] & _)]. }
  unfold configure_ret at 2 4 6 8 10 12. cbn [fst snd]. case_bool_decide as Hin.
  - rewrite hash_update_room by lia.
    destruct (IH (KMaps (cfg k) (argkind k) (argidx k)
      (HashMap (hm_max (hasret k)) (<[off := 1]> (hm_data (hasret k)))) (depth k), ro ++ [off]))
      as (E & E1 & E2 & E3 & E4 & E5).
    { cbn [fst hasret hm_data hm_max]. pose proof (size_insert_le (hm_data (hasret k)) off 1). lia. }
    cbn [fst snd cfg argkind argidx depth hasret] in *. split.
    2:{ split; [done|]. split; [done|]. split; [done|]. split; [done|].
        rewrite E5, <- app_assoc. done. }
    intros o. rewrite E. cbn [map_lookup_elem hash_map_ops hm_data].
    destruct (Z.eq_dec off o) as [<-|Hne].
    + rewrite lookup_insert_eq. split; [intros _; right; exists slot; split; [by left|done]|left; eauto].
    + rewrite lookup_insert_ne by done. split.
      * intros [?|(s & ? & ?)]; [by left|right; exists s; split; [by right|done]].
      * intros [?|(s & [[= ? _]|?] & ?)]; [by left|done|right; eauto].
  - destruct (IH (k, ro)) as (E & E1 & E2 & E3 & E4 & E5); [cbn [fst]; lia|].
    cbn [fst snd] in *. split; [|done]. intros o. rewrite E. split.
    + intros [?|(s & ? & ?)]; [by left|right; exists s; split; [by right|done]].
    + intros [?|(s & [[= _ ->]|?] & ?)]; [by left|done|right; eauto].
Qed.
(** What [configure] leaves behind, map by map. *)
Record configure_result base (offsets : gmap Z Z) (su : setup hash_map) (ro : list Z) : Prop := ConfigureResult {
  cr_base : map_lookup_elem (cfg (su_maps su)) 0 = Some base;
  cr_stack : map_lookup_elem (cfg (su_maps su)) 1 = Some (if c_stack c then 1 else 0);
  cr_call : forall off slot mi, offsets !! off = Some slot -> slot_call slot = Some mi ->
    map_lookup_elem (argkind (su_maps su)) off = Some (call_kind (slotName slot)) /\
    map_lookup_elem (argidx (su_maps su)) off = Some (u8 (mi + 1));
  cr_other : forall off, (forall slot, offsets !! off = Some slot -> slot_call slot = None) ->
    map_lookup_elem (argkind (su_maps su)) off = None /\
    map_lookup_elem (argidx (su_maps su)) off = None;
  cr_hasret : forall off, is_Some (map_lookup_elem (hasret (su_maps su)) off) <->
    exists slot, offsets !! off = Some slot /\ slot ∈ retSet su;
  cr_depth : forall tid, map_lookup_elem (depth (su_maps su)) tid = None;
  cr_rets : forall slot, slot ∈ retSet su <->
    (exists off, offsets !! off = Some slot) /\ wants_return c f slot = true;
  cr_calls : forall slot, slot ∈ callSet su <->
    (exists off, offsets !! off = Some slot) /\ is_Some (slot_call slot);
  cr_links : ro ≡ₚ map fst (List.filter (fun p => bool_decide (p.2 ∈ retSet su)) (map_to_list offsets))
}.

(** A slot table in any order is the slot table. *)
Lemma in_slot_table (offsets : gmap Z Z) l off slot :
  l ≡ₚ map_to_list offsets -> In (off, slot) l <-> offsets !! off = Some slot.
Proof. intros P. rewrite <- list_elem_of_In, P. apply elem_of_map_to_list. Qed.

Lemma filter_perm {X} (g : X -> bool) l l' : l ≡ₚ l' -> List.filter g l ≡ₚ List.filter g l'.
Proof.
  induction 1 as [|x l l' _ IH|x y l|l l' l'' _ IH1 _ IH2]; cbn; [done| | |by rewrite IH1].
  - destruct (g x); by rewrite IH.
  - destruct (g x), (g y); try done. apply Permutation_swap.
Qed.

(** The declared map of the base has the key 0 from the start: the update
    succeeds. *)
Definition fresh_setup base l1 l2 : setup hash_map * list Z :=
  configure_rest c f (map_update_elem (cfg fresh_maps) 0 base).1 fresh_maps l1 l2.

Lemma configure_fresh base l1 l2 : configure c f base fresh_maps l1 l2 = Some (fresh_setup base l1 l2).
Proof. reflexivity. Qed.

Lemma configure_done base (offsets : gmap Z Z) l1 l2 r :
  l1 ≡ₚ map_to_list offsets -> l2 ≡ₚ map_to_list offsets -> (size offsets <= 2048)%nat ->
  configure c f base fresh_maps l1 l2 = Some r -> configure_result base offsets r.1 r.2.
Proof.
  intros P1 P2 Hsz Er. rewrite configure_fresh in Er. injection Er as <-.
  unfold fresh_setup, configure_rest. set (k1 := KMaps (if c_stack c then _ else _) _ _ _ _).
  assert (N1 : NoDup l1.*1) by (rewrite P1; apply NoDup_fst_map_to_list).
  assert (L1 : length l1 = size offsets) by (by rewrite P1, length_map_to_list).
  assert (L2 : length l2 = size offsets) by (by rewrite P2, length_map_to_list).
  assert (Hr : room (length l1) (su_maps (Setup ∅ ∅ k1))).
  { unfold room. subst k1. cbn. rewrite map_size_empty. lia. }
  destruct (configure_slots_done l1 (Setup ∅ ∅ k1) N1 Hr) as [C O (R1 & R2 & R3) S T].
  set (su := fold_left (configure_slot c f) l1 (Setup ∅ ∅ k1)) in *. cbn [su_maps callSet retSet] in *.
  destruct (configure_rets_done (retSet su) l2 (su_maps su, [])) as (E & E1 & E2 & E3 & E4 & E5).
  { cbn [fst]. rewrite R2. subst k1. cbn. rewrite map_size_empty. lia. }
  destruct (fold_left (configure_ret (retSet su)) l2 (su_maps su, [])) as [k2 ro]. cbn [fst snd app] in *.
  rewrite R2 in E. rewrite R3 in E4. rewrite R1 in E1.
  constructor; cbn [su_maps callSet retSet]; rewrite ?E1, ?E2, ?E3, ?E4.
  - subst k1. cbn. by destruct (c_stack c).
  - subst k1. cbn. by destruct (c_stack c).
  - intros off slot mi Ho. apply C. by apply (in_slot_table offsets).
  - intros off Hno. destruct (O off) as [-> ->]; [|subst k1; cbn; by rewrite lookup_empty].
    intros slot Hin. apply Hno. by apply (in_slot_table _ l1).
  - intros off. rewrite E. subst k1. cbn. rewrite lookup_empty.
    setoid_rewrite (fun slot => in_slot_table offsets l2 off slot P2). split; [|by right]. intros [[? ?]|?]; done.
  - intros tid. subst k1. cbn. by rewrite lookup_empty.
  - intros slot. rewrite T. setoid_rewrite (fun off => in_slot_table offsets l1 off slot P1).
    split.
    + intros [Hs|(off & Ho & Hw)]; [by apply not_elem_of_empty in Hs|eauto].
    + intros [[off Ho] Hw]. right. eauto.
  - intros slot. rewrite S. setoid_rewrite (fun off => in_slot_table offsets l1 off slot P1).
    split.
    + intros [Hs|(off & Ho & Hw)]; [by apply not_elem_of_empty in Hs|eauto].
    + intros [[off Ho] Hw]. right. eauto.
  - rewrite E5. by rewrite (filter_perm _ _ _ P2).
Qed.
End Configured.

(** ** Properties *)

Lemma call_kind_range nm : 1 <= call_kind nm <= 3.
Proof. unfold call_kind. destruct (HasSuffix nm "A"), (HasSuffix nm "V"); lia. Qed.

(** The two argument maps hold bytes. *)
Lemma configure_result_bytes {RE} `{Regexp RE} (c : config) (f : filters RE) base offsets su ro :
  configure_result c f base offsets su ro -> byte_values (su_maps su).
Proof.
  intros [_ _ C O _ _ _ _ _].
  assert (Hargs : forall off,
    (forall k, map_lookup_elem (argkind (su_maps su)) off = Some k -> fits 8 k) /\
    (forall k, map_lookup_elem (argidx (su_maps su)) off = Some k -> fits 8 k)).
  { intros off. destruct (offsets !! off) as [slot|] eqn:Eo; [destruct (slot_call slot) as [mi|] eqn:Ec|].
    - destruct (C off slot mi Eo Ec) as [-> ->]. split; intros k [= <-]; [|apply wrap_range; lia].
      pose proof (call_kind_range (slotName slot)). unfold fits. lia.
    - destruct (O off) as [-> ->]; [congruence|done].
    - destruct (O off) as [-> ->]; [congruence|done]. }
  split; intros off k; apply (Hargs off).
Qed.

(** The parameters of the event loop after the set-up. *)
Definition params_of (c : config) (offsets : gmap Z Z) (base : Z) (su : setup hash_map) : params :=
  Params c offsets base (callSet su) (retSet su).

(** ** What the set-up is for, by the position in the JNI function table *)

(** The call variants come in threes: with the arguments in the registers and
    on the stack (kind 3), with a va_list (kind 2), with an array of jvalue
    (kind 1).  The arguments follow the method id, which is the third
    parameter, or the fourth of the Nonvirtual functions: the index counts
    from 0.  [NewObjectArray] (172) has no arguments of this kind, but the
    code prepares it as the plain variants. *)
Definition variant_kind (n : Z) : Z := match n mod 3 with 0 => 3 | 1 => 2 | _ => 1 end.

Definition jni_variant (slot : Z) : option (Z * Z) :=
  if in_slots [(28, 30)] slot then Some (variant_kind (slot - 28), 3)
  else if in_slots [(34, 63)] slot then Some (variant_kind (slot - 34), 3)
  else if in_slots [(64, 93)] slot then Some (variant_kind (slot - 64), 4)
  else if in_slots [(114, 143)] slot then Some (variant_kind (slot - 114), 3)
  else if slot =? 172 then Some (3, 3)
  else None.

(** The functions whose results the loader learns from: FindClass,
    AllocObject, NewObject in its three variants, GetObjectClass, the four that
    return ids, NewStringUTF and GetStringUTFChars. *)
Definition learning_slots : list Z := [6; 27; 28; 29; 30; 31; 33; 94; 113; 144; 167; 169].

Lemma forall_slots (P : Z -> bool) :
  forallb (fun i => P (Z.of_nat i)) (seq 0 233) = true -> forall slot, 0 <= slot < 233 -> P slot = true.
Proof.
  rewrite forallb_forall. intros E slot Hs. specialize (E (Z.to_nat slot)).
  rewrite in_seq, Z2Nat.id in E by lia. apply E. lia.
Qed.

Lemma slot_call_variant slot : 0 <= slot < 233 ->
  jni_variant slot = (fun mi => (call_kind (slotName slot), mi + 1)) <$> slot_call slot.
Proof.
  intros Hs.
  assert (E : match jni_variant slot, slot_call slot with
              | Some (k, ix), Some mi => (k =? call_kind (slotName slot)) && (ix =? mi + 1)
              | None, None => true
              | _, _ => false
              end = true).
  { apply (forall_slots (fun slot => match jni_variant slot, slot_call slot with
      | Some (k, ix), Some mi => (k =? call_kind (slotName slot)) && (ix =? mi + 1)
      | None, None => true | _, _ => false end)); [vm_compute; reflexivity|exact Hs]. }
  destruct (jni_variant slot) as [[k ix]|], (slot_call slot) as [mi|]; cbn; try done.
  apply andb_true_iff in E as [->%Z.eqb_eq ->%Z.eqb_eq]. done.
Qed.

Lemma always_watched_slots slot : 0 <= slot < 233 -> always_watched (slotName slot) = true <-> In slot learning_slots.
Proof.
  intros Hs.
  assert (E : Bool.eqb (always_watched (slotName slot)) (existsb (Z.eqb slot) learning_slots) = true).
  { apply (forall_slots (fun slot => Bool.eqb (always_watched (slotName slot)) (existsb (Z.eqb slot) learning_slots)));
      [vm_compute; reflexivity|exact Hs]. }
  apply eqb_prop in E. rewrite E, existsb_exists. setoid_rewrite Z.eqb_eq. split.
  - by intros (x & Hin & ->).
  - intros Hin. by exists slot.
Qed.

Section Properties.
Context {RE : Type} `{Regexp RE}.

(** A slot is to have return probes. *)
Definition probed_back (c : config) (f : filters RE) (slot : Z) : Prop :=
  In slot learning_slots \/
  c_noReturns c = false /\ slotRet slot <> "void" /\ selected f slot /\ ~ names (exclude f) slot.

Lemma wants_return_spec (c : config) (f : filters RE) slot :
  0 <= slot < 233 -> wants_return c f slot = true <-> probed_back c f slot.
Proof.
  intros Hs. unfold wants_return, probed_back.
  rewrite orb_true_iff, !andb_true_iff, !negb_true_iff, (always_watched_slots slot Hs), (matchSlot_selects f slot Hs).
  destruct (String.eqb_spec (slotRet slot) "void"); intuition congruence.
Qed.

(** C12. The set-up configures what the probes and the loop rely on.  For a
    table of JNI slots that fits the maps (both loaders give slots from 0 to
    232), whatever order Go visits it in: the base is in
    place, and the switch for stacks as the options say; exactly the offsets
    of slots with a return probe are marked tracked, and those are the offsets
    the return probes go to; every call variant has the snapshot kind and the
    argument index its position in the JNI table asks for ([jni_variant]), and no other slot
    has any; and a slot has return probes iff it is one of the twelve the
    loader learns from, or [--no-returns] is not given, it returns a value, its
    group or name is selected, and its name is not excluded. *)
Theorem configure_establishes (c : config) (f : filters RE) base (offsets : gmap Z Z) l1 l2 :
  l1 ≡ₚ map_to_list offsets -> l2 ≡ₚ map_to_list offsets -> (size offsets <= 2048)%nat ->
  (forall off slot, offsets !! off = Some slot -> 0 <= slot < 233) ->
  exists su ro, configure c f base fresh_maps l1 l2 = Some (su, ro) /\
  let p := params_of c offsets base su in
  configured p (su_maps su) /\ calls_configured p (su_maps su) /\
  map_lookup_elem (cfg (su_maps su)) 1 = Some (if c_stack c then 1 else 0) /\
  (forall off, In off ro <-> exists slot, offsets !! off = Some slot /\ slot ∈ retSet su) /\
  (forall slot, slot ∈ retSet su <-> (exists off, offsets !! off = Some slot) /\ probed_back c f slot) /\
  (forall slot, slot ∈ callSet su <-> (exists off, offsets !! off = Some slot) /\ is_Some (jni_variant slot)) /\
  (forall off slot, offsets !! off = Some slot ->
     map_lookup_elem (argkind (su_maps su)) off = fst <$> jni_variant slot /\
     map_lookup_elem (argidx (su_maps su)) off = snd <$> jni_variant slot) /\
  (forall tid, height (su_maps su) tid = 0).
Proof.
  intros P1 P2 Hsz Hsl. exists (fresh_setup c f base l1 l2).1, (fresh_setup c f base l1 l2).2.
  split; [by rewrite configure_fresh, <- surjective_pairing|].
  pose proof (configure_done c f base offsets l1 l2 _ P1 P2 Hsz (configure_fresh c f base l1 l2)) as D.
  destruct (fresh_setup c f base l1 l2) as [su ro]. cbn [fst snd] in *.
  pose proof (configure_result_bytes c f base offsets su ro D) as Hby.
  destruct D as [Hcfg Hst C O Hh Hd Hret Hcs Hro].
  assert (Hidx : forall slot mi, slot_call slot = Some mi -> u8 (mi + 1) = mi + 1).
  { intros slot mi Hc. apply isCallMethod_range in Hc. apply wrap_small. unfold fits. lia. }
  split; [|split; [|split; [exact Hst|split; [|split; [|split; [|split]]]]]].
  - constructor; cbn [p_base p_offsets p_retSet params_of]; [done|exact Hh|exact Hby].
  - intros off slot mi Ho Hc. destruct (C off slot mi Ho Hc) as [-> ->]. by rewrite (Hidx slot mi Hc).
  - intros off. rewrite Hro, in_map_iff. setoid_rewrite filter_In. setoid_rewrite bool_decide_eq_true.
    split.
    + intros ([o s] & <- & Hin & Hs). exists s. split; [by apply (in_slot_table _ (map_to_list offsets))|done].
    + intros (s & Ho & Hs). exists (off, s). split; [done|]. split; [by apply (in_slot_table offsets)|done].
  - intros slot. rewrite Hret. split; intros [[off Ho] Hw]; (split; [by exists off|]);
      apply (wants_return_spec c f slot); eauto.
  - intros slot. rewrite Hcs. split; intros [[off Ho] Hw]; (split; [by exists off|]); revert Hw;
      rewrite (slot_call_variant slot) by eauto; by rewrite fmap_is_Some.
  - intros off slot Ho. rewrite (slot_call_variant slot) by eauto.
    destruct (slot_call slot) as [mi|] eqn:Ec.
    + destruct (C off slot mi Ho Ec) as [-> ->]. by rewrite (Hidx slot mi Ec).
    + apply O. intros s Hs. rewrite Ho in Hs. by injection Hs as <-.
  - intros tid. unfold height. by rewrite Hd.
Qed.
End Properties.

Definition demo_offsets : gmap Z Z := {[0x100 := 36; 0x200 := 35; 0x300 := 34; 0x500 := 171]}.
Definition demo_setup : setup hash_map * list Z :=
  fresh_setup demo_config demo_filters demo_base (map_to_list demo_offsets) (map_to_list demo_offsets).

Lemma configure_establishes_witness :
  exists su ro,
    configure demo_config demo_filters demo_base fresh_maps (map_to_list demo_offsets) (map_to_list demo_offsets) = Some (su, ro) /\
    configured (params_of demo_config demo_offsets demo_base su) (su_maps su) /\
    map_lookup_elem (argkind (su_maps su)) 0x200 = Some 2 /\ 34 ∈ retSet su.
Proof.
  destruct (configure_establishes demo_config demo_filters demo_base demo_offsets
    (map_to_list demo_offsets) (map_to_list demo_offsets)) as (su & ro & E & T1 & _ & _ & _ & T5 & _ & T7 & _).
  - reflexivity.
  - reflexivity.
  - vm_compute. lia.
  - intros off slot Ho. unfold demo_offsets in Ho. rewrite !lookup_insert_Some, lookup_singleton_Some in Ho. lia.
  - exists su, ro. split; [exact E|]. split; [exact T1|]. split.
    + apply (T7 0x200 35). vm_compute. reflexivity.
    + apply T5. split; [exists 0x300; vm_compute; reflexivity|]. right.
      split; [reflexivity|]. split; [vm_compute; discriminate|]. split.
      * left. vm_compute. reflexivity.
      * intros (x & a & b & [] & _).
Defined.
