(* ===== verification/CallTree.v ===== *)
(** * CallTree: the lines of a call

    Pairing shows that a return finds the frame of its call.  Here is what the
    reader of the output sees of it: the line of the return repeats the text
    and the indentation of the line of the entry, and tells the time between
    the two hits, whatever happened in between. *)

From S2P Require Import Prelude GoStr Strconv Bpf Recon Wire FloatFmt Schema Filters Decode Modules Output Trace Pairing Startup.

(** ** The two lines *)

Section Lines.
Context {RE : Type} `{Regexp RE}.
Context (p : params).

Definition plain_mode (c : config) : Prop := c_count c = false /\ c_jsonOut c = false.

Lemma emit_plain c counts line : plain_mode c -> emit c counts line = (counts, [line]).
Proof. intros [E1 E2]. unfold emit. by rewrite E1, E2. Qed.

(** Only call variants wait for their text. *)
Definition calls_only : Prop := forall slot, slot ∈ p_callSet p -> is_Some (isCallMethod (slotName slot)).

(** The line of an entry carries the text of the frame it leaves. *)
Lemma entry_line w (st : @lstate RE) e slot line stack :
  plain_mode (p_conf p) -> calls_only -> slot ∈ p_retSet p -> 0 <= Depth e ->
  (handleEntry p w st e slot).2 = line :: stack ->
  exists fr tag, l_frames (handleEntry p w st e slot).1 !! frame_key e = Some fr /\ fr_ts fr = Ts e /\
    line = indentStr (Depth e) ++s "-> " ++s fr_call fr ++s tag /\ (c_verbose (p_conf p) = false -> tag = "").
Proof.
  intros Hp Hc Hin Hd. unfold handleEntry. destruct (mc_of _ _ _ _ _) as [caller mc].
  rewrite bool_decide_eq_true_2 by done. rewrite (proj2 (Z.leb_le _ _)) by done. cbn [andb].
  set (fr := entry_frame p (l_cs st) (w_mem w) e slot caller).
  destruct (negb (matchSlot _ _)); [done|]. destruct (too_deep _ _); [done|].
  destruct (isCallMethod (slotName slot)) as [mi|] eqn:Ec.
  - destruct (describeCall _ _ _ _) as [call known]. destruct (splitClassMethod call) as [cls meth].
    rewrite lookup_insert_eq. destruct (_ && _); [|done]. rewrite emit_plain by done. cbn [fst snd l_frames app].
    intros [= <- _]. exists (set_call fr call), (verbose_tag (p_conf p) e caller).
    rewrite lookup_insert_eq. repeat split. intros Hv. unfold verbose_tag. by rewrite Hv.
  - destruct (matchLine _ _ _ _ _); [|done]. rewrite emit_plain by done. cbn [fst snd l_frames app].
    intros [= <- _]. exists fr, "". rewrite lookup_insert_eq. repeat split.
    unfold fr, entry_frame. cbn [fr_call]. rewrite bool_decide_eq_false_2.
    + by rewrite sapp_nil_r.
    + intros Hs. destruct (Hc slot Hs) as [mi Emi]. by rewrite Ec in Emi.
Qed.

(** The line of a return carries the text of the frame it takes. *)
Lemma return_line_text c (f : filters RE) mr e fs cs counts fr :
  plain_mode c -> 0 <= Depth e -> fs !! frame_key e = Some fr ->
  (handleReturn c f mr e fs cs counts).2 <> [] ->
  exists ret, (handleReturn c f mr e fs cs counts).2 =
    [indentStr (Depth e) ++s "<- " ++s fr_call fr ++s " = " ++s ret ++s "  (" ++s fmt_dur (u64 (Ts e - fr_ts fr)) ++s " ms)"].
Proof.
  intros Hp Hd Hfr. unfold handleReturn. destruct (Z.ltb_spec (Depth e) 0); [lia|]. rewrite Hfr.
  destruct (_ && _); [|done]. destruct (too_deep _ _); [done|]. destruct (splitClassMethod _) as [cls meth].
  destruct (matchLine _ _ _ _ _); [|done]. rewrite emit_plain by done. cbn [snd]. intros _.
  by eexists.
Qed.
End Lines.

(** ** Times *)

Section Times.
Context {M R U : Type} `{BpfMap M} `{PtRegs R} `{UserMem U}.

Lemma up_all_ts (s : kmaps M) (v : hit_env R U) e : (up_all s v).2 = Some e -> e_ts e = ktime_ns v.
Proof.
  unfold up_all. destruct (reserve v) as [g|]; [|done].
  destruct (map_lookup_elem (cfg s) 0) as [base|]; [|by intros [= <-]].
  destruct (map_lookup_elem (hasret s) _); cbv zeta.
  all: intros [= <-].
  all: repeat match goal with
    | |- context [match ?x with Some _ => _ | None => _ end] => destruct x
    | |- context [if ?b then set_stackid _ _ else _] => destruct b
    | |- context [if ?b then capture _ _ _ _ _ else _] => destruct b
    end; try reflexivity; unfold capture; repeat destruct (_ =? _); reflexivity.
Qed.

Lemma up_ret_ts (s : kmaps M) (v : hit_env R U) e : (up_ret s v).2 = Some e -> e_ts e = ktime_ns v.
Proof. unfold up_ret. destruct (reserve v); [|done]. by intros [= <-]. Qed.
End Times.

(** ** A frame stays while its call is open *)

Section Kept.
Context {M R U : Type} `{HM : BpfMapLaws M} `{HR : PtRegsLaws R} `{HU : UserMemLaws U}.
Context {RE : Type} `{Regexp RE} `{SortByCount}.
Context (order : gmap string Z -> list (string * Z)) (p : params).

Abbreviation sys := (@sys M RE).
Abbreviation sys_hit := (Pairing.sys_hit (M := M) (R := R) (U := U) (RE := RE) p).
Abbreviation sys_step := (Pairing.sys_step (M := M) (R := R) (U := U) (RE := RE) order p).

(** Steps during which the calls [l] of a thread, innermost first, stay open. *)
Inductive while_open (tid : Z) (l : list evt_t) : sys -> sys -> Prop :=
| while_refl s : while_open tid l s s
| while_step s s' s'' :
    while_open tid l s s' -> sys_step s' s'' -> l `suffix_of` stack_of (open s'') tid -> while_open tid l s s''.

(** What a delivered hit says to the loader. *)
Record delivered_event (h : @hit R U) (s : sys) (e : evt_t) : Prop := DeliveredEvent {
  de_event : (hit_step (kern s) h).2 = Some e;
  de_fits : evt_fits e;
  de_tid : e_tid e = hit_tid h;
  de_kind : match h with Entry v => e_kind e = 0 /\ e_ip e = PT_REGS_IP (regs v) | Return _ => e_kind e = 1 end;
  de_depth : e_depth e = (spec_step (tracked (kern s)) (fun _ => e) (open s) h).2
}.

Lemma sys_hit_event h old w (s s' : sys) out :
  Inv p s -> hit_ok h -> lossless (kern s) [h] = true ->
  Z.of_nat (length (stack_of (open s) (hit_tid h))) + 1 < 2 ^ 31 ->
  sys_hit h old w s = Some (s', out) ->
  exists e, delivered_event h s e /\ (user s', out) = loop_event p w (raw_sample old e) (user s) /\
    open s' = ghost_step (kern s) h e (open s).
Proof.
  intros (Hcf & Hds & _) Hok Hl Hb E. unfold Pairing.sys_hit in E.
  destruct (hit_step (kern s) h) as [k' [e|]] eqn:Eh; [|done].
  destruct (loop_event p w (raw_sample old e) (user s)) as [u' o] eqn:El. injection E as <- <-.
  destruct (hit_step_sim (fun _ => e) (kern s) (open s) h Hds Hl Hb) as (e' & He & _ & Hd & _).
  rewrite Eh in He. cbn [snd] in He. injection He as ->.
  assert (Hev : (hit_step (kern s) h).2 = Some e') by by rewrite Eh.
  destruct (hit_step_event (kern s) h e' Hev Hok (cf_bytes _ _ Hcf)) as (Hfit & Ht & Hkind).
  exists e'. split; [by constructor|]. by rewrite El.
Qed.

(** An event only touches the frame at its own key. *)
Lemma loop_event_other w old e (st : @lstate RE) k :
  evt_fits e -> k <> frame_key (go_evt e) ->
  l_frames (loop_event p w (raw_sample old e) st).1 !! k = l_frames st !! k.
Proof.
  intros Hfit Hk. pose proof (read_evt_raw old e (wf_evt_intro e Hfit)) as Hread.
  destruct (decide (passes p (Tid (go_evt e)))) as [Hp|Hp].
  2:{ by rewrite (loop_event_filtered _ _ _ _ _ Hread Hp). }
  rewrite (loop_event_passes _ _ _ _ _ Hread Hp). destruct (Kind (go_evt e) =? 1).
  - destruct (Depth (go_evt e) <? 0); [done|]. by apply lookup_delete_ne.
  - destruct (p_offsets p !! _) as [slot|]; [|done].
    destruct (handleEntry_frames p w (counted st) (go_evt e) slot) as [Hne _]. by apply Hne.
Qed.

Lemma step_keeps_frame (s s' : sys) tid e0 rest :
  Inv p s -> sys_step s s' -> fits 32 tid ->
  (e0 :: rest) `suffix_of` stack_of (open s) tid -> (e0 :: rest) `suffix_of` stack_of (open s') tid ->
  l_frames (user s') !! (s32 tid, Z.of_nat (length rest)) = l_frames (user s) !! (s32 tid, Z.of_nat (length rest)).
Proof.
  intros HI Hs Hf S1 S2. destruct Hs as [h old w s s' out Hok Hl Hb E|maps now s u' out E|line s u' out E].
  2-3: cbn [user]; erewrite loop_step_frames; eauto; done.
  destruct (sys_hit_event h old w s s' out HI Hok Hl Hb E) as (e & [_ Hfit Ht Hk Hd] & El & Eo).
  replace (user s') with (loop_event p w (raw_sample old e) (user s)).1 by by rewrite <- El.
  apply loop_event_other; [done|]. unfold frame_key. cbn [go_evt Tid Depth]. rewrite Ht. intros Ekey.
  apply key_inj in Ekey as [-> Ekey]; [|done|apply hit_tid_fits].
  apply suffix_length in S1, S2. cbn [length] in S1, S2. rewrite Hd in Ekey. rewrite Eo in S2.
  unfold ghost_step in S2. destruct h as [v|v]; cbn [spec_step hit_tid] in *.
  - destruct (tracked (kern s) v); cbn [snd] in Ekey; lia.
  - cbn [fst snd] in *. rewrite stack_of_insert_eq in S2. lia.
Qed.

Lemma while_open_keeps (s s' : sys) tid e0 rest :
  Inv p s -> while_open tid (e0 :: rest) s s' -> fits 32 tid ->
  (e0 :: rest) `suffix_of` stack_of (open s) tid ->
  Inv p s' /\ (e0 :: rest) `suffix_of` stack_of (open s') tid /\
  l_frames (user s') !! (s32 tid, Z.of_nat (length rest)) = l_frames (user s) !! (s32 tid, Z.of_nat (length rest)).
Proof.
  intros HI Hw Hf Hsuf. induction Hw as [s|s s1 s2 Hw IH Hst Hs2]; [done|].
  destruct (IH HI Hsuf) as (HI1 & Hs1 & E1). split; [by eapply sys_step_inv|]. split; [done|].
  rewrite <- E1. by eapply step_keeps_frame.
Qed.
End Kept.

(** ** Properties *)

(** The set-up makes no other slot wait for its text. *)
Lemma configure_calls_only {RE} `{Regexp RE} (c : config) (f : filters RE) base (offsets : gmap Z Z) l1 l2 :
  l1 ≡ₚ map_to_list offsets -> (size offsets <= 2048)%nat ->
  calls_only (params_of c offsets base (fresh_setup c f base l1 l2).1).
Proof.
  intros P1 Hsz slot. unfold fresh_setup, configure_rest. set (k1 := KMaps (if c_stack c then _ else _) _ _ _ _).
  assert (N1 : NoDup l1.*1) by (rewrite P1; apply NoDup_fst_map_to_list).
  assert (Hr : room (length l1) (su_maps (Setup ∅ ∅ k1))).
  { unfold room. subst k1. cbn. rewrite map_size_empty, P1, length_map_to_list. lia. }
  destruct (configure_slots_done c f l1 (Setup ∅ ∅ k1) N1 Hr) as [_ _ _ Hcalls _].
  destruct (fold_left (configure_ret _) l2 _) as [k2 ro]. cbn [fst params_of p_callSet callSet].
  rewrite Hcalls. cbn [callSet]. intros [Hs|(off & _ & Hs)]; [by apply not_elem_of_empty in Hs|exact Hs].
Qed.

Section LoopEvent.
Context {RE : Type} `{Regexp RE}.
Context (p : params).

Lemma loop_event_entry w old e (st : @lstate RE) slot :
  evt_fits e -> passes p (e_tid e) -> e_kind e = 0 -> p_offsets p !! u64 (e_ip e - p_base p) = Some slot ->
  loop_event p w (raw_sample old e) st = handleEntry p w (counted st) (go_evt e) slot.
Proof.
  intros Hfit Hp Hk Hs. unfold loop_event. rewrite (read_evt_raw old e (wf_evt_intro e Hfit)). cbv zeta.
  assert (negb (c_tid (p_conf p) =? 0) && negb (Tid (go_evt e) =? c_tid (p_conf p)) = false) as ->.
  { destruct Hp as [->|Hp]; [done|]. cbn [go_evt Tid]. by rewrite Hp, Z.eqb_refl, andb_false_r. }
  cbn [go_evt Kind Ip]. by rewrite Hk, Hs.
Qed.

Lemma loop_event_return w old e (st : @lstate RE) :
  evt_fits e -> passes p (e_tid e) -> e_kind e = 1 ->
  (loop_event p w (raw_sample old e) st).2 =
  (handleReturn (p_conf p) (l_filters st) (w_mem w) (go_evt e) (l_frames st) (l_cs st) (l_counts st)).2.
Proof.
  intros Hfit Hp Hk. unfold loop_event. rewrite (read_evt_raw old e (wf_evt_intro e Hfit)). cbv zeta.
  assert (negb (c_tid (p_conf p) =? 0) && negb (Tid (go_evt e) =? c_tid (p_conf p)) = false) as ->.
  { destruct Hp as [->|Hp]; [done|]. cbn [go_evt Tid]. by rewrite Hp, Z.eqb_refl, andb_false_r. }
  cbn [go_evt Kind l_filters l_frames l_cs l_counts]. rewrite Hk. change (1 =? 1) with true. cbv iota.
  by destruct (handleReturn _ _ _ _ _ _ _) as [[[fs cs] counts] out].
Qed.
End LoopEvent.

Section Halves.
Context {M R U : Type} `{HM : BpfMapLaws M} `{HR : PtRegsLaws R} `{HU : UserMemLaws U}.
Context {RE : Type} `{Regexp RE}.
Context (p : params).

(** The frame an open call has, by its time and text. *)
Definition frame_at (s : @sys M RE) (tid : Z) (enclosing : nat) (ts : Z) (text : string) : Prop :=
  exists fr, l_frames (user s) !! (s32 tid, Z.of_nat enclosing) = Some fr /\ fr_ts fr = ts /\ fr_call fr = text.

Lemma entry_half (s s1 : @sys M RE) (v : hit_env R U) old w line stack :
  let tid := u32 (pid_tgid v) in
  Inv p s -> plain_mode (p_conf p) -> calls_only p -> passes p tid ->
  tracked (kern s) v = true -> hit_ok (Entry v) -> lossless (kern s) [Entry v] = true ->
  Z.of_nat (length (stack_of (open s) tid)) + 1 < 2 ^ 31 ->
  sys_hit p (Entry v) old w s = Some (s1, line :: stack) ->
  Inv p s1 /\ (exists e, stack_of (open s1) tid = e :: stack_of (open s) tid) /\
  exists text tag, frame_at s1 tid (length (stack_of (open s) tid)) (ktime_ns v) text /\
    line = indentStr (Z.of_nat (length (stack_of (open s) tid))) ++s "-> " ++s text ++s tag /\
    (c_verbose (p_conf p) = false -> tag = "").
Proof.
  intros tid HI Hpl Hc Hp Htr Hok Hl Hb E.
  destruct (sys_hit_event p (Entry v) old w s s1 _ HI Hok Hl Hb E) as (e & [V F T [K I] D] & L & O).
  cbn [hit_tid] in T. fold tid in T. cbn [spec_step hit_tid] in D. rewrite Htr in D. cbn [snd] in D. fold tid in D.
  split; [exact (sys_hit_inv p _ _ _ _ _ _ HI Hok Hl Hb E)|]. split.
  { exists e. rewrite O. unfold ghost_step. cbn [spec_step hit_tid]. rewrite Htr. cbn [fst]. fold tid.
    by rewrite stack_of_insert_eq. }
  destruct (tracked_slot p (kern s) v (proj1 HI) Htr) as (slot & Hslot & Hin). rewrite <- I in Hslot.
  rewrite (loop_event_entry p w old e (user s) slot F) in L; [|by rewrite T|done|done].
  destruct (entry_line p w (counted (user s)) (go_evt e) slot line stack) as (fr & tag & Hfr & Hts & Hline & Htag);
    [done|done|done|cbn [go_evt Depth]; rewrite D; lia|by rewrite <- L|].
  rewrite <- L in Hfr. unfold frame_key in Hfr. cbn [fst go_evt Tid Depth Ts] in *. rewrite T, D in Hfr. rewrite D in Hline.
  rewrite (up_all_ts (kern s) v e V) in Hts. exists (fr_call fr), tag. split; [by exists fr|]. done.
Qed.

Lemma return_half (s s' : @sys M RE) (v : hit_env R U) old w out e0 rest ts text :
  let tid := u32 (pid_tgid v) in
  Inv p s -> plain_mode (p_conf p) -> passes p tid -> stack_of (open s) tid = e0 :: rest ->
  hit_ok (Return v) -> lossless (kern s) [Return v] = true -> Z.of_nat (length (e0 :: rest)) + 1 < 2 ^ 31 ->
  frame_at s tid (length rest) ts text ->
  sys_hit p (Return v) old w s = Some (s', out) -> out <> [] ->
  exists ret, out = [indentStr (Z.of_nat (length rest)) ++s "<- " ++s text ++s " = " ++s ret ++s "  (" ++s
                     fmt_dur (u64 (ktime_ns v - ts)) ++s " ms)"].
Proof.
  intros tid HI Hpl Hp Hst Hok Hl Hb (fr & Hfr & <- & <-) E Hne.
  assert (Hb1 : Z.of_nat (length (stack_of (open s) (hit_tid (Return v)))) + 1 < 2 ^ 31) by (cbn [hit_tid]; fold tid; by rewrite Hst).
  destruct (sys_hit_event p (Return v) old w s s' _ HI Hok Hl Hb1 E) as (e & [V F T K D] & L & _).
  cbn [hit_tid] in T. fold tid in T. cbn [spec_step hit_tid snd] in D. fold tid in D. rewrite Hst in D. cbn [tail] in D.
  assert (Hout : out = (loop_event p w (raw_sample old e) (user s)).2) by by rewrite <- L.
  rewrite (loop_event_return p w old e (user s) F) in Hout; [|by rewrite T|done]. rewrite Hout in Hne |- *.
  destruct (return_line_text (p_conf p) (l_filters (user s)) (w_mem w) (go_evt e) (l_frames (user s)) (l_cs (user s))
    (l_counts (user s)) fr Hpl) as [ret Hret]; [cbn [go_evt Depth]; rewrite D; lia| |done|].
  { unfold frame_key. cbn [go_evt Tid Depth]. by rewrite T, D. }
  exists ret. rewrite Hret. cbn [go_evt Depth Ts]. by rewrite D, (up_ret_ts (kern s) v e V).
Qed.
End Halves.

Section Properties.
Context {R U : Type} `{HR : PtRegsLaws R} `{HU : UserMemLaws U}.
Context {RE : Type} `{Regexp RE} `{SortByCount}.
Context (order : gmap string Z -> list (string * Z)).

(** C3. The two lines of a call belong together.  The tracer is set up for any
    options and any slot table that fits, and runs in plain mode.  A tracked
    function is entered while its thread has some calls open, and its line is
    printed; any calls, returns, reloads and commands follow while it stays
    open, no record being lost from the start; then it returns, and a line is printed.  Then both lines are indented
    by the number of calls that enclose it, the return repeats the text of the
    entry (which has the caller's address behind it under [--verbose]), and
    the duration it shows is the time between the two hits. *)
Theorem return_mirrors_entry (c : config) (f : filters RE) base (offsets : gmap Z Z) l1 l2 (st0 : @lstate RE)
    (s s1 s2 s3 : sys) (v1 v2 : hit_env R U) old1 old2 w1 w2 r line stack out :
  l1 ≡ₚ map_to_list offsets -> l2 ≡ₚ map_to_list offsets -> (size offsets <= 2048)%nat ->
  plain_mode c -> l_frames st0 = ∅ ->
  configure c f base fresh_maps l1 l2 = Some r ->
  let su := r.1 in
  let p := params_of c offsets base su in
  let tid := u32 (pid_tgid v1) in
  reachable (R := R) (U := U) order p (Sys (su_maps su) st0 ∅) s -> passes p tid ->
  tracked (kern s) v1 = true -> hit_ok (Entry v1) -> lossless (kern s) [Entry v1] = true ->
  Z.of_nat (length (stack_of (open s) tid)) + 2 < 2 ^ 31 ->
  sys_hit p (Entry v1) old1 w1 s = Some (s1, line :: stack) ->
  while_open (R := R) (U := U) order p tid (stack_of (open s1) tid) s1 s2 ->
  stack_of (open s2) tid = stack_of (open s1) tid ->
  u32 (pid_tgid v2) = tid -> hit_ok (Return v2) -> lossless (kern s2) [Return v2] = true ->
  sys_hit p (Return v2) old2 w2 s2 = Some (s3, out) -> out <> [] ->
  let indent := indentStr (Z.of_nat (length (stack_of (open s) tid))) in
  exists text tag ret,
    line = indent ++s "-> " ++s text ++s tag /\ (c_verbose c = false -> tag = "") /\
    out = [indent ++s "<- " ++s text ++s " = " ++s ret ++s "  (" ++s
           fmt_dur (u64 (ktime_ns v2 - ktime_ns v1)) ++s " ms)"].
Proof.
  intros P1 P2 Hsz Hpl Hf0 Er su p tid Hr Hp Htr Hok1 Hl1 Hb E1 Hw Hst2 Ht2 Hok2 Hl2 E2 Hne indent.
  pose proof (configure_done c f base offsets l1 l2 r P1 P2 Hsz Er) as D. fold su in D.
  pose proof (configure_result_bytes _ _ _ _ _ _ D) as Hby. destruct D as [Hcfg _ _ _ Hh Hd _ _ _].
  assert (HI : Inv p s).
  { eapply reachable_inv; [|exact Hr]. apply init_inv; [by constructor| |done]. intros t. unfold height. by rewrite Hd. }
  destruct (entry_half p s s1 v1 old1 w1 line stack HI Hpl) as (HI1 & [e Hs1] & text & tag & Hfr & Hline & Htag);
    [rewrite configure_fresh in Er; injection Er as <-; by apply configure_calls_only|done|done|done|done|fold tid; lia|done|].
  fold tid in Hs1, Hfr, Hline. rewrite Hs1 in Hw, Hst2.
  destruct (while_open_keeps order p s1 s2 tid e (stack_of (open s) tid) HI1 Hw) as (HI2 & _ & Hkeep);
    [apply wrap_range; lia|by rewrite Hs1|].
  assert (Hfr2 : frame_at s2 (u32 (pid_tgid v2)) (length (stack_of (open s) tid)) (ktime_ns v1) text).
  { rewrite Ht2. unfold frame_at. rewrite Hkeep. exact Hfr. }
  destruct (return_half p s2 s3 v2 old2 w2 out e (stack_of (open s) tid) (ktime_ns v1) text HI2 Hpl) as [ret Hret];
    [by rewrite Ht2|by rewrite Ht2|done|done|cbn [length]; lia|done|done|done|].
  by exists text, tag, ret.
Qed.
End Properties.

(** ** Example

    [FindClass], during which its thread makes a call of slot 34. *)

Definition tree_offsets : gmap Z Z := {[0x300 := 34; 0x600 := 6]}.
Definition tree_su : setup hash_map :=
  (fresh_setup demo_config demo_filters demo_base (map_to_list tree_offsets) (map_to_list tree_offsets)).1.
Definition tree_params : params := params_of demo_config tree_offsets demo_base tree_su.
Definition tree_init : @sys hash_map string := Sys (su_maps tree_su) demo_state ∅.

Definition tree_step (h : @hit user_pt_regs byte_mem) (s : @sys hash_map string) : @sys hash_map string * list string :=
  default (s, []) (sys_hit tree_params h (fun _ => byte_of 0) demo_world s).

Definition outer : hit_env user_pt_regs byte_mem := demo_hit 0x600 [0x10; 0x20; 0x30; 0] [] 1000000.
Definition inner : hit_env user_pt_regs byte_mem := demo_hit 0x300 [0x10; 0x21; 0x31; 5; 6] [] 2000000.
Definition inner_back : hit_env user_pt_regs byte_mem := demo_hit 0 [7] [] 3000000.
Definition outer_back : hit_env user_pt_regs byte_mem := demo_hit 0 [0x99] [] 4500000.

Definition tree1 := tree_step (Entry outer) tree_init.
Definition tree2 := tree_step (Entry inner) tree1.1.
Definition tree3 := tree_step (Return inner_back) tree2.1.
Definition tree4 := tree_step (Return outer_back) tree3.1.

Lemma tree_step_some h s :
  bool_decide (is_Some (sys_hit tree_params h (fun _ => byte_of 0) demo_world s)) = true ->
  sys_hit tree_params h (fun _ => byte_of 0) demo_world s = Some ((tree_step h s).1, (tree_step h s).2).
Proof.
  intros E. apply bool_decide_eq_true in E as [[s' out] E]. unfold tree_step. by rewrite E.
Qed.

Lemma tree_steps h s :
  hit_ok h -> lossless (kern s) [h] = true ->
  Z.of_nat (length (stack_of (open s) (hit_tid h))) + 1 < 2 ^ 31 ->
  bool_decide (is_Some (sys_hit tree_params h (fun _ => byte_of 0) demo_world s)) = true ->
  sys_step (R := user_pt_regs) (U := byte_mem) demo_order tree_params s (tree_step h s).1.
Proof. intros Hok Hl Hb E. eapply step_hit; [exact Hok|exact Hl|exact Hb|]. by apply tree_step_some. Qed.

Lemma return_mirrors_entry_witness :
  exists text ret, tree1.2 = ["-> " ++s text] /\ tree4.2 = ["<- " ++s text ++s " = " ++s ret ++s "  (3.500 ms)"].
Proof.
  assert (E1 : exists line, tree1.2 = [line]) by (eexists; vm_compute; reflexivity).
  destruct E1 as [line E1].
  assert (Hs1 : sys_hit tree_params (Entry outer) (fun _ => byte_of 0) demo_world tree_init = Some (tree1.1, tree1.2))
    by (apply tree_step_some; vm_compute; reflexivity).
  rewrite E1 in Hs1.
  assert (Hs4 : sys_hit tree_params (Return outer_back) (fun _ => byte_of 0) demo_world tree3.1 = Some (tree4.1, tree4.2))
    by (apply tree_step_some; vm_compute; reflexivity).
  assert (S1 : stack_of (open tree_init) 42 = []) by (vm_compute; reflexivity).
  assert (S2 : (length (stack_of (open tree1.1) 42) = 1)%nat) by (vm_compute; reflexivity).
  destruct (return_mirrors_entry demo_order demo_config demo_filters demo_base tree_offsets
    (map_to_list tree_offsets) (map_to_list tree_offsets) demo_state tree_init tree1.1 tree3.1 tree4.1
    outer outer_back (fun _ => byte_of 0) (fun _ => byte_of 0) demo_world demo_world (fresh_setup demo_config demo_filters demo_base (map_to_list tree_offsets) (map_to_list tree_offsets))
    line [] tree4.2)
    as (text & tag & ret & T1 & T2 & T3).
  - reflexivity.
  - reflexivity.
  - vm_compute. lia.
  - split; reflexivity.
  - reflexivity.
  - exact (configure_fresh demo_config demo_filters demo_base _ _).
  - apply reach_refl.
  - left. reflexivity.
  - vm_compute. reflexivity.
  - apply demo_hit_fits. vm_compute. split; congruence.
  - vm_compute. reflexivity.
  - vm_compute. reflexivity.
  - exact Hs1.
  - eapply while_step; [eapply while_step; [apply while_refl| |]| |].
    + apply (tree_steps (Entry inner)); [apply demo_hit_fits; vm_compute; split; congruence| | |]; vm_compute; reflexivity.
    + assert (E : exists e, stack_of (open tree2.1) 42 = [e] ++ stack_of (open tree1.1) 42) by (eexists; vm_compute; reflexivity).
      destruct E as [e E]. exists [e]. exact E.
    + apply (tree_steps (Return inner_back)); [apply demo_hit_fits; vm_compute; split; congruence| | |]; vm_compute; reflexivity.
    + exists []. vm_compute. reflexivity.
  - vm_compute. reflexivity.
  - reflexivity.
  - apply demo_hit_fits. vm_compute. split; congruence.
  - vm_compute. reflexivity.
  - exact Hs4.
  - vm_compute. discriminate.
  - specialize (T2 eq_refl). subst tag. exists text, ret. split.
    + rewrite E1, T1. change (indentStr _) with EmptyString. by rewrite sapp_nil_r.
    + exact T3.
Defined.
