(* ===== verification/Session.v ===== *)
(** * Session: runProbe from the options to the last line

    [runProbe] composed of its parts: the start (Main), the set-up of the maps
    (Trace, Startup), the probes (Attach), the event loop (Trace) and the end.
    Then the whole system with nothing assumed to happen at once: the threads
    of the target interleave their helper calls, the events wait in the ring
    buffer, and the loader reads them whenever it does, between reloads and
    commands. *)

From S2P Require Import Prelude GoStr Strconv CTypes Target Schema Offsets Bpf Recon Wire FloatFmt Filters Main.
From S2P Require Import Decode CallArgs Modules Output Trace Pairing Attach Startup Helpers Concurrent.

(** ** The whole of runProbe *)

(** What the kernel answers: whether the BPF objects load and libart opens, the
    probes, the ring buffer's reader. *)
Record kernel := Kernel {
  k_loads : bool;
  k_maps : kmaps hash_map;   (* the maps as loaded; [fresh_maps] is what is declared *)
  k_uprobe : Z -> option Z;
  k_uretprobe : Z -> option Z;
  k_reader : bool
}.

(** The orders in which Go visits the offsets in its three loops. *)
Record visits := Visits {
  visit_setup : gmap Z Z -> list (Z * Z);
  visit_returns : gmap Z Z -> list (Z * Z);
  visit_attach : gmap Z Z -> list (Z * Z)
}.

(** How the process ends: by an error, without end, by the command [quit], or
    when the ring buffer is closed, with the links closed then. *)
Inductive outcome :=
| Exit (printed : list string) (code : Z)
| Endless
| Quit (printed : list string)
| Finished (printed : list string) (closed : list Z).

Section Session.
Context {RE : Type} `{Regexp RE} `{SortByCount}.
Context (quoted_q : string -> string) (iter : gmap string string -> list (string * string)).
Context (order : gmap string Z -> list (string * Z)) (visit : visits).

Definition go_bool (b : bool) : string := if b then "true" else "false".

(** The second and third line. *)
Definition options_line (c : config) : string :=
  "[*] modes=" ++s c_modes c ++s " only=" ++s quoted_q (c_only c) ++s " exclude=" ++s quoted_q (c_exclude c) ++s
  " grep=" ++s quoted_q (c_grep c) ++s " from=" ++s quoted_q (c_from c) ++s " verbose=" ++s go_bool (c_verbose c) ++s
  " count=" ++s go_bool (c_count c) ++s " stack=" ++s go_bool (c_stack c).

Definition commands_line : string :=
  "[*] interactive: only <re> | from <so> | grep <str> | mode <m> | clear | stats | quit  (Ctrl-C to stop)".

(** What is printed before the BPF objects are loaded: the usage when there is no
    process, or the line of the table scan. *)
Definition usage_lines : list string :=
  ["usage: jniprobe -p <pid> | -n <name> [options]"; "run `jniprobe -h` for flags"].

Definition scan_line (o : os) (c : config) (pid : Z) : list string :=
  if String.eqb (c_offsets c) "" || String.eqb (c_offsets c) "auto" then
    match offsetsFromScan pid (os_maps o pid) (os_maps o pid) (os_mem o pid) with
    | Some (inr (out, tables)) =>
        ["[*] auto-offsets: " ++s FormatInt (Z.of_nat tables) 10 ++s " candidate table(s), " ++s
         FormatInt (Z.of_nat (size out)) 10 ++s " slot offsets"]
    | _ => []
    end
  else [].

Definition start_lines (o : os) (c : config) : list string :=
  match choose_pid quoted_q o c with
  | inr code => if code =? 2 then usage_lines else []
  | inl pid => scan_line o c pid
  end.

(** The loader's state when the loop starts; the maps file and the clock are
    those of the first reload. *)
Definition initial_state (f : filters RE) (pid : Z) (maps : option string) (now : Z) : @lstate RE :=
  LState f (mc_reload (ModCache [] ∅ 0 0) pid maps now) newCaches ∅ ∅ 0.

Definition runProbe (o : os) (k : kernel) (now : Z) (c : config) (acts : list action) : outcome :=
  match runProbe_start quoted_q iter o c with
  | ExitStart code => Exit (start_lines o c) code
  | Hangs => Endless
  | Started pid offsets base f =>
      if negb (k_loads k) then Exit (start_lines o c) 1
      else
        match configure c f base (k_maps k) (visit_setup visit offsets) (visit_returns visit offsets) with
        | None => Exit (start_lines o c) 1
        | Some (su, retOffsets) =>
        match session_of (k_uprobe k) (k_uretprobe k) (k_reader k) pid (c_libart c) base
                (map fst (visit_attach visit offsets)) retOffsets with
        | Exits code => Exit (start_lines o c) code
        | Runs line closed =>
            let '(st, out, quit) :=
              loop_run order (params_of c offsets base su) acts (initial_state f pid (os_maps o pid) now) in
            let printed := start_lines o c ++ [line; options_line c; commands_line] ++ out in
            if quit then Quit printed else Finished (printed ++ finish order st) closed
        end
        end
  end.
End Session.

(** ** The loader behind the kernel *)

(** The loader's actions that read the events [es], in this order, with any
    reloads and commands in between. *)
Inductive reads : list evt_t -> list action -> Prop :=
| reads_nil : reads [] []
| reads_event e es old w acts : reads es acts -> reads (e :: es) (AEvent w (raw_sample old e) :: acts)
| reads_reload es maps now acts : reads es acts -> reads es (AReload maps now :: acts)
| reads_command es line acts : reads es acts -> reads es (ACommand line :: acts).

Section Follows.
Context {M R U : Type} `{HM : BpfMapLaws M} `{HR : PtRegsLaws R} `{HU : UserMemLaws U}.
Context {RE : Type} `{Regexp RE} `{SortByCount}.
Context (order : gmap string Z -> list (string * Z)) (p : params).

(** The calls open after the hits [hs] whose events are [es]; hits without an
    event yet are left out. *)
Definition open_calls (k : kmaps M) (op : stacks evt_t) (hs : list (@hit R U)) (es : list evt_t) : stacks evt_t :=
  fold_left (fun st x => ghost_step k x.1 x.2 st) (combine hs es) op.

Lemma open_calls_config (k k' : kmaps M) op (hs : list (@hit R U)) es :
  cfg k' = cfg k -> hasret k' = hasret k -> open_calls k' op hs es = open_calls k op hs es.
Proof.
  intros E1 E2. unfold open_calls. revert op. induction (combine hs es) as [|[h e] l IH]; intros op; [done|].
  cbn [fold_left fst snd]. rewrite IH. f_equal. unfold ghost_step.
  destruct h as [v|v]; cbn [spec_step]; by rewrite ?(tracked_config _ _ v E1 E2).
Qed.

(** However far behind it is, the loader's frames are the calls open after the
    hits whose events it has read. *)
Lemma loader_follows es acts :
  reads es acts ->
  forall (k : kmaps M) (st st' : @lstate RE) op (hs : list (@hit R U)) out,
  Inv p (Sys k st op) -> lossless k hs = true -> Forall hit_ok hs ->
  (forall tid, Z.of_nat (length (stack_of op tid) + length hs) < 2 ^ 31) ->
  es `prefix_of` (run k hs).2 -> loop_run order p acts st = (st', out, false) ->
  frames_sim p (l_frames st') (open_calls k op hs es).
Proof.
  induction 1 as [|e es old w acts Hr IH|es maps now acts Hr IH|es line acts Hr IH];
    intros k st st' op hs out HI Hl Hok Hb Hpre Hrun.
  - cbn in Hrun. injection Hrun as <- _. unfold open_calls. rewrite combine_nil. apply HI.
  - destruct hs as [|h hs]; [cbn [run snd] in Hpre; by apply prefix_nil_inv in Hpre|]. apply Forall_cons in Hok as [Hh Hok].
    assert (Hl2 : lossless k [h] = true /\ lossless (hit_step k h).1 hs = true).
    { cbn [lossless] in Hl |- *. apply andb_true_iff in Hl as [-> ->]. split; reflexivity. }
    destruct Hl2 as [Hl1 Hl2]. destruct HI as (Hcf & Hds & Hfs).
    assert (Hb1 : Z.of_nat (length (stack_of op (hit_tid h))) + 1 < 2 ^ 31).
    { pose proof (Hb (hit_tid h)) as Hb1. cbn [length] in Hb1. lia. }
    destruct (hit_step_sim (fun _ => e) k op h Hds Hl1 Hb1) as (e' & He & _).
    cbn [run] in Hpre. destruct (hit_step k h) as [k' o] eqn:Ek. cbn [fst snd] in *. subst o.
    destruct (run k' hs) as [k2 es2] eqn:Er. cbn [snd] in Hpre.
    apply prefix_cons_inv_1 in Hpre as He'. subst e'. apply prefix_cons_inv_2 in Hpre.
    cbn [loop_run loop_step] in Hrun. destruct (loop_event p w (raw_sample old e) st) as [u o1] eqn:El.
    destruct (loop_run order p acts u) as [[st2 o2] quit] eqn:Elr. injection Hrun as -> _ ->.
    change (frames_sim p (l_frames st') (open_calls k (ghost_step k h e op) hs es)).
    destruct (hit_step_config k h) as (Ec & _ & _ & Eh). rewrite Ek in Ec, Eh. cbn [fst] in Ec, Eh.
    rewrite <- (open_calls_config k k') by done. eapply IH; [|exact Hl2|exact Hok| |by rewrite Er|exact Elr].
    + apply (sys_hit_inv p h old w (Sys k st op) _ o1); [by split|exact Hh|exact Hl1|exact Hb1|].
      unfold sys_hit. cbn [kern user open]. by rewrite Ek, El.
    + intros tid. specialize (Hb tid). pose proof (spec_step_length (tracked k) (fun _ => e) op h tid) as Hs.
      unfold ghost_step. cbn [length] in Hb. lia.
  - cbn [loop_run loop_step] in Hrun.
    destruct (loop_run order p acts _) as [[st2 o2] quit] eqn:Elr. injection Hrun as -> _ ->.
    refine (IH k _ st' op hs _ _ Hl Hok Hb Hpre Elr). exact HI.
  - cbn [loop_run] in Hrun. destruct (loop_step order p (ACommand line) st) as [[u o1]|] eqn:El; [|done].
    destruct (loop_run order p acts u) as [[st2 o2] quit] eqn:Elr. injection Hrun as -> _ ->.
    refine (IH k u st' op hs _ _ Hl Hok Hb Hpre Elr). destruct HI as (Hcf & Hds & Hfs).
    split; [exact Hcf|]. split; [exact Hds|]. cbn [user open].
    rewrite (loop_step_frames order p (ACommand line) st u o1); [exact Hfs|done|exact El].
Qed.
End Follows.

(** ** The events counted *)

(** The samples among the loader's actions that decode. *)
Definition readable (a : action) : bool :=
  match a with
  | AEvent _ raw => match read_evt raw with Some _ => true | None => false end
  | _ => false
  end.

Section Counting.
Context {RE : Type} `{Regexp RE} `{SortByCount}.
Context (order : gmap string Z -> list (string * Z)) (p : params).

Lemma handleEntry_total w (st : @lstate RE) e slot : l_total (handleEntry p w st e slot).1 = l_total st.
Proof.
  unfold handleEntry. destruct (mc_of _ _ _ _ _) as [caller mc].
  destruct (negb (matchSlot _ _)); [done|]. destruct (too_deep _ _); [done|].
  destruct (isCallMethod _).
  - destruct (describeCall _ _ _ _) as [call known]. destruct (splitClassMethod call) as [cls meth].
    destruct ((known || _) && _); [by destruct (emit _ _ _)|done].
  - destruct (matchLine _ _ _ _ _); [by destruct (emit _ _ _)|done].
Qed.

Lemma loop_step_total a (st u : @lstate RE) out :
  loop_step order p a st = Some (u, out) -> l_total u = l_total st + (if readable a then 1 else 0).
Proof.
  destruct a as [w raw|maps now|line]; cbn [loop_step readable].
  - intros [= E]. replace u with (loop_event p w raw st).1 by by rewrite E. unfold loop_event.
    destruct (read_evt raw) as [e|]; [|cbn; lia]. destruct (_ && _); [done|]. destruct (Kind e =? 1).
    + by destruct (handleReturn _ _ _ _ _ _ _) as [[[fs cs] counts] o].
    + destruct (p_offsets p !! _); [|done]. by rewrite handleEntry_total.
  - intros [= <- _]. cbn. lia.
  - unfold command_step. destruct (String.eqb _ _); [intros [= <- _]; lia|].
    destruct (applyCommand _ _); intros [= <- _]; cbn; lia.
Qed.

Lemma loop_run_total acts (st st' : @lstate RE) out :
  loop_run order p acts st = (st', out, false) ->
  l_total st' = l_total st + Z.of_nat (length (List.filter readable acts)).
Proof.
  revert st out. induction acts as [|a acts IH]; intros st out; cbn [loop_run List.filter].
  { intros [= <- _]. cbn. lia. }
  destruct (loop_step order p a st) as [[u o1]|] eqn:El; [|done].
  destruct (loop_run order p acts u) as [[st2 o2] quit] eqn:Elr. intros [= -> _ ->].
  apply loop_step_total in El. rewrite (IH _ _ Elr), El. destruct (readable a); cbn [length]; lia.
Qed.
End Counting.

(** ** Properties *)

Section Properties.
Context {R U : Type} `{HR : PtRegsLaws R} `{HU : UserMemLaws U}.
Context {RE : Type} `{Regexp RE} `{SortByCount}.
Context (order : gmap string Z -> list (string * Z)).

(** The tracer as a whole.  Start from the maps as loaded and set up for any
    options and any slot table that fits; let the threads of the target run
    their hits with the helper calls interleaved in any way; let the loader,
    as late as it likes and between any reloads and commands, have read any
    beginning of the events the ring buffer delivers.  Then, as long as nothing
    is lost, its frames are exactly the calls open after the hits whose events
    it has read: every open call of a thread it shows has a frame with that
    call's slot, time and arguments, and it keeps no other. *)
Theorem session_frames (c : config) (f : filters RE) base (offsets : gmap Z Z) l1 l2
    (scripts : gmap Z (list (@hit R U))) r ts m es acts pid maps now st out :
  l1 ≡ₚ map_to_list offsets -> l2 ≡ₚ map_to_list offsets -> (size offsets <= 2048)%nat ->
  configure c f base fresh_maps l1 l2 = Some r ->
  let su := r.1 in
  let p := params_of c offsets base su in
  (forall t sc, scripts !! t = Some sc -> Forall (fun h => hit_tid h = t) sc) ->
  recon_schedule ts (recon_start (su_maps su) scripts) = Some m ->
  c_lost m = false -> lossless (su_maps su) (hits m) = true -> Forall hit_ok (hits m) ->
  Z.of_nat (length (hits m)) < 2 ^ 31 ->
  es `prefix_of` delivered (c_ring m) -> reads es acts ->
  loop_run order p acts (initial_state f pid maps now) = (st, out, false) ->
  frames_sim p (l_frames st) (open_calls (su_maps su) ∅ (hits m) es).
Proof.
  intros P1 P2 Hsz Er su p Hsc Hs Hlost Hl Hok Hlen Hpre Hr Hrun.
  pose proof (configure_done c f base offsets l1 l2 r P1 P2 Hsz Er) as D. fold su in D.
  pose proof (configure_result_bytes _ _ _ _ _ _ D) as Hby. destruct D as [Hcfg _ _ _ Hh Hd _ _ _].
  destruct (schedule_ok (su_maps su) scripts ts m Hsc Hs Hlost Hl) as [_ _ C3 _ _ _].
  pose proof (delivered_prefix _ _ C3) as Hdel.
  eapply (loader_follows order p es acts Hr (su_maps su) _ st ∅ (hits m)); try done.
  - apply init_inv; [by constructor| |done]. intros tid. unfold height. by rewrite Hd.
  - by etrans.
Qed.
End Properties.

(** A target of two threads, each in one call of slot 34; the loader has read
    three of the four events, with a reload before each. *)
Definition demo_su : setup hash_map :=
  (fresh_setup demo_config demo_filters demo_base (map_to_list demo_offsets) (map_to_list demo_offsets)).1.

Definition demo_machine := recon_schedule demo_turns (recon_start (su_maps demo_su) demo_scripts).
Definition demo_events : list evt_t :=
  match demo_machine with Some m => take 3 (delivered (c_ring m)) | None => [] end.
Definition demo_actions : list action :=
  flat_map (fun e => [AReload None 0; AEvent demo_world (raw_sample (fun _ => zero_byte) e)]) demo_events.

Lemma reads_reloading es :
  reads es (flat_map (fun e => [AReload None 0; AEvent demo_world (raw_sample (fun _ => zero_byte) e)]) es).
Proof. induction es as [|e es IH]; cbn; [constructor|]. apply reads_reload, reads_event, IH. Qed.

Lemma demo_thread_fits tid off : 0 <= tid < 100 -> hit_fits (demo_thread_hit tid off).
Proof.
  intros Ht. split; [intros g [= <-]; apply junk_fits; lia|]. unfold fits. cbn [demo_thread_hit pid_tgid ktime_ns]. lia.
Qed.

Lemma session_frames_witness :
  let run := loop_run demo_order (params_of demo_config demo_offsets demo_base demo_su) demo_actions
    (initial_state demo_filters 41 None 0) in
  length demo_events = 3%nat /\ l_frames run.1.1 !! (42, 0) = None /\ l_frames run.1.1 !! (43, 0) <> None.
Proof.
  assert (H3 : length demo_events = 3%nat) by (vm_compute; reflexivity). intros run.
  assert (Hq : run.2 = false) by (vm_compute; reflexivity).
  destruct run as [[st out] quit] eqn:Er. cbn in Hq. subst quit.
  destruct demo_machine as [m|] eqn:Em; [|vm_compute in Em; discriminate].
  assert (Hm : match demo_machine with
    | Some m => c_lost m = false /\ lossless (su_maps demo_su) (hits m) = true /\
        hits m = [Entry (demo_thread_hit 42 0x300); Entry (demo_thread_hit 43 0x300);
                  Return (demo_thread_hit 42 0x500); Return (demo_thread_hit 43 0x500)]
    | None => False end) by (vm_compute; tauto).
  rewrite Em in Hm. destruct Hm as (M1 & M2 & M3).
  assert (Hs : frames_sim (params_of demo_config demo_offsets demo_base demo_su) (l_frames st)
    (open_calls (su_maps demo_su) ∅ (hits m) demo_events)).
  { eapply (session_frames demo_order demo_config demo_filters demo_base demo_offsets
      (map_to_list demo_offsets) (map_to_list demo_offsets) demo_scripts demo_setup demo_turns m demo_events demo_actions 41 None 0).
    - reflexivity.
    - reflexivity.
    - vm_compute; lia.
    - exact (configure_fresh demo_config demo_filters demo_base _ _).
    - intros t sc Hsc. apply elem_of_list_to_map_2, list_elem_of_In in Hsc.
      destruct Hsc as [Hsc|[Hsc|[]]]; injection Hsc as <- <-; repeat constructor.
    - exact Em.
    - exact M1.
    - exact M2.
    - rewrite M3. pose proof (demo_thread_fits 42 0x300 ltac:(lia)) as F1. pose proof (demo_thread_fits 43 0x300 ltac:(lia)) as F2.
      pose proof (demo_thread_fits 42 0x500 ltac:(lia)) as F3. pose proof (demo_thread_fits 43 0x500 ltac:(lia)) as F4.
      constructor; [exact F1|constructor; [exact F2|constructor; [exact F3|constructor; [exact F4|constructor]]]].
    - rewrite M3. vm_compute. reflexivity.
    - unfold demo_events. rewrite Em. apply prefix_take.
    - apply reads_reloading.
    - exact Er. }
  rewrite M3 in Hs. split; [exact H3|]. clear Er Em.
  set (calls := open_calls _ _ _ _) in Hs.
  assert (O1 : open_at calls 42 0 = None) by (vm_compute; reflexivity).
  assert (O2 : exists e, open_at calls 43 0 = Some e) by (vm_compute; eexists; reflexivity).
  clearbody calls. destruct O2 as [e O2].
  assert (Hp : forall tid, passes (params_of demo_config demo_offsets demo_base demo_su) tid)
    by (intros tid; left; reflexivity).
  pose proof (Hs 42 0 ltac:(unfold fits; lia) (Hp 42)) as S1.
  pose proof (Hs 43 0 ltac:(unfold fits; lia) (Hp 43)) as S2.
  change (s32 42) with 42 in S1. change (s32 43) with 43 in S2. rewrite O1 in S1. rewrite O2 in S2.
  cbn [fst]. split.
  - destruct (l_frames st !! (42, 0)); [destruct S1|reflexivity].
  - intros E. rewrite E in S2. exact S2.
Defined.

(** ** How a session ends *)

Section Ends.
Context {RE : Type} `{Regexp RE} `{SortByCount}.
Context (quoted_q : string -> string) (iter : gmap string string -> list (string * string)).
Context (order : gmap string Z -> list (string * Z)) (visit : visits).

(** The lines a session prints first, and the links it holds, for the slot
    table and the return probes of its set-up. *)
Definition opening (k : kernel) (c : config) pid base (offsets : gmap Z Z) (ro : list Z) : list string :=
  let offs := map fst (visit_attach visit offsets) in
  ["[*] jniprobe: pid=" ++s FormatInt pid 10 ++s " libart=" ++s c_libart c ++s " base=" ++s hex0x base ++s
     " slots=" ++s FormatInt (Z.of_nat (size offsets)) 10 ++s " probes=" ++s FormatInt (Z.of_nat (size offsets)) 10 ++s
     "(+" ++s FormatInt (Z.of_nat (length (omap (k_uretprobe k) ro))) 10 ++s " ret)";
   options_line quoted_q c; commands_line].

(** C28. How a run of the tracer ends, whatever the kernel answers.  It exits with
    1 or 2 having printed at most the usage or the line of the table scan; or
    it goes on from there with its three opening lines, which say how many slots were resolved, and then either stops at once on
    [quit] or, when the ring buffer is closed, reports exactly the number of
    samples it could decode, prints the totals and closes every link it opened,
    those of the entry probes and those of the return probes of the slots
    selected.  It never hangs when libart is mapped in user space. *)
Theorem runProbe_ends (o : os) (k : kernel) now (c : config) (acts : list action) :
  (forall pid rs, libartDataRanges (os_maps o pid) = inr rs -> Forall user_range rs) ->
  (forall offsets, visit_attach visit offsets ≡ₚ map_to_list offsets) ->
  match runProbe quoted_q iter order visit o k now c acts with
  | Exit printed code => (code = 1 \/ code = 2) /\ printed = start_lines quoted_q o c
  | Endless => False
  | Quit printed =>
      exists pid base offsets ro, (start_lines quoted_q o c ++ opening k c pid base offsets ro) `prefix_of` printed
  | Finished printed closed =>
      exists pid offsets base f counts mid su ro,
        runProbe_start quoted_q iter o c = Started pid offsets base f /\
        configure c f base (k_maps k) (visit_setup visit offsets) (visit_returns visit offsets) = Some (su, ro) /\
        printed = start_lines quoted_q o c ++ opening k c pid base offsets ro ++ mid ++
          [""; "[*] done: " ++s FormatInt (Z.of_nat (length (List.filter readable acts))) 10 ++s " events"] ++
          printStats order counts 25 /\
        closed = omap (k_uprobe k) (map fst (visit_attach visit offsets)) ++ omap (k_uretprobe k) ro
  end.
Proof.
  intros Hu Hv. pose proof (runProbe_start_ends quoted_q iter o c Hu) as Hs. unfold runProbe.
  destruct (runProbe_start quoted_q iter o c) as [pid offsets base f|code|]; [|by split|exact Hs].
  destruct (k_loads k); cbn [negb]; [|by split; [left|]].
  destruct (configure _ _ _ _ _ _) as [[su ro]|] eqn:Ec; [|by split; [left|]]. unfold session_of. destruct (k_reader k); [|by split; [left|]].
  destruct (loop_run _ _ _ _) as [[st out] quit] eqn:El.
  assert (Hline : [banner pid (c_libart c) base (length (map fst (visit_attach visit offsets)))
      (attach (k_uprobe k) (k_uretprobe k) (map fst (visit_attach visit offsets)) ro);
      options_line quoted_q c; commands_line] = opening k c pid base offsets ro).
  { destruct (attach_reports (k_uprobe k) (k_uretprobe k) pid (c_libart c) base (map fst (visit_attach visit offsets)) ro)
      as (_ & Er & Ea & _).
    unfold banner, opening. rewrite Er, Ea, length_map, Hv, length_map_to_list. done. }
  rewrite Hline. destruct quit.
  - exists pid, base, offsets, ro. rewrite app_assoc. by apply prefix_app_r.
  - exists pid, offsets, base, f, (l_counts st), out, su, ro. split; [done|]. split; [exact Ec|].
    destruct (attach_reports (k_uprobe k) (k_uretprobe k) pid (c_libart c) base (map fst (visit_attach visit offsets)) ro)
      as (-> & _). split; [|done].
    apply loop_run_total in El. unfold finish. rewrite El. by rewrite <- !app_assoc.
Qed.
End Ends.

Definition demo_visits : visits := Visits map_to_list map_to_list map_to_list.

(** Every entry probe attaches and no return probe does; three samples arrive. *)
Lemma runProbe_ends_witness :
  match runProbe (fun s => s) map_to_list demo_order demo_visits demo_os
          (Kernel true fresh_maps Some (fun _ => None) true) 0 demo_config demo_actions with
  | Finished printed closed => In "[*] done: 3 events" printed /\ (100 <= length closed)%nat
  | _ => False
  end.
Proof.
  pose proof (runProbe_ends (fun s => s) map_to_list demo_order demo_visits demo_os
    (Kernel true fresh_maps Some (fun _ => None) true) 0 demo_config demo_actions) as T.
  assert (H : match runProbe (fun s => s) map_to_list demo_order demo_visits demo_os
    (Kernel true fresh_maps Some (fun _ => None) true) 0 demo_config demo_actions with
    | Finished _ closed => (100 <=? length closed)%nat = true | _ => False end) by (vm_compute; reflexivity).
  destruct (runProbe _ _ _ _ _ _ _ _ _) as [early code| |printed|printed closed]; [destruct H|destruct H|destruct H|].
  destruct T as (pid & offsets & base & f & counts & mid & su & ro & _ & _ & T1 & _).
  - intros pid' rs E. vm_compute in E. injection E as <-. constructor.
  - intros offsets. reflexivity.
  - split; [|by apply Nat.leb_le]. rewrite T1. rewrite !in_app_iff. right. right. right. left. right. left.
    vm_compute. reflexivity.
Defined.
