(* ===== verification/Goroutines.v ===== *)
(** * Goroutines: the loader's goroutines one critical section at a time

    In Trace an event, a reload and a command are each one step.  In the
    program three goroutines share the filters and the module cache, each
    behind a mutex, and the counts, behind none.  Here the handling of an event
    is a tree of its accesses to what is shared, and reloads and commands happen
    between any two of them; [stats] takes time, and a write to the counts
    meanwhile is a race. *)

From S2P Require Import Helpers Concurrent.
From S2P Require Import Prelude GoStr Strconv CTypes Target Schema Bpf Recon Wire FloatFmt Filters.
From S2P Require Import Decode Modules Output Trace Pairing Attach Startup Session.

(** ** Handlers *)

Section Goroutines.
Context {RE : Type} `{Regexp RE} `{SortByCount}.
Context (order : gmap string Z -> list (string * Z)) (p : params).

Abbreviation frames := (gmap (Z * Z) frame).
Abbreviation lstate := (@lstate RE).

(** What the event loop does to the shared state; its frames and caches are its
    own and are left behind at the end.  [OfFirst] and [OfReload] are the two
    critical sections of [modCache.of]. *)
Inductive handler :=
| Leave (fs : frames) (cs : caches)
| OfFirst (addr now : Z) (k : string -> bool -> handler)
| OfReload (addr : Z) (maps : option string) (now : Z) (k : string -> handler)
| TestSlot (slot : Z) (k : bool -> handler)
| TestLine (cls meth line caller : string) (k : bool -> handler)
| Emit (line : string) (k : handler)
| LookUp (addr : Z) (k : string * Z -> handler)
| Print (line : string) (k : handler).

Definition stack_text (ind : string) (i : nat) (a : Z) (module : string * Z) : string :=
  ind ++s "   #" ++s FormatInt (Z.of_nat i) 10 ++s " " ++s
  (if nonempty module.1 then module.1 ++s "+" ++s hex0x (u64 (a - module.2)) else hex0x a).

Fixpoint stack_frames (ind : string) (i : nat) (addrs : list Z) (k : handler) : handler :=
  match addrs with
  | [] => k
  | a :: addrs' => LookUp a (fun module => Print (stack_text ind i a module) (stack_frames ind (S i) addrs' k))
  end.

Definition stack_handler (c : config) (stack : Z -> option (list Z)) (ind : string) (id lr : Z) (k : handler) : handler :=
  if negb (c_stack c) || c_count c || (id <? 0) then k
  else match stack id with
       | None => k
       | Some buf => stack_frames ind 0 (stack_addrs buf lr) k
       end.

Definition of_handler (addr : Z) (w : world) (k : string -> handler) : handler :=
  OfFirst addr (w_now w) (fun name stale =>
    if String.eqb name "" && stale then OfReload addr (w_maps w) (w_later w) k else k name).

Definition entry_handler (w : world) (fs : frames) (cs : caches) (e : reconEvt) (slot : Z) : handler :=
  let c := p_conf p in
  let mr := w_mem w in
  let nm := slotName slot in
  of_handler (Caller e) w (fun caller =>
  let fs :=
    if bool_decide (slot ∈ p_retSet p) && (0 <=? Depth e)
    then <[frame_key e := entry_frame p cs mr e slot caller]> fs
    else fs in
  let shown text k := Emit text (stack_handler c (w_stack w) (indentStr (Depth e)) (Stackid e) (Caller e) k) in
  TestSlot slot (fun ok =>
  if negb ok then Leave fs cs
  else if too_deep c e then Leave fs cs
  else
    match isCallMethod nm with
    | Some _ =>
        let '(call, known) := describeCall e nm cs mr in
        let fs := match fs !! frame_key e with
                  | Some fr => <[frame_key e := set_call fr call]> fs
                  | None => fs
                  end in
        let '(cls, meth) := splitClassMethod call in
        if known || c_verbose c then
          TestLine cls meth call caller (fun ok =>
            if ok then shown (indentStr (Depth e) ++s "-> " ++s call ++s verbose_tag c e caller) (Leave fs cs)
            else Leave fs cs)
        else Leave fs cs
    | None =>
        let line := nm ++s "(" ++s renderGeneric e slot cs mr ++s ")" in
        TestLine "" nm line caller (fun ok =>
          if ok then shown (indentStr (Depth e) ++s "-> " ++s line) (Leave fs cs)
          else Leave fs cs)
    end)).

Definition return_handler (w : world) (fs : frames) (cs : caches) (e : reconEvt) : handler :=
  let c := p_conf p in
  let mr := w_mem w in
  if Depth e <? 0 then Leave fs cs
  else
    match fs !! frame_key e with
    | None => Leave fs cs
    | Some fr =>
        let fs := delete (frame_key e) fs in
        let cs := learn cs mr fr (Rc e) in
        TestSlot (fr_slot fr) (fun ok =>
          if ok && nonempty (fr_call fr) then
            if too_deep c e then Leave fs cs
            else
              let ret := fmtRet cs mr (slotRet (fr_slot fr)) (Rc e) in
              let '(cls, meth) := splitClassMethod (fr_call fr) in
              TestLine cls meth (fr_call fr ++s ret) (fr_caller fr) (fun ok =>
                if ok then Emit (return_line cs mr fr e) (Leave fs cs) else Leave fs cs)
          else Leave fs cs)
    end.

(** The body of the loop after the sample is decoded. *)
Definition event_handler (w : world) (e : reconEvt) (fs : frames) (cs : caches) : handler :=
  let c := p_conf p in
  if negb (c_tid c =? 0) && negb (Tid e =? c_tid c) then Leave fs cs
  else if Kind e =? 1 then return_handler w fs cs e
  else
    match p_offsets p !! u64 (Ip e - p_base p) with
    | None => Leave fs cs
    | Some slot => entry_handler w fs cs e slot
    end.

(** ** One access, and a handler undisturbed *)

Definition set_mc (st : lstate) (mc : modCache) : lstate :=
  LState (l_filters st) mc (l_cs st) (l_frames st) (l_counts st) (l_total st).
Definition set_counts (st : lstate) (counts : gmap string Z) : lstate :=
  LState (l_filters st) (l_mc st) (l_cs st) (l_frames st) counts (l_total st).
Definition set_filters (st : lstate) (f : filters RE) : lstate :=
  LState f (l_mc st) (l_cs st) (l_frames st) (l_counts st) (l_total st).
Definition set_own (st : lstate) (fs : frames) (cs : caches) : lstate :=
  LState (l_filters st) (l_mc st) cs fs (l_counts st) (l_total st).
Definition count_event (st : lstate) : lstate :=
  LState (l_filters st) (l_mc st) (l_cs st) (l_frames st) (l_counts st) (l_total st + 1).

(** The handler left, if any, the state and the lines printed. *)
Definition hstep (h : handler) (st : lstate) : option handler * lstate * list string :=
  match h with
  | Leave fs cs => (None, set_own st fs cs, [])
  | OfFirst addr now k =>
      (Some (k (moduleOf (mc_ranges (l_mc st)) addr) (300000000 <? now - mc_last (l_mc st))), st, [])
  | OfReload addr maps now k =>
      let '(r, b) := loadModules maps in
      (Some (k (moduleOf r addr)), set_mc st (ModCache r b (mc_pid (l_mc st)) now), [])
  | TestSlot slot k => (Some (k (matchSlot (l_filters st) slot)), st, [])
  | TestLine cls meth line caller k => (Some (k (matchLine (l_filters st) cls meth line caller)), st, [])
  | Emit line k =>
      let '(counts, out) := emit (p_conf p) (l_counts st) line in (Some k, set_counts st counts, out)
  | LookUp addr k => (Some (k (mc_lookup (l_mc st) addr)), st, [])
  | Print line k => (Some k, st, [line])
  end.

Fixpoint alone (h : handler) (st : lstate) : lstate * list string :=
  match h with
  | Leave fs cs => (set_own st fs cs, [])
  | OfFirst addr now k =>
      alone (k (moduleOf (mc_ranges (l_mc st)) addr) (300000000 <? now - mc_last (l_mc st))) st
  | OfReload addr maps now k =>
      let '(r, b) := loadModules maps in
      alone (k (moduleOf r addr)) (set_mc st (ModCache r b (mc_pid (l_mc st)) now))
  | TestSlot slot k => alone (k (matchSlot (l_filters st) slot)) st
  | TestLine cls meth line caller k => alone (k (matchLine (l_filters st) cls meth line caller)) st
  | Emit line k =>
      let '(counts, out) := emit (p_conf p) (l_counts st) line in
      let '(st', out') := alone k (set_counts st counts) in (st', out ++ out')
  | LookUp addr k => alone (k (mc_lookup (l_mc st) addr)) st
  | Print line k => let '(st', out') := alone k st in (st', line :: out')
  end.

(** ** The three goroutines *)

Inductive move :=
| Take (w : world) (raw : list byte)      (* the event loop reads a sample *)
| Step                                    (* it makes its next access *)
| Reload (maps : option string) (now : Z)
| Command (line : string)                 (* a command is typed; stats begins to read the counts *)
| Answer (torn : list string).            (* stats has read them and prints, [torn] after a race *)

(** [g_reading]: the command goroutine is in [printStats].  [g_raced]: the event
    loop wrote to the counts meanwhile.  Go gives such a run no meaning: its
    runtime may abort the process, and what [stats] prints is arbitrary. *)
Record gstate := GState {
  g_st : lstate;
  g_now : option handler;
  g_out : list string;                    (* printed by the event loop *)
  g_echo : list string;                   (* printed by the command goroutine *)
  g_reading : bool;
  g_raced : bool
}.

Definition idle (st : lstate) : gstate := GState st None [] [] false false.

(** The commands that read the counts. *)
Definition reads_counts (f : filters RE) (line : string) : bool :=
  match applyCommand f (TrimSpace line) with CmdStats => true | _ => false end.

(** The accesses that write to them. *)
Definition writes_counts (h : handler) : bool :=
  c_count (p_conf p) && match h with Emit _ _ => true | _ => false end.

(** [None] when the goroutine cannot make the move, or the process exits. *)
Definition gstep (m : move) (g : gstate) : option gstate :=
  let st := g_st g in
  match m with
  | Take w raw =>
      match g_now g, read_evt raw with
      | Some _, _ => None
      | None, None => Some g
      | None, Some e =>
          Some (GState (count_event st) (Some (event_handler w e (l_frames st) (l_cs st)))
                  (g_out g) (g_echo g) (g_reading g) (g_raced g))
      end
  | Step =>
      h ← g_now g;
      let '(h', st', out) := hstep h st in
      Some (GState st' h' (g_out g ++ out) (g_echo g) (g_reading g) (g_raced g || g_reading g && writes_counts h))
  | Reload maps now =>
      Some (GState (set_mc st (mc_reload (l_mc st) (mc_pid (l_mc st)) maps now)) (g_now g)
              (g_out g) (g_echo g) (g_reading g) (g_raced g))
  | Command line =>
      if g_reading g then None
      else if reads_counts (l_filters st) line
      then Some (GState st (g_now g) (g_out g) (g_echo g) true (g_raced g))
      else '(st', echo) ← command_step order line st;
           Some (GState st' (g_now g) (g_out g) (g_echo g ++ echo) false (g_raced g))
  | Answer torn =>
      if g_reading g
      then Some (GState st (g_now g) (g_out g)
                   (g_echo g ++ if g_raced g then torn else printStats order (l_counts st) 25) false (g_raced g))
      else None
  end.

Fixpoint grun (ms : list move) (g : gstate) : option gstate :=
  match ms with
  | [] => Some g
  | m :: ms' => g' ← gstep m g; grun ms' g'
  end.

(** ** Undisturbed, the handler does what one step of Trace does *)

Lemma stack_alone ind i addrs k (st : lstate) :
  alone (stack_frames ind i addrs k) st =
  let '(st', out) := alone k st in (st', imap (fun j => stack_line (l_mc st) ind (i + j)) addrs ++ out).
Proof.
  revert i. induction addrs as [|a addrs IH]; intros i; cbn [stack_frames alone imap]; [by destruct (alone k st)|].
  rewrite IH. destruct (alone k st) as [st' out]. cbn [app]. f_equal. f_equal.
  - unfold stack_text, stack_line. rewrite Nat.add_0_r. by destruct (mc_lookup _ _).
  - f_equal. apply imap_ext. intros j x _. cbn. by rewrite Nat.add_succ_r.
Qed.

Lemma stack_handler_alone c stack ind id lr fs cs (st : lstate) :
  alone (stack_handler c stack ind id lr (Leave fs cs)) st =
  (set_own st fs cs, printStack c (l_mc st) stack ind id lr).
Proof.
  unfold stack_handler, printStack. destruct (_ || _); [done|]. destruct (stack id) as [buf|]; [|done].
  rewrite stack_alone. cbn. by rewrite app_nil_r.
Qed.

Lemma of_alone addr w k (st : lstate) :
  alone (of_handler addr w k) st =
  let '(name, mc) := mc_of (l_mc st) addr (w_maps w) (w_now w) (w_later w) in alone (k name) (set_mc st mc).
Proof.
  unfold of_handler, mc_of. cbn [alone]. destruct (String.eqb _ _ && _); cbn [alone].
  - by destruct (loadModules _).
  - by destruct st.
Qed.

Lemma entry_alone w (st : lstate) e slot :
  alone (entry_handler w (l_frames st) (l_cs st) e slot) st = handleEntry p w st e slot.
Proof.
  unfold entry_handler, handleEntry. rewrite of_alone. destruct (mc_of _ _ _ _ _) as [caller mc].
  cbn [alone set_mc l_filters]. destruct (matchSlot _ slot); [|done]. cbn [negb].
  destruct (too_deep _ e); [done|]. destruct (isCallMethod _).
  - destruct (describeCall _ _ _ _) as [call known]. destruct (splitClassMethod call) as [cls meth].
    destruct (known || _); [|done]. cbn [alone set_mc l_filters andb].
    destruct (matchLine _ _ _ _ _); [|done]. cbn [alone set_mc l_counts].
    destruct (emit _ _ _) as [counts out]. by rewrite stack_handler_alone.
  - cbn [alone set_mc l_filters]. destruct (matchLine _ _ _ _ _); [|done]. cbn [alone set_mc l_counts].
    destruct (emit _ _ _) as [counts out]. by rewrite stack_handler_alone.
Qed.

Lemma return_alone w (st : lstate) e :
  alone (return_handler w (l_frames st) (l_cs st) e) st =
  let '(fs, cs, counts, out) :=
    handleReturn (p_conf p) (l_filters st) (w_mem w) e (l_frames st) (l_cs st) (l_counts st) in
  (LState (l_filters st) (l_mc st) cs fs counts (l_total st), out).
Proof.
  unfold return_handler, handleReturn. destruct (Depth e <? 0); [done|].
  destruct (l_frames st !! _) as [fr|]; [|done]. cbn [alone].
  destruct (matchSlot _ _ && _); [|done]. destruct (too_deep _ _); [done|].
  destruct (splitClassMethod _) as [cls meth]. cbn [alone].
  destruct (matchLine _ _ _ _ _); [|done]. cbn [alone].
  destruct (emit _ _ _) as [counts out]. cbn [alone]. by rewrite app_nil_r.
Qed.

Lemma event_alone w raw e (st : lstate) :
  read_evt raw = Some e ->
  alone (event_handler w e (l_frames st) (l_cs st)) (count_event st) = loop_event p w raw st.
Proof.
  intros E. unfold event_handler, loop_event. rewrite E. destruct (negb _ && _); [done|].
  destruct (Kind e =? 1); [exact (return_alone w (count_event st) e)|].
  destruct (p_offsets p !! _) as [slot|]; [exact (entry_alone w (count_event st) e slot)|done].
Qed.
End Goroutines.

(** ** Runs of moves *)

Section Runs.
Context {RE : Type} `{Regexp RE} `{SortByCount}.
Context (order : gmap string Z -> list (string * Z)) (p : params).

Abbreviation frames := (gmap (Z * Z) frame).
Abbreviation lstate := (@lstate RE).
Abbreviation grun := (grun order p).

Inductive steps : handler -> lstate -> option handler -> lstate -> list string -> Prop :=
| steps_nil h st : steps h st (Some h) st []
| steps_end h st st' out : hstep p h st = (None, st', out) -> steps h st None st' out
| steps_cons h st h1 st1 o1 h2 st2 o2 :
    hstep p h st = (Some h1, st1, o1) -> steps h1 st1 h2 st2 o2 -> steps h st h2 st2 (o1 ++ o2).

Lemma hstep_alone h (st : lstate) :
  alone p h st =
  match hstep p h st with
  | (None, st', out) => (st', out)
  | (Some h1, st1, o1) => let '(st', out) := alone p h1 st1 in (st', o1 ++ out)
  end.
Proof.
  destruct h; cbn [alone hstep]; try (by destruct (alone _ _ _)); [done| |].
  - destruct (loadModules _). by destruct (alone _ _ _).
  - destruct (emit _ _ _) as [counts out]. by destruct (alone _ _ _).
Qed.

(** However it is cut, the handler's work is the same as long as nobody else moves. *)
Lemma steps_alone h (st : lstate) h' st' out :
  steps h st h' st' out ->
  alone p h st =
  match h' with
  | None => (st', out)
  | Some h1 => let '(st2, o2) := alone p h1 st' in (st2, out ++ o2)
  end.
Proof.
  induction 1 as [h st|h st st' out E|h st h1 st1 o1 h2 st2 o2 E Hs IH].
  - by destruct (alone p h st).
  - by rewrite hstep_alone, E.
  - rewrite hstep_alone, E, IH. destruct h2 as [h2|]; [|done]. clear IH. destruct (alone p h2 st2). by rewrite app_assoc.
Qed.

Lemma grun_app ms1 ms2 (g : gstate) : grun (ms1 ++ ms2) g = g' ← grun ms1 g; grun ms2 g'.
Proof.
  revert g. induction ms1 as [|m ms1 IH]; intros g; [done|]. cbn. destruct (gstep _ _ m g); [apply IH|done].
Qed.

(** Left alone, it comes to its end. *)
Lemma steps_finish h (st : lstate) out echo raced :
  exists n, grun (repeat Step n) (GState st (Some h) out echo false raced) =
            Some (GState (alone p h st).1 None (out ++ (alone p h st).2) echo false raced).
Proof.
  revert st out. induction h as [fs cs|addr now k IH|addr maps now k IH|slot k IH|cls meth line caller k IH
                                |line k IH|addr k IH|line k IH]; intros st out.
  - exists 1%nat. cbn. by rewrite orb_false_r.
  - destruct (IH (moduleOf (mc_ranges (l_mc st)) addr) (300000000 <? now - mc_last (l_mc st)) st out) as [n E].
    exists (S n). cbn. by rewrite app_nil_r, orb_false_r.
  - cbn [alone]. destruct (loadModules maps) as [r b] eqn:El.
    destruct (IH (moduleOf r addr) (set_mc st (ModCache r b (mc_pid (l_mc st)) now)) out) as [n E].
    exists (S n). cbn. rewrite El. cbn. by rewrite app_nil_r, orb_false_r.
  - destruct (IH (matchSlot (l_filters st) slot) st out) as [n E]. exists (S n). cbn. by rewrite app_nil_r, orb_false_r.
  - destruct (IH (matchLine (l_filters st) cls meth line caller) st out) as [n E]. exists (S n). cbn. by rewrite app_nil_r, orb_false_r.
  - cbn [alone]. destruct (emit (p_conf p) (l_counts st) line) as [counts o] eqn:Ee.
    destruct (IH (set_counts st counts) (out ++ o)) as [n E]. exists (S n). cbn. rewrite Ee. cbn. rewrite orb_false_r, E.
    destruct (alone p k _). cbn. by rewrite app_assoc.
  - destruct (IH (mc_lookup (l_mc st) addr) st out) as [n E]. exists (S n). cbn. by rewrite app_nil_r, orb_false_r.
  - destruct (IH st (out ++ [line])) as [n E]. exists (S n). cbn. rewrite orb_false_r, E.
    destruct (alone p k st). cbn. by rewrite <- app_assoc.
Qed.

(** One more access after some. *)
Lemma steps_snoc h (st : lstate) h1 st1 o1 h2 st2 o2 :
  steps h st (Some h1) st1 o1 -> hstep p h1 st1 = (h2, st2, o2) -> steps h st h2 st2 (o1 ++ o2).
Proof.
  intros Hs. remember (Some h1) as r eqn:Er. revert h1 Er.
  induction Hs as [h st|h st st' out E|h st h' st' o' h'' st'' o'' E Hs IH]; intros h1 Er E1; try done.
  - injection Er as ->. cbn [app]. destruct h2 as [h2|]; [|by constructor].
    rewrite <- (app_nil_r o2). eapply steps_cons; [exact E1|constructor].
  - rewrite <- app_assoc. eapply steps_cons; [exact E|]. by apply (IH h1).
Qed.
End Runs.

(** ** What the event loop keeps for itself *)

Section Own.
Context {RE : Type} `{Regexp RE} `{SortByCount}.
Context (order : gmap string Z -> list (string * Z)) (p : params).

Abbreviation frames := (gmap (Z * Z) frame).
Abbreviation lstate := (@lstate RE).

(** A frame without its texts, the only parts that depend on filters and modules. *)
Definition blank (fr : frame) : frame :=
  Frame (fr_slot fr) (fr_ts fr) "" "" (fr_a1 fr) (fr_a2 fr) (fr_a3 fr).
Definition blanks (fs : frames) : frames := blank <$> fs.

Definition own_event (w : world) (e : reconEvt) (fs : frames) (cs : caches) : frames * caches :=
  let c := p_conf p in
  if negb (c_tid c =? 0) && negb (Tid e =? c_tid c) then (fs, cs)
  else if Kind e =? 1 then
    if Depth e <? 0 then (fs, cs)
    else match fs !! frame_key e with
         | None => (fs, cs)
         | Some fr => (delete (frame_key e) fs, learn cs (w_mem w) fr (Rc e))
         end
  else match p_offsets p !! u64 (Ip e - p_base p) with
       | None => (fs, cs)
       | Some slot =>
           (if bool_decide (slot ∈ p_retSet p) && (0 <=? Depth e)
            then <[frame_key e := blank (entry_frame p cs (w_mem w) e slot "")]> fs else fs, cs)
       end.

Definition own_sample (x : frames * caches * Z) (s : world * list byte) : frames * caches * Z :=
  match read_evt s.2 with
  | None => x
  | Some e => (own_event s.1 e x.1.1 x.1.2, x.2 + 1)
  end.

Definition sample_of (m : move) : option (world * list byte) :=
  match m with Take w raw => Some (w, raw) | _ => None end.
Definition samples (ms : list move) : list (world * list byte) := omap sample_of ms.

Definition sample_read (a : action) : option (world * list byte) :=
  match a with AEvent w raw => Some (w, raw) | _ => None end.
Definition samples_read (acts : list action) : list (world * list byte) := omap sample_read acts.

(** Every way the handler can end satisfies [Q]. *)
Fixpoint ends (Q : frames -> caches -> Prop) (h : handler) : Prop :=
  match h with
  | Leave fs cs => Q fs cs
  | OfFirst _ _ k => forall name stale, ends Q (k name stale)
  | OfReload _ _ _ k => forall name, ends Q (k name)
  | TestSlot _ k | TestLine _ _ _ _ k => forall b, ends Q (k b)
  | Emit _ k | Print _ k => ends Q k
  | LookUp _ k => forall module, ends Q (k module)
  end.

Lemma stack_ends Q ind i addrs k : ends Q k -> ends Q (stack_frames ind i addrs k).
Proof. intros Hk. revert i. induction addrs as [|a addrs IH]; intros i; [exact Hk|]. intros module. apply IH. Qed.

Lemma stack_handler_ends (Q : frames -> caches -> Prop) c stack ind id lr fs cs :
  Q fs cs -> ends Q (stack_handler c stack ind id lr (Leave fs cs)).
Proof.
  intros HQ. unfold stack_handler. destruct (_ || _); [exact HQ|].
  destruct (stack id); [by apply stack_ends|exact HQ].
Qed.

Lemma learn_blank cs mr fr rc : learn cs mr (blank fr) rc = learn cs mr fr rc.
Proof. by destruct fr. Qed.

Lemma blanks_insert k fr fs : blanks (<[k := fr]> fs) = <[k := blank fr]> (blanks fs).
Proof. apply fmap_insert. Qed.
Lemma blanks_delete k fs : blanks (delete k fs) = delete k (blanks fs).
Proof. apply fmap_delete. Qed.

(** The text of a call may come later than its frame. *)
Lemma blanks_set_call fs k call :
  blanks (match fs !! k with Some fr => <[k := set_call fr call]> fs | None => fs end) = blanks fs.
Proof.
  destruct (fs !! k) as [fr|] eqn:E; [|done]. rewrite blanks_insert.
  change (blank (set_call fr call)) with (blank fr). apply insert_id. unfold blanks. by rewrite lookup_fmap, E.
Qed.

Lemma entry_ends w fs cs e slot :
  ends (fun fs' cs' => cs' = cs /\ blanks fs' =
          if bool_decide (slot ∈ p_retSet p) && (0 <=? Depth e)
          then <[frame_key e := blank (entry_frame p cs (w_mem w) e slot "")]> (blanks fs) else blanks fs)
    (entry_handler p w fs cs e slot).
Proof.
  set (Q := fun _ _ => _). unfold entry_handler.
  assert (Hk : forall caller fs1,
    fs1 = (if bool_decide (slot ∈ p_retSet p) && (0 <=? Depth e)
           then <[frame_key e := entry_frame p cs (w_mem w) e slot caller]> fs else fs) -> Q fs1 cs).
  { intros caller fs1 ->. split; [done|]. destruct (_ && _); [apply (blanks_insert _ (entry_frame p cs (w_mem w) e slot caller))|done]. }
  assert (Hof : forall k, (forall caller, ends Q (k caller)) -> ends Q (of_handler (Caller e) w k)).
  { intros k Hall. intros name stale. destruct (String.eqb name "" && stale); [intros n; apply Hall|apply Hall]. }
  apply Hof. intros caller. set (fs1 := if _ : bool then _ else fs). specialize (Hk caller fs1 eq_refl).
  intros ok. destruct (negb ok); [exact Hk|]. destruct (too_deep _ _); [exact Hk|].
  destruct (isCallMethod _).
  - destruct (describeCall _ _ _ _) as [call known].
    assert (Hc : Q (match fs1 !! frame_key e with Some fr => <[frame_key e := set_call fr call]> fs1 | None => fs1 end) cs).
    { destruct Hk as [_ Hk]. split; [done|]. by rewrite blanks_set_call. }
    destruct (splitClassMethod call) as [cls meth]. destruct (known || _); [|exact Hc].
    intros [|]; [|exact Hc]. by apply stack_handler_ends.
  - intros [|]; [|exact Hk]. by apply stack_handler_ends.
Qed.

Lemma event_ends w e fs cs :
  ends (fun fs' cs' => (blanks fs', cs') = own_event w e (blanks fs) cs) (event_handler p w e fs cs).
Proof.
  unfold event_handler, own_event. destruct (negb _ && _); [done|]. destruct (Kind e =? 1).
  - unfold return_handler. destruct (Depth e <? 0); [done|]. unfold blanks at 2. rewrite lookup_fmap.
    destruct (fs !! _) as [fr|]; [|done]. cbn [fmap option_fmap option_map]. rewrite learn_blank, <- blanks_delete.
    intros b. destruct (b && _); [|done]. destruct (too_deep _ _); [done|].
    destruct (splitClassMethod _) as [cls meth]. by intros [|].
  - destruct (p_offsets p !! _) as [slot|]; [|done]. pose proof (entry_ends w fs cs e slot) as Hh.
    revert Hh. generalize (entry_handler p w fs cs e slot). intros h.
    induction h; cbn [ends]; eauto. intros [-> ->]. done.
Qed.
End Own.

(** ** The event loop's own state depends on the samples alone *)

Section Tracks.
Context {RE : Type} `{Regexp RE} `{SortByCount}.
Context (order : gmap string Z -> list (string * Z)) (p : params).

Abbreviation frames := (gmap (Z * Z) frame).
Abbreviation lstate := (@lstate RE).

Definition owned (st : lstate) : frames * caches := (blanks (l_frames st), l_cs st).

(** [x] is what the loop owns once the event in hand, if any, is done. *)
Definition tracks (x : frames * caches * Z) (g : gstate) : Prop :=
  l_total (g_st g) = x.2 /\
  match g_now g with
  | None => owned (g_st g) = x.1
  | Some h => ends (fun fs cs => (blanks fs, cs) = x.1) h
  end.

Lemma hstep_tracks x h (st : lstate) h' st' out out0 echo out1 rd rc rd1 rc1 :
  hstep p h st = (h', st', out) -> tracks x (GState st (Some h) out0 echo rd rc) ->
  tracks x (GState st' h' out1 echo rd1 rc1).
Proof.
  intros E [Ht He]. unfold tracks in *. cbn [g_st g_now] in *.
  destruct h; cbn [hstep ends] in *;
    try (injection E as <- <- _; by split).
  - destruct (loadModules maps). injection E as <- <- _. by split.
  - destruct (emit _ _ _). injection E as <- <- _. by split.
Qed.

Lemma alone_tracks x h (st : lstate) out echo out1 :
  tracks x (GState st (Some h) out echo false false) -> tracks x (GState (alone p h st).1 None out1 echo false false).
Proof.
  revert st out. induction h as [fs cs|addr now k IH|addr maps now k IH|slot k IH|cls meth line caller k IH
                                |line k IH|addr k IH|line k IH]; intros st out [Ht He]; cbn [g_st g_now ends alone] in *.
  - by split.
  - apply (IH _ _ st out). split; [exact Ht|apply He].
  - destruct (loadModules maps). apply (IH _ (set_mc st _) out). split; [exact Ht|apply He].
  - apply (IH _ st out). split; [exact Ht|apply He].
  - apply (IH _ st out). split; [exact Ht|apply He].
  - destruct (emit _ _ _) as [counts o]. pose proof (IH (set_counts st counts) out (conj Ht He)) as E.
    by destruct (alone p k _).
  - apply (IH _ st out). split; [exact Ht|apply He].
  - pose proof (IH st out (conj Ht He)) as E. by destruct (alone p k st).
Qed.

Lemma event_tracks x w raw e (st : lstate) out echo rd rc :
  read_evt raw = Some e -> tracks x (GState st None out echo rd rc) ->
  tracks (own_sample p x (w, raw)) (GState (count_event st) (Some (event_handler p w e (l_frames st) (l_cs st))) out echo rd rc).
Proof.
  intros E [Ht Hx]. cbn [g_st g_now] in *. unfold own_sample. cbn [snd fst]. rewrite E. split; cbn [g_st g_now fst snd].
  - cbn. by rewrite Ht.
  - rewrite <- Hx. apply event_ends.
Qed.

Lemma gstep_tracks m x g g' :
  gstep order p m g = Some g' -> tracks x g -> tracks (fold_left (own_sample p) (samples [m]) x) g'.
Proof.
  destruct g as [st h out echo rd rc].
  destruct m as [w raw| |maps now|line|torn]; cbn [gstep g_now g_st g_out g_echo g_reading g_raced].
  - destruct h as [h|]; [done|]. unfold samples. cbn [omap list_omap sample_of fold_left].
    destruct (read_evt raw) as [e|] eqn:E; intros [= <-] Ht; [by apply event_tracks|].
    unfold own_sample. cbn [snd]. by rewrite E.
  - destruct h as [h|]; [|done]. cbn. destruct (hstep p h st) as [[h' st'] o] eqn:E. intros [= <-] Ht.
    by eapply hstep_tracks.
  - intros [= <-] Ht. exact Ht.
  - destruct rd; [done|]. destruct (reads_counts _ _); [by intros [= <-]|].
    destruct (command_step order line st) as [[st' o]|] eqn:E; [|done]. cbn. intros [= <-] Ht.
    unfold command_step in E. destruct (String.eqb _ _); [by injection E as <- <-|].
    destruct (applyCommand _ _); try done; by injection E as <- <-.
  - destruct rd; [|done]. by intros [= <-].
Qed.

Lemma grun_tracks ms x g g' :
  grun order p ms g = Some g' -> tracks x g -> tracks (fold_left (own_sample p) (samples ms) x) g'.
Proof.
  revert x g. induction ms as [|m ms IH]; intros x g; cbn [grun]; [by intros [= <-]|].
  destruct (gstep order p m g) as [g1|] eqn:E; [|done]. cbn [mbind option_bind]. intros Hr Ht.
  change (m :: ms) with ([m] ++ ms). unfold samples. rewrite omap_app, fold_left_app.
  exact (IH _ _ Hr (gstep_tracks _ _ _ _ E Ht)).
Qed.

Lemma loop_run_tracks acts x (st st' : lstate) out out0 echo :
  loop_run order p acts st = (st', out, false) -> tracks x (GState st None out0 echo false false) ->
  tracks (fold_left (own_sample p) (samples_read acts) x) (GState st' None out0 echo false false).
Proof.
  revert x st out. induction acts as [|a acts IH]; intros x st out; cbn [loop_run]; [by intros [= <- _]|].
  destruct (loop_step order p a st) as [[u o1]|] eqn:E; [|done].
  destruct (loop_run order p acts u) as [[st2 o2] quit] eqn:Er. intros [= -> _ ->] Ht.
  change (a :: acts) with ([a] ++ acts). unfold samples_read. rewrite omap_app, fold_left_app.
  refine (IH _ u _ Er _). destruct a as [w raw|maps now|line]; cbn [loop_step] in E.
  - injection E as E. cbn [omap list_omap sample_read fold_left]. destruct (read_evt raw) as [e|] eqn:Ee.
    + rewrite <- (event_alone p w raw e st Ee) in E. pose proof (event_tracks x w raw e st out0 echo false false Ee Ht) as Hh.
      apply (alone_tracks _ _ _ _ _ out0) in Hh. by rewrite E in Hh.
    + unfold loop_event in E. rewrite Ee in E. injection E as <- _. unfold own_sample. cbn [snd]. by rewrite Ee.
  - injection E as <- _. exact Ht.
  - unfold command_step in E. destruct (String.eqb _ _); [by injection E as <- _|].
    destruct (applyCommand _ _); try done; by injection E as <- _.
Qed.

Lemma idle_tracks (st : lstate) : tracks (owned st, l_total st) (idle st).
Proof. by split. Qed.

(** Open calls do not look at the texts of frames. *)
Lemma frames_sim_blanks fs fs' op : blanks fs = blanks fs' -> frames_sim p fs op -> frames_sim p fs' op.
Proof.
  intros E Hs tid d Hf Hp. specialize (Hs tid d Hf Hp).
  assert (El : blank <$> fs !! (s32 tid, d) = blank <$> fs' !! (s32 tid, d)).
  { rewrite <- !lookup_fmap. exact (f_equal (lookup _) E). }
  destruct (open_at op tid d) as [e|], (fs !! _) as [fr|], (fs' !! _) as [fr'|]; try done.
  injection El as E1 E2 E3 E4 E5. unfold frame_of in *. rewrite <- E1, <- E2, <- E3, <- E4, <- E5. exact Hs.
Qed.
End Tracks.

(** ** One command during one event *)

Section Shape.
Context {RE : Type} `{Regexp RE}.
Context (p : params).

Abbreviation lstate := (@lstate RE).

(** The order of a handler's accesses, by what is still ahead: 4 the caller's
    module and the slot, 3 the line, 2 the output, 1 the stack. *)
Inductive shape : nat -> handler -> Prop :=
| shape_leave i fs cs : shape i (Leave fs cs)
| shape_first addr now k : (forall name stale, shape 4 (k name stale)) -> shape 4 (OfFirst addr now k)
| shape_reload addr maps now k : (forall name, shape 4 (k name)) -> shape 4 (OfReload addr maps now k)
| shape_slot slot k : shape 3 (k true) -> shape 1 (k false) -> shape 4 (TestSlot slot k)
| shape_line cls meth line caller k : (forall b, shape 2 (k b)) -> shape 3 (TestLine cls meth line caller k)
| shape_emit line k : shape 1 k -> shape 2 (Emit line k)
| shape_look addr k : (forall module, shape 1 (k module)) -> shape 1 (LookUp addr k)
| shape_print line k : shape 1 k -> shape 1 (Print line k).

Lemma stack_shape c stack ind id lr fs cs : shape 1 (stack_handler c stack ind id lr (Leave fs cs)).
Proof.
  unfold stack_handler. destruct (_ || _); [constructor|]. destruct (stack id) as [buf|]; [|constructor].
  enough (Hall : forall i, shape 1 (stack_frames ind i (stack_addrs buf lr) (Leave fs cs))) by apply Hall.
  induction (stack_addrs buf lr) as [|a addrs IH]; intros i; cbn; [constructor|].
  constructor. intros module. constructor. apply IH.
Qed.

Lemma event_shape w e fs cs : shape 4 (event_handler p w e fs cs).
Proof.
  unfold event_handler. destruct (negb _ && _); [constructor|]. destruct (Kind e =? 1).
  - unfold return_handler. destruct (Depth e <? 0); [constructor|]. destruct (fs !! _) as [fr|]; [|constructor].
    constructor; [|constructor]. destruct (true && _); [|constructor]. destruct (too_deep _ _); [constructor|].
    destruct (splitClassMethod _). constructor. intros [|]; repeat constructor.
  - destruct (p_offsets p !! _) as [slot|]; [|constructor]. unfold entry_handler.
    assert (Hof : forall k, (forall caller, shape 4 (k caller)) -> shape 4 (of_handler (Caller e) w k)).
    { intros k Hall. constructor. intros name stale.
      destruct (String.eqb name "" && stale); [constructor; intros n|]; apply Hall. }
    apply Hof. intros caller. constructor; [|constructor]. cbn [negb]. destruct (too_deep _ _); [constructor|].
    destruct (isCallMethod _).
    + destruct (describeCall _ _ _ _) as [call known]. destruct (splitClassMethod call) as [cls meth].
      destruct (known || _); [|constructor]. constructor. intros [|]; constructor. apply stack_shape.
    + constructor. intros [|]; constructor. apply stack_shape.
Qed.

(** From the output on, the filters are not looked at any more. *)
Lemma late_filters i h (st : lstate) f :
  shape i h -> (i <= 2)%nat ->
  alone p h (set_filters st f) = (set_filters (alone p h st).1 f, (alone p h st).2).
Proof.
  intros Hs. revert st.
  induction Hs as [i fs cs|addr now k Hk IH|addr maps now k Hk IH|slot k H3 IH3 H4 IH4|cls meth line caller k Hk IH
                  |line k Hk IH|addr k Hk IH|line k Hk IH]; intros st Hi; try lia; cbn [alone].
  - done.
  - cbn [set_filters l_counts]. destruct (emit _ _ _) as [counts o].
    change (set_counts (set_filters st f) counts) with (set_filters (set_counts st counts) f).
    rewrite (IH (set_counts st counts)) by lia. by destruct (alone p k _).
  - cbn [set_filters l_mc]. apply IH. lia.
  - rewrite IH by lia. by destruct (alone p k st).
Qed.

(** A command that changes the filters to [f] leaves the tests of lines alone, or
    lets every slot through that passed before; [t] says from where on the
    handler does not notice it. *)
Definition unnoticed (f0 f : filters RE) (t : nat) : Prop :=
  t = 3%nat /\ (forall cls meth line caller, matchLine f cls meth line caller = matchLine f0 cls meth line caller) \/
  t = 2%nat /\ (forall slot, matchSlot f0 slot = true -> matchSlot f slot = true).

Lemma alone_unnoticed i t h (st : lstate) f :
  unnoticed (l_filters st) f t -> shape i h -> (i <= t)%nat ->
  alone p h (set_filters st f) = (set_filters (alone p h st).1 f, (alone p h st).2).
Proof.
  intros [[-> Hf]|[-> _]] Hs Hi; [|by apply (late_filters i)].
  destruct (decide (i = 3%nat)) as [->|]; [|apply (late_filters i); [done|lia]].
  inversion Hs as [i' fs cs| | | |cls meth line caller k Hk| | |]; subst; [done|].
  cbn [alone set_filters l_filters]. rewrite Hf. by apply (late_filters 2).
Qed.

Lemma hstep_filters h (st : lstate) h' st' out : hstep p h st = (h', st', out) -> l_filters st' = l_filters st.
Proof.
  destruct h; cbn [hstep]; try by intros [= <- <- <-].
  - destruct (loadModules maps). by intros [= <- <- <-].
  - destruct (emit _ _ _). by intros [= <- <- <-].
Qed.

Lemma alone_filters h (st : lstate) : l_filters (alone p h st).1 = l_filters st.
Proof.
  revert st. induction h as [fs cs|addr now k IH|addr maps now k IH|slot k IH|cls meth line caller k IH
                            |line k IH|addr k IH|line k IH]; intros st; cbn [alone]; try done.
  - destruct (loadModules maps). by rewrite IH.
  - destruct (emit _ _ _) as [counts o]. pose proof (IH (set_counts st counts)) as E. by destruct (alone p k _).
  - pose proof (IH st) as E. by destruct (alone p k st).
Qed.

(** One access: the handler goes forward, and the new filters are noticed late or
    not at all. *)
Lemma hstep_unnoticed i t h (st : lstate) h' st' out f :
  unnoticed (l_filters st) f t -> shape i h -> hstep p h st = (Some h', st', out) ->
  exists j, shape j h' /\ (j <= i)%nat /\
    ((j <= t)%nat \/ hstep p h (set_filters st f) = (Some h', set_filters st' f, out)).
Proof.
  intros Hu Hs E. destruct Hs as [i fs cs|addr now k Hk|addr maps now k Hk|slot k H3 H4|cls meth line caller k Hk
                  |line k Hk|addr k Hk|line k Hk]; cbn [hstep] in *.
  - done.
  - injection E as <- <- <-. exists 4%nat. split; [apply Hk|]. split; [lia|by right].
  - destruct (loadModules maps). injection E as <- <- <-. exists 4%nat. split; [apply Hk|]. split; [lia|by right].
  - injection E as <- <- <-. destruct (matchSlot (l_filters st) slot) eqn:Em; [exists 3%nat|exists 1%nat].
    + split; [done|]. split; [lia|]. destruct Hu as [[-> _]|[_ Hu]]; [left; lia|right].
      cbn [set_filters l_filters]. by rewrite (Hu _ Em).
    + split; [done|]. split; [lia|]. left. destruct Hu as [[-> _]|[-> _]]; lia.
  - injection E as <- _ _. exists 2%nat. split; [apply Hk|]. split; [lia|]. left. destruct Hu as [[-> _]|[-> _]]; lia.
  - destruct (emit _ _ _). injection E as <- _ _. exists 1%nat. split; [done|]. split; [lia|]. left. destruct Hu as [[-> _]|[-> _]]; lia.
  - injection E as <- _ _. exists 1%nat. split; [apply Hk|]. split; [lia|]. left. destruct Hu as [[-> _]|[-> _]]; lia.
  - injection E as <- _ _. exists 1%nat. split; [done|]. split; [lia|]. left. destruct Hu as [[-> _]|[-> _]]; lia.
Qed.

Lemma steps_unnoticed i t h (st : lstate) h' st' out f :
  steps p h st (Some h') st' out -> unnoticed (l_filters st) f t -> shape i h ->
  l_filters st' = l_filters st /\
  exists j, shape j h' /\ (j <= i)%nat /\
    ((j <= t)%nat \/ steps p h (set_filters st f) (Some h') (set_filters st' f) out).
Proof.
  intros Hs. remember (Some h') as r eqn:Er. revert i h' Er.
  induction Hs as [h st|h st st' out E|h st h1 st1 o1 h2 st2 o2 E Hs IH]; intros i h' [= ->] Hu Hsh.
  - split; [done|]. exists i. split; [done|]. split; [lia|]. right. constructor.
  - destruct (hstep_unnoticed _ _ _ _ _ _ _ _ Hu Hsh E) as (j & Hj & Hji & Hd).
    pose proof (hstep_filters _ _ _ _ _ E) as Ef.
    destruct (IH j h' eq_refl) as (E2 & j2 & Hj2 & Hji2 & Hd2); [by rewrite Ef|done|].
    split; [by rewrite E2|]. exists j2. split; [done|]. split; [lia|].
    destruct Hd as [Hd|Hd]; [left; lia|]. destruct Hd2 as [Hd2|Hd2]; [by left|right]. by eapply steps_cons.
Qed.

(** A handler emits once at most. *)
Lemma late_counts h (st : lstate) : shape 1 h -> l_counts (alone p h st).1 = l_counts st.
Proof.
  intros Hs. remember 1%nat as i eqn:Ei. revert st Ei.
  induction Hs as [i fs cs|addr now k Hk IH|addr maps now k Hk IH|slot k H3 IH3 H4 IH4|cls meth line caller k Hk IH
                  |line k Hk IH|addr k Hk IH|line k Hk IH]; intros st Ei; try done; cbn [alone].
  - by rewrite IH.
  - rewrite <- (IH st Ei). by destruct (alone p k st).
Qed.

Lemma steps_counts i h (st : lstate) h' st' out :
  steps p h st (Some h') st' out -> shape i h ->
  exists j, shape j h' /\ (j <= i)%nat /\ (j = 1%nat \/ j = 0%nat \/ l_counts st' = l_counts st).
Proof.
  intros Hs. remember (Some h') as r eqn:Er. revert i h' Er.
  induction Hs as [h st|h st st' out E|h st h1 st1 o1 h2 st2 o2 E Hs IH]; intros i h' [= ->] Hsh.
  { exists i. split; [done|]. split; [lia|by right; right]. }
  assert (Hd : exists j, shape j h1 /\ (j <= i)%nat /\ (j = 1%nat \/ l_counts st1 = l_counts st)).
  { destruct Hsh as [i fs cs|addr now k Hk|addr maps now k Hk|slot k H3 H4|cls meth line caller k Hk
                  |line k Hk|addr k Hk|line k Hk]; cbn [hstep] in E.
    - done.
    - injection E as <- <- _. exists 4%nat. split; [apply Hk|]. split; [lia|by right].
    - destruct (loadModules maps). injection E as <- <- _. exists 4%nat. split; [apply Hk|]. split; [lia|by right].
    - injection E as <- <- _. destruct (matchSlot (l_filters st) slot); [exists 3%nat|exists 1%nat];
        (split; [done|split; [lia|by right]]).
    - injection E as <- <- _. exists 2%nat. split; [apply Hk|]. split; [lia|by right].
    - destruct (emit _ _ _). injection E as <- _ _. exists 1%nat. split; [done|]. split; [lia|by left].
    - injection E as <- <- _. exists 1%nat. split; [apply Hk|]. split; [lia|by right].
    - injection E as <- <- _. exists 1%nat. split; [done|]. split; [lia|by right]. }
  destruct Hd as (j & Hj & Hji & Hd). destruct (IH j h' eq_refl Hj) as (j2 & Hj2 & Hji2 & Hd2).
  exists j2. split; [done|]. split; [lia|]. destruct Hd as [->|Hd]; [lia|].
  destruct Hd2 as [?|[?|Hd2]]; [by left|by right; left|]. right; right. by rewrite Hd2.
Qed.
End Shape.

(** ** What a command does, as a function of the filters and the counts *)

Section Commands.
Context {RE : Type} `{Regexp RE} `{SortByCount}.
Context (order : gmap string Z -> list (string * Z)) (p : params).

Abbreviation lstate := (@lstate RE).

(** The new filters and the answer; [None] for [quit]. *)
Definition command_effect (line : string) (f : filters RE) (counts : gmap string Z) : option (filters RE * list string) :=
  let text := TrimSpace line in
  if String.eqb text "" then Some (f, [])
  else match applyCommand f text with
       | CmdSet f' echo => Some (f', [echo])
       | CmdStats => Some (f, printStats order counts 25)
       | CmdUnknown echo => Some (f, [echo])
       | CmdNone => Some (f, [])
       | CmdQuit => None
       end.

Lemma command_step_effect line (st : lstate) :
  command_step order line st =
  '(f, echo) ← command_effect line (l_filters st) (l_counts st); Some (set_filters st f, echo).
Proof.
  unfold command_step, command_effect. destruct (String.eqb _ _); [by destruct st|].
  destruct (applyCommand _ _); cbn; by try destruct st.
Qed.

Lemma applyCommand_unnoticed (f f' : filters RE) text echo :
  applyCommand f text = CmdSet f' echo -> exists t, unnoticed f f' t.
Proof.
  unfold applyCommand. destruct (Fields text) as [|cmd args]; [done|].
  repeat (destruct (String.eqb cmd _));
    try (intros [= <- _]; exists 3%nat; left; by split);
    try (intros [= <- _]; exists 2%nat; right; by split); by cbn [orb].
Qed.

(** Every command but [stats] answers the same whatever the counts; [stats] leaves the filters. *)
Lemma command_effect_cases line f counts f' echo :
  command_effect line f counts = Some (f', echo) ->
  (exists t, unnoticed f f' t) /\
  (f' = f \/ forall counts', command_effect line f counts' = Some (f', echo)).
Proof.
  assert (Hu : exists t, unnoticed f f t) by (exists 3%nat; left; by split).
  unfold command_effect. destruct (String.eqb _ _); [intros [= <- <-]; split; [done|by left]|].
  destruct (applyCommand f _) as [f1 e| | |e|] eqn:E; try done; intros [= <- <-];
    (split; [try done|first [by left|by right]]).
  eauto using applyCommand_unnoticed.
Qed.
End Commands.

(** ** One command during one event: the two sequential orders *)

Section Linear.
Context {RE : Type} `{Regexp RE} `{SortByCount}.
Context (order : gmap string Z -> list (string * Z)) (p : params).

Abbreviation lstate := (@lstate RE).
Abbreviation grun := (grun order p).

(** The event first, or the command first. *)
Definition sequential (w : world) (raw : list byte) (line : string) (st st' : lstate) (out echo : list string) : Prop :=
  loop_run order p [AEvent w raw; ACommand line] st = (st', out ++ echo, false) \/
  loop_run order p [ACommand line; AEvent w raw] st = (st', echo ++ out, false).

Lemma event_first w raw line (st st1 st2 : lstate) out echo :
  loop_event p w raw st = (st1, out) -> command_step order line st1 = Some (st2, echo) ->
  sequential w raw line st st2 out echo.
Proof. intros E1 E2. left. cbn [loop_run loop_step]. rewrite E1, E2. cbn. by rewrite app_nil_r. Qed.

Lemma command_first w raw line (st st1 st2 : lstate) out echo :
  command_step order line st = Some (st1, echo) -> loop_event p w raw st1 = (st2, out) ->
  sequential w raw line st st2 out echo.
Proof. intros E1 E2. right. cbn [loop_run loop_step]. rewrite E1, E2. cbn. by rewrite app_nil_r. Qed.

(** The command falls between two accesses of the handler. *)
Lemma command_inside w raw e line (st st1 st2 : lstate) h1 out echo :
  read_evt raw = Some e ->
  steps p (event_handler p w e (l_frames st) (l_cs st)) (count_event st) (Some h1) st1 out ->
  command_step order line st1 = Some (st2, echo) ->
  sequential w raw line st (alone p h1 st2).1 (out ++ (alone p h1 st2).2) echo.
Proof.
  intros Ee Hs Hc. rewrite command_step_effect in Hc.
  destruct (command_effect order line (l_filters st1) (l_counts st1)) as [[f echo']|] eqn:Ec; [|done].
  cbn in Hc. injection Hc as <- <-.
  destruct (command_effect_cases _ _ _ _ _ _ Ec) as [[t Hu] Hcase].
  pose proof (event_shape p w e (l_frames st) (l_cs st)) as Hsh.
  destruct (steps_counts p _ _ _ _ _ _ Hs Hsh) as (jc & Hjc & _ & Hcounts).
  assert (Ef : l_filters st1 = l_filters st).
  { destruct (steps_unnoticed p 4 3 _ _ _ _ _ (l_filters st) Hs) as [Ef _]; [by left|done|exact Ef]. }
  rewrite Ef in *.
  pose proof (steps_alone p _ _ _ _ _ Hs) as Ha. rewrite (event_alone p w raw e st Ee) in Ha.
  pose proof (alone_filters p h1 st1) as Efe. rewrite Ef in Efe.
  destruct Hcase as [->|Hconst].
  - assert (E1 : set_filters st1 (l_filters st) = st1) by (rewrite <- Ef; by destruct st1). rewrite E1.
    destruct Hcounts as [Hj|[Hj|Hcounts]].
    + subst jc. pose proof (late_counts p h1 st1 Hjc) as Hl.
      destruct (alone p h1 st1) as [se oe]. cbn [fst snd] in *. eapply event_first; [exact Ha|].
      rewrite command_step_effect, Hl, Efe, Ec. cbn. by rewrite <- Efe; destruct se.
    + subst jc. assert (Hl : l_counts (alone p h1 st1).1 = l_counts st1) by by inversion Hjc.
      destruct (alone p h1 st1) as [se oe]. cbn [fst snd] in *. eapply event_first; [exact Ha|].
      rewrite command_step_effect, Hl, Efe, Ec. cbn. by rewrite <- Efe; destruct se.
    + destruct (alone p h1 st1) as [se oe]. cbn [fst snd]. eapply command_first; [|exact Ha].
      rewrite command_step_effect. rewrite Hcounts in Ec. cbn [count_event l_counts] in Ec. rewrite Ec. cbn. by destruct st.
  - destruct (steps_unnoticed p _ _ _ _ _ _ _ _ Hs Hu Hsh) as (_ & j & Hj & _ & [Hjt|Hs2]).
    + rewrite (alone_unnoticed p j t h1 st1 f) by (rewrite ?Ef; done). cbn [fst snd].
      destruct (alone p h1 st1) as [se oe]. cbn [fst snd] in *. eapply event_first; [exact Ha|].
      rewrite command_step_effect, Efe, Hconst. done.
    + apply steps_alone in Hs2. pose proof (event_alone p w raw e (set_filters st f) Ee) as Ha2.
      change (count_event (set_filters st f)) with (set_filters (count_event st) f) in Ha2.
      cbn [set_filters l_frames l_cs] in Ha2. cbn [count_event] in Hs2. rewrite Hs2 in Ha2.
      destruct (alone p h1 (set_filters st1 f)) as [se2 oe2]. cbn [fst snd]. eapply command_first; [|exact (eq_sym Ha2)].
      rewrite command_step_effect, Hconst. done.
Qed.

(** *** Races *)



(** *** A run with one sample and one command *)

Lemma reads_counts_filters (f f' : filters RE) line : reads_counts f line = reads_counts f' line.
Proof.
  unfold reads_counts, applyCommand. destruct (Fields (TrimSpace line)) as [|cmd args]; [done|].
  repeat (destruct (String.eqb cmd _); [done|]). by destruct (_ || _).
Qed.

(** [stats] changes nothing and prints the counts. *)
Lemma stats_step line (st : lstate) :
  reads_counts (l_filters st) line = true -> command_step order line st = Some (st, printStats order (l_counts st) 25).
Proof.
  unfold reads_counts, command_step. destruct (String.eqb_spec (TrimSpace line) "") as [->|_]; [done|].
  by destruct (applyCommand _ _).
Qed.

Context (w : world) (raw : list byte) (line : string) (st : lstate).

(** The event's part of a run from [st]: not begun, or some accesses made. *)
Definition event_part (taken : bool) (now : option handler) (st1 : lstate) (out : list string) : Prop :=
  match taken, read_evt raw with
  | true, Some e => steps p (event_handler p w e (l_frames st) (l_cs st)) (count_event st) now st1 out
  | _, _ => now = None /\ st1 = st /\ out = []
  end.

(** What the run will come to when the command has been answered. *)
Definition answered (taken : bool) (g : gstate) : Prop :=
  match taken, g_now g with
  | false, None => g_out g = [] /\ command_step order line st = Some (g_st g, g_echo g)
  | true, None => sequential w raw line st (g_st g) (g_out g) (g_echo g)
  | true, Some h => sequential w raw line st (alone p h (g_st g)).1 (g_out g ++ (alone p h (g_st g)).2) (g_echo g)
  | false, Some _ => False
  end.

Definition race_excuse : Prop :=
  c_count (p_conf p) = true /\ reads_counts (l_filters st) line = true.

Inductive phase := Waiting | Reading | Answered.

Definition run_inv (taken : bool) (ph : phase) (g : gstate) : Prop :=
  match ph with
  | Waiting => g_reading g = false /\ g_raced g = false /\ g_echo g = [] /\ event_part taken (g_now g) (g_st g) (g_out g)
  | Reading => g_reading g = true /\ reads_counts (l_filters st) line = true /\ (g_raced g = true -> race_excuse) /\
               g_echo g = [] /\ event_part taken (g_now g) (g_st g) (g_out g)
  | Answered => g_reading g = false /\ (g_raced g = true /\ race_excuse \/ g_raced g = false /\ answered taken g)
  end.

Lemma event_part_take e : read_evt raw = Some e ->
  event_part true (Some (event_handler p w e (l_frames st) (l_cs st))) (count_event st) [].
Proof. unfold event_part. intros ->. constructor. Qed.

Lemma event_part_step taken h (st1 : lstate) out h' st' o :
  event_part taken (Some h) st1 out -> hstep p h st1 = (h', st', o) -> taken = true /\ event_part true h' st' (out ++ o).
Proof.
  unfold event_part. destruct taken; [|by intros (? & _)]. destruct (read_evt raw) as [e|]; [|by intros (? & _)].
  intros Hs E. split; [done|]. by eapply steps_snoc.
Qed.

Lemma event_part_filters taken now (st1 : lstate) out : event_part taken now st1 out -> l_filters st1 = l_filters st.
Proof.
  unfold event_part. destruct taken; [|by intros (_ & -> & _)]. destruct (read_evt raw) as [e|]; [|by intros (_ & -> & _)].
  intros Hs. change (l_filters st) with (l_filters (count_event st)).
  induction Hs as [h st0|h st0 st' out E|h st0 h1 st1' o1 h2 st2 o2 E Hs IH]; [done|by eapply hstep_filters|].
  rewrite IH. by eapply hstep_filters.
Qed.

(** When a command is answered between two accesses, the run is on its way to one
    of the two orders. *)
Lemma answer_now taken now (st1 st2 : lstate) out echo rd rc :
  event_part taken now st1 out -> command_step order line st1 = Some (st2, echo) ->
  answered taken (GState st2 now out echo rd rc).
Proof.
  unfold event_part, answered. cbn [g_now g_st g_out g_echo]. destruct taken.
  2:{ intros (-> & -> & ->) E. done. }
  destruct (read_evt raw) as [e|] eqn:Ee.
  - intros Hs E. destruct now as [h|]; [by eapply command_inside|].
    apply steps_alone in Hs. rewrite (event_alone p w raw e st Ee) in Hs. by eapply event_first.
  - intros (-> & -> & ->) E. eapply event_first; [|exact E]. unfold loop_event. by rewrite Ee.
Qed.

Lemma answered_take e (st1 : lstate) echo rd rc :
  read_evt raw = Some e -> answered false (GState st1 None [] echo rd rc) ->
  answered true (GState (count_event st1) (Some (event_handler p w e (l_frames st1) (l_cs st1))) [] echo rd rc).
Proof.
  intros Ee [_ E]. unfold answered. cbn [g_now g_st g_out g_echo app] in *.
  rewrite (event_alone p w raw e st1 Ee). destruct (loop_event p w raw st1) as [s o] eqn:El. by eapply command_first.
Qed.

Lemma answered_step taken h (st1 : lstate) out echo rd rc h' st' o rd' rc' :
  answered taken (GState st1 (Some h) out echo rd rc) -> hstep p h st1 = (h', st', o) ->
  answered taken (GState st' h' (out ++ o) echo rd' rc').
Proof.
  unfold answered. cbn [g_now g_st g_out g_echo]. destruct taken; [|done]. rewrite (hstep_alone p h).
  intros Hs E. rewrite E in Hs. destruct h' as [h'|]; [|exact Hs].
  destruct (alone p h' st') as [s o2]. cbn [fst snd] in *. by rewrite <- app_assoc.
Qed.

(** The moves other than samples, accesses and the answer. *)
Definition command_of (m : move) : option string := match m with Command l => Some l | _ => None end.
Definition commands (ms : list move) : list string := omap command_of ms.
Definition is_reload (m : move) : bool := match m with Reload _ _ => true | _ => false end.

Lemma run_inv_step taken ph m g g' :
  gstep order p m g = Some g' -> run_inv taken ph g -> is_reload m = false ->
  samples [m] = (if taken then [] else samples [m]) -> samples [m] `prefix_of` [(w, raw)] ->
  commands [m] = (match ph with Waiting => commands [m] | _ => [] end) -> commands [m] `prefix_of` [line] ->
  exists ph', run_inv (taken || negb (bool_decide (samples [m] = []))) ph' g' /\
    (ph' = Waiting <-> ph = Waiting /\ commands [m] = []).
Proof.
  destruct g as [st1 now out echo rd rc]. intros E Hi Hr Hs Hsp Hc Hcp.
  destruct m as [w' raw'| |maps t|line'|torn]; cbn [gstep g_st g_now g_out g_echo g_reading g_raced is_reload] in *; [| |done| |].
  - destruct taken; [done|]. destruct now as [h|]; [done|].
    apply prefix_cons_inv_1 in Hsp. injection Hsp as -> ->. exists ph. split; [|by split; [intros ->|intros [-> _]]].
    cbn [orb negb]. rewrite bool_decide_eq_false_2 by done. cbn [negb].
    destruct (read_evt raw) as [e|] eqn:Ee; injection E as <-; destruct ph; unfold run_inv in *;
      cbn [g_st g_now g_out g_echo g_reading g_raced] in *.
    + destruct Hi as (? & ? & ? & Hp). unfold event_part in Hp. destruct Hp as (_ & -> & ->).
      repeat (split; [done|]). by apply event_part_take.
    + destruct Hi as (? & ? & ? & ? & Hp). unfold event_part in Hp. destruct Hp as (_ & -> & ->).
      repeat (split; [done|]). by apply event_part_take.
    + destruct Hi as [? [?|[? Ha]]]; (split; [done|]); [by left|right]. split; [done|].
      pose proof Ha as [Ho _]. cbn in Ho. subst out. by apply answered_take.
    + destruct Hi as (? & ? & ? & Hp). repeat (split; [done|]). unfold event_part in *. by rewrite Ee.
    + destruct Hi as (? & ? & ? & ? & Hp). repeat (split; [done|]). unfold event_part in *. by rewrite Ee.
    + destruct Hi as [? [?|[? Ha]]]; (split; [done|]); [by left|right]. split; [done|].
      unfold answered in *. cbn [g_now g_st g_out g_echo] in *. destruct Ha as [-> Ha].
      eapply command_first; [exact Ha|]. unfold loop_event. by rewrite Ee.
  - destruct now as [h|]; [|done]. cbn [mbind option_bind] in E. destruct (hstep p h st1) as [[h' st'] o] eqn:Eh.
    injection E as <-. exists ph. split; [|by split; [intros ->|intros [-> _]]]. rewrite bool_decide_eq_true_2, orb_false_r by done.
    destruct ph; unfold run_inv in *; cbn [g_st g_now g_out g_echo g_reading g_raced] in *.
    + destruct Hi as (-> & -> & -> & Hp). destruct (event_part_step _ _ _ _ _ _ _ Hp Eh) as [-> Hp']. done.
    + destruct Hi as (-> & Hst & Hrc & -> & Hp). destruct (event_part_step _ _ _ _ _ _ _ Hp Eh) as [-> Hp'].
      repeat (split; [done|]). split; [|done]. intros Hor. apply orb_true_iff in Hor as [Hor|Hor]; [by apply Hrc|].
      unfold writes_counts in Hor. apply andb_true_iff in Hor as [_ Hor]. apply andb_true_iff in Hor as [Hor _]. by split.
    + destruct Hi as [-> Ha]. split; [done|]. rewrite orb_false_r. destruct Ha as [?|[-> Ha]]; [by left|right].
      split; [done|]. by eapply answered_step.
  - destruct ph; try done. unfold run_inv in Hi. cbn [g_st g_now g_out g_echo g_reading g_raced] in Hi.
    destruct Hi as (-> & -> & -> & Hp).
    apply prefix_cons_inv_1 in Hcp. subst line'. rewrite bool_decide_eq_true_2, orb_false_r by done.
    pose proof (event_part_filters _ _ _ _ Hp) as Hf. rewrite Hf in E.
    destruct (reads_counts (l_filters st) line) eqn:Hst.
    + injection E as <-. exists Reading. split; [|by split; [|intros [_ ?]]].
      repeat (split; [done|]). done.
    + destruct (command_step order line st1) as [[st2 echo2]|] eqn:Ec; [|done]. injection E as <-.
      exists Answered. split; [|by split; [|intros [_ ?]]]. split; [done|]. right. split; [done|]. by eapply answer_now.
  - destruct rd; [|done]. injection E as <-. rewrite bool_decide_eq_true_2, orb_false_r by done.
    destruct ph; unfold run_inv in Hi; cbn [g_st g_now g_out g_echo g_reading g_raced] in *; [by destruct Hi| |by destruct Hi].
    destruct Hi as (_ & Hst & Hrc & -> & Hp). exists Answered. split; [|by split; [|intros [? _]]].
    split; [done|]. cbn [g_raced]. destruct rc; [left; by split; [|apply Hrc]|right]. split; [done|]. cbn [app].
    eapply answer_now; [exact Hp|]. apply stats_step. by rewrite (event_part_filters _ _ _ _ Hp).
Qed.

Lemma run_inv_run ms taken ph g g' :
  grun ms g = Some g' -> run_inv taken ph g -> existsb is_reload ms = false ->
  samples ms = (if taken then [] else [(w, raw)]) ->
  commands ms = (match ph with Waiting => [line] | _ => [] end) ->
  exists ph', run_inv true ph' g' /\ ph' <> Waiting.
Proof.
  revert taken ph g. induction ms as [|m ms IH]; intros taken ph g; cbn [Goroutines.grun existsb].
  { intros [= <-] Hi _ Hs Hc. destruct taken; [|done]. exists ph. split; [done|]. by destruct ph. }
  destruct (gstep order p m g) as [g1|] eqn:E; [|done]. cbn [mbind option_bind]. intros Hg Hi Hr Hs Hc.
  apply orb_false_iff in Hr as [Hr1 Hr].
  change (m :: ms) with ([m] ++ ms) in Hs, Hc. unfold samples, commands in Hs, Hc. rewrite omap_app in Hs; rewrite omap_app in Hc.
  fold (samples [m]) (samples ms) in Hs. fold (commands [m]) (commands ms) in Hc.
  destruct (run_inv_step taken ph m g g1 E Hi Hr1) as (ph1 & Hi1 & Hw).
  - destruct taken; [|done]. by apply app_eq_nil in Hs as [-> _].
  - destruct taken; [apply app_eq_nil in Hs as [-> _]; apply prefix_nil|by exists (samples ms)].
  - destruct ph; [done| |]; by apply app_eq_nil in Hc as [-> _].
  - destruct ph; [by exists (commands ms)| |]; apply app_eq_nil in Hc as [-> _]; apply prefix_nil.
  - apply (IH _ _ _ Hg Hi1 Hr).
    + destruct taken; cbn [orb]; [by apply app_eq_nil in Hs as [_ ->]|].
      case_bool_decide as Hb; cbn [negb]; [by rewrite Hb in Hs|].
      destruct (samples [m]) as [|x l]; [done|]. cbn in Hs. injection Hs as _ Hs. by apply app_eq_nil in Hs as [_ ->].
    + destruct ph.
      * destruct (commands [m]) as [|x l] eqn:Ecm.
        -- assert (ph1 = Waiting) as -> by by apply Hw. exact Hc.
        -- cbn in Hc. injection Hc as _ Hc. apply app_eq_nil in Hc as [_ ->].
           destruct ph1; [|done|done]. by destruct (proj1 Hw eq_refl).
      * apply app_eq_nil in Hc as [_ ->]. destruct ph1; [|done|done]. by destruct (proj1 Hw eq_refl).
      * apply app_eq_nil in Hc as [_ ->]. destruct ph1; [|done|done]. by destruct (proj1 Hw eq_refl).
Qed.
End Linear.

(** ** Properties *)

Section Properties.
Context {RE : Type} `{Regexp RE} `{SortByCount}.
Context (order : gmap string Z -> list (string * Z)) (p : params).

(** The event loop of Trace, where an event, a reload and a command are one step
    each, is a schedule of the goroutines: they can do the same one access at a
    time, with the same samples read, the same state at the end, the same lines
    printed (up to the order of the two goroutines' lines) and no race. *)
Lemma loop_is_a_schedule acts (st st' : @lstate RE) out :
  loop_run order p acts st = (st', out, false) ->
  exists ms g, grun order p ms (idle st) = Some g /\ g_now g = None /\ g_raced g = false /\ g_st g = st' /\
    samples ms = samples_read acts /\ out ≡ₚ g_out g ++ g_echo g.
Proof.
  unfold idle. enough (Hall : forall out0 echo0, loop_run order p acts st = (st', out, false) ->
    exists ms g, grun order p ms (GState st None out0 echo0 false false) = Some g /\ g_now g = None /\
      g_raced g = false /\ g_st g = st' /\
      samples ms = samples_read acts /\ out0 ++ echo0 ++ out ≡ₚ g_out g ++ g_echo g) by apply (Hall [] []).
  revert st out. induction acts as [|a acts IH]; intros st out out0 echo0; cbn [loop_run].
  { intros [= <- <-]. exists [], (GState st None out0 echo0 false false). by rewrite app_nil_r. }
  destruct (loop_step order p a st) as [[u o1]|] eqn:E; [|done].
  destruct (loop_run order p acts u) as [[st2 o2] quit] eqn:Er. intros [= -> <- ->].
  assert (Hone : exists ms out1 echo1,
    grun order p ms (GState st None out0 echo0 false false) = Some (GState u None out1 echo1 false false) /\
    samples ms = samples_read [a] /\ out1 ++ echo1 ≡ₚ out0 ++ echo0 ++ o1).
  { clear IH Er. destruct a as [w raw|maps now|line]; cbn [loop_step] in E.
    - injection E as E. destruct (read_evt raw) as [e|] eqn:Ee.
      + destruct (steps_finish order p (event_handler p w e (l_frames st) (l_cs st)) (count_event st) out0 echo0 false) as [n Hn].
        rewrite (event_alone p w raw e st Ee), E in Hn. exists (Take w raw :: repeat Step n), (out0 ++ o1), echo0.
        cbn [grun gstep g_now g_st g_out g_echo]. rewrite Ee. split; [exact Hn|]. split.
        * unfold samples. cbn. f_equal. clear. by induction n.
        * rewrite <- app_assoc. by rewrite (Permutation_app_comm o1).
      + exists [Take w raw], out0, echo0. unfold loop_event in E. rewrite Ee in E. injection E as <- <-.
        cbn [grun gstep g_now g_st]. rewrite Ee. by rewrite app_nil_r.
    - injection E as <- <-. exists [Reload maps now], out0, echo0. by rewrite app_nil_r.
    - destruct (reads_counts (l_filters st) line) eqn:Hc.
      + rewrite (stats_step order line st Hc) in E. injection E as <- <-.
        exists [Command line; Answer []], out0, (echo0 ++ printStats order (l_counts st) 25).
        cbn [grun gstep g_st g_reading]. by rewrite Hc.
      + exists [Command line], out0, (echo0 ++ o1). cbn [grun gstep g_st g_reading]. by rewrite Hc, E. }
  destruct Hone as (ms1 & out1 & echo1 & G1 & S1 & P1).
  destruct (IH u o2 out1 echo1 Er) as (ms2 & g & G2 & Hn & Hrc & Hst & S2 & P2).
  exists (ms1 ++ ms2), g. rewrite grun_app, G1. split; [exact G2|]. split; [done|]. split; [done|]. split; [done|]. split.
  - change (a :: acts) with ([a] ++ acts). unfold samples, samples_read in *. by rewrite !omap_app, S1, S2.
  - rewrite <- P2, !app_assoc, P1. by rewrite !app_assoc.
Qed.

(** C4. Timing does not touch what is learned.  However the accesses of the event
    loop, the reloads and the commands are interleaved, after the same samples
    the name caches and the number of events are the same, and so are the
    frames up to their texts: which calls are open, their slots, times and
    arguments depend on the samples alone, never on what the user types or on
    when the module map is read. *)
Theorem timing_unobserved ms1 ms2 (st : @lstate RE) g1 g2 :
  grun order p ms1 (idle st) = Some g1 -> grun order p ms2 (idle st) = Some g2 ->
  g_now g1 = None -> g_now g2 = None -> samples ms1 = samples ms2 ->
  l_cs (g_st g1) = l_cs (g_st g2) /\ l_total (g_st g1) = l_total (g_st g2) /\
  blanks (l_frames (g_st g1)) = blanks (l_frames (g_st g2)).
Proof.
  intros R1 R2 N1 N2 Es.
  destruct (grun_tracks order p _ _ _ _ R1 (idle_tracks st)) as [T1 O1].
  destruct (grun_tracks order p _ _ _ _ R2 (idle_tracks st)) as [T2 O2].
  rewrite N1, Es in *. rewrite N2 in O2. rewrite T1, T2. rewrite <- O2 in O1. by injection O1 as -> ->.
Qed.

(** C5. One command typed while an event is handled looks as if it had been typed
    before or after it, although the loop tests the slot and the line in two
    critical sections and [stats] reads the counts while the loop runs: in
    every schedule of one sample and one command, wherever the accesses, the
    command and its answer fall, the state, the lines of the event and the
    answer are those of one of the two orders.  The one exception is a race:
    under [--count] the loop wrote to the counts while [stats] read them. *)
Theorem one_command_linearizes w raw line (st : @lstate RE) ms g :
  grun order p ms (idle st) = Some g -> g_now g = None -> g_reading g = false ->
  samples ms = [(w, raw)] -> commands ms = [line] -> existsb is_reload ms = false ->
  sequential order p w raw line st (g_st g) (g_out g) (g_echo g) \/
  (g_raced g = true /\ c_count (p_conf p) = true /\ reads_counts (l_filters st) line = true).
Proof.
  intros Hg Hn Hr Hs Hc Hre.
  destruct (run_inv_run order p w raw line st ms false Waiting (idle st) g Hg) as (ph & Hi & Hph); [done|done|done|done|].
  destruct ph; [done|by destruct Hi; congruence|]. destruct Hi as [_ [[? [? ?]]|[_ Ha]]]; [by right|left].
  unfold answered in Ha. by rewrite Hn in Ha.
Qed.

End Properties.

(** Samples read one after another never end the process. *)
Lemma loop_run_events {RE : Type} `{Regexp RE} `{SortByCount} (order : gmap string Z -> list (string * Z)) p
    (l : list (world * list byte)) (st : @lstate RE) :
  exists st' out, loop_run order p (map (fun s => AEvent s.1 s.2) l) st = (st', out, false).
Proof.
  revert st. induction l as [|s l IH]; intros st; cbn [map loop_run loop_step]; [by eexists _, _|].
  destruct (loop_event p s.1 s.2 st) as [u o]. destruct (IH u) as (st' & out & E). rewrite E. by eexists _, _.
Qed.

(** The samples read are the events [es], in order. *)
Definition samples_are (l : list (world * list byte)) (es : list evt_t) : Prop :=
  Forall2 (fun s e => exists old, s.2 = raw_sample old e) l es.

Lemma samples_reads l es : samples_are l es -> reads es (map (fun s => AEvent s.1 s.2) l).
Proof. induction 1 as [|s e l es [old E] _ IH]; cbn; [constructor|]. rewrite E. by constructor. Qed.

Lemma samples_read_events l : samples_read (map (fun s => AEvent s.1 s.2) l) = l.
Proof. induction l as [|[w raw] l IH]; [done|]. unfold samples_read in *. cbn. by rewrite IH. Qed.

Section Whole.
Context {R U : Type} `{HR : PtRegsLaws R} `{HU : UserMemLaws U}.
Context {RE : Type} `{Regexp RE} `{SortByCount}.
Context (order : gmap string Z -> list (string * Z)).

(** C2. The tracer as a whole, nothing assumed to happen at once.  The threads of
    the target interleave their helper calls in any way; the loader's three
    goroutines interleave their critical sections in any way, as late as they
    like: reloads and commands fall anywhere between two accesses of the event
    loop.  Start from the maps as loaded and set up for any options and any
    slot table that fits.  Then, as long as nothing is lost, the loader's
    frames between two events are exactly the calls open after the hits whose
    events it has read, each with that call's slot, time and arguments. *)
Theorem session_goroutines (c : config) (f : filters RE) base (offsets : gmap Z Z) l1 l2
    (scripts : gmap Z (list (@hit R U))) r ts m es ms pid maps now g :
  l1 ≡ₚ map_to_list offsets -> l2 ≡ₚ map_to_list offsets -> (size offsets <= 2048)%nat ->
  configure c f base fresh_maps l1 l2 = Some r ->
  let su := r.1 in
  let p := params_of c offsets base su in
  (forall t sc, scripts !! t = Some sc -> Forall (fun h => hit_tid h = t) sc) ->
  recon_schedule ts (recon_start (su_maps su) scripts) = Some m ->
  c_lost m = false -> lossless (su_maps su) (hits m) = true -> Forall hit_ok (hits m) ->
  Z.of_nat (length (hits m)) < 2 ^ 31 ->
  es `prefix_of` delivered (c_ring m) -> samples_are (samples ms) es ->
  grun order p ms (idle (initial_state f pid maps now)) = Some g -> g_now g = None ->
  frames_sim p (l_frames (g_st g)) (open_calls (su_maps su) ∅ (hits m) es).
Proof.
  intros P1 P2 Hsz Er su p Hsc Hs Hlost Hl Hok Hlen Hpre Hr Hrun Hn.
  destruct (loop_run_events order p (samples ms) (initial_state f pid maps now)) as (st' & out & Elr).
  pose proof (loop_run_tracks order p _ _ _ _ _ [] [] Elr (idle_tracks (initial_state f pid maps now))) as [_ T1].
  destruct (grun_tracks order p _ _ _ _ Hrun (idle_tracks (initial_state f pid maps now))) as [_ T2].
  rewrite samples_read_events in T1. rewrite Hn, <- T1 in T2. cbn [g_st g_now] in T2.
  apply (frames_sim_blanks p (l_frames st')); [by injection T2|].
  pose proof (configure_done c f base offsets l1 l2 r P1 P2 Hsz Er) as D. fold su in D.
  pose proof (configure_result_bytes _ _ _ _ _ _ D) as Hby. destruct D as [Hcfg _ _ _ Hh Hd _ _ _].
  destruct (schedule_ok (su_maps su) scripts ts m Hsc Hs Hlost Hl) as [_ _ C3 _ _ _].
  pose proof (delivered_prefix _ _ C3) as Hdel.
  eapply (loader_follows order p es _ (samples_reads _ _ Hr) (su_maps su) _ st' ∅ (hits m)); try done.
  - apply init_inv; [by constructor| |done]. intros tid. unfold height. by rewrite Hd.
  - by etrans.
Qed.
End Whole.

(** ** Examples *)

Definition demo_params2 : params :=
  Params demo_config {[0x300 := 34; 0x500 := 171]} demo_base {[34]} {[34]}.

(** [GetArrayLength(0x20)] by thread 42, not tracked. *)
Definition demo_raw : list byte :=
  raw_sample (fun _ => zero_byte)
    (Evt 41 42 0 0 (demo_base + 0x500) 0 2000 (2 ^ 32 - 1) 0 0x7100000abc [0x10; 0x20; 0; 0; 0] 0 0 0 0
       (repeat 0 NCAP) (repeat 0 NCAP) 0 0 0 0 (2 ^ 32 - 1)).

(** The command [grep] arrives when the slot has been accepted: the line is not
    shown, as if the command had been first. *)
Definition demo_one : list move :=
  Take demo_world demo_raw :: repeat Step 2 ++ Command "grep Field" :: repeat Step 2.

Lemma one_command_linearizes_witness :
  exists g, grun demo_order demo_params2 demo_one (idle demo_state) = Some g /\
    sequential demo_order demo_params2 demo_world demo_raw "grep Field" demo_state (g_st g) (g_out g) (g_echo g) /\
    g_out g = [] /\ g_echo g = ["[cmd] grep = Field"].
Proof.
  assert (E : exists g, grun demo_order demo_params2 demo_one (idle demo_state) = Some g /\ g_now g = None /\
    g_reading g = false /\ g_raced g = false /\ g_out g = [] /\ g_echo g = ["[cmd] grep = Field"])
    by (eexists; split; [vm_compute; reflexivity|repeat split]).
  destruct E as (g & E & Hn & Hr & Hrc & Ho & He). exists g. split; [exact E|]. split; [|by split].
  destruct (one_command_linearizes demo_order demo_params2 demo_world demo_raw "grep Field" demo_state demo_one g E Hn Hr)
    as [T|[T _]]; [reflexivity|reflexivity|reflexivity|exact T|congruence].
Defined.



Lemma timing_unobserved_witness :
  exists g1 g2,
    grun demo_order demo_params2 demo_one (idle demo_state) = Some g1 /\
    grun demo_order demo_params2 ([Take demo_world demo_raw; Step; Reload None 9] ++ repeat Step 4) (idle demo_state) = Some g2 /\
    g_out g1 <> g_out g2 /\ l_total (g_st g1) = l_total (g_st g2) /\
    blanks (l_frames (g_st g1)) = blanks (l_frames (g_st g2)).
Proof.
  set (ms2 := [Take demo_world demo_raw; Step; Reload None 9] ++ repeat Step 4).
  assert (E1 : exists g, grun demo_order demo_params2 demo_one (idle demo_state) = Some g /\ g_now g = None /\
    g_out g = []) by (eexists; split; [vm_compute; reflexivity|repeat split]).
  assert (E2 : exists g, grun demo_order demo_params2 ms2 (idle demo_state) = Some g /\ g_now g = None /\
    g_out g = ["-> GetArrayLength(0x20)"]) by (eexists; split; [vm_compute; reflexivity|repeat split]).
  destruct E1 as (g1 & E1 & N1 & O1), E2 as (g2 & E2 & N2 & O2). exists g1, g2.
  destruct (timing_unobserved demo_order demo_params2 demo_one ms2 demo_state g1 g2 E1 E2 N1 N2 eq_refl) as (_ & T1 & T2).
  rewrite O1, O2. split; [exact E1|]. split; [exact E2|]. split; [discriminate|]. by split.
Defined.

(** A reload and a command fall into every event. *)
Definition busy_moves (es : list evt_t) (ns : list nat) : list move :=
  flat_map (fun x => [Take demo_world (raw_sample (fun _ => zero_byte) x.1); Reload None 0; Command "grep x"] ++ repeat Step x.2)
    (combine es ns).

Lemma busy_samples es ns : length es = length ns -> samples_are (samples (busy_moves es ns)) es.
Proof.
  unfold samples_are, samples, busy_moves. revert ns.
  induction es as [|e es IH]; intros [|n ns] Hl; try discriminate Hl; [constructor|].
  assert (E : omap sample_of (repeat Step n) = []) by (clear; induction n as [|n IH]; [done|exact IH]).
  cbn [combine flat_map fst snd]. rewrite !omap_app, E.
  apply Forall2_cons; split; [exists (fun _ => zero_byte); exact eq_refl|]. apply IH. by injection Hl.
Qed.

Definition demo_moves : list move := busy_moves demo_events [3; 3; 4]%nat.

Lemma session_goroutines_witness :
  exists g,
    grun demo_order (params_of demo_config demo_offsets demo_base demo_su) demo_moves
      (idle (initial_state demo_filters 41 None 0)) = Some g /\
    l_frames (g_st g) !! (42, 0) = None /\ l_frames (g_st g) !! (43, 0) <> None.
Proof.
  assert (E : exists g, grun demo_order (params_of demo_config demo_offsets demo_base demo_su) demo_moves
      (idle (initial_state demo_filters 41 None 0)) = Some g /\ g_now g = None)
    by (eexists; split; [vm_compute; reflexivity|reflexivity]).
  destruct E as (g & Er & Hn). exists g. split; [exact Er|].
  destruct demo_machine as [m|] eqn:Em; [|vm_compute in Em; discriminate].
  assert (Hm : match demo_machine with
    | Some m => c_lost m = false /\ lossless (su_maps demo_su) (hits m) = true /\
        hits m = [Entry (demo_thread_hit 42 0x300); Entry (demo_thread_hit 43 0x300);
                  Return (demo_thread_hit 42 0x500); Return (demo_thread_hit 43 0x500)]
    | None => False end) by (vm_compute; tauto).
  rewrite Em in Hm. destruct Hm as (M1 & M2 & M3).
  assert (Hs : frames_sim (params_of demo_config demo_offsets demo_base demo_su) (l_frames (g_st g))
    (open_calls (su_maps demo_su) ∅ (hits m) demo_events)).
  { eapply (session_goroutines demo_order demo_config demo_filters demo_base demo_offsets
      (map_to_list demo_offsets) (map_to_list demo_offsets) demo_scripts demo_setup demo_turns m demo_events demo_moves 41 None 0).
    - reflexivity.
    - reflexivity.
    - vm_compute; lia.
    - exact (configure_fresh demo_config demo_filters demo_base _ _).
    - intros t sc Hsc. apply elem_of_list_to_map_2, list_elem_of_In in Hsc.
      destruct Hsc as [Hsc|[Hsc|[]]]; injection Hsc as <- <-; repeat constructor.
    - exact Em.
    - exact M1.
    - exact M2.
    - rewrite M3. pose proof (demo_thread_fits 42 0x300 ltac:(lia)) as F1. pose proof (demo_thread_fits 43 0x300 ltac:(lia)) as F2.
      pose proof (demo_thread_fits 42 0x500 ltac:(lia)) as F3. pose proof (demo_thread_fits 43 0x500 ltac:(lia)) as F4.
      constructor; [exact F1|constructor; [exact F2|constructor; [exact F3|constructor; [exact F4|constructor]]]].
    - rewrite M3. vm_compute. reflexivity.
    - unfold demo_events. rewrite Em. apply prefix_take.
    - apply busy_samples. vm_compute. reflexivity.
    - exact Er.
    - exact Hn. }
  rewrite M3 in Hs. clear Er Em. set (calls := open_calls _ _ _ _) in Hs.
  assert (O1 : open_at calls 42 0 = None) by (vm_compute; reflexivity).
  assert (O2 : exists e, open_at calls 43 0 = Some e) by (vm_compute; eexists; reflexivity).
  clearbody calls. destruct O2 as [e O2].
  assert (Hp : forall tid, passes (params_of demo_config demo_offsets demo_base demo_su) tid)
    by (intros tid; left; reflexivity).
  pose proof (Hs 42 0 ltac:(unfold fits; lia) (Hp 42)) as S1.
  pose proof (Hs 43 0 ltac:(unfold fits; lia) (Hp 43)) as S2.
  change (s32 42) with 42 in S1. change (s32 43) with 43 in S2. rewrite O1 in S1. rewrite O2 in S2. split.
  - destruct (l_frames (g_st g) !! (42, 0)); [destruct S1|reflexivity].
  - intros E. rewrite E in S2. exact S2.
Defined.

(** ** Two commands during one event *)

(** The tracer was filtering on [grep zzz]. *)
Definition grepping : @lstate string := set_filters demo_state (set_grep demo_filters "zzz").

Definition demo_two : list move :=
  [Take demo_world demo_raw; Step; Step; Command "only FindClass"; Command "grep Array"; Step; Step; Step].

(** Two commands are one too many: [matchSlot] and [matchLine] take the mutex
    separately, and when [only FindClass] and [grep Array] both arrive between
    them, a call of [GetArrayLength] is printed that no setting of the filters
    ever selected; the three sequential orders print nothing. *)
Theorem two_commands_tear :
  g_out <$> grun demo_order demo_params2 demo_two (idle grepping) = Some ["-> GetArrayLength(0x20)"] /\
  Forall (fun acts => Forall (fun l => HasPrefix l "[cmd]" = true) (loop_run demo_order demo_params2 acts grepping).1.2)
    [[AEvent demo_world demo_raw; ACommand "only FindClass"; ACommand "grep Array"];
     [ACommand "only FindClass"; AEvent demo_world demo_raw; ACommand "grep Array"];
     [ACommand "only FindClass"; ACommand "grep Array"; AEvent demo_world demo_raw]].
Proof. split; [vm_compute; reflexivity|]. repeat constructor. Qed.
