(* ===== verification/Modes.v ===== *)
(** * Modes: the three output modes against each other

    [--json] and [--count] change how a line leaves the tracer and nothing
    else.  The three modes are run side by side on one schedule of the
    goroutines (Goroutines).  The examples at the end show where the printed
    text and what is counted, encoded or searched for part. *)

From S2P Require Import Prelude GoStr Strconv CTypes Target Schema Bpf Recon Wire FloatFmt Filters.
From S2P Require Import Decode Modules Output Trace Pairing Attach Startup Goroutines.

(** The options with [--count] and [--json] set as given. *)
Definition mode_config (count json : bool) (c : config) : config :=
  Config (c_pid c) (c_name c) (c_runSec c) (c_offsets c) (c_libart c) (c_modes c) (c_only c) (c_exclude c)
    (c_noReturns c) (c_maxDepth c) (c_grep c) (c_classRe c) (c_methodRe c) (c_from c) (c_tid c) (c_verbose c)
    count json (c_noColor c) (c_stack c).

Definition mode_params (count json : bool) (p : params) : params :=
  Params (mode_config count json (p_conf p)) (p_offsets p) (p_base p) (p_callSet p) (p_retSet p).

Section Modes.
Context {RE : Type} `{Regexp RE} `{SortByCount}.
Context (order : gmap string Z -> list (string * Z)) (p : params) (count json : bool).

Abbreviation lstate := (@lstate RE).
Abbreviation q := (mode_params count json p).
Abbreviation plain := (mode_params false false p).

(** Without [--stack] a handler prints through [emit] only. *)
Fixpoint emits_only (h : handler) : Prop :=
  match h with
  | Leave _ _ => True
  | OfFirst _ _ k => forall name stale, emits_only (k name stale)
  | OfReload _ _ _ k => forall name, emits_only (k name)
  | TestSlot _ k | TestLine _ _ _ _ k => forall b, emits_only (k b)
  | Emit _ k => emits_only k
  | LookUp _ k => forall module, emits_only (k module)
  | Print _ _ => False
  end.

Lemma event_emits_only (p0 : params) w e fs cs :
  c_stack (p_conf p0) = false -> emits_only (event_handler p0 w e fs cs).
Proof.
  intros Hs. unfold event_handler. destruct (negb _ && _); [done|]. destruct (Kind e =? 1).
  - unfold return_handler. destruct (Depth e <? 0); [done|]. destruct (fs !! _) as [fr|]; [|done].
    intros b. destruct (b && _); [|done]. destruct (too_deep _ _); [done|].
    destruct (splitClassMethod _). by intros [|].
  - destruct (p_offsets p0 !! _) as [slot|]; [|done]. unfold entry_handler.
    assert (Hof : forall k, (forall caller, emits_only (k caller)) -> emits_only (of_handler (Caller e) w k)).
    { intros k Hall name stale. destruct (String.eqb name "" && stale); [intros n|]; apply Hall. }
    apply Hof. intros caller b. destruct (negb b); [done|]. destruct (too_deep _ _); [done|].
    unfold stack_handler. rewrite Hs. destruct (isCallMethod _).
    + destruct (describeCall _ _ _ _) as [call known]. destruct (splitClassMethod call) as [cls meth].
      destruct (known || _); [|done]. by intros [|].
    + by intros [|].
Qed.

(** The modes share their handlers. *)
Lemma event_handler_mode w e fs cs :
  c_stack (p_conf p) = false -> event_handler q w e fs cs = event_handler plain w e fs cs.
Proof.
  intros Hs. destruct p as [c offs base cset rset]. cbn [p_conf] in Hs.
  unfold event_handler, entry_handler, stack_handler. cbn [mode_params mode_config p_conf c_stack c_count]. by rewrite Hs.
Qed.

(** One access in the two modes: the counts and what is printed may differ. *)
Lemma hstep_mode h (st : lstate) counts :
  emits_only h ->
  match hstep plain h st, hstep q h (set_counts st counts) with
  | (h1, st1, out1), (h2, st2, out2) =>
      h2 = h1 /\ st2 = set_counts st1 (l_counts st2) /\ (forall h', h1 = Some h' -> emits_only h') /\
      (out1 = [] /\ out2 = [] /\ l_counts st2 = counts \/
       exists line, out1 = [line] /\ (l_counts st2, out2) = emit (p_conf q) counts line)
  end.
Proof.
  destruct h as [fs cs|addr now k|addr maps now k|slot k|cls meth line caller k|line k|addr k|line k];
    cbn [emits_only hstep]; intros Hk.
  - split; [done|]. split; [done|]. split; [done|by left].
  - split; [done|]. split; [done|]. split; [intros h' [= <-]; apply Hk|by left].
  - destruct (loadModules maps) as [r b]. split; [done|]. split; [done|]. split; [intros h' [= <-]; apply Hk|by left].
  - split; [done|]. split; [done|]. split; [intros h' [= <-]; apply Hk|by left].
  - split; [done|]. split; [done|]. split; [intros h' [= <-]; apply Hk|by left].
  - cbn [emit p_conf mode_params mode_config c_count c_jsonOut set_counts l_counts].
    destruct (emit _ counts line) as [m o] eqn:E. split; [done|]. split; [done|].
    split; [intros h' [= <-]; exact Hk|]. right. by exists line.
  - split; [done|]. split; [done|]. split; [intros h' [= <-]; apply Hk|by left].
  - done.
Qed.

(** In plain mode nothing is counted. *)
Lemma grun_plain_counts ms g g1 : grun order plain ms g = Some g1 -> l_counts (g_st g1) = l_counts (g_st g).
Proof.
  revert g. induction ms as [|m ms IH]; intros g; cbn [grun]; [by intros [= <-]|].
  destruct (gstep order plain m g) as [g2|] eqn:E; [|done]. cbn [mbind option_bind]. intros Hg. rewrite (IH _ Hg).
  destruct g as [st now out echo rd rc]. destruct m as [w raw| |maps t|line|torn]; cbn [gstep g_now g_st g_reading] in *.
  - destruct now; [done|]. destruct (read_evt raw); by injection E as <-.
  - destruct now as [h|]; [|done]. cbn [mbind option_bind] in E.
    destruct (hstep plain h st) as [[h' st'] o] eqn:Eh. injection E as <-. cbn [g_st].
    destruct h; cbn [hstep] in Eh; try by injection Eh as <- <- <-.
    destruct (loadModules maps). by injection Eh as <- <- <-.
  - by injection E as <-.
  - destruct rd; [done|]. destruct (reads_counts _ _); [by injection E as <-|].
    rewrite command_step_effect in E. destruct (command_effect _ _ _ _) as [[f e]|]; [|done]. by injection E as <-.
  - destruct rd; [|done]. by injection E as <-.
Qed.

(** Two runs of the same moves, [g] in plain mode and [g'] in the other: equal but
    for the counts, and what was printed since the start is related by [I]. *)
Definition side_by_side (I : gmap string Z -> list string -> list string -> Prop) (g g' : @gstate RE) : Prop :=
  g_now g' = g_now g /\ g_reading g' = g_reading g /\ g_st g' = set_counts (g_st g) (l_counts (g_st g')) /\
  (forall h, g_now g = Some h -> emits_only h) /\ I (l_counts (g_st g')) (g_out g) (g_out g').

Context (I : gmap string Z -> list string -> list string -> Prop).
Context (Iemit : forall counts out out' line,
  I counts out out' ->
  let '(counts1, o) := emit (p_conf q) counts line in I counts1 (out ++ [line]) (out' ++ o)).

Lemma gstep_mode m g g1 g' :
  c_stack (p_conf p) = false -> gstep order plain m g = Some g1 -> side_by_side I g g' ->
  exists g1', gstep order q m g' = Some g1' /\ side_by_side I g1 g1'.
Proof.
  intros Hs. destruct g as [st now out echo rd rc], g' as [st' now' out' echo' rd' rc'].
  intros Hg (Hn & Hrd & Hst & Hh & HI). cbn [g_now g_st g_out g_reading] in *. subst now' rd'.
  destruct m as [w raw| |maps t|line|torn]; cbn [gstep g_now g_st g_out g_echo g_reading g_raced] in *.
  - destruct now as [h|]; [done|]. destruct (read_evt raw) as [e|].
    + injection Hg as <-. eexists. split; [reflexivity|]. rewrite Hst. split; cbn [g_now g_st g_out].
      * by rewrite event_handler_mode.
      * split; [done|]. split; [done|]. split; [|exact HI]. intros h [= <-]. by apply (event_emits_only plain).
    + injection Hg as <-. eexists. split; [reflexivity|]. by split.
  - destruct now as [h|]; [|done]. cbn [mbind option_bind] in *.
    pose proof (hstep_mode h st (l_counts st') (Hh h eq_refl)) as Hm. rewrite <- Hst in Hm.
    destruct (hstep plain h st) as [[h1 st1] out1]. destruct (hstep q h st') as [[h2 st2] out2].
    destruct Hm as (-> & Hst2 & Hh2 & Hd). injection Hg as <-. eexists. split; [reflexivity|].
    split; [done|]. cbn [g_now g_st g_out g_reading]. split; [done|]. split; [exact Hst2|]. split; [exact Hh2|].
    destruct Hd as [(-> & -> & ->)|(line & -> & E)]; [by rewrite !app_nil_r|].
    pose proof (Iemit (l_counts st') out out' line HI) as Hi. rewrite <- E in Hi. exact Hi.
  - injection Hg as <-. eexists. split; [reflexivity|]. rewrite Hst. by split.
  - destruct rd; [done|]. rewrite Hst. cbn [set_counts l_filters]. destruct (reads_counts _ _) eqn:Ers.
    { injection Hg as <-. eexists. split; [reflexivity|]. by split. }
    rewrite command_step_effect in *. cbn [set_counts l_filters l_counts].
    destruct (command_effect order line (l_filters st) (l_counts st)) as [[f e]|] eqn:E; [|done].
    cbn in Hg. injection Hg as <-.
    destruct (command_effect_cases _ _ _ _ _ _ E) as [_ Hc].
    assert (E2 : exists e2, command_effect order line (l_filters st) (l_counts st') = Some (f, e2)).
    { destruct Hc as [->|Hc]; [|by eexists; apply Hc]. clear -E. unfold command_effect in *.
      destruct (String.eqb _ _); [by eexists|]. destruct (applyCommand _ _); try done; by eexists. }
    destruct E2 as [e2 ->]. eexists. split; [reflexivity|]. by split.
  - destruct rd; [|done]. injection Hg as <-. eexists. split; [reflexivity|]. by split.
Qed.

Lemma grun_mode ms g g1 g' :
  c_stack (p_conf p) = false -> grun order plain ms g = Some g1 -> side_by_side I g g' ->
  exists g1', grun order q ms g' = Some g1' /\ side_by_side I g1 g1'.
Proof.
  intros Hs. revert g g'. induction ms as [|m ms IH]; intros g g'; cbn [grun].
  { intros [= <-] Hr. by exists g'. }
  destruct (gstep order plain m g) as [g2|] eqn:E; [|done]. cbn [mbind option_bind]. intros Hg Hr.
  destruct (gstep_mode m g g2 g' Hs E Hr) as (g2' & E' & Hr'). rewrite E'. by apply (IH g2).
Qed.

Lemma idle_side_by_side (st : lstate) : I (l_counts st) [] [] -> side_by_side I (idle st) (idle st).
Proof. intros Hi. split; [done|]. split; [done|]. split; [by destruct st|]. by split. Qed.
End Modes.

(** ** Properties *)

Section Properties.
Context {RE : Type} `{Regexp RE} `{SortByCount}.
Context (order : gmap string Z -> list (string * Z)) (p : params).

(** C7. The output modes agree.  Take any schedule of the goroutines without
    [--stack], and the lines the events print in plain mode.  With [--json] the
    same schedule leaves the same state and prints those lines in the same
    order, each as its JSON object; with [--count] the events print nothing,
    the state is the same but for the counts, and the count of every line has
    grown by the number of times it was printed in plain mode. *)
Theorem output_modes_agree ms (st : @lstate RE) g :
  c_stack (p_conf p) = false ->
  grun order (mode_params false false p) ms (idle st) = Some g ->
  (exists gj, grun order (mode_params false true p) ms (idle st) = Some gj /\
     g_st gj = g_st g /\ g_out gj = map marshal_line (g_out g)) /\
  (forall json, exists gc, grun order (mode_params true json p) ms (idle st) = Some gc /\
     g_st gc = set_counts (g_st g) (l_counts (g_st gc)) /\ g_out gc = [] /\
     forall line, count_of (l_counts (g_st gc)) line =
                  count_of (l_counts st) line + Z.of_nat (count_occ String.string_dec (g_out g) line)).
Proof.
  intros Hs Hg. split; [|intros json].
  - set (I := fun counts out out' => counts = l_counts st /\ out' = map marshal_line out).
    destruct (grun_mode order p false true I) with (ms := ms) (g := idle st) (g1 := g) (g' := idle st)
      as (gj & Hj & Hn & _ & Hst & _ & Hc & Ho); [|done|done|by apply idle_side_by_side|].
    { intros counts out out' line [-> ->]. split; [done|]. by rewrite map_app. }
    exists gj. split; [done|]. split; [|done].
    pose proof (grun_plain_counts order p ms (idle st) g Hg) as Hp. cbn [idle g_st] in Hp. rewrite Hst, Hc, <- Hp. by destruct (g_st g).
  - set (I := fun counts out (out' : list string) => out' = [] /\
      forall line, count_of counts line = count_of (l_counts st) line + Z.of_nat (count_occ String.string_dec out line)).
    destruct (grun_mode order p true json I) with (ms := ms) (g := idle st) (g1 := g) (g' := idle st)
      as (gc & Hj & Hn & _ & Hst & _ & Ho & Hc); [|done|done| |by exists gc].
    { intros counts out out' line [-> Hc]. pose proof (emit_count (mode_config true json (p_conf p)) counts line eq_refl) as [E1 E2].
      cbn [p_conf mode_params]. destruct (emit _ counts line) as [m o]. cbn [fst snd] in *. subst o. split; [done|].
      intros l. rewrite E2, Hc, count_occ_app, Nat2Z.inj_add. cbn [count_occ].
      destruct (String.string_dec line l), (decide (l = line)); subst; try done; cbn; lia. }
    apply idle_side_by_side. split; [done|]. intros line. cbn. lia.
Qed.
End Properties.

(** ** Examples *)

(** [FindClass] at offset 0x600, traced with its returns. *)
Definition demo_params3 (count json stack : bool) : params :=
  let c := mode_config count json demo_config in
  Params (Config (c_pid c) (c_name c) (c_runSec c) (c_offsets c) (c_libart c) (c_modes c) (c_only c) (c_exclude c)
    (c_noReturns c) (c_maxDepth c) (c_grep c) (c_classRe c) (c_methodRe c) (c_from c) (c_tid c) (c_verbose c)
    (c_count c) (c_jsonOut c) (c_noColor c) stack) {[0x600 := 6]} demo_base ∅ {[6]}.

(** An entry or return of thread 42 at depth 0, with a stack. *)
Definition demo_sample (kind ts : Z) : list byte :=
  raw_sample (fun _ => zero_byte)
    (Evt 41 42 kind 0 (demo_base + 0x600) 0x99 ts 0 0 0x7100000abc [0x10; 0x20; 0; 0; 0] 0 0 0 0
       (repeat 0 NCAP) (repeat 0 NCAP) 0 0 0 7 0).

Definition demo_stacks : world := World None None 0 0 (fun _ => Some [0x1234; 0]).

Definition demo_twice : list action :=
  [AEvent demo_world (demo_sample 0 1000000); AEvent demo_world (demo_sample 1 2000000);
   AEvent demo_world (demo_sample 0 3000000); AEvent demo_world (demo_sample 1 5000000)].

(** The two calls handled one access at a time, with a reload and a command inside. *)
Definition demo_run : list move :=
  [Take demo_world (demo_sample 0 1000000); Step; Reload None 5] ++ repeat Step 4 ++
  Take demo_world (demo_sample 1 2000000) :: repeat Step 4 ++
  [Take demo_world (demo_sample 0 3000000); Step; Step; Command "stats"; Answer []] ++ repeat Step 3.

Lemma output_modes_agree_witness :
  exists gj gc,
    grun demo_order (mode_params false true (demo_params3 false false false)) demo_run (idle demo_state) = Some gj /\
    grun demo_order (mode_params true false (demo_params3 false false false)) demo_run (idle demo_state) = Some gc /\
    length (g_out gj) = 3%nat /\ g_out gc = [] /\
    count_of (l_counts (g_st gc)) ("-> FindClass(" ++s quoted "" ++s ")") = 2.
Proof.
  assert (E : exists g, grun demo_order (mode_params false false (demo_params3 false false false)) demo_run (idle demo_state) = Some g /\
    length (g_out g) = 3%nat /\
    count_occ String.string_dec (g_out g) ("-> FindClass(" ++s quoted "" ++s ")") = 2%nat)
    by (eexists; split; [vm_compute; reflexivity|split; vm_compute; reflexivity]).
  destruct E as (g & Eg & E3 & E2).
  destruct (output_modes_agree demo_order (demo_params3 false false false) demo_run demo_state g eq_refl Eg)
    as [(gj & Ej & _ & Oj) Hc].
  destruct (Hc false) as (gc & Ec & _ & Oc & Hcount). exists gj, gc.
  split; [exact Ej|]. split; [exact Ec|]. split; [by rewrite Oj, length_map|]. split; [exact Oc|].
  rewrite Hcount, E2. vm_compute. reflexivity.
Defined.

(** What is counted is the line, and a return line has its duration in it: two
    returns of one call, 1 ms and 2 ms long, are counted apart. *)
Theorem count_splits_returns :
  let counts := l_counts (loop_run demo_order (demo_params3 true false false) demo_twice demo_state).1.1 in
  let call := "FindClass(" ++s quoted "" ++s ")" in
  counts !! ("-> " ++s call) = Some 2 /\
  counts !! ("<- " ++s call ++s " = 0x99  (1.000 ms)") = Some 1 /\
  counts !! ("<- " ++s call ++s " = 0x99  (2.000 ms)") = Some 1.
Proof. repeat split; vm_compute; reflexivity. Qed.

(** The stack of a line is printed as plain text under [--json] too. *)
Theorem json_stack_is_plain :
  let out := (loop_run demo_order (demo_params3 false true true) [AEvent demo_stacks (demo_sample 0 1000000)] demo_state).1.2 in
  out = [marshal_line ("-> FindClass(" ++s quoted "" ++s ")"); "   #0 0x1234"; "   #1 0x7100000abc"].
Proof. vm_compute. reflexivity. Qed.

(** [--grep] tests the call and its return value joined without the " = " that is
    printed between them: "= 0x99" finds no line although the return line
    contains it, and ")0x99" finds the line that does not. *)
Theorem grep_tests_unprinted_text :
  let run g := (loop_run demo_order (demo_params3 false false false)
                 [AEvent demo_world (demo_sample 0 1000000); AEvent demo_world (demo_sample 1 2000000)]
                 (set_filters demo_state (set_grep demo_filters g))).1.2 in
  let line := "<- FindClass(" ++s quoted "" ++s ") = 0x99  (1.000 ms)" in
  Contains line "= 0x99" = true /\ run "= 0x99" = [] /\
  Contains line ")0x99" = false /\ run ")0x99" = [line].
Proof. repeat split; vm_compute; reflexivity. Qed.
