(* ===== verification/Layout.v ===== *)
(** * Layout: C declarations and their object layout

    The declarations of vmlinux.h as data ([cty]) and the layout the BPF
    target gives them (LP64, natural alignment, bit-fields packed into units
    of their declared type, unnamed ones asking for no alignment): sizes, alignments, and where a member reached by
    a path lies.  Positions are in bits.  The theorems at the end say that a
    member reached through any path lies inside its object and is aligned. *)

From S2P Require Import Prelude CTypes.

(** ** Declarations *)

(** A member: name (empty if it has none), width if it is a bit-field, type. *)
Record mem (T : Type) := Mem { m_name : string; m_bits : option Z; m_type : T }.
Arguments Mem {T}.
Arguments m_name {T}.
Arguments m_bits {T}.
Arguments m_type {T}.

(** [CPtr] keeps what it points to as the source spells it; a function
    pointer as its result and parameter types.  An enumeration with no negative
    enumerator is an unsigned int. *)
Inductive cty :=
  | CInt (bytes : Z) (signed : bool)
  | CEnm (tag : string)
  | CPtr (to : string)
  | CArr (t : cty) (n : Z)
  | CStruct (fs : list (mem cty))
  | CUnion (fs : list (mem cty)).

Definition char : cty := CInt 1 true.
Definition schar : cty := CInt 1 true.
Definition uchar : cty := CInt 1 false.
Definition short : cty := CInt 2 true.
Definition ushort : cty := CInt 2 false.
Definition int : cty := CInt 4 true.
Definition uint : cty := CInt 4 false.
Definition long : cty := CInt 8 true.
Definition ulong : cty := CInt 8 false.
Definition llong : cty := CInt 8 true.
Definition ullong : cty := CInt 8 false.
Definition uint128 : cty := CInt 16 false.
Definition _Bool : cty := CInt 1 false.
Definition enum (tag : string) : cty := CEnm tag.
Definition ptr (to : string) : cty := CPtr to.

Definition fld (x : string) (t : cty) : mem cty := Mem x None t.
Definition anon (t : cty) : mem cty := Mem EmptyString None t.
Definition bit (x : string) (t : cty) (w : Z) : mem cty := Mem x (Some w) t.
Definition pad (t : cty) (w : Z) : mem cty := Mem EmptyString (Some w) t.

(** ** Sizes and alignments *)

(** What a member asks of the alignment of its record: an unnamed bit-field
    takes its bits and asks for nothing. *)
Definition held (m : mem cty) (a : Z) : Z :=
  match m_bits m with
  | Some _ => if String.eqb (m_name m) EmptyString then 1 else a
  | None => a
  end.

Fixpoint align (t : cty) : Z :=
  match t with
  | CInt b _ => b
  | CEnm _ => 4
  | CPtr _ => 8
  | CArr t _ => align t
  | CStruct fs | CUnion fs => fold_right (fun m a => Z.max (held m (align (m_type m))) a) 1 fs
  end.

(** Where a member of the given width, size and alignment goes when the first
    free bit is [pos]: its first bit and the next free one.  A bit-field does
    not cross a unit of its type. *)
Definition place (bits : option Z) (sz al pos : Z) : Z * Z :=
  match bits with
  | None => let s := round_up pos (8 * al) in (s, s + 8 * sz)
  | Some w =>
      let u := 8 * sz in
      let s := if (w =? 0) || negb (pos / u =? (pos + w - 1) / u) then round_up pos u else pos in
      (s, s + w)
  end.

Fixpoint size (t : cty) : Z :=
  match t with
  | CInt b _ => b
  | CEnm _ => 4
  | CPtr _ => 8
  | CArr t n => size t * n
  | CStruct fs =>
      round_up (fold_left (fun pos m => snd (place (m_bits m) (size (m_type m)) (align (m_type m)) pos)) fs 0)
        (8 * fold_right (fun m a => Z.max (held m (align (m_type m))) a) 1 fs) / 8
  | CUnion fs =>
      round_up (fold_right (fun m e =>
          Z.max (snd (place (m_bits m) (size (m_type m)) (align (m_type m)) 0)) e) 0 fs)
        (8 * fold_right (fun m a => Z.max (held m (align (m_type m))) a) 1 fs) / 8
  end.

(** ** Members *)

(** Where something lies in an object: first bit, width if a bit-field, type. *)
Record loc := Loc { l_pos : Z; l_bits : option Z; l_type : cty }.

Definition shift (d : Z) (l : loc) : loc := Loc (d + l_pos l) (l_bits l) (l_type l).

(** The member [x]: C looks into members without a name as well. *)
Fixpoint member (t : cty) (x : string) : option loc :=
  match t with
  | CStruct fs =>
      (fix go (pos : Z) (fs : list (mem cty)) : option loc :=
         match fs with
         | [] => None
         | m :: fs' =>
             let '(s, e) := place (m_bits m) (size (m_type m)) (align (m_type m)) pos in
             if String.eqb (m_name m) EmptyString then
               match shift s <$> member (m_type m) x with
               | Some l => Some l
               | None => go e fs'
               end
             else if String.eqb (m_name m) x then Some (Loc s (m_bits m) (m_type m))
             else go e fs'
         end) 0 fs
  | CUnion fs =>
      (fix go (fs : list (mem cty)) : option loc :=
         match fs with
         | [] => None
         | m :: fs' =>
             let s := fst (place (m_bits m) (size (m_type m)) (align (m_type m)) 0) in
             if String.eqb (m_name m) EmptyString then
               match shift s <$> member (m_type m) x with
               | Some l => Some l
               | None => go fs'
               end
             else if String.eqb (m_name m) x then Some (Loc s (m_bits m) (m_type m))
             else go fs'
         end) fs
  | _ => None
  end.

(** A path: member names and array indices. *)
Inductive step := Sel (x : string) | Idx (i : Z).

Definition select (t : cty) (s : step) : option loc :=
  match s, t with
  | Sel x, _ => member t x
  | Idx i, CArr t' n => if (0 <=? i) && (i <? n) then Some (Loc (i * (8 * size t')) None t') else None
  | Idx _, _ => None
  end.

Fixpoint locate (t : cty) (p : list step) : option loc :=
  match p with
  | [] => Some (Loc 0 None t)
  | s :: p' =>
      l ← select t s;
      match l_bits l, p' with
      | Some _, [] => Some l
      | Some _, _ :: _ => None
      | None, _ => shift (l_pos l) <$> locate (l_type l) p'
      end
  end.

(** The offset in bytes of an ordinary member. *)
Definition offset (t : cty) (p : list step) : option Z :=
  match locate t p with
  | Some (Loc pos None _) => Some (pos / 8)
  | _ => None
  end.

(** ** Well-formed declarations

    Integers have a size the target knows, arrays a length that is not
    negative, bit-fields an integer type they fit. *)
Definition int_size (b : Z) : bool := existsb (Z.eqb b) [1; 2; 4; 8; 16].

Definition bits_ok (bits : option Z) (t : cty) : bool :=
  match bits, t with
  | None, _ => true
  | Some w, CInt b _ => (0 <=? w) && (w <=? 8 * b)
  | Some _, _ => false
  end.

Fixpoint wf (t : cty) : bool :=
  match t with
  | CInt b _ => int_size b
  | CEnm _ | CPtr _ => true
  | CArr t n => wf t && (0 <=? n)
  | CStruct fs | CUnion fs => forallb (fun m => wf (m_type m) && bits_ok (m_bits m) (m_type m)) fs
  end.

(** ** Alignments are powers of two up to 16 *)

Definition pow2 (a : Z) : Prop := a = 1 \/ a = 2 \/ a = 4 \/ a = 8 \/ a = 16.

Lemma pow2_max a b : pow2 a -> pow2 b -> pow2 (Z.max a b).
Proof. unfold pow2. lia. Qed.

Lemma pow2_divide_max a b : pow2 a -> pow2 b -> (a | Z.max a b).
Proof.
  unfold pow2. intros Ha Hb. apply Z.mod_divide; [lia|].
  repeat (destruct Ha as [Ha | Ha]); repeat (destruct Hb as [Hb | Hb]); by rewrite Ha, Hb.
Qed.

Lemma int_size_pow2 b : int_size b = true -> pow2 b.
Proof. unfold int_size, pow2. cbn. rewrite !orb_true_iff, !Z.eqb_eq. naive_solver. Qed.

(** Induction over declarations. *)
Section cty_ind.
Variable P : cty -> Prop.
Hypothesis Hint : forall b s, P (CInt b s).
Hypothesis Henm : forall tag, P (CEnm tag).
Hypothesis Hptr : forall to, P (CPtr to).
Hypothesis Harr : forall t n, P t -> P (CArr t n).
Hypothesis Hstr : forall fs, Forall (fun m => P (m_type m)) fs -> P (CStruct fs).
Hypothesis Huni : forall fs, Forall (fun m => P (m_type m)) fs -> P (CUnion fs).

Fixpoint cty_rect' (t : cty) : P t :=
  match t with
  | CInt b s => Hint b s
  | CEnm tag => Henm tag
  | CPtr to => Hptr to
  | CArr t n => Harr t n (cty_rect' t)
  | CStruct fs => Hstr fs ((fix go fs : Forall (fun m => P (m_type m)) fs :=
      match fs with
      | [] => Forall_nil_2 _
      | m :: fs' => Forall_cons_2 _ m fs' (cty_rect' (m_type m)) (go fs')
      end) fs)
  | CUnion fs => Huni fs ((fix go fs : Forall (fun m => P (m_type m)) fs :=
      match fs with
      | [] => Forall_nil_2 _
      | m :: fs' => Forall_cons_2 _ m fs' (cty_rect' (m_type m)) (go fs')
      end) fs)
  end.
End cty_ind.

Definition max_align (fs : list (mem cty)) : Z :=
  fold_right (fun m a => Z.max (held m (align (m_type m))) a) 1 fs.

Lemma pow2_held m a : pow2 a -> pow2 (held m a).
Proof. intros Ha. unfold held. repeat case_match; try done. by left. Qed.

Lemma max_align_pow2 fs :
  Forall (fun m => wf (m_type m) = true -> pow2 (align (m_type m))) fs ->
  forallb (fun m => wf (m_type m) && bits_ok (m_bits m) (m_type m)) fs = true ->
  pow2 (max_align fs) /\ Forall (fun m => (held m (align (m_type m)) | max_align fs)) fs.
Proof.
  induction fs as [|m fs IH]; intros HF Hw; cbn in *; [by split; [left|]|].
  inversion HF; subst. bool_prop. destruct IH as [Hp Hd]; [done..|].
  assert (Hm : pow2 (held m (align (m_type m)))) by (apply pow2_held; auto). split; [by apply pow2_max|].
  constructor; [by apply pow2_divide_max|].
  eapply Forall_impl; [exact Hd|]. cbn. intros m' Hm'. etrans; [exact Hm'|].
  rewrite Z.max_comm. by apply pow2_divide_max.
Qed.

Lemma align_pow2 t : wf t = true -> pow2 (align t).
Proof.
  induction t as [b s|tag|to|t n IH|fs IH|fs IH] using cty_rect'; cbn; intros Hw.
  - by apply int_size_pow2.
  - unfold pow2; auto.
  - unfold pow2; auto.
  - bool_prop. auto.
  - by apply (max_align_pow2 fs).
  - by apply (max_align_pow2 fs).
Qed.

Lemma pow2_pos a : pow2 a -> 0 < a.
Proof. unfold pow2. lia. Qed.

(** ** Sizes *)

Lemma round_up_divide x a : 0 < a -> (a | round_up x a).
Proof. intros Ha. apply Z.mod_divide; [lia|]. by apply round_up_mod. Qed.

Lemma round_up_mult a b : 0 < a -> (a | b) -> round_up b a = b.
Proof.
  intros Ha [q ->]. unfold round_up. replace (q * a + a - 1) with (a - 1 + q * a) by lia.
  rewrite Z.div_add, Z.div_small by lia. lia.
Qed.

Definition struct_end (pos : Z) (fs : list (mem cty)) : Z :=
  fold_left (fun pos m => snd (place (m_bits m) (size (m_type m)) (align (m_type m)) pos)) fs pos.

Definition union_end (fs : list (mem cty)) : Z :=
  fold_right (fun m e =>
    Z.max (snd (place (m_bits m) (size (m_type m)) (align (m_type m)) 0)) e) 0 fs.

(** Total size in bits of a rounded aggregate. *)
Lemma size_round e a : pow2 a -> 8 * (round_up e (8 * a) / 8) = round_up e (8 * a).
Proof.
  intros Ha. pose proof (pow2_pos _ Ha). rewrite (Z.mul_comm 8 (_ / 8)).
  destruct (round_up_divide e (8 * a)) as [q E]; [lia|].
  rewrite E. replace (q * (8 * a)) with (q * a * 8) by lia. rewrite Z.div_mul; lia.
Qed.

Lemma wf_members_align fs :
  forallb (fun m => wf (m_type m) && bits_ok (m_bits m) (m_type m)) fs = true ->
  pow2 (max_align fs) /\ Forall (fun m => m_bits m = None -> (align (m_type m) | max_align fs)) fs.
Proof.
  intros Hw. destruct (max_align_pow2 fs) as [Hp Hd]; [|done|].
  - apply Forall_forall. intros m _. apply align_pow2.
  - split; [done|]. eapply Forall_impl; [exact Hd|]. cbn. intros m Hm Hb. unfold held in Hm. by rewrite Hb in Hm.
Qed.

Lemma size_struct fs :
  wf (CStruct fs) = true -> 8 * size (CStruct fs) = round_up (struct_end 0 fs) (8 * max_align fs).
Proof. intros [Ha _]%wf_members_align. apply size_round, Ha. Qed.

Lemma size_union fs :
  wf (CUnion fs) = true -> 8 * size (CUnion fs) = round_up (union_end fs) (8 * max_align fs).
Proof. intros [Ha _]%wf_members_align. apply size_round, Ha. Qed.

(** What a member needs of its type for its placement to make sense. *)
Definition placeable (m : mem cty) : Prop :=
  0 <= size (m_type m) /\ 0 < align (m_type m) /\
  match m_bits m with
  | None => True
  | Some w => 0 <= w <= 8 * size (m_type m) /\ 0 < size (m_type m)
  end.

Lemma place_bounds m pos :
  placeable m -> 0 <= pos ->
  let '(s, e) := place (m_bits m) (size (m_type m)) (align (m_type m)) pos in
  pos <= s /\ s <= e /\
  e = s + match m_bits m with Some w => w | None => 8 * size (m_type m) end /\
  (m_bits m = None -> (8 * align (m_type m) | s)).
Proof.
  intros (Hs & Ha & Hb) Hp. unfold place. destruct (m_bits m) as [w|].
  - pose proof (round_up_ge pos (8 * size (m_type m))).
    destruct (_ || _); repeat split; lia || congruence.
  - pose proof (round_up_ge pos (8 * align (m_type m))).
    repeat split; [lia..|]. intros _. apply round_up_divide. lia.
Qed.

Lemma struct_end_ge pos fs : Forall placeable fs -> 0 <= pos -> pos <= struct_end pos fs.
Proof.
  revert pos. induction fs as [|m fs IH]; intros pos HF Hp; cbn; [lia|].
  inversion HF; subst. pose proof (place_bounds m pos ltac:(done) Hp) as Hb.
  destruct (place _ _ _ pos) as [s e]. cbn. etrans; [|apply IH; [done|lia]]. lia.
Qed.

Lemma union_end_ge fs : Forall placeable fs -> 0 <= union_end fs.
Proof.
  induction fs as [|m fs IH]; intros HF; cbn; [lia|]. inversion HF; subst. specialize (IH ltac:(done)).
  unfold union_end in IH. lia.
Qed.

Definition sized (t : cty) : Prop := 0 <= size t /\ (align t | size t).

Lemma member_placeable m :
  wf (m_type m) && bits_ok (m_bits m) (m_type m) = true -> sized (m_type m) -> placeable m.
Proof.
  intros Hw [Hs _]. apply andb_true_iff in Hw as [Hw Hb]. split; [done|split].
  - by apply pow2_pos, align_pow2.
  - destruct (m_bits m) as [w|]; [|done]. destruct (m_type m) as [b sg| | | | |]; try discriminate Hb.
    cbn in *. bool_prop. apply int_size_pow2, pow2_pos in Hw. lia.
Qed.

Lemma sized_round e a : pow2 a -> 0 <= e -> let s := round_up e (8 * a) / 8 in 0 <= s /\ (a | s).
Proof.
  intros Ha He. pose proof (pow2_pos _ Ha) as Hp. cbn zeta. pose proof (round_up_ge e (8 * a)).
  split; [lia|]. destruct (round_up_divide e (8 * a)) as [q E]; [lia|].
  rewrite E. replace (q * (8 * a)) with (q * a * 8) by lia. rewrite Z.div_mul by lia. by exists q.
Qed.

Lemma members_placeable fs :
  forallb (fun m => wf (m_type m) && bits_ok (m_bits m) (m_type m)) fs = true ->
  Forall (fun m => wf (m_type m) = true -> sized (m_type m)) fs -> Forall placeable fs.
Proof.
  intros Hw HF. rewrite forallb_forall in Hw. apply Forall_forall. intros m Hm.
  rewrite Forall_forall in HF. pose proof (Hw m ltac:(by apply list_elem_of_In)) as Hm'.
  apply member_placeable; [done|]. apply HF; [done|]. by apply andb_true_iff in Hm' as [? _].
Qed.

Lemma wf_sized t : wf t = true -> sized t.
Proof.
  induction t as [b s|tag|to|t n IH|fs IH|fs IH] using cty_rect'; intros Hw.
  - apply int_size_pow2, pow2_pos in Hw. split; [cbn; lia|done].
  - by split.
  - by split.
  - cbn in Hw. bool_prop. destruct IH as [? ?]; [done|]. split; cbn; [lia|].
    by apply Z.divide_mul_l.
  - pose proof (wf_members_align fs Hw) as [Ha _]. apply sized_round; [done|].
    apply (struct_end_ge 0); [|done]. by apply members_placeable.
  - pose proof (wf_members_align fs Hw) as [Ha _]. apply sized_round; [done|].
    apply union_end_ge. by apply members_placeable.
Qed.

Lemma wf_placeable fs :
  forallb (fun m => wf (m_type m) && bits_ok (m_bits m) (m_type m)) fs = true -> Forall placeable fs.
Proof. intros Hw. apply members_placeable; [done|]. apply Forall_forall. intros. by apply wf_sized. Qed.

(** ** Members lie inside their object *)

Definition width (l : loc) : Z :=
  match l_bits l with Some w => w | None => 8 * size (l_type l) end.

(** [l] is a proper part of an object of type [t]. *)
Definition good (t : cty) (l : loc) : Prop :=
  0 <= l_pos l <= l_pos l + width l /\ l_pos l + width l <= 8 * size t /\ wf (l_type l) = true /\
  (l_bits l = None -> (8 * align (l_type l) | l_pos l) /\ (align (l_type l) | align t)).

Lemma good_self t : wf t = true -> good t (Loc 0 None t).
Proof.
  intros Hw. pose proof (wf_sized t Hw) as [Hs _]. unfold good, width; cbn.
  repeat split; [lia|lia|lia|done| |done]. apply Z.divide_0_r.
Qed.

Lemma good_shift t l l' :
  good t l -> l_bits l = None -> good (l_type l) l' -> good t (shift (l_pos l) l').
Proof.
  intros (P & W & _ & A) Hn (P' & W' & F' & A'). unfold good, width, shift in *. cbn.
  rewrite Hn in W. destruct (A Hn) as [D E]. split; [lia|split; [lia|split; [done|]]].
  intros Hn'. destruct (A' Hn') as [D' E']. split; [|by etrans].
  apply Z.divide_add_r; [|done]. etrans; [|exact D]. by apply Z.mul_divide_mono_l.
Qed.

(** A member placed with its end inside the aggregate. *)
Lemma good_placed t m s e pos :
  wf (m_type m) && bits_ok (m_bits m) (m_type m) = true ->
  (m_bits m = None -> (align (m_type m) | align t)) -> 0 <= pos ->
  place (m_bits m) (size (m_type m)) (align (m_type m)) pos = (s, e) -> e <= 8 * size t ->
  good t (Loc s (m_bits m) (m_type m)).
Proof.
  intros Hw Hd Hp E He. pose proof Hw as [Hw' _]%andb_true_iff.
  pose proof (place_bounds m pos (member_placeable m Hw (wf_sized _ Hw')) Hp) as Hb.
  rewrite E in Hb. destruct Hb as (?&?&?&Hdiv). unfold good, width; cbn.
  split; [lia|split; [destruct (m_bits m); lia|split; [done|auto]]].
Qed.

(** An aggregate's rule for one member covers the members inside it, when it
    has no name. *)
Lemma good_through t m s x l :
  good t (Loc s (m_bits m) (m_type m)) ->
  (forall l, member (m_type m) x = Some l -> good (m_type m) l) ->
  bits_ok (m_bits m) (m_type m) = true ->
  shift s <$> member (m_type m) x = Some l -> good t l.
Proof.
  intros Hg IH Hb E. apply fmap_Some in E as (l' & E & ->).
  destruct (m_bits m) as [w|] eqn:Em.
  - destruct (m_type m); try discriminate Hb. discriminate E.
  - apply (good_shift t (Loc s None (m_type m))); [done|done|]. by apply IH.
Qed.

(** The two loops of [member]. *)
Definition struct_member (x : string) : Z -> list (mem cty) -> option loc :=
  fix go (pos : Z) (fs : list (mem cty)) : option loc :=
    match fs with
    | [] => None
    | m :: fs' =>
        let '(s, e) := place (m_bits m) (size (m_type m)) (align (m_type m)) pos in
        if String.eqb (m_name m) EmptyString then
          match shift s <$> member (m_type m) x with
          | Some l => Some l
          | None => go e fs'
          end
        else if String.eqb (m_name m) x then Some (Loc s (m_bits m) (m_type m))
        else go e fs'
    end.

Definition union_member (x : string) : list (mem cty) -> option loc :=
  fix go (fs : list (mem cty)) : option loc :=
    match fs with
    | [] => None
    | m :: fs' =>
        let s := fst (place (m_bits m) (size (m_type m)) (align (m_type m)) 0) in
        if String.eqb (m_name m) EmptyString then
          match shift s <$> member (m_type m) x with
          | Some l => Some l
          | None => go fs'
          end
        else if String.eqb (m_name m) x then Some (Loc s (m_bits m) (m_type m))
        else go fs'
    end.

(** What the induction over declarations supplies for each member. *)
Definition member_ok (t : cty) (x : string) (m : mem cty) : Prop :=
  wf (m_type m) && bits_ok (m_bits m) (m_type m) = true /\ placeable m /\
  (m_bits m = None -> (align (m_type m) | align t)) /\
  (forall l, member (m_type m) x = Some l -> good (m_type m) l).

Lemma struct_member_good t x fs pos l :
  Forall (member_ok t x) fs -> 0 <= pos -> struct_end pos fs <= 8 * size t ->
  struct_member x pos fs = Some l -> good t l.
Proof.
  revert pos. induction fs as [|m fs IH]; intros pos HF Hpos Hend; [discriminate|].
  apply Forall_cons in HF as [(Hm & Hpl & Hd & Hin) HF].
  cbn [struct_end fold_left struct_member] in *. pose proof (place_bounds m pos Hpl Hpos) as Hb.
  destruct (place _ _ _ pos) as [s e] eqn:E. cbn [snd] in Hend. fold (struct_end e fs) in Hend.
  fold (struct_member x). pose proof Hm as [_ Hbm]%andb_true_iff.
  assert (Hge : e <= struct_end e fs).
  { apply struct_end_ge; [|lia]. eapply Forall_impl; [exact HF|]. by intros m' (_ & ? & _). }
  assert (Hg : good t (Loc s (m_bits m) (m_type m)))
    by (eapply good_placed; [done|done|exact Hpos|exact E|lia]).
  assert (IH' : struct_member x e fs = Some l -> good t l) by (apply IH; [done|lia|done]).
  destruct (String.eqb (m_name m) EmptyString).
  - destruct (shift s <$> member (m_type m) x) as [l'|] eqn:El; [|exact IH'].
    intros [= <-]. eapply good_through; eauto.
  - destruct (String.eqb (m_name m) x); [by intros [= <-]|exact IH'].
Qed.

Lemma union_member_good t x fs l :
  Forall (member_ok t x) fs -> union_end fs <= 8 * size t ->
  union_member x fs = Some l -> good t l.
Proof.
  induction fs as [|m fs IH]; intros HF Hend; [discriminate|].
  apply Forall_cons in HF as [(Hm & Hpl & Hd & Hin) HF].
  cbn [union_end fold_right union_member] in *. fold (union_end fs) in Hend.
  destruct (place _ _ _ 0) as [s e] eqn:E. cbn [fst snd] in *.
  fold (union_member x). pose proof Hm as [_ Hbm]%andb_true_iff.
  assert (Hg : good t (Loc s (m_bits m) (m_type m)))
    by (eapply good_placed; [done|done|reflexivity|exact E|lia]).
  assert (IH' : union_member x fs = Some l -> good t l) by (apply IH; [done|lia]).
  destruct (String.eqb (m_name m) EmptyString).
  - destruct (shift s <$> member (m_type m) x) as [l'|] eqn:El; [|exact IH'].
    intros [= <-]. eapply good_through; eauto.
  - destruct (String.eqb (m_name m) x); [by intros [= <-]|exact IH'].
Qed.

(** The hypotheses of both loops, for the members of a well-formed aggregate. *)
Lemma members_ok t x fs :
  forallb (fun m => wf (m_type m) && bits_ok (m_bits m) (m_type m)) fs = true ->
  align t = max_align fs ->
  Forall (fun m => wf (m_type m) = true ->
    forall l, member (m_type m) x = Some l -> good (m_type m) l) fs ->
  Forall (member_ok t x) fs.
Proof.
  intros Hw Ha IH. pose proof (wf_members_align fs Hw) as [_ Hd].
  pose proof (wf_placeable fs Hw) as Hpl. rewrite forallb_forall in Hw.
  rewrite !Forall_forall in *. intros m Hm.
  assert (Hwm := Hw m ltac:(by apply list_elem_of_In)). pose proof Hwm as [Hw' _]%andb_true_iff.
  unfold member_ok. rewrite Ha. eauto 10.
Qed.

Lemma member_good t x l : wf t = true -> member t x = Some l -> good t l.
Proof.
  revert l. induction t as [b s|tag|to|t n IH|fs IH|fs IH] using cty_rect'; intros l Hw;
    try discriminate.
  - pose proof (wf_members_align fs Hw) as [Ha%pow2_pos _].
    apply (struct_member_good (CStruct fs) x fs 0); [|done|].
    + apply members_ok; [done|done|]. eapply Forall_impl; [exact IH|]. cbn. auto.
    + rewrite size_struct by done. apply round_up_ge. lia.
  - pose proof (wf_members_align fs Hw) as [Ha%pow2_pos _].
    apply (union_member_good (CUnion fs) x fs).
    + apply members_ok; [done|done|]. eapply Forall_impl; [exact IH|]. cbn. auto.
    + rewrite size_union by done. apply round_up_ge. lia.
Qed.

Lemma select_good t s l : wf t = true -> select t s = Some l -> good t l.
Proof.
  intros Hw. destruct s as [x|i]; [by apply member_good|].
  destruct t as [| | |t n| |]; try discriminate. cbn. cbn in Hw. apply andb_true_iff in Hw as [Hw Hn].
  destruct (_ && _) eqn:Hi; [|discriminate]. intros [= <-]. bool_prop.
  pose proof (wf_sized t Hw) as [Hs Hd]. unfold good, width; cbn.
  split; [nia|split; [nia|split; [done|]]]. intros _. split; [|done].
  apply Z.divide_mul_r. by apply Z.mul_divide_mono_l.
Qed.

(** Whatever the path, what it leads to is a proper part of the object. *)
Lemma locate_good t p l : wf t = true -> locate t p = Some l -> good t l.
Proof.
  revert t l. induction p as [|s p IH]; intros t l Hw; cbn [locate].
  - intros [= <-]. by apply good_self.
  - destruct (select t s) as [l1|] eqn:Es; [|discriminate]. cbn [mbind option_bind].
    pose proof (select_good t s l1 Hw Es) as Hg. destruct (l_bits l1) as [w|] eqn:Eb.
    + destruct p; [by intros [= <-]|discriminate].
    + intros (l2 & E2 & ->)%fmap_Some. apply good_shift; [done|done|].
      apply IH; [|done]. by destruct Hg as (_ & _ & ? & _).
Qed.
