(* ===== verification/Records.v ===== *)
(** * Records: members of records in memory

    Loads and stores of members as the compiled code does them: an ordinary
    member is a run of bytes, a bit-field the bits of the bytes that hold it,
    written by reading those bytes, replacing the bits and writing them back.
    Then what C promises: a member written is read back, and members on
    separate paths keep their values. *)

From S2P Require Import Prelude CTypes Layout.

(** ** Operations *)

(** The bytes that hold [w] bits from bit [pos] on. *)
Definition span (pos w : Z) : nat := Z.to_nat ((pos + w - 1) / 8 - pos / 8 + 1).

Definition load_bits (m : Z -> byte) (pos w : Z) : Z :=
  Z.land (Z.shiftr (le_val (dump m (pos / 8) (span pos w))) (pos mod 8)) (Z.ones w).

Definition store_bits (m : Z -> byte) (pos w v : Z) : Z -> byte :=
  let u := le_val (dump m (pos / 8) (span pos w)) in
  store m (Cell (pos / 8) (span pos w) false)
    (Z.lor (Z.ldiff u (Z.shiftl (Z.ones w) (pos mod 8))) (Z.shiftl (Z.land v (Z.ones w)) (pos mod 8))).

(** The types a member can be loaded at, with their signedness. *)
Definition scalar (t : cty) : option bool :=
  match t with
  | CInt _ sg => Some sg
  | CEnm _ | CPtr _ => Some false
  | _ => None
  end.

Definition extend (sg : bool) (w x : Z) : Z := if sg && Z.testbit x (w - 1) then x - 2 ^ w else x.

(** A member of the object at address [a]. *)
Definition read_at (m : Z -> byte) (a : Z) (l : loc) : option Z :=
  sg ← scalar (l_type l); Some (extend sg (width l) (load_bits m (8 * a + l_pos l) (width l))).

Definition write_at (m : Z -> byte) (a : Z) (l : loc) (v : Z) : Z -> byte :=
  store_bits m (8 * a + l_pos l) (width l) v.

Definition read_member (m : Z -> byte) (t : cty) (a : Z) (p : list step) : option Z :=
  l ← locate t p; read_at m a l.

(** The values a member can hold. *)
Definition representable (l : loc) (v : Z) : Prop :=
  match scalar (l_type l) with
  | Some true => 0 < width l /\ - 2 ^ (width l - 1) <= v < 2 ^ (width l - 1)
  | Some false => fits (width l) v
  | None => False
  end.

(** ** Separate members *)

Definition provides (x : string) (m : mem cty) : bool :=
  if String.eqb (m_name m) EmptyString then bool_decide (is_Some (member (m_type m) x))
  else String.eqb (m_name m) x.

(** Two names stand for different storage: in a struct they are found in
    different members, or apart within one without a name; in a union only the
    latter. *)
Fixpoint apart (t : cty) (x y : string) : bool :=
  match t with
  | CStruct fs =>
      (fix go (fs : list (mem cty)) : bool :=
         match fs with
         | [] => false
         | m :: fs' =>
             if provides x m then
               if provides y m then String.eqb (m_name m) EmptyString && apart (m_type m) x y else true
             else provides y m || go fs'
         end) fs
  | CUnion fs =>
      (fix go (fs : list (mem cty)) : bool :=
         match fs with
         | [] => false
         | m :: fs' =>
             if provides x m then
               provides y m && String.eqb (m_name m) EmptyString && apart (m_type m) x y
             else negb (provides y m) && go fs'
         end) fs
  | _ => false
  end.

#[export] Instance step_eq_dec : EqDecision step.
Proof. solve_decision. Defined.

Definition steps_apart (t : cty) (s s' : step) : bool :=
  match s, s' with
  | Sel x, Sel y => apart t x y
  | Idx i, Idx j => negb (i =? j)
  | _, _ => false
  end.

(** Two paths part at different members or elements. *)
Fixpoint separate (t : cty) (p q : list step) : bool :=
  match p, q with
  | s :: p', s' :: q' =>
      if bool_decide (s = s') then
        match select t s with Some l => separate (l_type l) p' q' | None => false end
      else steps_apart t s s'
  | _, _ => false
  end.

(** ** Bits of memory *)

Definition bit_at (m : Z -> byte) (i : Z) : bool := Z.testbit (byte_val (m (i / 8))) (i mod 8).

Lemma testbit_le_val bs i :
  0 <= i -> Z.testbit (le_val bs) i = Z.testbit (byte_val (nth (Z.to_nat (i / 8)) bs zero_byte)) (i mod 8).
Proof.
  revert i. induction bs as [|b bs IH]; intros i Hi.
  - cbn [le_val]. rewrite Z.testbit_0_l. destruct (Z.to_nat (i / 8)); symmetry; apply Z.testbit_0_l.
  - cbn [le_val]. pose proof (byte_val_range b). destruct (Z.lt_ge_cases i 8).
    + rewrite Z.div_small, Z.mod_small by lia. cbn [Z.to_nat nth].
      rewrite <- (Z.mod_pow2_bits_low (byte_val b + 256 * le_val bs) 8) by lia.
      change (2 ^ 8) with 256. by replace ((byte_val b + 256 * le_val bs) mod 256) with (byte_val b) by lia.
    + replace i with (i - 8 + 8) at 1 by lia. rewrite <- Z.div_pow2_bits by lia.
      change (2 ^ 8) with 256. replace ((byte_val b + 256 * le_val bs) / 256) with (le_val bs) by lia.
      rewrite IH by lia. replace (Z.to_nat (i / 8)) with (S (Z.to_nat ((i - 8) / 8))) by lia.
      cbn [nth]. f_equal. lia.
Qed.

Lemma testbit_dump m a n i :
  0 <= i < 8 * Z.of_nat n -> Z.testbit (le_val (dump m a n)) i = bit_at m (8 * a + i).
Proof.
  intros Hi. rewrite testbit_le_val by lia. unfold bit_at.
  rewrite (nth_lookup_Some _ _ zero_byte (m (a + i / 8))).
  - replace ((8 * a + i) / 8) with (a + i / 8) by lia. f_equal. lia.
  - rewrite dump_lookup by lia. do 2 f_equal. lia.
Qed.

Lemma bit_at_store m c v i :
  bit_at (store m c v) i =
  if (8 * c_off c <=? i) && (i <? 8 * cell_end c) then Z.testbit v (i - 8 * c_off c) else bit_at m i.
Proof.
  unfold cell_end. destruct (Z.leb_spec (8 * c_off c) i), (Z.ltb_spec i (8 * (c_off c + Z.of_nat (c_size c))));
    cbn [andb]; try (unfold bit_at; rewrite store_outside by (unfold cell_end; lia); done).
  pose proof (testbit_dump (store m c v) (c_off c) (c_size c) (i - 8 * c_off c) ltac:(lia)) as E.
  rewrite dump_store_same, le_val_le_bytes in E.
  replace (8 * c_off c + (i - 8 * c_off c)) with i in E by lia. rewrite <- E.
  change 256 with (2 ^ 8). rewrite <- Z.pow_mul_r, Z.mod_pow2_bits_low by lia. done.
Qed.

Lemma testbit_load_bits m pos w i :
  0 <= w -> 0 <= i -> Z.testbit (load_bits m pos w) i = (i <? w) && bit_at m (pos + i).
Proof.
  intros Hw Hi. unfold load_bits. rewrite Z.land_spec, Z.shiftr_spec by lia.
  destruct (Z.ltb_spec i w).
  - rewrite Z.ones_spec_low, andb_true_r by lia. cbn [andb].
    rewrite testbit_dump by (unfold span; lia). f_equal. lia.
  - rewrite Z.ones_spec_high, andb_false_r by lia. done.
Qed.

Lemma bit_at_store_bits m pos w v i :
  0 <= w ->
  bit_at (store_bits m pos w v) i =
  if (pos <=? i) && (i <? pos + w) then Z.testbit v (i - pos) else bit_at m i.
Proof.
  intros Hw. unfold store_bits. rewrite bit_at_store. unfold cell_end. cbn [c_off c_size].
  destruct (Z.leb_spec (8 * (pos / 8)) i), (Z.ltb_spec i (8 * (pos / 8 + Z.of_nat (span pos w)))); cbn [andb];
    try (destruct (Z.leb_spec pos i), (Z.ltb_spec i (pos + w)); cbn [andb]; try done; unfold span in *; lia).
  rewrite Z.lor_spec, Z.ldiff_spec, testbit_dump, !Z.shiftl_spec, Z.land_spec by (unfold span in *; lia).
  replace (8 * (pos / 8) + (i - 8 * (pos / 8))) with i by lia.
  replace (i - 8 * (pos / 8) - pos mod 8) with (i - pos) by lia.
  destruct (Z.leb_spec pos i), (Z.ltb_spec i (pos + w)); cbn [andb].
  - rewrite Z.ones_spec_low by lia. cbn [negb]. by rewrite andb_false_r, andb_true_r.
  - rewrite Z.ones_spec_high by lia. cbn [negb]. by rewrite andb_true_r, andb_false_r, orb_false_r.
  - rewrite !(Z.testbit_neg_r _ (i - pos)) by lia. cbn. by rewrite andb_true_r, orb_false_r.
  - lia.
Qed.

(** ** Written and read *)

Lemma load_store_bits m pos w v : 0 <= w -> load_bits (store_bits m pos w v) pos w = wrap w v.
Proof.
  intros Hw. apply Z.bits_inj'. intros i Hi. rewrite testbit_load_bits, bit_at_store_bits by done.
  unfold wrap. destruct (Z.ltb_spec i w).
  - rewrite (proj2 (Z.leb_le _ _)), (proj2 (Z.ltb_lt _ _)), Z.mod_pow2_bits_low by lia.
    cbn [andb]. f_equal. lia.
  - by rewrite Z.mod_pow2_bits_high by lia.
Qed.

Lemma load_store_bits_other m pos w v pos' w' :
  0 <= w -> 0 <= w' -> pos + w <= pos' \/ pos' + w' <= pos ->
  load_bits (store_bits m pos w v) pos' w' = load_bits m pos' w'.
Proof.
  intros Hw Hw' Hd. apply Z.bits_inj'. intros i Hi. rewrite !testbit_load_bits by done.
  destruct (Z.ltb_spec i w'); [|done]. cbn [andb]. rewrite bit_at_store_bits by done.
  destruct (Z.leb_spec pos (pos' + i)), (Z.ltb_spec (pos' + i) (pos + w)); cbn [andb]; done || lia.
Qed.

Lemma store_bits_outside m pos w v b :
  b < pos / 8 \/ (pos + w + 7) / 8 <= b -> store_bits m pos w v b = m b.
Proof. intros Hb. apply store_outside. unfold cell_end, span. cbn [c_off c_size]. lia. Qed.

Lemma extend_signed w v : 0 < w -> - 2 ^ (w - 1) <= v < 2 ^ (w - 1) -> extend true w (wrap w v) = v.
Proof.
  intros Hw Hv. unfold extend, wrap. cbn [andb]. rewrite Z.mod_pow2_bits_low by lia.
  assert (E : 2 ^ w = 2 * 2 ^ (w - 1)) by (rewrite <- Z.pow_succ_r by lia; f_equal; lia).
  destruct (Z.lt_ge_cases v 0).
  - assert (Hb : Z.testbit v (w - 1) = true).
    { rewrite Z.testbit_true by lia. replace (v / 2 ^ (w - 1)) with (-1); [done|].
      apply (Z.div_unique v _ (-1) (v + 2 ^ (w - 1))); lia. }
    rewrite Hb. rewrite <- (Z.mod_unique v (2 ^ w) (-1) (v + 2 ^ w)); lia.
  - assert (Hb : Z.testbit v (w - 1) = false).
    { rewrite Z.testbit_false by lia. by rewrite Z.div_small by lia. }
    rewrite Hb. apply Z.mod_small. lia.
Qed.

Lemma read_write_same m a l v :
  0 <= width l -> representable l v -> read_at (write_at m a l v) a l = Some v.
Proof.
  intros Hw Hr. unfold read_at, write_at, representable in *. rewrite load_store_bits by done.
  destruct (scalar (l_type l)) as [[]|]; [| |done]; cbn [mbind option_bind].
  - by rewrite extend_signed by apply Hr.
  - unfold extend. cbn [andb]. by rewrite wrap_small.
Qed.

Definition disjoint_locs (l l' : loc) : Prop :=
  l_pos l + width l <= l_pos l' \/ l_pos l' + width l' <= l_pos l.

Lemma read_write_other m a l v l' :
  0 <= width l -> 0 <= width l' -> disjoint_locs l l' -> read_at (write_at m a l v) a l' = read_at m a l'.
Proof.
  intros Hw Hw' Hd. unfold read_at, write_at. rewrite load_store_bits_other; [done..|].
  unfold disjoint_locs in Hd. lia.
Qed.

(** ** Separate paths lead to disjoint storage *)

(** Where the member [m] placed at bit [s] has [x]. *)
Definition member_in (x : string) (s : Z) (m : mem cty) : option loc :=
  if String.eqb (m_name m) EmptyString then shift s <$> member (m_type m) x
  else Some (Loc s (m_bits m) (m_type m)).

Lemma struct_member_cons x pos m fs :
  struct_member x pos (m :: fs) =
  let '(s, e) := place (m_bits m) (size (m_type m)) (align (m_type m)) pos in
  if provides x m then member_in x s m else struct_member x e fs.
Proof.
  cbn [struct_member]. destruct (place _ _ _ pos) as [s e]. unfold provides, member_in.
  destruct (String.eqb (m_name m) EmptyString); [|by destruct (String.eqb (m_name m) x)].
  destruct (member (m_type m) x) as [l|]; cbn [fmap option_fmap option_map];
    by rewrite ?bool_decide_eq_true_2, ?bool_decide_eq_false_2 by (eauto || by intros [? ?]).
Qed.

Lemma union_member_cons x m fs :
  union_member x (m :: fs) =
  if provides x m then member_in x (fst (place (m_bits m) (size (m_type m)) (align (m_type m)) 0)) m
  else union_member x fs.
Proof.
  cbn [union_member]. unfold provides, member_in.
  destruct (String.eqb (m_name m) EmptyString); [|by destruct (String.eqb (m_name m) x)].
  destruct (member (m_type m) x) as [l|]; cbn [fmap option_fmap option_map];
    by rewrite ?bool_decide_eq_true_2, ?bool_decide_eq_false_2 by (eauto || by intros [? ?]).
Qed.

Definition struct_apart (x y : string) : list (mem cty) -> bool :=
  fix go (fs : list (mem cty)) : bool :=
    match fs with
    | [] => false
    | m :: fs' =>
        if provides x m then
          if provides y m then String.eqb (m_name m) EmptyString && apart (m_type m) x y else true
        else provides y m || go fs'
    end.

Definition union_apart (x y : string) : list (mem cty) -> bool :=
  fix go (fs : list (mem cty)) : bool :=
    match fs with
    | [] => false
    | m :: fs' =>
        if provides x m then
          provides y m && String.eqb (m_name m) EmptyString && apart (m_type m) x y
        else negb (provides y m) && go fs'
    end.

Abbreviation member_wf := (fun m : mem cty => wf (m_type m) && bits_ok (m_bits m) (m_type m)).

(** What [x] names inside [m] lies where [m] was placed. *)
Lemma member_in_within x m pos s e l :
  member_wf m = true -> 0 <= pos ->
  place (m_bits m) (size (m_type m)) (align (m_type m)) pos = (s, e) -> member_in x s m = Some l ->
  pos <= l_pos l /\ l_pos l + width l <= e.
Proof.
  intros Hw Hp E El. pose proof Hw as [Hw' Hb]%andb_true_iff.
  pose proof (place_bounds m pos (member_placeable m Hw (wf_sized _ Hw')) Hp) as Hpl.
  rewrite E in Hpl. destruct Hpl as (H1 & H2 & H3 & _). unfold member_in in El.
  destruct (String.eqb (m_name m) EmptyString).
  - apply fmap_Some in El as (l0 & El & ->).
    destruct (member_good _ _ _ Hw' El) as (Hg1 & Hg2 & _).
    unfold shift, width in *. cbn [l_pos l_bits l_type] in *.
    destruct (m_bits m) as [w|]; [|lia]. by destruct (m_type m).
  - injection El as <-. unfold width. cbn [l_pos l_bits l_type]. destruct (m_bits m); lia.
Qed.

Lemma place_end m pos s e :
  member_wf m = true -> 0 <= pos ->
  place (m_bits m) (size (m_type m)) (align (m_type m)) pos = (s, e) -> pos <= e.
Proof.
  intros Hw Hp E. pose proof Hw as [Hw' _]%andb_true_iff.
  pose proof (place_bounds m pos (member_placeable m Hw (wf_sized _ Hw')) Hp) as Hpl.
  rewrite E in Hpl. lia.
Qed.

Lemma struct_member_ge x fs pos l :
  forallb member_wf fs = true -> 0 <= pos -> struct_member x pos fs = Some l -> pos <= l_pos l.
Proof.
  revert pos. induction fs as [|m fs IH]; intros pos Hw Hp; [done|].
  cbn [forallb] in Hw. apply andb_true_iff in Hw as [Hm Hw]. rewrite struct_member_cons.
  destruct (place _ _ _ pos) as [s e] eqn:E. pose proof (place_end _ _ _ _ Hm Hp E).
  destruct (provides x m).
  - intros El. by apply (member_in_within x m pos s e).
  - intros El. apply IH in El; [lia|done|lia].
Qed.

(** Two names inside one member without a name. *)
Lemma anon_disjoint x y m s l l' :
  (forall l l', member (m_type m) x = Some l -> member (m_type m) y = Some l' -> disjoint_locs l l') ->
  String.eqb (m_name m) EmptyString = true ->
  member_in x s m = Some l -> member_in y s m = Some l' -> disjoint_locs l l'.
Proof.
  unfold member_in. intros IH -> (l0 & E0 & ->)%fmap_Some (l1 & E1 & ->)%fmap_Some.
  specialize (IH l0 l1 E0 E1). unfold disjoint_locs, shift, width in *. cbn [l_pos l_bits l_type]. lia.
Qed.

Definition names_disjoint (x y : string) (t : cty) : Prop :=
  forall l l', member t x = Some l -> member t y = Some l' -> disjoint_locs l l'.

Lemma struct_apart_disjoint x y fs pos l l' :
  forallb member_wf fs = true ->
  Forall (fun m => apart (m_type m) x y = true -> names_disjoint x y (m_type m)) fs ->
  0 <= pos -> struct_apart x y fs = true ->
  struct_member x pos fs = Some l -> struct_member y pos fs = Some l' -> disjoint_locs l l'.
Proof.
  intros Hw HF. revert pos. induction fs as [|m fs IH]; intros pos Hp; [done|].
  cbn [forallb] in Hw. apply andb_true_iff in Hw as [Hm Hw]. apply Forall_cons in HF as [Hin HF].
  rewrite !struct_member_cons. cbn [struct_apart]. fold (struct_apart x y).
  destruct (place _ _ _ pos) as [s e] eqn:E. pose proof (place_end _ _ _ _ Hm Hp E) as He.
  destruct (provides x m), (provides y m); cbn [andb orb].
  - intros [Hn Ha]%andb_true_iff. apply anon_disjoint; [by apply Hin|done].
  - intros _ E1 E2. apply (member_in_within x m pos s e) in E1 as [_ E1]; [|done..].
    apply struct_member_ge in E2; [|done|lia]. left. lia.
  - intros _ E1 E2. apply (member_in_within y m pos s e) in E2 as [_ E2]; [|done..].
    apply struct_member_ge in E1; [|done|lia]. right. lia.
  - intros Ha. apply IH; [done|done|lia|done].
Qed.

Lemma union_apart_disjoint x y fs l l' :
  Forall (fun m => apart (m_type m) x y = true -> names_disjoint x y (m_type m)) fs ->
  union_apart x y fs = true ->
  union_member x fs = Some l -> union_member y fs = Some l' -> disjoint_locs l l'.
Proof.
  intros HF. induction fs as [|m fs IH]; [done|]. apply Forall_cons in HF as [Hin HF].
  rewrite !union_member_cons. cbn [union_apart]. fold (union_apart x y).
  destruct (provides x m), (provides y m); cbn [andb negb]; [|done|done|auto].
  intros [Hn Ha]%andb_true_iff. apply anon_disjoint; [by apply Hin|done].
Qed.

Lemma apart_disjoint t x y : wf t = true -> apart t x y = true -> names_disjoint x y t.
Proof.
  induction t as [b s|tag|to|t n IH|fs IH|fs IH] using cty_rect'; intros Hw Ha l l'; try discriminate.
  - apply (struct_apart_disjoint x y fs 0); [exact Hw| |done|exact Ha].
    cbn [wf] in Hw. rewrite forallb_forall in Hw. rewrite Forall_forall in *.
    intros m Hm. apply (IH m Hm). apply list_elem_of_In in Hm. by apply Hw, andb_true_iff in Hm as [? _].
  - apply (union_apart_disjoint x y fs); [|exact Ha].
    cbn [wf] in Hw. rewrite forallb_forall in Hw. rewrite Forall_forall in *.
    intros m Hm. apply (IH m Hm). apply list_elem_of_In in Hm. by apply Hw, andb_true_iff in Hm as [? _].
Qed.

Lemma steps_apart_disjoint t s s' l l' :
  wf t = true -> steps_apart t s s' = true -> select t s = Some l -> select t s' = Some l' ->
  disjoint_locs l l'.
Proof.
  intros Hw. destruct s as [x|i], s' as [y|j]; cbn [steps_apart select]; try done.
  - intros Ha. by apply apart_disjoint.
  - intros Hne. destruct t as [| | |t n| |]; try done.
    destruct (_ && _); [|done]. intros [= <-]. destruct (_ && _); [|done]. intros [= <-].
    cbn [wf] in Hw. apply andb_true_iff in Hw as [Hw _]. pose proof (wf_sized t Hw) as [Hs _].
    apply negb_true_iff, Z.eqb_neq in Hne. unfold disjoint_locs, width. cbn [l_pos l_bits l_type]. nia.
Qed.

Lemma locate_within t s p l l1 :
  wf t = true -> select t s = Some l1 -> locate t (s :: p) = Some l ->
  l_pos l1 <= l_pos l /\ l_pos l + width l <= l_pos l1 + width l1.
Proof.
  intros Hw Es. cbn [locate]. rewrite Es. cbn [mbind option_bind].
  destruct (l_bits l1) as [w|] eqn:Eb.
  - destruct p; [|done]. intros [= <-]. lia.
  - intros (l2 & E2 & ->)%fmap_Some.
    destruct (select_good t s l1 Hw Es) as (_ & _ & Hw1 & _).
    destruct (locate_good _ _ _ Hw1 E2) as (G1 & G2 & _).
    unfold width in *. rewrite Eb. unfold shift. cbn [l_pos l_bits l_type]. lia.
Qed.

Lemma separate_disjoint t p q l l' :
  wf t = true -> separate t p q = true -> locate t p = Some l -> locate t q = Some l' ->
  disjoint_locs l l'.
Proof.
  revert t q l l'. induction p as [|s p IH]; intros t [|s' q] l l' Hw; try done.
  cbn [separate]. case_bool_decide as Hs.
  - subst s'. destruct (select t s) as [l1|] eqn:Es; [|done]. intros Hsep.
    destruct (select_good t s l1 Hw Es) as (_ & _ & Hw1 & _).
    cbn [locate]. rewrite Es. cbn [mbind option_bind]. destruct (l_bits l1) as [w|].
    + destruct p; [done|]. done.
    + intros (l2 & E2 & ->)%fmap_Some (l3 & E3 & ->)%fmap_Some.
      specialize (IH _ _ _ _ Hw1 Hsep E2 E3).
      unfold disjoint_locs, shift, width in *. cbn [l_pos l_bits l_type]. lia.
  - intros Ha E E'.
    destruct (select t s) as [l1|] eqn:Es; [|cbn [locate] in E; by rewrite Es in E].
    destruct (select t s') as [l2|] eqn:Es'; [|cbn [locate] in E'; by rewrite Es' in E'].
    pose proof (steps_apart_disjoint _ _ _ _ _ Hw Ha Es Es').
    pose proof (locate_within _ _ _ _ _ Hw Es E). pose proof (locate_within _ _ _ _ _ Hw Es' E').
    unfold disjoint_locs in *. lia.
Qed.

(** ** Paths into one object *)

Section paths.
Variables (m : Z -> byte) (t : cty) (a : Z).
Hypothesis Hw : wf t = true.

Lemma write_read_path p l v :
  locate t p = Some l -> representable l v -> read_member (write_at m a l v) t a p = Some v.
Proof.
  intros E Hr. unfold read_member. rewrite E. cbn [mbind option_bind].
  apply read_write_same; [|done]. apply (locate_good t p) in E as (? & _); [lia|done].
Qed.

Lemma write_read_separate p q l v :
  locate t p = Some l -> separate t p q = true ->
  read_member (write_at m a l v) t a q = read_member m t a q.
Proof.
  intros E Hs. unfold read_member. destruct (locate t q) as [l'|] eqn:E'; [|done].
  cbn [mbind option_bind]. pose proof (separate_disjoint t p q l l' Hw Hs E E').
  apply (locate_good t p) in E as (? & _); [|done]. apply (locate_good t q) in E' as (? & _); [|done].
  apply read_write_other; [lia|lia|done].
Qed.

Lemma write_outside p l v b :
  locate t p = Some l -> b < a \/ a + size t <= b -> write_at m a l v b = m b.
Proof.
  intros E Hb. apply (locate_good t p) in E as (? & ? & _); [|done].
  unfold write_at. apply store_bits_outside. lia.
Qed.
End paths.

(** An ordinary unsigned member is the bytes at its offset. *)
Lemma read_at_bytes m a o b :
  0 < b -> read_at m a (Loc (8 * o) None (CInt b false)) = Some (le_val (dump m (a + o) (Z.to_nat b))).
Proof.
  intros Hb. unfold read_at, extend, width, load_bits, span. cbn [l_pos l_bits l_type scalar mbind option_bind andb size].
  replace (8 * a + 8 * o) with ((a + o) * 8) by lia. rewrite Z.div_mul, Z.mod_mul by lia.
  replace (Z.to_nat _) with (Z.to_nat b) by (f_equal; lia).
  rewrite Z.shiftr_0_r, Z.land_ones by lia. f_equal. apply Z.mod_small.
  pose proof (le_val_range (dump m (a + o) (Z.to_nat b))) as Hr. rewrite length_dump, Z2Nat.id in Hr by lia.
  by rewrite Z.pow_mul_r by lia.
Qed.
