(* ===== verification/KBase.v ===== *)
(** * KBase: the kernel's basic types: fixed-width integers, lists, trees, locks,
    reference counts, work items, timers. *)

From S2P Require Import Prelude Layout.

Definition struct_list_head : cty := CStruct [
  fld "next" (ptr "struct list_head");
  fld "prev" (ptr "struct list_head")
].

Definition struct_hlist_head : cty := CStruct [
  fld "first" (ptr "struct hlist_node")
].

Definition struct_hlist_node : cty := CStruct [
  fld "next" (ptr "struct hlist_node");
  fld "pprev" (ptr "struct hlist_node *")
].

Definition struct_hlist_bl_node : cty := CStruct [
  fld "next" (ptr "struct hlist_bl_node");
  fld "pprev" (ptr "struct hlist_bl_node *")
].

Definition struct_callback_head : cty := CStruct [
  fld "next" (ptr "struct callback_head");
  fld "func" (ptr "void (struct callback_head *)")
].

Definition struct_rb_node : cty := CStruct [
  fld "__rb_parent_color" ulong;
  fld "rb_right" (ptr "struct rb_node");
  fld "rb_left" (ptr "struct rb_node")
].

Definition struct_rb_root : cty := CStruct [
  fld "rb_node" (ptr "struct rb_node")
].

Definition struct_rb_root_cached : cty := CStruct [
  fld "rb_root" struct_rb_root;
  fld "rb_leftmost" (ptr "struct rb_node")
].

Definition atomic_t : cty := CStruct [
  fld "counter" int
].

Definition __u8 : cty := uchar.

Definition u8 : cty := __u8.

Definition __u16 : cty := ushort.

Definition u16 : cty := __u16.

Definition struct_qspinlock : cty := CStruct [
  anon (CUnion [
    fld "val" atomic_t;
    anon (CStruct [
      fld "locked" u8;
      fld "pending" u8
    ]);
    anon (CStruct [
      fld "locked_pending" u16;
      fld "tail" u16
    ])
  ])
].

Definition arch_spinlock_t : cty := struct_qspinlock.

Definition struct_raw_spinlock : cty := CStruct [
  fld "raw_lock" arch_spinlock_t
].

Definition struct_spinlock : cty := CStruct [
  anon (CUnion [
    fld "rlock" struct_raw_spinlock
  ])
].

Definition __u64 : cty := ullong.

Definition u64 : cty := __u64.

Definition __s64 : cty := llong.

Definition s64 : cty := __s64.

Definition atomic64_t : cty := CStruct [
  fld "counter" s64
].

Definition atomic_long_t : cty := atomic64_t.

Definition struct_optimistic_spin_queue : cty := CStruct [
  fld "tail" atomic_t
].

Definition raw_spinlock_t : cty := struct_raw_spinlock.

Definition struct_rw_semaphore : cty := CStruct [
  fld "count" atomic_long_t;
  fld "owner" atomic_long_t;
  fld "osq" struct_optimistic_spin_queue;
  fld "wait_lock" raw_spinlock_t;
  fld "wait_list" struct_list_head;
  fld "android_vendor_data1" u64;
  fld "android_oem_data1" (CArr u64 2)
].

Definition spinlock_t : cty := struct_spinlock.

Definition struct_mutex : cty := CStruct [
  fld "owner" atomic_long_t;
  fld "wait_lock" spinlock_t;
  fld "osq" struct_optimistic_spin_queue;
  fld "wait_list" struct_list_head;
  fld "android_oem_data1" (CArr u64 2)
].

Definition struct_refcount_struct : cty := CStruct [
  fld "refs" atomic_t
].

Definition work_func_t : cty := ptr "void (struct work_struct *)".

Definition struct_work_struct : cty := CStruct [
  fld "data" atomic_long_t;
  fld "entry" struct_list_head;
  fld "func" work_func_t;
  fld "android_kabi_reserved1" u64;
  fld "android_kabi_reserved2" u64
].

Definition struct_wait_queue_head : cty := CStruct [
  fld "lock" spinlock_t;
  fld "head" struct_list_head
].

Definition ktime_t : cty := s64.

Definition struct_timerqueue_node : cty := CStruct [
  fld "node" struct_rb_node;
  fld "expires" ktime_t
].

Definition struct_timerqueue_head : cty := CStruct [
  fld "rb_root" struct_rb_root_cached
].

Definition struct_hrtimer : cty := CStruct [
  fld "node" struct_timerqueue_node;
  fld "_softexpires" ktime_t;
  fld "function" (ptr "enum hrtimer_restart (struct hrtimer *)");
  fld "base" (ptr "struct hrtimer_clock_base");
  fld "state" u8;
  fld "is_rel" u8;
  fld "is_soft" u8;
  fld "is_hard" u8;
  fld "android_kabi_reserved1" u64
].

Definition struct_llist_node : cty := CStruct [
  fld "next" (ptr "struct llist_node")
].

Definition struct___call_single_node : cty := CStruct [
  fld "llist" struct_llist_node;
  anon (CUnion [
    fld "u_flags" uint;
    fld "a_flags" atomic_t
  ]);
  fld "src" u16;
  fld "dst" u16
].

Definition struct_irq_work : cty := CStruct [
  anon (CUnion [
    fld "node" struct___call_single_node;
    anon (CStruct [
      fld "llnode" struct_llist_node;
      fld "flags" atomic_t
    ])
  ]);
  fld "func" (ptr "void (struct irq_work *)")
].

Definition struct_plist_node : cty := CStruct [
  fld "prio" int;
  fld "prio_list" struct_list_head;
  fld "node_list" struct_list_head
].

Definition struct_qrwlock : cty := CStruct [
  anon (CUnion [
    fld "cnts" atomic_t;
    anon (CStruct [
      fld "wlocked" u8;
      fld "__lstate" (CArr u8 3)
    ])
  ]);
  fld "wait_lock" arch_spinlock_t
].

Definition struct_seqcount : cty := CStruct [
  fld "sequence" uint
].

Definition seqcount_t : cty := struct_seqcount.

Definition struct_seqcount_spinlock : cty := CStruct [
  fld "seqcount" seqcount_t
].

Definition gfp_t : cty := uint.

Definition struct_xarray : cty := CStruct [
  fld "xa_lock" spinlock_t;
  fld "xa_flags" gfp_t;
  fld "xa_head" (ptr "void")
].

Definition struct_lockref : cty := CStruct [
  anon (CUnion [
    fld "lock_count" __u64;
    anon (CStruct [
      fld "lock" spinlock_t;
      fld "count" int
    ])
  ])
].

Definition time64_t : cty := __s64.

Definition struct_timespec64 : cty := CStruct [
  fld "tv_sec" time64_t;
  fld "tv_nsec" long
].

Definition struct_cpumask : cty := CStruct [
  fld "bits" (CArr ulong 1)
].

Definition __u32 : cty := uint.

Definition u32 : cty := __u32.

Definition __s32 : cty := int.

Definition s32 : cty := __s32.

Definition __kernel_pid_t : cty := int.

Definition pid_t : cty := __kernel_pid_t.

Definition __kernel_ulong_t : cty := ulong.

Definition __kernel_size_t : cty := __kernel_ulong_t.

Definition size_t : cty := __kernel_size_t.

Definition refcount_t : cty := struct_refcount_struct.

Definition wait_queue_head_t : cty := struct_wait_queue_head.

Definition c_bool : cty := _Bool.

Definition __kernel_uid32_t : cty := uint.

Definition uid_t : cty := __kernel_uid32_t.

Definition kuid_t : cty := CStruct [
  fld "val" uid_t
].

Definition __kernel_gid32_t : cty := uint.

Definition gid_t : cty := __kernel_gid32_t.

Definition kgid_t : cty := CStruct [
  fld "val" gid_t
].

Definition __kernel_loff_t : cty := llong.

Definition loff_t : cty := __kernel_loff_t.

Definition __kernel_dev_t : cty := u32.

Definition dev_t : cty := __kernel_dev_t.

Definition umode_t : cty := ushort.

Definition __kernel_clockid_t : cty := int.

Definition clockid_t : cty := __kernel_clockid_t.

Definition sigset_t : cty := CStruct [
  fld "sig" (CArr ulong 1)
].

Definition arch_rwlock_t : cty := struct_qrwlock.

Definition rwlock_t : cty := CStruct [
  fld "raw_lock" arch_rwlock_t
].

Definition cpumask_t : cty := struct_cpumask.

Definition nodemask_t : cty := CStruct [
  fld "bits" (CArr ulong 1)
].

Definition seqcount_spinlock_t : cty := struct_seqcount_spinlock.

Definition seqlock_t : cty := CStruct [
  fld "seqcount" seqcount_spinlock_t;
  fld "lock" spinlock_t
].

Definition local_t : cty := CStruct [
  fld "a" atomic_long_t
].

Definition local64_t : cty := CStruct [
  fld "a" local_t
].

Definition errseq_t : cty := u32.

Definition fmode_t : cty := uint.

Definition blkcnt_t : cty := u64.

Definition __s16 : cty := short.

(** The records of this file, by tag. *)
Definition KBase_types : list (string * cty) := [
  ("struct list_head", struct_list_head); ("struct hlist_head", struct_hlist_head);
  ("struct hlist_node", struct_hlist_node); ("struct hlist_bl_node", struct_hlist_bl_node);
  ("struct callback_head", struct_callback_head); ("struct rb_node", struct_rb_node);
  ("struct rb_root", struct_rb_root); ("struct rb_root_cached", struct_rb_root_cached);
  ("struct qspinlock", struct_qspinlock); ("struct raw_spinlock", struct_raw_spinlock);
  ("struct spinlock", struct_spinlock);
  ("struct optimistic_spin_queue", struct_optimistic_spin_queue);
  ("struct rw_semaphore", struct_rw_semaphore); ("struct mutex", struct_mutex);
  ("struct refcount_struct", struct_refcount_struct); ("struct work_struct", struct_work_struct);
  ("struct wait_queue_head", struct_wait_queue_head);
  ("struct timerqueue_node", struct_timerqueue_node);
  ("struct timerqueue_head", struct_timerqueue_head); ("struct hrtimer", struct_hrtimer);
  ("struct llist_node", struct_llist_node);
  ("struct __call_single_node", struct___call_single_node); ("struct irq_work", struct_irq_work);
  ("struct plist_node", struct_plist_node); ("struct qrwlock", struct_qrwlock);
  ("struct seqcount", struct_seqcount); ("struct seqcount_spinlock", struct_seqcount_spinlock);
  ("struct xarray", struct_xarray); ("struct lockref", struct_lockref);
  ("struct timespec64", struct_timespec64); ("struct cpumask", struct_cpumask)
].
