(* ===== verification/KUapi.v ===== *)
(** * KUapi: the BPF and perf interface between user space and the kernel: the
    argument of the bpf system call, instructions, the info records, the perf
    event attributes and the mapped perf page. *)

From S2P Require Import Prelude Layout KBase.

Definition union_bpf_attr : cty := CUnion [
  anon (CStruct [
    fld "map_type" __u32;
    fld "key_size" __u32;
    fld "value_size" __u32;
    fld "max_entries" __u32;
    fld "map_flags" __u32;
    fld "inner_map_fd" __u32;
    fld "numa_node" __u32;
    fld "map_name" (CArr char 16);
    fld "map_ifindex" __u32;
    fld "btf_fd" __u32;
    fld "btf_key_type_id" __u32;
    fld "btf_value_type_id" __u32;
    fld "btf_vmlinux_value_type_id" __u32
  ]);
  anon (CStruct [
    fld "map_fd" __u32;
    fld "key" __u64;
    anon (CUnion [
      fld "value" __u64;
      fld "next_key" __u64
    ]);
    fld "flags" __u64
  ]);
  fld "batch" (CStruct [
    fld "in_batch" __u64;
    fld "out_batch" __u64;
    fld "keys" __u64;
    fld "values" __u64;
    fld "count" __u32;
    fld "map_fd" __u32;
    fld "elem_flags" __u64;
    fld "flags" __u64
  ]);
  anon (CStruct [
    fld "prog_type" __u32;
    fld "insn_cnt" __u32;
    fld "insns" __u64;
    fld "license" __u64;
    fld "log_level" __u32;
    fld "log_size" __u32;
    fld "log_buf" __u64;
    fld "kern_version" __u32;
    fld "prog_flags" __u32;
    fld "prog_name" (CArr char 16);
    fld "prog_ifindex" __u32;
    fld "expected_attach_type" __u32;
    fld "prog_btf_fd" __u32;
    fld "func_info_rec_size" __u32;
    fld "func_info" __u64;
    fld "func_info_cnt" __u32;
    fld "line_info_rec_size" __u32;
    fld "line_info" __u64;
    fld "line_info_cnt" __u32;
    fld "attach_btf_id" __u32;
    fld "attach_prog_fd" __u32
  ]);
  anon (CStruct [
    fld "pathname" __u64;
    fld "bpf_fd" __u32;
    fld "file_flags" __u32
  ]);
  anon (CStruct [
    fld "target_fd" __u32;
    fld "attach_bpf_fd" __u32;
    fld "attach_type" __u32;
    fld "attach_flags" __u32;
    fld "replace_bpf_fd" __u32
  ]);
  fld "test" (CStruct [
    fld "prog_fd" __u32;
    fld "retval" __u32;
    fld "data_size_in" __u32;
    fld "data_size_out" __u32;
    fld "data_in" __u64;
    fld "data_out" __u64;
    fld "repeat" __u32;
    fld "duration" __u32;
    fld "ctx_size_in" __u32;
    fld "ctx_size_out" __u32;
    fld "ctx_in" __u64;
    fld "ctx_out" __u64;
    fld "flags" __u32;
    fld "cpu" __u32
  ]);
  anon (CStruct [
    anon (CUnion [
      fld "start_id" __u32;
      fld "prog_id" __u32;
      fld "map_id" __u32;
      fld "btf_id" __u32;
      fld "link_id" __u32
    ]);
    fld "next_id" __u32;
    fld "open_flags" __u32
  ]);
  fld "info" (CStruct [
    fld "bpf_fd" __u32;
    fld "info_len" __u32;
    fld "info" __u64
  ]);
  fld "query" (CStruct [
    fld "target_fd" __u32;
    fld "attach_type" __u32;
    fld "query_flags" __u32;
    fld "attach_flags" __u32;
    fld "prog_ids" __u64;
    fld "prog_cnt" __u32
  ]);
  fld "raw_tracepoint" (CStruct [
    fld "name" __u64;
    fld "prog_fd" __u32
  ]);
  anon (CStruct [
    fld "btf" __u64;
    fld "btf_log_buf" __u64;
    fld "btf_size" __u32;
    fld "btf_log_size" __u32;
    fld "btf_log_level" __u32
  ]);
  fld "task_fd_query" (CStruct [
    fld "pid" __u32;
    fld "fd" __u32;
    fld "flags" __u32;
    fld "buf_len" __u32;
    fld "buf" __u64;
    fld "prog_id" __u32;
    fld "fd_type" __u32;
    fld "probe_offset" __u64;
    fld "probe_addr" __u64
  ]);
  fld "link_create" (CStruct [
    fld "prog_fd" __u32;
    anon (CUnion [
      fld "target_fd" __u32;
      fld "target_ifindex" __u32
    ]);
    fld "attach_type" __u32;
    fld "flags" __u32;
    anon (CUnion [
      fld "target_btf_id" __u32;
      anon (CStruct [
        fld "iter_info" __u64;
        fld "iter_info_len" __u32
      ])
    ])
  ]);
  fld "link_update" (CStruct [
    fld "link_fd" __u32;
    fld "new_prog_fd" __u32;
    fld "flags" __u32;
    fld "old_prog_fd" __u32
  ]);
  fld "link_detach" (CStruct [
    fld "link_fd" __u32
  ]);
  fld "enable_stats" (CStruct [
    fld "type" __u32
  ]);
  fld "iter_create" (CStruct [
    fld "link_fd" __u32;
    fld "flags" __u32
  ]);
  fld "prog_bind_map" (CStruct [
    fld "prog_fd" __u32;
    fld "map_fd" __u32;
    fld "flags" __u32
  ])
].

Definition struct_bpf_insn : cty := CStruct [
  fld "code" __u8;
  bit "dst_reg" __u8 4;
  bit "src_reg" __u8 4;
  fld "off" __s16;
  fld "imm" __s32
].

Definition struct_sock_filter : cty := CStruct [
  fld "code" __u16;
  fld "jt" __u8;
  fld "jf" __u8;
  fld "k" __u32
].

Definition struct_bpf_prog_info : cty := CStruct [
  fld "type" __u32;
  fld "id" __u32;
  fld "tag" (CArr __u8 8);
  fld "jited_prog_len" __u32;
  fld "xlated_prog_len" __u32;
  fld "jited_prog_insns" __u64;
  fld "xlated_prog_insns" __u64;
  fld "load_time" __u64;
  fld "created_by_uid" __u32;
  fld "nr_map_ids" __u32;
  fld "map_ids" __u64;
  fld "name" (CArr char 16);
  fld "ifindex" __u32;
  bit "gpl_compatible" __u32 1;
  fld "netns_dev" __u64;
  fld "netns_ino" __u64;
  fld "nr_jited_ksyms" __u32;
  fld "nr_jited_func_lens" __u32;
  fld "jited_ksyms" __u64;
  fld "jited_func_lens" __u64;
  fld "btf_id" __u32;
  fld "func_info_rec_size" __u32;
  fld "func_info" __u64;
  fld "nr_func_info" __u32;
  fld "nr_line_info" __u32;
  fld "line_info" __u64;
  fld "jited_line_info" __u64;
  fld "nr_jited_line_info" __u32;
  fld "line_info_rec_size" __u32;
  fld "jited_line_info_rec_size" __u32;
  fld "nr_prog_tags" __u32;
  fld "prog_tags" __u64;
  fld "run_time_ns" __u64;
  fld "run_cnt" __u64
].

Definition struct_bpf_map_info : cty := CStruct [
  fld "type" __u32;
  fld "id" __u32;
  fld "key_size" __u32;
  fld "value_size" __u32;
  fld "max_entries" __u32;
  fld "map_flags" __u32;
  fld "name" (CArr char 16);
  fld "ifindex" __u32;
  fld "btf_vmlinux_value_type_id" __u32;
  fld "netns_dev" __u64;
  fld "netns_ino" __u64;
  fld "btf_id" __u32;
  fld "btf_key_type_id" __u32;
  fld "btf_value_type_id" __u32
].

Definition struct_bpf_link_info : cty := CStruct [
  fld "type" __u32;
  fld "id" __u32;
  fld "prog_id" __u32;
  anon (CUnion [
    fld "raw_tracepoint" (CStruct [
      fld "tp_name" __u64;
      fld "tp_name_len" __u32
    ]);
    fld "tracing" (CStruct [
      fld "attach_type" __u32
    ]);
    fld "cgroup" (CStruct [
      fld "cgroup_id" __u64;
      fld "attach_type" __u32
    ]);
    fld "iter" (CStruct [
      fld "target_name" __u64;
      fld "target_name_len" __u32;
      anon (CUnion [
        fld "map" (CStruct [
          fld "map_id" __u32
        ])
      ])
    ]);
    fld "netns" (CStruct [
      fld "netns_ino" __u32;
      fld "attach_type" __u32
    ]);
    fld "xdp" (CStruct [
      fld "ifindex" __u32
    ])
  ])
].

Definition struct_bpf_btf_info : cty := CStruct [
  fld "btf" __u64;
  fld "btf_size" __u32;
  fld "id" __u32
].

Definition struct_perf_event_attr : cty := CStruct [
  fld "type" __u32;
  fld "size" __u32;
  fld "config" __u64;
  anon (CUnion [
    fld "sample_period" __u64;
    fld "sample_freq" __u64
  ]);
  fld "sample_type" __u64;
  fld "read_format" __u64;
  bit "disabled" __u64 1;
  bit "inherit" __u64 1;
  bit "pinned" __u64 1;
  bit "exclusive" __u64 1;
  bit "exclude_user" __u64 1;
  bit "exclude_kernel" __u64 1;
  bit "exclude_hv" __u64 1;
  bit "exclude_idle" __u64 1;
  bit "mmap" __u64 1;
  bit "comm" __u64 1;
  bit "freq" __u64 1;
  bit "inherit_stat" __u64 1;
  bit "enable_on_exec" __u64 1;
  bit "task" __u64 1;
  bit "watermark" __u64 1;
  bit "precise_ip" __u64 2;
  bit "mmap_data" __u64 1;
  bit "sample_id_all" __u64 1;
  bit "exclude_host" __u64 1;
  bit "exclude_guest" __u64 1;
  bit "exclude_callchain_kernel" __u64 1;
  bit "exclude_callchain_user" __u64 1;
  bit "mmap2" __u64 1;
  bit "comm_exec" __u64 1;
  bit "use_clockid" __u64 1;
  bit "context_switch" __u64 1;
  bit "write_backward" __u64 1;
  bit "namespaces" __u64 1;
  bit "ksymbol" __u64 1;
  bit "bpf_event" __u64 1;
  bit "aux_output" __u64 1;
  bit "cgroup" __u64 1;
  bit "text_poke" __u64 1;
  bit "__reserved_1" __u64 30;
  anon (CUnion [
    fld "wakeup_events" __u32;
    fld "wakeup_watermark" __u32
  ]);
  fld "bp_type" __u32;
  anon (CUnion [
    fld "bp_addr" __u64;
    fld "kprobe_func" __u64;
    fld "uprobe_path" __u64;
    fld "config1" __u64
  ]);
  anon (CUnion [
    fld "bp_len" __u64;
    fld "kprobe_addr" __u64;
    fld "probe_offset" __u64;
    fld "config2" __u64
  ]);
  fld "branch_sample_type" __u64;
  fld "sample_regs_user" __u64;
  fld "sample_stack_user" __u32;
  fld "clockid" __s32;
  fld "sample_regs_intr" __u64;
  fld "aux_watermark" __u32;
  fld "sample_max_stack" __u16;
  fld "__reserved_2" __u16;
  fld "aux_sample_size" __u32;
  fld "__reserved_3" __u32
].

Definition struct_perf_event_mmap_page : cty := CStruct [
  fld "version" __u32;
  fld "compat_version" __u32;
  fld "lock" __u32;
  fld "index" __u32;
  fld "offset" __s64;
  fld "time_enabled" __u64;
  fld "time_running" __u64;
  anon (CUnion [
    fld "capabilities" __u64;
    anon (CStruct [
      bit "cap_bit0" __u64 1;
      bit "cap_bit0_is_deprecated" __u64 1;
      bit "cap_user_rdpmc" __u64 1;
      bit "cap_user_time" __u64 1;
      bit "cap_user_time_zero" __u64 1;
      bit "cap_user_time_short" __u64 1;
      bit "cap_____res" __u64 58
    ])
  ]);
  fld "pmc_width" __u16;
  fld "time_shift" __u16;
  fld "time_mult" __u32;
  fld "time_offset" __u64;
  fld "time_zero" __u64;
  fld "size" __u32;
  fld "__reserved_1" __u32;
  fld "time_cycles" __u64;
  fld "time_mask" __u64;
  fld "__reserved" (CArr __u8 928);
  fld "data_head" __u64;
  fld "data_tail" __u64;
  fld "data_offset" __u64;
  fld "data_size" __u64;
  fld "aux_head" __u64;
  fld "aux_tail" __u64;
  fld "aux_offset" __u64;
  fld "aux_size" __u64
].

Definition union_perf_mem_data_src : cty := CUnion [
  fld "val" __u64;
  anon (CStruct [
    bit "mem_op" __u64 5;
    bit "mem_lvl" __u64 14;
    bit "mem_snoop" __u64 5;
    bit "mem_lock" __u64 2;
    bit "mem_dtlb" __u64 7;
    bit "mem_lvl_num" __u64 4;
    bit "mem_remote" __u64 1;
    bit "mem_snoopx" __u64 2;
    bit "mem_rsvd" __u64 24
  ])
].

Definition struct_btf_type : cty := CStruct [
  fld "name_off" __u32;
  fld "info" __u32;
  anon (CUnion [
    fld "size" __u32;
    fld "type" __u32
  ])
].

(** The records of this file, by tag. *)
Definition KUapi_types : list (string * cty) := [
  ("union bpf_attr", union_bpf_attr); ("struct bpf_insn", struct_bpf_insn);
  ("struct sock_filter", struct_sock_filter); ("struct bpf_prog_info", struct_bpf_prog_info);
  ("struct bpf_map_info", struct_bpf_map_info); ("struct bpf_link_info", struct_bpf_link_info);
  ("struct bpf_btf_info", struct_bpf_btf_info); ("struct perf_event_attr", struct_perf_event_attr);
  ("struct perf_event_mmap_page", struct_perf_event_mmap_page);
  ("union perf_mem_data_src", union_perf_mem_data_src); ("struct btf_type", struct_btf_type)
].
