(* ===== verification/KRegs.v ===== *)
(** * KRegs: arm64 registers: the trap frame a kprobe or uprobe program receives,
    and the per-thread state around it. *)

From S2P Require Import Prelude Layout KBase KUapi.

Definition struct_user_pt_regs : cty := CStruct [
  fld "regs" (CArr __u64 31);
  fld "sp" __u64;
  fld "pc" __u64;
  fld "pstate" __u64
].

Definition struct_pt_regs : cty := CStruct [
  anon (CUnion [
    fld "user_regs" struct_user_pt_regs;
    anon (CStruct [
      fld "regs" (CArr u64 31);
      fld "sp" u64;
      fld "pc" u64;
      fld "pstate" u64
    ])
  ]);
  fld "orig_x0" u64;
  fld "syscallno" s32;
  fld "unused2" u32;
  fld "orig_addr_limit" u64;
  fld "pmr_save" u64;
  fld "stackframe" (CArr u64 2);
  fld "lockdep_hardirqs" u64;
  fld "exit_rcu" u64
].

Definition bpf_user_pt_regs_t : cty := struct_user_pt_regs.

Definition struct_bpf_perf_event_data : cty := CStruct [
  fld "regs" bpf_user_pt_regs_t;
  fld "sample_period" __u64;
  fld "addr" __u64
].

Definition __uint128_t : cty := uint128.

Definition struct_user_fpsimd_state : cty := CStruct [
  fld "vregs" (CArr __uint128_t 32);
  fld "fpsr" __u32;
  fld "fpcr" __u32;
  fld "__reserved" (CArr __u32 2)
].

Definition struct_cpu_context : cty := CStruct [
  fld "x19" ulong;
  fld "x20" ulong;
  fld "x21" ulong;
  fld "x22" ulong;
  fld "x23" ulong;
  fld "x24" ulong;
  fld "x25" ulong;
  fld "x26" ulong;
  fld "x27" ulong;
  fld "x28" ulong;
  fld "fp" ulong;
  fld "sp" ulong;
  fld "pc" ulong
].

Definition struct_debug_info : cty := CStruct [
  fld "suspended_step" int;
  fld "bps_disabled" int;
  fld "wps_disabled" int;
  fld "hbp_break" (CArr (ptr "struct perf_event") 16);
  fld "hbp_watch" (CArr (ptr "struct perf_event") 16)
].

Definition struct_ptrauth_key : cty := CStruct [
  fld "lo" ulong;
  fld "hi" ulong
].

Definition struct_ptrauth_keys_user : cty := CStruct [
  fld "apia" struct_ptrauth_key;
  fld "apib" struct_ptrauth_key;
  fld "apda" struct_ptrauth_key;
  fld "apdb" struct_ptrauth_key;
  fld "apga" struct_ptrauth_key
].

Definition struct_ptrauth_keys_kernel : cty := CStruct [
  fld "apia" struct_ptrauth_key
].

Definition struct_thread_struct : cty := CStruct [
  fld "cpu_context" struct_cpu_context;
  pad long 64;
  fld "uw" (CStruct [
    fld "tp_value" ulong;
    fld "tp2_value" ulong;
    fld "fpsimd_state" struct_user_fpsimd_state
  ]);
  fld "android_vendor_data1" u64;
  fld "fpsimd_cpu" uint;
  fld "sve_state" (ptr "void");
  fld "sve_vl" uint;
  fld "sve_vl_onexec" uint;
  fld "fault_address" ulong;
  fld "fault_code" ulong;
  fld "debug" struct_debug_info;
  fld "keys_user" struct_ptrauth_keys_user;
  fld "keys_kernel" struct_ptrauth_keys_kernel;
  fld "mte_ctrl" u64;
  fld "sctlr_user" u64
].

Definition mm_segment_t : cty := ulong.

Definition struct_thread_info : cty := CStruct [
  fld "flags" ulong;
  fld "addr_limit" mm_segment_t;
  fld "ttbr0" u64;
  anon (CUnion [
    fld "preempt_count" u64;
    fld "preempt" (CStruct [
      fld "count" u32;
      fld "need_resched" u32
    ])
  ]);
  fld "scs_base" (ptr "void");
  fld "scs_sp" (ptr "void")
].

(** The records of this file, by tag. *)
Definition KRegs_types : list (string * cty) := [
  ("struct user_pt_regs", struct_user_pt_regs); ("struct pt_regs", struct_pt_regs);
  ("struct bpf_perf_event_data", struct_bpf_perf_event_data);
  ("struct user_fpsimd_state", struct_user_fpsimd_state);
  ("struct cpu_context", struct_cpu_context); ("struct debug_info", struct_debug_info);
  ("struct ptrauth_key", struct_ptrauth_key);
  ("struct ptrauth_keys_user", struct_ptrauth_keys_user);
  ("struct ptrauth_keys_kernel", struct_ptrauth_keys_kernel);
  ("struct thread_struct", struct_thread_struct); ("struct thread_info", struct_thread_info)
].
