(* ===== verification/KPerf.v ===== *)
(** * KPerf: perf events, through which uprobe programs are attached. *)

From S2P Require Import Prelude Layout KBase KUapi KRegs.

Definition struct_hw_perf_event_extra : cty := CStruct [
  fld "config" u64;
  fld "reg" uint;
  fld "alloc" int;
  fld "idx" int
].

Definition struct_arch_hw_breakpoint_ctrl : cty := CStruct [
  bit "__reserved" u32 19;
  bit "len" u32 8;
  bit "type" u32 2;
  bit "privilege" u32 2;
  bit "enabled" u32 1
].

Definition struct_arch_hw_breakpoint : cty := CStruct [
  fld "address" u64;
  fld "trigger" u64;
  fld "ctrl" struct_arch_hw_breakpoint_ctrl
].

Definition struct_hw_perf_event : cty := CStruct [
  anon (CUnion [
    anon (CStruct [
      fld "config" u64;
      fld "last_tag" u64;
      fld "config_base" ulong;
      fld "event_base" ulong;
      fld "event_base_rdpmc" int;
      fld "idx" int;
      fld "last_cpu" int;
      fld "flags" int;
      fld "extra_reg" struct_hw_perf_event_extra;
      fld "branch_reg" struct_hw_perf_event_extra
    ]);
    anon (CStruct [
      fld "hrtimer" struct_hrtimer
    ]);
    anon (CStruct [
      fld "tp_list" struct_list_head
    ]);
    anon (CStruct [
      fld "pwr_acc" u64;
      fld "ptsc" u64
    ]);
    anon (CStruct [
      fld "info" struct_arch_hw_breakpoint;
      fld "bp_list" struct_list_head
    ]);
    anon (CStruct [
      fld "iommu_bank" u8;
      fld "iommu_cntr" u8;
      fld "padding" u16;
      fld "conf" u64;
      fld "conf1" u64
    ])
  ]);
  fld "target" (ptr "struct task_struct");
  fld "addr_filters" (ptr "void");
  fld "addr_filters_gen" ulong;
  fld "state" int;
  fld "prev_count" local64_t;
  fld "sample_period" u64;
  anon (CUnion [
    anon (CStruct [
      fld "last_period" u64;
      fld "period_left" local64_t
    ]);
    anon (CStruct [
      fld "saved_metric" u64;
      fld "saved_slots" u64
    ])
  ]);
  fld "interrupts_seq" u64;
  fld "interrupts" u64;
  fld "freq_time_stamp" u64;
  fld "freq_count_stamp" u64
].

Definition struct_perf_addr_filters_head : cty := CStruct [
  fld "list" struct_list_head;
  fld "lock" raw_spinlock_t;
  fld "nr_file_filters" uint
].

Definition perf_overflow_handler_t : cty := ptr "void (struct perf_event *, struct perf_sample_data *, struct pt_regs *)".

Definition struct_perf_event : cty := CStruct [
  fld "event_entry" struct_list_head;
  fld "sibling_list" struct_list_head;
  fld "active_list" struct_list_head;
  fld "group_node" struct_rb_node;
  fld "group_index" u64;
  fld "migrate_entry" struct_list_head;
  fld "hlist_entry" struct_hlist_node;
  fld "active_entry" struct_list_head;
  fld "nr_siblings" int;
  fld "event_caps" int;
  fld "group_caps" int;
  fld "group_leader" (ptr "struct perf_event");
  fld "pmu" (ptr "struct pmu");
  fld "pmu_private" (ptr "void");
  fld "state" (enum "perf_event_state");
  fld "attach_state" uint;
  fld "count" local64_t;
  fld "child_count" atomic64_t;
  fld "total_time_enabled" u64;
  fld "total_time_running" u64;
  fld "tstamp" u64;
  fld "attr" struct_perf_event_attr;
  fld "header_size" u16;
  fld "id_header_size" u16;
  fld "read_size" u16;
  fld "hw" struct_hw_perf_event;
  fld "ctx" (ptr "struct perf_event_context");
  fld "refcount" atomic_long_t;
  fld "child_total_time_enabled" atomic64_t;
  fld "child_total_time_running" atomic64_t;
  fld "child_mutex" struct_mutex;
  fld "child_list" struct_list_head;
  fld "parent" (ptr "struct perf_event");
  fld "oncpu" int;
  fld "cpu" int;
  fld "owner_entry" struct_list_head;
  fld "owner" (ptr "struct task_struct");
  fld "mmap_mutex" struct_mutex;
  fld "mmap_count" atomic_t;
  fld "rb" (ptr "struct perf_buffer");
  fld "rb_entry" struct_list_head;
  fld "rcu_batches" ulong;
  fld "rcu_pending" int;
  fld "waitq" wait_queue_head_t;
  fld "fasync" (ptr "struct fasync_struct");
  fld "pending_wakeup" int;
  fld "pending_kill" int;
  fld "pending_disable" int;
  fld "pending" struct_irq_work;
  fld "event_limit" atomic_t;
  fld "addr_filters" struct_perf_addr_filters_head;
  fld "addr_filter_ranges" (ptr "struct perf_addr_filter_range");
  fld "addr_filters_gen" ulong;
  fld "aux_event" (ptr "struct perf_event");
  fld "destroy" (ptr "void (struct perf_event *)");
  fld "callback_head" struct_callback_head;
  fld "ns" (ptr "struct pid_namespace");
  fld "id" u64;
  fld "clock" (ptr "u64 (void)");
  fld "overflow_handler" perf_overflow_handler_t;
  fld "overflow_handler_context" (ptr "void");
  fld "orig_overflow_handler" perf_overflow_handler_t;
  fld "prog" (ptr "struct bpf_prog");
  fld "tp_event" (ptr "struct trace_event_call");
  fld "filter" (ptr "struct event_filter");
  fld "security" (ptr "void");
  fld "sb_list" struct_list_head
].

Definition struct_perf_event_groups : cty := CStruct [
  fld "tree" struct_rb_root;
  fld "index" u64
].

Definition struct_perf_event_context : cty := CStruct [
  fld "pmu" (ptr "struct pmu");
  fld "lock" raw_spinlock_t;
  fld "mutex" struct_mutex;
  fld "active_ctx_list" struct_list_head;
  fld "pinned_groups" struct_perf_event_groups;
  fld "flexible_groups" struct_perf_event_groups;
  fld "event_list" struct_list_head;
  fld "pinned_active" struct_list_head;
  fld "flexible_active" struct_list_head;
  fld "nr_events" int;
  fld "nr_active" int;
  fld "is_active" int;
  fld "nr_stat" int;
  fld "nr_freq" int;
  fld "rotate_disable" int;
  fld "rotate_necessary" int;
  fld "refcount" refcount_t;
  fld "task" (ptr "struct task_struct");
  fld "time" u64;
  fld "timestamp" u64;
  fld "timeoffset" u64;
  fld "parent_ctx" (ptr "struct perf_event_context");
  fld "parent_gen" u64;
  fld "generation" u64;
  fld "pin_count" int;
  fld "task_ctx_data" (ptr "void");
  fld "callback_head" struct_callback_head
].

Definition struct_pmu : cty := CStruct [
  fld "entry" struct_list_head;
  fld "module" (ptr "struct module");
  fld "dev" (ptr "struct device");
  fld "attr_groups" (ptr "const struct attribute_group *");
  fld "attr_update" (ptr "const struct attribute_group *");
  fld "name" (ptr "const char");
  fld "type" int;
  fld "capabilities" int;
  fld "pmu_disable_count" (ptr "int");
  fld "pmu_cpu_context" (ptr "struct perf_cpu_context");
  fld "exclusive_cnt" atomic_t;
  fld "task_ctx_nr" int;
  fld "hrtimer_interval_ms" int;
  fld "nr_addr_filters" uint;
  fld "pmu_enable" (ptr "void (struct pmu *)");
  fld "pmu_disable" (ptr "void (struct pmu *)");
  fld "event_init" (ptr "int (struct perf_event *)");
  fld "event_mapped" (ptr "void (struct perf_event *, struct mm_struct *)");
  fld "event_unmapped" (ptr "void (struct perf_event *, struct mm_struct *)");
  fld "add" (ptr "int (struct perf_event *, int)");
  fld "del" (ptr "void (struct perf_event *, int)");
  fld "start" (ptr "void (struct perf_event *, int)");
  fld "stop" (ptr "void (struct perf_event *, int)");
  fld "read" (ptr "void (struct perf_event *)");
  fld "start_txn" (ptr "void (struct pmu *, unsigned int)");
  fld "commit_txn" (ptr "int (struct pmu *)");
  fld "cancel_txn" (ptr "void (struct pmu *)");
  fld "event_idx" (ptr "int (struct perf_event *)");
  fld "sched_task" (ptr "void (struct perf_event_context *, bool)");
  fld "task_ctx_cache" (ptr "struct kmem_cache");
  fld "swap_task_ctx" (ptr "void (struct perf_event_context *, struct perf_event_context *)");
  fld "setup_aux" (ptr "void * (struct perf_event *, void **, int, bool)");
  fld "free_aux" (ptr "void (void *)");
  fld "snapshot_aux" (ptr "long (struct perf_event *, struct perf_output_handle *, unsigned long)");
  fld "addr_filters_validate" (ptr "int (struct list_head *)");
  fld "addr_filters_sync" (ptr "void (struct perf_event *)");
  fld "aux_output_match" (ptr "int (struct perf_event *)");
  fld "filter_match" (ptr "int (struct perf_event *)");
  fld "check_period" (ptr "int (struct perf_event *, u64)")
].

Definition struct_perf_regs : cty := CStruct [
  fld "abi" __u64;
  fld "regs" (ptr "struct pt_regs")
].

Definition struct_perf_sample_data : cty := CStruct [
  fld "addr" u64;
  fld "raw" (ptr "struct perf_raw_record");
  fld "br_stack" (ptr "struct perf_branch_stack");
  fld "period" u64;
  fld "weight" u64;
  fld "txn" u64;
  fld "data_src" union_perf_mem_data_src;
  fld "type" u64;
  fld "ip" u64;
  fld "tid_entry" (CStruct [
    fld "pid" u32;
    fld "tid" u32
  ]);
  fld "time" u64;
  fld "id" u64;
  fld "stream_id" u64;
  fld "cpu_entry" (CStruct [
    fld "cpu" u32;
    fld "reserved" u32
  ]);
  fld "callchain" (ptr "struct perf_callchain_entry");
  fld "aux_size" u64;
  fld "regs_user" struct_perf_regs;
  fld "regs_intr" struct_perf_regs;
  fld "stack_user_size" u64;
  fld "phys_addr" u64;
  fld "cgroup" u64;
  pad long 64
].

Definition struct_bpf_perf_event_data_kern : cty := CStruct [
  fld "regs" (ptr "bpf_user_pt_regs_t");
  fld "data" (ptr "struct perf_sample_data");
  fld "event" (ptr "struct perf_event")
].

(** The records of this file, by tag. *)
Definition KPerf_types : list (string * cty) := [
  ("struct hw_perf_event_extra", struct_hw_perf_event_extra);
  ("struct arch_hw_breakpoint_ctrl", struct_arch_hw_breakpoint_ctrl);
  ("struct arch_hw_breakpoint", struct_arch_hw_breakpoint);
  ("struct hw_perf_event", struct_hw_perf_event);
  ("struct perf_addr_filters_head", struct_perf_addr_filters_head);
  ("struct perf_event", struct_perf_event); ("struct perf_event_groups", struct_perf_event_groups);
  ("struct perf_event_context", struct_perf_event_context); ("struct pmu", struct_pmu);
  ("struct perf_regs", struct_perf_regs); ("struct perf_sample_data", struct_perf_sample_data);
  ("struct bpf_perf_event_data_kern", struct_bpf_perf_event_data_kern)
].
