(* ===== verification/KTrace.v ===== *)
(** * KTrace: uprobes and the trace events built on them. *)

From S2P Require Import Prelude Layout KBase KUapi KRegs KPerf.

Definition struct_arch_uprobe_task : cty := CStruct [].

Definition struct_uprobe_task : cty := CStruct [
  fld "state" (enum "uprobe_task_state");
  anon (CUnion [
    anon (CStruct [
      fld "autask" struct_arch_uprobe_task;
      fld "vaddr" ulong
    ]);
    anon (CStruct [
      fld "dup_xol_work" struct_callback_head;
      fld "dup_xol_addr" ulong
    ])
  ]);
  fld "active_uprobe" (ptr "struct uprobe");
  fld "xol_vaddr" ulong;
  fld "return_instances" (ptr "struct return_instance");
  fld "depth" uint
].

Definition struct_arch_probe_insn : cty := CStruct [
  fld "insn" (ptr "probe_opcode_t");
  fld "pstate_cc" (ptr "pstate_check_t");
  fld "handler" (ptr "probes_handler_t");
  fld "restore" ulong
].

Definition struct_arch_uprobe : cty := CStruct [
  anon (CUnion [
    fld "insn" (CArr u8 4);
    fld "ixol" (CArr u8 4)
  ]);
  fld "api" struct_arch_probe_insn;
  fld "simulate" c_bool
].

Definition struct_uprobe : cty := CStruct [
  fld "rb_node" struct_rb_node;
  fld "ref" refcount_t;
  fld "register_rwsem" struct_rw_semaphore;
  fld "consumer_rwsem" struct_rw_semaphore;
  fld "pending_list" struct_list_head;
  fld "consumers" (ptr "struct uprobe_consumer");
  fld "inode" (ptr "struct inode");
  fld "offset" loff_t;
  fld "ref_ctr_offset" loff_t;
  fld "flags" ulong;
  fld "arch" struct_arch_uprobe
].

Definition struct_return_instance : cty := CStruct [
  fld "uprobe" (ptr "struct uprobe");
  fld "func" ulong;
  fld "stack" ulong;
  fld "orig_ret_vaddr" ulong;
  fld "chained" c_bool;
  fld "next" (ptr "struct return_instance")
].

Definition struct_trace_event : cty := CStruct [
  fld "node" struct_hlist_node;
  fld "list" struct_list_head;
  fld "type" int;
  fld "funcs" (ptr "struct trace_event_functions")
].

Definition struct_trace_event_call : cty := CStruct [
  fld "list" struct_list_head;
  fld "class" (ptr "struct trace_event_class");
  anon (CUnion [
    fld "name" (ptr "char");
    fld "tp" (ptr "struct tracepoint")
  ]);
  fld "event" struct_trace_event;
  fld "print_fmt" (ptr "char");
  fld "filter" (ptr "struct event_filter");
  fld "mod" (ptr "void");
  fld "data" (ptr "void");
  fld "flags" int;
  fld "perf_refcount" int;
  fld "perf_events" (ptr "struct hlist_head");
  fld "prog_array" (ptr "struct bpf_prog_array");
  fld "perf_perm" (ptr "int (struct trace_event_call *, struct perf_event *)")
].

Definition struct_path : cty := CStruct [
  fld "mnt" (ptr "struct vfsmount");
  fld "dentry" (ptr "struct dentry")
].

Definition struct_dyn_event : cty := CStruct [
  fld "list" struct_list_head;
  fld "ops" (ptr "struct dyn_event_operations")
].

Definition __kernel_long_t : cty := long.

Definition __kernel_ssize_t : cty := __kernel_long_t.

Definition ssize_t : cty := __kernel_ssize_t.

Definition struct_probe_arg : cty := CStruct [
  fld "code" (ptr "struct fetch_insn");
  fld "dynamic" c_bool;
  fld "offset" uint;
  fld "count" uint;
  fld "name" (ptr "const char");
  fld "comm" (ptr "const char");
  fld "fmt" (ptr "char");
  fld "type" (ptr "const struct fetch_type")
].

Definition struct_trace_probe : cty := CStruct [
  fld "list" struct_list_head;
  fld "event" (ptr "struct trace_probe_event");
  fld "size" ssize_t;
  fld "nr_args" uint;
  fld "args" (CArr struct_probe_arg 0)
].

Definition struct_uprobe_consumer : cty := CStruct [
  fld "handler" (ptr "int (struct uprobe_consumer *, struct pt_regs *)");
  fld "ret_handler" (ptr "int (struct uprobe_consumer *, unsigned long, struct pt_regs *)");
  fld "filter" (ptr "bool (struct uprobe_consumer *, enum uprobe_filter_ctx, struct mm_struct *)");
  fld "next" (ptr "struct uprobe_consumer")
].

Definition struct_trace_uprobe : cty := CStruct [
  fld "devent" struct_dyn_event;
  fld "consumer" struct_uprobe_consumer;
  fld "path" struct_path;
  fld "inode" (ptr "struct inode");
  fld "filename" (ptr "char");
  fld "offset" ulong;
  fld "ref_ctr_offset" ulong;
  fld "nhit" ulong;
  fld "tp" struct_trace_probe
].

(** The records of this file, by tag. *)
Definition KTrace_types : list (string * cty) := [
  ("struct arch_uprobe_task", struct_arch_uprobe_task); ("struct uprobe_task", struct_uprobe_task);
  ("struct arch_probe_insn", struct_arch_probe_insn); ("struct arch_uprobe", struct_arch_uprobe);
  ("struct uprobe", struct_uprobe); ("struct return_instance", struct_return_instance);
  ("struct trace_event", struct_trace_event); ("struct trace_event_call", struct_trace_event_call);
  ("struct path", struct_path); ("struct dyn_event", struct_dyn_event);
  ("struct probe_arg", struct_probe_arg); ("struct trace_probe", struct_trace_probe);
  ("struct uprobe_consumer", struct_uprobe_consumer); ("struct trace_uprobe", struct_trace_uprobe)
].
