(* ===== verification/KBpf.v ===== *)
(** * KBpf: the kernel's BPF objects: programs, maps of each kind the tracer
    creates, the ring buffer, links, trampolines and BTF. *)

From S2P Require Import Prelude Layout KBase KUapi KRegs KPerf KTrace.

Definition struct_bpf_map_memory : cty := CStruct [
  fld "pages" u32;
  fld "user" (ptr "struct user_struct")
].

Definition struct_bpf_map : cty := CStruct [
  fld "ops" (ptr "const struct bpf_map_ops");
  fld "inner_map_meta" (ptr "struct bpf_map");
  fld "security" (ptr "void");
  fld "map_type" (enum "bpf_map_type");
  fld "key_size" u32;
  fld "value_size" u32;
  fld "max_entries" u32;
  fld "map_flags" u32;
  fld "spin_lock_off" int;
  fld "id" u32;
  fld "numa_node" int;
  fld "btf_key_type_id" u32;
  fld "btf_value_type_id" u32;
  fld "btf" (ptr "struct btf");
  fld "memory" struct_bpf_map_memory;
  fld "name" (CArr char 16);
  fld "btf_vmlinux_value_type_id" u32;
  fld "bypass_spec_v1" c_bool;
  fld "frozen" c_bool;
  pad long 64;
  pad long 64;
  fld "refcnt" atomic64_t;
  fld "usercnt" atomic64_t;
  fld "work" struct_work_struct;
  fld "freeze_mutex" struct_mutex;
  fld "writecnt" atomic64_t;
  pad long 64
].

Definition struct_bpf_map_ops : cty := CStruct [
  fld "map_alloc_check" (ptr "int (union bpf_attr *)");
  fld "map_alloc" (ptr "struct bpf_map * (union bpf_attr *)");
  fld "map_release" (ptr "void (struct bpf_map *, struct file *)");
  fld "map_free" (ptr "void (struct bpf_map *)");
  fld "map_get_next_key" (ptr "int (struct bpf_map *, void *, void *)");
  fld "map_release_uref" (ptr "void (struct bpf_map *)");
  fld "map_lookup_elem_sys_only" (ptr "void * (struct bpf_map *, void *)");
  fld "map_lookup_batch" (ptr "int (struct bpf_map *, const union bpf_attr *, union bpf_attr *)");
  fld "map_lookup_and_delete_batch" (ptr "int (struct bpf_map *, const union bpf_attr *, union bpf_attr *)");
  fld "map_update_batch" (ptr "int (struct bpf_map *, const union bpf_attr *, union bpf_attr *)");
  fld "map_delete_batch" (ptr "int (struct bpf_map *, const union bpf_attr *, union bpf_attr *)");
  fld "map_lookup_elem" (ptr "void * (struct bpf_map *, void *)");
  fld "map_update_elem" (ptr "int (struct bpf_map *, void *, void *, u64)");
  fld "map_delete_elem" (ptr "int (struct bpf_map *, void *)");
  fld "map_push_elem" (ptr "int (struct bpf_map *, void *, u64)");
  fld "map_pop_elem" (ptr "int (struct bpf_map *, void *)");
  fld "map_peek_elem" (ptr "int (struct bpf_map *, void *)");
  fld "map_fd_get_ptr" (ptr "void * (struct bpf_map *, struct file *, int)");
  fld "map_fd_put_ptr" (ptr "void (void *)");
  fld "map_gen_lookup" (ptr "int (struct bpf_map *, struct bpf_insn *)");
  fld "map_fd_sys_lookup_elem" (ptr "u32 (void *)");
  fld "map_seq_show_elem" (ptr "void (struct bpf_map *, void *, struct seq_file *)");
  fld "map_check_btf" (ptr "int (const struct bpf_map *, const struct btf *, const struct btf_type *, const struct btf_type *)");
  fld "map_poke_track" (ptr "int (struct bpf_map *, struct bpf_prog_aux *)");
  fld "map_poke_untrack" (ptr "void (struct bpf_map *, struct bpf_prog_aux *)");
  fld "map_poke_run" (ptr "void (struct bpf_map *, u32, struct bpf_prog *, struct bpf_prog *)");
  fld "map_direct_value_addr" (ptr "int (const struct bpf_map *, u64 *, u32)");
  fld "map_direct_value_meta" (ptr "int (const struct bpf_map *, u64, u32 *)");
  fld "map_mmap" (ptr "int (struct bpf_map *, struct vm_area_struct *)");
  fld "map_poll" (ptr "__poll_t (struct bpf_map *, struct file *, struct poll_table_struct *)");
  fld "map_local_storage_charge" (ptr "int (struct bpf_local_storage_map *, void *, u32)");
  fld "map_local_storage_uncharge" (ptr "void (struct bpf_local_storage_map *, void *, u32)");
  fld "map_owner_storage_ptr" (ptr "struct bpf_local_storage ** (void *)");
  fld "map_meta_equal" (ptr "bool (const struct bpf_map *, const struct bpf_map *)");
  fld "map_btf_name" (ptr "const char");
  fld "map_btf_id" (ptr "int");
  fld "iter_seq_info" (ptr "const struct bpf_iter_seq_info");
  fld "android_kabi_reserved1" u64;
  fld "android_kabi_reserved2" u64
].

Definition struct_bpf_prog : cty := CStruct [
  fld "pages" u16;
  bit "jited" u16 1;
  bit "jit_requested" u16 1;
  bit "gpl_compatible" u16 1;
  bit "cb_access" u16 1;
  bit "dst_needed" u16 1;
  bit "blinded" u16 1;
  bit "is_func" u16 1;
  bit "kprobe_override" u16 1;
  bit "has_callchain_buf" u16 1;
  bit "enforce_expected_attach_type" u16 1;
  bit "call_get_stack" u16 1;
  fld "type" (enum "bpf_prog_type");
  fld "expected_attach_type" (enum "bpf_attach_type");
  fld "len" u32;
  fld "jited_len" u32;
  fld "tag" (CArr u8 8);
  fld "aux" (ptr "struct bpf_prog_aux");
  fld "orig_prog" (ptr "struct sock_fprog_kern");
  fld "bpf_func" (ptr "unsigned int (const void *, const struct bpf_insn *)");
  fld "insns" (CArr struct_sock_filter 0);
  fld "insnsi" (CArr struct_bpf_insn 0)
].

Definition struct_latch_tree_node : cty := CStruct [
  fld "node" (CArr struct_rb_node 2)
].

Definition struct_bpf_ksym : cty := CStruct [
  fld "start" ulong;
  fld "end" ulong;
  fld "name" (CArr char 128);
  fld "lnode" struct_list_head;
  fld "tnode" struct_latch_tree_node;
  fld "prog" c_bool
].

Definition struct_bpf_prog_aux : cty := CStruct [
  fld "refcnt" atomic64_t;
  fld "used_map_cnt" u32;
  fld "max_ctx_offset" u32;
  fld "max_pkt_offset" u32;
  fld "max_tp_access" u32;
  fld "stack_depth" u32;
  fld "id" u32;
  fld "func_cnt" u32;
  fld "func_idx" u32;
  fld "attach_btf_id" u32;
  fld "ctx_arg_info_size" u32;
  fld "max_rdonly_access" u32;
  fld "max_rdwr_access" u32;
  fld "ctx_arg_info" (ptr "const struct bpf_ctx_arg_aux");
  fld "dst_mutex" struct_mutex;
  fld "dst_prog" (ptr "struct bpf_prog");
  fld "dst_trampoline" (ptr "struct bpf_trampoline");
  fld "saved_dst_prog_type" (enum "bpf_prog_type");
  fld "saved_dst_attach_type" (enum "bpf_attach_type");
  fld "verifier_zext" c_bool;
  fld "offload_requested" c_bool;
  fld "attach_btf_trace" c_bool;
  fld "func_proto_unreliable" c_bool;
  fld "sleepable" c_bool;
  fld "tail_call_reachable" c_bool;
  fld "tramp_hlist" struct_hlist_node;
  fld "attach_func_proto" (ptr "const struct btf_type");
  fld "attach_func_name" (ptr "const char");
  fld "func" (ptr "struct bpf_prog *");
  fld "jit_data" (ptr "void");
  fld "poke_tab" (ptr "struct bpf_jit_poke_descriptor");
  fld "size_poke_tab" u32;
  fld "ksym" struct_bpf_ksym;
  fld "ops" (ptr "const struct bpf_prog_ops");
  fld "used_maps" (ptr "struct bpf_map *");
  fld "used_maps_mutex" struct_mutex;
  fld "prog" (ptr "struct bpf_prog");
  fld "user" (ptr "struct user_struct");
  fld "load_time" u64;
  fld "cgroup_storage" (CArr (ptr "struct bpf_map") 2);
  fld "name" (CArr char 16);
  fld "security" (ptr "void");
  fld "offload" (ptr "struct bpf_prog_offload");
  fld "btf" (ptr "struct btf");
  fld "func_info" (ptr "struct bpf_func_info");
  fld "func_info_aux" (ptr "struct bpf_func_info_aux");
  fld "linfo" (ptr "struct bpf_line_info");
  fld "jited_linfo" (ptr "void *");
  fld "func_info_cnt" u32;
  fld "nr_linfo" u32;
  fld "linfo_idx" u32;
  fld "num_exentries" u32;
  fld "extable" (ptr "struct exception_table_entry");
  fld "stats" (ptr "struct bpf_prog_stats");
  anon (CUnion [
    fld "work" struct_work_struct;
    fld "rcu" struct_callback_head
  ]);
  fld "android_kabi_reserved1" u64
].

Definition struct_bpf_array : cty := CStruct [
  fld "map" struct_bpf_map;
  fld "elem_size" u32;
  fld "index_mask" u32;
  fld "aux" (ptr "struct bpf_array_aux");
  anon (CUnion [
    fld "value" (CArr char 0);
    fld "ptrs" (CArr (ptr "void") 0);
    fld "pptrs" (CArr (ptr "void") 0)
  ]);
  pad long 64;
  pad long 64;
  pad long 64;
  pad long 64;
  pad long 64;
  pad long 64
].

Definition struct_pcpu_freelist_head : cty := CStruct [
  fld "first" (ptr "struct pcpu_freelist_node");
  fld "lock" raw_spinlock_t
].

Definition struct_pcpu_freelist : cty := CStruct [
  fld "freelist" (ptr "struct pcpu_freelist_head");
  fld "extralist" struct_pcpu_freelist_head
].

Definition struct_bpf_lru_list : cty := CStruct [
  fld "lists" (CArr struct_list_head 3);
  fld "counts" (CArr uint 2);
  fld "next_inactive_rotation" (ptr "struct list_head");
  fld "lock" raw_spinlock_t;
  pad long 64;
  pad long 64;
  pad long 64;
  pad long 64;
  pad long 64;
  pad long 64;
  pad long 64
].

Definition struct_bpf_common_lru : cty := CStruct [
  fld "lru_list" struct_bpf_lru_list;
  fld "local_list" (ptr "struct bpf_lru_locallist");
  pad long 64;
  pad long 64;
  pad long 64;
  pad long 64;
  pad long 64;
  pad long 64;
  pad long 64
].

Definition del_from_htab_func : cty := ptr "bool (void *, struct bpf_lru_node *)".

Definition struct_bpf_lru : cty := CStruct [
  anon (CUnion [
    fld "common_lru" struct_bpf_common_lru;
    fld "percpu_lru" (ptr "struct bpf_lru_list")
  ]);
  fld "del_from_htab" del_from_htab_func;
  fld "del_arg" (ptr "void");
  fld "hash_offset" uint;
  fld "nr_scans" uint;
  fld "percpu" c_bool;
  pad long 64;
  pad long 64;
  pad long 64;
  pad long 64
].

Definition struct_bpf_htab : cty := CStruct [
  fld "map" struct_bpf_map;
  fld "buckets" (ptr "struct bucket");
  fld "elems" (ptr "void");
  pad long 64;
  pad long 64;
  pad long 64;
  pad long 64;
  pad long 64;
  pad long 64;
  anon (CUnion [
    fld "freelist" struct_pcpu_freelist;
    fld "lru" struct_bpf_lru
  ]);
  fld "extra_elems" (ptr "struct htab_elem *");
  fld "count" atomic_t;
  fld "n_buckets" u32;
  fld "elem_size" u32;
  fld "hashrnd" u32;
  pad long 64;
  pad long 64;
  pad long 64;
  pad long 64;
  pad long 64
].

Definition struct_bpf_ringbuf : cty := CStruct ([
  fld "waitq" wait_queue_head_t;
  fld "work" struct_irq_work;
  fld "mask" u64;
  fld "pages" (ptr "struct page *");
  fld "nr_pages" int;
  pad long 64;
  pad long 64;
  pad long 64;
  pad long 64;
  pad long 64;
  pad long 64;
  pad long 64;
  fld "spinlock" spinlock_t
] ++ repeat (pad long 64) 495 ++ [
  fld "consumer_pos" ulong
] ++ repeat (pad long 64) 511 ++ [
  fld "producer_pos" ulong
] ++ repeat (pad long 64) 511 ++ [
  fld "data" (CArr char 0)
]).

Definition struct_bpf_ringbuf_map : cty := CStruct [
  fld "map" struct_bpf_map;
  fld "memory" struct_bpf_map_memory;
  fld "rb" (ptr "struct bpf_ringbuf");
  pad long 64;
  pad long 64;
  pad long 64;
  pad long 64;
  pad long 64
].

Definition struct_bpf_stack_map : cty := CStruct [
  fld "map" struct_bpf_map;
  fld "elems" (ptr "void");
  fld "freelist" struct_pcpu_freelist;
  fld "n_buckets" u32;
  fld "buckets" (CArr (ptr "struct stack_map_bucket") 0);
  pad long 64;
  pad long 64;
  pad long 64
].

Definition struct_pcpu_freelist_node : cty := CStruct [
  fld "next" (ptr "struct pcpu_freelist_node")
].

Definition struct_stack_map_bucket : cty := CStruct [
  fld "fnode" struct_pcpu_freelist_node;
  fld "hash" u32;
  fld "nr" u32;
  fld "data" (CArr u64 0)
].

Definition struct_bpf_func_proto : cty := CStruct [
  fld "func" (ptr "u64 (u64, u64, u64, u64, u64)");
  fld "gpl_only" c_bool;
  fld "pkt_access" c_bool;
  fld "ret_type" (enum "bpf_return_type");
  anon (CUnion [
    anon (CStruct [
      fld "arg1_type" (enum "bpf_arg_type");
      fld "arg2_type" (enum "bpf_arg_type");
      fld "arg3_type" (enum "bpf_arg_type");
      fld "arg4_type" (enum "bpf_arg_type");
      fld "arg5_type" (enum "bpf_arg_type")
    ]);
    fld "arg_type" (CArr (enum "bpf_arg_type") 5)
  ]);
  anon (CUnion [
    anon (CStruct [
      fld "arg1_btf_id" (ptr "u32");
      fld "arg2_btf_id" (ptr "u32");
      fld "arg3_btf_id" (ptr "u32");
      fld "arg4_btf_id" (ptr "u32");
      fld "arg5_btf_id" (ptr "u32")
    ]);
    fld "arg_btf_id" (CArr (ptr "u32") 5)
  ]);
  fld "ret_btf_id" (ptr "int");
  fld "allowed" (ptr "bool (const struct bpf_prog *)")
].

Definition struct_bpf_link : cty := CStruct [
  fld "refcnt" atomic64_t;
  fld "id" u32;
  fld "type" (enum "bpf_link_type");
  fld "ops" (ptr "const struct bpf_link_ops");
  fld "prog" (ptr "struct bpf_prog");
  fld "work" struct_work_struct
].

Definition struct_btf_func_model : cty := CStruct [
  fld "ret_size" u8;
  fld "nr_args" u8;
  fld "arg_size" (CArr u8 12)
].

Definition struct_bpf_trampoline : cty := CStruct [
  fld "hlist" struct_hlist_node;
  fld "mutex" struct_mutex;
  fld "refcnt" refcount_t;
  fld "key" u64;
  fld "func" (CStruct [
    fld "model" struct_btf_func_model;
    fld "addr" (ptr "void");
    fld "ftrace_managed" c_bool
  ]);
  fld "extension_prog" (ptr "struct bpf_prog");
  fld "progs_hlist" (CArr struct_hlist_head 3);
  fld "progs_cnt" (CArr int 3);
  fld "cur_image" (ptr "struct bpf_tramp_image");
  fld "selector" u64
].

Definition struct_bpf_ctx_arg_aux : cty := CStruct [
  fld "offset" u32;
  fld "reg_type" (enum "bpf_reg_type");
  fld "btf_id" u32
].

Definition struct_btf_header : cty := CStruct [
  fld "magic" __u16;
  fld "version" __u8;
  fld "flags" __u8;
  fld "hdr_len" __u32;
  fld "type_off" __u32;
  fld "type_len" __u32;
  fld "str_off" __u32;
  fld "str_len" __u32
].

Definition struct_btf : cty := CStruct [
  fld "data" (ptr "void");
  fld "types" (ptr "struct btf_type *");
  fld "resolved_ids" (ptr "u32");
  fld "resolved_sizes" (ptr "u32");
  fld "strings" (ptr "const char");
  fld "nohdr_data" (ptr "void");
  fld "hdr" struct_btf_header;
  fld "nr_types" u32;
  fld "types_size" u32;
  fld "data_size" u32;
  fld "refcnt" refcount_t;
  fld "id" u32;
  fld "rcu" struct_callback_head
].

(** The records of this file, by tag. *)
Definition KBpf_types : list (string * cty) := [
  ("struct bpf_map_memory", struct_bpf_map_memory); ("struct bpf_map", struct_bpf_map);
  ("struct bpf_map_ops", struct_bpf_map_ops); ("struct bpf_prog", struct_bpf_prog);
  ("struct latch_tree_node", struct_latch_tree_node); ("struct bpf_ksym", struct_bpf_ksym);
  ("struct bpf_prog_aux", struct_bpf_prog_aux); ("struct bpf_array", struct_bpf_array);
  ("struct pcpu_freelist_head", struct_pcpu_freelist_head);
  ("struct pcpu_freelist", struct_pcpu_freelist); ("struct bpf_lru_list", struct_bpf_lru_list);
  ("struct bpf_common_lru", struct_bpf_common_lru); ("struct bpf_lru", struct_bpf_lru);
  ("struct bpf_htab", struct_bpf_htab); ("struct bpf_ringbuf", struct_bpf_ringbuf);
  ("struct bpf_ringbuf_map", struct_bpf_ringbuf_map);
  ("struct bpf_stack_map", struct_bpf_stack_map);
  ("struct pcpu_freelist_node", struct_pcpu_freelist_node);
  ("struct stack_map_bucket", struct_stack_map_bucket);
  ("struct bpf_func_proto", struct_bpf_func_proto); ("struct bpf_link", struct_bpf_link);
  ("struct btf_func_model", struct_btf_func_model);
  ("struct bpf_trampoline", struct_bpf_trampoline);
  ("struct bpf_ctx_arg_aux", struct_bpf_ctx_arg_aux); ("struct btf_header", struct_btf_header);
  ("struct btf", struct_btf)
].
