(* ===== verification/KVerifier.v ===== *)
(** * KVerifier: the verifier's state. *)

From S2P Require Import Prelude Layout KBase KUapi KRegs KPerf KTrace KBpf.

Definition struct_bpf_verifier_log : cty := CStruct [
  fld "level" u32;
  fld "kbuf" (CArr char 1024);
  fld "ubuf" (ptr "char");
  fld "len_used" u32;
  fld "len_total" u32
].

Definition struct_bpf_subprog_info : cty := CStruct [
  fld "start" u32;
  fld "linfo_idx" u32;
  fld "stack_depth" u16;
  fld "has_tail_call" c_bool;
  fld "tail_call_reachable" c_bool;
  fld "has_ld_abs" c_bool;
  fld "android_kabi_reserved1" u64
].

Definition struct_bpf_id_pair : cty := CStruct [
  fld "old" u32;
  fld "cur" u32
].

Definition struct_bpf_verifier_env : cty := CStruct [
  fld "insn_idx" u32;
  fld "prev_insn_idx" u32;
  fld "prog" (ptr "struct bpf_prog");
  fld "ops" (ptr "const struct bpf_verifier_ops");
  fld "head" (ptr "struct bpf_verifier_stack_elem");
  fld "stack_size" int;
  fld "strict_alignment" c_bool;
  fld "test_state_freq" c_bool;
  fld "cur_state" (ptr "struct bpf_verifier_state");
  fld "explored_states" (ptr "struct bpf_verifier_state_list *");
  fld "free_list" (ptr "struct bpf_verifier_state_list");
  fld "used_maps" (CArr (ptr "struct bpf_map") 64);
  fld "used_map_cnt" u32;
  fld "id_gen" u32;
  fld "explore_alu_limits" c_bool;
  fld "allow_ptr_leaks" c_bool;
  fld "allow_uninit_stack" c_bool;
  fld "allow_ptr_to_map_access" c_bool;
  fld "bpf_capable" c_bool;
  fld "bypass_spec_v1" c_bool;
  fld "bypass_spec_v4" c_bool;
  fld "seen_direct_write" c_bool;
  fld "insn_aux_data" (ptr "struct bpf_insn_aux_data");
  fld "prev_linfo" (ptr "const struct bpf_line_info");
  fld "log" struct_bpf_verifier_log;
  fld "subprog_info" (CArr struct_bpf_subprog_info 257);
  fld "idmap_scratch" (CArr struct_bpf_id_pair 75);
  fld "cfg" (CStruct [
    fld "insn_state" (ptr "int");
    fld "insn_stack" (ptr "int");
    fld "cur_stack" int
  ]);
  fld "pass_cnt" u32;
  fld "subprog_cnt" u32;
  fld "prev_insn_processed" u32;
  fld "insn_processed" u32;
  fld "prev_jmps_processed" u32;
  fld "jmps_processed" u32;
  fld "verification_time" u64;
  fld "max_states_per_insn" u32;
  fld "total_states" u32;
  fld "peak_states" u32;
  fld "longest_mark_read_walk" u32;
  fld "android_kabi_reserved1" u64;
  fld "android_kabi_reserved2" u64
].

Definition struct_bpf_verifier_state : cty := CStruct [
  fld "frame" (CArr (ptr "struct bpf_func_state") 8);
  fld "parent" (ptr "struct bpf_verifier_state");
  fld "branches" u32;
  fld "insn_idx" u32;
  fld "curframe" u32;
  fld "active_spin_lock" u32;
  fld "speculative" c_bool;
  fld "first_insn_idx" u32;
  fld "last_insn_idx" u32;
  fld "jmp_history" (ptr "struct bpf_idx_pair");
  fld "jmp_history_cnt" u32
].

Definition struct_tnum : cty := CStruct [
  fld "value" u64;
  fld "mask" u64
].

Definition struct_bpf_reg_state : cty := CStruct [
  fld "type" (enum "bpf_reg_type");
  anon (CUnion [
    fld "range" u16;
    fld "map_ptr" (ptr "struct bpf_map");
    fld "btf_id" u32;
    fld "mem_size" u32;
    fld "raw" ulong
  ]);
  fld "off" s32;
  fld "id" u32;
  fld "ref_obj_id" u32;
  fld "var_off" struct_tnum;
  fld "smin_value" s64;
  fld "smax_value" s64;
  fld "umin_value" u64;
  fld "umax_value" u64;
  fld "s32_min_value" s32;
  fld "s32_max_value" s32;
  fld "u32_min_value" u32;
  fld "u32_max_value" u32;
  fld "parent" (ptr "struct bpf_reg_state");
  fld "frameno" u32;
  fld "subreg_def" s32;
  fld "live" (enum "bpf_reg_liveness");
  fld "precise" c_bool
].

Definition struct_bpf_func_state : cty := CStruct [
  fld "regs" (CArr struct_bpf_reg_state 11);
  fld "callsite" int;
  fld "frameno" u32;
  fld "subprogno" u32;
  fld "acquired_refs" int;
  fld "refs" (ptr "struct bpf_reference_state");
  fld "allocated_stack" int;
  fld "stack" (ptr "struct bpf_stack_state")
].

Definition struct_bpf_insn_aux_data : cty := CStruct [
  anon (CUnion [
    fld "ptr_type" (enum "bpf_reg_type");
    fld "map_ptr_state" ulong;
    fld "call_imm" s32;
    fld "alu_limit" u32;
    anon (CStruct [
      fld "map_index" u32;
      fld "map_off" u32
    ]);
    fld "btf_var" (CStruct [
      fld "reg_type" (enum "bpf_reg_type");
      anon (CUnion [
        fld "btf_id" u32;
        fld "mem_size" u32
      ])
    ])
  ]);
  fld "map_key_state" u64;
  fld "ctx_field_size" int;
  fld "seen" u32;
  fld "sanitize_stack_spill" c_bool;
  fld "zext_dst" c_bool;
  fld "alu_state" u8;
  fld "orig_idx" uint;
  fld "prune_point" c_bool
].

Definition struct_bpf_verifier_ops : cty := CStruct [
  fld "get_func_proto" (ptr "const struct bpf_func_proto * (enum bpf_func_id, const struct bpf_prog *)");
  fld "is_valid_access" (ptr "bool (int, int, enum bpf_access_type, const struct bpf_prog *, struct bpf_insn_access_aux *)");
  fld "gen_prologue" (ptr "int (struct bpf_insn *, bool, const struct bpf_prog *)");
  fld "gen_ld_abs" (ptr "int (const struct bpf_insn *, struct bpf_insn *)");
  fld "convert_ctx_access" (ptr "u32 (enum bpf_access_type, const struct bpf_insn *, struct bpf_insn *, struct bpf_prog *, u32 *)");
  fld "btf_struct_access" (ptr "int (struct bpf_verifier_log *, const struct btf_type *, int, int, enum bpf_access_type, u32 *)");
  fld "android_kabi_reserved1" u64
].

(** The records of this file, by tag. *)
Definition KVerifier_types : list (string * cty) := [
  ("struct bpf_verifier_log", struct_bpf_verifier_log);
  ("struct bpf_subprog_info", struct_bpf_subprog_info); ("struct bpf_id_pair", struct_bpf_id_pair);
  ("struct bpf_verifier_env", struct_bpf_verifier_env);
  ("struct bpf_verifier_state", struct_bpf_verifier_state); ("struct tnum", struct_tnum);
  ("struct bpf_reg_state", struct_bpf_reg_state); ("struct bpf_func_state", struct_bpf_func_state);
  ("struct bpf_insn_aux_data", struct_bpf_insn_aux_data);
  ("struct bpf_verifier_ops", struct_bpf_verifier_ops)
].
