(* ===== verification/KTask.v ===== *)
(** * KTask: the current task: scheduling entities, signals, credentials. *)

From S2P Require Import Prelude Layout KBase KUapi KRegs KPerf KTrace KBpf KVerifier.

Definition struct_load_weight : cty := CStruct [
  fld "weight" ulong;
  fld "inv_weight" u32
].

Definition struct_sched_statistics : cty := CStruct [
  fld "wait_start" u64;
  fld "wait_max" u64;
  fld "wait_count" u64;
  fld "wait_sum" u64;
  fld "iowait_count" u64;
  fld "iowait_sum" u64;
  fld "sleep_start" u64;
  fld "sleep_max" u64;
  fld "sum_sleep_runtime" s64;
  fld "block_start" u64;
  fld "block_max" u64;
  fld "exec_max" u64;
  fld "slice_max" u64;
  fld "nr_migrations_cold" u64;
  fld "nr_failed_migrations_affine" u64;
  fld "nr_failed_migrations_running" u64;
  fld "nr_failed_migrations_hot" u64;
  fld "nr_forced_migrations" u64;
  fld "nr_wakeups" u64;
  fld "nr_wakeups_sync" u64;
  fld "nr_wakeups_migrate" u64;
  fld "nr_wakeups_local" u64;
  fld "nr_wakeups_remote" u64;
  fld "nr_wakeups_affine" u64;
  fld "nr_wakeups_affine_attempts" u64;
  fld "nr_wakeups_passive" u64;
  fld "nr_wakeups_idle" u64
].

Definition struct_util_est : cty := CStruct [
  fld "enqueued" uint;
  fld "ewma" uint
].

Definition struct_sched_avg : cty := CStruct [
  fld "last_update_time" u64;
  fld "load_sum" u64;
  fld "runnable_sum" u64;
  fld "util_sum" u32;
  fld "period_contrib" u32;
  fld "load_avg" ulong;
  fld "runnable_avg" ulong;
  fld "util_avg" ulong;
  fld "util_est" struct_util_est
].

Definition struct_sched_entity : cty := CStruct [
  fld "load" struct_load_weight;
  fld "run_node" struct_rb_node;
  fld "group_node" struct_list_head;
  fld "on_rq" uint;
  fld "exec_start" u64;
  fld "sum_exec_runtime" u64;
  fld "vruntime" u64;
  fld "prev_sum_exec_runtime" u64;
  fld "nr_migrations" u64;
  fld "statistics" struct_sched_statistics;
  fld "depth" int;
  fld "parent" (ptr "struct sched_entity");
  fld "cfs_rq" (ptr "struct cfs_rq");
  fld "my_q" (ptr "struct cfs_rq");
  fld "runnable_weight" ulong;
  pad long 64;
  pad long 64;
  pad long 64;
  fld "avg" struct_sched_avg;
  fld "android_kabi_reserved1" u64;
  fld "android_kabi_reserved2" u64;
  fld "android_kabi_reserved3" u64;
  fld "android_kabi_reserved4" u64;
  pad long 64;
  pad long 64;
  pad long 64;
  pad long 64
].

Definition struct_sched_rt_entity : cty := CStruct [
  fld "run_list" struct_list_head;
  fld "timeout" ulong;
  fld "watchdog_stamp" ulong;
  fld "time_slice" uint;
  fld "on_rq" ushort;
  fld "on_list" ushort;
  fld "back" (ptr "struct sched_rt_entity");
  fld "android_kabi_reserved1" u64;
  fld "android_kabi_reserved2" u64;
  fld "android_kabi_reserved3" u64;
  fld "android_kabi_reserved4" u64
].

Definition struct_sched_dl_entity : cty := CStruct [
  fld "rb_node" struct_rb_node;
  fld "dl_runtime" u64;
  fld "dl_deadline" u64;
  fld "dl_period" u64;
  fld "dl_bw" u64;
  fld "dl_density" u64;
  fld "runtime" s64;
  fld "deadline" u64;
  fld "flags" uint;
  bit "dl_throttled" uint 1;
  bit "dl_yielded" uint 1;
  bit "dl_non_contending" uint 1;
  bit "dl_overrun" uint 1;
  fld "dl_timer" struct_hrtimer;
  fld "inactive_timer" struct_hrtimer;
  fld "pi_se" (ptr "struct sched_dl_entity")
].

Definition struct_uclamp_se : cty := CStruct [
  bit "value" uint 11;
  bit "bucket_id" uint 5;
  bit "active" uint 1;
  bit "user_defined" uint 1
].

Definition union_rcu_special : cty := CUnion [
  fld "b" (CStruct [
    fld "blocked" u8;
    fld "need_qs" u8;
    fld "exp_hint" u8;
    fld "need_mb" u8
  ]);
  fld "s" u32
].

Definition struct_sched_info : cty := CStruct [
  fld "pcount" ulong;
  fld "run_delay" ullong;
  fld "last_arrival" ullong;
  fld "last_queued" ullong
].

Definition struct_vmacache : cty := CStruct [
  fld "seqnum" u64;
  fld "vmas" (CArr (ptr "struct vm_area_struct") 4)
].

Definition struct_task_rss_stat : cty := CStruct [
  fld "events" int;
  fld "count" (CArr int 4)
].

Definition struct_restart_block : cty := CStruct [
  fld "fn" (ptr "long (struct restart_block *)");
  anon (CUnion [
    fld "futex" (CStruct [
      fld "uaddr" (ptr "u32");
      fld "val" u32;
      fld "flags" u32;
      fld "bitset" u32;
      fld "time" u64;
      fld "uaddr2" (ptr "u32")
    ]);
    fld "nanosleep" (CStruct [
      fld "clockid" clockid_t;
      fld "type" (enum "timespec_type");
      anon (CUnion [
        fld "rmtp" (ptr "struct __kernel_timespec");
        fld "compat_rmtp" (ptr "struct old_timespec32")
      ]);
      fld "expires" u64
    ]);
    fld "poll" (CStruct [
      fld "ufds" (ptr "struct pollfd");
      fld "nfds" int;
      fld "has_timeout" int;
      fld "tv_sec" ulong;
      fld "tv_nsec" ulong
    ])
  ])
].

Definition struct_prev_cputime : cty := CStruct [
  fld "utime" u64;
  fld "stime" u64;
  fld "lock" raw_spinlock_t
].

Definition struct_posix_cputimer_base : cty := CStruct [
  fld "nextevt" u64;
  fld "tqhead" struct_timerqueue_head
].

Definition struct_posix_cputimers : cty := CStruct [
  fld "bases" (CArr struct_posix_cputimer_base 3);
  fld "timers_active" uint;
  fld "expiry_active" uint
].

Definition struct_sigpending : cty := CStruct [
  fld "list" struct_list_head;
  fld "signal" sigset_t
].

Definition struct_seccomp : cty := CStruct [
  fld "mode" int;
  fld "filter_count" atomic_t;
  fld "filter" (ptr "struct seccomp_filter")
].

Definition struct_wake_q_node : cty := CStruct [
  fld "next" (ptr "struct wake_q_node")
].

Definition struct_task_io_accounting : cty := CStruct [
  fld "rchar" u64;
  fld "wchar" u64;
  fld "syscr" u64;
  fld "syscw" u64;
  fld "syscfs" u64;
  fld "read_bytes" u64;
  fld "write_bytes" u64;
  fld "cancelled_write_bytes" u64
].

Definition struct_tlbflush_unmap_batch : cty := CStruct [].

Definition struct_page_frag : cty := CStruct [
  fld "page" (ptr "struct page");
  fld "offset" __u32;
  fld "size" __u32
].

Definition struct_task_struct : cty := CStruct [
  fld "thread_info" struct_thread_info;
  fld "state" long;
  fld "stack" (ptr "void");
  fld "usage" refcount_t;
  fld "flags" uint;
  fld "ptrace" uint;
  fld "on_cpu" int;
  fld "wake_entry" struct___call_single_node;
  fld "cpu" uint;
  fld "wakee_flips" uint;
  fld "wakee_flip_decay_ts" ulong;
  fld "last_wakee" (ptr "struct task_struct");
  fld "recent_used_cpu" int;
  fld "wake_cpu" int;
  fld "on_rq" int;
  fld "prio" int;
  fld "static_prio" int;
  fld "normal_prio" int;
  fld "rt_priority" uint;
  fld "sched_class" (ptr "const struct sched_class");
  pad long 64;
  pad long 64;
  pad long 64;
  pad long 64;
  fld "se" struct_sched_entity;
  fld "rt" struct_sched_rt_entity;
  fld "sched_task_group" (ptr "struct task_group");
  fld "dl" struct_sched_dl_entity;
  fld "uclamp_req" (CArr struct_uclamp_se 2);
  fld "uclamp" (CArr struct_uclamp_se 2);
  fld "percpu_kthread_node" struct_list_head;
  fld "preempt_notifiers" struct_hlist_head;
  fld "policy" uint;
  fld "nr_cpus_allowed" int;
  fld "cpus_ptr" (ptr "const cpumask_t");
  fld "cpus_mask" cpumask_t;
  fld "rcu_read_lock_nesting" int;
  fld "rcu_read_unlock_special" union_rcu_special;
  fld "rcu_node_entry" struct_list_head;
  fld "rcu_blocked_node" (ptr "struct rcu_node");
  fld "rcu_tasks_nvcsw" ulong;
  fld "rcu_tasks_holdout" u8;
  fld "rcu_tasks_idx" u8;
  fld "rcu_tasks_idle_cpu" int;
  fld "rcu_tasks_holdout_list" struct_list_head;
  fld "trc_reader_nesting" int;
  fld "trc_ipi_to_cpu" int;
  fld "trc_reader_special" union_rcu_special;
  fld "trc_reader_checked" c_bool;
  fld "trc_holdout_list" struct_list_head;
  fld "sched_info" struct_sched_info;
  fld "tasks" struct_list_head;
  fld "pushable_tasks" struct_plist_node;
  fld "pushable_dl_tasks" struct_rb_node;
  fld "mm" (ptr "struct mm_struct");
  fld "active_mm" (ptr "struct mm_struct");
  fld "vmacache" struct_vmacache;
  fld "rss_stat" struct_task_rss_stat;
  fld "exit_state" int;
  fld "exit_code" int;
  fld "exit_signal" int;
  fld "pdeath_signal" int;
  fld "jobctl" ulong;
  fld "personality" uint;
  bit "sched_reset_on_fork" uint 1;
  bit "sched_contributes_to_load" uint 1;
  bit "sched_migrated" uint 1;
  bit "sched_psi_wake_requeue" uint 1;
  pad long 28;
  bit "sched_remote_wakeup" uint 1;
  bit "in_execve" uint 1;
  bit "in_iowait" uint 1;
  bit "in_user_fault" uint 1;
  bit "in_lru_fault" uint 1;
  bit "no_cgroup_migration" uint 1;
  bit "frozen" uint 1;
  bit "use_memdelay" uint 1;
  bit "in_memstall" uint 1;
  fld "atomic_flags" ulong;
  fld "restart_block" struct_restart_block;
  fld "pid" pid_t;
  fld "tgid" pid_t;
  fld "stack_canary" ulong;
  fld "real_parent" (ptr "struct task_struct");
  fld "parent" (ptr "struct task_struct");
  fld "children" struct_list_head;
  fld "sibling" struct_list_head;
  fld "group_leader" (ptr "struct task_struct");
  fld "ptraced" struct_list_head;
  fld "ptrace_entry" struct_list_head;
  fld "thread_pid" (ptr "struct pid");
  fld "pid_links" (CArr struct_hlist_node 4);
  fld "thread_group" struct_list_head;
  fld "thread_node" struct_list_head;
  fld "vfork_done" (ptr "struct completion");
  fld "set_child_tid" (ptr "int");
  fld "clear_child_tid" (ptr "int");
  fld "utime" u64;
  fld "stime" u64;
  fld "gtime" u64;
  fld "time_in_state" (ptr "u64");
  fld "max_state" uint;
  fld "prev_cputime" struct_prev_cputime;
  fld "nvcsw" ulong;
  fld "nivcsw" ulong;
  fld "start_time" u64;
  fld "start_boottime" u64;
  fld "min_flt" ulong;
  fld "maj_flt" ulong;
  fld "posix_cputimers" struct_posix_cputimers;
  fld "ptracer_cred" (ptr "const struct cred");
  fld "real_cred" (ptr "const struct cred");
  fld "cred" (ptr "const struct cred");
  fld "cached_requested_key" (ptr "struct key");
  fld "comm" (CArr char 16);
  fld "nameidata" (ptr "struct nameidata");
  fld "last_switch_count" ulong;
  fld "last_switch_time" ulong;
  fld "fs" (ptr "struct fs_struct");
  fld "files" (ptr "struct files_struct");
  fld "io_uring" (ptr "struct io_uring_task");
  fld "nsproxy" (ptr "struct nsproxy");
  fld "signal" (ptr "struct signal_struct");
  fld "sighand" (ptr "struct sighand_struct");
  fld "blocked" sigset_t;
  fld "real_blocked" sigset_t;
  fld "saved_sigmask" sigset_t;
  fld "pending" struct_sigpending;
  fld "sas_ss_sp" ulong;
  fld "sas_ss_size" size_t;
  fld "sas_ss_flags" uint;
  fld "task_works" (ptr "struct callback_head");
  fld "audit_context" (ptr "struct audit_context");
  fld "loginuid" kuid_t;
  fld "sessionid" uint;
  fld "seccomp" struct_seccomp;
  fld "parent_exec_id" u64;
  fld "self_exec_id" u64;
  fld "alloc_lock" spinlock_t;
  fld "pi_lock" raw_spinlock_t;
  fld "wake_q" struct_wake_q_node;
  fld "wake_q_count" int;
  fld "pi_waiters" struct_rb_root_cached;
  fld "pi_top_task" (ptr "struct task_struct");
  fld "pi_blocked_on" (ptr "struct rt_mutex_waiter");
  fld "journal_info" (ptr "void");
  fld "bio_list" (ptr "struct bio_list");
  fld "plug" (ptr "struct blk_plug");
  fld "reclaim_state" (ptr "struct reclaim_state");
  fld "backing_dev_info" (ptr "struct backing_dev_info");
  fld "io_context" (ptr "struct io_context");
  fld "capture_control" (ptr "struct capture_control");
  fld "ptrace_message" ulong;
  fld "last_siginfo" (ptr "kernel_siginfo_t");
  fld "ioac" struct_task_io_accounting;
  fld "psi_flags" uint;
  fld "acct_rss_mem1" u64;
  fld "acct_vm_mem1" u64;
  fld "acct_timexpd" u64;
  fld "mems_allowed" nodemask_t;
  fld "mems_allowed_seq" seqcount_spinlock_t;
  fld "cpuset_mem_spread_rotor" int;
  fld "cpuset_slab_spread_rotor" int;
  fld "cgroups" (ptr "struct css_set");
  fld "cg_list" struct_list_head;
  fld "robust_list" (ptr "struct robust_list_head");
  fld "compat_robust_list" (ptr "struct compat_robust_list_head");
  fld "pi_state_list" struct_list_head;
  fld "pi_state_cache" (ptr "struct futex_pi_state");
  fld "futex_exit_mutex" struct_mutex;
  fld "futex_state" uint;
  fld "perf_event_ctxp" (CArr (ptr "struct perf_event_context") 2);
  fld "perf_event_mutex" struct_mutex;
  fld "perf_event_list" struct_list_head;
  fld "tlb_ubc" struct_tlbflush_unmap_batch;
  anon (CUnion [
    fld "rcu_users" refcount_t;
    fld "rcu" struct_callback_head
  ]);
  fld "splice_pipe" (ptr "struct pipe_inode_info");
  fld "task_frag" struct_page_frag;
  fld "delays" (ptr "struct task_delay_info");
  fld "nr_dirtied" int;
  fld "nr_dirtied_pause" int;
  fld "dirty_paused_when" ulong;
  fld "timer_slack_ns" u64;
  fld "default_timer_slack_ns" u64;
  fld "trace" ulong;
  fld "trace_recursion" ulong;
  fld "memcg_in_oom" (ptr "struct mem_cgroup");
  fld "memcg_oom_gfp_mask" gfp_t;
  fld "memcg_oom_order" int;
  fld "memcg_nr_pages_over_high" uint;
  fld "active_memcg" (ptr "struct mem_cgroup");
  fld "throttle_queue" (ptr "struct request_queue");
  fld "utask" (ptr "struct uprobe_task");
  fld "pagefault_disabled" int;
  fld "oom_reaper_list" (ptr "struct task_struct");
  fld "stack_vm_area" (ptr "struct vm_struct");
  fld "stack_refcount" refcount_t;
  fld "security" (ptr "void");
  fld "android_vendor_data1" (CArr u64 64);
  fld "android_oem_data1" (CArr u64 32);
  fld "android_kabi_reserved1" u64;
  fld "android_kabi_reserved2" u64;
  fld "android_kabi_reserved3" u64;
  fld "android_kabi_reserved4" u64;
  fld "android_kabi_reserved5" u64;
  fld "android_kabi_reserved6" u64;
  fld "android_kabi_reserved7" u64;
  fld "android_kabi_reserved8" u64;
  fld "thread" struct_thread_struct;
  pad long 64;
  pad long 64;
  pad long 64;
  pad long 64
].

Definition struct_cpu_itimer : cty := CStruct [
  fld "expires" u64;
  fld "incr" u64
].

Definition struct_task_cputime_atomic : cty := CStruct [
  fld "utime" atomic64_t;
  fld "stime" atomic64_t;
  fld "sum_exec_runtime" atomic64_t
].

Definition struct_thread_group_cputimer : cty := CStruct [
  fld "cputime_atomic" struct_task_cputime_atomic
].

Definition struct_rlimit : cty := CStruct [
  fld "rlim_cur" __kernel_ulong_t;
  fld "rlim_max" __kernel_ulong_t
].

Definition struct_signal_struct : cty := CStruct [
  fld "sigcnt" refcount_t;
  fld "live" atomic_t;
  fld "nr_threads" int;
  fld "thread_head" struct_list_head;
  fld "wait_chldexit" wait_queue_head_t;
  fld "curr_target" (ptr "struct task_struct");
  fld "shared_pending" struct_sigpending;
  fld "multiprocess" struct_hlist_head;
  fld "group_exit_code" int;
  fld "notify_count" int;
  fld "group_exit_task" (ptr "struct task_struct");
  fld "group_stop_count" int;
  fld "flags" uint;
  bit "is_child_subreaper" uint 1;
  bit "has_child_subreaper" uint 1;
  fld "posix_timer_id" int;
  fld "posix_timers" struct_list_head;
  fld "real_timer" struct_hrtimer;
  fld "it_real_incr" ktime_t;
  fld "it" (CArr struct_cpu_itimer 2);
  fld "cputimer" struct_thread_group_cputimer;
  fld "posix_cputimers" struct_posix_cputimers;
  fld "pids" (CArr (ptr "struct pid") 4);
  fld "tty_old_pgrp" (ptr "struct pid");
  fld "leader" int;
  fld "tty" (ptr "struct tty_struct");
  fld "stats_lock" seqlock_t;
  fld "utime" u64;
  fld "stime" u64;
  fld "cutime" u64;
  fld "cstime" u64;
  fld "gtime" u64;
  fld "cgtime" u64;
  fld "prev_cputime" struct_prev_cputime;
  fld "nvcsw" ulong;
  fld "nivcsw" ulong;
  fld "cnvcsw" ulong;
  fld "cnivcsw" ulong;
  fld "min_flt" ulong;
  fld "maj_flt" ulong;
  fld "cmin_flt" ulong;
  fld "cmaj_flt" ulong;
  fld "inblock" ulong;
  fld "oublock" ulong;
  fld "cinblock" ulong;
  fld "coublock" ulong;
  fld "maxrss" ulong;
  fld "cmaxrss" ulong;
  fld "ioac" struct_task_io_accounting;
  fld "sum_sched_runtime" ullong;
  fld "rlim" (CArr struct_rlimit 16);
  fld "stats" (ptr "struct taskstats");
  fld "audit_tty" uint;
  fld "tty_audit_buf" (ptr "struct tty_audit_buf");
  fld "oom_flag_origin" c_bool;
  fld "oom_score_adj" short;
  fld "oom_score_adj_min" short;
  fld "oom_mm" (ptr "struct mm_struct");
  fld "cred_guard_mutex" struct_mutex;
  fld "exec_update_lock" struct_rw_semaphore;
  fld "android_kabi_reserved1" u64;
  fld "android_kabi_reserved2" u64;
  fld "android_kabi_reserved3" u64;
  fld "android_kabi_reserved4" u64
].

Definition __sighandler_t : cty := ptr "__signalfn_t".

Definition __sigrestore_t : cty := ptr "__restorefn_t".

Definition struct_sigaction : cty := CStruct [
  fld "sa_handler" __sighandler_t;
  fld "sa_flags" ulong;
  fld "sa_restorer" __sigrestore_t;
  fld "sa_mask" sigset_t
].

Definition struct_k_sigaction : cty := CStruct [
  fld "sa" struct_sigaction
].

Definition struct_sighand_struct : cty := CStruct [
  fld "siglock" spinlock_t;
  fld "count" refcount_t;
  fld "signalfd_wqh" wait_queue_head_t;
  fld "action" (CArr struct_k_sigaction 64)
].

Definition struct_kernel_cap_struct : cty := CStruct [
  fld "cap" (CArr __u32 2)
].

Definition kernel_cap_t : cty := struct_kernel_cap_struct.

Definition struct_cred : cty := CStruct [
  fld "usage" atomic_t;
  fld "uid" kuid_t;
  fld "gid" kgid_t;
  fld "suid" kuid_t;
  fld "sgid" kgid_t;
  fld "euid" kuid_t;
  fld "egid" kgid_t;
  fld "fsuid" kuid_t;
  fld "fsgid" kgid_t;
  fld "securebits" uint;
  fld "cap_inheritable" kernel_cap_t;
  fld "cap_permitted" kernel_cap_t;
  fld "cap_effective" kernel_cap_t;
  fld "cap_bset" kernel_cap_t;
  fld "cap_ambient" kernel_cap_t;
  fld "jit_keyring" uchar;
  fld "session_keyring" (ptr "struct key");
  fld "process_keyring" (ptr "struct key");
  fld "thread_keyring" (ptr "struct key");
  fld "request_key_auth" (ptr "struct key");
  fld "security" (ptr "void");
  fld "user" (ptr "struct user_struct");
  fld "user_ns" (ptr "struct user_namespace");
  fld "group_info" (ptr "struct group_info");
  anon (CUnion [
    fld "non_rcu" int;
    fld "rcu" struct_callback_head
  ])
].

(** The records of this file, by tag. *)
Definition KTask_types : list (string * cty) := [
  ("struct load_weight", struct_load_weight); ("struct sched_statistics", struct_sched_statistics);
  ("struct util_est", struct_util_est); ("struct sched_avg", struct_sched_avg);
  ("struct sched_entity", struct_sched_entity); ("struct sched_rt_entity", struct_sched_rt_entity);
  ("struct sched_dl_entity", struct_sched_dl_entity); ("struct uclamp_se", struct_uclamp_se);
  ("union rcu_special", union_rcu_special); ("struct sched_info", struct_sched_info);
  ("struct vmacache", struct_vmacache); ("struct task_rss_stat", struct_task_rss_stat);
  ("struct restart_block", struct_restart_block); ("struct prev_cputime", struct_prev_cputime);
  ("struct posix_cputimer_base", struct_posix_cputimer_base);
  ("struct posix_cputimers", struct_posix_cputimers); ("struct sigpending", struct_sigpending);
  ("struct seccomp", struct_seccomp); ("struct wake_q_node", struct_wake_q_node);
  ("struct task_io_accounting", struct_task_io_accounting);
  ("struct tlbflush_unmap_batch", struct_tlbflush_unmap_batch);
  ("struct page_frag", struct_page_frag); ("struct task_struct", struct_task_struct);
  ("struct cpu_itimer", struct_cpu_itimer);
  ("struct task_cputime_atomic", struct_task_cputime_atomic);
  ("struct thread_group_cputimer", struct_thread_group_cputimer); ("struct rlimit", struct_rlimit);
  ("struct signal_struct", struct_signal_struct); ("struct sigaction", struct_sigaction);
  ("struct k_sigaction", struct_k_sigaction); ("struct sighand_struct", struct_sighand_struct);
  ("struct kernel_cap_struct", struct_kernel_cap_struct); ("struct cred", struct_cred)
].
