(* ===== verification/KFile.v ===== *)
(** * KFile: address spaces, mappings and the files behind them. *)

From S2P Require Import Prelude Layout KBase KUapi KRegs KPerf KTrace KBpf KVerifier KTask.

Definition struct_mm_rss_stat : cty := CStruct [
  fld "count" (CArr atomic_long_t 4)
].

Definition mm_context_t : cty := CStruct [
  fld "id" atomic64_t;
  fld "sigpage" (ptr "void");
  fld "pinned" refcount_t;
  fld "vdso" (ptr "void");
  fld "flags" ulong
].

Definition struct_uprobes_state : cty := CStruct [
  fld "xol_area" (ptr "struct xol_area")
].

Definition struct_mm_struct : cty := CStruct [
  anon (CStruct [
    fld "mmap" (ptr "struct vm_area_struct");
    fld "mm_rb" struct_rb_root;
    fld "vmacache_seqnum" u64;
    fld "mm_rb_lock" rwlock_t;
    fld "get_unmapped_area" (ptr "unsigned long (struct file *, unsigned long, unsigned long, unsigned long, unsigned long)");
    fld "mmap_base" ulong;
    fld "mmap_legacy_base" ulong;
    fld "task_size" ulong;
    fld "highest_vm_end" ulong;
    fld "pgd" (ptr "pgd_t");
    fld "membarrier_state" atomic_t;
    fld "mm_users" atomic_t;
    fld "mm_count" atomic_t;
    fld "has_pinned" atomic_t;
    fld "pgtables_bytes" atomic_long_t;
    fld "map_count" int;
    fld "page_table_lock" spinlock_t;
    fld "mmap_lock" struct_rw_semaphore;
    fld "mmlist" struct_list_head;
    fld "hiwater_rss" ulong;
    fld "hiwater_vm" ulong;
    fld "total_vm" ulong;
    fld "locked_vm" ulong;
    fld "pinned_vm" atomic64_t;
    fld "data_vm" ulong;
    fld "exec_vm" ulong;
    fld "stack_vm" ulong;
    fld "def_flags" ulong;
    fld "write_protect_seq" seqcount_t;
    fld "arg_lock" spinlock_t;
    fld "start_code" ulong;
    fld "end_code" ulong;
    fld "start_data" ulong;
    fld "end_data" ulong;
    fld "start_brk" ulong;
    fld "brk" ulong;
    fld "start_stack" ulong;
    fld "arg_start" ulong;
    fld "arg_end" ulong;
    fld "env_start" ulong;
    fld "env_end" ulong;
    fld "saved_auxv" (CArr ulong 46);
    fld "rss_stat" struct_mm_rss_stat;
    fld "binfmt" (ptr "struct linux_binfmt");
    fld "context" mm_context_t;
    fld "flags" ulong;
    fld "core_state" (ptr "struct core_state");
    fld "ioctx_lock" spinlock_t;
    fld "ioctx_table" (ptr "struct kioctx_table");
    fld "owner" (ptr "struct task_struct");
    fld "user_ns" (ptr "struct user_namespace");
    fld "exe_file" (ptr "struct file");
    fld "notifier_subscriptions" (ptr "struct mmu_notifier_subscriptions");
    fld "mmu_notifier_lock" (ptr "struct percpu_rw_semaphore");
    fld "tlb_flush_pending" atomic_t;
    fld "uprobes_state" struct_uprobes_state;
    fld "async_put_work" struct_work_struct;
    fld "pasid" u32;
    fld "lru_gen" (CStruct [
      fld "list" struct_list_head;
      fld "memcg" (ptr "struct mem_cgroup");
      fld "nodes" nodemask_t
    ]);
    fld "android_kabi_reserved1" u64
  ]);
  fld "cpu_bitmap" (CArr ulong 0)
].

Definition pteval_t : cty := u64.

Definition pgprot_t : cty := CStruct [
  fld "pgprot" pteval_t
].

Definition struct_vm_userfaultfd_ctx : cty := CStruct [
  fld "ctx" (ptr "struct userfaultfd_ctx")
].

Definition struct_vm_area_struct : cty := CStruct [
  fld "vm_start" ulong;
  fld "vm_end" ulong;
  fld "vm_next" (ptr "struct vm_area_struct");
  fld "vm_prev" (ptr "struct vm_area_struct");
  fld "vm_rb" struct_rb_node;
  fld "rb_subtree_gap" ulong;
  fld "vm_mm" (ptr "struct mm_struct");
  fld "vm_page_prot" pgprot_t;
  fld "vm_flags" ulong;
  anon (CUnion [
    fld "shared" (CStruct [
      fld "rb" struct_rb_node;
      fld "rb_subtree_last" ulong
    ]);
    fld "anon_name" (ptr "struct anon_vma_name")
  ]);
  fld "anon_vma_chain" struct_list_head;
  fld "anon_vma" (ptr "struct anon_vma");
  fld "vm_ops" (ptr "const struct vm_operations_struct");
  fld "vm_pgoff" ulong;
  fld "vm_file" (ptr "struct file");
  fld "vm_private_data" (ptr "void");
  fld "swap_readahead_info" atomic_long_t;
  fld "vm_userfaultfd_ctx" struct_vm_userfaultfd_ctx;
  fld "vm_sequence" seqcount_t;
  fld "vm_ref_count" atomic_t;
  fld "android_kabi_reserved1" u64;
  fld "android_kabi_reserved2" u64;
  fld "android_kabi_reserved3" u64;
  fld "android_kabi_reserved4" u64
].

Definition struct_fown_struct : cty := CStruct [
  fld "lock" rwlock_t;
  fld "pid" (ptr "struct pid");
  fld "pid_type" (enum "pid_type");
  fld "uid" kuid_t;
  fld "euid" kuid_t;
  fld "signum" int
].

Definition struct_file_ra_state : cty := CStruct [
  fld "start" ulong;
  fld "size" uint;
  fld "async_size" uint;
  fld "ra_pages" uint;
  fld "mmap_miss" uint;
  fld "prev_pos" loff_t
].

Definition struct_file : cty := CStruct [
  fld "f_u" (CUnion [
    fld "fu_llist" struct_llist_node;
    fld "fu_rcuhead" struct_callback_head
  ]);
  fld "f_path" struct_path;
  fld "f_inode" (ptr "struct inode");
  fld "f_op" (ptr "const struct file_operations");
  fld "f_lock" spinlock_t;
  fld "f_write_hint" (enum "rw_hint");
  fld "f_count" atomic_long_t;
  fld "f_flags" uint;
  fld "f_mode" fmode_t;
  fld "f_pos_lock" struct_mutex;
  fld "f_pos" loff_t;
  fld "f_owner" struct_fown_struct;
  fld "f_cred" (ptr "const struct cred");
  fld "f_ra" struct_file_ra_state;
  fld "f_version" u64;
  fld "f_security" (ptr "void");
  fld "private_data" (ptr "void");
  fld "f_ep_links" struct_list_head;
  fld "f_tfile_llink" struct_list_head;
  fld "f_mapping" (ptr "struct address_space");
  fld "f_wb_err" errseq_t;
  fld "f_sb_err" errseq_t;
  fld "android_kabi_reserved1" u64;
  fld "android_kabi_reserved2" u64;
  fld "android_oem_data1" u64
].

Definition struct_address_space : cty := CStruct [
  fld "host" (ptr "struct inode");
  fld "i_pages" struct_xarray;
  fld "gfp_mask" gfp_t;
  fld "i_mmap_writable" atomic_t;
  fld "nr_thps" atomic_t;
  fld "i_mmap" struct_rb_root_cached;
  fld "i_mmap_rwsem" struct_rw_semaphore;
  fld "nrpages" ulong;
  fld "nrexceptional" ulong;
  fld "writeback_index" ulong;
  fld "a_ops" (ptr "const struct address_space_operations");
  fld "flags" ulong;
  fld "wb_err" errseq_t;
  fld "private_lock" spinlock_t;
  fld "private_list" struct_list_head;
  fld "private_data" (ptr "void");
  fld "android_kabi_reserved1" u64;
  fld "android_kabi_reserved2" u64;
  fld "android_kabi_reserved3" u64;
  fld "android_kabi_reserved4" u64
].

Definition struct_inode : cty := CStruct [
  fld "i_mode" umode_t;
  fld "i_opflags" ushort;
  fld "i_uid" kuid_t;
  fld "i_gid" kgid_t;
  fld "i_flags" uint;
  fld "i_acl" (ptr "struct posix_acl");
  fld "i_default_acl" (ptr "struct posix_acl");
  fld "i_op" (ptr "const struct inode_operations");
  fld "i_sb" (ptr "struct super_block");
  fld "i_mapping" (ptr "struct address_space");
  fld "i_security" (ptr "void");
  fld "i_ino" ulong;
  anon (CUnion [
    fld "i_nlink" uint;
    fld "__i_nlink" uint
  ]);
  fld "i_rdev" dev_t;
  fld "i_size" loff_t;
  fld "i_atime" struct_timespec64;
  fld "i_mtime" struct_timespec64;
  fld "i_ctime" struct_timespec64;
  fld "i_lock" spinlock_t;
  fld "i_bytes" ushort;
  fld "i_blkbits" u8;
  fld "i_write_hint" u8;
  fld "i_blocks" blkcnt_t;
  fld "i_state" ulong;
  fld "i_rwsem" struct_rw_semaphore;
  fld "dirtied_when" ulong;
  fld "dirtied_time_when" ulong;
  fld "i_hash" struct_hlist_node;
  fld "i_io_list" struct_list_head;
  fld "i_wb" (ptr "struct bdi_writeback");
  fld "i_wb_frn_winner" int;
  fld "i_wb_frn_avg_time" u16;
  fld "i_wb_frn_history" u16;
  fld "i_lru" struct_list_head;
  fld "i_sb_list" struct_list_head;
  fld "i_wb_list" struct_list_head;
  anon (CUnion [
    fld "i_dentry" struct_hlist_head;
    fld "i_rcu" struct_callback_head
  ]);
  fld "i_version" atomic64_t;
  fld "i_sequence" atomic64_t;
  fld "i_count" atomic_t;
  fld "i_dio_count" atomic_t;
  fld "i_writecount" atomic_t;
  fld "i_readcount" atomic_t;
  anon (CUnion [
    fld "i_fop" (ptr "const struct file_operations");
    fld "free_inode" (ptr "void (struct inode *)")
  ]);
  fld "i_flctx" (ptr "struct file_lock_context");
  fld "i_data" struct_address_space;
  fld "i_devices" struct_list_head;
  anon (CUnion [
    fld "i_pipe" (ptr "struct pipe_inode_info");
    fld "i_bdev" (ptr "struct block_device");
    fld "i_cdev" (ptr "struct cdev");
    fld "i_link" (ptr "char");
    fld "i_dir_seq" uint
  ]);
  fld "i_generation" __u32;
  fld "i_fsnotify_mask" __u32;
  fld "i_fsnotify_marks" (ptr "struct fsnotify_mark_connector");
  fld "i_crypt_info" (ptr "struct fscrypt_info");
  fld "i_verity_info" (ptr "struct fsverity_info");
  fld "i_private" (ptr "void");
  fld "android_kabi_reserved1" u64;
  fld "android_kabi_reserved2" u64
].

Definition struct_qstr : cty := CStruct [
  anon (CUnion [
    anon (CStruct [
      fld "hash" u32;
      fld "len" u32
    ]);
    fld "hash_len" u64
  ]);
  fld "name" (ptr "const unsigned char")
].

Definition struct_dentry : cty := CStruct [
  fld "d_flags" uint;
  fld "d_seq" seqcount_spinlock_t;
  fld "d_hash" struct_hlist_bl_node;
  fld "d_parent" (ptr "struct dentry");
  fld "d_name" struct_qstr;
  fld "d_inode" (ptr "struct inode");
  fld "d_iname" (CArr uchar 32);
  fld "d_lockref" struct_lockref;
  fld "d_op" (ptr "const struct dentry_operations");
  fld "d_sb" (ptr "struct super_block");
  fld "d_time" ulong;
  fld "d_fsdata" (ptr "void");
  anon (CUnion [
    fld "d_lru" struct_list_head;
    fld "d_wait" (ptr "wait_queue_head_t")
  ]);
  fld "d_child" struct_list_head;
  fld "d_subdirs" struct_list_head;
  fld "d_u" (CUnion [
    fld "d_alias" struct_hlist_node;
    fld "d_in_lookup_hash" struct_hlist_bl_node;
    fld "d_rcu" struct_callback_head
  ]);
  fld "android_kabi_reserved1" u64;
  fld "android_kabi_reserved2" u64
].

(** The records of this file, by tag. *)
Definition KFile_types : list (string * cty) := [
  ("struct mm_rss_stat", struct_mm_rss_stat); ("struct uprobes_state", struct_uprobes_state);
  ("struct mm_struct", struct_mm_struct); ("struct vm_userfaultfd_ctx", struct_vm_userfaultfd_ctx);
  ("struct vm_area_struct", struct_vm_area_struct); ("struct fown_struct", struct_fown_struct);
  ("struct file_ra_state", struct_file_ra_state); ("struct file", struct_file);
  ("struct address_space", struct_address_space); ("struct inode", struct_inode);
  ("struct qstr", struct_qstr); ("struct dentry", struct_dentry)
].
