(* ===== verification/KVm.v ===== *)
(** * KVm: pages, faults and the operations of mappings and files: what a probe's
    user-space read walks through and where a uprobe puts its breakpoint. *)

From S2P Require Import Prelude Layout KBase KUapi KRegs KPerf KTrace KBpf KVerifier KTask KFile.

Definition pgtable_t : cty := ptr "struct page".

Definition struct_page : cty := CStruct [
  fld "flags" ulong;
  anon (CUnion [
    anon (CStruct [
      fld "lru" struct_list_head;
      fld "mapping" (ptr "struct address_space");
      fld "index" ulong;
      fld "private" ulong
    ]);
    anon (CStruct [
      fld "dma_addr" (CArr ulong 2)
    ]);
    anon (CStruct [
      anon (CUnion [
        fld "slab_list" struct_list_head;
        anon (CStruct [
          fld "next" (ptr "struct page");
          fld "pages" int;
          fld "pobjects" int
        ])
      ]);
      fld "slab_cache" (ptr "struct kmem_cache");
      fld "freelist" (ptr "void");
      anon (CUnion [
        fld "s_mem" (ptr "void");
        fld "counters" ulong;
        anon (CStruct [
          bit "inuse" uint 16;
          bit "objects" uint 15;
          bit "frozen" uint 1
        ])
      ])
    ]);
    anon (CStruct [
      fld "compound_head" ulong;
      fld "compound_dtor" uchar;
      fld "compound_order" uchar;
      fld "compound_mapcount" atomic_t;
      fld "compound_nr" uint
    ]);
    anon (CStruct [
      fld "_compound_pad_1" ulong;
      fld "hpage_pinned_refcount" atomic_t;
      fld "deferred_list" struct_list_head
    ]);
    anon (CStruct [
      fld "_pt_pad_1" ulong;
      fld "pmd_huge_pte" pgtable_t;
      fld "_pt_pad_2" ulong;
      anon (CUnion [
        fld "pt_mm" (ptr "struct mm_struct");
        fld "pt_frag_refcount" atomic_t
      ]);
      fld "ptl" spinlock_t
    ]);
    anon (CStruct [
      fld "pgmap" (ptr "struct dev_pagemap");
      fld "zone_device_data" (ptr "void")
    ]);
    fld "callback_head" struct_callback_head
  ]);
  anon (CUnion [
    fld "_mapcount" atomic_t;
    fld "page_type" uint;
    fld "active" uint;
    fld "units" int
  ]);
  fld "_refcount" atomic_t;
  anon (CUnion [
    fld "mem_cgroup" (ptr "struct mem_cgroup");
    fld "obj_cgroups" (ptr "struct obj_cgroup *")
  ])
].

Definition pmdval_t : cty := u64.

Definition pmd_t : cty := CStruct [
  fld "pmd" pmdval_t
].

Definition pte_t : cty := CStruct [
  fld "pte" pteval_t
].

Definition struct_vm_fault : cty := CStruct [
  fld "sequence" uint;
  fld "orig_pmd" pmd_t;
  anon (CStruct [
    fld "vma" (ptr "struct vm_area_struct");
    fld "gfp_mask" gfp_t;
    fld "pgoff" ulong;
    fld "address" ulong
  ]);
  fld "flags" uint;
  fld "pmd" (ptr "pmd_t");
  fld "pud" (ptr "pud_t");
  fld "orig_pte" pte_t;
  fld "cow_page" (ptr "struct page");
  fld "page" (ptr "struct page");
  fld "pte" (ptr "pte_t");
  fld "ptl" (ptr "spinlock_t");
  fld "prealloc_pte" pgtable_t;
  fld "vma_flags" ulong;
  fld "vma_page_prot" pgprot_t;
  fld "android_oem_data1" (CArr u64 2)
].

Definition struct_vm_operations_struct : cty := CStruct [
  fld "open" (ptr "void (struct vm_area_struct *)");
  fld "close" (ptr "void (struct vm_area_struct *)");
  fld "split" (ptr "int (struct vm_area_struct *, unsigned long)");
  fld "mremap" (ptr "int (struct vm_area_struct *)");
  fld "fault" (ptr "vm_fault_t (struct vm_fault *)");
  fld "huge_fault" (ptr "vm_fault_t (struct vm_fault *, enum page_entry_size)");
  fld "map_pages" (ptr "vm_fault_t (struct vm_fault *, unsigned long, unsigned long)");
  fld "pagesize" (ptr "unsigned long (struct vm_area_struct *)");
  fld "page_mkwrite" (ptr "vm_fault_t (struct vm_fault *)");
  fld "pfn_mkwrite" (ptr "vm_fault_t (struct vm_fault *)");
  fld "access" (ptr "int (struct vm_area_struct *, unsigned long, void *, int, int)");
  fld "name" (ptr "const char * (struct vm_area_struct *)");
  fld "find_special_page" (ptr "struct page * (struct vm_area_struct *, unsigned long)");
  fld "allow_speculation" (ptr "bool (void)");
  fld "android_kabi_reserved1" u64;
  fld "android_kabi_reserved2" u64;
  fld "android_kabi_reserved3" u64;
  fld "android_kabi_reserved4" u64
].

Definition phys_addr_t : cty := u64.

Definition struct_vm_struct : cty := CStruct [
  fld "next" (ptr "struct vm_struct");
  fld "addr" (ptr "void");
  fld "size" ulong;
  fld "flags" ulong;
  fld "pages" (ptr "struct page *");
  fld "nr_pages" uint;
  fld "phys_addr" phys_addr_t;
  fld "caller" (ptr "const void");
  fld "android_oem_data1" u64
].

Definition struct_mmu_notifier : cty := CStruct [
  fld "hlist" struct_hlist_node;
  fld "ops" (ptr "const struct mmu_notifier_ops");
  fld "mm" (ptr "struct mm_struct");
  fld "rcu" struct_callback_head;
  fld "users" uint;
  fld "android_kabi_reserved1" u64;
  fld "android_kabi_reserved2" u64
].

Definition struct_mmu_notifier_range : cty := CStruct [
  fld "vma" (ptr "struct vm_area_struct");
  fld "mm" (ptr "struct mm_struct");
  fld "start" ulong;
  fld "end" ulong;
  fld "flags" uint;
  fld "event" (enum "mmu_notifier_event");
  fld "migrate_pgmap_owner" (ptr "void")
].

Definition struct_mmu_gather_batch : cty := CStruct [
  fld "next" (ptr "struct mmu_gather_batch");
  fld "nr" uint;
  fld "max" uint;
  fld "pages" (CArr (ptr "struct page") 0)
].

Definition struct_mmu_gather : cty := CStruct [
  fld "mm" (ptr "struct mm_struct");
  fld "batch" (ptr "struct mmu_table_batch");
  fld "start" ulong;
  fld "end" ulong;
  bit "fullmm" uint 1;
  bit "need_flush_all" uint 1;
  bit "freed_tables" uint 1;
  bit "cleared_ptes" uint 1;
  bit "cleared_pmds" uint 1;
  bit "cleared_puds" uint 1;
  bit "cleared_p4ds" uint 1;
  bit "vma_exec" uint 1;
  bit "vma_huge" uint 1;
  fld "batch_count" uint;
  fld "active" (ptr "struct mmu_gather_batch");
  fld "local" struct_mmu_gather_batch;
  fld "__pages" (CArr (ptr "struct page") 8)
].

Definition struct_file_operations : cty := CStruct [
  fld "owner" (ptr "struct module");
  fld "llseek" (ptr "loff_t (struct file *, loff_t, int)");
  fld "read" (ptr "ssize_t (struct file *, char *, size_t, loff_t *)");
  fld "write" (ptr "ssize_t (struct file *, const char *, size_t, loff_t *)");
  fld "read_iter" (ptr "ssize_t (struct kiocb *, struct iov_iter *)");
  fld "write_iter" (ptr "ssize_t (struct kiocb *, struct iov_iter *)");
  fld "iopoll" (ptr "int (struct kiocb *, bool)");
  fld "iterate" (ptr "int (struct file *, struct dir_context *)");
  fld "iterate_shared" (ptr "int (struct file *, struct dir_context *)");
  fld "poll" (ptr "__poll_t (struct file *, struct poll_table_struct *)");
  fld "unlocked_ioctl" (ptr "long (struct file *, unsigned int, unsigned long)");
  fld "compat_ioctl" (ptr "long (struct file *, unsigned int, unsigned long)");
  fld "mmap" (ptr "int (struct file *, struct vm_area_struct *)");
  fld "mmap_supported_flags" ulong;
  fld "open" (ptr "int (struct inode *, struct file *)");
  fld "flush" (ptr "int (struct file *, fl_owner_t)");
  fld "release" (ptr "int (struct inode *, struct file *)");
  fld "fsync" (ptr "int (struct file *, loff_t, loff_t, int)");
  fld "fasync" (ptr "int (int, struct file *, int)");
  fld "lock" (ptr "int (struct file *, int, struct file_lock *)");
  fld "sendpage" (ptr "ssize_t (struct file *, struct page *, int, size_t, loff_t *, int)");
  fld "get_unmapped_area" (ptr "unsigned long (struct file *, unsigned long, unsigned long, unsigned long, unsigned long)");
  fld "check_flags" (ptr "int (int)");
  fld "flock" (ptr "int (struct file *, int, struct file_lock *)");
  fld "splice_write" (ptr "ssize_t (struct pipe_inode_info *, struct file *, loff_t *, size_t, unsigned int)");
  fld "splice_read" (ptr "ssize_t (struct file *, loff_t *, struct pipe_inode_info *, size_t, unsigned int)");
  fld "setlease" (ptr "int (struct file *, long, struct file_lock **, void **)");
  fld "fallocate" (ptr "long (struct file *, int, loff_t, loff_t)");
  fld "show_fdinfo" (ptr "void (struct seq_file *, struct file *)");
  fld "copy_file_range" (ptr "ssize_t (struct file *, loff_t, struct file *, loff_t, size_t, unsigned int)");
  fld "remap_file_range" (ptr "loff_t (struct file *, loff_t, struct file *, loff_t, loff_t, unsigned int)");
  fld "fadvise" (ptr "int (struct file *, loff_t, loff_t, int)");
  fld "android_kabi_reserved1" u64;
  fld "android_kabi_reserved2" u64;
  fld "android_kabi_reserved3" u64;
  fld "android_kabi_reserved4" u64
].

Definition struct_inode_operations : cty := CStruct [
  fld "lookup" (ptr "struct dentry * (struct inode *, struct dentry *, unsigned int)");
  fld "get_link" (ptr "const char * (struct dentry *, struct inode *, struct delayed_call *)");
  fld "permission" (ptr "int (struct inode *, int)");
  fld "get_acl" (ptr "struct posix_acl * (struct inode *, int)");
  fld "readlink" (ptr "int (struct dentry *, char *, int)");
  fld "create" (ptr "int (struct inode *, struct dentry *, umode_t, bool)");
  fld "link" (ptr "int (struct dentry *, struct inode *, struct dentry *)");
  fld "unlink" (ptr "int (struct inode *, struct dentry *)");
  fld "symlink" (ptr "int (struct inode *, struct dentry *, const char *)");
  fld "mkdir" (ptr "int (struct inode *, struct dentry *, umode_t)");
  fld "rmdir" (ptr "int (struct inode *, struct dentry *)");
  fld "mknod" (ptr "int (struct inode *, struct dentry *, umode_t, dev_t)");
  fld "rename" (ptr "int (struct inode *, struct dentry *, struct inode *, struct dentry *, unsigned int)");
  fld "setattr" (ptr "int (struct dentry *, struct iattr *)");
  fld "getattr" (ptr "int (const struct path *, struct kstat *, u32, unsigned int)");
  fld "listxattr" (ptr "ssize_t (struct dentry *, char *, size_t)");
  fld "fiemap" (ptr "int (struct inode *, struct fiemap_extent_info *, u64, u64)");
  fld "update_time" (ptr "int (struct inode *, struct timespec64 *, int)");
  fld "atomic_open" (ptr "int (struct inode *, struct dentry *, struct file *, unsigned int, umode_t)");
  fld "tmpfile" (ptr "int (struct inode *, struct dentry *, umode_t)");
  fld "set_acl" (ptr "int (struct inode *, struct posix_acl *, int)");
  fld "android_kabi_reserved1" u64;
  fld "android_kabi_reserved2" u64;
  fld "android_kabi_reserved3" u64;
  fld "android_kabi_reserved4" u64;
  pad long 64;
  pad long 64;
  pad long 64;
  pad long 64;
  pad long 64;
  pad long 64;
  pad long 64
].

Definition struct_dentry_operations : cty := CStruct [
  fld "d_revalidate" (ptr "int (struct dentry *, unsigned int)");
  fld "d_weak_revalidate" (ptr "int (struct dentry *, unsigned int)");
  fld "d_hash" (ptr "int (const struct dentry *, struct qstr *)");
  fld "d_compare" (ptr "int (const struct dentry *, unsigned int, const char *, const struct qstr *)");
  fld "d_delete" (ptr "int (const struct dentry *)");
  fld "d_init" (ptr "int (struct dentry *)");
  fld "d_release" (ptr "void (struct dentry *)");
  fld "d_prune" (ptr "void (struct dentry *)");
  fld "d_iput" (ptr "void (struct dentry *, struct inode *)");
  fld "d_dname" (ptr "char * (struct dentry *, char *, int)");
  fld "d_automount" (ptr "struct vfsmount * (struct path *)");
  fld "d_manage" (ptr "int (const struct path *, bool)");
  fld "d_real" (ptr "struct dentry * (struct dentry *, const struct inode *)");
  fld "d_canonical_path" (ptr "void (const struct path *, struct path *)");
  fld "android_kabi_reserved1" u64;
  fld "android_kabi_reserved2" u64;
  fld "android_kabi_reserved3" u64;
  fld "android_kabi_reserved4" u64;
  pad long 64;
  pad long 64;
  pad long 64;
  pad long 64;
  pad long 64;
  pad long 64
].

Definition struct_address_space_operations : cty := CStruct [
  fld "writepage" (ptr "int (struct page *, struct writeback_control *)");
  fld "readpage" (ptr "int (struct file *, struct page *)");
  fld "writepages" (ptr "int (struct address_space *, struct writeback_control *)");
  fld "set_page_dirty" (ptr "int (struct page *)");
  fld "readpages" (ptr "int (struct file *, struct address_space *, struct list_head *, unsigned int)");
  fld "readahead" (ptr "void (struct readahead_control *)");
  fld "write_begin" (ptr "int (struct file *, struct address_space *, loff_t, unsigned int, unsigned int, struct page **, void **)");
  fld "write_end" (ptr "int (struct file *, struct address_space *, loff_t, unsigned int, unsigned int, struct page *, void *)");
  fld "bmap" (ptr "sector_t (struct address_space *, sector_t)");
  fld "invalidatepage" (ptr "void (struct page *, unsigned int, unsigned int)");
  fld "releasepage" (ptr "int (struct page *, gfp_t)");
  fld "freepage" (ptr "void (struct page *)");
  fld "direct_IO" (ptr "ssize_t (struct kiocb *, struct iov_iter *)");
  fld "migratepage" (ptr "int (struct address_space *, struct page *, struct page *, enum migrate_mode)");
  fld "isolate_page" (ptr "bool (struct page *, isolate_mode_t)");
  fld "putback_page" (ptr "void (struct page *)");
  fld "launder_page" (ptr "int (struct page *)");
  fld "is_partially_uptodate" (ptr "int (struct page *, unsigned long, unsigned long)");
  fld "is_dirty_writeback" (ptr "void (struct page *, bool *, bool *)");
  fld "error_remove_page" (ptr "int (struct address_space *, struct page *)");
  fld "swap_activate" (ptr "int (struct swap_info_struct *, struct file *, sector_t *)");
  fld "swap_deactivate" (ptr "void (struct file *)");
  fld "android_kabi_reserved1" u64;
  fld "android_kabi_reserved2" u64;
  fld "android_kabi_reserved3" u64;
  fld "android_kabi_reserved4" u64
].

Definition struct_hlist_bl_head : cty := CStruct [
  fld "first" (ptr "struct hlist_bl_node")
].

Definition qsize_t : cty := llong.

Definition struct_mem_dqinfo : cty := CStruct [
  fld "dqi_format" (ptr "struct quota_format_type");
  fld "dqi_fmt_id" int;
  fld "dqi_dirty_list" struct_list_head;
  fld "dqi_flags" ulong;
  fld "dqi_bgrace" uint;
  fld "dqi_igrace" uint;
  fld "dqi_max_spc_limit" qsize_t;
  fld "dqi_max_ino_limit" qsize_t;
  fld "dqi_priv" (ptr "void")
].

Definition struct_quota_info : cty := CStruct [
  fld "flags" uint;
  fld "dqio_sem" struct_rw_semaphore;
  fld "files" (CArr (ptr "struct inode") 3);
  fld "info" (CArr struct_mem_dqinfo 3);
  fld "ops" (CArr (ptr "const struct quota_format_ops") 3)
].

Definition struct_rcuwait : cty := CStruct [
  fld "task" (ptr "struct task_struct")
].

Definition struct_rcu_sync : cty := CStruct [
  fld "gp_state" int;
  fld "gp_count" int;
  fld "gp_wait" wait_queue_head_t;
  fld "cb_head" struct_callback_head
].

Definition struct_percpu_rw_semaphore : cty := CStruct [
  fld "rss" struct_rcu_sync;
  fld "read_count" (ptr "unsigned int");
  fld "writer" struct_rcuwait;
  anon (CUnion [
    fld "waiters" wait_queue_head_t;
    fld "destroy_list_entry" struct_list_head
  ]);
  fld "block" atomic_t
].

Definition struct_sb_writers : cty := CStruct [
  fld "frozen" int;
  fld "wait_unfrozen" wait_queue_head_t;
  fld "rw_sem" (CArr struct_percpu_rw_semaphore 3)
].

Definition uuid_t : cty := CStruct [
  fld "b" (CArr __u8 16)
].

Definition struct_shrinker : cty := CStruct [
  fld "count_objects" (ptr "unsigned long (struct shrinker *, struct shrink_control *)");
  fld "scan_objects" (ptr "unsigned long (struct shrinker *, struct shrink_control *)");
  fld "batch" long;
  fld "seeks" int;
  fld "flags" uint;
  fld "list" struct_list_head;
  fld "id" int;
  fld "nr_deferred" (ptr "atomic_long_t")
].

Definition struct_list_lru : cty := CStruct [
  fld "node" (ptr "struct list_lru_node");
  fld "list" struct_list_head;
  fld "shrinker_id" int;
  fld "memcg_aware" c_bool
].

Definition struct_super_block : cty := CStruct [
  fld "s_list" struct_list_head;
  fld "s_dev" dev_t;
  fld "s_blocksize_bits" uchar;
  fld "s_blocksize" ulong;
  fld "s_maxbytes" loff_t;
  fld "s_type" (ptr "struct file_system_type");
  fld "s_op" (ptr "const struct super_operations");
  fld "dq_op" (ptr "const struct dquot_operations");
  fld "s_qcop" (ptr "const struct quotactl_ops");
  fld "s_export_op" (ptr "const struct export_operations");
  fld "s_flags" ulong;
  fld "s_iflags" ulong;
  fld "s_magic" ulong;
  fld "s_root" (ptr "struct dentry");
  fld "s_umount" struct_rw_semaphore;
  fld "s_count" int;
  fld "s_active" atomic_t;
  fld "s_security" (ptr "void");
  fld "s_xattr" (ptr "const struct xattr_handler *");
  fld "s_cop" (ptr "const struct fscrypt_operations");
  fld "s_master_keys" (ptr "struct key");
  fld "s_vop" (ptr "const struct fsverity_operations");
  fld "s_encoding" (ptr "struct unicode_map");
  fld "s_encoding_flags" __u16;
  fld "s_roots" struct_hlist_bl_head;
  fld "s_mounts" struct_list_head;
  fld "s_bdev" (ptr "struct block_device");
  fld "s_bdi" (ptr "struct backing_dev_info");
  fld "s_mtd" (ptr "struct mtd_info");
  fld "s_instances" struct_hlist_node;
  fld "s_quota_types" uint;
  fld "s_dquot" struct_quota_info;
  fld "s_writers" struct_sb_writers;
  fld "s_fs_info" (ptr "void");
  fld "s_time_gran" u32;
  fld "s_time_min" time64_t;
  fld "s_time_max" time64_t;
  fld "s_fsnotify_mask" __u32;
  fld "s_fsnotify_marks" (ptr "struct fsnotify_mark_connector");
  fld "s_id" (CArr char 32);
  fld "s_uuid" uuid_t;
  fld "s_max_links" uint;
  fld "s_mode" fmode_t;
  fld "s_vfs_rename_mutex" struct_mutex;
  fld "s_subtype" (ptr "const char");
  fld "s_d_op" (ptr "const struct dentry_operations");
  fld "cleancache_poolid" int;
  fld "s_shrink" struct_shrinker;
  fld "s_remove_count" atomic_long_t;
  fld "s_fsnotify_inode_refs" atomic_long_t;
  fld "s_readonly_remount" int;
  fld "s_wb_err" errseq_t;
  fld "s_dio_done_wq" (ptr "struct workqueue_struct");
  fld "s_pins" struct_hlist_head;
  fld "s_user_ns" (ptr "struct user_namespace");
  fld "s_dentry_lru" struct_list_lru;
  fld "s_inode_lru" struct_list_lru;
  fld "rcu" struct_callback_head;
  fld "destroy_work" struct_work_struct;
  fld "s_sync_lock" struct_mutex;
  fld "s_stack_depth" int;
  pad long 64;
  pad long 64;
  pad long 64;
  pad long 64;
  fld "s_inode_list_lock" spinlock_t;
  fld "s_inodes" struct_list_head;
  fld "s_inode_wblist_lock" spinlock_t;
  fld "s_inodes_wb" struct_list_head;
  fld "android_kabi_reserved1" u64;
  fld "android_kabi_reserved2" u64;
  fld "android_kabi_reserved3" u64;
  fld "android_kabi_reserved4" u64;
  pad long 64;
  pad long 64;
  pad long 64;
  pad long 64;
  pad long 64;
  pad long 64
].

Definition struct_vfsmount : cty := CStruct [
  fld "mnt_root" (ptr "struct dentry");
  fld "mnt_sb" (ptr "struct super_block");
  fld "mnt_flags" int;
  fld "android_kabi_reserved1" u64;
  fld "android_kabi_reserved2" u64;
  fld "android_kabi_reserved3" u64;
  fld "android_kabi_reserved4" u64
].

Definition struct_mount : cty := CStruct [
  fld "mnt_hash" struct_hlist_node;
  fld "mnt_parent" (ptr "struct mount");
  fld "mnt_mountpoint" (ptr "struct dentry");
  fld "mnt" struct_vfsmount;
  anon (CUnion [
    fld "mnt_rcu" struct_callback_head;
    fld "mnt_llist" struct_llist_node
  ]);
  fld "mnt_pcp" (ptr "struct mnt_pcp");
  fld "mnt_mounts" struct_list_head;
  fld "mnt_child" struct_list_head;
  fld "mnt_instance" struct_list_head;
  fld "mnt_devname" (ptr "const char");
  fld "mnt_list" struct_list_head;
  fld "mnt_expire" struct_list_head;
  fld "mnt_share" struct_list_head;
  fld "mnt_slave_list" struct_list_head;
  fld "mnt_slave" struct_list_head;
  fld "mnt_master" (ptr "struct mount");
  fld "mnt_ns" (ptr "struct mnt_namespace");
  fld "mnt_mp" (ptr "struct mountpoint");
  anon (CUnion [
    fld "mnt_mp_list" struct_hlist_node;
    fld "mnt_umount" struct_hlist_node
  ]);
  fld "mnt_umounting" struct_list_head;
  fld "mnt_fsnotify_marks" (ptr "struct fsnotify_mark_connector");
  fld "mnt_fsnotify_mask" __u32;
  fld "mnt_id" int;
  fld "mnt_group_id" int;
  fld "mnt_expiry_mark" int;
  fld "mnt_pins" struct_hlist_head;
  fld "mnt_stuck_children" struct_hlist_head
].

Definition struct_exception_table_entry : cty := CStruct [
  fld "insn" int;
  fld "fixup" int
].

(** The records of this file, by tag. *)
Definition KVm_types : list (string * cty) := [
  ("struct page", struct_page); ("struct vm_fault", struct_vm_fault);
  ("struct vm_operations_struct", struct_vm_operations_struct);
  ("struct vm_struct", struct_vm_struct); ("struct mmu_notifier", struct_mmu_notifier);
  ("struct mmu_notifier_range", struct_mmu_notifier_range);
  ("struct mmu_gather_batch", struct_mmu_gather_batch); ("struct mmu_gather", struct_mmu_gather);
  ("struct file_operations", struct_file_operations);
  ("struct inode_operations", struct_inode_operations);
  ("struct dentry_operations", struct_dentry_operations);
  ("struct address_space_operations", struct_address_space_operations);
  ("struct hlist_bl_head", struct_hlist_bl_head); ("struct mem_dqinfo", struct_mem_dqinfo);
  ("struct quota_info", struct_quota_info); ("struct rcuwait", struct_rcuwait);
  ("struct rcu_sync", struct_rcu_sync); ("struct percpu_rw_semaphore", struct_percpu_rw_semaphore);
  ("struct sb_writers", struct_sb_writers); ("struct shrinker", struct_shrinker);
  ("struct list_lru", struct_list_lru); ("struct super_block", struct_super_block);
  ("struct vfsmount", struct_vfsmount); ("struct mount", struct_mount);
  ("struct exception_table_entry", struct_exception_table_entry)
].
