(* ===== verification/KProbe.v ===== *)
(** * KProbe: kprobes, the trace events and perf buffers behind a probe, call chains
    and the arrays of programs a probe runs. *)

From S2P Require Import Prelude Layout KBase KUapi KRegs KPerf KTrace KBpf KVerifier KTask KFile KVm.

Definition kprobe_opcode_t : cty := u32.

Definition kprobe_pre_handler_t : cty := ptr "int (struct kprobe *, struct pt_regs *)".

Definition kprobe_post_handler_t : cty := ptr "void (struct kprobe *, struct pt_regs *, unsigned long)".

Definition kprobe_fault_handler_t : cty := ptr "int (struct kprobe *, struct pt_regs *, int)".

Definition struct_arch_specific_insn : cty := CStruct [
  fld "api" struct_arch_probe_insn
].

Definition struct_kprobe : cty := CStruct [
  fld "hlist" struct_hlist_node;
  fld "list" struct_list_head;
  fld "nmissed" ulong;
  fld "addr" (ptr "kprobe_opcode_t");
  fld "symbol_name" (ptr "const char");
  fld "offset" uint;
  fld "pre_handler" kprobe_pre_handler_t;
  fld "post_handler" kprobe_post_handler_t;
  fld "fault_handler" kprobe_fault_handler_t;
  fld "opcode" kprobe_opcode_t;
  fld "ainsn" struct_arch_specific_insn;
  fld "flags" u32
].

Definition kretprobe_handler_t : cty := ptr "int (struct kretprobe_instance *, struct pt_regs *)".

Definition struct_kretprobe : cty := CStruct [
  fld "kp" struct_kprobe;
  fld "handler" kretprobe_handler_t;
  fld "entry_handler" kretprobe_handler_t;
  fld "maxactive" int;
  fld "nmissed" int;
  fld "data_size" size_t;
  fld "free_instances" struct_hlist_head;
  fld "lock" raw_spinlock_t
].

Definition struct_kretprobe_instance : cty := CStruct [
  anon (CUnion [
    fld "hlist" struct_hlist_node;
    fld "rcu" struct_callback_head
  ]);
  fld "rp" (ptr "struct kretprobe");
  fld "ret_addr" (ptr "kprobe_opcode_t");
  fld "task" (ptr "struct task_struct");
  fld "fp" (ptr "void");
  fld "data" (CArr char 0)
].

Definition struct_trace_event_class : cty := CStruct [
  fld "system" (ptr "const char");
  fld "probe" (ptr "void");
  fld "perf_probe" (ptr "void");
  fld "reg" (ptr "int (struct trace_event_call *, enum trace_reg, void *)");
  fld "fields_array" (ptr "struct trace_event_fields");
  fld "get_fields" (ptr "struct list_head * (struct trace_event_call *)");
  fld "fields" struct_list_head;
  fld "raw_init" (ptr "int (struct trace_event_call *)")
].

Definition trace_print_func : cty := ptr "enum print_line_t (struct trace_iterator *, int, struct trace_event *)".

Definition struct_trace_event_functions : cty := CStruct [
  fld "trace" trace_print_func;
  fld "raw" trace_print_func;
  fld "hex" trace_print_func;
  fld "binary" trace_print_func
].

Definition struct_trace_event_file : cty := CStruct [
  fld "list" struct_list_head;
  fld "event_call" (ptr "struct trace_event_call");
  fld "filter" (ptr "struct event_filter");
  fld "dir" (ptr "struct dentry");
  fld "tr" (ptr "struct trace_array");
  fld "system" (ptr "struct trace_subsystem_dir");
  fld "triggers" struct_list_head;
  fld "flags" ulong;
  fld "sm_ref" atomic_t;
  fld "tm_ref" atomic_t
].

Definition cpumask_var_t : cty := CArr struct_cpumask 1.

Definition struct_array_buffer : cty := CStruct [
  fld "tr" (ptr "struct trace_array");
  fld "buffer" (ptr "struct trace_buffer");
  fld "data" (ptr "struct trace_array_cpu");
  fld "time_start" u64;
  fld "cpu" int
].

Definition struct_trace_array : cty := CStruct [
  fld "list" struct_list_head;
  fld "name" (ptr "char");
  fld "array_buffer" struct_array_buffer;
  fld "filtered_pids" (ptr "struct trace_pid_list");
  fld "filtered_no_pids" (ptr "struct trace_pid_list");
  fld "max_lock" arch_spinlock_t;
  fld "buffer_disabled" int;
  fld "stop_count" int;
  fld "clock_id" int;
  fld "nr_topts" int;
  fld "clear_trace" c_bool;
  fld "buffer_percent" int;
  fld "n_err_log_entries" uint;
  fld "current_trace" (ptr "struct tracer");
  fld "trace_flags" uint;
  fld "trace_flags_index" (CArr uchar 32);
  fld "flags" uint;
  fld "start_lock" raw_spinlock_t;
  fld "err_log" struct_list_head;
  fld "dir" (ptr "struct dentry");
  fld "options" (ptr "struct dentry");
  fld "percpu_dir" (ptr "struct dentry");
  fld "event_dir" (ptr "struct dentry");
  fld "topts" (ptr "struct trace_options");
  fld "systems" struct_list_head;
  fld "events" struct_list_head;
  fld "trace_marker_file" (ptr "struct trace_event_file");
  fld "tracing_cpumask" cpumask_var_t;
  fld "ref" int;
  fld "trace_ref" int;
  fld "time_stamp_abs_ref" int;
  fld "hist_vars" struct_list_head
].

Definition struct_perf_buffer : cty := CStruct [
  fld "refcount" refcount_t;
  fld "callback_head" struct_callback_head;
  fld "nr_pages" int;
  fld "overwrite" int;
  fld "paused" int;
  fld "poll" atomic_t;
  fld "head" local_t;
  fld "nest" uint;
  fld "events" local_t;
  fld "wakeup" local_t;
  fld "lost" local_t;
  fld "watermark" long;
  fld "aux_watermark" long;
  fld "event_lock" spinlock_t;
  fld "event_list" struct_list_head;
  fld "mmap_count" atomic_t;
  fld "mmap_locked" ulong;
  fld "mmap_user" (ptr "struct user_struct");
  fld "aux_head" long;
  fld "aux_nest" uint;
  fld "aux_wakeup" long;
  fld "aux_pgoff" ulong;
  fld "aux_nr_pages" int;
  fld "aux_overwrite" int;
  fld "aux_mmap_count" atomic_t;
  fld "aux_mmap_locked" ulong;
  fld "free_aux" (ptr "void (void *)");
  fld "aux_refcount" refcount_t;
  fld "aux_in_sampling" int;
  fld "aux_pages" (ptr "void *");
  fld "aux_priv" (ptr "void");
  fld "user_page" (ptr "struct perf_event_mmap_page");
  fld "data_pages" (CArr (ptr "void") 0)
].

Definition struct_perf_cpu_context : cty := CStruct [
  fld "ctx" struct_perf_event_context;
  fld "task_ctx" (ptr "struct perf_event_context");
  fld "active_oncpu" int;
  fld "exclusive" int;
  fld "hrtimer_lock" raw_spinlock_t;
  fld "hrtimer" struct_hrtimer;
  fld "hrtimer_interval" ktime_t;
  fld "hrtimer_active" uint;
  fld "sched_cb_entry" struct_list_head;
  fld "sched_cb_usage" int;
  fld "online" int;
  fld "heap_size" int;
  fld "heap" (ptr "struct perf_event *");
  fld "heap_default" (CArr (ptr "struct perf_event") 2)
].

Definition struct_perf_callchain_entry : cty := CStruct [
  fld "nr" __u64;
  fld "ip" (CArr __u64 0)
].

Definition struct_perf_callchain_entry_ctx : cty := CStruct [
  fld "entry" (ptr "struct perf_callchain_entry");
  fld "max_stack" u32;
  fld "nr" u32;
  fld "contexts" short;
  fld "contexts_maxed" c_bool
].

Definition struct_stackframe : cty := CStruct [
  fld "fp" ulong;
  fld "pc" ulong;
  fld "stacks_done" (CArr ulong 1);
  fld "prev_fp" ulong;
  fld "prev_type" (enum "stack_type")
].

Definition struct_bpf_prog_array_item : cty := CStruct [
  fld "prog" (ptr "struct bpf_prog");
  fld "cgroup_storage" (CArr (ptr "struct bpf_cgroup_storage") 2)
].

Definition struct_bpf_prog_array : cty := CStruct [
  fld "rcu" struct_callback_head;
  fld "items" (CArr struct_bpf_prog_array_item 0)
].

Definition struct_u64_stats_sync : cty := CStruct [].

Definition struct_bpf_prog_stats : cty := CStruct [
  fld "cnt" u64;
  fld "nsecs" u64;
  fld "syncp" struct_u64_stats_sync
].

Definition struct_bpf_binary_header : cty := CStruct [
  fld "pages" u32;
  pad long 0;
  fld "image" (CArr u8 0)
].

Definition struct_bpf_local_storage : cty := CStruct [
  fld "cache" (CArr (ptr "struct bpf_local_storage_data") 16);
  fld "list" struct_hlist_head;
  fld "owner" (ptr "void");
  fld "rcu" struct_callback_head;
  fld "lock" raw_spinlock_t
].

Definition struct_kref : cty := CStruct [
  fld "refcount" refcount_t
].

Definition struct_kobject : cty := CStruct [
  fld "name" (ptr "const char");
  fld "entry" struct_list_head;
  fld "parent" (ptr "struct kobject");
  fld "kset" (ptr "struct kset");
  fld "ktype" (ptr "struct kobj_type");
  fld "sd" (ptr "struct kernfs_node");
  fld "kref" struct_kref;
  bit "state_initialized" uint 1;
  bit "state_in_sysfs" uint 1;
  bit "state_add_uevent_sent" uint 1;
  bit "state_remove_uevent_sent" uint 1;
  bit "uevent_suppress" uint 1;
  fld "android_kabi_reserved1" u64;
  fld "android_kabi_reserved2" u64;
  fld "android_kabi_reserved3" u64;
  fld "android_kabi_reserved4" u64
].

Definition struct_module_kobject : cty := CStruct [
  fld "kobj" struct_kobject;
  fld "mod" (ptr "struct module");
  fld "drivers_dir" (ptr "struct kobject");
  fld "mp" (ptr "struct module_param_attrs");
  fld "kobj_completion" (ptr "struct completion")
].

Definition cfi_check_fn : cty := ptr "void (uint64_t, void *, void *)".

Definition struct_mod_tree_node : cty := CStruct [
  fld "mod" (ptr "struct module");
  fld "node" struct_latch_tree_node
].

Definition struct_module_layout : cty := CStruct [
  fld "base" (ptr "void");
  fld "size" uint;
  fld "text_size" uint;
  fld "ro_size" uint;
  fld "ro_after_init_size" uint;
  fld "mtn" struct_mod_tree_node
].

Definition struct_mod_plt_sec : cty := CStruct [
  fld "plt_shndx" int;
  fld "plt_num_entries" int;
  fld "plt_max_entries" int
].

Definition struct_mod_arch_specific : cty := CStruct [
  fld "core" struct_mod_plt_sec;
  fld "init" struct_mod_plt_sec;
  fld "ftrace_trampolines" (ptr "struct plt_entry")
].

Definition struct_mod_kallsyms : cty := CStruct [
  fld "symtab" (ptr "Elf64_Sym");
  fld "num_symtab" uint;
  fld "strtab" (ptr "char");
  fld "typetab" (ptr "char")
].

Definition struct_module : cty := CStruct [
  fld "state" (enum "module_state");
  fld "list" struct_list_head;
  fld "name" (CArr char 56);
  fld "mkobj" struct_module_kobject;
  fld "modinfo_attrs" (ptr "struct module_attribute");
  fld "version" (ptr "const char");
  fld "srcversion" (ptr "const char");
  fld "scmversion" (ptr "const char");
  fld "holders_dir" (ptr "struct kobject");
  fld "syms" (ptr "const struct kernel_symbol");
  fld "crcs" (ptr "const s32");
  fld "num_syms" uint;
  fld "cfi_check" cfi_check_fn;
  fld "param_lock" struct_mutex;
  fld "kp" (ptr "struct kernel_param");
  fld "num_kp" uint;
  fld "num_gpl_syms" uint;
  fld "gpl_syms" (ptr "const struct kernel_symbol");
  fld "gpl_crcs" (ptr "const s32");
  fld "using_gplonly_symbols" c_bool;
  fld "sig_ok" c_bool;
  fld "async_probe_requested" c_bool;
  fld "gpl_future_syms" (ptr "const struct kernel_symbol");
  fld "gpl_future_crcs" (ptr "const s32");
  fld "num_gpl_future_syms" uint;
  fld "num_exentries" uint;
  fld "extable" (ptr "struct exception_table_entry");
  fld "init" (ptr "int (void)");
  pad long 64;
  pad long 64;
  pad long 64;
  pad long 64;
  pad long 64;
  fld "core_layout" struct_module_layout;
  fld "init_layout" struct_module_layout;
  fld "arch" struct_mod_arch_specific;
  fld "taints" ulong;
  fld "num_bugs" uint;
  fld "bug_list" struct_list_head;
  fld "bug_table" (ptr "struct bug_entry");
  fld "kallsyms" (ptr "struct mod_kallsyms");
  fld "core_kallsyms" struct_mod_kallsyms;
  fld "sect_attrs" (ptr "struct module_sect_attrs");
  fld "notes_attrs" (ptr "struct module_notes_attrs");
  fld "args" (ptr "char");
  fld "percpu" (ptr "void");
  fld "percpu_size" uint;
  fld "noinstr_text_start" (ptr "void");
  fld "noinstr_text_size" uint;
  fld "num_tracepoints" uint;
  fld "tracepoints_ptrs" (ptr "tracepoint_ptr_t");
  fld "num_srcu_structs" uint;
  fld "srcu_struct_ptrs" (ptr "struct srcu_struct *");
  fld "num_bpf_raw_events" uint;
  fld "bpf_raw_events" (ptr "struct bpf_raw_event_map");
  fld "jump_entries" (ptr "struct jump_entry");
  fld "num_jump_entries" uint;
  fld "num_trace_bprintk_fmt" uint;
  fld "trace_bprintk_fmt_start" (ptr "const char *");
  fld "trace_events" (ptr "struct trace_event_call *");
  fld "num_trace_events" uint;
  fld "trace_evals" (ptr "struct trace_eval_map *");
  fld "num_trace_evals" uint;
  fld "kprobes_text_start" (ptr "void");
  fld "kprobes_text_size" uint;
  fld "kprobe_blacklist" (ptr "unsigned long");
  fld "num_kprobe_blacklist" uint;
  fld "source_list" struct_list_head;
  fld "target_list" struct_list_head;
  fld "exit" (ptr "void (void)");
  fld "refcnt" atomic_t;
  fld "ei_funcs" (ptr "struct error_injection_entry");
  fld "num_ei_funcs" uint;
  fld "android_kabi_reserved1" u64;
  fld "android_kabi_reserved2" u64;
  fld "android_kabi_reserved3" u64;
  fld "android_kabi_reserved4" u64;
  pad long 64;
  pad long 64;
  pad long 64
].

Definition struct_user_regset : cty := CStruct [
  fld "regset_get" (ptr "user_regset_get2_fn");
  fld "set" (ptr "user_regset_set_fn");
  fld "active" (ptr "user_regset_active_fn");
  fld "writeback" (ptr "user_regset_writeback_fn");
  fld "n" uint;
  fld "size" uint;
  fld "align" uint;
  fld "bias" uint;
  fld "core_note_type" uint
].

(** The records of this file, by tag. *)
Definition KProbe_types : list (string * cty) := [
  ("struct arch_specific_insn", struct_arch_specific_insn); ("struct kprobe", struct_kprobe);
  ("struct kretprobe", struct_kretprobe); ("struct kretprobe_instance", struct_kretprobe_instance);
  ("struct trace_event_class", struct_trace_event_class);
  ("struct trace_event_functions", struct_trace_event_functions);
  ("struct trace_event_file", struct_trace_event_file);
  ("struct array_buffer", struct_array_buffer); ("struct trace_array", struct_trace_array);
  ("struct perf_buffer", struct_perf_buffer); ("struct perf_cpu_context", struct_perf_cpu_context);
  ("struct perf_callchain_entry", struct_perf_callchain_entry);
  ("struct perf_callchain_entry_ctx", struct_perf_callchain_entry_ctx);
  ("struct stackframe", struct_stackframe);
  ("struct bpf_prog_array_item", struct_bpf_prog_array_item);
  ("struct bpf_prog_array", struct_bpf_prog_array);
  ("struct u64_stats_sync", struct_u64_stats_sync);
  ("struct bpf_prog_stats", struct_bpf_prog_stats);
  ("struct bpf_binary_header", struct_bpf_binary_header);
  ("struct bpf_local_storage", struct_bpf_local_storage); ("struct kref", struct_kref);
  ("struct kobject", struct_kobject); ("struct module_kobject", struct_module_kobject);
  ("struct mod_tree_node", struct_mod_tree_node); ("struct module_layout", struct_module_layout);
  ("struct mod_plt_sec", struct_mod_plt_sec);
  ("struct mod_arch_specific", struct_mod_arch_specific);
  ("struct mod_kallsyms", struct_mod_kallsyms); ("struct module", struct_module);
  ("struct user_regset", struct_user_regset)
].
