(* ===== verification/KSched.v ===== *)
(** * KSched: what a task points to: its identity and namespaces, open files,
    credentials' user, group and run queue. *)

From S2P Require Import Prelude Layout KBase KUapi KRegs KPerf KTrace KBpf KVerifier KTask KFile KVm KProbe.

Definition struct_upid : cty := CStruct [
  fld "nr" int;
  fld "ns" (ptr "struct pid_namespace")
].

Definition struct_pid : cty := CStruct [
  fld "count" refcount_t;
  fld "level" uint;
  fld "lock" spinlock_t;
  fld "tasks" (CArr struct_hlist_head 4);
  fld "inodes" struct_hlist_head;
  fld "wait_pidfd" wait_queue_head_t;
  fld "rcu" struct_callback_head;
  fld "numbers" (CArr struct_upid 1)
].

Definition struct_idr : cty := CStruct [
  fld "idr_rt" struct_xarray;
  fld "idr_base" uint;
  fld "idr_next" uint
].

Definition struct_ns_common : cty := CStruct [
  fld "stashed" atomic_long_t;
  fld "ops" (ptr "const struct proc_ns_operations");
  fld "inum" uint
].

Definition struct_pid_namespace : cty := CStruct [
  fld "kref" struct_kref;
  fld "idr" struct_idr;
  fld "rcu" struct_callback_head;
  fld "pid_allocated" uint;
  fld "child_reaper" (ptr "struct task_struct");
  fld "pid_cachep" (ptr "struct kmem_cache");
  fld "level" uint;
  fld "parent" (ptr "struct pid_namespace");
  fld "user_ns" (ptr "struct user_namespace");
  fld "ucounts" (ptr "struct ucounts");
  fld "reboot" int;
  fld "ns" struct_ns_common
].

Definition struct_nsproxy : cty := CStruct [
  fld "count" atomic_t;
  fld "uts_ns" (ptr "struct uts_namespace");
  fld "ipc_ns" (ptr "struct ipc_namespace");
  fld "mnt_ns" (ptr "struct mnt_namespace");
  fld "pid_ns_for_children" (ptr "struct pid_namespace");
  fld "net_ns" (ptr "struct net");
  fld "time_ns" (ptr "struct time_namespace");
  fld "time_ns_for_children" (ptr "struct time_namespace");
  fld "cgroup_ns" (ptr "struct cgroup_namespace")
].

Definition struct_fdtable : cty := CStruct [
  fld "max_fds" uint;
  fld "fd" (ptr "struct file *");
  fld "close_on_exec" (ptr "unsigned long");
  fld "open_fds" (ptr "unsigned long");
  fld "full_fds_bits" (ptr "unsigned long");
  fld "rcu" struct_callback_head
].

Definition struct_files_struct : cty := CStruct [
  fld "count" atomic_t;
  fld "resize_in_progress" c_bool;
  fld "resize_wait" wait_queue_head_t;
  fld "fdt" (ptr "struct fdtable");
  fld "fdtab" struct_fdtable;
  pad long 64;
  pad long 64;
  pad long 64;
  pad long 64;
  fld "file_lock" spinlock_t;
  fld "next_fd" uint;
  fld "close_on_exec_init" (CArr ulong 1);
  fld "open_fds_init" (CArr ulong 1);
  fld "full_fds_bits_init" (CArr ulong 1);
  fld "fd_array" (CArr (ptr "struct file") 64);
  pad long 64;
  pad long 64;
  pad long 64;
  pad long 64
].

Definition struct_fs_struct : cty := CStruct [
  fld "users" int;
  fld "lock" spinlock_t;
  fld "seq" seqcount_spinlock_t;
  fld "umask" int;
  fld "in_exec" int;
  fld "root" struct_path;
  fld "pwd" struct_path
].

Definition struct_ratelimit_state : cty := CStruct [
  fld "lock" raw_spinlock_t;
  fld "interval" int;
  fld "burst" int;
  fld "printed" int;
  fld "missed" int;
  fld "begin" ulong;
  fld "flags" ulong
].

Definition struct_user_struct : cty := CStruct [
  fld "__count" refcount_t;
  fld "processes" atomic_t;
  fld "sigpending" atomic_t;
  fld "epoll_watches" atomic_long_t;
  fld "locked_shm" ulong;
  fld "unix_inflight" ulong;
  fld "pipe_bufs" atomic_long_t;
  fld "uidhash_node" struct_hlist_node;
  fld "uid" kuid_t;
  fld "locked_vm" atomic_long_t;
  fld "ratelimit" struct_ratelimit_state;
  fld "android_kabi_reserved1" u64;
  fld "android_kabi_reserved2" u64;
  fld "android_oem_data1" (CArr u64 2)
].

Definition struct_uid_gid_extent : cty := CStruct [
  fld "first" u32;
  fld "lower_first" u32;
  fld "count" u32
].

Definition struct_uid_gid_map : cty := CStruct [
  fld "nr_extents" u32;
  anon (CUnion [
    fld "extent" (CArr struct_uid_gid_extent 5);
    anon (CStruct [
      fld "forward" (ptr "struct uid_gid_extent");
      fld "reverse" (ptr "struct uid_gid_extent")
    ])
  ])
].

Definition struct_ctl_table_header : cty := CStruct [
  anon (CUnion [
    anon (CStruct [
      fld "ctl_table" (ptr "struct ctl_table");
      fld "used" int;
      fld "count" int;
      fld "nreg" int
    ]);
    fld "rcu" struct_callback_head
  ]);
  fld "unregistering" (ptr "struct completion");
  fld "ctl_table_arg" (ptr "struct ctl_table");
  fld "root" (ptr "struct ctl_table_root");
  fld "set" (ptr "struct ctl_table_set");
  fld "parent" (ptr "struct ctl_dir");
  fld "node" (ptr "struct ctl_node");
  fld "inodes" struct_hlist_head
].

Definition struct_ctl_dir : cty := CStruct [
  fld "header" struct_ctl_table_header;
  fld "root" struct_rb_root
].

Definition struct_ctl_table_set : cty := CStruct [
  fld "is_seen" (ptr "int (struct ctl_table_set *)");
  fld "dir" struct_ctl_dir
].

Definition struct_user_namespace : cty := CStruct [
  fld "uid_map" struct_uid_gid_map;
  fld "gid_map" struct_uid_gid_map;
  fld "projid_map" struct_uid_gid_map;
  fld "count" atomic_t;
  fld "parent" (ptr "struct user_namespace");
  fld "level" int;
  fld "owner" kuid_t;
  fld "group" kgid_t;
  fld "ns" struct_ns_common;
  fld "flags" ulong;
  fld "parent_could_setfcap" c_bool;
  fld "keyring_name_list" struct_list_head;
  fld "user_keyring_register" (ptr "struct key");
  fld "keyring_sem" struct_rw_semaphore;
  fld "work" struct_work_struct;
  fld "set" struct_ctl_table_set;
  fld "sysctls" (ptr "struct ctl_table_header");
  fld "ucounts" (ptr "struct ucounts");
  fld "ucount_max" (CArr int 10);
  fld "android_kabi_reserved1" u64;
  fld "android_kabi_reserved2" u64
].

Definition struct_ucounts : cty := CStruct [
  fld "node" struct_hlist_node;
  fld "ns" (ptr "struct user_namespace");
  fld "uid" kuid_t;
  fld "count" int;
  fld "ucount" (CArr atomic_t 10)
].

Definition struct_percpu_ref : cty := CStruct [
  fld "percpu_count_ptr" ulong;
  fld "data" (ptr "struct percpu_ref_data")
].

Definition struct_rcu_work : cty := CStruct [
  fld "work" struct_work_struct;
  fld "rcu" struct_callback_head;
  fld "wq" (ptr "struct workqueue_struct")
].

Definition struct_cgroup_subsys_state : cty := CStruct [
  fld "cgroup" (ptr "struct cgroup");
  fld "ss" (ptr "struct cgroup_subsys");
  fld "refcnt" struct_percpu_ref;
  fld "sibling" struct_list_head;
  fld "children" struct_list_head;
  fld "rstat_css_node" struct_list_head;
  fld "id" int;
  fld "flags" uint;
  fld "serial_nr" u64;
  fld "online_cnt" atomic_t;
  fld "destroy_work" struct_work_struct;
  fld "destroy_rwork" struct_rcu_work;
  fld "parent" (ptr "struct cgroup_subsys_state")
].

Definition struct_cfs_bandwidth : cty := CStruct [].

Definition struct_task_group : cty := CStruct [
  fld "css" struct_cgroup_subsys_state;
  fld "se" (ptr "struct sched_entity *");
  fld "cfs_rq" (ptr "struct cfs_rq *");
  fld "shares" ulong;
  fld "load_avg" atomic_long_t;
  fld "rcu" struct_callback_head;
  fld "list" struct_list_head;
  fld "parent" (ptr "struct task_group");
  fld "siblings" struct_list_head;
  fld "children" struct_list_head;
  fld "cfs_bandwidth" struct_cfs_bandwidth;
  fld "uclamp_pct" (CArr uint 2);
  fld "uclamp_req" (CArr struct_uclamp_se 2);
  fld "uclamp" (CArr struct_uclamp_se 2);
  fld "latency_sensitive" uint;
  fld "android_vendor_data1" (CArr u64 4);
  fld "android_kabi_reserved1" u64;
  fld "android_kabi_reserved2" u64;
  fld "android_kabi_reserved3" u64;
  fld "android_kabi_reserved4" u64;
  pad long 64;
  pad long 64
].

Definition struct_css_set : cty := CStruct [
  fld "subsys" (CArr (ptr "struct cgroup_subsys_state") 7);
  fld "refcount" refcount_t;
  fld "dom_cset" (ptr "struct css_set");
  fld "dfl_cgrp" (ptr "struct cgroup");
  fld "nr_tasks" int;
  fld "tasks" struct_list_head;
  fld "mg_tasks" struct_list_head;
  fld "dying_tasks" struct_list_head;
  fld "task_iters" struct_list_head;
  fld "e_cset_node" (CArr struct_list_head 7);
  fld "threaded_csets" struct_list_head;
  fld "threaded_csets_node" struct_list_head;
  fld "hlist" struct_hlist_node;
  fld "cgrp_links" struct_list_head;
  fld "mg_preload_node" struct_list_head;
  fld "mg_node" struct_list_head;
  fld "mg_src_cgrp" (ptr "struct cgroup");
  fld "mg_dst_cgrp" (ptr "struct cgroup");
  fld "mg_dst_cset" (ptr "struct css_set");
  fld "dead" c_bool;
  fld "callback_head" struct_callback_head
].

Definition struct_sched_class : cty := CStruct [
  fld "uclamp_enabled" int;
  fld "enqueue_task" (ptr "void (struct rq *, struct task_struct *, int)");
  fld "dequeue_task" (ptr "void (struct rq *, struct task_struct *, int)");
  fld "yield_task" (ptr "void (struct rq *)");
  fld "yield_to_task" (ptr "bool (struct rq *, struct task_struct *)");
  fld "check_preempt_curr" (ptr "void (struct rq *, struct task_struct *, int)");
  fld "pick_next_task" (ptr "struct task_struct * (struct rq *)");
  fld "put_prev_task" (ptr "void (struct rq *, struct task_struct *)");
  fld "set_next_task" (ptr "void (struct rq *, struct task_struct *, bool)");
  fld "balance" (ptr "int (struct rq *, struct task_struct *, struct rq_flags *)");
  fld "select_task_rq" (ptr "int (struct task_struct *, int, int, int)");
  fld "migrate_task_rq" (ptr "void (struct task_struct *, int)");
  fld "task_woken" (ptr "void (struct rq *, struct task_struct *)");
  fld "set_cpus_allowed" (ptr "void (struct task_struct *, const struct cpumask *)");
  fld "rq_online" (ptr "void (struct rq *)");
  fld "rq_offline" (ptr "void (struct rq *)");
  fld "task_tick" (ptr "void (struct rq *, struct task_struct *, int)");
  fld "task_fork" (ptr "void (struct task_struct *)");
  fld "task_dead" (ptr "void (struct task_struct *)");
  fld "switched_from" (ptr "void (struct rq *, struct task_struct *)");
  fld "switched_to" (ptr "void (struct rq *, struct task_struct *)");
  fld "prio_changed" (ptr "void (struct rq *, struct task_struct *, int)");
  fld "get_rr_interval" (ptr "unsigned int (struct rq *, struct task_struct *)");
  fld "update_curr" (ptr "void (struct rq *)");
  fld "task_change_group" (ptr "void (struct task_struct *, int)");
  pad long 64;
  pad long 64;
  pad long 64
].

Definition struct_cfs_rq : cty := CStruct [
  fld "load" struct_load_weight;
  fld "nr_running" uint;
  fld "h_nr_running" uint;
  fld "idle_h_nr_running" uint;
  fld "exec_clock" u64;
  fld "min_vruntime" u64;
  fld "tasks_timeline" struct_rb_root_cached;
  fld "curr" (ptr "struct sched_entity");
  fld "next" (ptr "struct sched_entity");
  fld "last" (ptr "struct sched_entity");
  fld "skip" (ptr "struct sched_entity");
  fld "nr_spread_over" uint;
  pad long 64;
  pad long 64;
  pad long 64;
  fld "avg" struct_sched_avg;
  fld "removed" (CStruct [
    fld "lock" raw_spinlock_t;
    fld "nr" int;
    fld "load_avg" ulong;
    fld "util_avg" ulong;
    fld "runnable_avg" ulong;
    pad long 64;
    pad long 64;
    pad long 64;
    pad long 64
  ]);
  fld "tg_load_avg_contrib" ulong;
  fld "propagate" long;
  fld "prop_runnable_sum" long;
  fld "h_load" ulong;
  fld "last_h_load_update" u64;
  fld "h_load_next" (ptr "struct sched_entity");
  fld "rq" (ptr "struct rq");
  fld "on_list" int;
  fld "leaf_cfs_rq_list" struct_list_head;
  fld "tg" (ptr "struct task_group");
  fld "android_vendor_data1" (CArr u64 16);
  pad long 64;
  pad long 64;
  pad long 64;
  pad long 64;
  pad long 64
].

Definition smp_call_func_t : cty := ptr "void (void *)".

Definition struct___call_single_data : cty := CStruct [
  anon (CUnion [
    fld "node" struct___call_single_node;
    anon (CStruct [
      fld "llist" struct_llist_node;
      fld "flags" uint;
      fld "src" u16;
      fld "dst" u16
    ])
  ]);
  fld "func" smp_call_func_t;
  fld "info" (ptr "void")
].

Definition call_single_data_t : cty := struct___call_single_data.

Definition struct_uclamp_bucket : cty := CStruct [
  bit "value" ulong 11;
  bit "tasks" ulong 53
].

Definition struct_uclamp_rq : cty := CStruct [
  fld "value" uint;
  fld "bucket" (CArr struct_uclamp_bucket 20)
].

Definition struct_plist_head : cty := CStruct [
  fld "node_list" struct_list_head
].

Definition struct_rt_prio_array : cty := CStruct [
  fld "bitmap" (CArr ulong 2);
  fld "queue" (CArr struct_list_head 100)
].

Definition struct_rt_rq : cty := CStruct [
  fld "active" struct_rt_prio_array;
  fld "rt_nr_running" uint;
  fld "rr_nr_running" uint;
  fld "highest_prio" (CStruct [
    fld "curr" int;
    fld "next" int
  ]);
  fld "rt_nr_migratory" ulong;
  fld "rt_nr_total" ulong;
  fld "overloaded" int;
  fld "pushable_tasks" struct_plist_head;
  fld "rt_queued" int;
  fld "rt_throttled" int;
  fld "rt_time" u64;
  fld "rt_runtime" u64;
  fld "rt_runtime_lock" raw_spinlock_t
].

Definition struct_dl_rq : cty := CStruct [
  fld "root" struct_rb_root_cached;
  fld "dl_nr_running" ulong;
  fld "earliest_dl" (CStruct [
    fld "curr" u64;
    fld "next" u64
  ]);
  fld "dl_nr_migratory" ulong;
  fld "overloaded" int;
  fld "pushable_dl_tasks_root" struct_rb_root_cached;
  fld "running_bw" u64;
  fld "this_bw" u64;
  fld "extra_bw" u64;
  fld "bw_ratio" u64
].

Definition cpu_stop_fn_t : cty := ptr "int (void *)".

Definition struct_cpu_stop_work : cty := CStruct [
  fld "list" struct_list_head;
  fld "fn" cpu_stop_fn_t;
  fld "arg" (ptr "void");
  fld "done" (ptr "struct cpu_stop_done")
].

Definition struct_swait_queue_head : cty := CStruct [
  fld "lock" raw_spinlock_t;
  fld "task_list" struct_list_head
].

Definition struct_completion : cty := CStruct [
  fld "done" uint;
  fld "wait" struct_swait_queue_head
].

Definition struct_cpu_stop_done : cty := CStruct [
  fld "nr_todo" atomic_t;
  fld "ret" int;
  fld "completion" struct_completion
].

Definition struct_rq : cty := CStruct [
  fld "lock" raw_spinlock_t;
  fld "nr_running" uint;
  fld "last_blocked_load_update_tick" ulong;
  fld "has_blocked_load" uint;
  pad long 64;
  fld "nohz_csd" call_single_data_t;
  fld "nohz_tick_stopped" uint;
  fld "nohz_flags" atomic_t;
  fld "ttwu_pending" uint;
  fld "nr_switches" u64;
  pad long 64;
  pad long 64;
  pad long 64;
  pad long 64;
  pad long 64;
  fld "uclamp" (CArr struct_uclamp_rq 2);
  fld "uclamp_flags" uint;
  pad long 64;
  pad long 64;
  pad long 64;
  pad long 64;
  pad long 64;
  fld "cfs" struct_cfs_rq;
  fld "rt" struct_rt_rq;
  fld "dl" struct_dl_rq;
  fld "leaf_cfs_rq_list" struct_list_head;
  fld "tmp_alone_branch" (ptr "struct list_head");
  fld "nr_uninterruptible" ulong;
  fld "curr" (ptr "struct task_struct");
  fld "idle" (ptr "struct task_struct");
  fld "stop" (ptr "struct task_struct");
  fld "next_balance" ulong;
  fld "prev_mm" (ptr "struct mm_struct");
  fld "clock_update_flags" uint;
  fld "clock" u64;
  pad long 64;
  pad long 64;
  pad long 64;
  fld "clock_task" u64;
  fld "clock_pelt" u64;
  fld "lost_idle_time" ulong;
  fld "nr_iowait" atomic_t;
  fld "membarrier_state" int;
  fld "rd" (ptr "struct root_domain");
  fld "sd" (ptr "struct sched_domain");
  fld "cpu_capacity" ulong;
  fld "cpu_capacity_orig" ulong;
  fld "balance_callback" (ptr "struct callback_head");
  fld "nohz_idle_balance" uchar;
  fld "idle_balance" uchar;
  fld "misfit_task_load" ulong;
  fld "active_balance" int;
  fld "push_cpu" int;
  fld "active_balance_work" struct_cpu_stop_work;
  fld "cpu" int;
  fld "online" int;
  fld "cfs_tasks" struct_list_head;
  pad long 64;
  pad long 64;
  pad long 64;
  pad long 64;
  fld "avg_rt" struct_sched_avg;
  fld "avg_dl" struct_sched_avg;
  fld "avg_irq" struct_sched_avg;
  fld "avg_thermal" struct_sched_avg;
  fld "idle_stamp" u64;
  fld "avg_idle" u64;
  fld "max_idle_balance_cost" u64;
  fld "prev_irq_time" u64;
  fld "prev_steal_time" u64;
  fld "calc_load_update" ulong;
  fld "calc_load_active" long;
  pad long 64;
  fld "hrtick_csd" call_single_data_t;
  fld "hrtick_timer" struct_hrtimer;
  fld "hrtick_time" ktime_t;
  fld "rq_sched_info" struct_sched_info;
  fld "rq_cpu_time" ullong;
  fld "yld_count" uint;
  fld "sched_count" uint;
  fld "sched_goidle" uint;
  fld "ttwu_count" uint;
  fld "ttwu_local" uint;
  fld "drain" struct_cpu_stop_work;
  fld "drain_done" struct_cpu_stop_done;
  fld "idle_state" (ptr "struct cpuidle_state");
  fld "android_vendor_data1" (CArr u64 96);
  fld "android_oem_data1" (CArr u64 16);
  fld "android_kabi_reserved1" u64;
  fld "android_kabi_reserved2" u64;
  fld "android_kabi_reserved3" u64;
  fld "android_kabi_reserved4" u64;
  pad long 64;
  pad long 64;
  pad long 64
].

(** The records of this file, by tag. *)
Definition KSched_types : list (string * cty) := [
  ("struct upid", struct_upid); ("struct pid", struct_pid); ("struct idr", struct_idr);
  ("struct ns_common", struct_ns_common); ("struct pid_namespace", struct_pid_namespace);
  ("struct nsproxy", struct_nsproxy); ("struct fdtable", struct_fdtable);
  ("struct files_struct", struct_files_struct); ("struct fs_struct", struct_fs_struct);
  ("struct ratelimit_state", struct_ratelimit_state); ("struct user_struct", struct_user_struct);
  ("struct uid_gid_extent", struct_uid_gid_extent); ("struct uid_gid_map", struct_uid_gid_map);
  ("struct ctl_table_header", struct_ctl_table_header); ("struct ctl_dir", struct_ctl_dir);
  ("struct ctl_table_set", struct_ctl_table_set); ("struct user_namespace", struct_user_namespace);
  ("struct ucounts", struct_ucounts); ("struct percpu_ref", struct_percpu_ref);
  ("struct rcu_work", struct_rcu_work); ("struct cgroup_subsys_state", struct_cgroup_subsys_state);
  ("struct cfs_bandwidth", struct_cfs_bandwidth); ("struct task_group", struct_task_group);
  ("struct css_set", struct_css_set); ("struct sched_class", struct_sched_class);
  ("struct cfs_rq", struct_cfs_rq); ("struct __call_single_data", struct___call_single_data);
  ("struct uclamp_bucket", struct_uclamp_bucket); ("struct uclamp_rq", struct_uclamp_rq);
  ("struct plist_head", struct_plist_head); ("struct rt_prio_array", struct_rt_prio_array);
  ("struct rt_rq", struct_rt_rq); ("struct dl_rq", struct_dl_rq);
  ("struct cpu_stop_work", struct_cpu_stop_work);
  ("struct swait_queue_head", struct_swait_queue_head); ("struct completion", struct_completion);
  ("struct cpu_stop_done", struct_cpu_stop_done); ("struct rq", struct_rq)
].
