(* ===== verification/Kernel.v ===== *)
(** * Kernel: the kernel types as a whole

    All records of the K* files together, what a read through a path means,
    and the trap frame behind the [PT_REGS_*] macros. *)

From S2P Require Import Prelude CTypes Bpf Layout Records KBase KUapi KRegs KPerf KTrace KBpf KVerifier KTask KFile KVm KProbe KSched.

Definition kernel_types : list (string * cty) :=
  KBase_types ++ KUapi_types ++ KRegs_types ++ KPerf_types ++ KTrace_types ++ KBpf_types ++
  KVerifier_types ++ KTask_types ++ KFile_types ++ KVm_types ++ KProbe_types ++ KSched_types.

Lemma kernel_types_wf : forallb (fun e => wf (snd e)) kernel_types = true.
Proof. vm_compute. reflexivity. Qed.

(** Reading a member of any of the kernel's records through any path of
    names and indices stays inside the record, and a member that is not a
    bit-field starts at a multiple of its own alignment. *)
Theorem kernel_access_inside tag t p l :
  In (tag, t) kernel_types -> locate t p = Some l ->
  0 <= l_pos l /\ l_pos l + width l <= 8 * size t /\
  (l_bits l = None -> l_pos l mod (8 * align (l_type l)) = 0).
Proof.
  intros Hin E. pose proof kernel_types_wf as Hw. rewrite forallb_forall in Hw.
  destruct (locate_good t p l (Hw _ Hin) E) as (?&?&Hwl&Ha). repeat split; [lia..|].
  intros Hb. apply Z.mod_divide; [|by apply Ha]. apply align_pow2, pow2_pos in Hwl. lia.
Qed.

Lemma kernel_access_inside_witness :
  In ("struct task_struct", struct_task_struct) kernel_types /\
  exists l, locate struct_task_struct [Sel "comm"; Idx 15] = Some l /\
    l_pos l + width l <= 8 * size struct_task_struct.
Proof.
  assert (Hin : In ("struct task_struct", struct_task_struct) kernel_types).
  { unfold kernel_types. rewrite !in_app_iff. do 7 right. left.
    unfold KTask_types. in_list. }
  split; [exact Hin|].
  destruct (locate struct_task_struct [Sel "comm"; Idx 15]) as [l|] eqn:E; [|vm_compute in E; discriminate].
  exists l. split; [reflexivity|]. by apply (kernel_access_inside _ _ _ _ Hin E).
Defined.

(** ** Reading members *)

Section memory.
Variable m : Z -> byte.

(** The general registers and the rest of the frame user space sees. *)
Definition read_user_regs (a : Z) : option user_pt_regs :=
  gs ← mapM (fun i => read_member m struct_user_pt_regs a [Sel "regs"; Idx (Z.of_nat i)]) (seq 0 31);
  sp ← read_member m struct_user_pt_regs a [Sel "sp"];
  pc ← read_member m struct_user_pt_regs a [Sel "pc"];
  ps ← read_member m struct_user_pt_regs a [Sel "pstate"];
  Some (UserPtRegs gs sp pc ps).
End memory.

Lemma locate_array t x pos t' n i :
  member t x = Some (Loc pos None (CArr t' n)) -> 0 <= i < n ->
  locate t [Sel x; Idx i] = Some (Loc (pos + (i * (8 * size t') + 0)) None t').
Proof.
  intros Em Hi. cbn [locate select]. rewrite Em. cbn [mbind option_bind l_bits l_type l_pos].
  rewrite (proj2 (Z.leb_le _ _)), (proj2 (Z.ltb_lt _ _)) by lia. reflexivity.
Qed.

(** The general registers of both records, at eight bytes each. *)
Lemma read_reg m a i :
  0 <= i < 31 ->
  read_member m struct_pt_regs a [Sel "regs"; Idx i] = Some (le_val (dump m (a + 8 * i) 8)) /\
  read_member m struct_user_pt_regs a [Sel "regs"; Idx i] = Some (le_val (dump m (a + 8 * i) 8)).
Proof.
  intros Hi. unfold read_member.
  rewrite (locate_array struct_pt_regs "regs" 0 u64 31) by (done || reflexivity).
  rewrite (locate_array struct_user_pt_regs "regs" 0 __u64 31) by (done || reflexivity).
  change (size u64) with 8. change (size __u64) with 8.
  replace (0 + (i * (8 * 8) + 0)) with (8 * (8 * i)) by lia.
  split; apply (read_at_bytes m a (8 * i) 8); lia.
Qed.

(** A word at a fixed offset. *)
Lemma read_word m a t p o :
  locate t p = Some (Loc (8 * o) None (CInt 8 false)) ->
  read_member m t a p = Some (le_val (dump m (a + o) 8)).
Proof.
  intros E. unfold read_member. rewrite E. by apply read_at_bytes.
Qed.

Lemma mapM_Some {A B} (f : A -> option B) (g : A -> B) l :
  (forall x, In x l -> f x = Some (g x)) -> mapM f l = Some (map g l).
Proof.
  induction l as [|x l IH]; intros Hf; [done|]. cbn. rewrite Hf by now left.
  rewrite IH by (intros; apply Hf; now right). done.
Qed.

Lemma le_val_word m a : fits 64 (le_val (dump m a 8)).
Proof. pose proof (le_val_range (dump m a 8)) as Hr. rewrite length_dump in Hr. exact Hr. Qed.

(** C36. A program's context is the kernel's [struct pt_regs]; the [PT_REGS]
    macros read it as [struct user_pt_regs].  Both views of the same memory
    agree: argument k is member regs[k-1] of the kernel's record, the return
    address is regs[30], the probed address is pc, and every word is read at
    full width. *)
Theorem pt_regs_views_agree m a :
  exists r, read_user_regs m a = Some r /\
    (forall k, (1 <= k <= 8)%nat ->
       read_member m struct_pt_regs a [Sel "regs"; Idx (Z.of_nat (k - 1))] = Some (PT_REGS_PARM r k)) /\
    read_member m struct_pt_regs a [Sel "regs"; Idx 30] = Some (PT_REGS_RET r) /\
    read_member m struct_pt_regs a [Sel "pc"] = Some (PT_REGS_IP r) /\
    read_member m struct_pt_regs a [Sel "user_regs"; Sel "pc"] = Some (PT_REGS_IP r).
Proof.
  unfold read_user_regs.
  rewrite (mapM_Some _ (fun i => le_val (dump m (a + 8 * Z.of_nat i) 8))).
  2:{ intros i Hi%in_seq. apply (read_reg m a). lia. }
  cbn [mbind option_bind].
  rewrite (read_word m a struct_user_pt_regs [Sel "sp"] 248) by reflexivity.
  rewrite (read_word m a struct_user_pt_regs [Sel "pc"] 256) by reflexivity.
  rewrite (read_word m a struct_user_pt_regs [Sel "pstate"] 264) by reflexivity.
  cbn [mbind option_bind]. eexists. split; [reflexivity|].
  cbn [PT_REGS_PARM PT_REGS_RET PT_REGS_IP arm64_regs gpr pc].
  assert (Hn : forall n, (n < 31)%nat ->
    wrap 64 (nth n (map (fun i => le_val (dump m (a + 8 * Z.of_nat i) 8)) (seq 0 31)) 0)
    = le_val (dump m (a + 8 * Z.of_nat n) 8)).
  { intros n Hn. rewrite (nth_indep _ 0 (le_val (dump m (a + 8 * Z.of_nat 0) 8)))
      by (rewrite length_map, length_seq; lia).
    rewrite (map_nth (fun i => le_val (dump m (a + 8 * Z.of_nat i) 8))), seq_nth by lia.
    apply wrap_small, le_val_word. }
  split; [|split; [|split]].
  - intros k Hk. rewrite Hn by lia. apply read_reg. lia.
  - rewrite Hn by lia. apply (read_reg m a 30). lia.
  - rewrite wrap_small by apply le_val_word. by apply (read_word m a _ _ 256).
  - rewrite wrap_small by apply le_val_word. by apply (read_word m a _ _ 256).
Qed.

Lemma pt_regs_views_agree_witness :
  exists r, read_user_regs (fun a => byte_of a) 0x1000 = Some r /\
    read_member (fun a => byte_of a) struct_pt_regs 0x1000 [Sel "regs"; Idx 0] = Some (PT_REGS_PARM r 1).
Proof.
  destruct (pt_regs_views_agree (fun a => byte_of a) 0x1000) as (r & E & P & _).
  exists r. split; [exact E|]. apply (P 1%nat). lia.
Defined.

(** The two counters of the ring buffer, which user space maps, and its data
    are on pages of their own. *)
Lemma ringbuf_pages :
  offset struct_bpf_ringbuf [Sel "consumer_pos"] = Some 4096 /\
  offset struct_bpf_ringbuf [Sel "producer_pos"] = Some 8192 /\
  offset struct_bpf_ringbuf [Sel "data"] = Some 12288 /\ size struct_bpf_ringbuf = 12288.
Proof. vm_compute. done. Qed.

(** ** Members keep out of each other's way *)

(** A value stored in a member of one of the kernel's records, bit-fields
    included, is read back, and the store changes nothing else: neither the
    members on paths that part from this one nor any byte outside the record. *)
Theorem kernel_members_independent tag t p l v m a :
  In (tag, t) kernel_types -> locate t p = Some l -> representable l v ->
  let m' := write_at m a l v in
  read_member m' t a p = Some v /\
  (forall q, separate t p q = true -> read_member m' t a q = read_member m t a q) /\
  (forall b, b < a \/ a + size t <= b -> m' b = m b).
Proof.
  intros Hin E Hr. pose proof kernel_types_wf as Hw. rewrite forallb_forall in Hw.
  specialize (Hw _ Hin). cbn [snd] in Hw. cbn zeta. split; [|split].
  - by apply write_read_path.
  - intros q. by apply write_read_separate.
  - intros b. by apply (write_outside m t a Hw p).
Qed.

Lemma kernel_members_independent_witness :
  let m := fun b => byte_of b in
  exists l, locate struct_task_struct [Sel "in_execve"] = Some l /\ l_bits l = Some 1 /\
    read_member (write_at m 0x1000 l 1) struct_task_struct 0x1000 [Sel "in_execve"] = Some 1 /\
    read_member (write_at m 0x1000 l 1) struct_task_struct 0x1000 [Sel "in_iowait"] =
    read_member m struct_task_struct 0x1000 [Sel "in_iowait"] /\
    read_member (write_at m 0x1000 l 1) struct_task_struct 0x1000 [Sel "comm"; Idx 3] =
    read_member m struct_task_struct 0x1000 [Sel "comm"; Idx 3].
Proof.
  intros m. destruct (locate struct_task_struct [Sel "in_execve"]) as [l|] eqn:E; [|vm_compute in E; discriminate].
  assert (Hin : In ("struct task_struct", struct_task_struct) kernel_types).
  { unfold kernel_types. rewrite !in_app_iff. do 7 right. left. unfold KTask_types. in_list. }
  assert (Hl : l_bits l = Some 1 /\ scalar (l_type l) = Some false) by (vm_compute in E; injection E as <-; done).
  destruct Hl as [Hb Hs].
  destruct (kernel_members_independent "struct task_struct" struct_task_struct [Sel "in_execve"] l 1 m 0x1000)
    as (R1 & R2 & _).
  - exact Hin.
  - exact E.
  - unfold representable, width, fits. rewrite Hs, Hb. lia.
  - exists l. split; [reflexivity|]. split; [exact Hb|]. split; [exact R1|].
    split; apply R2; vm_compute; reflexivity.
Defined.
