(* ===== verification/Abi.v ===== *)
(** * Abi: the records the loader and the kernel exchange

    Opening a uprobe, creating maps, loading programs and mapping ring buffers
    are system calls whose arguments are records of vmlinux.h.  Their layout is
    frozen: user space is compiled against it.  The table here is that layout,
    as include/uapi/linux/bpf.h, perf_event.h, filter.h, btf.h and the arm64
    ptrace.h document it, in bytes and bits; the theorem compares the
    declarations with it. *)

From S2P Require Import Prelude Layout KBase KUapi KRegs KPerf.




(** ** The table *)











(** ** Comparison *)



