(* ===== verification/KEnums.v ===== *)
(** * KEnums: enumerations of vmlinux.h

    The enumerations of the BPF and perf interfaces and those the kernel
    structures of the other files have members of.  Each is an inductive type
    with the value of every enumerator ([*_val]); [CEnum] is what they have in
    common: all enumerators are listed, no two share a value and every value
    is one of an unsigned int.  At the end, enumerators stored in the members
    of the kernel's records. *)

From S2P Require Import Prelude CTypes Layout Records KBase KUapi KRegs KPerf KTrace KBpf KVerifier KTask KFile KVm KProbe KSched Kernel.

Class CEnum (A : Type) := {
  val : A -> Z;
  all : list A;
  all_complete : forall x, In x all;
  val_NoDup : NoDup (map val all);
  val_fits : forall x, fits 32 (val x)
}.

(** The enumerator with a given value. *)
Definition of_val {A} `{CEnum A} (v : Z) : option A := List.find (fun x => val x =? v) all.

Lemma fits_32_b v : (0 <=? v) && (v <? 4294967296) = true -> fits 32 v.
Proof. intros H. bool_prop. unfold fits. lia. Qed.

Ltac c_enum v l :=
  refine (Build_CEnum _ v l _ _ _);
  [ intros x; destruct x; in_list | apply (bool_decide_unpack _); vm_compute; exact I
  | intros x; apply fits_32_b; destruct x; reflexivity ].

Inductive perf_event_state :=
  | PERF_EVENT_STATE_DEAD | PERF_EVENT_STATE_EXIT | PERF_EVENT_STATE_ERROR | PERF_EVENT_STATE_OFF
  | PERF_EVENT_STATE_INACTIVE | PERF_EVENT_STATE_ACTIVE.

Definition perf_event_state_val (x : perf_event_state) : Z :=
  match x with
  | PERF_EVENT_STATE_DEAD => 4294967292 | PERF_EVENT_STATE_EXIT => 4294967293
  | PERF_EVENT_STATE_ERROR => 4294967294 | PERF_EVENT_STATE_OFF => 4294967295
  | PERF_EVENT_STATE_INACTIVE => 0 | PERF_EVENT_STATE_ACTIVE => 1
  end.

Definition perf_event_state_all : list perf_event_state := [
  PERF_EVENT_STATE_DEAD; PERF_EVENT_STATE_EXIT; PERF_EVENT_STATE_ERROR; PERF_EVENT_STATE_OFF;
  PERF_EVENT_STATE_INACTIVE; PERF_EVENT_STATE_ACTIVE
].

#[export] Instance perf_event_state_enum : CEnum perf_event_state.
Proof. c_enum perf_event_state_val perf_event_state_all. Defined.

Inductive uprobe_task_state :=
  | UTASK_RUNNING | UTASK_SSTEP | UTASK_SSTEP_ACK | UTASK_SSTEP_TRAPPED.

Definition uprobe_task_state_val (x : uprobe_task_state) : Z :=
  match x with
  | UTASK_RUNNING => 0 | UTASK_SSTEP => 1 | UTASK_SSTEP_ACK => 2 | UTASK_SSTEP_TRAPPED => 3
  end.

Definition uprobe_task_state_all : list uprobe_task_state := [
  UTASK_RUNNING; UTASK_SSTEP; UTASK_SSTEP_ACK; UTASK_SSTEP_TRAPPED
].

#[export] Instance uprobe_task_state_enum : CEnum uprobe_task_state.
Proof. c_enum uprobe_task_state_val uprobe_task_state_all. Defined.

Inductive bpf_map_type :=
  | BPF_MAP_TYPE_UNSPEC | BPF_MAP_TYPE_HASH | BPF_MAP_TYPE_ARRAY | BPF_MAP_TYPE_PROG_ARRAY
  | BPF_MAP_TYPE_PERF_EVENT_ARRAY | BPF_MAP_TYPE_PERCPU_HASH | BPF_MAP_TYPE_PERCPU_ARRAY
  | BPF_MAP_TYPE_STACK_TRACE | BPF_MAP_TYPE_CGROUP_ARRAY | BPF_MAP_TYPE_LRU_HASH
  | BPF_MAP_TYPE_LRU_PERCPU_HASH | BPF_MAP_TYPE_LPM_TRIE | BPF_MAP_TYPE_ARRAY_OF_MAPS
  | BPF_MAP_TYPE_HASH_OF_MAPS | BPF_MAP_TYPE_DEVMAP | BPF_MAP_TYPE_SOCKMAP | BPF_MAP_TYPE_CPUMAP
  | BPF_MAP_TYPE_XSKMAP | BPF_MAP_TYPE_SOCKHASH | BPF_MAP_TYPE_CGROUP_STORAGE
  | BPF_MAP_TYPE_REUSEPORT_SOCKARRAY | BPF_MAP_TYPE_PERCPU_CGROUP_STORAGE | BPF_MAP_TYPE_QUEUE
  | BPF_MAP_TYPE_STACK | BPF_MAP_TYPE_SK_STORAGE | BPF_MAP_TYPE_DEVMAP_HASH
  | BPF_MAP_TYPE_STRUCT_OPS | BPF_MAP_TYPE_RINGBUF | BPF_MAP_TYPE_INODE_STORAGE.

Definition bpf_map_type_val (x : bpf_map_type) : Z :=
  match x with
  | BPF_MAP_TYPE_UNSPEC => 0 | BPF_MAP_TYPE_HASH => 1 | BPF_MAP_TYPE_ARRAY => 2
  | BPF_MAP_TYPE_PROG_ARRAY => 3 | BPF_MAP_TYPE_PERF_EVENT_ARRAY => 4
  | BPF_MAP_TYPE_PERCPU_HASH => 5 | BPF_MAP_TYPE_PERCPU_ARRAY => 6 | BPF_MAP_TYPE_STACK_TRACE => 7
  | BPF_MAP_TYPE_CGROUP_ARRAY => 8 | BPF_MAP_TYPE_LRU_HASH => 9
  | BPF_MAP_TYPE_LRU_PERCPU_HASH => 10 | BPF_MAP_TYPE_LPM_TRIE => 11
  | BPF_MAP_TYPE_ARRAY_OF_MAPS => 12 | BPF_MAP_TYPE_HASH_OF_MAPS => 13 | BPF_MAP_TYPE_DEVMAP => 14
  | BPF_MAP_TYPE_SOCKMAP => 15 | BPF_MAP_TYPE_CPUMAP => 16 | BPF_MAP_TYPE_XSKMAP => 17
  | BPF_MAP_TYPE_SOCKHASH => 18 | BPF_MAP_TYPE_CGROUP_STORAGE => 19
  | BPF_MAP_TYPE_REUSEPORT_SOCKARRAY => 20 | BPF_MAP_TYPE_PERCPU_CGROUP_STORAGE => 21
  | BPF_MAP_TYPE_QUEUE => 22 | BPF_MAP_TYPE_STACK => 23 | BPF_MAP_TYPE_SK_STORAGE => 24
  | BPF_MAP_TYPE_DEVMAP_HASH => 25 | BPF_MAP_TYPE_STRUCT_OPS => 26 | BPF_MAP_TYPE_RINGBUF => 27
  | BPF_MAP_TYPE_INODE_STORAGE => 28
  end.

Definition bpf_map_type_all : list bpf_map_type := [
  BPF_MAP_TYPE_UNSPEC; BPF_MAP_TYPE_HASH; BPF_MAP_TYPE_ARRAY; BPF_MAP_TYPE_PROG_ARRAY;
  BPF_MAP_TYPE_PERF_EVENT_ARRAY; BPF_MAP_TYPE_PERCPU_HASH; BPF_MAP_TYPE_PERCPU_ARRAY;
  BPF_MAP_TYPE_STACK_TRACE; BPF_MAP_TYPE_CGROUP_ARRAY; BPF_MAP_TYPE_LRU_HASH;
  BPF_MAP_TYPE_LRU_PERCPU_HASH; BPF_MAP_TYPE_LPM_TRIE; BPF_MAP_TYPE_ARRAY_OF_MAPS;
  BPF_MAP_TYPE_HASH_OF_MAPS; BPF_MAP_TYPE_DEVMAP; BPF_MAP_TYPE_SOCKMAP; BPF_MAP_TYPE_CPUMAP;
  BPF_MAP_TYPE_XSKMAP; BPF_MAP_TYPE_SOCKHASH; BPF_MAP_TYPE_CGROUP_STORAGE;
  BPF_MAP_TYPE_REUSEPORT_SOCKARRAY; BPF_MAP_TYPE_PERCPU_CGROUP_STORAGE; BPF_MAP_TYPE_QUEUE;
  BPF_MAP_TYPE_STACK; BPF_MAP_TYPE_SK_STORAGE; BPF_MAP_TYPE_DEVMAP_HASH; BPF_MAP_TYPE_STRUCT_OPS;
  BPF_MAP_TYPE_RINGBUF; BPF_MAP_TYPE_INODE_STORAGE
].

#[export] Instance bpf_map_type_enum : CEnum bpf_map_type.
Proof. c_enum bpf_map_type_val bpf_map_type_all. Defined.

Inductive bpf_prog_type :=
  | BPF_PROG_TYPE_UNSPEC | BPF_PROG_TYPE_SOCKET_FILTER | BPF_PROG_TYPE_KPROBE
  | BPF_PROG_TYPE_SCHED_CLS | BPF_PROG_TYPE_SCHED_ACT | BPF_PROG_TYPE_TRACEPOINT
  | BPF_PROG_TYPE_XDP | BPF_PROG_TYPE_PERF_EVENT | BPF_PROG_TYPE_CGROUP_SKB
  | BPF_PROG_TYPE_CGROUP_SOCK | BPF_PROG_TYPE_LWT_IN | BPF_PROG_TYPE_LWT_OUT
  | BPF_PROG_TYPE_LWT_XMIT | BPF_PROG_TYPE_SOCK_OPS | BPF_PROG_TYPE_SK_SKB
  | BPF_PROG_TYPE_CGROUP_DEVICE | BPF_PROG_TYPE_SK_MSG | BPF_PROG_TYPE_RAW_TRACEPOINT
  | BPF_PROG_TYPE_CGROUP_SOCK_ADDR | BPF_PROG_TYPE_LWT_SEG6LOCAL | BPF_PROG_TYPE_LIRC_MODE2
  | BPF_PROG_TYPE_SK_REUSEPORT | BPF_PROG_TYPE_FLOW_DISSECTOR | BPF_PROG_TYPE_CGROUP_SYSCTL
  | BPF_PROG_TYPE_RAW_TRACEPOINT_WRITABLE | BPF_PROG_TYPE_CGROUP_SOCKOPT | BPF_PROG_TYPE_TRACING
  | BPF_PROG_TYPE_STRUCT_OPS | BPF_PROG_TYPE_EXT | BPF_PROG_TYPE_LSM | BPF_PROG_TYPE_SK_LOOKUP
  | BPF_PROG_TYPE_FUSE.

Definition bpf_prog_type_val (x : bpf_prog_type) : Z :=
  match x with
  | BPF_PROG_TYPE_UNSPEC => 0 | BPF_PROG_TYPE_SOCKET_FILTER => 1 | BPF_PROG_TYPE_KPROBE => 2
  | BPF_PROG_TYPE_SCHED_CLS => 3 | BPF_PROG_TYPE_SCHED_ACT => 4 | BPF_PROG_TYPE_TRACEPOINT => 5
  | BPF_PROG_TYPE_XDP => 6 | BPF_PROG_TYPE_PERF_EVENT => 7 | BPF_PROG_TYPE_CGROUP_SKB => 8
  | BPF_PROG_TYPE_CGROUP_SOCK => 9 | BPF_PROG_TYPE_LWT_IN => 10 | BPF_PROG_TYPE_LWT_OUT => 11
  | BPF_PROG_TYPE_LWT_XMIT => 12 | BPF_PROG_TYPE_SOCK_OPS => 13 | BPF_PROG_TYPE_SK_SKB => 14
  | BPF_PROG_TYPE_CGROUP_DEVICE => 15 | BPF_PROG_TYPE_SK_MSG => 16
  | BPF_PROG_TYPE_RAW_TRACEPOINT => 17 | BPF_PROG_TYPE_CGROUP_SOCK_ADDR => 18
  | BPF_PROG_TYPE_LWT_SEG6LOCAL => 19 | BPF_PROG_TYPE_LIRC_MODE2 => 20
  | BPF_PROG_TYPE_SK_REUSEPORT => 21 | BPF_PROG_TYPE_FLOW_DISSECTOR => 22
  | BPF_PROG_TYPE_CGROUP_SYSCTL => 23 | BPF_PROG_TYPE_RAW_TRACEPOINT_WRITABLE => 24
  | BPF_PROG_TYPE_CGROUP_SOCKOPT => 25 | BPF_PROG_TYPE_TRACING => 26
  | BPF_PROG_TYPE_STRUCT_OPS => 27 | BPF_PROG_TYPE_EXT => 28 | BPF_PROG_TYPE_LSM => 29
  | BPF_PROG_TYPE_SK_LOOKUP => 30 | BPF_PROG_TYPE_FUSE => 31
  end.

Definition bpf_prog_type_all : list bpf_prog_type := [
  BPF_PROG_TYPE_UNSPEC; BPF_PROG_TYPE_SOCKET_FILTER; BPF_PROG_TYPE_KPROBE; BPF_PROG_TYPE_SCHED_CLS;
  BPF_PROG_TYPE_SCHED_ACT; BPF_PROG_TYPE_TRACEPOINT; BPF_PROG_TYPE_XDP; BPF_PROG_TYPE_PERF_EVENT;
  BPF_PROG_TYPE_CGROUP_SKB; BPF_PROG_TYPE_CGROUP_SOCK; BPF_PROG_TYPE_LWT_IN; BPF_PROG_TYPE_LWT_OUT;
  BPF_PROG_TYPE_LWT_XMIT; BPF_PROG_TYPE_SOCK_OPS; BPF_PROG_TYPE_SK_SKB;
  BPF_PROG_TYPE_CGROUP_DEVICE; BPF_PROG_TYPE_SK_MSG; BPF_PROG_TYPE_RAW_TRACEPOINT;
  BPF_PROG_TYPE_CGROUP_SOCK_ADDR; BPF_PROG_TYPE_LWT_SEG6LOCAL; BPF_PROG_TYPE_LIRC_MODE2;
  BPF_PROG_TYPE_SK_REUSEPORT; BPF_PROG_TYPE_FLOW_DISSECTOR; BPF_PROG_TYPE_CGROUP_SYSCTL;
  BPF_PROG_TYPE_RAW_TRACEPOINT_WRITABLE; BPF_PROG_TYPE_CGROUP_SOCKOPT; BPF_PROG_TYPE_TRACING;
  BPF_PROG_TYPE_STRUCT_OPS; BPF_PROG_TYPE_EXT; BPF_PROG_TYPE_LSM; BPF_PROG_TYPE_SK_LOOKUP;
  BPF_PROG_TYPE_FUSE
].

#[export] Instance bpf_prog_type_enum : CEnum bpf_prog_type.
Proof. c_enum bpf_prog_type_val bpf_prog_type_all. Defined.

Inductive bpf_attach_type :=
  | BPF_CGROUP_INET_INGRESS | BPF_CGROUP_INET_EGRESS | BPF_CGROUP_INET_SOCK_CREATE
  | BPF_CGROUP_SOCK_OPS | BPF_SK_SKB_STREAM_PARSER | BPF_SK_SKB_STREAM_VERDICT | BPF_CGROUP_DEVICE
  | BPF_SK_MSG_VERDICT | BPF_CGROUP_INET4_BIND | BPF_CGROUP_INET6_BIND | BPF_CGROUP_INET4_CONNECT
  | BPF_CGROUP_INET6_CONNECT | BPF_CGROUP_INET4_POST_BIND | BPF_CGROUP_INET6_POST_BIND
  | BPF_CGROUP_UDP4_SENDMSG | BPF_CGROUP_UDP6_SENDMSG | BPF_LIRC_MODE2 | BPF_FLOW_DISSECTOR
  | BPF_CGROUP_SYSCTL | BPF_CGROUP_UDP4_RECVMSG | BPF_CGROUP_UDP6_RECVMSG | BPF_CGROUP_GETSOCKOPT
  | BPF_CGROUP_SETSOCKOPT | BPF_TRACE_RAW_TP | BPF_TRACE_FENTRY | BPF_TRACE_FEXIT
  | BPF_MODIFY_RETURN | BPF_LSM_MAC | BPF_TRACE_ITER | BPF_CGROUP_INET4_GETPEERNAME
  | BPF_CGROUP_INET6_GETPEERNAME | BPF_CGROUP_INET4_GETSOCKNAME | BPF_CGROUP_INET6_GETSOCKNAME
  | BPF_XDP_DEVMAP | BPF_CGROUP_INET_SOCK_RELEASE | BPF_XDP_CPUMAP | BPF_SK_LOOKUP | BPF_XDP
  | __MAX_BPF_ATTACH_TYPE.

Definition bpf_attach_type_val (x : bpf_attach_type) : Z :=
  match x with
  | BPF_CGROUP_INET_INGRESS => 0 | BPF_CGROUP_INET_EGRESS => 1 | BPF_CGROUP_INET_SOCK_CREATE => 2
  | BPF_CGROUP_SOCK_OPS => 3 | BPF_SK_SKB_STREAM_PARSER => 4 | BPF_SK_SKB_STREAM_VERDICT => 5
  | BPF_CGROUP_DEVICE => 6 | BPF_SK_MSG_VERDICT => 7 | BPF_CGROUP_INET4_BIND => 8
  | BPF_CGROUP_INET6_BIND => 9 | BPF_CGROUP_INET4_CONNECT => 10 | BPF_CGROUP_INET6_CONNECT => 11
  | BPF_CGROUP_INET4_POST_BIND => 12 | BPF_CGROUP_INET6_POST_BIND => 13
  | BPF_CGROUP_UDP4_SENDMSG => 14 | BPF_CGROUP_UDP6_SENDMSG => 15 | BPF_LIRC_MODE2 => 16
  | BPF_FLOW_DISSECTOR => 17 | BPF_CGROUP_SYSCTL => 18 | BPF_CGROUP_UDP4_RECVMSG => 19
  | BPF_CGROUP_UDP6_RECVMSG => 20 | BPF_CGROUP_GETSOCKOPT => 21 | BPF_CGROUP_SETSOCKOPT => 22
  | BPF_TRACE_RAW_TP => 23 | BPF_TRACE_FENTRY => 24 | BPF_TRACE_FEXIT => 25
  | BPF_MODIFY_RETURN => 26 | BPF_LSM_MAC => 27 | BPF_TRACE_ITER => 28
  | BPF_CGROUP_INET4_GETPEERNAME => 29 | BPF_CGROUP_INET6_GETPEERNAME => 30
  | BPF_CGROUP_INET4_GETSOCKNAME => 31 | BPF_CGROUP_INET6_GETSOCKNAME => 32 | BPF_XDP_DEVMAP => 33
  | BPF_CGROUP_INET_SOCK_RELEASE => 34 | BPF_XDP_CPUMAP => 35 | BPF_SK_LOOKUP => 36 | BPF_XDP => 37
  | __MAX_BPF_ATTACH_TYPE => 38
  end.

Definition bpf_attach_type_all : list bpf_attach_type := [
  BPF_CGROUP_INET_INGRESS; BPF_CGROUP_INET_EGRESS; BPF_CGROUP_INET_SOCK_CREATE;
  BPF_CGROUP_SOCK_OPS; BPF_SK_SKB_STREAM_PARSER; BPF_SK_SKB_STREAM_VERDICT; BPF_CGROUP_DEVICE;
  BPF_SK_MSG_VERDICT; BPF_CGROUP_INET4_BIND; BPF_CGROUP_INET6_BIND; BPF_CGROUP_INET4_CONNECT;
  BPF_CGROUP_INET6_CONNECT; BPF_CGROUP_INET4_POST_BIND; BPF_CGROUP_INET6_POST_BIND;
  BPF_CGROUP_UDP4_SENDMSG; BPF_CGROUP_UDP6_SENDMSG; BPF_LIRC_MODE2; BPF_FLOW_DISSECTOR;
  BPF_CGROUP_SYSCTL; BPF_CGROUP_UDP4_RECVMSG; BPF_CGROUP_UDP6_RECVMSG; BPF_CGROUP_GETSOCKOPT;
  BPF_CGROUP_SETSOCKOPT; BPF_TRACE_RAW_TP; BPF_TRACE_FENTRY; BPF_TRACE_FEXIT; BPF_MODIFY_RETURN;
  BPF_LSM_MAC; BPF_TRACE_ITER; BPF_CGROUP_INET4_GETPEERNAME; BPF_CGROUP_INET6_GETPEERNAME;
  BPF_CGROUP_INET4_GETSOCKNAME; BPF_CGROUP_INET6_GETSOCKNAME; BPF_XDP_DEVMAP;
  BPF_CGROUP_INET_SOCK_RELEASE; BPF_XDP_CPUMAP; BPF_SK_LOOKUP; BPF_XDP; __MAX_BPF_ATTACH_TYPE
].

#[export] Instance bpf_attach_type_enum : CEnum bpf_attach_type.
Proof. c_enum bpf_attach_type_val bpf_attach_type_all. Defined.

Inductive bpf_return_type :=
  | RET_INTEGER | RET_VOID | RET_PTR_TO_MAP_VALUE | RET_PTR_TO_MAP_VALUE_OR_NULL
  | RET_PTR_TO_SOCKET_OR_NULL | RET_PTR_TO_TCP_SOCK_OR_NULL | RET_PTR_TO_SOCK_COMMON_OR_NULL
  | RET_PTR_TO_ALLOC_MEM_OR_NULL | RET_PTR_TO_BTF_ID_OR_NULL | RET_PTR_TO_MEM_OR_BTF_ID_OR_NULL
  | RET_PTR_TO_MEM_OR_BTF_ID.

Definition bpf_return_type_val (x : bpf_return_type) : Z :=
  match x with
  | RET_INTEGER => 0 | RET_VOID => 1 | RET_PTR_TO_MAP_VALUE => 2
  | RET_PTR_TO_MAP_VALUE_OR_NULL => 3 | RET_PTR_TO_SOCKET_OR_NULL => 4
  | RET_PTR_TO_TCP_SOCK_OR_NULL => 5 | RET_PTR_TO_SOCK_COMMON_OR_NULL => 6
  | RET_PTR_TO_ALLOC_MEM_OR_NULL => 7 | RET_PTR_TO_BTF_ID_OR_NULL => 8
  | RET_PTR_TO_MEM_OR_BTF_ID_OR_NULL => 9 | RET_PTR_TO_MEM_OR_BTF_ID => 10
  end.

Definition bpf_return_type_all : list bpf_return_type := [
  RET_INTEGER; RET_VOID; RET_PTR_TO_MAP_VALUE; RET_PTR_TO_MAP_VALUE_OR_NULL;
  RET_PTR_TO_SOCKET_OR_NULL; RET_PTR_TO_TCP_SOCK_OR_NULL; RET_PTR_TO_SOCK_COMMON_OR_NULL;
  RET_PTR_TO_ALLOC_MEM_OR_NULL; RET_PTR_TO_BTF_ID_OR_NULL; RET_PTR_TO_MEM_OR_BTF_ID_OR_NULL;
  RET_PTR_TO_MEM_OR_BTF_ID
].

#[export] Instance bpf_return_type_enum : CEnum bpf_return_type.
Proof. c_enum bpf_return_type_val bpf_return_type_all. Defined.

Inductive bpf_arg_type :=
  | ARG_DONTCARE | ARG_CONST_MAP_PTR | ARG_PTR_TO_MAP_KEY | ARG_PTR_TO_MAP_VALUE
  | ARG_PTR_TO_UNINIT_MAP_VALUE | ARG_PTR_TO_MAP_VALUE_OR_NULL | ARG_PTR_TO_MEM
  | ARG_PTR_TO_MEM_OR_NULL | ARG_PTR_TO_UNINIT_MEM | ARG_CONST_SIZE | ARG_CONST_SIZE_OR_ZERO
  | ARG_PTR_TO_CTX | ARG_PTR_TO_CTX_OR_NULL | ARG_ANYTHING | ARG_PTR_TO_SPIN_LOCK
  | ARG_PTR_TO_SOCK_COMMON | ARG_PTR_TO_INT | ARG_PTR_TO_LONG | ARG_PTR_TO_SOCKET
  | ARG_PTR_TO_SOCKET_OR_NULL | ARG_PTR_TO_BTF_ID | ARG_PTR_TO_ALLOC_MEM
  | ARG_PTR_TO_ALLOC_MEM_OR_NULL | ARG_CONST_ALLOC_SIZE_OR_ZERO | ARG_PTR_TO_BTF_ID_SOCK_COMMON
  | ARG_PTR_TO_PERCPU_BTF_ID | __BPF_ARG_TYPE_MAX.

Definition bpf_arg_type_val (x : bpf_arg_type) : Z :=
  match x with
  | ARG_DONTCARE => 0 | ARG_CONST_MAP_PTR => 1 | ARG_PTR_TO_MAP_KEY => 2
  | ARG_PTR_TO_MAP_VALUE => 3 | ARG_PTR_TO_UNINIT_MAP_VALUE => 4
  | ARG_PTR_TO_MAP_VALUE_OR_NULL => 5 | ARG_PTR_TO_MEM => 6 | ARG_PTR_TO_MEM_OR_NULL => 7
  | ARG_PTR_TO_UNINIT_MEM => 8 | ARG_CONST_SIZE => 9 | ARG_CONST_SIZE_OR_ZERO => 10
  | ARG_PTR_TO_CTX => 11 | ARG_PTR_TO_CTX_OR_NULL => 12 | ARG_ANYTHING => 13
  | ARG_PTR_TO_SPIN_LOCK => 14 | ARG_PTR_TO_SOCK_COMMON => 15 | ARG_PTR_TO_INT => 16
  | ARG_PTR_TO_LONG => 17 | ARG_PTR_TO_SOCKET => 18 | ARG_PTR_TO_SOCKET_OR_NULL => 19
  | ARG_PTR_TO_BTF_ID => 20 | ARG_PTR_TO_ALLOC_MEM => 21 | ARG_PTR_TO_ALLOC_MEM_OR_NULL => 22
  | ARG_CONST_ALLOC_SIZE_OR_ZERO => 23 | ARG_PTR_TO_BTF_ID_SOCK_COMMON => 24
  | ARG_PTR_TO_PERCPU_BTF_ID => 25 | __BPF_ARG_TYPE_MAX => 26
  end.

Definition bpf_arg_type_all : list bpf_arg_type := [
  ARG_DONTCARE; ARG_CONST_MAP_PTR; ARG_PTR_TO_MAP_KEY; ARG_PTR_TO_MAP_VALUE;
  ARG_PTR_TO_UNINIT_MAP_VALUE; ARG_PTR_TO_MAP_VALUE_OR_NULL; ARG_PTR_TO_MEM;
  ARG_PTR_TO_MEM_OR_NULL; ARG_PTR_TO_UNINIT_MEM; ARG_CONST_SIZE; ARG_CONST_SIZE_OR_ZERO;
  ARG_PTR_TO_CTX; ARG_PTR_TO_CTX_OR_NULL; ARG_ANYTHING; ARG_PTR_TO_SPIN_LOCK;
  ARG_PTR_TO_SOCK_COMMON; ARG_PTR_TO_INT; ARG_PTR_TO_LONG; ARG_PTR_TO_SOCKET;
  ARG_PTR_TO_SOCKET_OR_NULL; ARG_PTR_TO_BTF_ID; ARG_PTR_TO_ALLOC_MEM; ARG_PTR_TO_ALLOC_MEM_OR_NULL;
  ARG_CONST_ALLOC_SIZE_OR_ZERO; ARG_PTR_TO_BTF_ID_SOCK_COMMON; ARG_PTR_TO_PERCPU_BTF_ID;
  __BPF_ARG_TYPE_MAX
].

#[export] Instance bpf_arg_type_enum : CEnum bpf_arg_type.
Proof. c_enum bpf_arg_type_val bpf_arg_type_all. Defined.

Inductive bpf_link_type :=
  | BPF_LINK_TYPE_UNSPEC | BPF_LINK_TYPE_RAW_TRACEPOINT | BPF_LINK_TYPE_TRACING
  | BPF_LINK_TYPE_CGROUP | BPF_LINK_TYPE_ITER | BPF_LINK_TYPE_NETNS | BPF_LINK_TYPE_XDP
  | MAX_BPF_LINK_TYPE.

Definition bpf_link_type_val (x : bpf_link_type) : Z :=
  match x with
  | BPF_LINK_TYPE_UNSPEC => 0 | BPF_LINK_TYPE_RAW_TRACEPOINT => 1 | BPF_LINK_TYPE_TRACING => 2
  | BPF_LINK_TYPE_CGROUP => 3 | BPF_LINK_TYPE_ITER => 4 | BPF_LINK_TYPE_NETNS => 5
  | BPF_LINK_TYPE_XDP => 6 | MAX_BPF_LINK_TYPE => 7
  end.

Definition bpf_link_type_all : list bpf_link_type := [
  BPF_LINK_TYPE_UNSPEC; BPF_LINK_TYPE_RAW_TRACEPOINT; BPF_LINK_TYPE_TRACING; BPF_LINK_TYPE_CGROUP;
  BPF_LINK_TYPE_ITER; BPF_LINK_TYPE_NETNS; BPF_LINK_TYPE_XDP; MAX_BPF_LINK_TYPE
].

#[export] Instance bpf_link_type_enum : CEnum bpf_link_type.
Proof. c_enum bpf_link_type_val bpf_link_type_all. Defined.

Inductive bpf_reg_type :=
  | NOT_INIT | SCALAR_VALUE | PTR_TO_CTX | CONST_PTR_TO_MAP | PTR_TO_MAP_VALUE
  | PTR_TO_MAP_VALUE_OR_NULL | PTR_TO_STACK | PTR_TO_PACKET_META | PTR_TO_PACKET
  | PTR_TO_PACKET_END | PTR_TO_FLOW_KEYS | PTR_TO_SOCKET | PTR_TO_SOCKET_OR_NULL
  | PTR_TO_SOCK_COMMON | PTR_TO_SOCK_COMMON_OR_NULL | PTR_TO_TCP_SOCK | PTR_TO_TCP_SOCK_OR_NULL
  | PTR_TO_TP_BUFFER | PTR_TO_XDP_SOCK | PTR_TO_BTF_ID | PTR_TO_BTF_ID_OR_NULL | PTR_TO_MEM
  | PTR_TO_MEM_OR_NULL | PTR_TO_RDONLY_BUF | PTR_TO_RDONLY_BUF_OR_NULL | PTR_TO_RDWR_BUF
  | PTR_TO_RDWR_BUF_OR_NULL | PTR_TO_PERCPU_BTF_ID.

Definition bpf_reg_type_val (x : bpf_reg_type) : Z :=
  match x with
  | NOT_INIT => 0 | SCALAR_VALUE => 1 | PTR_TO_CTX => 2 | CONST_PTR_TO_MAP => 3
  | PTR_TO_MAP_VALUE => 4 | PTR_TO_MAP_VALUE_OR_NULL => 5 | PTR_TO_STACK => 6
  | PTR_TO_PACKET_META => 7 | PTR_TO_PACKET => 8 | PTR_TO_PACKET_END => 9 | PTR_TO_FLOW_KEYS => 10
  | PTR_TO_SOCKET => 11 | PTR_TO_SOCKET_OR_NULL => 12 | PTR_TO_SOCK_COMMON => 13
  | PTR_TO_SOCK_COMMON_OR_NULL => 14 | PTR_TO_TCP_SOCK => 15 | PTR_TO_TCP_SOCK_OR_NULL => 16
  | PTR_TO_TP_BUFFER => 17 | PTR_TO_XDP_SOCK => 18 | PTR_TO_BTF_ID => 19
  | PTR_TO_BTF_ID_OR_NULL => 20 | PTR_TO_MEM => 21 | PTR_TO_MEM_OR_NULL => 22
  | PTR_TO_RDONLY_BUF => 23 | PTR_TO_RDONLY_BUF_OR_NULL => 24 | PTR_TO_RDWR_BUF => 25
  | PTR_TO_RDWR_BUF_OR_NULL => 26 | PTR_TO_PERCPU_BTF_ID => 27
  end.

Definition bpf_reg_type_all : list bpf_reg_type := [
  NOT_INIT; SCALAR_VALUE; PTR_TO_CTX; CONST_PTR_TO_MAP; PTR_TO_MAP_VALUE; PTR_TO_MAP_VALUE_OR_NULL;
  PTR_TO_STACK; PTR_TO_PACKET_META; PTR_TO_PACKET; PTR_TO_PACKET_END; PTR_TO_FLOW_KEYS;
  PTR_TO_SOCKET; PTR_TO_SOCKET_OR_NULL; PTR_TO_SOCK_COMMON; PTR_TO_SOCK_COMMON_OR_NULL;
  PTR_TO_TCP_SOCK; PTR_TO_TCP_SOCK_OR_NULL; PTR_TO_TP_BUFFER; PTR_TO_XDP_SOCK; PTR_TO_BTF_ID;
  PTR_TO_BTF_ID_OR_NULL; PTR_TO_MEM; PTR_TO_MEM_OR_NULL; PTR_TO_RDONLY_BUF;
  PTR_TO_RDONLY_BUF_OR_NULL; PTR_TO_RDWR_BUF; PTR_TO_RDWR_BUF_OR_NULL; PTR_TO_PERCPU_BTF_ID
].

#[export] Instance bpf_reg_type_enum : CEnum bpf_reg_type.
Proof. c_enum bpf_reg_type_val bpf_reg_type_all. Defined.

Inductive bpf_reg_liveness :=
  | REG_LIVE_NONE | REG_LIVE_READ32 | REG_LIVE_READ64 | REG_LIVE_READ | REG_LIVE_WRITTEN
  | REG_LIVE_DONE.

Definition bpf_reg_liveness_val (x : bpf_reg_liveness) : Z :=
  match x with
  | REG_LIVE_NONE => 0 | REG_LIVE_READ32 => 1 | REG_LIVE_READ64 => 2 | REG_LIVE_READ => 3
  | REG_LIVE_WRITTEN => 4 | REG_LIVE_DONE => 8
  end.

Definition bpf_reg_liveness_all : list bpf_reg_liveness := [
  REG_LIVE_NONE; REG_LIVE_READ32; REG_LIVE_READ64; REG_LIVE_READ; REG_LIVE_WRITTEN; REG_LIVE_DONE
].

#[export] Instance bpf_reg_liveness_enum : CEnum bpf_reg_liveness.
Proof. c_enum bpf_reg_liveness_val bpf_reg_liveness_all. Defined.

Inductive timespec_type :=
  | TT_NONE | TT_NATIVE | TT_COMPAT.

Definition timespec_type_val (x : timespec_type) : Z :=
  match x with
  | TT_NONE => 0 | TT_NATIVE => 1 | TT_COMPAT => 2
  end.

Definition timespec_type_all : list timespec_type := [
  TT_NONE; TT_NATIVE; TT_COMPAT
].

#[export] Instance timespec_type_enum : CEnum timespec_type.
Proof. c_enum timespec_type_val timespec_type_all. Defined.

Inductive rw_hint :=
  | WRITE_LIFE_NOT_SET | WRITE_LIFE_NONE | WRITE_LIFE_SHORT | WRITE_LIFE_MEDIUM | WRITE_LIFE_LONG
  | WRITE_LIFE_EXTREME.

Definition rw_hint_val (x : rw_hint) : Z :=
  match x with
  | WRITE_LIFE_NOT_SET => 0 | WRITE_LIFE_NONE => 1 | WRITE_LIFE_SHORT => 2 | WRITE_LIFE_MEDIUM => 3
  | WRITE_LIFE_LONG => 4 | WRITE_LIFE_EXTREME => 5
  end.

Definition rw_hint_all : list rw_hint := [
  WRITE_LIFE_NOT_SET; WRITE_LIFE_NONE; WRITE_LIFE_SHORT; WRITE_LIFE_MEDIUM; WRITE_LIFE_LONG;
  WRITE_LIFE_EXTREME
].

#[export] Instance rw_hint_enum : CEnum rw_hint.
Proof. c_enum rw_hint_val rw_hint_all. Defined.

Inductive pid_type :=
  | PIDTYPE_PID | PIDTYPE_TGID | PIDTYPE_PGID | PIDTYPE_SID | PIDTYPE_MAX.

Definition pid_type_val (x : pid_type) : Z :=
  match x with
  | PIDTYPE_PID => 0 | PIDTYPE_TGID => 1 | PIDTYPE_PGID => 2 | PIDTYPE_SID => 3 | PIDTYPE_MAX => 4
  end.

Definition pid_type_all : list pid_type := [
  PIDTYPE_PID; PIDTYPE_TGID; PIDTYPE_PGID; PIDTYPE_SID; PIDTYPE_MAX
].

#[export] Instance pid_type_enum : CEnum pid_type.
Proof. c_enum pid_type_val pid_type_all. Defined.

Inductive bpf_func_id :=
  | BPF_FUNC_unspec | BPF_FUNC_map_lookup_elem | BPF_FUNC_map_update_elem
  | BPF_FUNC_map_delete_elem | BPF_FUNC_probe_read | BPF_FUNC_ktime_get_ns | BPF_FUNC_trace_printk
  | BPF_FUNC_get_prandom_u32 | BPF_FUNC_get_smp_processor_id | BPF_FUNC_skb_store_bytes
  | BPF_FUNC_l3_csum_replace | BPF_FUNC_l4_csum_replace | BPF_FUNC_tail_call
  | BPF_FUNC_clone_redirect | BPF_FUNC_get_current_pid_tgid | BPF_FUNC_get_current_uid_gid
  | BPF_FUNC_get_current_comm | BPF_FUNC_get_cgroup_classid | BPF_FUNC_skb_vlan_push
  | BPF_FUNC_skb_vlan_pop | BPF_FUNC_skb_get_tunnel_key | BPF_FUNC_skb_set_tunnel_key
  | BPF_FUNC_perf_event_read | BPF_FUNC_redirect | BPF_FUNC_get_route_realm
  | BPF_FUNC_perf_event_output | BPF_FUNC_skb_load_bytes | BPF_FUNC_get_stackid
  | BPF_FUNC_csum_diff | BPF_FUNC_skb_get_tunnel_opt | BPF_FUNC_skb_set_tunnel_opt
  | BPF_FUNC_skb_change_proto | BPF_FUNC_skb_change_type | BPF_FUNC_skb_under_cgroup
  | BPF_FUNC_get_hash_recalc | BPF_FUNC_get_current_task | BPF_FUNC_probe_write_user
  | BPF_FUNC_current_task_under_cgroup | BPF_FUNC_skb_change_tail | BPF_FUNC_skb_pull_data
  | BPF_FUNC_csum_update | BPF_FUNC_set_hash_invalid | BPF_FUNC_get_numa_node_id
  | BPF_FUNC_skb_change_head | BPF_FUNC_xdp_adjust_head | BPF_FUNC_probe_read_str
  | BPF_FUNC_get_socket_cookie | BPF_FUNC_get_socket_uid | BPF_FUNC_set_hash | BPF_FUNC_setsockopt
  | BPF_FUNC_skb_adjust_room | BPF_FUNC_redirect_map | BPF_FUNC_sk_redirect_map
  | BPF_FUNC_sock_map_update | BPF_FUNC_xdp_adjust_meta | BPF_FUNC_perf_event_read_value
  | BPF_FUNC_perf_prog_read_value | BPF_FUNC_getsockopt | BPF_FUNC_override_return
  | BPF_FUNC_sock_ops_cb_flags_set | BPF_FUNC_msg_redirect_map | BPF_FUNC_msg_apply_bytes
  | BPF_FUNC_msg_cork_bytes | BPF_FUNC_msg_pull_data | BPF_FUNC_bind | BPF_FUNC_xdp_adjust_tail
  | BPF_FUNC_skb_get_xfrm_state | BPF_FUNC_get_stack | BPF_FUNC_skb_load_bytes_relative
  | BPF_FUNC_fib_lookup | BPF_FUNC_sock_hash_update | BPF_FUNC_msg_redirect_hash
  | BPF_FUNC_sk_redirect_hash | BPF_FUNC_lwt_push_encap | BPF_FUNC_lwt_seg6_store_bytes
  | BPF_FUNC_lwt_seg6_adjust_srh | BPF_FUNC_lwt_seg6_action | BPF_FUNC_rc_repeat
  | BPF_FUNC_rc_keydown | BPF_FUNC_skb_cgroup_id | BPF_FUNC_get_current_cgroup_id
  | BPF_FUNC_get_local_storage | BPF_FUNC_sk_select_reuseport | BPF_FUNC_skb_ancestor_cgroup_id
  | BPF_FUNC_sk_lookup_tcp | BPF_FUNC_sk_lookup_udp | BPF_FUNC_sk_release | BPF_FUNC_map_push_elem
  | BPF_FUNC_map_pop_elem | BPF_FUNC_map_peek_elem | BPF_FUNC_msg_push_data | BPF_FUNC_msg_pop_data
  | BPF_FUNC_rc_pointer_rel | BPF_FUNC_spin_lock | BPF_FUNC_spin_unlock | BPF_FUNC_sk_fullsock
  | BPF_FUNC_tcp_sock | BPF_FUNC_skb_ecn_set_ce | BPF_FUNC_get_listener_sock
  | BPF_FUNC_skc_lookup_tcp | BPF_FUNC_tcp_check_syncookie | BPF_FUNC_sysctl_get_name
  | BPF_FUNC_sysctl_get_current_value | BPF_FUNC_sysctl_get_new_value
  | BPF_FUNC_sysctl_set_new_value | BPF_FUNC_strtol | BPF_FUNC_strtoul | BPF_FUNC_sk_storage_get
  | BPF_FUNC_sk_storage_delete | BPF_FUNC_send_signal | BPF_FUNC_tcp_gen_syncookie
  | BPF_FUNC_skb_output | BPF_FUNC_probe_read_user | BPF_FUNC_probe_read_kernel
  | BPF_FUNC_probe_read_user_str | BPF_FUNC_probe_read_kernel_str | BPF_FUNC_tcp_send_ack
  | BPF_FUNC_send_signal_thread | BPF_FUNC_jiffies64 | BPF_FUNC_read_branch_records
  | BPF_FUNC_get_ns_current_pid_tgid | BPF_FUNC_xdp_output | BPF_FUNC_get_netns_cookie
  | BPF_FUNC_get_current_ancestor_cgroup_id | BPF_FUNC_sk_assign | BPF_FUNC_ktime_get_boot_ns
  | BPF_FUNC_seq_printf | BPF_FUNC_seq_write | BPF_FUNC_sk_cgroup_id
  | BPF_FUNC_sk_ancestor_cgroup_id | BPF_FUNC_ringbuf_output | BPF_FUNC_ringbuf_reserve
  | BPF_FUNC_ringbuf_submit | BPF_FUNC_ringbuf_discard | BPF_FUNC_ringbuf_query
  | BPF_FUNC_csum_level | BPF_FUNC_skc_to_tcp6_sock | BPF_FUNC_skc_to_tcp_sock
  | BPF_FUNC_skc_to_tcp_timewait_sock | BPF_FUNC_skc_to_tcp_request_sock
  | BPF_FUNC_skc_to_udp6_sock | BPF_FUNC_get_task_stack | BPF_FUNC_load_hdr_opt
  | BPF_FUNC_store_hdr_opt | BPF_FUNC_reserve_hdr_opt | BPF_FUNC_inode_storage_get
  | BPF_FUNC_inode_storage_delete | BPF_FUNC_d_path | BPF_FUNC_copy_from_user
  | BPF_FUNC_snprintf_btf | BPF_FUNC_seq_printf_btf | BPF_FUNC_skb_cgroup_classid
  | BPF_FUNC_redirect_neigh | BPF_FUNC_per_cpu_ptr | BPF_FUNC_this_cpu_ptr | BPF_FUNC_redirect_peer
  | __BPF_FUNC_MAX_ID.

Definition bpf_func_id_val (x : bpf_func_id) : Z :=
  match x with
  | BPF_FUNC_unspec => 0 | BPF_FUNC_map_lookup_elem => 1 | BPF_FUNC_map_update_elem => 2
  | BPF_FUNC_map_delete_elem => 3 | BPF_FUNC_probe_read => 4 | BPF_FUNC_ktime_get_ns => 5
  | BPF_FUNC_trace_printk => 6 | BPF_FUNC_get_prandom_u32 => 7 | BPF_FUNC_get_smp_processor_id => 8
  | BPF_FUNC_skb_store_bytes => 9 | BPF_FUNC_l3_csum_replace => 10 | BPF_FUNC_l4_csum_replace => 11
  | BPF_FUNC_tail_call => 12 | BPF_FUNC_clone_redirect => 13 | BPF_FUNC_get_current_pid_tgid => 14
  | BPF_FUNC_get_current_uid_gid => 15 | BPF_FUNC_get_current_comm => 16
  | BPF_FUNC_get_cgroup_classid => 17 | BPF_FUNC_skb_vlan_push => 18 | BPF_FUNC_skb_vlan_pop => 19
  | BPF_FUNC_skb_get_tunnel_key => 20 | BPF_FUNC_skb_set_tunnel_key => 21
  | BPF_FUNC_perf_event_read => 22 | BPF_FUNC_redirect => 23 | BPF_FUNC_get_route_realm => 24
  | BPF_FUNC_perf_event_output => 25 | BPF_FUNC_skb_load_bytes => 26 | BPF_FUNC_get_stackid => 27
  | BPF_FUNC_csum_diff => 28 | BPF_FUNC_skb_get_tunnel_opt => 29
  | BPF_FUNC_skb_set_tunnel_opt => 30 | BPF_FUNC_skb_change_proto => 31
  | BPF_FUNC_skb_change_type => 32 | BPF_FUNC_skb_under_cgroup => 33
  | BPF_FUNC_get_hash_recalc => 34 | BPF_FUNC_get_current_task => 35
  | BPF_FUNC_probe_write_user => 36 | BPF_FUNC_current_task_under_cgroup => 37
  | BPF_FUNC_skb_change_tail => 38 | BPF_FUNC_skb_pull_data => 39 | BPF_FUNC_csum_update => 40
  | BPF_FUNC_set_hash_invalid => 41 | BPF_FUNC_get_numa_node_id => 42
  | BPF_FUNC_skb_change_head => 43 | BPF_FUNC_xdp_adjust_head => 44 | BPF_FUNC_probe_read_str => 45
  | BPF_FUNC_get_socket_cookie => 46 | BPF_FUNC_get_socket_uid => 47 | BPF_FUNC_set_hash => 48
  | BPF_FUNC_setsockopt => 49 | BPF_FUNC_skb_adjust_room => 50 | BPF_FUNC_redirect_map => 51
  | BPF_FUNC_sk_redirect_map => 52 | BPF_FUNC_sock_map_update => 53
  | BPF_FUNC_xdp_adjust_meta => 54 | BPF_FUNC_perf_event_read_value => 55
  | BPF_FUNC_perf_prog_read_value => 56 | BPF_FUNC_getsockopt => 57
  | BPF_FUNC_override_return => 58 | BPF_FUNC_sock_ops_cb_flags_set => 59
  | BPF_FUNC_msg_redirect_map => 60 | BPF_FUNC_msg_apply_bytes => 61
  | BPF_FUNC_msg_cork_bytes => 62 | BPF_FUNC_msg_pull_data => 63 | BPF_FUNC_bind => 64
  | BPF_FUNC_xdp_adjust_tail => 65 | BPF_FUNC_skb_get_xfrm_state => 66 | BPF_FUNC_get_stack => 67
  | BPF_FUNC_skb_load_bytes_relative => 68 | BPF_FUNC_fib_lookup => 69
  | BPF_FUNC_sock_hash_update => 70 | BPF_FUNC_msg_redirect_hash => 71
  | BPF_FUNC_sk_redirect_hash => 72 | BPF_FUNC_lwt_push_encap => 73
  | BPF_FUNC_lwt_seg6_store_bytes => 74 | BPF_FUNC_lwt_seg6_adjust_srh => 75
  | BPF_FUNC_lwt_seg6_action => 76 | BPF_FUNC_rc_repeat => 77 | BPF_FUNC_rc_keydown => 78
  | BPF_FUNC_skb_cgroup_id => 79 | BPF_FUNC_get_current_cgroup_id => 80
  | BPF_FUNC_get_local_storage => 81 | BPF_FUNC_sk_select_reuseport => 82
  | BPF_FUNC_skb_ancestor_cgroup_id => 83 | BPF_FUNC_sk_lookup_tcp => 84
  | BPF_FUNC_sk_lookup_udp => 85 | BPF_FUNC_sk_release => 86 | BPF_FUNC_map_push_elem => 87
  | BPF_FUNC_map_pop_elem => 88 | BPF_FUNC_map_peek_elem => 89 | BPF_FUNC_msg_push_data => 90
  | BPF_FUNC_msg_pop_data => 91 | BPF_FUNC_rc_pointer_rel => 92 | BPF_FUNC_spin_lock => 93
  | BPF_FUNC_spin_unlock => 94 | BPF_FUNC_sk_fullsock => 95 | BPF_FUNC_tcp_sock => 96
  | BPF_FUNC_skb_ecn_set_ce => 97 | BPF_FUNC_get_listener_sock => 98
  | BPF_FUNC_skc_lookup_tcp => 99 | BPF_FUNC_tcp_check_syncookie => 100
  | BPF_FUNC_sysctl_get_name => 101 | BPF_FUNC_sysctl_get_current_value => 102
  | BPF_FUNC_sysctl_get_new_value => 103 | BPF_FUNC_sysctl_set_new_value => 104
  | BPF_FUNC_strtol => 105 | BPF_FUNC_strtoul => 106 | BPF_FUNC_sk_storage_get => 107
  | BPF_FUNC_sk_storage_delete => 108 | BPF_FUNC_send_signal => 109
  | BPF_FUNC_tcp_gen_syncookie => 110 | BPF_FUNC_skb_output => 111
  | BPF_FUNC_probe_read_user => 112 | BPF_FUNC_probe_read_kernel => 113
  | BPF_FUNC_probe_read_user_str => 114 | BPF_FUNC_probe_read_kernel_str => 115
  | BPF_FUNC_tcp_send_ack => 116 | BPF_FUNC_send_signal_thread => 117 | BPF_FUNC_jiffies64 => 118
  | BPF_FUNC_read_branch_records => 119 | BPF_FUNC_get_ns_current_pid_tgid => 120
  | BPF_FUNC_xdp_output => 121 | BPF_FUNC_get_netns_cookie => 122
  | BPF_FUNC_get_current_ancestor_cgroup_id => 123 | BPF_FUNC_sk_assign => 124
  | BPF_FUNC_ktime_get_boot_ns => 125 | BPF_FUNC_seq_printf => 126 | BPF_FUNC_seq_write => 127
  | BPF_FUNC_sk_cgroup_id => 128 | BPF_FUNC_sk_ancestor_cgroup_id => 129
  | BPF_FUNC_ringbuf_output => 130 | BPF_FUNC_ringbuf_reserve => 131
  | BPF_FUNC_ringbuf_submit => 132 | BPF_FUNC_ringbuf_discard => 133
  | BPF_FUNC_ringbuf_query => 134 | BPF_FUNC_csum_level => 135 | BPF_FUNC_skc_to_tcp6_sock => 136
  | BPF_FUNC_skc_to_tcp_sock => 137 | BPF_FUNC_skc_to_tcp_timewait_sock => 138
  | BPF_FUNC_skc_to_tcp_request_sock => 139 | BPF_FUNC_skc_to_udp6_sock => 140
  | BPF_FUNC_get_task_stack => 141 | BPF_FUNC_load_hdr_opt => 142 | BPF_FUNC_store_hdr_opt => 143
  | BPF_FUNC_reserve_hdr_opt => 144 | BPF_FUNC_inode_storage_get => 145
  | BPF_FUNC_inode_storage_delete => 146 | BPF_FUNC_d_path => 147 | BPF_FUNC_copy_from_user => 148
  | BPF_FUNC_snprintf_btf => 149 | BPF_FUNC_seq_printf_btf => 150
  | BPF_FUNC_skb_cgroup_classid => 151 | BPF_FUNC_redirect_neigh => 152
  | BPF_FUNC_per_cpu_ptr => 153 | BPF_FUNC_this_cpu_ptr => 154 | BPF_FUNC_redirect_peer => 155
  | __BPF_FUNC_MAX_ID => 156
  end.

Definition bpf_func_id_all : list bpf_func_id := [
  BPF_FUNC_unspec; BPF_FUNC_map_lookup_elem; BPF_FUNC_map_update_elem; BPF_FUNC_map_delete_elem;
  BPF_FUNC_probe_read; BPF_FUNC_ktime_get_ns; BPF_FUNC_trace_printk; BPF_FUNC_get_prandom_u32;
  BPF_FUNC_get_smp_processor_id; BPF_FUNC_skb_store_bytes; BPF_FUNC_l3_csum_replace;
  BPF_FUNC_l4_csum_replace; BPF_FUNC_tail_call; BPF_FUNC_clone_redirect;
  BPF_FUNC_get_current_pid_tgid; BPF_FUNC_get_current_uid_gid; BPF_FUNC_get_current_comm;
  BPF_FUNC_get_cgroup_classid; BPF_FUNC_skb_vlan_push; BPF_FUNC_skb_vlan_pop;
  BPF_FUNC_skb_get_tunnel_key; BPF_FUNC_skb_set_tunnel_key; BPF_FUNC_perf_event_read;
  BPF_FUNC_redirect; BPF_FUNC_get_route_realm; BPF_FUNC_perf_event_output; BPF_FUNC_skb_load_bytes;
  BPF_FUNC_get_stackid; BPF_FUNC_csum_diff; BPF_FUNC_skb_get_tunnel_opt;
  BPF_FUNC_skb_set_tunnel_opt; BPF_FUNC_skb_change_proto; BPF_FUNC_skb_change_type;
  BPF_FUNC_skb_under_cgroup; BPF_FUNC_get_hash_recalc; BPF_FUNC_get_current_task;
  BPF_FUNC_probe_write_user; BPF_FUNC_current_task_under_cgroup; BPF_FUNC_skb_change_tail;
  BPF_FUNC_skb_pull_data; BPF_FUNC_csum_update; BPF_FUNC_set_hash_invalid;
  BPF_FUNC_get_numa_node_id; BPF_FUNC_skb_change_head; BPF_FUNC_xdp_adjust_head;
  BPF_FUNC_probe_read_str; BPF_FUNC_get_socket_cookie; BPF_FUNC_get_socket_uid; BPF_FUNC_set_hash;
  BPF_FUNC_setsockopt; BPF_FUNC_skb_adjust_room; BPF_FUNC_redirect_map; BPF_FUNC_sk_redirect_map;
  BPF_FUNC_sock_map_update; BPF_FUNC_xdp_adjust_meta; BPF_FUNC_perf_event_read_value;
  BPF_FUNC_perf_prog_read_value; BPF_FUNC_getsockopt; BPF_FUNC_override_return;
  BPF_FUNC_sock_ops_cb_flags_set; BPF_FUNC_msg_redirect_map; BPF_FUNC_msg_apply_bytes;
  BPF_FUNC_msg_cork_bytes; BPF_FUNC_msg_pull_data; BPF_FUNC_bind; BPF_FUNC_xdp_adjust_tail;
  BPF_FUNC_skb_get_xfrm_state; BPF_FUNC_get_stack; BPF_FUNC_skb_load_bytes_relative;
  BPF_FUNC_fib_lookup; BPF_FUNC_sock_hash_update; BPF_FUNC_msg_redirect_hash;
  BPF_FUNC_sk_redirect_hash; BPF_FUNC_lwt_push_encap; BPF_FUNC_lwt_seg6_store_bytes;
  BPF_FUNC_lwt_seg6_adjust_srh; BPF_FUNC_lwt_seg6_action; BPF_FUNC_rc_repeat; BPF_FUNC_rc_keydown;
  BPF_FUNC_skb_cgroup_id; BPF_FUNC_get_current_cgroup_id; BPF_FUNC_get_local_storage;
  BPF_FUNC_sk_select_reuseport; BPF_FUNC_skb_ancestor_cgroup_id; BPF_FUNC_sk_lookup_tcp;
  BPF_FUNC_sk_lookup_udp; BPF_FUNC_sk_release; BPF_FUNC_map_push_elem; BPF_FUNC_map_pop_elem;
  BPF_FUNC_map_peek_elem; BPF_FUNC_msg_push_data; BPF_FUNC_msg_pop_data; BPF_FUNC_rc_pointer_rel;
  BPF_FUNC_spin_lock; BPF_FUNC_spin_unlock; BPF_FUNC_sk_fullsock; BPF_FUNC_tcp_sock;
  BPF_FUNC_skb_ecn_set_ce; BPF_FUNC_get_listener_sock; BPF_FUNC_skc_lookup_tcp;
  BPF_FUNC_tcp_check_syncookie; BPF_FUNC_sysctl_get_name; BPF_FUNC_sysctl_get_current_value;
  BPF_FUNC_sysctl_get_new_value; BPF_FUNC_sysctl_set_new_value; BPF_FUNC_strtol; BPF_FUNC_strtoul;
  BPF_FUNC_sk_storage_get; BPF_FUNC_sk_storage_delete; BPF_FUNC_send_signal;
  BPF_FUNC_tcp_gen_syncookie; BPF_FUNC_skb_output; BPF_FUNC_probe_read_user;
  BPF_FUNC_probe_read_kernel; BPF_FUNC_probe_read_user_str; BPF_FUNC_probe_read_kernel_str;
  BPF_FUNC_tcp_send_ack; BPF_FUNC_send_signal_thread; BPF_FUNC_jiffies64;
  BPF_FUNC_read_branch_records; BPF_FUNC_get_ns_current_pid_tgid; BPF_FUNC_xdp_output;
  BPF_FUNC_get_netns_cookie; BPF_FUNC_get_current_ancestor_cgroup_id; BPF_FUNC_sk_assign;
  BPF_FUNC_ktime_get_boot_ns; BPF_FUNC_seq_printf; BPF_FUNC_seq_write; BPF_FUNC_sk_cgroup_id;
  BPF_FUNC_sk_ancestor_cgroup_id; BPF_FUNC_ringbuf_output; BPF_FUNC_ringbuf_reserve;
  BPF_FUNC_ringbuf_submit; BPF_FUNC_ringbuf_discard; BPF_FUNC_ringbuf_query; BPF_FUNC_csum_level;
  BPF_FUNC_skc_to_tcp6_sock; BPF_FUNC_skc_to_tcp_sock; BPF_FUNC_skc_to_tcp_timewait_sock;
  BPF_FUNC_skc_to_tcp_request_sock; BPF_FUNC_skc_to_udp6_sock; BPF_FUNC_get_task_stack;
  BPF_FUNC_load_hdr_opt; BPF_FUNC_store_hdr_opt; BPF_FUNC_reserve_hdr_opt;
  BPF_FUNC_inode_storage_get; BPF_FUNC_inode_storage_delete; BPF_FUNC_d_path;
  BPF_FUNC_copy_from_user; BPF_FUNC_snprintf_btf; BPF_FUNC_seq_printf_btf;
  BPF_FUNC_skb_cgroup_classid; BPF_FUNC_redirect_neigh; BPF_FUNC_per_cpu_ptr;
  BPF_FUNC_this_cpu_ptr; BPF_FUNC_redirect_peer; __BPF_FUNC_MAX_ID
].

#[export] Instance bpf_func_id_enum : CEnum bpf_func_id.
Proof. c_enum bpf_func_id_val bpf_func_id_all. Defined.

Inductive bpf_cmd :=
  | BPF_MAP_CREATE | BPF_MAP_LOOKUP_ELEM | BPF_MAP_UPDATE_ELEM | BPF_MAP_DELETE_ELEM
  | BPF_MAP_GET_NEXT_KEY | BPF_PROG_LOAD | BPF_OBJ_PIN | BPF_OBJ_GET | BPF_PROG_ATTACH
  | BPF_PROG_DETACH | BPF_PROG_TEST_RUN | BPF_PROG_GET_NEXT_ID | BPF_MAP_GET_NEXT_ID
  | BPF_PROG_GET_FD_BY_ID | BPF_MAP_GET_FD_BY_ID | BPF_OBJ_GET_INFO_BY_FD | BPF_PROG_QUERY
  | BPF_RAW_TRACEPOINT_OPEN | BPF_BTF_LOAD | BPF_BTF_GET_FD_BY_ID | BPF_TASK_FD_QUERY
  | BPF_MAP_LOOKUP_AND_DELETE_ELEM | BPF_MAP_FREEZE | BPF_BTF_GET_NEXT_ID | BPF_MAP_LOOKUP_BATCH
  | BPF_MAP_LOOKUP_AND_DELETE_BATCH | BPF_MAP_UPDATE_BATCH | BPF_MAP_DELETE_BATCH | BPF_LINK_CREATE
  | BPF_LINK_UPDATE | BPF_LINK_GET_FD_BY_ID | BPF_LINK_GET_NEXT_ID | BPF_ENABLE_STATS
  | BPF_ITER_CREATE | BPF_LINK_DETACH | BPF_PROG_BIND_MAP.

Definition bpf_cmd_val (x : bpf_cmd) : Z :=
  match x with
  | BPF_MAP_CREATE => 0 | BPF_MAP_LOOKUP_ELEM => 1 | BPF_MAP_UPDATE_ELEM => 2
  | BPF_MAP_DELETE_ELEM => 3 | BPF_MAP_GET_NEXT_KEY => 4 | BPF_PROG_LOAD => 5 | BPF_OBJ_PIN => 6
  | BPF_OBJ_GET => 7 | BPF_PROG_ATTACH => 8 | BPF_PROG_DETACH => 9 | BPF_PROG_TEST_RUN => 10
  | BPF_PROG_GET_NEXT_ID => 11 | BPF_MAP_GET_NEXT_ID => 12 | BPF_PROG_GET_FD_BY_ID => 13
  | BPF_MAP_GET_FD_BY_ID => 14 | BPF_OBJ_GET_INFO_BY_FD => 15 | BPF_PROG_QUERY => 16
  | BPF_RAW_TRACEPOINT_OPEN => 17 | BPF_BTF_LOAD => 18 | BPF_BTF_GET_FD_BY_ID => 19
  | BPF_TASK_FD_QUERY => 20 | BPF_MAP_LOOKUP_AND_DELETE_ELEM => 21 | BPF_MAP_FREEZE => 22
  | BPF_BTF_GET_NEXT_ID => 23 | BPF_MAP_LOOKUP_BATCH => 24 | BPF_MAP_LOOKUP_AND_DELETE_BATCH => 25
  | BPF_MAP_UPDATE_BATCH => 26 | BPF_MAP_DELETE_BATCH => 27 | BPF_LINK_CREATE => 28
  | BPF_LINK_UPDATE => 29 | BPF_LINK_GET_FD_BY_ID => 30 | BPF_LINK_GET_NEXT_ID => 31
  | BPF_ENABLE_STATS => 32 | BPF_ITER_CREATE => 33 | BPF_LINK_DETACH => 34
  | BPF_PROG_BIND_MAP => 35
  end.

Definition bpf_cmd_all : list bpf_cmd := [
  BPF_MAP_CREATE; BPF_MAP_LOOKUP_ELEM; BPF_MAP_UPDATE_ELEM; BPF_MAP_DELETE_ELEM;
  BPF_MAP_GET_NEXT_KEY; BPF_PROG_LOAD; BPF_OBJ_PIN; BPF_OBJ_GET; BPF_PROG_ATTACH; BPF_PROG_DETACH;
  BPF_PROG_TEST_RUN; BPF_PROG_GET_NEXT_ID; BPF_MAP_GET_NEXT_ID; BPF_PROG_GET_FD_BY_ID;
  BPF_MAP_GET_FD_BY_ID; BPF_OBJ_GET_INFO_BY_FD; BPF_PROG_QUERY; BPF_RAW_TRACEPOINT_OPEN;
  BPF_BTF_LOAD; BPF_BTF_GET_FD_BY_ID; BPF_TASK_FD_QUERY; BPF_MAP_LOOKUP_AND_DELETE_ELEM;
  BPF_MAP_FREEZE; BPF_BTF_GET_NEXT_ID; BPF_MAP_LOOKUP_BATCH; BPF_MAP_LOOKUP_AND_DELETE_BATCH;
  BPF_MAP_UPDATE_BATCH; BPF_MAP_DELETE_BATCH; BPF_LINK_CREATE; BPF_LINK_UPDATE;
  BPF_LINK_GET_FD_BY_ID; BPF_LINK_GET_NEXT_ID; BPF_ENABLE_STATS; BPF_ITER_CREATE; BPF_LINK_DETACH;
  BPF_PROG_BIND_MAP
].

#[export] Instance bpf_cmd_enum : CEnum bpf_cmd.
Proof. c_enum bpf_cmd_val bpf_cmd_all. Defined.

Inductive perf_type_id :=
  | PERF_TYPE_HARDWARE | PERF_TYPE_SOFTWARE | PERF_TYPE_TRACEPOINT | PERF_TYPE_HW_CACHE
  | PERF_TYPE_RAW | PERF_TYPE_BREAKPOINT | PERF_TYPE_MAX.

Definition perf_type_id_val (x : perf_type_id) : Z :=
  match x with
  | PERF_TYPE_HARDWARE => 0 | PERF_TYPE_SOFTWARE => 1 | PERF_TYPE_TRACEPOINT => 2
  | PERF_TYPE_HW_CACHE => 3 | PERF_TYPE_RAW => 4 | PERF_TYPE_BREAKPOINT => 5 | PERF_TYPE_MAX => 6
  end.

Definition perf_type_id_all : list perf_type_id := [
  PERF_TYPE_HARDWARE; PERF_TYPE_SOFTWARE; PERF_TYPE_TRACEPOINT; PERF_TYPE_HW_CACHE; PERF_TYPE_RAW;
  PERF_TYPE_BREAKPOINT; PERF_TYPE_MAX
].

#[export] Instance perf_type_id_enum : CEnum perf_type_id.
Proof. c_enum perf_type_id_val perf_type_id_all. Defined.

Inductive perf_sw_ids :=
  | PERF_COUNT_SW_CPU_CLOCK | PERF_COUNT_SW_TASK_CLOCK | PERF_COUNT_SW_PAGE_FAULTS
  | PERF_COUNT_SW_CONTEXT_SWITCHES | PERF_COUNT_SW_CPU_MIGRATIONS | PERF_COUNT_SW_PAGE_FAULTS_MIN
  | PERF_COUNT_SW_PAGE_FAULTS_MAJ | PERF_COUNT_SW_ALIGNMENT_FAULTS | PERF_COUNT_SW_EMULATION_FAULTS
  | PERF_COUNT_SW_DUMMY | PERF_COUNT_SW_BPF_OUTPUT | PERF_COUNT_SW_MAX.

Definition perf_sw_ids_val (x : perf_sw_ids) : Z :=
  match x with
  | PERF_COUNT_SW_CPU_CLOCK => 0 | PERF_COUNT_SW_TASK_CLOCK => 1 | PERF_COUNT_SW_PAGE_FAULTS => 2
  | PERF_COUNT_SW_CONTEXT_SWITCHES => 3 | PERF_COUNT_SW_CPU_MIGRATIONS => 4
  | PERF_COUNT_SW_PAGE_FAULTS_MIN => 5 | PERF_COUNT_SW_PAGE_FAULTS_MAJ => 6
  | PERF_COUNT_SW_ALIGNMENT_FAULTS => 7 | PERF_COUNT_SW_EMULATION_FAULTS => 8
  | PERF_COUNT_SW_DUMMY => 9 | PERF_COUNT_SW_BPF_OUTPUT => 10 | PERF_COUNT_SW_MAX => 11
  end.

Definition perf_sw_ids_all : list perf_sw_ids := [
  PERF_COUNT_SW_CPU_CLOCK; PERF_COUNT_SW_TASK_CLOCK; PERF_COUNT_SW_PAGE_FAULTS;
  PERF_COUNT_SW_CONTEXT_SWITCHES; PERF_COUNT_SW_CPU_MIGRATIONS; PERF_COUNT_SW_PAGE_FAULTS_MIN;
  PERF_COUNT_SW_PAGE_FAULTS_MAJ; PERF_COUNT_SW_ALIGNMENT_FAULTS; PERF_COUNT_SW_EMULATION_FAULTS;
  PERF_COUNT_SW_DUMMY; PERF_COUNT_SW_BPF_OUTPUT; PERF_COUNT_SW_MAX
].

#[export] Instance perf_sw_ids_enum : CEnum perf_sw_ids.
Proof. c_enum perf_sw_ids_val perf_sw_ids_all. Defined.

Inductive perf_event_sample_format :=
  | PERF_SAMPLE_IP | PERF_SAMPLE_TID | PERF_SAMPLE_TIME | PERF_SAMPLE_ADDR | PERF_SAMPLE_READ
  | PERF_SAMPLE_CALLCHAIN | PERF_SAMPLE_ID | PERF_SAMPLE_CPU | PERF_SAMPLE_PERIOD
  | PERF_SAMPLE_STREAM_ID | PERF_SAMPLE_RAW | PERF_SAMPLE_BRANCH_STACK | PERF_SAMPLE_REGS_USER
  | PERF_SAMPLE_STACK_USER | PERF_SAMPLE_WEIGHT | PERF_SAMPLE_DATA_SRC | PERF_SAMPLE_IDENTIFIER
  | PERF_SAMPLE_TRANSACTION | PERF_SAMPLE_REGS_INTR | PERF_SAMPLE_PHYS_ADDR | PERF_SAMPLE_AUX
  | PERF_SAMPLE_CGROUP | PERF_SAMPLE_MAX | __PERF_SAMPLE_CALLCHAIN_EARLY.

Definition perf_event_sample_format_val (x : perf_event_sample_format) : Z :=
  match x with
  | PERF_SAMPLE_IP => 1 | PERF_SAMPLE_TID => 2 | PERF_SAMPLE_TIME => 4 | PERF_SAMPLE_ADDR => 8
  | PERF_SAMPLE_READ => 16 | PERF_SAMPLE_CALLCHAIN => 32 | PERF_SAMPLE_ID => 64
  | PERF_SAMPLE_CPU => 128 | PERF_SAMPLE_PERIOD => 256 | PERF_SAMPLE_STREAM_ID => 512
  | PERF_SAMPLE_RAW => 1024 | PERF_SAMPLE_BRANCH_STACK => 2048 | PERF_SAMPLE_REGS_USER => 4096
  | PERF_SAMPLE_STACK_USER => 8192 | PERF_SAMPLE_WEIGHT => 16384 | PERF_SAMPLE_DATA_SRC => 32768
  | PERF_SAMPLE_IDENTIFIER => 65536 | PERF_SAMPLE_TRANSACTION => 131072
  | PERF_SAMPLE_REGS_INTR => 262144 | PERF_SAMPLE_PHYS_ADDR => 524288 | PERF_SAMPLE_AUX => 1048576
  | PERF_SAMPLE_CGROUP => 2097152 | PERF_SAMPLE_MAX => 4194304 | __PERF_SAMPLE_CALLCHAIN_EARLY => 0
  end.

Definition perf_event_sample_format_all : list perf_event_sample_format := [
  PERF_SAMPLE_IP; PERF_SAMPLE_TID; PERF_SAMPLE_TIME; PERF_SAMPLE_ADDR; PERF_SAMPLE_READ;
  PERF_SAMPLE_CALLCHAIN; PERF_SAMPLE_ID; PERF_SAMPLE_CPU; PERF_SAMPLE_PERIOD;
  PERF_SAMPLE_STREAM_ID; PERF_SAMPLE_RAW; PERF_SAMPLE_BRANCH_STACK; PERF_SAMPLE_REGS_USER;
  PERF_SAMPLE_STACK_USER; PERF_SAMPLE_WEIGHT; PERF_SAMPLE_DATA_SRC; PERF_SAMPLE_IDENTIFIER;
  PERF_SAMPLE_TRANSACTION; PERF_SAMPLE_REGS_INTR; PERF_SAMPLE_PHYS_ADDR; PERF_SAMPLE_AUX;
  PERF_SAMPLE_CGROUP; PERF_SAMPLE_MAX; __PERF_SAMPLE_CALLCHAIN_EARLY
].

#[export] Instance perf_event_sample_format_enum : CEnum perf_event_sample_format.
Proof. c_enum perf_event_sample_format_val perf_event_sample_format_all. Defined.

Inductive bpf_stack_build_id_status :=
  | BPF_STACK_BUILD_ID_EMPTY | BPF_STACK_BUILD_ID_VALID | BPF_STACK_BUILD_ID_IP.

Definition bpf_stack_build_id_status_val (x : bpf_stack_build_id_status) : Z :=
  match x with
  | BPF_STACK_BUILD_ID_EMPTY => 0 | BPF_STACK_BUILD_ID_VALID => 1 | BPF_STACK_BUILD_ID_IP => 2
  end.

Definition bpf_stack_build_id_status_all : list bpf_stack_build_id_status := [
  BPF_STACK_BUILD_ID_EMPTY; BPF_STACK_BUILD_ID_VALID; BPF_STACK_BUILD_ID_IP
].

#[export] Instance bpf_stack_build_id_status_enum : CEnum bpf_stack_build_id_status.
Proof. c_enum bpf_stack_build_id_status_val bpf_stack_build_id_status_all. Defined.

Inductive mmu_notifier_event :=
  | MMU_NOTIFY_UNMAP | MMU_NOTIFY_CLEAR | MMU_NOTIFY_PROTECTION_VMA | MMU_NOTIFY_PROTECTION_PAGE
  | MMU_NOTIFY_SOFT_DIRTY | MMU_NOTIFY_RELEASE | MMU_NOTIFY_MIGRATE.

Definition mmu_notifier_event_val (x : mmu_notifier_event) : Z :=
  match x with
  | MMU_NOTIFY_UNMAP => 0 | MMU_NOTIFY_CLEAR => 1 | MMU_NOTIFY_PROTECTION_VMA => 2
  | MMU_NOTIFY_PROTECTION_PAGE => 3 | MMU_NOTIFY_SOFT_DIRTY => 4 | MMU_NOTIFY_RELEASE => 5
  | MMU_NOTIFY_MIGRATE => 6
  end.

Definition mmu_notifier_event_all : list mmu_notifier_event := [
  MMU_NOTIFY_UNMAP; MMU_NOTIFY_CLEAR; MMU_NOTIFY_PROTECTION_VMA; MMU_NOTIFY_PROTECTION_PAGE;
  MMU_NOTIFY_SOFT_DIRTY; MMU_NOTIFY_RELEASE; MMU_NOTIFY_MIGRATE
].

#[export] Instance mmu_notifier_event_enum : CEnum mmu_notifier_event.
Proof. c_enum mmu_notifier_event_val mmu_notifier_event_all. Defined.

Inductive stack_type :=
  | STACK_TYPE_UNKNOWN | STACK_TYPE_TASK | STACK_TYPE_IRQ | STACK_TYPE_OVERFLOW
  | STACK_TYPE_SDEI_NORMAL | STACK_TYPE_SDEI_CRITICAL | __NR_STACK_TYPES.

Definition stack_type_val (x : stack_type) : Z :=
  match x with
  | STACK_TYPE_UNKNOWN => 0 | STACK_TYPE_TASK => 1 | STACK_TYPE_IRQ => 2 | STACK_TYPE_OVERFLOW => 3
  | STACK_TYPE_SDEI_NORMAL => 4 | STACK_TYPE_SDEI_CRITICAL => 5 | __NR_STACK_TYPES => 6
  end.

Definition stack_type_all : list stack_type := [
  STACK_TYPE_UNKNOWN; STACK_TYPE_TASK; STACK_TYPE_IRQ; STACK_TYPE_OVERFLOW; STACK_TYPE_SDEI_NORMAL;
  STACK_TYPE_SDEI_CRITICAL; __NR_STACK_TYPES
].

#[export] Instance stack_type_enum : CEnum stack_type.
Proof. c_enum stack_type_val stack_type_all. Defined.

Inductive module_state :=
  | MODULE_STATE_LIVE | MODULE_STATE_COMING | MODULE_STATE_GOING | MODULE_STATE_UNFORMED.

Definition module_state_val (x : module_state) : Z :=
  match x with
  | MODULE_STATE_LIVE => 0 | MODULE_STATE_COMING => 1 | MODULE_STATE_GOING => 2
  | MODULE_STATE_UNFORMED => 3
  end.

Definition module_state_all : list module_state := [
  MODULE_STATE_LIVE; MODULE_STATE_COMING; MODULE_STATE_GOING; MODULE_STATE_UNFORMED
].

#[export] Instance module_state_enum : CEnum module_state.
Proof. c_enum module_state_val module_state_all. Defined.

(** An enumeration without a tag. *)
Inductive bpf_update_flags :=
  | BPF_ANY | BPF_NOEXIST | BPF_EXIST | BPF_F_LOCK.

Definition bpf_update_flags_val (x : bpf_update_flags) : Z :=
  match x with
  | BPF_ANY => 0 | BPF_NOEXIST => 1 | BPF_EXIST => 2 | BPF_F_LOCK => 4
  end.

Definition bpf_update_flags_all : list bpf_update_flags := [
  BPF_ANY; BPF_NOEXIST; BPF_EXIST; BPF_F_LOCK
].

#[export] Instance bpf_update_flags_enum : CEnum bpf_update_flags.
Proof. c_enum bpf_update_flags_val bpf_update_flags_all. Defined.

(** An enumeration without a tag. *)
Inductive bpf_stack_flags :=
  | BPF_F_SKIP_FIELD_MASK | BPF_F_USER_STACK | BPF_F_FAST_STACK_CMP | BPF_F_REUSE_STACKID
  | BPF_F_USER_BUILD_ID.

Definition bpf_stack_flags_val (x : bpf_stack_flags) : Z :=
  match x with
  | BPF_F_SKIP_FIELD_MASK => 255 | BPF_F_USER_STACK => 256 | BPF_F_FAST_STACK_CMP => 512
  | BPF_F_REUSE_STACKID => 1024 | BPF_F_USER_BUILD_ID => 2048
  end.

Definition bpf_stack_flags_all : list bpf_stack_flags := [
  BPF_F_SKIP_FIELD_MASK; BPF_F_USER_STACK; BPF_F_FAST_STACK_CMP; BPF_F_REUSE_STACKID;
  BPF_F_USER_BUILD_ID
].

#[export] Instance bpf_stack_flags_enum : CEnum bpf_stack_flags.
Proof. c_enum bpf_stack_flags_val bpf_stack_flags_all. Defined.

(** ** Numbers and enumerators *)

(** For every enumeration an enumerator is recovered from its number, and
    a number that names an enumerator is that enumerator's. *)
Lemma of_val_val {A} `{CEnum A} (x : A) : of_val (val x) = Some x.
Proof.
  unfold of_val. generalize (all_complete x) (val_NoDup (A := A)).
  induction all as [|y l IH]; intros Hin Hnd; [done|]. cbn in *. apply NoDup_cons in Hnd as [Hy Hnd].
  destruct (Z.eqb_spec (val y) (val x)) as [E|Hne].
  - destruct Hin as [->|Hin]; [done|]. exfalso. apply Hy. rewrite E.
    by apply list_elem_of_In, in_map.
  - apply IH; [|done]. by destruct Hin as [->|].
Qed.

Lemma of_val_Some {A} `{CEnum A} v (x : A) : of_val v = Some x -> val x = v.
Proof. intros [_ Hv]%find_some. by apply Z.eqb_eq. Qed.

(** The enumerations with a tag. *)
Record enumeration := Enumeration { en_tag : string; en_type : Type; en_ops : CEnum en_type }.

#[export] Instance enumeration_ops (E : enumeration) : CEnum (en_type E) := en_ops E.

Definition kernel_enums : list enumeration := [
  Enumeration "perf_event_state" perf_event_state _;
  Enumeration "uprobe_task_state" uprobe_task_state _; Enumeration "bpf_map_type" bpf_map_type _;
  Enumeration "bpf_prog_type" bpf_prog_type _; Enumeration "bpf_attach_type" bpf_attach_type _;
  Enumeration "bpf_return_type" bpf_return_type _; Enumeration "bpf_arg_type" bpf_arg_type _;
  Enumeration "bpf_link_type" bpf_link_type _; Enumeration "bpf_reg_type" bpf_reg_type _;
  Enumeration "bpf_reg_liveness" bpf_reg_liveness _; Enumeration "timespec_type" timespec_type _;
  Enumeration "rw_hint" rw_hint _; Enumeration "pid_type" pid_type _;
  Enumeration "mmu_notifier_event" mmu_notifier_event _; Enumeration "stack_type" stack_type _;
  Enumeration "module_state" module_state _; Enumeration "bpf_func_id" bpf_func_id _;
  Enumeration "bpf_cmd" bpf_cmd _; Enumeration "perf_type_id" perf_type_id _;
  Enumeration "perf_sw_ids" perf_sw_ids _;
  Enumeration "perf_event_sample_format" perf_event_sample_format _;
  Enumeration "bpf_stack_build_id_status" bpf_stack_build_id_status _
].

(** The tags of the enumerations a record has members of. *)
Fixpoint enum_tags (t : cty) : list string :=
  match t with
  | CInt _ _ | CPtr _ => []
  | CEnm tag => [tag]
  | CArr t _ => enum_tags t
  | CStruct fs | CUnion fs => flat_map (fun m => enum_tags (m_type m)) fs
  end.

Lemma kernel_tags_known :
  forallb (fun e => forallb (fun tag => existsb (fun E => String.eqb (en_tag E) tag) kernel_enums) (enum_tags (snd e)))
    kernel_types = true.
Proof. vm_compute. reflexivity. Qed.

Lemma struct_member_tags x fs pos l :
  Forall (fun m => forall l, member (m_type m) x = Some l -> incl (enum_tags (l_type l)) (enum_tags (m_type m))) fs ->
  struct_member x pos fs = Some l -> incl (enum_tags (l_type l)) (flat_map (fun m => enum_tags (m_type m)) fs).
Proof.
  revert pos. induction fs as [|m fs IH]; intros pos HF; [done|]. apply Forall_cons in HF as [Hm HF].
  rewrite struct_member_cons. destruct (place _ _ _ _) as [s e]. cbn [flat_map]. destruct (provides x m).
  - intros E. apply incl_appl. unfold member_in in E. destruct (String.eqb _ _); [|injection E as <-; apply incl_refl].
    apply fmap_Some in E as (l' & E & ->). exact (Hm l' E).
  - intros E. apply incl_appr. exact (IH e HF E).
Qed.

Lemma union_member_tags x fs l :
  Forall (fun m => forall l, member (m_type m) x = Some l -> incl (enum_tags (l_type l)) (enum_tags (m_type m))) fs ->
  union_member x fs = Some l -> incl (enum_tags (l_type l)) (flat_map (fun m => enum_tags (m_type m)) fs).
Proof.
  induction fs as [|m fs IH]; intros HF; [done|]. apply Forall_cons in HF as [Hm HF].
  rewrite union_member_cons. cbn [flat_map]. destruct (provides x m).
  - intros E. apply incl_appl. unfold member_in in E. destruct (String.eqb _ _); [|injection E as <-; apply incl_refl].
    apply fmap_Some in E as (l' & E & ->). exact (Hm l' E).
  - intros E. apply incl_appr. exact (IH HF E).
Qed.

Lemma member_tags t x l : member t x = Some l -> incl (enum_tags (l_type l)) (enum_tags t).
Proof.
  revert l. induction t as [b s|tag|to|t n IH|fs IH|fs IH] using cty_rect'; intros l; try discriminate.
  - by apply (struct_member_tags x fs 0).
  - by apply (union_member_tags x fs).
Qed.

Lemma locate_tags t p l : locate t p = Some l -> incl (enum_tags (l_type l)) (enum_tags t).
Proof.
  revert t l. induction p as [|s p IH]; intros t l; cbn [locate]; [intros [= <-]; apply incl_refl|].
  destruct (select t s) as [l1|] eqn:Es; [|done]. cbn [mbind option_bind].
  assert (H1 : incl (enum_tags (l_type l1)) (enum_tags t)).
  { destruct s as [x|i]; [by apply (member_tags t x)|]. destruct t as [| | |t n| |]; try done.
    cbn [select] in Es. destruct (_ && _); [|done]. injection Es as <-. apply incl_refl. }
  destruct (l_bits l1); [destruct p; [by intros [= <-]|done]|].
  intros (l2 & E & ->)%fmap_Some. apply IH in E. by eapply incl_tran.
Qed.

(** A member as an enumerator. *)
Definition read_enum {A} `{CEnum A} (m : Z -> byte) (t : cty) (a : Z) (p : list step) : option A :=
  v ← read_member m t a p; of_val v.

(** Every member of enumeration type in the kernel's records belongs to one of the
    enumerations above, and each of its enumerators stored there is read back
    as itself, while members on separate paths keep their values. *)
Theorem enum_members_round_trip tag t p l e m a :
  In (tag, t) kernel_types -> locate t p = Some l -> l_type l = CEnm e -> l_bits l = None ->
  exists E, In E kernel_enums /\ en_tag E = e /\
    forall x : en_type E,
      read_enum (write_at m a l (val x)) t a p = Some x /\
      (forall q, separate t p q = true -> read_member (write_at m a l (val x)) t a q = read_member m t a q).
Proof.
  intros Hin El Ht Hb. pose proof kernel_tags_known as Hk. rewrite forallb_forall in Hk.
  specialize (Hk _ Hin). cbn [snd] in Hk. rewrite forallb_forall in Hk.
  pose proof (locate_tags t p l El) as Hi. rewrite Ht in Hi. specialize (Hk e (Hi e (or_introl eq_refl))).
  apply existsb_exists in Hk as (E & HE & Htag%String.eqb_eq). exists E. split; [done|]. split; [done|].
  intros x. pose proof kernel_types_wf as Hw. rewrite forallb_forall in Hw. specialize (Hw _ Hin). cbn [snd] in Hw.
  split; [|intros q; by apply write_read_separate].
  unfold read_enum. rewrite write_read_path; [|done..|].
  - cbn [mbind option_bind]. apply of_val_val.
  - unfold representable, width. rewrite Ht, Hb. cbn [scalar size]. apply val_fits.
Qed.

Lemma enum_members_round_trip_witness :
  exists E, In E kernel_enums /\ en_tag E = "bpf_map_type" /\
    forall x : en_type E,
      read_enum (write_at (fun b => byte_of b) 0x1000 (Loc 192 None (CEnm "bpf_map_type")) (val x))
        struct_bpf_map 0x1000 [Sel "map_type"] = Some x.
Proof.
  assert (Hin : In ("struct bpf_map", struct_bpf_map) kernel_types).
  { unfold kernel_types. rewrite !in_app_iff. do 5 right. left. unfold KBpf_types. in_list. }
  destruct (enum_members_round_trip "struct bpf_map" struct_bpf_map [Sel "map_type"]
    (Loc 192 None (CEnm "bpf_map_type")) "bpf_map_type" (fun b => byte_of b) 0x1000) as (E & HE & Ht & Hr).
  - exact Hin.
  - vm_compute. reflexivity.
  - reflexivity.
  - reflexivity.
  - exists E. split; [exact HE|]. split; [exact Ht|]. intros x. apply (Hr x).
Defined.
