(* ===== verification/MapDefs.v ===== *)
(** * MapDefs: the map declarations of the BPF programs

    The [.maps] sections of bpf/recon.bpf.c, bpf/envprobe.bpf.c and
    bpf/smoke.bpf.c, and every operation on them on either side: the C types
    the programs use for keys, values and records, the Go types the loader
    passes.  What the kernel asks of a map when it is created and of an
    operation when it is verified or made is stated on the numbers of the map
    types (include/uapi/linux/bpf.h) and on sizes. *)

From S2P Require Import Prelude CTypes Layout KBase KEnums Bpf Recon Wire EnvProbe Smoke Helpers Concurrent EnvRace.
From S2P Require Import Startup.

Record map_def := MapDef {
  md_name : string;
  md_type : bpf_map_type;
  md_max : Z;
  md_key : option cty;
  md_value : option cty
}.

(** bpf/recon.bpf.c *)
Definition recon_events : map_def := MapDef "events" BPF_MAP_TYPE_RINGBUF (2 ^ 23) None None.
Definition recon_cfg : map_def := MapDef "cfg" BPF_MAP_TYPE_ARRAY 2 (Some __u32) (Some __u64).
Definition recon_stackmap : map_def :=
  MapDef "stackmap" BPF_MAP_TYPE_STACK_TRACE 8192 (Some __u32) (Some (CArr __u64 32)).
Definition recon_argkind : map_def := MapDef "argkind" BPF_MAP_TYPE_HASH 2048 (Some __u64) (Some __u8).
Definition recon_argidx : map_def := MapDef "argidx" BPF_MAP_TYPE_HASH 2048 (Some __u64) (Some __u8).
Definition recon_hasret : map_def := MapDef "hasret" BPF_MAP_TYPE_HASH 8192 (Some __u64) (Some __u8).
Definition recon_depth : map_def := MapDef "depth" BPF_MAP_TYPE_HASH 4096 (Some __u32) (Some __u32).

(** bpf/envprobe.bpf.c and bpf/smoke.bpf.c *)
Definition env_events : map_def := MapDef "events" BPF_MAP_TYPE_RINGBUF (2 ^ 22) None None.
Definition env_seen : map_def := MapDef "seen" BPF_MAP_TYPE_HASH 8192 (Some __u32) (Some __u8).
Definition smoke_events : map_def := MapDef "events" BPF_MAP_TYPE_RINGBUF (2 ^ 20) None None.

Definition recon_maps : list map_def :=
  [recon_events; recon_cfg; recon_stackmap; recon_argkind; recon_argidx; recon_hasret; recon_depth].
Definition env_maps : list map_def := [env_events; env_seen].
Definition smoke_maps : list map_def := [smoke_events].

(** An operation on a map: by a program, or by the loader ([User...]).  Sizes are
    in bytes; a constant key is given where there is one. *)
Inductive operation :=
| ProgLookup (key value : Z) (const : option Z)   (* bpf_map_lookup_elem *)
| ProgUpdate (key value : Z) (const : option Z)   (* bpf_map_update_elem *)
| ProgReserve (record : Z)                        (* bpf_ringbuf_reserve *)
| ProgStackid                                     (* bpf_get_stackid *)
| UserLookup (key value : Z)
| UserUpdate (key value : Z) (const : option Z)
| UserReader.                                     (* ringbuf.NewReader *)

Record access := Access { ac_map : string; ac_op : operation }.

Definition c_lookup (name : string) (k v : cty) (c : option Z) : access := Access name (ProgLookup (size k) (size v) c).
Definition c_update (name : string) (k v : cty) (c : option Z) : access := Access name (ProgUpdate (size k) (size v) c).
Definition go_put (name : string) (k v : gotype) (c : option Z) : access :=
  Access name (UserUpdate (go_size k) (go_size v) c).

(** [up_all] and [up_ret]. *)
Definition up_all_accesses : list access := [
  Access "events" (ProgReserve (sizeof struct_evt_t));
  c_lookup "cfg" __u32 __u64 (Some 0);
  c_lookup "hasret" __u64 __u8 None;
  c_lookup "depth" __u32 __u32 None;
  c_update "depth" __u32 __u32 None;
  c_lookup "argkind" __u64 __u8 None;
  c_lookup "argidx" __u64 __u8 None;
  c_lookup "cfg" __u32 __u64 (Some 1);
  Access "stackmap" ProgStackid
].
Definition up_ret_accesses : list access := [
  Access "events" (ProgReserve (sizeof struct_evt_t));
  c_lookup "depth" __u32 __u32 None;
  c_update "depth" __u32 __u32 None
].

(** The loader's: [cfg.Put(uint32(0), base)] and so on, the stack lookup, the
    reader of the events. *)
Definition configure_accesses : list access := [
  go_put "cfg" (Gint 4 false) (Gint 8 false) (Some 0);
  go_put "cfg" (Gint 4 false) (Gint 8 false) (Some 1);
  go_put "argkind" (Gint 8 false) (Gint 1 false) None;
  go_put "argidx" (Gint 8 false) (Gint 1 false) None;
  go_put "hasret" (Gint 8 false) (Gint 1 false) None
].
Definition stack_access : access :=
  Access "stackmap" (UserLookup (go_size (Gint 4 false)) (go_size (Garr (Gint 8 false) 32))).
Definition reader_access : access := Access "events" UserReader.

(** [up_lnl], [up_cnt] and [emit]; [fill]. *)
Definition env_accesses : list access := [
  c_lookup "seen" __u32 __u8 None;
  Access "events" (ProgReserve (sizeof struct_dump_t));
  c_update "seen" __u32 __u8 None
].
Definition smoke_accesses : list access := [Access "events" (ProgReserve (sizeof struct_event_t))].

(** An object file: its maps and all operations on them. *)
Record object := Object { ob_maps : list map_def; ob_accesses : list access }.

Definition recon_object : object :=
  Object recon_maps (up_all_accesses ++ up_ret_accesses ++ configure_accesses ++ [stack_access; reader_access]).
Definition env_object : object := Object env_maps (env_accesses ++ [reader_access]).
Definition smoke_object : object := Object smoke_maps smoke_accesses.
Definition objects : list object := [recon_object; env_object; smoke_object].

(** ** What the kernel asks *)

Definition type_size (t : option cty) : Z := default 0 (size <$> t).

Section Asked.
Context (d : map_def).

Abbreviation number := (bpf_map_type_val (md_type d)).
Abbreviation key_size := (type_size (md_key d)).
Abbreviation value_size := (type_size (md_value d)).

(** BPF_MAP_CREATE: 1 is a hash map, 2 an array, 7 a map of stack traces with at
    most 127 addresses each, 27 a ring buffer, whose size is a power of two and
    a number of whole pages (of 4, 16 or 64 KB). *)
Definition creatable : Prop :=
  0 < md_max d < 2 ^ 32 /\
  (number = 1 /\ 0 < key_size /\ 0 < value_size \/
   number = 2 /\ key_size = 4 /\ 0 < value_size \/
   number = 7 /\ key_size = 4 /\ 0 < value_size /\ value_size mod 8 = 0 /\ value_size / 8 <= 127 \/
   number = 27 /\ md_key d = None /\ md_value d = None /\ md_max d mod 65536 = 0 /\ md_max d = 2 ^ Z.log2 (md_max d)).

(** An element of a hash map or an array, of the declared sizes; a constant
    index is inside the array. *)
Definition element (numbers : list Z) (key value : Z) (const : option Z) : Prop :=
  In number numbers /\ key_size = key /\ value_size = value /\
  match const with Some i => number = 2 /\ 0 <= i < md_max d | None => number <> 2 end.

(** A record and its header of 8 bytes fit the ring buffer. *)
Definition permits (op : operation) : Prop :=
  match op with
  | ProgLookup key value const | ProgUpdate key value const | UserUpdate key value const =>
      element [1; 2] key value const
  | UserLookup key value => element [1; 7] key value None
  | ProgReserve record => number = 27 /\ 0 < record /\ record + 8 <= md_max d
  | ProgStackid => number = 7
  | UserReader => number = 27
  end.
End Asked.

(** *** The same as tests *)

Definition creatableb (d : map_def) : bool :=
  let n := bpf_map_type_val (md_type d) in
  let k := type_size (md_key d) in
  let v := type_size (md_value d) in
  (0 <? md_max d) && (md_max d <? 2 ^ 32) &&
  ((n =? 1) && (0 <? k) && (0 <? v) ||
   (n =? 2) && (k =? 4) && (0 <? v) ||
   (n =? 7) && (k =? 4) && (0 <? v) && (v mod 8 =? 0) && (v / 8 <=? 127) ||
   (n =? 27) && match md_key d, md_value d with None, None => true | _, _ => false end &&
     (md_max d mod 65536 =? 0) && (md_max d =? 2 ^ Z.log2 (md_max d))).

Definition elementb (d : map_def) (numbers : list Z) (key value : Z) (const : option Z) : bool :=
  let n := bpf_map_type_val (md_type d) in
  existsb (Z.eqb n) numbers && (type_size (md_key d) =? key) && (type_size (md_value d) =? value) &&
  match const with Some i => (n =? 2) && (0 <=? i) && (i <? md_max d) | None => negb (n =? 2) end.

Definition permitsb (d : map_def) (op : operation) : bool :=
  let n := bpf_map_type_val (md_type d) in
  match op with
  | ProgLookup key value const | ProgUpdate key value const | UserUpdate key value const =>
      elementb d [1; 2] key value const
  | UserLookup key value => elementb d [1; 7] key value None
  | ProgReserve record => (n =? 27) && (0 <? record) && (record + 8 <=? md_max d)
  | ProgStackid => n =? 7
  | UserReader => n =? 27
  end.

Lemma creatableb_spec d : creatableb d = true -> creatable d.
Proof.
  unfold creatableb, creatable. cbv zeta. rewrite !andb_true_iff, !orb_true_iff, !andb_true_iff.
  rewrite !Z.ltb_lt, !Z.eqb_eq, !Z.leb_le.
  intros [[H1 H2] [[[H|H]|H]|H]]; (split; [lia|]); [left|right; left|right; right; left|right; right; right]; try tauto.
  destruct (md_key d), (md_value d); try tauto; destruct H as [[[_ E] _] _]; discriminate.
Qed.

Lemma elementb_spec d ns key value const : elementb d ns key value const = true -> element d ns key value const.
Proof.
  unfold elementb, element. cbv zeta. rewrite !andb_true_iff, existsb_exists, !Z.eqb_eq.
  intros [[[(n & Hin & ->%Z.eqb_eq) Hk] Hv] Hc]. repeat (split; [done|]).
  destruct const as [i|]; [|by apply negb_true_iff, Z.eqb_neq in Hc].
  rewrite !andb_true_iff, Z.eqb_eq, Z.leb_le, Z.ltb_lt in Hc. lia.
Qed.

Lemma permitsb_spec d op : permitsb d op = true -> permits d op.
Proof.
  destruct op; cbn [permitsb permits]; try apply elementb_spec; rewrite ?andb_true_iff, ?Z.eqb_eq, ?Z.ltb_lt, ?Z.leb_le; tauto.
Qed.

Definition fits_object (o : object) : bool :=
  forallb creatableb (ob_maps o) && bool_decide (NoDup (map md_name (ob_maps o))) &&
  forallb (fun a => existsb (fun d => String.eqb (md_name d) (ac_map a) && permitsb d (ac_op a)) (ob_maps o)) (ob_accesses o).

Lemma objects_fit : forallb fits_object objects = true.
Proof. vm_compute. done. Qed.

(** ** The keys and values the programs pass

    Those of the programs of Concurrent and EnvRace: every key and every value
    passed to a helper is one of the declared type, provided the values found
    in the maps are. *)
Section Typed.
Context {W Ev : Type} (decl : W -> map_def).

Definition of_type (t : option cty) (x : Z) : Prop := fits (8 * type_size t) x.

Definition good_key (w : W) (key : Z) : Prop :=
  of_type (md_key (decl w)) key /\ (bpf_map_type_val (md_type (decl w)) = 2 -> key < md_max (decl w)).

Fixpoint well_typed (p : prog W Ev) : Prop :=
  match p with
  | Done => True
  | Reserve _ k => forall r, well_typed (k r)
  | Lookup w key k =>
      good_key w key /\
      forall r, match r with Some x => of_type (md_value (decl w)) x | None => True end -> well_typed (k r)
  | Update w key v k => good_key w key /\ of_type (md_value (decl w)) v /\ well_typed k
  | Submit _ k => well_typed k
  end.
End Typed.

Definition recon_decl (w : wmap) : map_def :=
  match w with
  | Cfg => recon_cfg | Argkind => recon_argkind | Argidx => recon_argidx | Hasret => recon_hasret | Depth => recon_depth
  end.
Definition env_decl (w : unit) : map_def := env_seen.

Section Programs.
Context {R U : Type} `{HR : PtRegsLaws R} `{HU : UserMemLaws U}.

Lemma depth_key x : good_key recon_decl Depth (Prelude.u32 x).
Proof. split; [apply (wrap_range 32); lia|done]. Qed.

Lemma off_key w x : In w [Argkind; Argidx; Hasret] -> good_key recon_decl w (Prelude.u64 x).
Proof. intros [<-|[<-|[<-|[]]]]; (split; [apply (wrap_range 64); lia|done]). Qed.

Lemma cfg_key i : i = 0 \/ i = 1 -> good_key recon_decl Cfg i.
Proof. intros [-> | ->]; (split; [unfold of_type, fits; cbn; lia|done]). Qed.

Lemma up_all_tail_typed (v : hit_env R U) x e : well_typed recon_decl (up_all_tail v (Prelude.u64 x) e).
Proof.
  cbn [up_all_tail well_typed]. split; [apply off_key; cbn; tauto|]. intros k _.
  split; [apply off_key; cbn; tauto|]. intros ix _. split; [apply cfg_key; by right|done].
Qed.

Lemma hit_prog_typed (h : @hit R U) : well_typed recon_decl (hit_prog h).
Proof.
  destruct h as [v|v]; cbn [hit_prog up_all_prog up_ret_prog well_typed]; intros [g|]; try done; cbn [well_typed].
  - split; [apply cfg_key; by left|]. intros [base|] _; [|done]. cbn [well_typed].
    split; [apply off_key; cbn; tauto|]. intros [hr|] _; [|apply up_all_tail_typed]. cbn [well_typed].
    split; [apply depth_key|]. intros pd _. split; [apply depth_key|].
    split; [apply (wrap_range 32); lia|apply up_all_tail_typed].
  - split; [apply depth_key|]. intros pd Hpd. split; [apply depth_key|]. split; [|done].
    destruct pd as [d|]; cbn [default]; [|unfold of_type, fits; cbn; lia].
    revert Hpd. unfold of_type, fits. cbn. intros Hd. destruct (Z.ltb_spec 0 d); lia.
Qed.

Lemma emit_prog_typed (v : env_hit R U) n site reg cand k :
  well_typed env_decl k -> well_typed env_decl (emit_prog v n site reg cand k).
Proof.
  intros Hk. unfold emit_prog. destruct (cand <? 0x10000); [done|].
  destruct (try_read_word _ cand) as [table|]; [|done]. destruct (_ || _); [done|].
  destruct (try_read_word _ _) as [ver|]; [|done]. destruct (ver <? 0x10000); [done|].
  by intros [g|].
Qed.

Lemma env_prog_typed (h : env_event R U) : well_typed env_decl (env_prog h).
Proof.
  assert (Hk : forall x, good_key env_decl tt (Prelude.u32 x)) by (intros x; split; [apply (wrap_range 32); lia|done]).
  destruct h as [v|v]; cbn [env_prog up_lnl_prog up_cnt_prog well_typed]; (split; [apply Hk|]); intros [x|] _; try done;
    apply emit_prog_typed, emit_prog_typed; cbn [well_typed]; (split; [apply Hk|]); (split; [|done]);
    unfold of_type, fits; cbn; lia.
Qed.

(** C38. The maps are used as they are declared.  In each of the three object
    files the kernel can create every map, no two have one name, and every
    operation - by the programs or by the loader - names a map of the object
    of a type the operation works on: lookups and updates have the
    declared key and value sizes, and a constant index is inside the array;
    records, with their headers, fit the ring buffer they are reserved in;
    stack ids come from a map of stack traces.  And every key and value
    the programs of recon and envprobe pass, in any hit, is in the range of its declared
    type. *)
Theorem map_accesses_fit :
  (forall o d, In o objects -> In d (ob_maps o) -> creatable d) /\
  (forall o, In o objects -> NoDup (map md_name (ob_maps o))) /\
  (forall o a, In o objects -> In a (ob_accesses o) ->
     exists d, In d (ob_maps o) /\ md_name d = ac_map a /\ permits d (ac_op a)) /\
  (forall h : @hit R U, well_typed recon_decl (hit_prog h)) /\
  (forall h : env_event R U, well_typed env_decl (env_prog h)).
Proof.
  assert (Hall : forall o, In o objects -> fits_object o = true) by (apply forallb_forall, objects_fit).
  split; [|split; [|split; [|split; [exact hit_prog_typed|exact env_prog_typed]]]].
  - intros o d Ho Hd. specialize (Hall o Ho). unfold fits_object in Hall. rewrite !andb_true_iff in Hall.
    destruct Hall as [[Hc _] _]. rewrite forallb_forall in Hc. by apply creatableb_spec, Hc.
  - intros o Ho. specialize (Hall o Ho). unfold fits_object in Hall. rewrite !andb_true_iff in Hall.
    destruct Hall as [[_ Hn] _]. by apply bool_decide_eq_true in Hn.
  - intros o a Ho Ha. specialize (Hall o Ho). unfold fits_object in Hall. rewrite !andb_true_iff in Hall.
    destruct Hall as [_ Hf]. rewrite forallb_forall in Hf. specialize (Hf a Ha).
    apply existsb_exists in Hf as (d & Hd & [Hn%String.eqb_eq Hp]%andb_true_iff).
    exists d. split; [exact Hd|]. split; [exact Hn|]. by apply permitsb_spec.
Qed.
End Programs.

(** The record of the env probe, the largest, and the ring buffer it is in. *)
Lemma map_accesses_fit_witness :
  exists d, In d env_maps /\ md_name d = "events" /\ bpf_map_type_val (md_type d) = 27 /\
    sizeof struct_dump_t + 8 <= md_max d /\ creatable d.
Proof.
  destruct (map_accesses_fit (R := user_pt_regs) (U := byte_mem)) as (T1 & _ & T3 & _).
  assert (Ho : In env_object objects) by (right; left; reflexivity).
  destruct (T3 env_object (Access "events" (ProgReserve (sizeof struct_dump_t))) Ho) as (d & Hd & Hn & Hp & _ & Hs).
  - right. left. reflexivity.
  - exists d. split; [exact Hd|]. split; [exact Hn|]. split; [exact Hp|]. split; [exact Hs|].
    exact (T1 env_object d Ho Hd).
Defined.

(** The maps [configure] starts from are the declared ones. *)
Definition fresh_hash (d : map_def) : hash_map := HashMap (Z.to_nat (md_max d)) ∅.

Lemma fresh_maps_declared :
  argkind fresh_maps = fresh_hash recon_argkind /\ argidx fresh_maps = fresh_hash recon_argidx /\
  hasret fresh_maps = fresh_hash recon_hasret /\ depth fresh_maps = fresh_hash recon_depth /\
  Z.of_nat (hm_max (cfg fresh_maps)) = md_max recon_cfg.
Proof. repeat split. Qed.
