(* ===== verification/Jvm.v ===== *)
(** * Jvm: the JavaVM as the native test library sees it

    The virtual machine behind the [JNIEnv] and [JavaVM] function tables is
    not part of the repository: it is an interface ([JavaVM]) over an abstract
    VM state.  Native code is a tree of the effects it performs ([jprog], a
    free monad): calls through the tables, reads and writes of memory the VM
    hands out, lines printed and verdicts recorded.  [run] interprets a tree
    against a VM.  [full] is the counting logic for such trees: what a run
    with no new failure must have counted and called. *)

From S2P Require Import Prelude GoStr.

(** ** The interface *)

(** Arguments: a word (handle, integer, float as its
    IEEE bits), a C string, the variadic arguments behind a [va_list], a
    [jvalue] array, a buffer that is only read, a [JNINativeMethod] array. *)
Inductive jarg :=
  | AZ (z : Z)
  | AS (s : string)
  | AVa (vs : list Z)
  | AVal (vs : list Z)
  | ABuf (vs : list Z)
  | AMeth (ms : list (string * string * string)).

Coercion AZ : Z >-> jarg.
Coercion AS : string >-> jarg.

Class JavaVM (VM : Type) := {
  (** A [JNINativeInterface] function; [jni_out]'s last argument is a buffer
      it fills, given with its contents before the call. *)
  jni : string -> list jarg -> VM -> Z * VM;
  jni_out : string -> list jarg -> list Z -> VM -> (Z * list Z) * VM;
  (** A [JNIInvokeInterface] function, with the pointer it stores. *)
  invoke : string -> list jarg -> VM -> (Z * Z) * VM;
  (** The i-th element, of the given width in bytes, at a pointer. *)
  peek : Z -> Z -> Z -> VM -> Z;
  poke : Z -> Z -> Z -> Z -> VM -> VM;
  (** The k-th word after the last entry of the function table. *)
  past_table : Z -> VM -> Z;
  (** The dynamic linker: file name, if known, and load address. *)
  dladdr : Z -> VM -> option (option string * Z);
}.

(** ** Native code *)

Inductive effect : Type -> Type :=
  | EJni (f : string) (args : list jarg) : effect Z
  | EJniOut (f : string) (args : list jarg) (buf : list Z) : effect (Z * list Z)
  | EInvoke (f : string) (args : list jarg) : effect (Z * Z)
  | EPeek (w p i : Z) : effect Z
  | EPoke (w p i x : Z) : effect unit
  | EPast (k : Z) : effect Z
  | EGvm : effect Z
  | EDladdr (a : Z) : effect (option (option string * Z))
  | EOut (s : string) : effect unit
  | EPass : effect unit
  | EFail : effect unit
  | ESkip : effect unit.

Inductive jprog (A : Type) : Type :=
  | Ret (a : A)
  | Vis {X : Type} (e : effect X) (k : X -> jprog A).

Arguments Ret {A} a.
Arguments Vis {A X} e k.

Fixpoint jbind {A B} (m : jprog A) (f : A -> jprog B) : jprog B :=
  match m with
  | Ret a => f a
  | Vis e k => Vis e (fun x => jbind (k x) f)
  end.

#[export] Instance jprog_ret : MRet jprog := fun A a => Ret a.

Declare Scope jprog_scope.
#[global] Open Scope jprog_scope.
Notation "x ← m ; k" := (jbind m (fun x => k)) : jprog_scope.
Notation "m ;; k" := (jbind m (fun _ => k)) : jprog_scope.

Definition trigger {X} (e : effect X) : jprog X := Vis e Ret.

(** [( *env)->f(env, args)]. *)
Definition call (env : Z) (f : string) (args : list jarg) : jprog Z :=
  trigger (EJni f (AZ env :: args)).
Definition call_ (env : Z) (f : string) (args : list jarg) : jprog unit :=
  _ ← call env f args; mret tt.
Definition callOut (env : Z) (f : string) (args : list jarg) (buf : list Z) : jprog (Z * list Z) :=
  trigger (EJniOut f (AZ env :: args) buf).
Definition vmcall (f : string) (args : list jarg) : jprog (Z * Z) := trigger (EInvoke f args).
Definition OUT (s : string) : jprog unit := trigger (EOut s).
Definition when (b : bool) (m : jprog unit) : jprog unit := if b then m else mret tt.

(** Argument lists: each element is coerced to a [jarg]. *)
Declare Scope jargs_scope.
Delimit Scope jargs_scope with jargs.
Notation "[ ]" := (@nil jarg) : jargs_scope.
Notation "[ x ]" := (@cons jarg x (@nil jarg)) : jargs_scope.
Notation "[ x ; y ; .. ; z ]" :=
  (@cons jarg x (@cons jarg y .. (@cons jarg z (@nil jarg)) ..)) : jargs_scope.
Arguments call env f args%_jargs.
Arguments call_ env f args%_jargs.
Arguments callOut env f args%_jargs buf.
Arguments vmcall f args%_jargs.
Arguments AVa vs%_list.
Arguments AVal vs%_list.
Arguments ABuf vs%_list.
Arguments AMeth ms%_list.

(** A C truth value. *)
Definition nz (x : Z) : bool := negb (x =? 0).

(** ** Running it *)

(** The counters of the library, what it printed, the VM, and the history of
    the table functions called (not in the code: the theorems speak of it). *)
Record St (VM : Type) := mkSt {
  g_pass : Z;
  g_fail : Z;
  g_skip : Z;
  g_vm : Z;
  stdout : list string;
  called : list string;
  vm : VM
}.

Arguments mkSt {VM}.
Arguments g_pass {VM}.
Arguments g_fail {VM}.
Arguments g_skip {VM}.
Arguments g_vm {VM}.
Arguments stdout {VM}.
Arguments called {VM}.
Arguments vm {VM}.

Section run.
Context {VM : Type} `{JavaVM VM}.

Definition set_vm (s : St VM) (fs : list string) (v : VM) : St VM :=
  mkSt (g_pass s) (g_fail s) (g_skip s) (g_vm s) (stdout s) (called s ++ fs) v.

Definition handle {X} (e : effect X) : St VM -> X * St VM :=
  match e in effect X return St VM -> X * St VM with
  | EJni f args => fun s => let '(r, v) := jni f args (vm s) in (r, set_vm s [f] v)
  | EJniOut f args buf => fun s =>
      let '(r, v) := jni_out f args buf (vm s) in (r, set_vm s [f] v)
  | EInvoke f args => fun s => let '(r, v) := invoke f args (vm s) in (r, set_vm s [] v)
  | EPeek w p i => fun s => (peek w p i (vm s), s)
  | EPoke w p i x => fun s => (tt, set_vm s [] (poke w p i x (vm s)))
  | EPast k => fun s => (past_table k (vm s), s)
  | EGvm => fun s => (g_vm s, s)
  | EDladdr a => fun s => (dladdr a (vm s), s)
  | EOut t => fun s =>
      (tt, mkSt (g_pass s) (g_fail s) (g_skip s) (g_vm s) (stdout s ++ [t]) (called s) (vm s))
  | EPass => fun s =>
      (tt, mkSt (g_pass s + 1) (g_fail s) (g_skip s) (g_vm s) (stdout s) (called s) (vm s))
  | EFail => fun s =>
      (tt, mkSt (g_pass s) (g_fail s + 1) (g_skip s) (g_vm s) (stdout s) (called s) (vm s))
  | ESkip => fun s =>
      (tt, mkSt (g_pass s) (g_fail s) (g_skip s + 1) (g_vm s) (stdout s) (called s) (vm s))
  end.

Fixpoint run {A} (m : jprog A) (s : St VM) : A * St VM :=
  match m with
  | Ret a => (a, s)
  | Vis e k => let '(x, s') := handle e s in run (k x) s'
  end.

Lemma run_bind {A B} (m : jprog A) (f : A -> jprog B) s :
  run (jbind m f) s = run (f (fst (run m s))) (snd (run m s)).
Proof.
  revert s. induction m as [a|X e k IH]; intros s; [reflexivity|].
  cbn. destruct (handle e s) as [x s']. apply IH.
Qed.

Lemma run_call env f args s :
  run (call env f args) s =
  (fst (jni f (AZ env :: args) (vm s)), set_vm s [f] (snd (jni f (AZ env :: args) (vm s)))).
Proof. unfold call, trigger. cbn. by destruct (jni f _ _). Qed.

Lemma run_call_ env f args s :
  run (call_ env f args) s = (tt, set_vm s [f] (snd (jni f (AZ env :: args) (vm s)))).
Proof. unfold call_. by rewrite run_bind, run_call. Qed.

Lemma run_peek w p i s : run (trigger (EPeek w p i)) s = (peek w p i (vm s), s).
Proof. reflexivity. Qed.

Lemma run_poke w p i x s :
  run (trigger (EPoke w p i x)) s = (tt, set_vm s [] (poke w p i x (vm s))).
Proof. reflexivity. Qed.

(** Running never un-counts a failure or a pass, nor forgets a call. *)
Definition grows (s s' : St VM) : Prop :=
  g_pass s <= g_pass s' /\ g_fail s <= g_fail s' /\ g_skip s <= g_skip s' /\
  called s `prefix_of` called s'.

#[local] Instance grows_preorder : PreOrder grows.
Proof.
  split.
  - intros s. repeat split; lia || reflexivity.
  - intros a b c (?&?&?&?) (?&?&?&?). repeat split; lia || by etrans.
Qed.

Lemma handle_grows {X} (e : effect X) s : grows s (snd (handle e s)).
Proof.
  destruct e; cbn; try destruct (jni _ _ _); try destruct (jni_out _ _ _ _);
    try destruct (invoke _ _ _); cbn; repeat split; cbn; lia || apply prefix_app_r || idtac;
    reflexivity.
Qed.

Lemma run_grows {A} (m : jprog A) s : grows s (snd (run m s)).
Proof.
  revert s. induction m as [a|X e k IH]; intros s; [reflexivity|].
  cbn. pose proof (handle_grows e s) as He. destruct (handle e s) as [x s'].
  etrans; [exact He|apply IH].
Qed.

(** ** Counting

    [full n k L m]: a run of [m] that records no failure records exactly [n]
    passes and [k] skips, and calls every function of [L]. *)
Definition full {A} (n k : Z) (L : list string) (m : jprog A) : Prop :=
  forall s, let s' := snd (run m s) in
    g_fail s' = g_fail s ->
    g_pass s' = g_pass s + n /\ g_skip s' = g_skip s + k /\
    exists l, called s' = called s ++ l /\ L ⊆ l.

Lemma full_ret {A} (a : A) : full 0 0 [] (mret a).
Proof.
  intros s s' _. cbn in *. repeat split; [lia..|]. exists []. by rewrite app_nil_r.
Qed.

Lemma full_bind {A B} n1 n2 k1 k2 L1 L2 (m : jprog A) (f : A -> jprog B) :
  full n1 k1 L1 m -> (forall a, full n2 k2 L2 (f a)) ->
  full (n1 + n2) (k1 + k2) (L1 ++ L2) (jbind m f).
Proof.
  intros Hm Hf s. cbn zeta. rewrite run_bind. intros E.
  destruct (run_grows m s) as (_&Hf1&_).
  destruct (run_grows (f (fst (run m s))) (snd (run m s))) as (_&Hf2&_).
  destruct (Hm s) as (P1&S1&l1&C1&I1); [lia|].
  destruct (Hf (fst (run m s)) (snd (run m s))) as (P2&S2&l2&C2&I2); [lia|].
  split; [lia|split; [lia|]].
  exists (l1 ++ l2). rewrite C2, C1, app_assoc. split; [done|].
  intros x Hx. apply elem_of_app in Hx as [Hx|Hx]; apply elem_of_app; auto.
Qed.

Lemma full_sub {A} n k L L' (m : jprog A) : full n k L m -> L' ⊆ L -> full n k L' m.
Proof.
  intros Hm HL s s' E. destruct (Hm s E) as (?&?&l&?&?). repeat split; [done..|].
  exists l. split; [done|]. by etrans.
Qed.

Lemma full_call env f args : full 0 0 [f] (call env f args).
Proof.
  intros s s' _. subst s'. cbn. destruct (jni f _ (vm s)). cbn.
  repeat split; [lia..|]. by exists [f].
Qed.

Lemma full_callOut env f args buf : full 0 0 [f] (callOut env f args buf).
Proof.
  intros s s' _. subst s'. cbn. destruct (jni_out f _ buf (vm s)). cbn.
  repeat split; [lia..|]. by exists [f].
Qed.

Lemma full_pass : full 1 0 [] (trigger EPass).
Proof. intros s s' _. cbn in *. repeat split; [lia..|]. exists []. by rewrite app_nil_r. Qed.

Lemma full_fail n k L : full n k L (trigger EFail).
Proof. intros s s' E. cbn in E. lia. Qed.

Lemma full_skip : full 0 1 [] (trigger ESkip).
Proof. intros s s' _. cbn in *. repeat split; [lia..|]. exists []. by rewrite app_nil_r. Qed.

(** An effect that neither counts nor calls through the [JNIEnv] table. *)
Definition silent {X} (e : effect X) : bool :=
  match e with
  | EInvoke _ _ | EPeek _ _ _ | EPoke _ _ _ _ | EPast _ | EGvm | EDladdr _ | EOut _ => true
  | _ => false
  end.

Lemma full_silent {X} (e : effect X) : silent e = true -> full 0 0 [] (trigger e).
Proof.
  intros Hs s s' _. subst s'. destruct e; try discriminate Hs; cbn;
    try destruct (invoke _ _ _); cbn; repeat split; try lia; exists []; by rewrite ?app_nil_r.
Qed.

(** After a failure nothing is left to prove of the rest. *)
Lemma full_fail_bind {B} n k L (f : unit -> jprog B) : full n k L (jbind (trigger EFail) f).
Proof.
  intros s. cbn zeta. rewrite run_bind. intros E.
  pose proof (run_grows (f tt) (snd (run (trigger EFail) s))) as (_&Hf&_).
  change (fst (run (trigger EFail) s)) with tt in E. cbn in Hf, E. lia.
Qed.

Lemma full_if {A} (b : bool) n k L (m1 m2 : jprog A) :
  full n k L m1 -> full n k L m2 -> full n k L (if b then m1 else m2).
Proof. by destruct b. Qed.

Lemma full_nil {A} n k L (m : jprog A) : full n k L m -> full n k [] m.
Proof. intros Hm. eapply full_sub; [exact Hm|]. intros x Hx. inversion Hx. Qed.

Lemma full_call_ env f args : full 0 0 [f] (call_ env f args).
Proof. exact (full_bind 0 0 0 0 [f] [] _ _ (full_call env f args) (fun _ => full_ret tt)). Qed.

Lemma full_if_nil {A} (b : bool) n1 k1 L1 n2 k2 L2 (m1 m2 : jprog A) :
  full n1 k1 L1 m1 -> n1 = 0 -> k1 = 0 -> full n2 k2 L2 m2 -> n2 = 0 -> k2 = 0 ->
  full 0 0 [] (if b then m1 else m2).
Proof. intros ? -> -> ? -> ->. destruct b; eauto using full_nil. Qed.

Lemma full_when b n k L m : full n k L m -> n = 0 -> k = 0 -> full 0 0 [] (when b m).
Proof. intros Hm ? ?. eapply full_if_nil; eauto using full_ret. Qed.

(** [only P m]: [m] calls no table function outside [P], whatever the VM. *)
Definition allows (P : string -> bool) {X} (e : effect X) : bool :=
  match e with
  | EJni f _ | EJniOut f _ _ => P f
  | _ => true
  end.

Fixpoint only (P : string -> bool) {A} (m : jprog A) : Prop :=
  match m with
  | Ret _ => True
  | Vis e k => allows P e = true /\ forall x, only P (k x)
  end.

Lemma only_bind P {A B} (m : jprog A) (f : A -> jprog B) :
  only P m -> (forall a, only P (f a)) -> only P (jbind m f).
Proof.
  intros Hm Hf. induction m as [a|X e k IH]; cbn in *; [apply Hf|].
  destruct Hm as [He Hk]. split; [done|]. intros x. apply IH, Hk.
Qed.

Lemma only_trigger P {X} (e : effect X) : allows P e = true -> only P (trigger e).
Proof. intros He. split; [done|]. intros x. exact I. Qed.

Lemma only_if P {A} (b : bool) (m1 m2 : jprog A) :
  only P m1 -> only P m2 -> only P (if b then m1 else m2).
Proof. by destruct b. Qed.

Lemma handle_only P {X} (e : effect X) s :
  allows P e = true ->
  exists l, called (snd (handle e s)) = called s ++ l /\ forallb P l = true.
Proof.
  intros He. destruct e; cbn in *; try destruct (jni _ _ _); try destruct (jni_out _ _ _ _);
    try destruct (invoke _ _ _); cbn;
    first [by exists [f]; split; [|cbn; rewrite He] | exists []; by rewrite app_nil_r].
Qed.

Lemma run_only P {A} (m : jprog A) s :
  only P m -> exists l, called (snd (run m s)) = called s ++ l /\ forallb P l = true.
Proof.
  revert s. induction m as [a|X e k IH]; intros s Hm; cbn in *.
  - exists []. by rewrite app_nil_r.
  - destruct Hm as [He Hk]. destruct (handle_only P e s He) as (l1&C1&P1).
    destruct (handle e s) as [x s']. destruct (IH x s' (Hk x)) as (l2&C2&P2).
    exists (l1 ++ l2). cbn in *. by rewrite C2, C1, app_assoc, forallb_app, P1, P2.
Qed.

End run.

Ltac run_step :=
  rewrite ?run_bind, ?run_call, ?run_call_, ?run_peek, ?run_poke; cbn [fst snd vm set_vm].

(** ** Primitive arrays

    What native code may rely on for arrays of one primitive type, [w] bytes
    per element (JNI specification, array operations): [arr] is the contents
    of the array behind a reference, [oid] the identity of its object, [nbuf]
    the object and contents of a buffer handed out.  A buffer may be a copy or
    the array's own memory: between the two calls the array's contents are
    left open.  Running out of memory is excluded. *)
Class Arrays (VM : Type) `{JavaVM VM} (T : string) (w : Z) := {
  arr : VM -> Z -> option (list Z);
  oid : VM -> Z -> Z;
  nbuf : VM -> Z -> option (Z * list Z);
  arr_length env v a l :
    arr v a = Some l ->
    let '(n, v') := jni "GetArrayLength" [AZ env; AZ a] v in
    n = Z.of_nat (length l) /\ arr v' = arr v /\ oid v' = oid v /\ nbuf v' = nbuf v;
  arr_elements env v a l :
    arr v a = Some l ->
    let '(p, v') := jni ("Get" ++s T ++s "ArrayElements") [AZ env; AZ a; AZ 0] v in
    nbuf v p = None /\ nbuf v' p = Some (oid v a, l) /\
    (forall q, q <> p -> nbuf v' q = nbuf v q) /\ arr v' = arr v /\ oid v' = oid v;
  arr_new env v n :
    0 <= n ->
    let '(a, v') := jni ("New" ++s T ++s "Array") [AZ env; AZ n] v in
    arr v' a = Some (repeat 0 (Z.to_nat n)) /\ nbuf v' = nbuf v /\
    forall b l, arr v b = Some l ->
      arr v' b = Some l /\ oid v' b = oid v b /\ oid v' a <> oid v b;
  arr_peek v p o l i :
    nbuf v p = Some (o, l) -> 0 <= i < Z.of_nat (length l) -> peek w p i v = nthZ l i;
  arr_poke v p o l i x :
    nbuf v p = Some (o, l) -> 0 <= i < Z.of_nat (length l) ->
    let v' := poke w p i x v in
    nbuf v' p = Some (o, <[Z.to_nat i := x]> l) /\ (forall q, q <> p -> nbuf v' q = nbuf v q) /\
    oid v' = oid v /\ (forall a, oid v a <> o -> arr v' a = arr v a) /\
    (forall a, is_Some (arr v a) -> is_Some (arr v' a));
  arr_release env v a p l :
    is_Some (arr v a) -> nbuf v p = Some (oid v a, l) ->
    let '(_, v') := jni ("Release" ++s T ++s "ArrayElements") [AZ env; AZ a; AZ p; AZ 0] v in
    arr v' a = Some l /\ (forall b, oid v b <> oid v a -> arr v' b = arr v b) /\
    oid v' = oid v /\ (forall q, q <> p -> nbuf v' q = nbuf v q);
  arr_abort env v a p l :
    is_Some (arr v a) -> nbuf v p = Some (oid v a, l) ->
    let '(_, v') := jni ("Release" ++s T ++s "ArrayElements") [AZ env; AZ a; AZ p; AZ 2] v in
    arr v' = arr v /\ oid v' = oid v /\ (forall q, q <> p -> nbuf v' q = nbuf v q);
}.

Arguments full {VM _ A} n k L m.
