(* ===== verification/FixtureVm.v ===== *)
(** * FixtureVm: a small Java VM for the test fixtures

    An executable instance of [JavaVM]: a heap of objects behind handles,
    the classes of test/jni_fulltest/src (Target, SubTarget, Calc, CalcImpl,
    Temp) with their fields and methods, pending exceptions, buffers handed
    out to native code.  It is not the VM of any device: it shows that the
    hypotheses about a VM can hold, and runs the native library in witnesses. *)

From S2P Require Import Prelude GoStr Jvm.

Inductive obj :=
  | OClass (name : string)
  | OInst (cls : string)
  | OStr (s : list Z)
  | OArr (l : list Z)
  | OObjArr (l : list Z)
  | ODirect (addr cap : Z)
  | OMember (id : Z).

(** Handles give a reference kind and an object; fields belong to an object
    (statics to the class); buffers to the object they were taken from. *)
Record fvm := Fvm {
  refs : gmap Z (Z * Z);
  heap : gmap Z obj;
  fields : gmap (Z * string) Z;
  exc : Z;
  bufs : gmap Z (Z * list Z);
  natives : list (string * string * string)
}.

Definition set_refs v x := Fvm x (heap v) (fields v) (exc v) (bufs v) (natives v).
Definition set_heap v x := Fvm (refs v) x (fields v) (exc v) (bufs v) (natives v).
Definition set_fields v x := Fvm (refs v) (heap v) x (exc v) (bufs v) (natives v).
Definition set_exc v x := Fvm (refs v) (heap v) (fields v) x (bufs v) (natives v).
Definition set_bufs v x := Fvm (refs v) (heap v) (fields v) (exc v) x (natives v).
Definition set_natives v x := Fvm (refs v) (heap v) (fields v) (exc v) (bufs v) x.

(** A positive key that is not in use. *)
Definition newkey {A} (m : gmap Z A) : Z := 1 + map_fold (fun k _ acc => Z.max k acc) 0 m.

Lemma newkey_above {A} (m : gmap Z A) k x : m !! k = Some x -> k < newkey m.
Proof.
  unfold newkey. revert k x. apply (map_fold_weak_ind (fun acc (m : gmap Z A) =>
    forall k x, m !! k = Some x -> k < 1 + acc)).
  - intros k x E. rewrite lookup_empty in E. discriminate.
  - intros i y m' acc Hi IH k x E. destruct (decide (i = k)) as [->|Hne]; [lia|].
    rewrite lookup_insert_ne in E by done. apply IH in E. lia.
Qed.

Lemma newkey_None {A} (m : gmap Z A) : m !! newkey m = None.
Proof. destruct (m !! newkey m) as [x|] eqn:E; [apply newkey_above in E; lia|done]. Qed.

Lemma newkey_pos {A} (m : gmap Z A) : 0 < newkey m.
Proof.
  unfold newkey. apply (map_fold_weak_ind (fun acc _ => 0 < 1 + acc)); lia.
Qed.

Definition new_obj (o : obj) (v : fvm) : Z * fvm :=
  let k := newkey (heap v) in (k, set_heap v (<[k := o]> (heap v))).
Definition new_ref (kind o : Z) (v : fvm) : Z * fvm :=
  if o =? 0 then (0, v)
  else let k := newkey (refs v) in (k, set_refs v (<[k := (kind, o)]> (refs v))).
Definition new_local (x : obj) (v : fvm) : Z * fvm :=
  let '(o, v) := new_obj x v in new_ref 1 o v.
Definition new_buf (o : Z) (l : list Z) (v : fvm) : Z * fvm :=
  let k := newkey (bufs v) in (k, set_bufs v (<[k := (o, l)]> (bufs v))).

Definition oid_of (v : fvm) (r : Z) : Z := default 0 (snd <$> refs v !! r).
Definition arr_of (v : fvm) (r : Z) : option (list Z) :=
  match refs v !! r with
  | Some (_, o) => match heap v !! o with Some (OArr l) => Some l | _ => None end
  | None => None
  end.

Definition Object : string := "java/lang/Object".
Definition Target : string := "com/test/jnifull/Target".

(** Each class with the classes and interfaces it can be cast to, the first
    after itself being its superclass. *)
Definition class_table : list (string * list string) := [
  (Object, []);
  (Target, [Object]);
  ("com/test/jnifull/SubTarget", [Target; Object]);
  ("com/test/jnifull/Calc", [Object]);
  ("com/test/jnifull/CalcImpl", [Object; "com/test/jnifull/Calc"]);
  ("com/test/jnifull/Temp", [Object]);
  ("com/test/jnifull/NativeTest", [Object]);
  ("java/lang/String", [Object]);
  ("java/lang/IllegalStateException", [Object])
].

Fixpoint assoc {A} (k : string) (l : list (string * A)) : option A :=
  match l with
  | [] => None
  | (k', x) :: l' => if String.eqb k k' then Some x else assoc k l'
  end.

Fixpoint index_of {A} (p : A -> bool) (l : list A) (i : Z) : Z :=
  match l with
  | [] => 0
  | x :: l' => if p x then i else index_of p l' (i + 1)
  end.

(** Class objects are the first objects of the heap, in the table's order. *)
Definition class_oid (n : string) : Z := index_of (fun e => String.eqb n (fst e)) class_table 1.
Definition supers (n : string) : list string := n :: default [] (assoc n class_table).

Definition class_of (v : fvm) (o : Z) : string :=
  match heap v !! o with
  | Some (OInst c) => c
  | Some (OStr _) => "java/lang/String"
  | _ => Object
  end.
Definition class_name (v : fvm) (o : Z) : string :=
  match heap v !! o with Some (OClass n) => n | _ => EmptyString end.

(** Instance and static fields of Target, with the oids 100 to 103 of the
    string constants. *)
Definition inst_fields : list (string * Z) := [
  ("ifield", 11); ("lfield", 12); ("sfield", 13); ("bfield", 14); ("cfield", 90); ("zfield", 1);
  ("ffield", 0x3FC00000); ("dfield", 0x4004000000000000); ("strfield", 100); ("objfield", 101)
].
Definition static_fields : list (string * Z) := [
  ("sifield", 21); ("slfield", 22); ("ssfield", 23); ("sbfield", 24); ("scfield", 89); ("szfield", 0);
  ("sffield", 0x40600000); ("sdffield", 0x4012000000000000); ("sstrfield", 102); ("sobjfield", 103)
].
Definition field_names : list string := map fst (inst_fields ++ static_fields).

(** The methods the fixtures declare: class, name, signature; a getter's
    field. *)
Definition method_table : list (string * string * string) := ([(Target, "<init>", "()V"); (Target, "<init>", "(I)V");
   ("com/test/jnifull/SubTarget", "<init>", "()V");
   ("java/lang/IllegalStateException", "<init>", "(Ljava/lang/String;)V");
   ("com/test/jnifull/CalcImpl", "<init>", "()V"); ("com/test/jnifull/Calc", "add", "(II)I");
   ("com/test/jnifull/Temp", "tempNative", "(I)I");
   (Target, "setIntV", "(I)V"); (Target, "virtualName", "()Ljava/lang/String;");
   (Target, "addInts", "(II)I"); (Target, "syncMethod", "()V"); (Target, "sNoop", "()V");
   (Target, "sAdd", "(II)I")] ++
  map (fun '(n, s) => (Target, n, s))
   [("getObjectR", "()Ljava/lang/Object;"); ("getBooleanR", "()Z"); ("getByteR", "()B");
    ("getCharR", "()C"); ("getShortR", "()S"); ("getIntR", "()I"); ("getLongR", "()J");
    ("getFloatR", "()F"); ("getDoubleR", "()D"); ("sGetObjectR", "()Ljava/lang/Object;");
    ("sGetBooleanR", "()Z"); ("sGetByteR", "()B"); ("sGetCharR", "()C"); ("sGetShortR", "()S");
    ("sGetIntR", "()I"); ("sGetLongR", "()J"); ("sGetFloatR", "()F"); ("sGetDoubleR", "()D")])%list.
Definition getters : list (string * string) := [
  ("getObjectR", "objfield"); ("getBooleanR", "zfield"); ("getByteR", "bfield");
  ("getCharR", "cfield"); ("getShortR", "sfield"); ("getIntR", "ifield"); ("getLongR", "lfield");
  ("getFloatR", "ffield"); ("getDoubleR", "dfield"); ("sGetObjectR", "sobjfield");
  ("sGetBooleanR", "szfield"); ("sGetByteR", "sbfield"); ("sGetCharR", "scfield");
  ("sGetShortR", "ssfield"); ("sGetIntR", "sifield"); ("sGetLongR", "slfield");
  ("sGetFloatR", "sffield"); ("sGetDoubleR", "sdffield")
].

Definition str (s : string) : list Z := map code (String.list_ascii_of_string s).

(** The VM after start-up. *)
Definition fvm0 : fvm :=
  let classes := imap (fun i e => (Z.of_nat i + 1, OClass (fst e))) class_table in
  Fvm ∅
    (list_to_map (classes ++ [(100, OStr (str "inst")); (101, OStr (str "obj-inst"));
                              (102, OStr (str "static-str")); (103, OStr (str "obj-static"))]))
    (list_to_map (map (fun '(f, x) => ((class_oid Target, f), x)) static_fields)) 0 ∅ [].

Definition nth_id {A} (l : list A) (id : Z) : option A :=
  if id <? 1 then None else nth_error l (Z.to_nat (id - 1)).

Definition throw (v : fvm) : fvm :=
  let '(o, v) := new_obj (OInst "java/lang/IllegalStateException") v in set_exc v o.

Definition flat (args : list jarg) : list Z :=
  flat_map (fun a => match a with AZ z => [z] | AVa l | AVal l => l | _ => [] end) args.

Section vm.
(** The native functions that can be registered, by symbol. *)
Context (fn : string -> list Z -> option Z).

Definition method_name (id : Z) : string :=
  match nth_id method_table id with Some (_, n, _) => n | None => EmptyString end.

(** Runs a method on an object (its class for a static one); [dyn] is the
    class a virtual call dispatches on. *)
Definition exec (dyn : string) (o id : Z) (xs : list Z) (v : fvm) : Z * fvm :=
  let n := method_name id in
  match assoc n getters with
  | Some f => (default 0 (fields v !! (o, f)), v)
  | None =>
      if String.eqb n "setIntV" then (0, set_fields v (<[(o, "ifield") := nthZ xs 0]> (fields v)))
      else if String.eqb n "virtualName" then
        new_obj (OStr (str (if String.eqb dyn Target then "Target.virtual" else "Sub.virtual"))) v
      else if existsb (String.eqb n) ["addInts"; "sAdd"; "add"]
      then (nthZ xs 0 + nthZ xs 1, v)
      else if String.eqb n "tempNative" then
        match natives v with
        | (_, _, sym) :: _ => (default 0 (fn sym xs), v)
        | [] => (0, throw v)
        end
      else (0, v)
  end.

(** An [Object] result leaves the VM as a local reference. *)
Definition export (f : string) (r : Z * fvm) : Z * fvm :=
  if Contains f "Object" then new_ref 1 (fst r) (snd r) else r.

Definition new_object (c id : Z) (xs : list Z) (v : fvm) : Z * fvm :=
  let n := class_name v c in
  let '(o, v) := new_obj (OInst n) v in
  let v := if existsb (String.eqb Target) (supers n)
           then set_fields v (list_to_map (map (fun '(f, x) => ((o, f), x)) inst_fields) ∪ fields v)
           else v in
  let v := match xs with
           | [x] => if String.eqb n Target then set_fields v (<[(o, "ifield") := x]> (fields v)) else v
           | _ => v
           end in
  new_ref 1 o v.

(** The functions that are not one of a family. *)
Definition table : list (string * (list jarg -> fvm -> Z * fvm)) := [
  ("GetVersion", fun _ v => (0x00010006, v));
  ("FindClass", fun a v =>
     match a with
     | [AS n] => if class_oid n =? 0 then (0, throw v) else new_ref 1 (class_oid n) v
     | _ => (0, v) end);
  ("DefineClass", fun _ v => (0, throw v));
  ("GetSuperclass", fun a v =>
     new_ref 1 (match assoc (class_name v (oid_of v (nthZ (flat a) 0))) class_table with
                | Some (s :: _) => class_oid s | _ => 0 end) v);
  ("IsSameObject", fun a v =>
     (Z.b2z (oid_of v (nthZ (flat a) 0) =? oid_of v (nthZ (flat a) 1)), v));
  ("IsAssignableFrom", fun a v =>
     (Z.b2z (existsb (String.eqb (class_name v (oid_of v (nthZ (flat a) 1))))
        (supers (class_name v (oid_of v (nthZ (flat a) 0))))), v));
  ("IsInstanceOf", fun a v =>
     (Z.b2z (existsb (String.eqb (class_name v (oid_of v (nthZ (flat a) 1))))
        (supers (class_of v (oid_of v (nthZ (flat a) 0))))), v));
  ("ExceptionCheck", fun _ v => (Z.b2z (negb (exc v =? 0)), v));
  ("ExceptionOccurred", fun _ v => new_ref 1 (exc v) v);
  ("ExceptionDescribe", fun _ v => (0, v));
  ("ExceptionClear", fun _ v => (0, set_exc v 0));
  ("ThrowNew", fun _ v => (0, throw v));
  ("Throw", fun a v => (0, set_exc v (oid_of v (nthZ (flat a) 0))));
  ("NewObject", fun a v => new_object (oid_of v (nthZ (flat a) 0)) (nthZ (flat a) 1) (skipn 2 (flat a)) v);
  ("NewObjectV", fun a v => new_object (oid_of v (nthZ (flat a) 0)) (nthZ (flat a) 1) (skipn 2 (flat a)) v);
  ("NewObjectA", fun a v => new_object (oid_of v (nthZ (flat a) 0)) (nthZ (flat a) 1) (skipn 2 (flat a)) v);
  ("AllocObject", fun a v => new_local (OInst (class_name v (oid_of v (nthZ (flat a) 0)))) v);
  ("GetObjectClass", fun a v => new_ref 1 (class_oid (class_of v (oid_of v (nthZ (flat a) 0)))) v);
  ("NewGlobalRef", fun a v => new_ref 2 (oid_of v (nthZ (flat a) 0)) v);
  ("NewLocalRef", fun a v => new_ref 1 (oid_of v (nthZ (flat a) 0)) v);
  ("NewWeakGlobalRef", fun a v => new_ref 3 (oid_of v (nthZ (flat a) 0)) v);
  ("PopLocalFrame", fun a v => new_ref 1 (oid_of v (nthZ (flat a) 0)) v);
  ("GetObjectRefType", fun a v => (default 0 (fst <$> refs v !! nthZ (flat a) 0), v));
  ("NewStringUTF", fun a v => match a with [AS s] => new_local (OStr (str s)) v | _ => (0, v) end);
  ("NewString", fun a v => match a with ABuf l :: _ => new_local (OStr l) v | _ => (0, v) end);
  ("NewDirectByteBuffer", fun a v => new_local (ODirect (nthZ (flat a) 0) (nthZ (flat a) 1)) v);
  ("GetDirectBufferAddress", fun a v =>
     (match heap v !! oid_of v (nthZ (flat a) 0) with Some (ODirect p _) => p | _ => 0 end, v));
  ("GetDirectBufferCapacity", fun a v =>
     (match heap v !! oid_of v (nthZ (flat a) 0) with Some (ODirect _ c) => c | _ => -1 end, v));
  ("ToReflectedMethod", fun a v => new_local (OMember (nthZ (flat a) 1)) v);
  ("ToReflectedField", fun a v => new_local (OMember (nthZ (flat a) 1)) v);
  ("NewObjectArray", fun a v => new_local (OObjArr (repeat (oid_of v (nthZ (flat a) 2)) (Z.to_nat (nthZ (flat a) 0)))) v);
  ("SetObjectArrayElement", fun a v =>
     let o := oid_of v (nthZ (flat a) 0) in
     match heap v !! o with
     | Some (OObjArr l) =>
         (0, set_heap v (<[o := OObjArr (<[Z.to_nat (nthZ (flat a) 1) := oid_of v (nthZ (flat a) 2)]> l)]> (heap v)))
     | _ => (0, v) end);
  ("GetObjectArrayElement", fun a v =>
     match heap v !! oid_of v (nthZ (flat a) 0) with
     | Some (OObjArr l) => new_ref 1 (nthZ l (nthZ (flat a) 1)) v
     | _ => (0, v) end);
  ("RegisterNatives", fun a v =>
     match a with [_; AMeth ms; _] => (0, set_natives v ms) | _ => (-1, v) end);
  ("UnregisterNatives", fun _ v => (0, set_natives v []))
].

Definition member_id (f : string) (a : list jarg) (v : fvm) : Z * fvm :=
  match a with
  | [AZ c; AS n; AS sig] =>
      let id := if Contains f "Field" then index_of (String.eqb n) field_names 1
        else index_of (fun '(c', n', s') => String.eqb (class_name v (oid_of v c)) c'
               && String.eqb n n' && String.eqb sig s') method_table 1 in
      if id =? 0 then (0, throw v) else (id, v)
  | _ => (0, v)
  end.

(** Get and Set of a field: an [Object] value is stored as its object. *)
Definition field_access (f : string) (xs : list Z) (v : fvm) : Z * fvm :=
  let o := oid_of v (nthZ xs 0) in
  match nth_id field_names (nthZ xs 1) with
  | Some n =>
      if HasPrefix f "Get" then export f (default 0 (fields v !! (o, n)), v)
      else let x := if Contains f "Object" then oid_of v (nthZ xs 2) else nthZ xs 2 in
        (0, set_fields v (<[(o, n) := x]> (fields v)))
  | None => (0, v)
  end.

(** The elements of an array or string as native code sees them. *)
Definition elements (v : fvm) (r : Z) : list Z :=
  match heap v !! oid_of v r with
  | Some (OArr l) => l
  | Some (OStr l) => l ++ [0]
  | _ => []
  end.

Definition release (xs : list Z) (v : fvm) : Z * fvm :=
  let o := oid_of v (nthZ xs 0) in
  match bufs v !! nthZ xs 1, nthZ xs 2 =? 2 with
  | Some (_, l), false => (0, set_bufs (set_heap v (<[o := OArr l]> (heap v))) (delete (nthZ xs 1) (bufs v)))
  | _, _ => (0, set_bufs v (delete (nthZ xs 1) (bufs v)))
  end.

Definition arrays (f : string) (a : list jarg) (v : fvm) : Z * fvm :=
  let r := nthZ (flat a) 0 in
  if String.eqb f "GetArrayLength" then (Z.of_nat (length (elements v r)), v)
  else if HasPrefix f "New" then new_local (OArr (repeat 0 (Z.to_nat r))) v
  else if HasPrefix f "Release" then release (flat a) v
  else if HasSuffix f "Region" then
    match a with
    | [_; _; _; ABuf l] => (0, set_heap v (<[oid_of v r := OArr l]> (heap v)))
    | _ => (0, v)
    end
  else new_buf (oid_of v r) (elements v r) v.

Definition strings (f : string) (a : list jarg) (v : fvm) : Z * fvm :=
  let r := nthZ (flat a) 0 in
  if HasSuffix f "Length" then (Z.of_nat (length (elements v r)) - 1, v)
  else if HasPrefix f "Release" then (0, set_bufs v (delete (nthZ (flat a) 1) (bufs v)))
  else new_buf (oid_of v r) (elements v r) v.

Definition fvm_jni (f : string) (args : list jarg) (v : fvm) : Z * fvm :=
  let a := skipn 1 args in
  let xs := flat a in
  let o := oid_of v (nthZ xs 0) in
  if HasPrefix f "CallNonvirtual" then
    export f (exec (class_name v (oid_of v (nthZ xs 1))) o (nthZ xs 2) (skipn 3 xs) v)
  else if HasPrefix f "Call" then export f (exec (class_of v o) o (nthZ xs 1) (skipn 2 xs) v)
  else match assoc f table with
  | Some h => h a v
  | None =>
      if Contains f "FromReflected" then
        (match heap v !! o with Some (OMember id) => id | _ => 0 end, v)
      else if HasSuffix f "ID" then member_id f a v
      else if HasSuffix f "Field" then field_access f xs v
      else if Contains f "Array" then arrays f a v
      else if Contains f "String" then strings f a v
      else (0, v)
  end.

(** Regions are copied into the caller's buffer. *)
Definition fvm_out (f : string) (args : list jarg) (buf : list Z) (v : fvm) : (Z * list Z) * fvm :=
  if String.eqb f "GetJavaVM" then ((0, [7]), v)
  else let l := firstn (length buf) (elements v (nthZ (flat args) 1)) in
    ((0, l ++ skipn (length l) buf), v).

#[export] Instance fixture : JavaVM fvm := {
  jni := fvm_jni;
  jni_out := fvm_out;
  invoke f args v := ((0, 5), v);
  peek w p i v := match bufs v !! p with Some (_, l) => nthZ l i | None => 0 end;
  poke w p i x v :=
    match bufs v !! p with
    | Some (o, l) => set_bufs v (<[p := (o, <[Z.to_nat i := x]> l)]> (bufs v))
    | None => v
    end;
  past_table k v := 0;
  dladdr a v := Some (Some "/data/local/tmp/libjnifull.so", 0x1000)
}.


(** ** The fixture VM keeps the array rules *)

Lemma arr_of_some v a l :
  arr_of v a = Some l <-> exists k, refs v !! a = Some (k, oid_of v a) /\ heap v !! oid_of v a = Some (OArr l).
Proof.
  unfold arr_of, oid_of. destruct (refs v !! a) as [[k o]|]; cbn.
  - destruct (heap v !! o) as [[]|] eqn:E; split; intros Hx; try destruct Hx as (?&?&?);
      try congruence. simplify_eq. eauto.
  - split; [done|]. by intros (?&?&?).
Qed.

Lemma elements_arr v a l : arr_of v a = Some l -> elements v a = l.
Proof. intros (k&_&E)%arr_of_some. unfold elements. by rewrite E. Qed.

Lemma new_array v n :
  let '(a, v') := new_local (OArr (repeat 0 n)) v in
  arr_of v' a = Some (repeat 0 n) /\ bufs v' = bufs v /\
  forall b l, arr_of v b = Some l ->
    arr_of v' b = Some l /\ oid_of v' b = oid_of v b /\ oid_of v' a <> oid_of v b.
Proof.
  unfold new_local, new_obj, new_ref. pose proof (newkey_pos (heap v)).
  destruct (Z.eqb_spec (newkey (heap v)) 0); [lia|]. cbn.
  split; [|split; [done|]].
  - unfold arr_of. cbn. by rewrite !lookup_insert_eq.
  - intros b l (k&Hr&Ho)%arr_of_some. pose proof (newkey_above _ _ _ Hr) as Hb.
    pose proof (newkey_above _ _ _ Ho) as Hl.
    unfold arr_of, oid_of in *. cbn. rewrite lookup_insert_eq, lookup_insert_ne, Hr by lia. cbn.
    rewrite lookup_insert_ne by (rewrite Hr in Hl; cbn in Hl; lia). rewrite Hr in *. cbn in *.
    rewrite Ho. repeat split. lia.
Qed.

Lemma release_abort v a p l : bufs v !! p = Some (oid_of v a, l) ->
  let '(_, v') := release [a; p; 2] v in
  refs v' = refs v /\ heap v' = heap v /\ forall q, q <> p -> bufs v' !! q = bufs v !! q.
Proof.
  intros E. unfold release. change (nthZ [a; p; 2] 1) with p. rewrite E. repeat split. intros q Hq.
  change (delete p (bufs v) !! q = bufs v !! q). by rewrite lookup_delete_ne.
Qed.

Lemma release_copy v a p l : is_Some (arr_of v a) -> bufs v !! p = Some (oid_of v a, l) ->
  let '(_, v') := release [a; p; 0] v in
  arr_of v' a = Some l /\ (forall b, oid_of v b <> oid_of v a -> arr_of v' b = arr_of v b) /\
  oid_of v' = oid_of v /\ forall q, q <> p -> bufs v' !! q = bufs v !! q.
Proof.
  intros [l0 (k&Hr&_)%arr_of_some] E. unfold release. change (nthZ [a; p; 0] 1) with p.
  change (nthZ [a; p; 0] 0) with a. rewrite E. cbn. split; [|split; [|split]].
  - unfold arr_of, oid_of in *. cbn. rewrite Hr. cbn. by rewrite lookup_insert_eq.
  - intros b Hb. unfold arr_of, oid_of in *. cbn. destruct (refs v !! b) as [[kb ob]|]; [|done].
    cbn in Hb. rewrite Hr in *. cbn in *. by rewrite lookup_insert_ne by congruence.
  - done.
  - intros q Hq. change (delete p (bufs v) !! q = bufs v !! q). by rewrite lookup_delete_ne.
Qed.

(** One instance per primitive type the native methods use. *)
Ltac fixture_arrays :=
  unshelve refine {| arr := arr_of; oid := oid_of; nbuf v p := bufs v !! p |}; cbn [jni peek poke fixture];
  [ intros env v a l Ha;
    change (fvm_jni _ _ v) with (Z.of_nat (length (elements v a)), v); by rewrite (elements_arr _ _ _ Ha)
  | intros env v a l Ha; change (fvm_jni _ _ v) with (new_buf (oid_of v a) (elements v a) v);
    rewrite (elements_arr _ _ _ Ha); unfold new_buf; cbn; repeat split;
    [apply newkey_None|by rewrite lookup_insert_eq|intros q Hq; by rewrite lookup_insert_ne]
  | intros env v n _; generalize (new_array v (Z.to_nat n));
    change (fvm_jni _ _ v) with (new_local (OArr (repeat 0 (Z.to_nat n))) v);
    destruct (new_local _ v) as [a v']; intros (?&Hb&?); by rewrite Hb
  | intros v p o l i E _; by rewrite E
  | intros v p o l i x E _; rewrite E; cbn; rewrite lookup_insert_eq; repeat split; try done;
    intros q Hq; by rewrite lookup_insert_ne
  | intros env v a p l; exact (release_copy v a p l)
  | intros env v a p l _ E; generalize (release_abort v a p l E);
    change (fvm_jni _ _ v) with (release [a; p; 2] v); destruct (release _ v) as [r v'];
    intros (Hr & Hh & Hb); split; [|split; [|exact Hb]]; unfold arr_of, oid_of;
    rewrite ?Hr, ?Hh; reflexivity ].

#[export] Instance fixture_ints : Arrays fvm "Int" 4.
Proof. fixture_arrays. Defined.

#[export] Instance fixture_longs : Arrays fvm "Long" 8.
Proof. fixture_arrays. Defined.

End vm.
