(* ===== verification/JniFull.v ===== *)
(** * JniFull: test/jni_fulltest/cpp/jnifull.c

    The native test library that drives the tracer: a run through the whole
    [JNINativeInterface] table with a verdict per call, and the native methods
    the Java side calls.  Every definition is a [jprog] over the [JavaVM]
    interface; [env] is the thread's [JNIEnv*].  The macros of the file keep
    their names, the stages of [run_all_tests] are numbered as its output is.
    A thread that is created and joined at once is a call.  Floats are their
    IEEE bits, [NULL] and [JNI_FALSE] are 0. *)

From S2P Require Import Prelude GoStr Strconv Schema Jvm FixtureVm.

Definition JNI_VERSION_1_6 : Z := 0x00010006.
Definition JNI_OK : Z := 0.
Definition JNI_ERR : Z := -1.
Definition JNI_ABORT : Z := 2.

Definition nl : string := String "010" EmptyString.

(** ** Macros *)

Definition CHECK (desc : string) (cond : bool) : jprog unit :=
  if cond then trigger EPass;; OUT ("  [PASS] " ++s desc ++s nl)
  else trigger EFail;; OUT ("  [FAIL] " ++s desc ++s nl).

Definition SKIP (desc : string) : jprog unit :=
  trigger ESkip;; OUT ("  [SKIP] " ++s desc ++s nl).

Definition SECTION (name : string) : jprog unit :=
  OUT (nl ++s "===== " ++s name ++s " =====" ++s nl).

(** [strcmp(p, lit) == 0]: the bytes at [p] up to the first difference. *)
Fixpoint strcmp_from (p i : Z) (lit : string) : jprog bool :=
  c ← trigger (EPeek 1 p i);
  match lit with
  | EmptyString => mret (u8 c =? 0)
  | String a lit' => if u8 c =? code a then strcmp_from p (i + 1) lit' else mret false
  end.

Definition strcmp0 (p : Z) (lit : string) : jprog bool := strcmp_from p 0 lit.

(** The same on a local buffer. *)
Fixpoint strcmp_buf (b : list Z) (lit : string) : bool :=
  match b, lit with
  | c :: _, EmptyString => u8 c =? 0
  | c :: b', String a lit' => (u8 c =? code a) && strcmp_buf b' lit'
  | [], _ => false
  end.

(** The bytes of the C string at [p], at most [n] of them. *)
Fixpoint cstr_from (n : nat) (p i : Z) : jprog string :=
  match n with
  | O => mret EmptyString
  | S n' =>
      c ← trigger (EPeek 1 p i);
      if u8 c =? 0 then mret EmptyString
      else s ← cstr_from n' p (i + 1); mret (String (byte_of c) s)
  end.

(** What [snprintf] leaves in a buffer of [n] bytes. *)
Definition snprintf (n : nat) (s : string) : string := stake (n - 1) s.

(** ** Helpers *)

Definition clear_exc (env : Z) : jprog unit :=
  e ← call env "ExceptionCheck" [];
  when (nz e) (call_ env "ExceptionClear" []).

Definition req_class (env : Z) (name : string) : jprog Z :=
  c ← call env "FindClass" [name];
  when (c =? 0) (OUT ("  [WARN] FindClass(" ++s name ++s ") failed" ++s nl);; clear_exc env);;
  mret c.

(** The three macros that pass variadic arguments on as a [va_list], and the
    hand-written wrappers of the same shape. *)
Definition DEF_CALLV (env : Z) (NAME : string) (o m : Z) (va : list Z) : jprog Z :=
  call env (NAME ++s "V") [o; m; AVa va].
Definition DEF_NCV (env : Z) (NAME : string) (o c m : Z) (va : list Z) : jprog Z :=
  call env (NAME ++s "V") [o; c; m; AVa va].
Definition DEF_SCALLV (env : Z) (NAME : string) (c m : Z) (va : list Z) : jprog Z :=
  call env (NAME ++s "V") [c; m; AVa va].
Definition wrap_NewObjectV (env c m : Z) (va : list Z) : jprog Z :=
  call env "NewObjectV" [c; m; AVa va].
Definition wrap_NewObjectA (env c m : Z) (a : list Z) : jprog Z :=
  call env "NewObjectA" [c; m; AVal a].

(** ** Array macros *)

Definition TEST_ARRAY (env : Z) (FUNC : string) (LIT : Z) : jprog unit :=
  a ← call env ("New" ++s FUNC ++s "Array") [4];
  CHECK ("New" ++s FUNC ++s "Array") (nz a);;
  call_ env ("Set" ++s FUNC ++s "ArrayRegion") [a; 0; 4; ABuf [LIT; LIT; LIT; LIT]];;
  r ← call env "ExceptionCheck" [];
  CHECK ("Set" ++s FUNC ++s "ArrayRegion") (r =? 0);;
  out ← callOut env ("Get" ++s FUNC ++s "ArrayRegion") [a; 0; 4] [0; 0; 0; 0];
  CHECK ("Get" ++s FUNC ++s "ArrayRegion") (nthZ (snd out) 0 =? LIT);;
  elems ← call env ("Get" ++s FUNC ++s "ArrayElements") [a; 0];
  CHECK ("Get" ++s FUNC ++s "ArrayElements") (nz elems);;
  call_ env ("Release" ++s FUNC ++s "ArrayElements") [a; elems; 0];;
  r ← call env "ExceptionCheck" [];
  CHECK ("Release" ++s FUNC ++s "ArrayElements") (r =? 0);;
  call_ env "DeleteLocalRef" [a].

Definition TEST_ARRAY_CRITICAL (env : Z) (FUNC : string) : jprog unit :=
  a ← call env ("New" ++s FUNC ++s "Array") [4];
  p ← call env "GetPrimitiveArrayCritical" [a; 0];
  CHECK ("GetPrimitiveArrayCritical " ++s FUNC) (nz p);;
  call_ env "ReleasePrimitiveArrayCritical" [a; p; 0];;
  r ← call env "ExceptionCheck" [];
  CHECK ("ReleasePrimitiveArrayCritical " ++s FUNC) (r =? 0);;
  call_ env "DeleteLocalRef" [a].

(** ** Foreign threads *)

Definition attached_thread : jprog unit :=
  g ← trigger EGvm;
  at_ ← vmcall "AttachCurrentThread" [g; 0];
  let rc := fst at_ in
  let env := snd at_ in
  OUT ("  [thread] AttachCurrentThread rc=" ++s FormatInt rc 10 ++s " env=" ++s hex0x env ++s nl);;
  when ((rc =? 0) && nz env) (
    c ← call env "FindClass" ["java/lang/String"];
    ver ← call env "GetVersion" [];
    OUT ("  [thread] FindClass(java/lang/String)=" ++s hex0x c
         ++s " version=" ++s hex0x (u32 ver) ++s nl);;
    when (nz c) (call_ env "DeleteLocalRef" [c]));;
  _ ← vmcall "DetachCurrentThread" [g];
  mret tt.

Definition attached_daemon_thread : jprog unit :=
  g ← trigger EGvm;
  at_ ← vmcall "AttachCurrentThreadAsDaemon" [g; 0];
  OUT ("  [thread] AttachCurrentThreadAsDaemon rc=" ++s FormatInt (fst at_) 10 ++s nl);;
  _ ← vmcall "DetachCurrentThread" [g];
  mret tt.

(** ** The table run

    The local variables of [run_all_tests] that more than one stage uses are
    the fields of three records, in scope of the stages as instances. *)

Class classes := {
  clsTarget : Z; clsSub : Z; clsCalc : Z; clsCalcImpl : Z;
  clsTemp : Z; clsString : Z; clsObject : Z; clsISE : Z
}.

Class ids := {
  ctor0 : Z;
  ctor1 : Z;
  subCtor : Z;
  iseCtor : Z;
  mGetObject : Z;
  mGetBool : Z;
  mGetByte : Z;
  mGetChar : Z;
  mGetShort : Z;
  mGetInt : Z;
  mGetLong : Z;
  mGetFloat : Z;
  mGetDouble : Z;
  mSetInt : Z;
  mVirtual : Z;
  mAddInts : Z;
  mSync : Z;
  smGetObject : Z;
  smGetBool : Z;
  smGetByte : Z;
  smGetChar : Z;
  smGetShort : Z;
  smGetInt : Z;
  smGetLong : Z;
  smGetFloat : Z;
  smGetDouble : Z;
  smNoop : Z;
  smAdd : Z;
  mCalcAdd : Z;
  calcImplCtor : Z;
  mTempNative : Z;
  fInt : Z;
  fLong : Z;
  fShort : Z;
  fByte : Z;
  fChar : Z;
  fBool : Z;
  fFloat : Z;
  fDouble : Z;
  fStr : Z;
  fObj : Z;
  sfInt : Z;
  sfLong : Z;
  sfShort : Z;
  sfByte : Z;
  sfChar : Z;
  sfBool : Z;
  sfFloat : Z;
  sfDouble : Z;
  sfStr : Z;
  sfObj : Z;
}.

Class objects := {
  target : Z; sub : Z; tV : Z
}.

Section run_all.
Variables (env scratch ndk_slots : Z).

#[local] Abbreviation call := (Jvm.call env).
#[local] Abbreviation call_ := (Jvm.call_ env).
#[local] Abbreviation callOut := (Jvm.callOut env).
#[local] Abbreviation DEF_CALLV := (DEF_CALLV env).
#[local] Abbreviation DEF_NCV := (DEF_NCV env).
#[local] Abbreviation DEF_SCALLV := (DEF_SCALLV env).
#[local] Abbreviation wrap_NewObjectV := (wrap_NewObjectV env).
#[local] Abbreviation wrap_NewObjectA := (wrap_NewObjectA env).
#[local] Abbreviation TEST_ARRAY := (TEST_ARRAY env).
#[local] Abbreviation TEST_ARRAY_CRITICAL := (TEST_ARRAY_CRITICAL env).

Definition test_version `{classes} : jprog unit :=
  SECTION "1. version / class resolution";;
  ver ← call "GetVersion" [];
  CHECK "GetVersion" (0x00010004 <=? ver);;
  CHECK "FindClass(Target)" (nz clsTarget);;
  sc ← call "GetSuperclass" [clsSub];
  r ← call "IsSameObject" [sc; clsTarget];
  CHECK "GetSuperclass(SubTarget)==Target" (nz r);;
  when (nz sc) (call_ "DeleteLocalRef" [sc]);;
  scObj ← call "GetSuperclass" [clsObject];
  CHECK "GetSuperclass(Object)==NULL" (scObj =? 0);;
  r ← call "IsAssignableFrom" [clsSub; clsTarget];
  CHECK "IsAssignableFrom(Sub,Target)" (r =? 1);;
  r ← call "IsAssignableFrom" [clsTarget; clsSub];
  CHECK "IsAssignableFrom(Target,Sub)" (r =? 0);;
  r ← call "IsAssignableFrom" [clsCalcImpl; clsCalc];
  CHECK "IsAssignableFrom(CalcImpl,Calc)" (r =? 1);;
  defined ← call "DefineClass" ["com/test/jnifull/Defined"; 0; ABuf (repeat 0 32); 32];
  CHECK "DefineClass(malformed) reachable" (defined =? 0);;
  clear_exc env;;
  mret tt.

Definition get_ids `{classes} : jprog ids :=
  ctor0 ← call "GetMethodID" [clsTarget; "<init>"; "()V"];
  ctor1 ← call "GetMethodID" [clsTarget; "<init>"; "(I)V"];
  subCtor ← call "GetMethodID" [clsSub; "<init>"; "()V"];
  iseCtor ← call "GetMethodID" [clsISE; "<init>"; "(Ljava/lang/String;)V"];
  mGetObject ← call "GetMethodID" [clsTarget; "getObjectR"; "()Ljava/lang/Object;"];
  mGetBool ← call "GetMethodID" [clsTarget; "getBooleanR"; "()Z"];
  mGetByte ← call "GetMethodID" [clsTarget; "getByteR"; "()B"];
  mGetChar ← call "GetMethodID" [clsTarget; "getCharR"; "()C"];
  mGetShort ← call "GetMethodID" [clsTarget; "getShortR"; "()S"];
  mGetInt ← call "GetMethodID" [clsTarget; "getIntR"; "()I"];
  mGetLong ← call "GetMethodID" [clsTarget; "getLongR"; "()J"];
  mGetFloat ← call "GetMethodID" [clsTarget; "getFloatR"; "()F"];
  mGetDouble ← call "GetMethodID" [clsTarget; "getDoubleR"; "()D"];
  mSetInt ← call "GetMethodID" [clsTarget; "setIntV"; "(I)V"];
  mVirtual ← call "GetMethodID" [clsTarget; "virtualName"; "()Ljava/lang/String;"];
  mAddInts ← call "GetMethodID" [clsTarget; "addInts"; "(II)I"];
  mSync ← call "GetMethodID" [clsTarget; "syncMethod"; "()V"];
  smGetObject ← call "GetStaticMethodID" [clsTarget; "sGetObjectR"; "()Ljava/lang/Object;"];
  smGetBool ← call "GetStaticMethodID" [clsTarget; "sGetBooleanR"; "()Z"];
  smGetByte ← call "GetStaticMethodID" [clsTarget; "sGetByteR"; "()B"];
  smGetChar ← call "GetStaticMethodID" [clsTarget; "sGetCharR"; "()C"];
  smGetShort ← call "GetStaticMethodID" [clsTarget; "sGetShortR"; "()S"];
  smGetInt ← call "GetStaticMethodID" [clsTarget; "sGetIntR"; "()I"];
  smGetLong ← call "GetStaticMethodID" [clsTarget; "sGetLongR"; "()J"];
  smGetFloat ← call "GetStaticMethodID" [clsTarget; "sGetFloatR"; "()F"];
  smGetDouble ← call "GetStaticMethodID" [clsTarget; "sGetDoubleR"; "()D"];
  smNoop ← call "GetStaticMethodID" [clsTarget; "sNoop"; "()V"];
  smAdd ← call "GetStaticMethodID" [clsTarget; "sAdd"; "(II)I"];
  mCalcAdd ← call "GetMethodID" [clsCalc; "add"; "(II)I"];
  calcImplCtor ← call "GetMethodID" [clsCalcImpl; "<init>"; "()V"];
  mTempNative ← call "GetStaticMethodID" [clsTemp; "tempNative"; "(I)I"];
  fInt ← call "GetFieldID" [clsTarget; "ifield"; "I"];
  fLong ← call "GetFieldID" [clsTarget; "lfield"; "J"];
  fShort ← call "GetFieldID" [clsTarget; "sfield"; "S"];
  fByte ← call "GetFieldID" [clsTarget; "bfield"; "B"];
  fChar ← call "GetFieldID" [clsTarget; "cfield"; "C"];
  fBool ← call "GetFieldID" [clsTarget; "zfield"; "Z"];
  fFloat ← call "GetFieldID" [clsTarget; "ffield"; "F"];
  fDouble ← call "GetFieldID" [clsTarget; "dfield"; "D"];
  fStr ← call "GetFieldID" [clsTarget; "strfield"; "Ljava/lang/String;"];
  fObj ← call "GetFieldID" [clsTarget; "objfield"; "Ljava/lang/Object;"];
  sfInt ← call "GetStaticFieldID" [clsTarget; "sifield"; "I"];
  sfLong ← call "GetStaticFieldID" [clsTarget; "slfield"; "J"];
  sfShort ← call "GetStaticFieldID" [clsTarget; "ssfield"; "S"];
  sfByte ← call "GetStaticFieldID" [clsTarget; "sbfield"; "B"];
  sfChar ← call "GetStaticFieldID" [clsTarget; "scfield"; "C"];
  sfBool ← call "GetStaticFieldID" [clsTarget; "szfield"; "Z"];
  sfFloat ← call "GetStaticFieldID" [clsTarget; "sffield"; "F"];
  sfDouble ← call "GetStaticFieldID" [clsTarget; "sdffield"; "D"];
  sfStr ← call "GetStaticFieldID" [clsTarget; "sstrfield"; "Ljava/lang/String;"];
  sfObj ← call "GetStaticFieldID" [clsTarget; "sobjfield"; "Ljava/lang/Object;"];
  CHECK "GetMethodID(<init>)" (nz ctor0);;
  CHECK "GetMethodID(getIntR)" (nz mGetInt);;
  CHECK "GetStaticMethodID(sAdd)" (nz smAdd);;
  CHECK "GetFieldID(ifield)" (nz fInt);;
  CHECK "GetStaticFieldID(sifield)" (nz sfInt);;
  mret (Build_ids
    ctor0 ctor1 subCtor iseCtor mGetObject mGetBool mGetByte mGetChar mGetShort mGetInt mGetLong mGetFloat mGetDouble mSetInt mVirtual mAddInts mSync smGetObject smGetBool smGetByte smGetChar smGetShort smGetInt smGetLong smGetFloat smGetDouble smNoop smAdd mCalcAdd calcImplCtor mTempNative fInt fLong fShort fByte fChar fBool fFloat fDouble fStr fObj sfInt sfLong sfShort sfByte sfChar sfBool sfFloat sfDouble sfStr sfObj).

Definition test_objects `{classes, ids} : jprog objects :=
  SECTION "2. object creation / identity";;
  target ← call "NewObject" [clsTarget; ctor0];
  CHECK "NewObject()" (nz target);;
  tV ← wrap_NewObjectV clsTarget ctor1 [99];
  b ← (if nz tV then r ← call "GetIntField" [tV; fInt]; mret (r =? 99) else mret false);
  CHECK "NewObjectV(int) ifield==99" b;;
  tA ← wrap_NewObjectA clsTarget ctor1 [77];
  b ← (if nz tA then r ← call "GetIntField" [tA; fInt]; mret (r =? 77) else mret false);
  CHECK "NewObjectA(int) ifield==77" b;;
  alloc ← call "AllocObject" [clsTarget];
  CHECK "AllocObject" (nz alloc);;
  sub ← call "NewObject" [clsSub; subCtor];
  CHECK "NewObject(SubTarget)" (nz sub);;
  oc ← call "GetObjectClass" [target];
  r ← call "IsSameObject" [oc; clsTarget];
  CHECK "GetObjectClass==Target" (nz r);;
  when (nz oc) (call_ "DeleteLocalRef" [oc]);;
  r ← call "IsInstanceOf" [target; clsTarget];
  CHECK "IsInstanceOf(Target)" (r =? 1);;
  r ← call "IsInstanceOf" [sub; clsTarget];
  CHECK "IsInstanceOf(Sub is Target)" (r =? 1);;
  impl ← call "NewObject" [clsCalcImpl; calcImplCtor];
  r ← call "IsInstanceOf" [impl; clsCalc];
  CHECK "IsInstanceOf(CalcImpl is Calc)" (r =? 1);;
  mret (Build_objects target sub tV).

Definition test_references `{classes, ids, objects} : jprog unit :=
  SECTION "3. references, frames, monitors";;
  r ← call "IsSameObject" [target; target];
  CHECK "IsSameObject(t,t)" (r =? 1);;
  r ← call "IsSameObject" [target; tV];
  CHECK "IsSameObject(t,tV)==false" (r =? 0);;
  r ← call "IsSameObject" [target; 0];
  CHECK "IsSameObject(t,NULL)==false" (r =? 0);;
  gref ← call "NewGlobalRef" [target];
  CHECK "NewGlobalRef" (nz gref);;
  r ← call "IsSameObject" [gref; target];
  CHECK "IsSameObject(gref,t)" (r =? 1);;
  r ← call "GetObjectRefType" [gref];
  CHECK "GetObjectRefType(global)==Global" (r =? 2);;
  r ← call "GetObjectRefType" [target];
  CHECK "GetObjectRefType(local)==Local" (r =? 1);;
  lref ← call "NewLocalRef" [target];
  CHECK "NewLocalRef" (nz lref);;
  call_ "DeleteLocalRef" [lref];;
  CHECK "DeleteLocalRef ok" true;;
  wref ← call "NewWeakGlobalRef" [target];
  CHECK "NewWeakGlobalRef" (nz wref);;
  r ← call "GetObjectRefType" [wref];
  CHECK "GetObjectRefType(weak)==WeakGlobal" (r =? 3);;
  call_ "DeleteWeakGlobalRef" [wref];;
  CHECK "DeleteWeakGlobalRef ok" true;;
  r ← call "EnsureLocalCapacity" [16];
  CHECK "EnsureLocalCapacity(16)" (r =? 0);;
  r ← call "PushLocalFrame" [16];
  CHECK "PushLocalFrame(16)" (r =? 0);;
  inFrame ← call "NewObject" [clsTarget; ctor1; 5];
  CHECK "NewObject inside frame" (nz inFrame);;
  popped ← call "PopLocalFrame" [0];
  CHECK "PopLocalFrame(NULL)==NULL" (popped =? 0);;
  r ← call "MonitorEnter" [target];
  CHECK "MonitorEnter" (r =? 0);;
  call_ "CallVoidMethod" [target; mSync];;
  r ← call "ExceptionCheck" [];
  CHECK "CallVoidMethod(syncMethod) no exc" (r =? 0);;
  r ← call "MonitorExit" [target];
  CHECK "MonitorExit" (r =? 0);;
  call_ "DeleteGlobalRef" [gref];;
  mret tt.

Definition test_calls `{classes, ids, objects} : jprog unit :=
  SECTION "4. Call<Type>Method (+V/+A)";;
  rObj ← call "CallObjectMethod" [target; mGetObject];
  CHECK "CallObjectMethod" (nz rObj);;
  r ← call "CallBooleanMethod" [target; mGetBool];
  CHECK "CallBooleanMethod" (r =? 1);;
  r ← call "CallByteMethod" [target; mGetByte];
  CHECK "CallByteMethod" (r =? 14);;
  r ← call "CallCharMethod" [target; mGetChar];
  CHECK "CallCharMethod" (r =? 90);;
  r ← call "CallShortMethod" [target; mGetShort];
  CHECK "CallShortMethod" (r =? 13);;
  r ← call "CallIntMethod" [target; mGetInt];
  CHECK "CallIntMethod" (r =? 11);;
  r ← call "CallLongMethod" [target; mGetLong];
  CHECK "CallLongMethod" (r =? 12);;
  r ← call "CallFloatMethod" [target; mGetFloat];
  CHECK "CallFloatMethod" (r =? 0x3FC00000);;
  r ← call "CallDoubleMethod" [target; mGetDouble];
  CHECK "CallDoubleMethod" (r =? 0x4004000000000000);;
  call_ "CallVoidMethod" [target; mSetInt; 1234];;
  r ← call "GetIntField" [target; fInt];
  CHECK "CallVoidMethod(setIntV)" (r =? 1234);;
  r ← DEF_CALLV "CallObjectMethod" target mGetObject [];
  CHECK "CallObjectMethodV" (nz r);;
  r ← DEF_CALLV "CallBooleanMethod" target mGetBool [];
  CHECK "CallBooleanMethodV" (r =? 1);;
  r ← DEF_CALLV "CallByteMethod" target mGetByte [];
  CHECK "CallByteMethodV" (r =? 14);;
  r ← DEF_CALLV "CallCharMethod" target mGetChar [];
  CHECK "CallCharMethodV" (r =? 90);;
  r ← DEF_CALLV "CallShortMethod" target mGetShort [];
  CHECK "CallShortMethodV" (r =? 13);;
  r ← DEF_CALLV "CallIntMethod" target mGetInt [];
  CHECK "CallIntMethodV" (r =? 1234);;
  r ← DEF_CALLV "CallLongMethod" target mGetLong [];
  CHECK "CallLongMethodV" (r =? 12);;
  r ← DEF_CALLV "CallFloatMethod" target mGetFloat [];
  CHECK "CallFloatMethodV" (r =? 0x3FC00000);;
  r ← DEF_CALLV "CallDoubleMethod" target mGetDouble [];
  CHECK "CallDoubleMethodV" (r =? 0x4004000000000000);;
  _ ← DEF_CALLV "CallVoidMethod" target mSetInt [11];
  r ← call "GetIntField" [target; fInt];
  CHECK "CallVoidMethodV" (r =? 11);;
  r ← DEF_CALLV "CallIntMethod" target mAddInts [3; 4];
  CHECK "CallIntMethodV(addInts,3,4)" (r =? 7);;
  r ← call "CallObjectMethodA" [target; mGetObject; (AVal [0])];
  CHECK "CallObjectMethodA" (nz r);;
  r ← call "CallBooleanMethodA" [target; mGetBool; (AVal [0])];
  CHECK "CallBooleanMethodA" (r =? 1);;
  r ← call "CallByteMethodA" [target; mGetByte; (AVal [0])];
  CHECK "CallByteMethodA" (r =? 14);;
  r ← call "CallCharMethodA" [target; mGetChar; (AVal [0])];
  CHECK "CallCharMethodA" (r =? 90);;
  r ← call "CallShortMethodA" [target; mGetShort; (AVal [0])];
  CHECK "CallShortMethodA" (r =? 13);;
  r ← call "CallIntMethodA" [target; mGetInt; (AVal [0])];
  CHECK "CallIntMethodA" (r =? 11);;
  r ← call "CallLongMethodA" [target; mGetLong; (AVal [0])];
  CHECK "CallLongMethodA" (r =? 12);;
  r ← call "CallFloatMethodA" [target; mGetFloat; (AVal [0])];
  CHECK "CallFloatMethodA" (r =? 0x3FC00000);;
  r ← call "CallDoubleMethodA" [target; mGetDouble; (AVal [0])];
  CHECK "CallDoubleMethodA" (r =? 0x4004000000000000);;
  call_ "CallVoidMethodA" [target; mSetInt; (AVal [55])];;
  r ← call "GetIntField" [target; fInt];
  CHECK "CallVoidMethodA" (r =? 55);;
  r ← call "CallIntMethodA" [target; mAddInts; (AVal [10; 20])];
  CHECK "CallIntMethodA(addInts)" (r =? 30);;
  mret tt.

Definition test_nonvirtual `{classes, ids, objects} : jprog unit :=
  SECTION "5. CallNonvirtual<Type>Method (+V/+A)";;
  nvName ← call "CallNonvirtualObjectMethod" [sub; clsTarget; mVirtual];
  nvC ← (if nz nvName then call "GetStringUTFChars" [nvName; 0] else mret 0);
  b ← (if nz nvC then strcmp0 nvC "Target.virtual" else mret false);
  CHECK "CallNonvirtualObjectMethod==Target.virtual" b;;
  when (nz nvC) (call_ "ReleaseStringUTFChars" [nvName; nvC]);;
  when (nz nvName) (call_ "DeleteLocalRef" [nvName]);;
  r ← call "CallNonvirtualBooleanMethod" [target; clsTarget; mGetBool];
  CHECK "CallNonvirtualBooleanMethod" (r =? 1);;
  r ← call "CallNonvirtualByteMethod" [target; clsTarget; mGetByte];
  CHECK "CallNonvirtualByteMethod" (r =? 14);;
  r ← call "CallNonvirtualCharMethod" [target; clsTarget; mGetChar];
  CHECK "CallNonvirtualCharMethod" (r =? 90);;
  r ← call "CallNonvirtualShortMethod" [target; clsTarget; mGetShort];
  CHECK "CallNonvirtualShortMethod" (r =? 13);;
  r ← call "CallNonvirtualIntMethod" [target; clsTarget; mGetInt];
  CHECK "CallNonvirtualIntMethod" (r =? 55);;
  r ← call "CallNonvirtualLongMethod" [target; clsTarget; mGetLong];
  CHECK "CallNonvirtualLongMethod" (r =? 12);;
  r ← call "CallNonvirtualFloatMethod" [target; clsTarget; mGetFloat];
  CHECK "CallNonvirtualFloatMethod" (r =? 0x3FC00000);;
  r ← call "CallNonvirtualDoubleMethod" [target; clsTarget; mGetDouble];
  CHECK "CallNonvirtualDoubleMethod" (r =? 0x4004000000000000);;
  call_ "CallNonvirtualVoidMethod" [target; clsTarget; mSetInt; 66];;
  r ← call "GetIntField" [target; fInt];
  CHECK "CallNonvirtualVoidMethod" (r =? 66);;
  r ← DEF_NCV "CallNonvirtualObjectMethod" sub clsTarget mVirtual [];
  CHECK "CallNonvirtualObjectMethodV" (nz r);;
  r ← DEF_NCV "CallNonvirtualBooleanMethod" target clsTarget mGetBool [];
  CHECK "CallNonvirtualBooleanMethodV" (r =? 1);;
  r ← DEF_NCV "CallNonvirtualByteMethod" target clsTarget mGetByte [];
  CHECK "CallNonvirtualByteMethodV" (r =? 14);;
  r ← DEF_NCV "CallNonvirtualCharMethod" target clsTarget mGetChar [];
  CHECK "CallNonvirtualCharMethodV" (r =? 90);;
  r ← DEF_NCV "CallNonvirtualShortMethod" target clsTarget mGetShort [];
  CHECK "CallNonvirtualShortMethodV" (r =? 13);;
  r ← DEF_NCV "CallNonvirtualIntMethod" target clsTarget mGetInt [];
  CHECK "CallNonvirtualIntMethodV" (r =? 66);;
  r ← DEF_NCV "CallNonvirtualLongMethod" target clsTarget mGetLong [];
  CHECK "CallNonvirtualLongMethodV" (r =? 12);;
  r ← DEF_NCV "CallNonvirtualFloatMethod" target clsTarget mGetFloat [];
  CHECK "CallNonvirtualFloatMethodV" (r =? 0x3FC00000);;
  r ← DEF_NCV "CallNonvirtualDoubleMethod" target clsTarget mGetDouble [];
  CHECK "CallNonvirtualDoubleMethodV" (r =? 0x4004000000000000);;
  _ ← DEF_NCV "CallNonvirtualVoidMethod" target clsTarget mSetInt [77];
  r ← call "GetIntField" [target; fInt];
  CHECK "CallNonvirtualVoidMethodV" (r =? 77);;
  r ← call "CallNonvirtualObjectMethodA" [sub; clsTarget; mVirtual; (AVal [0])];
  CHECK "CallNonvirtualObjectMethodA" (nz r);;
  r ← call "CallNonvirtualBooleanMethodA" [target; clsTarget; mGetBool; (AVal [0])];
  CHECK "CallNonvirtualBooleanMethodA" (r =? 1);;
  r ← call "CallNonvirtualByteMethodA" [target; clsTarget; mGetByte; (AVal [0])];
  CHECK "CallNonvirtualByteMethodA" (r =? 14);;
  r ← call "CallNonvirtualCharMethodA" [target; clsTarget; mGetChar; (AVal [0])];
  CHECK "CallNonvirtualCharMethodA" (r =? 90);;
  r ← call "CallNonvirtualShortMethodA" [target; clsTarget; mGetShort; (AVal [0])];
  CHECK "CallNonvirtualShortMethodA" (r =? 13);;
  r ← call "CallNonvirtualIntMethodA" [target; clsTarget; mGetInt; (AVal [0])];
  CHECK "CallNonvirtualIntMethodA" (r =? 77);;
  r ← call "CallNonvirtualLongMethodA" [target; clsTarget; mGetLong; (AVal [0])];
  CHECK "CallNonvirtualLongMethodA" (r =? 12);;
  r ← call "CallNonvirtualFloatMethodA" [target; clsTarget; mGetFloat; (AVal [0])];
  CHECK "CallNonvirtualFloatMethodA" (r =? 0x3FC00000);;
  r ← call "CallNonvirtualDoubleMethodA" [target; clsTarget; mGetDouble; (AVal [0])];
  CHECK "CallNonvirtualDoubleMethodA" (r =? 0x4004000000000000);;
  call_ "CallNonvirtualVoidMethodA" [target; clsTarget; mSetInt; (AVal [88])];;
  r ← call "GetIntField" [target; fInt];
  CHECK "CallNonvirtualVoidMethodA" (r =? 88);;
  mret tt.

Definition test_static `{classes, ids} : jprog unit :=
  SECTION "6. CallStatic<Type>Method (+V/+A)";;
  r ← call "CallStaticObjectMethod" [clsTarget; smGetObject];
  CHECK "CallStaticObjectMethod" (nz r);;
  r ← call "CallStaticBooleanMethod" [clsTarget; smGetBool];
  CHECK "CallStaticBooleanMethod" (r =? 0);;
  r ← call "CallStaticByteMethod" [clsTarget; smGetByte];
  CHECK "CallStaticByteMethod" (r =? 24);;
  r ← call "CallStaticCharMethod" [clsTarget; smGetChar];
  CHECK "CallStaticCharMethod" (r =? 89);;
  r ← call "CallStaticShortMethod" [clsTarget; smGetShort];
  CHECK "CallStaticShortMethod" (r =? 23);;
  r ← call "CallStaticIntMethod" [clsTarget; smGetInt];
  CHECK "CallStaticIntMethod" (r =? 21);;
  r ← call "CallStaticLongMethod" [clsTarget; smGetLong];
  CHECK "CallStaticLongMethod" (r =? 22);;
  r ← call "CallStaticFloatMethod" [clsTarget; smGetFloat];
  CHECK "CallStaticFloatMethod" (r =? 0x40600000);;
  r ← call "CallStaticDoubleMethod" [clsTarget; smGetDouble];
  CHECK "CallStaticDoubleMethod" (r =? 0x4012000000000000);;
  call_ "CallStaticVoidMethod" [clsTarget; smNoop];;
  r ← call "ExceptionCheck" [];
  CHECK "CallStaticVoidMethod" (r =? 0);;
  r ← DEF_SCALLV "CallStaticObjectMethod" clsTarget smGetObject [];
  CHECK "CallStaticObjectMethodV" (nz r);;
  r ← DEF_SCALLV "CallStaticBooleanMethod" clsTarget smGetBool [];
  CHECK "CallStaticBooleanMethodV" (r =? 0);;
  r ← DEF_SCALLV "CallStaticByteMethod" clsTarget smGetByte [];
  CHECK "CallStaticByteMethodV" (r =? 24);;
  r ← DEF_SCALLV "CallStaticCharMethod" clsTarget smGetChar [];
  CHECK "CallStaticCharMethodV" (r =? 89);;
  r ← DEF_SCALLV "CallStaticShortMethod" clsTarget smGetShort [];
  CHECK "CallStaticShortMethodV" (r =? 23);;
  r ← DEF_SCALLV "CallStaticIntMethod" clsTarget smGetInt [];
  CHECK "CallStaticIntMethodV" (r =? 21);;
  r ← DEF_SCALLV "CallStaticLongMethod" clsTarget smGetLong [];
  CHECK "CallStaticLongMethodV" (r =? 22);;
  r ← DEF_SCALLV "CallStaticFloatMethod" clsTarget smGetFloat [];
  CHECK "CallStaticFloatMethodV" (r =? 0x40600000);;
  r ← DEF_SCALLV "CallStaticDoubleMethod" clsTarget smGetDouble [];
  CHECK "CallStaticDoubleMethodV" (r =? 0x4012000000000000);;
  _ ← DEF_SCALLV "CallStaticVoidMethod" clsTarget smNoop [];
  r ← call "ExceptionCheck" [];
  CHECK "CallStaticVoidMethodV" (r =? 0);;
  r ← DEF_SCALLV "CallStaticIntMethod" clsTarget smAdd [3; 4];
  CHECK "CallStaticIntMethodV(sAdd,3,4)" (r =? 7);;
  r ← call "CallStaticObjectMethodA" [clsTarget; smGetObject; (AVal [0])];
  CHECK "CallStaticObjectMethodA" (nz r);;
  r ← call "CallStaticBooleanMethodA" [clsTarget; smGetBool; (AVal [0])];
  CHECK "CallStaticBooleanMethodA" (r =? 0);;
  r ← call "CallStaticByteMethodA" [clsTarget; smGetByte; (AVal [0])];
  CHECK "CallStaticByteMethodA" (r =? 24);;
  r ← call "CallStaticCharMethodA" [clsTarget; smGetChar; (AVal [0])];
  CHECK "CallStaticCharMethodA" (r =? 89);;
  r ← call "CallStaticShortMethodA" [clsTarget; smGetShort; (AVal [0])];
  CHECK "CallStaticShortMethodA" (r =? 23);;
  r ← call "CallStaticIntMethodA" [clsTarget; smGetInt; (AVal [0])];
  CHECK "CallStaticIntMethodA" (r =? 21);;
  r ← call "CallStaticLongMethodA" [clsTarget; smGetLong; (AVal [0])];
  CHECK "CallStaticLongMethodA" (r =? 22);;
  r ← call "CallStaticFloatMethodA" [clsTarget; smGetFloat; (AVal [0])];
  CHECK "CallStaticFloatMethodA" (r =? 0x40600000);;
  r ← call "CallStaticDoubleMethodA" [clsTarget; smGetDouble; (AVal [0])];
  CHECK "CallStaticDoubleMethodA" (r =? 0x4012000000000000);;
  call_ "CallStaticVoidMethodA" [clsTarget; smNoop; (AVal [0])];;
  r ← call "ExceptionCheck" [];
  CHECK "CallStaticVoidMethodA" (r =? 0);;
  r ← call "CallStaticIntMethodA" [clsTarget; smAdd; (AVal [100; 1])];
  CHECK "CallStaticIntMethodA(sAdd)" (r =? 101);;
  mret tt.

Definition test_fields `{classes, ids, objects} : jprog unit :=
  SECTION "7. fields (Get/Set <Type>Field)";;
  r ← call "GetIntField" [target; fInt];
  CHECK "GetIntField" (r =? 88);;
  r ← call "GetLongField" [target; fLong];
  CHECK "GetLongField" (r =? 12);;
  r ← call "GetShortField" [target; fShort];
  CHECK "GetShortField" (r =? 13);;
  r ← call "GetByteField" [target; fByte];
  CHECK "GetByteField" (r =? 14);;
  r ← call "GetCharField" [target; fChar];
  CHECK "GetCharField" (r =? 90);;
  r ← call "GetBooleanField" [target; fBool];
  CHECK "GetBooleanField" (r =? 1);;
  r ← call "GetFloatField" [target; fFloat];
  CHECK "GetFloatField" (r =? 0x3FC00000);;
  r ← call "GetDoubleField" [target; fDouble];
  CHECK "GetDoubleField" (r =? 0x4004000000000000);;
  r ← call "GetObjectField" [target; fStr];
  CHECK "GetObjectField(String)" (nz r);;
  r ← call "GetObjectField" [target; fObj];
  CHECK "GetObjectField(Object)" (nz r);;
  call_ "SetIntField" [target; fInt; 100];;
  call_ "SetLongField" [target; fLong; 200];;
  call_ "SetShortField" [target; fShort; 300];;
  call_ "SetByteField" [target; fByte; 40];;
  call_ "SetCharField" [target; fChar; 81];;
  call_ "SetBooleanField" [target; fBool; 0];;
  call_ "SetFloatField" [target; fFloat; 0x41180000];;
  call_ "SetDoubleField" [target; fDouble; 0x4021000000000000];;
  r ← call "NewStringUTF" ["changed"];
  call_ "SetObjectField" [target; fStr; r];;
  call_ "SetObjectField" [target; fObj; 0];;
  r ← call "GetIntField" [target; fInt];
  CHECK "SetIntField" (r =? 100);;
  r ← call "GetLongField" [target; fLong];
  CHECK "SetLongField" (r =? 200);;
  r ← call "GetShortField" [target; fShort];
  CHECK "SetShortField" (r =? 300);;
  r ← call "GetByteField" [target; fByte];
  CHECK "SetByteField" (r =? 40);;
  r ← call "GetCharField" [target; fChar];
  CHECK "SetCharField" (r =? 81);;
  r ← call "GetBooleanField" [target; fBool];
  CHECK "SetBooleanField" (r =? 0);;
  r ← call "GetFloatField" [target; fFloat];
  CHECK "SetFloatField" (r =? 0x41180000);;
  r ← call "GetDoubleField" [target; fDouble];
  CHECK "SetDoubleField" (r =? 0x4021000000000000);;
  r ← call "GetObjectField" [target; fObj];
  CHECK "SetObjectField(null)" (r =? 0);;
  r ← call "GetStaticIntField" [clsTarget; sfInt];
  CHECK "GetStaticIntField" (r =? 21);;
  r ← call "GetStaticLongField" [clsTarget; sfLong];
  CHECK "GetStaticLongField" (r =? 22);;
  r ← call "GetStaticShortField" [clsTarget; sfShort];
  CHECK "GetStaticShortField" (r =? 23);;
  r ← call "GetStaticByteField" [clsTarget; sfByte];
  CHECK "GetStaticByteField" (r =? 24);;
  r ← call "GetStaticCharField" [clsTarget; sfChar];
  CHECK "GetStaticCharField" (r =? 89);;
  r ← call "GetStaticBooleanField" [clsTarget; sfBool];
  CHECK "GetStaticBooleanField" (r =? 0);;
  r ← call "GetStaticFloatField" [clsTarget; sfFloat];
  CHECK "GetStaticFloatField" (r =? 0x40600000);;
  r ← call "GetStaticDoubleField" [clsTarget; sfDouble];
  CHECK "GetStaticDoubleField" (r =? 0x4012000000000000);;
  r ← call "GetStaticObjectField" [clsTarget; sfStr];
  CHECK "GetStaticObjectField(String)" (nz r);;
  r ← call "GetStaticObjectField" [clsTarget; sfObj];
  CHECK "GetStaticObjectField(Object)" (nz r);;
  call_ "SetStaticIntField" [clsTarget; sfInt; 111];;
  call_ "SetStaticLongField" [clsTarget; sfLong; 222];;
  call_ "SetStaticShortField" [clsTarget; sfShort; 333];;
  call_ "SetStaticByteField" [clsTarget; sfByte; 44];;
  call_ "SetStaticCharField" [clsTarget; sfChar; 82];;
  call_ "SetStaticBooleanField" [clsTarget; sfBool; 1];;
  call_ "SetStaticFloatField" [clsTarget; sfFloat; 0x40F00000];;
  call_ "SetStaticDoubleField" [clsTarget; sfDouble; 0x401A000000000000];;
  r ← call "NewStringUTF" ["s-changed"];
  call_ "SetStaticObjectField" [clsTarget; sfStr; r];;
  call_ "SetStaticObjectField" [clsTarget; sfObj; 0];;
  r ← call "GetStaticIntField" [clsTarget; sfInt];
  CHECK "SetStaticIntField" (r =? 111);;
  r ← call "GetStaticLongField" [clsTarget; sfLong];
  CHECK "SetStaticLongField" (r =? 222);;
  r ← call "GetStaticShortField" [clsTarget; sfShort];
  CHECK "SetStaticShortField" (r =? 333);;
  r ← call "GetStaticByteField" [clsTarget; sfByte];
  CHECK "SetStaticByteField" (r =? 44);;
  r ← call "GetStaticCharField" [clsTarget; sfChar];
  CHECK "SetStaticCharField" (r =? 82);;
  r ← call "GetStaticBooleanField" [clsTarget; sfBool];
  CHECK "SetStaticBooleanField" (r =? 1);;
  r ← call "GetStaticFloatField" [clsTarget; sfFloat];
  CHECK "SetStaticFloatField" (r =? 0x40F00000);;
  r ← call "GetStaticDoubleField" [clsTarget; sfDouble];
  CHECK "SetStaticDoubleField" (r =? 0x401A000000000000);;
  r ← call "GetStaticObjectField" [clsTarget; sfObj];
  CHECK "SetStaticObjectField(null)" (r =? 0);;
  mret tt.

Definition test_strings : jprog unit :=
  SECTION "8. strings";;
  jstr ← call "NewStringUTF" ["hello-JNI"];
  CHECK "NewStringUTF" (nz jstr);;
  r ← call "GetStringUTFLength" [jstr];
  CHECK "GetStringUTFLength" (r =? 9);;
  u ← call "GetStringUTFChars" [jstr; 0];
  b ← (if nz u then strcmp0 u "hello-JNI" else mret false);
  CHECK "GetStringUTFChars" b;;
  call_ "ReleaseStringUTFChars" [jstr; u];;
  r ← call "GetStringLength" [jstr];
  CHECK "GetStringLength" (r =? 9);;
  c ← call "GetStringChars" [jstr; 0];
  b ← (if nz c then c0 ← trigger (EPeek 2 c 0); mret (c0 =? 104) else mret false);
  CHECK "GetStringChars" b;;
  call_ "ReleaseStringChars" [jstr; c];;
  ws ← call "NewString" [ABuf [65; 66; 67]; 3];
  r ← call "GetStringLength" [ws];
  CHECK "NewString" (r =? 3);;
  rr ← callOut "GetStringRegion" [ws; 0; 3] [0; 0; 0; 0];
  CHECK "GetStringRegion" ((nthZ (snd rr) 0 =? 65) && (nthZ (snd rr) 2 =? 67));;
  ur ← callOut "GetStringUTFRegion" [ws; 0; 3] (repeat 0 8);
  CHECK "GetStringUTFRegion" (strcmp_buf (snd ur) "ABC");;
  call_ "DeleteLocalRef" [ws];;
  c ← call "GetStringCritical" [jstr; 0];
  CHECK "GetStringCritical" (nz c);;
  when (nz c) (call_ "ReleaseStringCritical" [jstr; c]);;
  r ← call "ExceptionCheck" [];
  CHECK "ReleaseStringCritical" (r =? 0);;
  call_ "DeleteLocalRef" [jstr];;
  mret tt.

Definition test_arrays `{classes} : jprog unit :=
  SECTION "9. arrays";;
  TEST_ARRAY "Boolean" 1;;
  TEST_ARRAY "Byte" 7;;
  TEST_ARRAY "Char" 65;;
  TEST_ARRAY "Short" 5;;
  TEST_ARRAY "Int" 9;;
  TEST_ARRAY "Long" 10;;
  TEST_ARRAY "Float" 0x3FA00000;;
  TEST_ARRAY "Double" 0x4004000000000000;;
  TEST_ARRAY_CRITICAL "Int";;
  TEST_ARRAY_CRITICAL "Long";;
  ia ← call "NewIntArray" [3];
  r ← call "GetArrayLength" [ia];
  CHECK "GetArrayLength" (r =? 3);;
  call_ "DeleteLocalRef" [ia];;
  oa ← call "NewObjectArray" [3; clsString; 0];
  CHECK "NewObjectArray" (nz oa);;
  s0 ← call "NewStringUTF" ["elem0"];
  call_ "SetObjectArrayElement" [oa; 0; s0];;
  g0 ← call "GetObjectArrayElement" [oa; 0];
  r ← call "IsSameObject" [s0; g0];
  CHECK "Set/GetObjectArrayElement" (r =? 1);;
  r ← call "GetObjectArrayElement" [oa; 1];
  CHECK "GetObjectArrayElement(null)" (r =? 0);;
  call_ "DeleteLocalRef" [s0];;
  call_ "DeleteLocalRef" [g0];;
  call_ "DeleteLocalRef" [oa];;
  mret tt.

Definition test_buffers : jprog unit :=
  SECTION "10. direct byte buffers";;
  dbb ← call "NewDirectByteBuffer" [scratch; 64];
  CHECK "NewDirectByteBuffer" (nz dbb);;
  r ← call "GetDirectBufferAddress" [dbb];
  CHECK "GetDirectBufferAddress" (r =? scratch);;
  r ← call "GetDirectBufferCapacity" [dbb];
  CHECK "GetDirectBufferCapacity" (r =? 64);;
  call_ "DeleteLocalRef" [dbb];;
  mret tt.

Definition test_reflection `{classes, ids, objects} : jprog unit :=
  SECTION "11. reflection bridge";;
  rm ← call "ToReflectedMethod" [clsTarget; mGetInt; 0];
  CHECK "ToReflectedMethod(instance)" (nz rm);;
  back ← (if nz rm then call "FromReflectedMethod" [rm] else mret 0);
  CHECK "FromReflectedMethod" (nz back);;
  when (nz back) (
    r ← call "CallIntMethod" [target; back];
    CHECK "FromReflectedMethod (callable)" (r =? 100));;
  when (nz rm) (call_ "DeleteLocalRef" [rm]);;
  rsm ← call "ToReflectedMethod" [clsTarget; smAdd; 1];
  CHECK "ToReflectedMethod(static)" (nz rsm);;
  when (nz rsm) (call_ "DeleteLocalRef" [rsm]);;
  rf ← call "ToReflectedField" [clsTarget; fInt; 0];
  CHECK "ToReflectedField(instance)" (nz rf);;
  fb ← (if nz rf then call "FromReflectedField" [rf] else mret 0);
  CHECK "FromReflectedField" (nz fb);;
  when (nz rf) (call_ "DeleteLocalRef" [rf]);;
  rsf ← call "ToReflectedField" [clsTarget; sfInt; 1];
  CHECK "ToReflectedField(static)" (nz rsf);;
  when (nz rsf) (call_ "DeleteLocalRef" [rsf]);;
  mret tt.

Definition test_exceptions `{classes, ids} : jprog unit :=
  SECTION "12. exceptions";;
  r ← call "ExceptionOccurred" [];
  CHECK "ExceptionOccurred(clean)==NULL" (r =? 0);;
  r ← call "ExceptionCheck" [];
  CHECK "ExceptionCheck(clean)==false" (r =? 0);;
  call_ "ThrowNew" [clsISE; "throw-new-test"];;
  r ← call "ExceptionCheck" [];
  CHECK "ExceptionCheck after ThrowNew" (r =? 1);;
  occ ← call "ExceptionOccurred" [];
  CHECK "ExceptionOccurred after ThrowNew" (nz occ);;
  call_ "ExceptionDescribe" [];;
  call_ "ExceptionClear" [];;
  r ← call "ExceptionCheck" [];
  CHECK "ExceptionClear" (r =? 0);;
  occ ← call "ExceptionOccurred" [];
  CHECK "ExceptionOccurred(cleared)==NULL" (occ =? 0);;
  msg ← call "NewStringUTF" ["throw-obj-test"];
  exObj ← call "NewObject" [clsISE; iseCtor; msg];
  call_ "Throw" [exObj];;
  r ← call "ExceptionCheck" [];
  CHECK "ExceptionCheck after Throw" (r =? 1);;
  call_ "ExceptionClear" [];;
  call_ "DeleteLocalRef" [msg];;
  call_ "DeleteLocalRef" [exObj];;
  bogus ← call "FindClass" ["com/test/jnifull/DoesNotExist"];
  CHECK "FindClass(missing)==NULL" (bogus =? 0);;
  r ← call "ExceptionCheck" [];
  CHECK "ExceptionCheck after failed FindClass" (r =? 1);;
  call_ "ExceptionClear" [];;
  bad ← call "GetMethodID" [clsTarget; "noSuchMethod"; "()V"];
  CHECK "GetMethodID(missing)==NULL" (bad =? 0);;
  clear_exc env;;
  mret tt.

Definition test_interface `{classes, ids} : jprog unit :=
  SECTION "13. interface dispatch";;
  impl ← call "NewObject" [clsCalcImpl; calcImplCtor];
  r ← call "IsInstanceOf" [impl; clsCalc];
  CHECK "IsInstanceOf(CalcImpl,Calc)" (r =? 1);;
  r ← call "CallIntMethod" [impl; mCalcAdd; 8; 9];
  CHECK "CallIntMethod via interface" (r =? 17);;
  call_ "DeleteLocalRef" [impl];;
  mret tt.

Definition test_natives `{classes, ids} : jprog unit :=
  SECTION "14. RegisterNatives / UnregisterNatives";;
  rr ← call "RegisterNatives" [clsTemp; AMeth [("tempNative", "(I)I", "temp_native_impl")]; 1];
  CHECK "RegisterNatives" (rr =? 0);;
  r ← call "CallStaticIntMethod" [clsTemp; mTempNative; 5];
  CHECK "CallIntMethod(registered native)" (r =? 6);;
  ur ← call "UnregisterNatives" [clsTemp];
  CHECK "UnregisterNatives" (ur =? 0);;
  call_ "CallStaticIntMethod" [clsTemp; mTempNative; 5];;
  r ← call "ExceptionCheck" [];
  CHECK "call after Unregister throws" (r =? 1);;
  clear_exc env;;
  mret tt.

Definition test_module : jprog unit :=
  SECTION "15. GetModule (Android extension)";;
  slot1 ← trigger (EPast 1);
  slot2 ← trigger (EPast 2);
  slot3 ← trigger (EPast 3);
  slot4 ← trigger (EPast 4);
  let extra := Z.of_nat (length (filter (fun s => nz s = true) [slot1; slot2; slot3; slot4])) in
  OUT ("  [info] NDK table slots = " ++s FormatInt ndk_slots 10
       ++s ", non-null slots past it = " ++s FormatInt extra 10 ++s nl);;
  CHECK "JNIEnv table ends at GetObjectRefType" (extra =? 0);;
  SKIP "GetModule (absent from ART JNIEnv table; undocumented extension)";;
  clear_exc env;;
  mret tt.

Definition test_vm : jprog unit :=
  SECTION "16. JavaVM / thread attach";;
  rc ← callOut "GetJavaVM" [] [0];
  let vm := nthZ (snd rc) 0 in
  CHECK "GetJavaVM" ((fst rc =? 0) && nz vm);;
  when (nz vm) (
    ge ← vmcall "GetEnv" [vm; JNI_VERSION_1_6];
    CHECK "GetEnv(current)" ((fst ge =? JNI_OK) && nz (snd ge));;
    attached_thread;;
    CHECK "AttachCurrentThread/DetachCurrentThread" true;;
    attached_daemon_thread;;
    CHECK "AttachCurrentThreadAsDaemon/DetachCurrentThread" true).

End run_all.

Definition run_all_tests (env scratch ndk_slots : Z) : jprog unit :=
  clsTarget ← req_class env "com/test/jnifull/Target";
  clsSub ← req_class env "com/test/jnifull/SubTarget";
  clsCalc ← req_class env "com/test/jnifull/Calc";
  clsCalcImpl ← req_class env "com/test/jnifull/CalcImpl";
  clsTemp ← req_class env "com/test/jnifull/Temp";
  clsString ← req_class env "java/lang/String";
  clsObject ← req_class env "java/lang/Object";
  clsISE ← req_class env "java/lang/IllegalStateException";
  if negb (nz clsTarget) || negb (nz clsSub) || negb (nz clsCalc) || negb (nz clsCalcImpl)
     || negb (nz clsTemp) || negb (nz clsString) || negb (nz clsObject) || negb (nz clsISE)
  then trigger EFail;; OUT ("  [FATAL] required classes missing" ++s nl)
  else
    let cs := Build_classes clsTarget clsSub clsCalc clsCalcImpl clsTemp clsString clsObject clsISE in
    test_version env;;
    idv ← get_ids env;
    objv ← test_objects env;
    test_references env;;
    test_calls env;;
    test_nonvirtual env;;
    test_static env;;
    test_fields env;;
    test_strings env;;
    test_arrays env;;
    test_buffers env scratch;;
    test_reflection env;;
    test_exceptions env;;
    test_interface env;;
    test_natives env;;
    test_module env ndk_slots;;
    test_vm env.

(** Signed overflow is undefined in C: [None]. *)
Definition add_int (w a b : Z) : option Z :=
  if (- 2 ^ (w - 1) <=? a + b) && (a + b <? 2 ^ (w - 1)) then Some (a + b) else None.

Definition temp_native_impl (x : Z) : option Z := add_int 32 x 1.

(** ** Native methods *)

Section natives.
Context {VM : Type} `{JavaVM VM}.

(** The counters are [int]s; one run counts at most a few hundred. *)
Definition reset (s : St VM) : St VM :=
  mkSt 0 0 0 (g_vm s) (stdout s) (called s) (vm s).

Definition runAll (env scratch ndk_slots : Z) (s : St VM) : Z * St VM :=
  let s' := snd (run (run_all_tests env scratch ndk_slots) (reset s)) in
  (g_fail s', s').

Definition getPassCount (s : St VM) : Z := g_pass s.
Definition getFailCount (s : St VM) : Z := g_fail s.
Definition getSkipCount (s : St VM) : Z := g_skip s.

End natives.

Definition nativeVersion (env : Z) : jprog Z :=
  call env "NewStringUTF" ["libjnifull 1.0 (JNIEnv full-coverage)"].

(** The name of a code address, cut to the static buffer. *)
Definition modoff (a : Z) : jprog string :=
  di ← trigger (EDladdr a);
  mret (snprintf 160
    match di with
    | Some (fname, fbase) =>
        if nz fbase then
          let n := default "?" fname in
          let n := match LastIndexByte n "/" with Some i => sdrop (S i) n | None => n end in
          n ++s "+" ++s hex0x (u64 (a - fbase))
        else hex0x a
    | None => hex0x a
    end).

(** The call chain of [deepCall]; [ra1] to [ra3] and [rac] are the addresses
    of the labels [a1] to [a3] and [ac]. *)
Definition stk_line (label : string) (ra : Z) : jprog unit :=
  m ← modoff ra;
  OUT ("[STK] " ++s label ++s " ra=" ++s m ++s nl).

Definition jni_deep3 (env ra3 : Z) : jprog unit :=
  _ ← call env "FindClass" ["com/test/jnifull/DeepStackMarker"];
  call_ env "ExceptionClear" [];;
  stk_line "deep3   " ra3.

Definition jni_deep2 (env ra2 ra3 : Z) : jprog unit :=
  jni_deep3 env ra3;;
  stk_line "deep2   " ra2.

Definition jni_deep1 (env ra1 ra2 ra3 : Z) : jprog unit :=
  jni_deep2 env ra2 ra3;;
  stk_line "deep1   " ra1.

Definition deepCall (env rac ra1 ra2 ra3 : Z) : jprog unit :=
  jni_deep1 env ra1 ra2 ra3;;
  stk_line "deepCall" rac.

Definition staticAdd (a b : Z) : option Z := add_int 32 a b.

(** Both greeting natives: [name] may be null, and so may its characters. *)
Definition greet (env name : Z) (text : string -> string) : jprog Z :=
  c ← (if nz name then call env "GetStringUTFChars" [name; 0] else mret 0);
  s ← (if nz c then cstr_from 255 c 0 else mret "null");
  when (nz c) (call_ env "ReleaseStringUTFChars" [name; c]);;
  call env "NewStringUTF" [AS (snprintf 256 (text s))].

Definition staticHello (env name : Z) : jprog Z := greet env name (fun s => "hello " ++s s).

Fixpoint flip_loop (k : nat) (i n ob buf : Z) : jprog unit :=
  match k with
  | O => mret tt
  | S k' =>
      x ← trigger (EPeek 4 buf (n - 1 - i));
      trigger (EPoke 4 ob i x);;
      flip_loop k' (i + 1) n ob buf
  end.

Definition staticFlip (env in_ : Z) : jprog Z :=
  if in_ =? 0 then mret 0
  else
    n ← call env "GetArrayLength" [in_];
    buf ← call env "GetIntArrayElements" [in_; 0];
    out ← call env "NewIntArray" [n];
    ob ← call env "GetIntArrayElements" [out; 0];
    flip_loop (Z.to_nat n) 0 n ob buf;;
    call_ env "ReleaseIntArrayElements" [out; ob; 0];;
    call_ env "ReleaseIntArrayElements" [in_; buf; JNI_ABORT];;
    mret out.

(** [None] when a partial sum overflows. *)
Fixpoint sum_loop (k : nat) (i buf s : Z) : jprog (option Z) :=
  match k with
  | O => mret (Some s)
  | S k' =>
      x ← trigger (EPeek 8 buf i);
      match add_int 64 s x with
      | Some s' => sum_loop k' (i + 1) buf s'
      | None => mret None
      end
  end.

Definition staticSum (env in_ : Z) : jprog (option Z) :=
  if in_ =? 0 then mret (Some 0)
  else
    n ← call env "GetArrayLength" [in_];
    buf ← call env "GetLongArrayElements" [in_; 0];
    s ← sum_loop (Z.to_nat n) 0 buf 0;
    match s with
    | Some s =>
        call_ env "ReleaseLongArrayElements" [in_; buf; JNI_ABORT];;
        mret (Some s)
    | None => mret None
    end.

Definition staticThrow (env : Z) : jprog unit :=
  c ← call env "FindClass" ["java/lang/IllegalStateException"];
  when (nz c) (call_ env "ThrowNew" [c; "from-native"]).

Definition staticRoundTrip (o : Z) : Z := o.

Definition dyn_add (a b : Z) : option Z := add_int 32 a b.

Definition dyn_hello (env name : Z) : jprog Z := greet env name (fun s => s ++s "-Ok").

(** The two natives [JNI_OnLoad] registers. *)
Definition methods : list (string * string * string) := [
  ("dynAdd", "(II)I", "dyn_add");
  ("dynHello", "(Ljava/lang/String;)Ljava/lang/String;", "dyn_hello")
].

Definition OnLoad (vm : Z) : jprog Z :=
  e ← vmcall "GetEnv" [vm; JNI_VERSION_1_6];
  let env := snd e in
  if negb (fst e =? JNI_OK) then mret JNI_ERR
  else
    c ← call env "FindClass" ["com/test/jnifull/NativeTest"];
    if c =? 0 then call_ env "ExceptionClear" [];; mret JNI_VERSION_1_6
    else
      call_ env "RegisterNatives" [c; AMeth methods; 2];;
      call_ env "ExceptionClear" [];;
      mret JNI_VERSION_1_6.

Definition JNI_OnLoad {VM} `{JavaVM VM} (vm : Z) (s : St VM) : Z * St VM :=
  run (OnLoad vm) (mkSt (g_pass s) (g_fail s) (g_skip s) vm (stdout s) (called s) (Jvm.vm s)).

(** ** Counting lemmas *)

Section counting.
Context {VM : Type} `{JavaVM VM}.

#[local] Abbreviation full := (full (VM := VM)).

Lemma full_OUT s : full 0 0 [] (OUT s).
Proof. by apply full_silent. Qed.

Lemma full_SKIP d : full 0 1 [] (SKIP d).
Proof. exact (full_bind 0 0 1 0 [] [] _ _ full_skip (fun _ => full_OUT _)). Qed.

(** What follows a check may assume that it passed. *)
Lemma full_CHECK_bind {B} d b n k L (m : jprog B) :
  (b = true -> full n k L m) -> full (1 + n) k L (CHECK d b;; m).
Proof.
  intros Hm. destruct b; cbn [CHECK].
  - refine (full_bind 1 n 0 k [] L _ _ _ (fun _ => Hm eq_refl)).
    exact (full_bind 1 0 0 0 [] [] _ _ full_pass (fun _ => full_OUT _)).
  - exact (full_fail_bind (1 + n) k L _).
Qed.

Lemma full_CHECK d b : full 1 0 [] (CHECK d b).
Proof.
  destruct b; cbn [CHECK].
  - exact (full_bind 1 0 0 0 [] [] _ _ full_pass (fun _ => full_OUT _)).
  - exact (full_fail_bind 1 0 [] _).
Qed.

Lemma full_strcmp p i lit : full 0 0 [] (strcmp_from p i lit).
Proof.
  revert i. induction lit as [|a lit IH]; intros i; cbn [strcmp_from];
    apply (full_bind 0 0 0 0 [] []); try (by apply full_silent); intros c.
  - apply full_ret.
  - apply full_if; [apply IH|apply full_ret].
Qed.

Lemma full_clear_exc env : full 0 0 ["ExceptionCheck"] (clear_exc env).
Proof.
  apply (full_bind 0 0 0 0 ["ExceptionCheck"] []); [apply full_call|].
  intros e. eapply full_when; [apply full_call_|done..].
Qed.

Definition subb (L' L : list string) : bool :=
  forallb (fun x => existsb (String.eqb x) L) L'.

Lemma subb_sound L' L : subb L' L = true -> L' ⊆ L.
Proof.
  intros Hb x Hx. unfold subb in Hb. rewrite forallb_forall in Hb.
  apply list_elem_of_In, Hb, existsb_exists in Hx as (y & Hy & ->%String.eqb_eq).
  by apply list_elem_of_In.
Qed.

Lemma full_conv {A} n k L n' k' L' (m : jprog A) :
  full n k L m -> n = n' -> k = k' -> subb L' L = true -> full n' k' L' m.
Proof. intros Hm <- <- HL. eapply full_sub; [exact Hm|by apply subb_sound]. Qed.

End counting.

Ltac full_check :=
  eapply full_CHECK_bind; let E := fresh "E" in intros E;
  repeat (let E' := fresh "E" in apply andb_true_iff in E as [E' E]; try rewrite E');
  try rewrite E.

Ltac full_step :=
  cbv zeta;
  lazymatch goal with
  | |- full _ _ _ (jbind (CHECK _ _) _) => full_check
  | |- full _ _ _ (jbind (if true then ?a else _) ?f) =>
      lazymatch goal with |- full ?n ?k ?L _ => change (full n k L (jbind a f)) end
  | |- full ?n ?k ?L (when true ?m) => change (full n k L m)
  | |- full _ _ _ (jbind _ _) => eapply full_bind; [|intros ?]
  | |- full _ _ _ (Jvm.call _ _ _) => apply full_call
  | |- full _ _ _ (Jvm.call_ _ _ _) => apply full_call_
  | |- full _ _ _ (Jvm.callOut _ _ _ _) => apply full_callOut
  | |- full _ _ _ (mret _) => apply full_ret
  | |- full _ _ _ (CHECK _ _) => apply full_CHECK
  | |- full _ _ _ (SKIP _) => apply full_SKIP
  | |- full _ _ _ (SECTION _) => apply full_OUT
  | |- full _ _ _ (OUT _) => apply full_OUT
  | |- full _ _ _ (clear_exc _) => apply full_clear_exc
  | |- full _ _ _ (strcmp0 _ _) => apply full_strcmp
  | |- full _ _ _ (when _ _) => eapply full_when
  | |- full _ _ _ (if _ then _ else _) => eapply full_if_nil
  | |- full _ _ _ (trigger _) => apply full_silent; reflexivity
  | |- full _ _ _ (vmcall _ _) => apply full_silent; reflexivity
  | |- full _ _ _ (DEF_CALLV _ _ _ _ _) => apply full_call
  | |- full _ _ _ (DEF_NCV _ _ _ _ _ _) => apply full_call
  | |- full _ _ _ (DEF_SCALLV _ _ _ _ _) => apply full_call
  | |- full _ _ _ (wrap_NewObjectV _ _ _ _) => apply full_call
  | |- full _ _ _ (wrap_NewObjectA _ _ _ _) => apply full_call
  | |- full _ _ _ (TEST_ARRAY _ _ _) => unfold TEST_ARRAY
  | |- full _ _ _ (TEST_ARRAY_CRITICAL _ _) => unfold TEST_ARRAY_CRITICAL
  | |- _ = _ => reflexivity
  end.

Ltac full_tac :=
  eapply full_conv; [repeat full_step|reflexivity|reflexivity|vm_compute; reflexivity].

(** The names [pre ++ T ++ suf]. *)
Definition family (pre : string) (Ts : list string) (suf : string) : list string :=
  map (fun T => pre ++s T ++s suf) Ts.
Definition prims : list string :=
  ["Boolean"; "Byte"; "Char"; "Short"; "Int"; "Long"; "Float"; "Double"].
Definition call_family (pre : string) : list string :=
  family pre ("Object" :: "Void" :: prims) "Method" ++
  family pre ("Object" :: "Void" :: prims) "MethodV" ++
  family pre ("Object" :: "Void" :: prims) "MethodA".

Section stages.
Context {VM : Type} `{JavaVM VM}.
Context (env scratch ndk_slots : Z) (cs : classes) (is_ : ids) (os : objects).

#[local] Abbreviation full := (full (VM := VM)).

Lemma full_version : full 8 0
  ["GetVersion"; "GetSuperclass"; "IsSameObject"; "IsAssignableFrom"; "DefineClass";
   "ExceptionCheck"] (test_version env).
Proof. unfold test_version. full_tac. Qed.

Lemma full_ids : full 5 0
  ["GetMethodID"; "GetStaticMethodID"; "GetFieldID"; "GetStaticFieldID"] (get_ids env).
Proof. unfold get_ids. full_tac. Qed.

Lemma full_objects : full 9 0
  ["NewObject"; "NewObjectV"; "NewObjectA"; "AllocObject"; "GetObjectClass"; "IsInstanceOf"]
  (test_objects env).
Proof. unfold test_objects. full_tac. Qed.

Lemma full_references : full 19 0
  ["NewGlobalRef"; "DeleteGlobalRef"; "GetObjectRefType"; "NewLocalRef"; "DeleteLocalRef";
   "NewWeakGlobalRef"; "DeleteWeakGlobalRef"; "EnsureLocalCapacity"; "PushLocalFrame";
   "PopLocalFrame"; "MonitorEnter"; "MonitorExit"] (test_references env).
Proof. unfold test_references. full_tac. Qed.

Lemma full_calls : full 32 0 (call_family "Call") (test_calls env).
Proof. unfold test_calls. full_tac. Qed.

Lemma full_nonvirtual : full 30 0 (call_family "CallNonvirtual") (test_nonvirtual env).
Proof. unfold test_nonvirtual. full_tac. Qed.

Lemma full_static : full 32 0 (call_family "CallStatic") (test_static env).
Proof. unfold test_static. full_tac. Qed.

Lemma full_fields : full 38 0
  (family "Get" ("Object" :: prims) "Field" ++ family "Set" ("Object" :: prims) "Field" ++
   family "GetStatic" ("Object" :: prims) "Field" ++ family "SetStatic" ("Object" :: prims) "Field")
  (test_fields env).
Proof. unfold test_fields. full_tac. Qed.

Lemma full_strings : full 10 0
  ["NewStringUTF"; "GetStringUTFLength"; "GetStringUTFChars"; "ReleaseStringUTFChars";
   "GetStringLength"; "GetStringChars"; "ReleaseStringChars"; "NewString"; "GetStringRegion";
   "GetStringUTFRegion"; "GetStringCritical"; "ReleaseStringCritical"] (test_strings env).
Proof. unfold test_strings. full_tac. Qed.

Lemma full_arrays : full 48 0
  (family "New" ("Object" :: prims) "Array" ++ family "Set" prims "ArrayRegion" ++
   family "Get" prims "ArrayRegion" ++ family "Get" prims "ArrayElements" ++
   family "Release" prims "ArrayElements" ++
   ["GetPrimitiveArrayCritical"; "ReleasePrimitiveArrayCritical"; "GetArrayLength";
    "SetObjectArrayElement"; "GetObjectArrayElement"]) (test_arrays env).
Proof. unfold test_arrays. full_tac. Qed.

Lemma full_buffers : full 3 0
  ["NewDirectByteBuffer"; "GetDirectBufferAddress"; "GetDirectBufferCapacity"]
  (test_buffers env scratch).
Proof. unfold test_buffers. full_tac. Qed.

Lemma full_reflection : full 7 0
  ["ToReflectedMethod"; "FromReflectedMethod"; "ToReflectedField"; "FromReflectedField"]
  (test_reflection env).
Proof. unfold test_reflection. full_tac. Qed.

Lemma full_exceptions : full 10 0
  ["ExceptionOccurred"; "ExceptionCheck"; "ThrowNew"; "ExceptionDescribe"; "ExceptionClear";
   "Throw"; "FindClass"] (test_exceptions env).
Proof. unfold test_exceptions. full_tac. Qed.

Lemma full_interface : full 2 0 [] (test_interface env).
Proof. unfold test_interface. full_tac. Qed.

Lemma full_natives : full 4 0 ["RegisterNatives"; "UnregisterNatives"] (test_natives env).
Proof. unfold test_natives. full_tac. Qed.

Lemma full_module : full 1 1 [] (test_module env ndk_slots).
Proof. unfold test_module. full_tac. Qed.

Lemma full_vm : full 4 0 ["GetJavaVM"] (test_vm env).
Proof. unfold test_vm, attached_thread, attached_daemon_thread. full_tac. Qed.
End stages.

(** ** What is called *)

(** The functions the run is meant to reach: the table less the reserved
    entries and the one that ends the process. *)
Definition reachable (f : string) : bool :=
  existsb (String.eqb f) jniNames && negb (HasPrefix f "reserved") && negb (String.eqb f "FatalError").

Lemma only_strcmp P p i lit : only P (strcmp_from p i lit).
Proof.
  revert i. induction lit as [|a lit IH]; intros i; cbn [strcmp_from];
    apply only_bind; try (by apply only_trigger); intros c; [exact I|].
  apply only_if; [apply IH|exact I].
Qed.

Lemma only_CHECK P d b : only P (CHECK d b).
Proof. destruct b; cbn [CHECK]; (apply only_bind; [|intros _]); by apply only_trigger. Qed.

Ltac head_of m :=
  lazymatch m with
  | ?f _ => head_of f
  | _ => m
  end.

Ltac only_step :=
  cbv zeta;
  lazymatch goal with
  | |- only _ (jbind _ _) => apply only_bind; [|intros ?]
  | |- only _ (mret _) => exact I
  | |- only _ (CHECK _ _) => apply only_CHECK
  | |- only _ (strcmp0 _ _) => apply only_strcmp
  | |- only _ (trigger _) => apply only_trigger; vm_compute; reflexivity
  | |- only _ (if _ then _ else _) => apply only_if
  | |- only _ (Jvm.call _ _ _) => unfold Jvm.call
  | |- only _ (Jvm.call_ _ _ _) => unfold Jvm.call_
  | |- only _ (Jvm.callOut _ _ _ _) => unfold Jvm.callOut
  | |- only _ (vmcall _ _) => unfold vmcall
  | |- only _ (when _ _) => unfold when
  | |- only _ (OUT _) => unfold OUT
  | |- only _ (SECTION _) => unfold SECTION
  | |- only _ (SKIP _) => unfold SKIP
  | |- only _ (clear_exc _) => unfold clear_exc
  | |- only _ (req_class _ _) => unfold req_class
  | |- only _ (TEST_ARRAY _ _ _) => unfold TEST_ARRAY
  | |- only _ (TEST_ARRAY_CRITICAL _ _) => unfold TEST_ARRAY_CRITICAL
  | |- only _ (DEF_CALLV _ _ _ _ _) => unfold DEF_CALLV
  | |- only _ (DEF_NCV _ _ _ _ _ _) => unfold DEF_NCV
  | |- only _ (DEF_SCALLV _ _ _ _ _) => unfold DEF_SCALLV
  | |- only _ (wrap_NewObjectV _ _ _ _) => unfold wrap_NewObjectV
  | |- only _ (wrap_NewObjectA _ _ _ _) => unfold wrap_NewObjectA
  | |- only _ ?m => let h := head_of m in unfold h
  end.

Lemma only_run_all env scratch ndk_slots : only reachable (run_all_tests env scratch ndk_slots).
Proof. repeat only_step. Qed.

(** ** The array natives *)

(** Uses a rule about the next table call and names its result. *)
Ltac vm_rule rule r v A :=
  let A' := fresh in
  pose proof rule as A'; cbn [String.append] in A';
  match type of A' with context [jni ?f ?args ?v0] => destruct (jni f args v0) as [r v] end;
  rename A' into A; run_step.

Section array_natives.
Context {VM : Type} `{JavaVM VM}.

(** Pokes through one buffer leave everything but it and its object alone. *)
Definition frame {T w} `{!Arrays VM T w} (ob o : Z) (v v' : VM) : Prop :=
  (forall q, q <> ob -> nbuf v' q = nbuf v q) /\ oid v' = oid v /\
  (forall a, oid v a <> o -> arr v' a = arr v a) /\
  (forall a, is_Some (arr v a) -> is_Some (arr v' a)).

Lemma flip_loop_spec `{!Arrays VM "Int" 4} o o' l k ob buf (s : St VM) m i :
  ob <> buf -> nbuf (vm s) buf = Some (o, l) -> nbuf (vm s) ob = Some (o', m) ->
  length m = length l -> (i + k = length l)%nat -> take i m = take i (reverse l) ->
  let s' := snd (run (flip_loop k (Z.of_nat i) (Z.of_nat (length l)) ob buf) s) in
  nbuf (vm s') ob = Some (o', reverse l) /\ frame ob o' (vm s) (vm s').
Proof.
  intros Hne Hb. revert s m i Hb. induction k as [|k IH]; intros s m i Hb Ho Hm Hi Ht; cbn zeta.
  - split; [|by repeat split]. cbn. rewrite Ho. f_equal. f_equal.
    rewrite <- (firstn_all m), <- (firstn_all (reverse l)), length_reverse, Hm.
    by replace (length l) with i by lia.
  - cbn [flip_loop]. run_step.
    rewrite (arr_peek _ _ _ _ (Z.of_nat (length l) - 1 - Z.of_nat i) Hb) by lia.
    set (x := nthZ l _).
    destruct (arr_poke _ _ _ _ (Z.of_nat i) x Ho) as (Hp&Hq&Hoid&Ha&Hs); [lia|].
    rewrite Nat2Z.id in Hp.
    replace (Z.of_nat i + 1) with (Z.of_nat (S i)) by lia.
    edestruct (IH (set_vm s [] (poke 4 ob (Z.of_nat i) x (vm s))) (<[i:=x]> m) (S i))
      as [R (Fq&Fo&Fa&Fs)]; cbn [vm set_vm]; try done.
    + by rewrite Hq by congruence.
    + by rewrite length_insert.
    + lia.
    + assert (Hx : reverse l !! i = Some x).
      { subst x. replace (Z.of_nat (length l) - 1 - Z.of_nat i) with (Z.of_nat (length l - S i)) by lia.
        rewrite nthZ_nat. rewrite reverse_lookup by lia.
        rewrite nth_lookup. destruct (l !! _) eqn:E; [done|].
        apply lookup_ge_None in E. lia. }
      erewrite (take_S_r _ _ x), (take_S_r (reverse l) _ x); [|exact Hx|by apply list_lookup_insert_eq; lia].
      by rewrite take_insert_ge, Ht by lia.
    + split; [exact R|]. cbn [vm set_vm] in *. repeat split.
      * intros q Hn. by rewrite Fq, Hq.
      * by rewrite Fo.
      * intros a Hn. rewrite Fa, Ha; [done..|]. by rewrite Hoid.
      * auto.
Qed.

(** [staticFlip] returns a new array with the elements of its argument in
    reverse order and leaves the argument as it was, on every VM that keeps
    the rules of the array functions. *)
Theorem staticFlip_reverses `{!Arrays VM "Int" 4} env a l (s : St VM) :
  a <> 0 -> arr (vm s) a = Some l ->
  let '(r, s') := run (staticFlip env a) s in
  arr (vm s') r = Some (reverse l) /\ arr (vm s') a = Some l /\
  oid (vm s') r <> oid (vm s') a.
Proof.
  intros Ha Hl. unfold staticFlip. destruct (Z.eqb_spec a 0) as [?|_]; [done|]. run_step.
  vm_rule (arr_length env (vm s) a l Hl) n v1 A1. destruct A1 as (->&E1&O1&B1).
  vm_rule (arr_elements env v1 a l ltac:(by rewrite E1)) p v2 A2. destruct A2 as (_&B2&_&E2&O2).
  vm_rule (arr_new env v2 (Z.of_nat (length l)) ltac:(lia)) r v3 A3. destruct A3 as (E3&B3&I3).
  rewrite Nat2Z.id in E3. destruct (I3 a l ltac:(by rewrite E2, E1)) as (L3&O3&D3).
  vm_rule (arr_elements env v3 r _ E3) q v4 A4. destruct A4 as (F4&B4&Q4&E4&O4).
  assert (Hpq : q <> p) by (intros ->; rewrite B3, B2 in F4; discriminate).
  rewrite Nat2Z.id.
  match goal with |- context [run (flip_loop _ _ _ _ _) ?s4] =>
    destruct (flip_loop_spec (oid v1 a) (oid v3 r) l (length l) q p s4 (repeat 0 (length l)) 0)
      as [R (Fq&Fo&Fa&Fs)]
  end; cbn [vm set_vm]; [done|by rewrite Q4, B3 by done|done|by rewrite repeat_length|lia|done|].
  change (Z.of_nat 0) with 0 in *. cbn [vm set_vm] in *.
  set (s5 := snd (run _ _)) in *. run_step.
  pose proof (arr_release env (vm s5) r q (reverse l)) as A6. cbn [String.append] in A6.
  rewrite Fo, O4 in A6. specialize (A6 ltac:(apply Fs; rewrite E4; eauto) R).
  destruct (jni "ReleaseIntArrayElements" _ (vm s5)) as [? v6]. destruct A6 as (E6&I6&O6&Q6). run_step.
  assert (La : arr v6 a = Some l).
  { rewrite I6, Fa by (rewrite ?Fo, ?O4; congruence). by rewrite E4. }
  pose proof (arr_abort env v6 a p l) as A7. cbn [String.append] in A7.
  rewrite La, Q6, Fq, Q4, B3, B2, O6 in A7 by done.
  rewrite O3, O2 in A7. specialize (A7 ltac:(eauto) eq_refl).
  destruct (jni "ReleaseIntArrayElements" _ v6) as [? v7]. destruct A7 as (E7&O7&_).
  cbn. rewrite E7, O7. repeat split; [done|done|congruence].
Qed.
End array_natives.

(** ** The table run as a whole *)

Section run_all_counts.
Context {VM : Type} `{JavaVM VM}.

#[local] Abbreviation full := (full (VM := VM)).

Lemma full_req_class env name : full 0 0 ["FindClass"] (req_class env name).
Proof. unfold req_class. full_tac. Qed.

Definition reached : list string := List.filter reachable jniNames.

Lemma full_run_all env scratch ndk_slots :
  full 262 1 reached (run_all_tests env scratch ndk_slots).
Proof.
  unfold run_all_tests. eapply full_conv.
  - do 8 (eapply full_bind; [apply full_req_class|intros ?]).
    match goal with |- context [if ?b then _ else _] => destruct b end;
      [apply full_fail_bind|]; cbv zeta.
    eapply full_bind; [apply full_version|intros _].
    eapply full_bind; [apply full_ids|intros ?].
    eapply full_bind; [apply full_objects|intros ?].
    eapply full_bind; [apply full_references|intros _].
    eapply full_bind; [apply full_calls|intros _].
    eapply full_bind; [apply full_nonvirtual|intros _].
    eapply full_bind; [apply full_static|intros _].
    eapply full_bind; [apply full_fields|intros _].
    eapply full_bind; [apply full_strings|intros _].
    eapply full_bind; [apply full_arrays|intros _].
    eapply full_bind; [apply full_buffers|intros _].
    eapply full_bind; [apply full_reflection|intros _].
    eapply full_bind; [apply full_exceptions|intros _].
    eapply full_bind; [apply full_interface|intros _].
    eapply full_bind; [apply full_natives|intros _].
    eapply full_bind; [apply full_module|intros _].
    apply full_vm.
  - reflexivity.
  - reflexivity.
  - vm_compute. reflexivity.
Qed.

Lemma reached_spec f : f ∈ reached <-> reachable f = true.
Proof.
  unfold reached. rewrite list_elem_of_In, filter_In. split; [tauto|]. intros Hf. split; [|done].
  unfold reachable in Hf. bool_prop. apply existsb_exists in H0 as (g&Hg&->%String.eqb_eq). done.
Qed.

(** C40. When the native table run reports no failure it has counted exactly
    262 passes and one skip, and the set of [JNIEnv] functions it called is
    the whole function table but the reserved entries and [FatalError],
    whatever the VM did. *)
Theorem runAll_zero env scratch ndk_slots (s s' : St VM) :
  runAll env scratch ndk_slots s = (0, s') ->
  getPassCount s' = 262 /\ getFailCount s' = 0 /\ getSkipCount s' = 1 /\
  exists l, called s' = called s ++ l /\
    forall f, f ∈ l <-> f ∈ jniNames /\ HasPrefix f "reserved" = false /\ f <> "FatalError".
Proof.
  unfold runAll. pose proof (full_run_all env scratch ndk_slots) as HF.
  pose proof (only_run_all env scratch ndk_slots) as HO.
  generalize dependent (run_all_tests env scratch ndk_slots). intros m HF HO [= E1 <-].
  destruct (HF (reset s) E1) as (P&K&l&C&I).
  destruct (run_only reachable m (reset s) HO) as (l'&C'&P').
  rewrite C in C'. apply app_inv_head in C' as <-.
  unfold getPassCount, getFailCount, getSkipCount. split; [exact P|split; [done|split; [exact K|]]].
  exists l. split; [exact C|]. intros f.
  trans (reachable f = true).
  - split; [|by intros Hf; apply I, reached_spec]. intros Hf.
    rewrite forallb_forall in P'. by apply P', list_elem_of_In.
  - unfold reachable. rewrite !andb_true_iff, !negb_true_iff, String.eqb_neq, list_elem_of_In.
    rewrite existsb_exists. split; [|intros (Hf&?&?); split; [split|]; eauto using String.eqb_refl].
    intros [[(g&Hg&->%String.eqb_eq) ?] ?]. tauto.
Qed.

End run_all_counts.

(** ** The other natives *)

Section other_natives.
Context {VM : Type} `{JavaVM VM}.

Definition sum (l : list Z) : Z := foldr Z.add 0 l.

Lemma sum_take_S l i x : l !! i = Some x -> sum (take (S i) l) = sum (take i l) + x.
Proof.
  intros Hx. rewrite (take_S_r _ _ _ Hx). unfold sum. rewrite foldr_app. cbn.
  generalize (take i l). intros m. induction m; cbn in *; lia.
Qed.

Lemma sum_loop_spec `{!Arrays VM "Long" 8} o l k buf (s : St VM) i :
  nbuf (vm s) buf = Some (o, l) -> (i + k = length l)%nat ->
  (forall j, - 2 ^ 63 <= sum (take j l) < 2 ^ 63) ->
  run (sum_loop k (Z.of_nat i) buf (sum (take i l))) s = (Some (sum l), s).
Proof.
  intros Hb Hi Hs. revert i Hi. induction k as [|k IH]; intros i Hi; cbn [sum_loop].
  - rewrite take_ge by lia. reflexivity.
  - run_step. rewrite (arr_peek _ _ _ _ (Z.of_nat i) Hb), nthZ_nat by lia.
    destruct (lookup_lt_is_Some_2 l i ltac:(lia)) as [x Hx]. rewrite (nth_lookup_Z _ _ _ Hx).
    pose proof (Hs (S i)) as Hr. rewrite (sum_take_S _ _ _ Hx) in Hr. unfold add_int.
    change (64 - 1) with 63. destruct (Z.leb_spec (- 2 ^ 63) (sum (take i l) + x)); [|lia].
    destruct (Z.ltb_spec (sum (take i l) + x) (2 ^ 63)); [|lia]. cbn [andb].
    rewrite <- (sum_take_S _ _ _ Hx). replace (Z.of_nat i + 1) with (Z.of_nat (S i)) by lia.
    apply IH. lia.
Qed.

(** When no partial sum overflows, [staticSum] is the sum of the array. *)
Theorem staticSum_sums `{!Arrays VM "Long" 8} env a l (s : St VM) :
  a <> 0 -> arr (vm s) a = Some l -> (forall j, - 2 ^ 63 <= sum (take j l) < 2 ^ 63) ->
  let '(r, s') := run (staticSum env a) s in r = Some (sum l) /\ arr (vm s') a = Some l.
Proof.
  intros Ha Hl Hs. unfold staticSum. destruct (Z.eqb_spec a 0) as [?|_]; [done|]. run_step.
  vm_rule (arr_length env (vm s) a l Hl) n v1 A1. destruct A1 as (->&E1&O1&B1).
  vm_rule (arr_elements env v1 a l ltac:(by rewrite E1)) p v2 A2. destruct A2 as (_&B2&_&E2&O2).
  rewrite Nat2Z.id. match goal with |- context [run (sum_loop _ _ _ _) ?s2] =>
    pose proof (sum_loop_spec (oid v1 a) l (length l) p s2 0 B2 eq_refl Hs) as R end.
  change (Z.of_nat 0) with 0 in R. change (sum (take 0 l)) with 0 in R. rewrite R.
  cbn [fst snd]. run_step. unfold JNI_ABORT. rewrite <- O2 in B2.
  vm_rule (arr_abort env v2 a p l ltac:(rewrite E2, E1; eauto) B2) r v3 A3.
  destruct A3 as (E3&_&_). cbn. split; [done|]. by rewrite E3, E2, E1.
Qed.

(** What loading the library leaves registered: without its [JNIEnv] or its
    class nothing, else the two dynamic natives, and no pending exception is
    left behind in either case. *)
Theorem JNI_OnLoad_cases (p : Z) (s : St VM) :
  let '((rc, env), v) := invoke "GetEnv" [p; JNI_VERSION_1_6]%jargs (vm s) in
  let '(c, v1) := jni "FindClass" [AZ env; AS "com/test/jnifull/NativeTest"] v in
  let '(r, s') := JNI_OnLoad p s in
  g_vm s' = p /\
  (rc <> JNI_OK -> r = JNI_ERR /\ called s' = called s) /\
  (rc = JNI_OK -> r = JNI_VERSION_1_6 /\
    called s' = called s ++ ["FindClass"] ++
      (if c =? 0 then [] else ["RegisterNatives"]) ++ ["ExceptionClear"] /\
    (c <> 0 -> vm s' = snd (jni "ExceptionClear" [AZ env]
       (snd (jni "RegisterNatives" [AZ env; AZ c; AMeth methods; AZ 2] v1))))).
Proof.
  unfold JNI_OnLoad, OnLoad. rewrite run_bind. unfold vmcall, trigger. cbn.
  destruct (invoke _ _ _) as [[rc env] v]. cbn. destruct (Z.eqb_spec rc JNI_OK) as [->|Hrc]; cbn.
  - run_step. destruct (jni "FindClass" _ v) as [c v1]. cbn.
    destruct (Z.eqb_spec c 0); cbn.
    + destruct (jni "ExceptionClear" _ v1); cbn. rewrite app_nil_r, <- app_assoc. by repeat split.
    + destruct (jni "RegisterNatives" _ v1) as [r v2]; cbn.
      destruct (jni "ExceptionClear" _ v2); cbn. rewrite app_nil_r, <- !app_assoc. by repeat split.
  - destruct (jni "FindClass" _ v) as [c v1]. cbn. rewrite app_nil_r. repeat split; done.
Qed.

End other_natives.

(** A run of the library on the fixture VM. *)
Definition registered (sym : string) (xs : list Z) : option Z :=
  if String.eqb sym "temp_native_impl" then temp_native_impl (nthZ xs 0)
  else if String.eqb sym "dyn_add" then dyn_add (nthZ xs 0) (nthZ xs 1)
  else None.

#[local] Instance test_vm_instance : JavaVM fvm := fixture registered.

Definition st0 : St fvm := mkSt 0 0 0 7 [] [] fvm0.

Lemma runAll_zero_witness :
  let s' := snd (runAll 5 4096 233 st0) in getPassCount s' = 262 /\ getSkipCount s' = 1.
Proof.
  assert (E : runAll 5 4096 233 st0 = (0, snd (runAll 5 4096 233 st0))).
  { rewrite (surjective_pairing (runAll 5 4096 233 st0)) at 1.
    apply (f_equal2 pair); [vm_compute; reflexivity|reflexivity]. }
  destruct (runAll_zero 5 4096 233 st0 _ E) as (P&_&K&_). exact (conj P K).
Defined.

(** An array of the fixture VM. *)
Definition st_array (l : list Z) : St fvm :=
  set_vm st0 [] (Fvm {[1 := (1, 200)]} {[200 := OArr l]} ∅ 0 ∅ []).

Lemma staticFlip_reverses_witness :
  arr (vm (st_array [1; 2; 3; 4])) 1 = Some [1; 2; 3; 4] /\
  let '(r, s') := run (staticFlip 5 1) (st_array [1; 2; 3; 4]) in
  arr (vm s') r = Some [4; 3; 2; 1].
Proof.
  split; [reflexivity|].
  pose proof (staticFlip_reverses 5 1 [1; 2; 3; 4] (st_array [1; 2; 3; 4]) ltac:(lia) eq_refl) as Hf.
  destruct (run _ _) as [r s']. exact (proj1 Hf).
Defined.
